(* ===== verification/_CoqProject ===== *)
-Q . S2P
Prelude.v
GoStd.v
Float64.v
GoRegexp.v
ExtPool.v
Envoy.v
ExtCluster.v
ExtTranslate.v
EgListener.v
ExtTranslateProofs.v
K8s.v
LwsRevision.v
LwsReconcile.v
EppMetrics.v
KvCache.v
KvPool.v
KvPoolLife.v
KvEvents.v
Strcase.v
Resource.v
Collection.v
Gvr.v
Kind.v
Gvk.v
Collections.v
Ast.v
Codegen.v
Registry.v
CollectionsAgent.v
CodegenRun.v
EppSched.v
Json.v
ExtProcStream.v
EppServer.v
EppRunner.v
ExtProcSamples.v
GoRouter.v
LlmRouter.v
LlmServer.v
LlmScheduler.v
CoreServer.v
Commands.v
XdsStream.v
XdsServer.v
XdsPush.v
Agent.v
Pilot.v
CrdClient.v
KubeClient.v
CrdRegistry.v
CrdTyping.v
KubeRest.v
EppDatastore.v
EppDatastoreSpec.v
LlmPods.v
WorkloadGroups.v
JobSet.v
Watches.v
EgMessage.v
EgProvider.v
EgProviderSpec.v
EgCache.v
XdsExample.v
EgTranslate.v
EgDeepCopy.v
EgExtProc.v
EgInfra.v
EgManager.v
EgPolicies.v
EgPipeline.v
