(* ===== verification/Prelude.v ===== *)
(** * ai-proxy-gateway: a verification development

    The repository is a Go control plane around Envoy for LLM inference: an
    extension server that rewrites Envoy Gateway's xDS for InferencePools, an
    endpoint picker (EPP) that scores model-server pods, an LLM router, a
    Kubernetes controller for LeaderWorkerSets, and an Istio-style configuration
    registry.  This library translates the parts with logic of their own into
    Gallina, one file per Go package or component, and proves what makes each
    correct.  Paths below are relative to src/.

    ** Conventions

    A Go function returns a value, returns a non-nil error, or panics: that is
    [outcome] in this file ([Ret], [Err], [Panic]), with [let*] for sequencing
    and [deref] for a pointer that may be nil.  A handler that changes state
    takes the state and returns the new one.  Integers are [Z] with the bounds
    and the wrap-around of their Go width written out (GoStd); float64 is the
    executable IEEE specification (Float64); strings are byte strings.  Go's
    unordered map iteration is the class [MapIter] below: theorems hold for
    every order.  A loop over data is structural recursion; where it is not, the
    fuel is stated with the definition and a lemma or the theorem shows that it
    is enough.

    ** Files

    - Prelude, GoStd, Float64, GoRegexp, Json: the language and its standard
      library: outcomes, switches, strings, UTF-8, strconv, hash/fnv,
      encoding/binary, float64, regular expressions with a matcher by
      derivatives, JSON values.
    - ExtPool, Envoy, ExtCluster, ExtTranslate, ExtTranslateProofs:
      pkg/extensionserver.  ExtPool is the InferencePool metadata codec and the
      names (inferencepool.go); Envoy the xDS messages; ExtCluster the cluster
      and route hooks (post_cluster_modify.go, post_route_modify.go);
      ExtTranslate the translation hook (post_translate_modify.go).  Proved:
      the metadata round trip and the injectivity of names; every branch of the
      hooks; that every reachable pool gets its ext_proc filter exactly once,
      before the router filter, that nothing else of the snapshot changes, that
      the other virtual hosts disable it, that the picker clusters exist, and
      that the hook never panics.
    - K8s, LwsRevision, LwsReconcile: pkg/controllers/workloads/lws.  K8s is a
      state and error monad over an API server (class [LwsApi], with an
      in-memory [server]); LwsRevision the controller revisions (revision.go);
      LwsReconcile the two reconcilers.  Proved: revisions are numbered past
      all others and reused when equal, a revision patch covers exactly its
      scope, worker StatefulSets are created only when absent and well formed.
    - JobSet, WorkloadGroups, Watches: the other controllers of
      pkg/controllers/workloads.  JobSet: the child jobs are deleted, listed and
      created as a specification by status, restart count and name says, in any
      order of the parallel deletions.  WorkloadGroups: the StatefulSet of a
      role of a RoleBasedGroup, and the StormService reconcilers (the service of a
      role does not parse and is not modelled).  Watches: what every controller
      watches, owns and filters, and so which reconciler an object that another
      one writes wakes.
    - EppMetrics, EppDatastore, EppDatastoreSpec, EppSched: the endpoint picker's
      data: pkg/epp/datalayer (metric specifications, scraping of Prometheus
      families, the life cycle of an endpoint as a step relation with its
      invariant); pkg/epp/datastore with the controllers of
      pkg/controllers/networking/inferencepool, refined to a map of pods
      ([implements]); pkg/epp/scheduling (scorers in float64, the filter chain of
      a profile, the block hashes of the prefix cache).
    - ExtProcStream, EppServer, EppRunner, ExtProcSamples: the endpoint picker's
      server and the sample servers of test/envoy-ext-proc.  ExtProcStream is
      Envoy's ext_proc stream as interaction-tree events with a handler that
      runs a script; EppServer is pkg/epp/server: its loop serves a
      script as a reference run does, however the body is cut into chunks;
      EppRunner the command that puts the picker together; ExtProcSamples one
      loop, and its run, for the three sample servers.
    - KvCache, KvPool, KvPoolLife, KvEvents: the KV-cache block keys
      (token_processor.go), the registry of KV-event subscribers (manager.go), the
      workers of the event pool (pool.go) as a step relation over their work
      queue, the life of the pool with its wait group and Shutdown, which waits
      for exactly the running workers and returns, the socket loop of
      a subscriber (zmq_subscriber.go): what it delivers of any sequence of
      messages, up to the one that ends the process; and the events' effect on
      the block index.
    - Strcase, Resource, Collection, Gvr, Kind, Gvk, Collections, Ast, Codegen,
      Registry, CollectionsAgent, CodegenRun: pkg/util/strcase, pkg/config and
      pkg/config/schema: names, schemas and their validation, the insertion-ordered collections, the
      committed registry tables, metadata.yaml and the generator of the tables.
      Proved: the name round trips, exactly when a schema is accepted, the
      builder's invariant, and that the committed tables are those the
      generator derives from metadata.yaml, initialise without a panic and
      invert each other; and which files a run of the generator writes.
    - XdsStream, XdsServer, XdsPush: pkg/xds: the event loop of an ADS connection
      with its receiving goroutine as a step relation, with its invariant over
      every interleaving; admission of streams and the lookup of generators; and
      a push, which serves the watched types in order up to the first failure
      or panic.
    - Pilot, CoreServer, Agent, Commands: the processes.  Pilot is pkg/bootstrap with the
      discovery command and the CRD client it builds; CoreServer pkg/core, which
      serves only after its configuration has synced; Agent pkg/agent with its
      command, mesh configuration and the goroutines that supervise Envoy, as a
      step relation in which an exit is reported within four steps of the code;
      Commands the smaller mains of src/cmd, with the addresses
      they listen on and the flags of the core server.
    - LlmRouter, LlmServer, LlmScheduler, LlmPods: pkg/llmrouter: relaying a
      (streamed) model response, the prefill/decode connectors and their registry,
      the ranking of pods; the request handler, the metrics providers and the
      store; the registry of the scheduler's plugins and the sums of their scores;
      the pod controller, which over the picker's datastore is the picker's.
    - GoRouter: pkg/router and pkg/cache: the second ext_proc server and the
      models of its pods.
    - CrdClient, KubeClient, CrdRegistry, CrdTyping: pkg/config/kube/crdclient,
      pkg/config/schema/kubeclient, kubetypes and pkg/typemap: the generated CRD
      client and the tables by Go type, as written in the repository.  Proved:
      that they are what their templates print for the registry, that a
      translated object has the types the clients assert, and that the tables
      describe one registry.
    - KubeRest: pkg/kube: REST configurations on a heap, their defaults, and the
      construction of the clients.
    - EgMessage, EgProvider, EgProviderSpec, EgManager, EgTranslate, EgPolicies,
      EgDeepCopy, EgCache, EgExtProc, EgListener, EgInfra, EgPipeline, XdsExample: the Envoy gateway
      (pkg/envoygateway): the message bus, the provider's global view of the
      Gateway API resources and its manager, the IRs of the gateways, the
      extension policies, the deep copies on a heap, the snapshots of the xDS
      server, the ext_proc filters, the listeners (and what the extension server
      makes of them), the deployment of the proxies, and the example xDS server
      second by second.  Proved: what the view
      contains, what errors do to it, the entries of every gateway from the
      cluster to the published IRs and on to the snapshots (EgPipeline), the bounds
      of the snapshot versions, that the snapshots follow the IR where the
      translation and the snapshot succeed, and how the provider ends.

    ** How the parts meet

    The theorems cross the files where the program's parts call each other:
    the provider's view feeds the translator (EgTranslate), whose IRs feed the
    snapshots (EgCache) and the deployments (EgInfra), all four in one theorem of
    EgPipeline; the StatefulSets of the LeaderWorkerSet reconcilers wake the one
    that wrote them (Watches, over LwsReconcile); the listeners of the
    translator are run through the hook of the extension server (EgListener); the
    options of the picker's server become its metric mapping (EppRunner); the
    discovery process admits streams with the server of XdsServer (Pilot), the
    core command starts the server of CoreServer (Commands), and the generator
    runs on the committed metadata (CodegenRun); the subscribers of the KV cache feed the pool and the block keys (KvEvents).

    ** Parameters

    Code that is not under src/ is a parameter: the protobuf encoding
    ([ProtoCodec], [UnstructuredCodec]), the LeaderWorkerSet library and scheme
    ([LwsLib], [LwsScheme]), the Kubernetes API ([LwsApi], [JobApi], [InfraApi], [GatewayReads], [ControllerRuntime], [ManagerLib], [PickerHost],
    [Handlers]),
    discovery and retries of client-go ([Retry]), the generated clientsets and
    the fields of API objects ([Clientsets], [GoObjects], [ClientTypes],
    [RbgLib], [EnvoyProxyLib]), client-go's configuration and constructors
    ([KubeLibs]), label selectors ([LabelLib]), the CBOR encoder ([CborEncoder]),
    the float-to-int conversions Go leaves to the machine ([GoArch]), the proto
    registry and values ([ProtoTypes], [GoValues], [ProtoJson]), the YAML decoder
    ([YamlDecoder]), JSON ([JsonLib]), a case library ([StoewerStrcase]), the
    block hash ([BlockHasher]), the rate limiter ([RateLimiter]), work queues
    ([WorkQueue], [QueueShutdown]), the runner of components and the wait for
    caches ([Runtime]), the network, the HTTP framework and the client ([Network],
    [GinLib], [Responses], [RouterLib]), Istio's stores ([Istio]), the snapshot
    cache of go-control-plane ([SnapshotLib], [XdsTypes], [Delivery]), Go's
    templates and the disk ([TextTemplate], [Disk]), and the orders that are left open:
    sort.Slice ([SliceSort]), sync.Map.Range ([SyncRange]) and the parallel
    deletions of [JobApi].  Names that the sources use and declare nowhere are
    parameters too ([RenderDraft], [EventIndex], [MetricNames],
    [PodStore], [SchedulerDraft]).  What a theorem needs of a parameter is a class
    of laws, the documented behaviour ([RuntimeLaws], [WorkQueueLaws],
    [SnapshotLaws], [KubeLaws] and others).

    ** Fuel and scripts

    The only fuel is that of loops that consume their data by a variable amount
    (the chunks of [chunkTokens], the blocks of hashPrompt, the lines of a
    streamed response, the trim and digit loops of GoStd, the codecs of the
    examples); it is at least the length of the data plus one, or of the digits,
    and lemmas show that it is enough.  Servers that run for as long as their peer are interaction trees
    (ExtProcStream), step relations (XdsStream, KvPool, KvPoolLife, EppMetrics,
    Agent, EgManager) or functions of a script of what the peer answers (KvEvents,
    XdsPush): the theorems hold for every script and every interleaving.

    ** Not modelled

    Process start, the wiring of informers and managers, gRPC servers
    and library wrappers are I/O.  Parts of the repository are unfinished
    (undeclared names, wrong arities, empty bodies); what they declare completely
    is modelled, a missing function is a parameter, and the manifest names the
    rest.  The director of the picker and the loop of the xDS translator call
    undeclared names throughout. *)

(** * Prelude: the vocabulary shared by every component

    Go functions either return a value, return a non-nil [error], or panic.
    [outcome E A] is that three-way result, with a monad and its notation; the
    [E] of a component lists the errors it returns.  The file also holds the
    tactics that step through monadic code, generic lemmas on lists and maps,
    and the model of Go's unordered map iteration ([MapIter]). *)

From stdpp Require Export base tactics numbers option list gmap strings sorting.
From Stdlib Require Export ZArith Lia Ascii.

(** ** Panics and outcomes *)

(** The panics the modelled code can raise: those of the Go run time, a
    [log.Fatal], and a call of [panic]. *)
Inductive panic :=
| NilDereference
| IndexOutOfRange
| NilMapWrite
| TypeAssertion
| FatalExit
| ExplicitPanic
| DivideByZero.

#[export] Instance panic_eq_dec : EqDecision panic.
Proof. solve_decision. Defined.

Inductive outcome (E A : Type) :=
| Ret (a : A)
| Err (e : E)
| Panic (p : panic).
Arguments Ret {E A} a.
Arguments Err {E A} e.
Arguments Panic {E A} p.

#[export] Instance outcome_eq_dec {E A} `{EqDecision E, EqDecision A} :
  EqDecision (outcome E A).
Proof. solve_decision. Defined.

Definition obind {E A B} (m : outcome E A) (k : A -> outcome E B) : outcome E B :=
  match m with
  | Ret a => k a
  | Err e => Err e
  | Panic p => Panic p
  end.

(** Dereferencing a Go pointer that may be nil. *)
Definition deref {E A} (p : option A) : outcome E A :=
  match p with
  | Some a => Ret a
  | None => Panic NilDereference
  end.

Definition is_ret {E A} (m : outcome E A) : bool :=
  match m with Ret _ => true | _ => false end.

Declare Scope go_scope.
Delimit Scope go_scope with go.

Notation "'let*' x ':=' m 'in' k" := (obind m (fun x => k))
  (at level 10, x name, m at level 100, k at level 200) : go_scope.
Notation "'let*' ' p ':=' m 'in' k" := (obind m (fun p => k))
  (at level 10, p pattern, m at level 100, k at level 200) : go_scope.
#[global] Open Scope go_scope.

(** ** Unordered map iteration

    [for k, v := range m] visits the entries of a Go map once each, in an order
    that the language leaves open and that may change from one loop to the
    next.  [map_range tag m] is the order of the loop named by [tag]; every
    theorem quantifies over all of them. *)
Class MapIter := {
  map_range : forall {V : Type}, list string -> gmap string V -> list (string * V);
  map_range_perm : forall (V : Type) tag (m : gmap string V),
    map_range tag m ≡ₚ map_to_list m
}.

(** An order to compute with: the one of [map_to_list]. *)
#[export, refine] Instance map_iter_default : MapIter | 100 :=
  {| map_range V _ m := map_to_list m |}.
Proof. done. Defined.

(** ** Switches *)

(** A Go [switch] on a value: the first case equal to it, or the default. *)
Fixpoint switch {A B} `{EqDecision A} (x : A) (cases : list (A * B)) (default : B) : B :=
  match cases with
  | [] => default
  | (k, v) :: rest => if decide (x = k) then v else switch x rest default
  end.

(** ** Characters of strings *)

Fixpoint has_char (c : ascii) (s : string) : bool :=
  match s with
  | EmptyString => false
  | String a s' => bool_decide (a = c) || has_char c s'
  end.

Fixpoint str_take (n : nat) (s : string) : string :=
  match n, s with
  | S n', String a s' => String a (str_take n' s')
  | _, _ => EmptyString
  end.

Fixpoint str_drop (n : nat) (s : string) : string :=
  match n, s with
  | S n', String _ s' => str_drop n' s'
  | _, _ => s
  end.

(** ** Tactics *)

(** Steps through a hypothesis or a goal built from [obind]: every scrutinee of
    a [match] is destructed with its equation kept. *)
Ltac go_step :=
  match goal with
  | H : context [ obind ?m _ ] |- _ =>
      let E := fresh "E" in destruct m eqn:E; cbn [obind] in H
  | |- context [ obind ?m _ ] =>
      let E := fresh "E" in destruct m eqn:E; cbn [obind]
  end.

Ltac go_inv := repeat (go_step || case_match); simplify_eq/=.

(** Case analysis on the boolean tests of the model. *)
Ltac bool_hyps :=
  repeat match goal with
  | H : _ && _ = true |- _ => apply andb_prop in H as [? ?]
  | H : _ || _ = false |- _ => apply orb_false_iff in H as [? ?]
  | H : negb _ = true |- _ => apply negb_true_iff in H
  | H : negb _ = false |- _ => apply negb_false_iff in H
  | H : bool_decide _ = true |- _ => apply bool_decide_eq_true in H
  | H : bool_decide _ = false |- _ => apply bool_decide_eq_false in H
  end.

(** ** Lemmas on outcomes *)

Lemma obind_ret_inv {E A B} (m : outcome E A) (k : A -> outcome E B) b :
  obind m k = Ret b -> exists a, m = Ret a /\ k a = Ret b.
Proof. destruct m; naive_solver. Qed.

Lemma obind_assoc {E A B C} (m : outcome E A) (f : A -> outcome E B) (g : B -> outcome E C) :
  obind (obind m f) g = obind m (fun a => obind (f a) g).
Proof. by destruct m. Qed.

Lemma deref_ret_inv {E A} (p : option A) (a : A) :
  deref (E := E) p = Ret a <-> p = Some a.
Proof. destruct p; naive_solver. Qed.

(** ** Lemmas on characters *)

Lemma has_char_app c s t : has_char c (s +:+ t) = has_char c s || has_char c t.
Proof.
  induction s as [|a s IH]; [done|].
  change (String a s +:+ t) with (String a (s +:+ t)). simpl.
  by rewrite IH, orb_assoc.
Qed.

Lemma str_app_nil_l s : ("" +:+ s)%string = s.
Proof. done. Qed.

Lemma str_app_cons a s t : String a s +:+ t = String a (s +:+ t).
Proof. done. Qed.

Lemma str_app_nil_r s : s +:+ "" = s.
Proof. induction s as [|a s IH]; [done|]. by rewrite str_app_cons, IH. Qed.

Lemma str_app_assoc s t u : (s +:+ t) +:+ u = s +:+ (t +:+ u).
Proof.
  induction s as [|a s IH]; [done|]. by rewrite !str_app_cons, IH.
Qed.

Lemma str_length_app s t :
  String.length (s +:+ t) = String.length s + String.length t.
Proof. induction s as [|a s IH]; [done|]. rewrite str_app_cons. simpl. by rewrite IH. Qed.

Lemma str_take_app s t : str_take (String.length s) (s +:+ t) = s.
Proof. induction s as [|a s IH]; [by destruct t|]. rewrite str_app_cons. simpl. by rewrite IH. Qed.

Lemma str_drop_app s t : str_drop (String.length s) (s +:+ t) = t.
Proof. induction s as [|a s IH]; [done|]. rewrite str_app_cons. simpl. by rewrite IH. Qed.

(** A separator that does not occur in two heads makes the split unique. *)
Lemma str_sep_inj c s1 s2 t1 t2 :
  has_char c s1 = false -> has_char c s2 = false ->
  s1 +:+ String c t1 = s2 +:+ String c t2 -> s1 = s2 /\ t1 = t2.
Proof.
  revert s2. induction s1 as [|a s1 IH]; intros [|b s2] H1 H2 Heq;
    rewrite ?str_app_cons, ?str_app_nil_l in Heq; simpl in *; bool_hyps; simplify_eq; [done|].
  destruct (IH s2) as [-> ->]; auto.
Qed.

(** A string splits at the last occurrence of a character in one way. *)
Lemma str_last_sep_inj c s1 s2 t1 t2 :
  has_char c t1 = false -> has_char c t2 = false ->
  s1 +:+ String c t1 = s2 +:+ String c t2 -> s1 = s2 /\ t1 = t2.
Proof.
  intros H1 H2. revert s2. induction s1 as [|a s1 IH]; intros [|b s2] H; cbn in H.
  - by simplify_eq.
  - injection H as <- ->. rewrite has_char_app in H1. cbn in H1.
    by rewrite bool_decide_eq_true_2, orb_true_r in H1 by done.
  - injection H as -> <-. rewrite has_char_app in H2. cbn in H2.
    by rewrite bool_decide_eq_true_2, orb_true_r in H2 by done.
  - injection H as -> H. by destruct (IH s2 H) as [-> ->].
Qed.

Lemma str_app_inv_tail s1 s2 t : s1 +:+ t = s2 +:+ t -> s1 = s2.
Proof.
  revert s2. induction s1 as [|a s1 IH]; intros [|b s2] H; [done| | |].
  - apply (f_equal String.length) in H. rewrite !str_length_app in H. simpl in H. lia.
  - apply (f_equal String.length) in H. rewrite !str_length_app in H. simpl in H. lia.
  - rewrite !str_app_cons in H. simplify_eq. f_equal. by apply IH.
Qed.

(** ** Lemmas on lists *)

Lemma Forall2_insert_self {A} (R : relation A) `{!Reflexive R} l i x y :
  l !! i = Some x -> R x y -> Forall2 R l (<[i := y]> l).
Proof.
  revert i. induction l as [|z l IH]; intros [|i] H HR; simplify_eq/=; constructor; auto.
  all: reflexivity.
Qed.

Lemma Forall2_lookup_related {A B} (R : A -> B -> Prop) l k i x :
  Forall2 R l k -> l !! i = Some x -> exists y, k !! i = Some y /\ R x y.
Proof. intros H Hi. eapply Forall2_lookup_l in H as (y & ? & ?); eauto. Qed.

(** A fold whose step keeps [f] keeps [f]. *)
Lemma foldl_keeps {A B C} (f : A -> C) (g : A -> B -> A) l a :
  (forall a b, f (g a b) = f a) -> f (foldl g a l) = f a.
Proof. intros H. revert a. induction l as [|b l IH]; intros a; [done|]. cbn. by rewrite IH, H. Qed.

(** ** Lemmas on switches *)

Lemma switch_default {A B} `{EqDecision A} (x : A) (cases : list (A * B)) d :
  x ∉ cases.*1 -> switch x cases d = d.
Proof.
  induction cases as [|[k v] cases IH]; [done|]. intros Hx. cbn in *.
  apply not_elem_of_cons in Hx as [??]. rewrite decide_False by done. auto.
Qed.

Lemma switch_lookup {A B} `{EqDecision A} (x : A) (v : B) cases d :
  NoDup cases.*1 -> (x, v) ∈ cases -> switch x cases d = v.
Proof.
  induction cases as [|[k w] cases IH]; cbn; intros Hn Hx; [by apply elem_of_nil in Hx|].
  apply NoDup_cons in Hn as [Hk Hn]. apply elem_of_cons in Hx as [Hx|Hx]; simplify_eq.
  - by rewrite decide_True.
  - rewrite decide_False; [auto|]. intros ->. apply Hk.
    apply list_elem_of_fmap. by exists (k, v).
Qed.

Lemma switch_iff {A B} `{EqDecision A} (x : A) (v : B) cases d :
  NoDup cases.*1 -> switch x cases d = v <-> (x, v) ∈ cases \/ ((x ∉ cases.*1) /\ v = d).
Proof.
  intros Hn. split.
  - intros <-. clear Hn. induction cases as [|[k w] cases IH]; cbn; [right; set_solver|].
    destruct (decide (x = k)) as [->|Hk]; [left; set_solver|].
    destruct IH as [IH|[IH1 IH2]]; [left; set_solver|right]. split; [|done].
    by apply not_elem_of_cons.
  - intros [Hx|[Hx ->]]; [by apply switch_lookup|by apply switch_default].
Qed.

Lemma switch_cases {A B} `{EqDecision A} (x : A) (l l' : list (A * B)) d :
  l = l' -> switch x l d = switch x l' d.
Proof. by intros ->. Qed.

(** ** Lemmas on maps *)

Lemma subseteq_insert_union (m b : gmap string string) k v :
  m !! k = None -> m ⊆ <[k := v]> (m ∪ b).
Proof.
  intros Hk. apply map_subseteq_spec. intros k' x Hx.
  rewrite lookup_insert_ne by congruence. by apply lookup_union_Some_l.
Qed.

Create HintDb go.
Create Rewrite HintDb gorw.
Create Rewrite HintDb gostr.
#[export] Hint Resolve has_char_app str_app_nil_r : go.
#[export] Hint Rewrite @obind_assoc : gorw.
#[export] Hint Rewrite has_char_app str_app_nil_r str_app_nil_l str_app_assoc str_length_app : gostr.
