(* ===== verification/GoStd.v ===== *)
(** * GoStd: the functions of Go's standard library the components call

    [strings.Split], [strings.Index], [strings.TrimSpace], [strings.HasPrefix],
    [strings.Join], [strconv.Itoa], [strconv.ParseInt], [strconv.Atoi] and
    [hash/fnv], on Go strings seen as the byte strings they are.  Integers are
    [Z] with their 64-bit bounds written out. *)

From S2P Require Import Prelude.

Local Open Scope Z_scope.

(** ** Machine integers *)

Definition max_int64 : Z := 2 ^ 63 - 1.
Definition min_int64 : Z := - 2 ^ 63.
Definition max_uint64 : Z := 2 ^ 64 - 1.

(** Two's complement wrap-around of an [int64] result. *)
Definition wrap_int64 (z : Z) : Z := (z + 2 ^ 63) mod 2 ^ 64 - 2 ^ 63.
Definition wrap_int32 (z : Z) : Z := (z + 2 ^ 31) mod 2 ^ 32 - 2 ^ 31.
Definition wrap_uint64 (z : Z) : Z := z mod 2 ^ 64.
Definition wrap_uint32 (z : Z) : Z := z mod 2 ^ 32.

(** ** package strings *)

(** [strings.Split(s, sep)] for a one-byte separator. *)
Fixpoint split_on (sep : ascii) (s : string) : list string :=
  match s with
  | EmptyString => [EmptyString]
  | String c s' =>
      if bool_decide (c = sep) then EmptyString :: split_on sep s'
      else match split_on sep s' with
           | [] => [String c EmptyString]
           | h :: t => String c h :: t
           end
  end.

Fixpoint join_with (sep : ascii) (l : list string) : string :=
  match l with
  | [] => EmptyString
  | [s] => s
  | s :: l' => s +:+ String sep (join_with sep l')
  end.

(** [strings.IndexByte]: -1 when the byte does not occur. *)
Fixpoint index_byte (c : ascii) (s : string) : Z :=
  match s with
  | EmptyString => -1
  | String a s' =>
      if bool_decide (a = c) then 0
      else let i := index_byte c s' in if i =? -1 then -1 else i + 1
  end.

Definition has_prefix (p s : string) : bool := String.prefix p s.

(** [strings.Contains(s, sub)]. *)
Fixpoint str_contains (sub s : string) : bool :=
  has_prefix sub s ||
  match s with
  | EmptyString => false
  | String _ s' => str_contains sub s'
  end.

Definition byte_str (l : list nat) : string :=
  foldr (fun n s => String (ascii_of_nat n) s) EmptyString l.

(** The UTF-8 encodings of the code points for which [unicode.IsSpace] holds. *)
Definition space_runes : list string :=
  map byte_str
    ([[9]; [10]; [11]; [12]; [13]; [32]; [194; 133]; [194; 160]; [225; 154; 128]]
     ++ map (fun n => [226; 128; n])
          [128; 129; 130; 131; 132; 133; 134; 135; 136; 137; 138; 168; 169; 175]
     ++ [[226; 129; 159]; [227; 128; 128]])%nat.

(** [strings.ToLower] on the ASCII letters; the strings it is applied to (header
    names, device tiers) are ASCII. *)
Fixpoint ToLower (s : string) : string :=
  match s with
  | EmptyString => EmptyString
  | String c s' =>
      let n := N_of_ascii c in
      String (if (65 <=? n)%N && (n <=? 90)%N then ascii_of_N (n + 32) else c) (ToLower s')
  end.

Definition has_suffix (p s : string) : bool :=
  (String.length p <=? String.length s)%nat &&
  bool_decide (str_drop (String.length s - String.length p) s = p).

(** One rune of space taken off the front, off the back. *)
Definition trim_left_step (s : string) : option string :=
  match filter (fun p => has_prefix p s) space_runes with
  | [] => None
  | p :: _ => Some (str_drop (String.length p) s)
  end.

Definition trim_right_step (s : string) : option string :=
  match filter (fun p => has_suffix p s) space_runes with
  | [] => None
  | p :: _ => Some (str_take (String.length s - String.length p) s)
  end.

Fixpoint trim_loop (step : string -> option string) (fuel : nat) (s : string) : string :=
  match fuel with
  | O => s
  | S f => match step s with Some s' => trim_loop step f s' | None => s end
  end.

(** [strings.TrimSpace]. A string of length [n] holds at most [n] runes, so
    [n] steps a side are enough. *)
Definition trim_space (s : string) : string :=
  let l := trim_loop trim_left_step (String.length s) s in
  trim_loop trim_right_step (String.length l) l.

(** ** package strconv *)

Definition digit_char (d : Z) : ascii := ascii_of_N (48 + Z.to_N d).

Definition digit_val (c : ascii) : option Z :=
  let n := Z.of_N (N_of_ascii c) in
  if (48 <=? n) && (n <=? 57) then Some (n - 48) else None.

(** The loop of [formatBits] in base 10: the digits from the last to the first. *)
Fixpoint utoa_loop (fuel : nat) (n : Z) (acc : string) : string :=
  match fuel with
  | O => acc
  | S f =>
      let acc' := String (digit_char (n mod 10)) acc in
      if n <? 10 then acc' else utoa_loop f (n / 10) acc'
  end.

(** [n] has at most [log2 n + 1] decimal digits. *)
Definition utoa (n : Z) : string := utoa_loop (S (Z.to_nat (Z.log2 n))) n EmptyString.

(** [strconv.Itoa] and the verb %d. *)
Definition itoa (n : Z) : string :=
  if n <? 0 then String "-" (utoa (- n)) else utoa n.

Inductive num_error := ErrSyntax | ErrRange.

#[export] Instance num_error_eq_dec : EqDecision num_error.
Proof. solve_decision. Defined.

(** The loop of [strconv.ParseUint] in base 10; [cutoff] is maxUint64/10+1. *)
Fixpoint parse_uint_loop (max_val n : Z) (s : string) : Z * option num_error :=
  match s with
  | EmptyString => (n, None)
  | String c s' =>
      match digit_val c with
      | None => (0, Some ErrSyntax)
      | Some d =>
          if max_uint64 / 10 + 1 <=? n then (max_val, Some ErrRange)
          else
            let n' := n * 10 in
            let n1 := wrap_uint64 (n' + d) in
            if (n1 <? n') || (max_val <? n1) then (max_val, Some ErrRange)
            else parse_uint_loop max_val n1 s'
      end
  end.

Definition parse_uint (bits : Z) (s : string) : Z * option num_error :=
  match s with
  | EmptyString => (0, Some ErrSyntax)
  | _ => parse_uint_loop (2 ^ bits - 1) 0 s
  end.

(** [strconv.ParseInt(s, 10, bits)]: the value comes with the error, as in Go,
    where a caller that ignores the error still assigns the value. *)
Definition parse_int (bits : Z) (s : string) : Z * option num_error :=
  let '(neg, digits) :=
    match s with
    | String "-" s' => (true, s')
    | String "+" s' => (false, s')
    | _ => (false, s)
    end in
  match parse_uint bits digits with
  | (_, Some ErrSyntax) => (0, Some ErrSyntax)
  | (un, e) =>
      let cutoff := 2 ^ (bits - 1) in
      if negb neg && (cutoff <=? un) then (cutoff - 1, Some ErrRange)
      else if neg && (cutoff <? un) then (- cutoff, Some ErrRange)
      else (if neg then - un else un, e)
  end.

(** [strconv.Atoi] is [ParseInt(s, 10, 0)] on a 64-bit [int]. *)
Definition atoi (s : string) : Z * option num_error := parse_int 64 s.

(** ** package hash/fnv *)

Definition byte_val (c : ascii) : Z := Z.of_N (N_of_ascii c).

Definition fnv64_offset : Z := 14695981039346656037.
Definition fnv64_prime : Z := 1099511628211.
Definition fnv32_offset : Z := 2166136261.
Definition fnv32_prime : Z := 16777619.

(** [fnv.New64a]: xor, then multiply. *)
Fixpoint fnv64a_write (h : Z) (s : string) : Z :=
  match s with
  | EmptyString => h
  | String c s' => fnv64a_write (wrap_uint64 (Z.lxor h (byte_val c) * fnv64_prime)) s'
  end.

Definition fnv64a (s : string) : Z := fnv64a_write fnv64_offset s.

(** [fnv.New32]: multiply, then xor. *)
Fixpoint fnv32_write (h : Z) (s : string) : Z :=
  match s with
  | EmptyString => h
  | String c s' => fnv32_write (Z.lxor (wrap_uint32 (h * fnv32_prime)) (byte_val c)) s'
  end.

Definition fnv32 (s : string) : Z := fnv32_write fnv32_offset s.

(** ** UTF-8

    [for i := range s] visits the indices where a rune of [s] starts;
    [rune_size] is the length of the first one.  A byte that starts no valid
    encoding counts as one rune of one byte. *)

Definition in_bytes (lo hi : Z) (c : ascii) : bool := (lo <=? byte_val c) && (byte_val c <=? hi).
Definition cont_byte (c : ascii) : bool := in_bytes 128 191 c.

(** The second byte that a three-byte, a four-byte encoding may have. *)
Definition second_of_three (c0 c1 : ascii) : bool :=
  (in_bytes 224 224 c0 && in_bytes 160 191 c1) ||
  ((in_bytes 225 236 c0 || in_bytes 238 239 c0) && cont_byte c1) ||
  (in_bytes 237 237 c0 && in_bytes 128 159 c1).
Definition second_of_four (c0 c1 : ascii) : bool :=
  (in_bytes 240 240 c0 && in_bytes 144 191 c1) ||
  (in_bytes 241 243 c0 && cont_byte c1) ||
  (in_bytes 244 244 c0 && in_bytes 128 143 c1).

Definition rune_size (s : string) : nat :=
  match s with
  | EmptyString => 0
  | String c0 (String c1 s2) =>
      if in_bytes 194 223 c0 && cont_byte c1 then 2
      else match s2 with
           | String c2 s3 =>
               if second_of_three c0 c1 && cont_byte c2 then 3
               else match s3 with
                    | String c3 _ =>
                        if second_of_four c0 c1 && cont_byte c2 && cont_byte c3 then 4 else 1
                    | EmptyString => 1
                    end
           | EmptyString => 1
           end
  | String _ EmptyString => 1
  end.

(** ** Lemmas: splitting and joining *)

Lemma split_on_no_sep sep s : has_char sep s = false -> split_on sep s = [s].
Proof.
  induction s as [|a s IH]; simpl; [done|]. intros H. bool_hyps.
  rewrite bool_decide_eq_false_2 by done. by rewrite IH.
Qed.

Lemma split_on_app sep s t :
  has_char sep s = false -> split_on sep (s +:+ String sep t) = s :: split_on sep t.
Proof.
  induction s as [|a s IH]; intros H; rewrite ?str_app_nil_l, ?str_app_cons; simpl in *.
  - by rewrite bool_decide_eq_true_2.
  - bool_hyps. rewrite bool_decide_eq_false_2 by done. by rewrite IH.
Qed.

Lemma split_on_cons_nonempty sep s : exists h t, split_on sep s = h :: t.
Proof. induction s as [|a s (h & t & E)]; simpl; [|rewrite E; case_match]; eauto. Qed.

Lemma split_join sep l :
  l <> [] -> Forall (fun s => has_char sep s = false) l -> split_on sep (join_with sep l) = l.
Proof.
  intros Hne Hl. induction Hl as [|s l Hs Hl IH]; [done|].
  destruct l as [|s' l']; simpl in *; [by apply split_on_no_sep|].
  rewrite split_on_app by done. f_equal. by apply IH.
Qed.

Lemma split_on_app_sep sep s t :
  split_on sep (s +:+ String sep t) = split_on sep s ++ split_on sep t.
Proof.
  induction s as [|a s IH]; rewrite ?str_app_nil_l, ?str_app_cons; simpl.
  - by rewrite bool_decide_eq_true_2.
  - case_bool_decide; [by rewrite IH|]. rewrite IH.
    destruct (split_on_cons_nonempty sep s) as (h & u & ->). done.
Qed.

(** One piece, and at least one more when the separator occurs. *)
Lemma split_on_length_sep sep s :
  (1 <= length (split_on sep s))%nat /\
  (has_char sep s = true -> (2 <= length (split_on sep s))%nat).
Proof.
  induction s as [|a s [IH1 IH2]]; simpl; [done|].
  destruct (split_on_cons_nonempty sep s) as (h & t & Es). rewrite Es in *.
  case_bool_decide; simpl in *; [lia|]. split; [lia|]. intros H'. apply IH2 in H'. lia.
Qed.

(** The pieces never contain the separator. *)
Lemma split_on_pieces sep s : Forall (fun p => has_char sep p = false) (split_on sep s).
Proof.
  induction s as [|a s IH]; simpl; [by constructor|].
  case_bool_decide as Ha; [constructor; [done|exact IH]|].
  destruct (split_on_cons_nonempty sep s) as (h & t & Es). rewrite Es in *.
  inversion IH; subst. constructor; [|done]. simpl.
  by rewrite bool_decide_eq_false_2.
Qed.

Lemma join_split sep s : join_with sep (split_on sep s) = s.
Proof.
  induction s as [|a s IH]; simpl; [done|].
  destruct (split_on_cons_nonempty sep s) as (h & t & Es). rewrite Es in *.
  case_bool_decide as Ha; simpl in *; [by rewrite IH, Ha|].
  destruct t; by rewrite <- IH.
Qed.

(** ** Lemmas: numbers *)

Lemma digit_val_char d : 0 <= d < 10 -> digit_val (digit_char d) = Some d.
Proof.
  intros Hd. unfold digit_val, digit_char.
  rewrite N_ascii_embedding by lia.
  replace (Z.of_N (48 + Z.to_N d)) with (48 + d) by lia.
  destruct (48 <=? 48 + d) eqn:E1, (48 + d <=? 57) eqn:E2; simpl; f_equal; lia.
Qed.

Lemma digit_char_ne d c : 0 <= d < 10 -> digit_val c = None -> digit_char d <> c.
Proof. intros Hd Hc <-. by rewrite digit_val_char in Hc. Qed.

(** Reading back the digits printed in front of [acc] continues with [acc]. *)
Lemma parse_utoa_loop max_val fuel n acc :
  0 <= n <= max_val -> max_val <= max_uint64 ->
  (Z.to_nat (Z.log2 n) < fuel)%nat ->
  parse_uint_loop max_val 0 (utoa_loop fuel n acc) = parse_uint_loop max_val n acc.
Proof.
  revert n acc. induction fuel as [|fuel IH]; intros n acc Hn Hmax Hf; [lia|].
  assert (forall m, 0 <= m -> m * 10 + n mod 10 = n ->
    parse_uint_loop max_val m (String (digit_char (n mod 10)) acc) = parse_uint_loop max_val n acc) as Hstep.
  { intros m Hm Heq. cbn [parse_uint_loop].
    pose proof (Z.mod_pos_bound n 10 ltac:(lia)).
    rewrite digit_val_char by lia.
    unfold wrap_uint64, max_uint64 in *.
    rewrite (proj2 (Z.leb_gt _ _)) by (change ((2 ^ 64 - 1) / 10 + 1) with 1844674407370955162; lia).
    rewrite Heq, Z.mod_small by lia.
    rewrite (proj2 (Z.ltb_ge n _)), (proj2 (Z.ltb_ge max_val n)) by lia. done. }
  simpl utoa_loop. destruct (n <? 10) eqn:En.
  - apply Hstep; [lia|]. rewrite Z.mod_small; lia.
  - assert (Z.log2 (n / 10) < Z.log2 n).
    { apply Z.log2_lt_pow2; [apply Z.div_str_pos; lia|].
      assert (2 ^ 1 <= n) by lia.
      pose proof (Z.log2_spec n ltac:(lia)) as [_ Hlt].
      rewrite Z.pow_succ_r in Hlt by apply Z.log2_nonneg.
      apply Z.div_lt_upper_bound; lia. }
    pose proof (Z.log2_nonneg (n / 10)).
    rewrite IH; [| split; [apply Z.div_pos; lia | transitivity n; [apply Z.div_le_upper_bound; lia | lia]] | done | lia].
    apply Hstep; [apply Z.div_pos; lia|]. rewrite (Z.div_mod n 10) at 3 by lia. lia.
Qed.

Lemma utoa_loop_cons fuel n acc : exists c t, utoa_loop (S fuel) n acc = String c t.
Proof.
  revert n acc. induction fuel as [|fuel IH]; intros n acc; simpl; case_match; eauto.
Qed.

Lemma parse_uint_utoa bits n :
  0 <= n <= 2 ^ bits - 1 -> 0 <= bits <= 64 -> parse_uint bits (utoa n) = (n, None).
Proof.
  intros Hn Hb. unfold parse_uint, utoa.
  destruct (utoa_loop_cons (Z.to_nat (Z.log2 n)) n "") as (c & t & E). rewrite E, <- E.
  rewrite parse_utoa_loop; [done|lia| |lia].
  unfold max_uint64. pose proof (Z.pow_le_mono_r 2 bits 64). lia.
Qed.

Lemma utoa_loop_no_char c fuel n acc :
  0 <= n -> digit_val c = None ->
  has_char c (utoa_loop fuel n acc) = has_char c acc.
Proof.
  intros Hn Hc. revert n acc Hn. induction fuel as [|fuel IH]; intros n acc Hn; [done|].
  simpl. pose proof (Z.mod_pos_bound n 10 ltac:(lia)).
  assert (has_char c (String (digit_char (n mod 10)) acc) = has_char c acc) as E.
  { simpl. rewrite bool_decide_eq_false_2; [done|]. by apply digit_char_ne. }
  case_match; [done|]. rewrite IH; [done|]. apply Z.div_pos; lia.
Qed.

Lemma utoa_no_char c n : 0 <= n -> digit_val c = None -> has_char c (utoa n) = false.
Proof. intros. unfold utoa. by rewrite utoa_loop_no_char. Qed.

Lemma utoa_loop_head fuel n acc :
  0 <= n -> exists d t, 0 <= d < 10 /\ utoa_loop (S fuel) n acc = String (digit_char d) t.
Proof.
  revert n acc. induction fuel as [|fuel IH]; intros n acc Hn;
    pose proof (Z.mod_pos_bound n 10 ltac:(lia)).
  - simpl. case_match; eauto.
  - cbn [utoa_loop]. case_match; [by eauto|]. apply IH, Z.div_pos; lia.
Qed.

(** Printing then parsing, with any width that holds the number. *)
Lemma parse_int_itoa bits n :
  1 <= bits <= 64 -> - 2 ^ (bits - 1) <= n < 2 ^ (bits - 1) ->
  parse_int bits (itoa n) = (n, None).
Proof.
  intros Hb Hn. assert (2 ^ bits = 2 * 2 ^ (bits - 1)) as Hp.
  { rewrite <- Z.pow_succ_r by lia. f_equal; lia. }
  unfold itoa. destruct (n <? 0) eqn:En.
  - unfold parse_int. rewrite parse_uint_utoa by lia. cbn -[Z.pow].
    rewrite (proj2 (Z.ltb_ge _ _)) by lia. f_equal; lia.
  - destruct (utoa_loop_head (Z.to_nat (Z.log2 n)) n "" ltac:(lia)) as (d & t & Hd & E).
    assert (parse_int bits (utoa n) =
            match parse_uint bits (utoa n) with
            | (_, Some ErrSyntax) => (0, Some ErrSyntax)
            | (un, e) => if 2 ^ (bits - 1) <=? un then (2 ^ (bits - 1) - 1, Some ErrRange) else (un, e)
            end) as ->.
    { assert (digit_char d <> "-"%char) by (by apply digit_char_ne).
      assert (digit_char d <> "+"%char) by (by apply digit_char_ne).
      unfold parse_int, utoa. rewrite E. generalize dependent (digit_char d). intros c _ H1 H2.
      destruct c as [[] [] [] [] [] [] [] []]; try done;
        cbn -[Z.pow parse_uint]; repeat case_match; done. }
    rewrite parse_uint_utoa by lia. rewrite (proj2 (Z.leb_gt _ _)) by lia. done.
Qed.

Lemma utoa_inj m n : 0 <= m <= max_uint64 -> 0 <= n <= max_uint64 -> utoa m = utoa n -> m = n.
Proof.
  intros Hm Hn E. assert (parse_uint 64 (utoa m) = parse_uint 64 (utoa n)) as H by by rewrite E.
  unfold max_uint64 in *. rewrite !parse_uint_utoa in H by lia. by simplify_eq.
Qed.

(** Printing natural numbers, as indices and ordinals are printed. *)
Lemma itoa_nat (i : nat) : itoa (Z.of_nat i) = utoa (Z.of_nat i).
Proof. unfold itoa. by rewrite (proj2 (Z.ltb_ge _ _)) by lia. Qed.

Lemma itoa_nat_inj (i j : nat) :
  Z.of_nat i <= max_int64 -> Z.of_nat j <= max_int64 -> itoa (Z.of_nat i) = itoa (Z.of_nat j) -> i = j.
Proof.
  intros Hi Hj. rewrite !itoa_nat. intros H. apply utoa_inj in H; unfold max_int64, max_uint64 in *; lia.
Qed.

Lemma itoa_nat_no_char c i : digit_val c = None -> has_char c (itoa (Z.of_nat i)) = false.
Proof. intros H. rewrite itoa_nat. apply utoa_no_char; [lia|done]. Qed.


(** Whatever the input, the value assigned fits the width. *)
Lemma parse_int_bounds bits s :
  1 <= bits -> - 2 ^ (bits - 1) <= (parse_int bits s).1 < 2 ^ (bits - 1).
Proof.
  intros Hb. assert (0 < 2 ^ (bits - 1)) by (apply Z.pow_pos_nonneg; lia).
  assert (forall mv n t, 0 <= mv -> 0 <= n -> 0 <= (parse_uint_loop mv n t).1) as Hnn.
  { intros mv n t Hmv. revert n. induction t as [|c t IH]; intros n Hn; [done|]. simpl.
    repeat case_match; simpl; try lia. apply IH. unfold wrap_uint64.
    apply Z.mod_pos_bound. lia. }
  assert (forall t, 0 <= (parse_uint bits t).1) as Hnn'.
  { intros t. unfold parse_uint. case_match; [done|]. apply Hnn; [|done].
    assert (2 ^ (bits - 1) <= 2 ^ bits) by (apply Z.pow_le_mono_r; lia). lia. }
  unfold parse_int. case_match. match goal with |- context [parse_uint bits ?t] => specialize (Hnn' t) end.
  repeat case_match; simpl in *; bool_hyps; destruct b; simpl in *; simplify_eq; lia.
Qed.

(** ** Lemmas: hashes *)

Lemma wrap_uint64_bounds z : 0 <= wrap_uint64 z < 2 ^ 64.
Proof. apply Z.mod_pos_bound. lia. Qed.

Lemma fnv64a_write_bounds h s : 0 <= h < 2 ^ 64 -> 0 <= fnv64a_write h s < 2 ^ 64.
Proof.
  revert h. induction s as [|c s IH]; intros h Hh; [done|]. simpl.
  apply IH, wrap_uint64_bounds.
Qed.

Lemma fnv64a_bounds s : 0 <= fnv64a s < 2 ^ 64.
Proof. by apply fnv64a_write_bounds. Qed.

Lemma lxor_bounds a b n : 0 <= n -> 0 <= a < 2 ^ n -> 0 <= b < 2 ^ n -> 0 <= Z.lxor a b < 2 ^ n.
Proof.
  intros Hn Ha Hb. assert (0 <= Z.lxor a b) by (apply Z.lxor_nonneg; lia). split; [done|].
  destruct (Z.eq_dec (Z.lxor a b) 0) as [->|Hne]; [by apply Z.pow_pos_nonneg|].
  apply Z.log2_lt_pow2; [lia|].
  pose proof (Z.log2_lxor a b ltac:(lia) ltac:(lia)).
  assert (0 < n) by (destruct (Z.eq_dec n 0) as [->|]; [|lia]; change (2 ^ 0) with 1 in *; by replace a with 0 in Hne by lia; replace b with 0 in Hne by lia).
  assert (Z.log2 a < n) by (destruct (Z.eq_dec a 0) as [->|]; [simpl; lia | apply Z.log2_lt_pow2; lia]).
  assert (Z.log2 b < n) by (destruct (Z.eq_dec b 0) as [->|]; [simpl; lia | apply Z.log2_lt_pow2; lia]).
  lia.
Qed.

Lemma byte_val_bounds c : 0 <= byte_val c < 256.
Proof. unfold byte_val. pose proof (N_ascii_bounded c). lia. Qed.

Lemma fnv32_write_bounds h s : 0 <= h < 2 ^ 32 -> 0 <= fnv32_write h s < 2 ^ 32.
Proof.
  revert h. induction s as [|c s IH]; intros h Hh; [done|]. simpl. apply IH.
  apply lxor_bounds; [lia|apply Z.mod_pos_bound; lia|]. pose proof (byte_val_bounds c). lia.
Qed.

Lemma fnv32_bounds s : 0 <= fnv32 s < 2 ^ 32.
Proof. by apply fnv32_write_bounds. Qed.

(** ** package encoding/binary *)

Fixpoint be_value (acc : Z) (s : string) : Z :=
  match s with
  | EmptyString => acc
  | String c s' => be_value (256 * acc + byte_val c) s'
  end.

(** [binary.BigEndian.Uint64]: it reads eight bytes and panics if there are fewer. *)
Definition BigEndian_Uint64 {E} (b : string) : outcome E Z :=
  if (String.length b <? 8)%nat then Panic IndexOutOfRange else Ret (be_value 0 (str_take 8 b)).

(** The [n] low bytes of [z], the most significant first. *)
Fixpoint be_bytes (n : nat) (z : Z) : string :=
  match n with
  | O => EmptyString
  | S n' => be_bytes n' (z / 256) +:+ String (ascii_of_N (Z.to_N (z mod 256))) EmptyString
  end.

Lemma be_value_app acc s t : be_value acc (s +:+ t) = be_value (be_value acc s) t.
Proof. revert acc. induction s as [|c s IH]; intros acc; [done|]. rewrite str_app_cons. apply IH. Qed.

Lemma be_bytes_length n z : String.length (be_bytes n z) = n.
Proof. revert z. induction n as [|n IH]; intros z; [done|]. cbn. rewrite str_length_app, IH. cbn. lia. Qed.

Lemma byte_val_of z : 0 <= z < 256 -> byte_val (ascii_of_N (Z.to_N z)) = z.
Proof. intros Hz. unfold byte_val. rewrite N_ascii_embedding by lia. lia. Qed.

Lemma be_value_bytes n z : 0 <= z < 256 ^ Z.of_nat n -> be_value 0 (be_bytes n z) = z.
Proof.
  revert z. induction n as [|n IH]; intros z Hz; [cbn in *; lia|].
  rewrite Nat2Z.inj_succ, Z.pow_succ_r in Hz by lia. cbn [be_bytes].
  rewrite be_value_app, IH by (split; [apply Z.div_pos|apply Z.div_lt_upper_bound]; lia).
  cbn [be_value]. rewrite byte_val_of by (apply Z.mod_pos_bound; lia).
  symmetry. apply Z.div_mod. lia.
Qed.

Lemma BigEndian_round {E} z : 0 <= z < 2 ^ 64 -> BigEndian_Uint64 (E := E) (be_bytes 8 z) = Ret z.
Proof.
  intros Hz. unfold BigEndian_Uint64. rewrite be_bytes_length. cbn [Nat.ltb Nat.leb].
  rewrite <- (str_app_nil_r (be_bytes 8 z)) at 1. rewrite <- (be_bytes_length 8 z) at 1.
  rewrite str_take_app, be_value_bytes; [done|]. cbn. lia.
Qed.

(** ** Lemmas: trimming and searching *)

Fixpoint all_chars (P : ascii -> bool) (s : string) : bool :=
  match s with
  | EmptyString => true
  | String c s' => P c && all_chars P s'
  end.

(** Printable ASCII without the space. *)
Definition graphic (c : ascii) : bool := (33 <=? byte_val c) && (byte_val c <=? 126).

Lemma all_chars_app P s t : all_chars P (s +:+ t) = all_chars P s && all_chars P t.
Proof.
  induction s as [|a s IH]; [done|]. rewrite str_app_cons. simpl. by rewrite IH, andb_assoc.
Qed.

Lemma all_chars_drop P n s : all_chars P s = true -> all_chars P (str_drop n s) = true.
Proof.
  revert n. induction s as [|a s IH]; intros [|n] H; simpl in *; [done..|].
  bool_hyps. by apply IH.
Qed.

Lemma all_chars_impl (P Q : ascii -> bool) s :
  (forall c, P c = true -> Q c = true) -> all_chars P s = true -> all_chars Q s = true.
Proof.
  intros HPQ. induction s as [|a s IH]; simpl; [done|]. intros H. bool_hyps.
  by rewrite HPQ, IH.
Qed.

Lemma all_chars_has_char P c s : all_chars P s = true -> P c = false -> has_char c s = false.
Proof.
  induction s as [|a s IH]; simpl; [done|]. intros H Hc. bool_hyps.
  rewrite IH by done. rewrite bool_decide_eq_false_2; [done|]. intros ->. congruence.
Qed.

Lemma space_runes_head :
  Forall (fun p => match p with String b _ => graphic b = false | EmptyString => False end) space_runes.
Proof. repeat constructor. Qed.

Lemma filter_no_rune (f : string -> bool) :
  (forall b r, graphic b = false -> f (String b r) = false) ->
  filter (fun p => f p) space_runes = [].
Proof.
  intros Hf. induction space_runes_head as [|p l Hp _ IH]; [done|].
  destruct p as [|b r]; [done|]. rewrite filter_cons_False; [exact IH|]. rewrite (Hf b r Hp). intros [].  
Qed.

Lemma trim_loop_stuck step fuel s : step s = None -> trim_loop step fuel s = s.
Proof. intros H. destruct fuel; simpl; [done|]. by rewrite H. Qed.

(** A string of printable characters has nothing to trim. *)
Lemma trim_space_graphic s : all_chars graphic s = true -> trim_space s = s.
Proof.
  intros H.
  assert (trim_left_step s = None) as Hl.
  { unfold trim_left_step. rewrite filter_no_rune; [done|]. intros b r Hb.
    destruct s as [|a s]; [done|]. simpl in H. bool_hyps. unfold has_prefix. simpl.
    destruct (ascii_dec b a) as [->|]; [congruence|done]. }
  assert (trim_right_step s = None) as Hr.
  { unfold trim_right_step. rewrite filter_no_rune; [done|]. intros b r Hb.
    unfold has_suffix. destruct (bool_decide _) eqn:E; [|by rewrite andb_false_r]. bool_hyps.
    pose proof (all_chars_drop graphic (String.length s - String.length (String b r)) s H) as Hd.
    rewrite E in Hd. simpl in Hd. by rewrite Hb in Hd. }
  unfold trim_space. rewrite (trim_loop_stuck trim_left_step) by done.
  by rewrite trim_loop_stuck.
Qed.

Lemma index_byte_nonneg c s : -1 <= index_byte c s.
Proof. induction s as [|a s IH]; simpl; [done|]. repeat case_match; lia. Qed.

Lemma index_byte_app c s t :
  has_char c s = false -> index_byte c (s +:+ String c t) = Z.of_nat (String.length s).
Proof.
  induction s as [|a s IH]; intros H.
  - simpl. by rewrite bool_decide_eq_true_2.
  - rewrite str_app_cons. simpl in *. bool_hyps. rewrite bool_decide_eq_false_2 by done.
    rewrite IH by done. destruct (Z.eqb_spec (Z.of_nat (String.length s)) (-1)); lia.
Qed.

Lemma index_byte_absent c s : has_char c s = false <-> index_byte c s = -1.
Proof.
  induction s as [|a s IH]; simpl; [done|]. pose proof (index_byte_nonneg c s).
  case_bool_decide; simpl; [done|]. rewrite IH.
  destruct (Z.eqb_spec (index_byte c s) (-1)); [done|]. split; lia.
Qed.

(** An ASCII byte is a rune. *)
Lemma rune_size_ascii c s : byte_val c < 128 -> rune_size (String c s) = 1%nat.
Proof.
  intros Hc.
  assert (forall lo hi, 128 <= lo -> in_bytes lo hi c = false) as E.
  { intros lo hi Hlo. unfold in_bytes. rewrite (proj2 (Z.leb_gt _ _)) by lia. done. }
  destruct s as [|c1 s]; [done|]. simpl. unfold second_of_three, second_of_four.
  rewrite !E by lia. simpl. by destruct s as [|c2 [|c3 s]].
Qed.

#[export] Hint Resolve split_on_pieces fnv64a_bounds fnv32_bounds wrap_uint64_bounds utoa_no_char : go.
#[export] Hint Rewrite join_split : gostr.

(** ** net: addresses with a port *)

(** [strings.LastIndexByte]. *)
Fixpoint last_index_byte (c : ascii) (s : string) : Z :=
  match s with
  | EmptyString => -1
  | String a s' =>
      let i := last_index_byte c s' in
      if 0 <=? i then i + 1 else if bool_decide (a = c) then 0 else -1
  end.

Definition JoinHostPort (host port : string) : string :=
  if has_char ":" host then "[" +:+ host +:+ "]:" +:+ port else host +:+ ":" +:+ port.

Inductive addr_error := MissingPort | TooManyColons | MissingClose | UnexpectedOpen | UnexpectedClose.

(** The port starts after the last colon; no bracket may follow [j] and [k]. *)
Definition SplitHostPort (hostport : string) : addr_error + (string * string) :=
  let i := last_index_byte ":" hostport in
  let split (host : string) (j k : nat) :=
    if has_char "[" (str_drop j hostport) then inl UnexpectedOpen
    else if has_char "]" (str_drop k hostport) then inl UnexpectedClose
    else inr (host, str_drop (Z.to_nat (i + 1)) hostport) in
  if i <? 0 then inl MissingPort
  else
    match hostport with
    | String "[" _ =>
        let close := index_byte "]" hostport in
        if close <? 0 then inl MissingClose
        else if close + 1 =? Z.of_nat (String.length hostport) then inl MissingPort
        else if close + 1 =? i then
          split (str_take (Z.to_nat (close - 1)) (str_drop 1 hostport)) 1%nat (Z.to_nat (close + 1))
        else if bool_decide (String.get (Z.to_nat (close + 1)) hostport = Some ":"%char) then inl TooManyColons
        else inl MissingPort
    | _ =>
        let host := str_take (Z.to_nat i) hostport in
        if has_char ":" host then inl TooManyColons else split host O O
    end.

Lemma last_index_byte_absent c s : has_char c s = false <-> last_index_byte c s = -1.
Proof.
  induction s as [|a s IH]; simpl; [done|].
  case_bool_decide; simpl.
  - split; [done|]. destruct (Z.leb_spec 0 (last_index_byte c s)); lia.
  - rewrite IH. destruct (Z.leb_spec 0 (last_index_byte c s)); [lia|].
    split; [done|]. intros _. clear IH.
    induction s as [|b s IH]; simpl in *; [done|].
    destruct (Z.leb_spec 0 (last_index_byte c s)); [lia|]. case_bool_decide; lia.
Qed.

Lemma last_index_byte_app c s t :
  has_char c t = false -> last_index_byte c (s +:+ String c t) = Z.of_nat (String.length s).
Proof.
  intros Ht. apply last_index_byte_absent in Ht. induction s as [|a s IH]; simpl.
  - rewrite Ht, bool_decide_eq_true_2 by done. done.
  - rewrite IH. destruct (Z.leb_spec 0 (Z.of_nat (String.length s))); lia.
Qed.

(** An address without a colon has no port. *)
Lemma SplitHostPort_no_colon s : has_char ":" s = false -> SplitHostPort s = inl MissingPort.
Proof. intros H. unfold SplitHostPort. by rewrite (proj1 (last_index_byte_absent ":" s) H). Qed.

(** A plain host, and a host in brackets. *)
Lemma SplitHostPort_plain host port :
  has_char ":" host = false -> has_char "[" host = false -> has_char "]" host = false ->
  has_char ":" port = false -> has_char "[" port = false -> has_char "]" port = false ->
  SplitHostPort (host +:+ String ":" port) = inr (host, port).
Proof.
  intros Hh Ho Hc P1 P2 P3. unfold SplitHostPort. rewrite last_index_byte_app by done.
  destruct (Z.ltb_spec (Z.of_nat (String.length host)) 0); [lia|].
  rewrite Nat2Z.id, str_take_app, Hh. cbn [str_drop]. rewrite !has_char_app, Ho, Hc. cbn. rewrite P2, P3.
  replace (Z.to_nat (Z.of_nat (String.length host) + 1)) with (String.length (host +:+ ":"))
    by (rewrite str_length_app; cbn; lia).
  change (String ":" port) with (":" +:+ port). rewrite <- str_app_assoc, str_drop_app.
  destruct host as [|a host]; [done|]. cbn in Ho. apply orb_false_iff in Ho as [Ha%bool_decide_eq_false _].
  rewrite !str_app_cons. by destruct a as [[] [] [] [] [] [] [] []].
Qed.

Lemma SplitHostPort_bracket host port :
  has_char "[" host = false -> has_char "]" host = false ->
  has_char ":" port = false -> has_char "[" port = false -> has_char "]" port = false ->
  SplitHostPort (String "[" (host +:+ String "]" (String ":" port))) = inr (host, port).
Proof.
  intros Ho Hc P1 P2 P3. unfold SplitHostPort. set (n := Z.of_nat (String.length host)). assert (0 <= n) by lia.
  assert (forall t, last_index_byte ":" (String "[" (host +:+ String "]" (String ":" port))) = n + 2 /\
    String.length (String "[" (host +:+ String "]" t)) = (String.length host + 2 + String.length t)%nat) as Hl.
  { intros t. split.
    - change (String "[" (host +:+ String "]" (String ":" port))) with (("[" +:+ host) +:+ ("]" +:+ String ":" port)).
      rewrite <- str_app_assoc, last_index_byte_app by done. rewrite !str_length_app. unfold n. cbn. lia.
    - cbn. rewrite str_length_app. cbn. lia. }
  assert (index_byte "]" (String "[" (host +:+ String "]" (String ":" port))) = n + 1) as ->.
  { change (String "[" (host +:+ String "]" (String ":" port))) with (("[" +:+ host) +:+ String "]" (String ":" port)).
    rewrite index_byte_app by (cbn; done). rewrite str_length_app. unfold n. cbn. lia. }
  rewrite (proj1 (Hl "")), (proj2 (Hl (String ":" port))).
  destruct (Z.ltb_spec (n + 2) 0); [lia|]. destruct (Z.ltb_spec (n + 1) 0); [lia|].
  destruct (Z.eqb_spec (n + 1 + 1) (Z.of_nat (String.length host + 2 + String.length (String ":" port)))); [unfold n in *; cbn in *; lia|].
  destruct (Z.eqb_spec (n + 1 + 1) (n + 2)); [|lia].
  replace (Z.to_nat (n + 1 + 1)) with (S (String.length (host +:+ "]"))) by (rewrite str_length_app; unfold n; cbn; lia).
  replace (Z.to_nat (n + 2 + 1)) with (S (String.length (host +:+ "]:"))) by (rewrite str_length_app; unfold n; cbn; lia).
  replace (Z.to_nat (n + 1 - 1)) with (String.length host) by lia. cbn [str_drop].
  rewrite str_take_app, has_char_app, Ho. cbn. rewrite P2.
  replace (host +:+ String "]" (String ":" port)) with ((host +:+ "]") +:+ String ":" port) by apply str_app_assoc.
  rewrite str_drop_app. cbn. rewrite P3.
  replace ((host +:+ "]") +:+ String ":" port) with ((host +:+ "]:") +:+ port) by (by rewrite !str_app_assoc).
  by rewrite str_drop_app.
Qed.

(** What is joined is split again, a host with colons included. *)
Lemma SplitHostPort_Join host port :
  has_char "[" host = false -> has_char "]" host = false ->
  has_char ":" port = false -> has_char "[" port = false -> has_char "]" port = false ->
  SplitHostPort (JoinHostPort host port) = inr (host, port).
Proof.
  intros. unfold JoinHostPort. destruct (has_char ":" host) eqn:Hh.
  - by apply SplitHostPort_bracket.
  - by apply SplitHostPort_plain.
Qed.
