(* ===== verification/Float64.v ===== *)
(** * Float64: Go's float64

    IEEE 754 binary64 as the executable specification of the Standard Library
    ([SpecFloat] at precision 53, maximal exponent 1024): conversion from [int],
    division, subtraction, comparison, and truncation to [int].  The lemmas are
    the exact facts the scoring code relies on: small integers convert exactly
    and a converted number divided by itself is one. *)

From S2P Require Import Prelude GoStd.
From Stdlib Require Export SpecFloat.

Local Open Scope Z_scope.

Definition f64 : Type := spec_float.

Definition f64_of_int (n : Z) : f64 := binary_normalize 53 1024 n 0 false.
Definition f64_div (x y : f64) : f64 := SFdiv 53 1024 x y.
Definition f64_sub (x y : f64) : f64 := SFsub 53 1024 x y.
Definition f64_one : f64 := f64_of_int 1.
Definition f64_zero : f64 := S754_zero false.

#[export] Instance f64_eq_dec : EqDecision spec_float.
Proof. solve_decision. Defined.

(** The integer part of a finite number. *)
Definition f64_trunc (x : f64) : option Z :=
  match x with
  | S754_zero _ => Some 0
  | S754_finite s m e =>
      let n := if 0 <=? e then Z.shiftl (Z.pos m) e else Z.shiftr (Z.pos m) (- e) in
      Some (if s then - n else n)
  | _ => None
  end.

(** [int(x)]: truncation when the result fits; Go leaves the other cases, NaN and
    infinities included, to the architecture. *)
Class GoArch := { float_to_int_other : f64 -> Z }.

Definition f64_to_int `{GoArch} (x : f64) : Z :=
  match f64_trunc x with
  | Some n => if (min_int64 <=? n) && (n <=? max_int64) then n else float_to_int_other x
  | None => float_to_int_other x
  end.

(** amd64: the integer indefinite value. *)
#[export] Instance arch_amd64 : GoArch | 100 := {| float_to_int_other _ := min_int64 |}.

(** ** Lemmas *)

Lemma digits2_pos_shift m d : digits2_pos (Pos.iter xO m d) = (digits2_pos m + d)%positive.
Proof.
  induction d as [|d IH] using Pos.peano_ind; [simpl; lia|].
  rewrite Pos.iter_succ. simpl. rewrite IH. lia.
Qed.

Lemma digits2_pos_bound m k : (0 < k)%Z -> Z.pos m < 2 ^ k -> Z.pos (digits2_pos m) <= k.
Proof.
  revert k. induction m as [m IH|m IH|]; intros k Hk Hm; simpl; [| |lia].
  all: assert (1 < k) by (destruct (decide (k = 1)) as [->|]; lia).
  all: assert (2 ^ k = 2 * 2 ^ (k - 1)) as E by (rewrite <- Z.pow_succ_r by lia; f_equal; lia).
  all: specialize (IH (k - 1) ltac:(lia) ltac:(lia)); lia.
Qed.

(** A positive integer below 2^53 converts to a positive finite number. *)
Lemma f64_of_int_finite p :
  Z.pos p < 2 ^ 53 -> exists m e, f64_of_int (Z.pos p) = S754_finite false m e.
Proof.
  intros Hp. pose proof (digits2_pos_bound p 53 ltac:(lia) Hp) as Hd.
  unfold f64_of_int, binary_normalize, binary_round.
  assert (fexp 53 1024 (Z.pos (digits2_pos p) + 0) = Z.pos (digits2_pos p) - 53) as ->
    by (unfold fexp, emin; lia).
  unfold shl_align. destruct (Z.pos (digits2_pos p) - 53 - 0) as [|q|q] eqn:E; [|lia|].
  - assert (binary_round_aux 53 1024 false (Z.pos p) 0 loc_Exact = S754_finite false p 0) as Hr.
    { unfold binary_round_aux, shr_fexp. cbn [shr_record_of_loc Zdigits2].
      assert (fexp 53 1024 (Z.pos (digits2_pos p) + 0) - 0 = 0) as Hs by (unfold fexp, emin; lia).
      rewrite Hs. cbn [shr shr_m loc_of_shr_record round_nearest_even Zdigits2 shr_record_of_loc].
      rewrite Hs. reflexivity. }
    rewrite Hr. eauto.
  - replace (Z.pos (digits2_pos p) - 53) with (Z.neg q) by lia.
    set (m := Pos.iter xO p q). exists m, (Z.neg q).
    assert (Z.pos (digits2_pos m) = 53) as Hm by (unfold m; rewrite digits2_pos_shift; lia).
    unfold binary_round_aux, shr_fexp. cbn [shr_record_of_loc Zdigits2]. rewrite Hm.
    assert (fexp 53 1024 (53 + Z.neg q) - Z.neg q = 0) as Hs by (unfold fexp, emin; lia).
    rewrite Hs. cbn [shr shr_m loc_of_shr_record round_nearest_even Zdigits2 shr_record_of_loc].
    rewrite Hm, Hs. cbn [shr shr_m shr_record_of_loc].
    destruct (Z.leb_spec (Z.neg q) (1024 - 53)); [done|lia].
Qed.

(** A finite number divided by itself is one, exactly. *)
Lemma f64_div_self s m e : f64_div (S754_finite s m e) (S754_finite s m e) = f64_one.
Proof.
  unfold f64_div, SFdiv, SFdiv_core_binary.
  assert (Z.min (fexp 53 1024 (Zdigits2 (Z.pos m) + e - (Zdigits2 (Z.pos m) + e))) (e - e) = -53) as ->
    by (rewrite !Z.sub_diag; reflexivity).
  replace (e - e - -53) with 53 by lia. rewrite Z.shiftl_mul_pow2 by lia.
  assert (Z.div_eucl (Z.pos m * 2 ^ 53) (Z.pos m) = (2 ^ 53, 0)) as ->.
  { pose proof (Z.div_mul (2 ^ 53) (Z.pos m) ltac:(lia)) as Hq.
    pose proof (Z.mod_mul (2 ^ 53) (Z.pos m) ltac:(lia)) as Hr.
    rewrite Z.mul_comm in Hq, Hr. unfold Z.div, Z.modulo in Hq, Hr.
    destruct (Z.div_eucl (Z.pos m * 2 ^ 53) (Z.pos m)) as [q r]. by subst. }
  assert (new_location (Z.pos m) 0 = loc_Exact) as ->
    by (unfold new_location; by destruct (Z.even (Z.pos m))).
  rewrite xorb_nilpotent. reflexivity.
Qed.

Lemma f64_zero_div s m e : f64_div (S754_zero false) (S754_finite s m e) = S754_zero s.
Proof. by destruct s. Qed.
