(* ===== verification/GoRegexp.v ===== *)
(** * GoRegexp: the part of package regexp the code uses

    Regular expressions over bytes, their language, and an executable matcher
    for an anchored expression ([^...$] without flags), by derivatives.  The
    character classes of the code hold ASCII characters only, so reading a
    string byte by byte or rune by rune accepts the same strings. *)

From S2P Require Import Prelude GoStd.

Inductive regex :=
| RNone
| REps
| RClass (p : ascii -> bool)
| RSeq (r1 r2 : regex)
| RAlt (r1 r2 : regex)
| RStar (r : regex).

(** [(?:r)?]. *)
Definition ROpt (r : regex) : regex := RAlt r REps.

(** The strings a regular expression stands for. *)
Inductive matches : regex -> string -> Prop :=
| m_eps : matches REps EmptyString
| m_class p c : p c = true -> matches (RClass p) (String c EmptyString)
| m_seq r1 r2 s1 s2 : matches r1 s1 -> matches r2 s2 -> matches (RSeq r1 r2) (s1 +:+ s2)
| m_alt_l r1 r2 s : matches r1 s -> matches (RAlt r1 r2) s
| m_alt_r r1 r2 s : matches r2 s -> matches (RAlt r1 r2) s
| m_star_nil r : matches (RStar r) EmptyString
| m_star_cons r s1 s2 : matches r s1 -> matches (RStar r) s2 -> matches (RStar r) (s1 +:+ s2).

Fixpoint nullable (r : regex) : bool :=
  match r with
  | RNone | RClass _ => false
  | REps | RStar _ => true
  | RSeq r1 r2 => nullable r1 && nullable r2
  | RAlt r1 r2 => nullable r1 || nullable r2
  end.

Fixpoint derive (c : ascii) (r : regex) : regex :=
  match r with
  | RNone | REps => RNone
  | RClass p => if p c then REps else RNone
  | RSeq r1 r2 =>
      let d := RSeq (derive c r1) r2 in
      if nullable r1 then RAlt d (derive c r2) else d
  | RAlt r1 r2 => RAlt (derive c r1) (derive c r2)
  | RStar r1 => RSeq (derive c r1) (RStar r1)
  end.

(** [regexp.MustCompile("^" + r + "$").MatchString(s)]. *)
Fixpoint match_string (r : regex) (s : string) : bool :=
  match s with
  | EmptyString => nullable r
  | String c s' => match_string (derive c r) s'
  end.

(** ** The matcher decides the language *)

Lemma str_app_nil_inv s t : s +:+ t = EmptyString -> s = EmptyString /\ t = EmptyString.
Proof. destruct s; [by rewrite str_app_nil_l|]. by rewrite str_app_cons. Qed.

Lemma nullable_matches r : nullable r = true <-> matches r EmptyString.
Proof.
  split.
  - induction r; simpl; intros H; try done; bool_hyps.
    + constructor.
    + apply (m_seq _ _ EmptyString EmptyString); auto.
    + apply orb_prop in H as [?|?]; [apply m_alt_l|apply m_alt_r]; auto.
    + constructor.
  - remember EmptyString as s eqn:Es. induction 1; simpl; simplify_eq; try done.
    + apply str_app_nil_inv in Es as [-> ->]. by rewrite IHmatches1, IHmatches2.
    + by rewrite IHmatches.
    + by rewrite IHmatches, orb_true_r.
Qed.

Lemma derive_sound c r s : matches (derive c r) s -> matches r (String c s).
Proof.
  revert s. induction r as [| |p|r1 IH1 r2 IH2|r1 IH1 r2 IH2|r1 IH1]; simpl; intros s H.
  - inversion H.
  - inversion H.
  - destruct (p c) eqn:E; inversion H; subst. by constructor.
  - assert (matches (RSeq (derive c r1) r2) s -> matches (RSeq r1 r2) (String c s)) as Hseq.
    { inversion 1; subst. rewrite <- str_app_cons. constructor; auto. }
    destruct (nullable r1) eqn:E; [|auto]. inversion H; subst; [auto|].
    apply (m_seq _ _ EmptyString); [by apply nullable_matches|auto].
  - inversion H; subst; [apply m_alt_l|apply m_alt_r]; auto.
  - inversion H; subst. rewrite <- str_app_cons. apply m_star_cons; auto.
Qed.

Lemma derive_complete c r s : matches r (String c s) -> matches (derive c r) s.
Proof.
  remember (String c s) as t eqn:Et. intros H. revert s Et.
  induction H as [|p a Hp|r1 r2 s1 s2 H1 IH1 H2 IH2|r1 r2 t H IH|r1 r2 t H IH| |r s1 s2 H1 IH1 H2 IH2];
    intros s Et; simpl; simplify_eq.
  - rewrite Hp. constructor.
  - destruct s1 as [|a s1].
    + simpl in Et. rewrite (proj2 (nullable_matches r1) H1). apply m_alt_r. auto.
    + rewrite str_app_cons in Et. simplify_eq.
      assert (matches (RSeq (derive c r1) r2) (s1 +:+ s2)) by (constructor; auto).
      destruct (nullable r1); [by apply m_alt_l|done].
  - apply m_alt_l; auto.
  - apply m_alt_r; auto.
  - destruct s1 as [|a s1]; [simpl in Et; auto|].
    rewrite str_app_cons in Et. simplify_eq. constructor; auto.
Qed.

Lemma match_string_spec r s : match_string r s = true <-> matches r s.
Proof.
  revert r. induction s as [|c s IH]; intros r; simpl; [apply nullable_matches|].
  rewrite IH. split; [apply derive_sound|apply derive_complete].
Qed.

(** ** Classes *)

Lemma star_class_matches p s : matches (RStar (RClass p)) s <-> all_chars p s = true.
Proof.
  split.
  - remember (RStar (RClass p)) as r eqn:Er. induction 1; simplify_eq; [done|].
    match goal with H : matches (RClass _) _ |- _ => inversion H; subst end.
    rewrite str_app_cons, str_app_nil_l. simpl. rewrite IHmatches2 by done. by rewrite andb_true_r.
  - induction s as [|c s IH]; simpl; intros H; [constructor|]. bool_hyps.
    apply (m_star_cons _ (String c EmptyString) s); [by constructor|auto].
Qed.

#[export] Hint Resolve match_string_spec : go.
