(* ===== verification/ExtPool.v ===== *)
(** * ExtPool: the InferencePool side of the extension server

    src/pkg/extensionserver/inferencepool.go and the decoder of
    post_translate_modify.go: how an InferencePool is written into the metadata
    of a cluster or a route ([buildEPPMetadata]), read back from it
    ([getInferencePoolByMetadata]), and turned into names, ports and the ext_proc
    filter and cluster.  JSON decoding of extension resources is a parameter
    ([UnstructuredCodec]). *)

From S2P Require Import Prelude GoStd.

Local Open Scope Z_scope.

(** ** Data *)

(** gwaiev1.InferencePool, the fields the gateway reads. [None] for a nil map or
    pointer. *)
Record InferencePool := {
  pool_name : string;
  pool_namespace : string;
  pool_annotations : option (gmap string string);
  pool_match_labels : gmap string string;
  pool_target_ports : list Z;
  epp_ref_name : string;
  epp_ref_port : option Z
}.

(** structpb.Value: only strings are looked at. *)
Inductive pb_value :=
| StringValue (s : string)
| OtherValue (kind : string).

Definition GetStringValue (v : pb_value) : string :=
  match v with StringValue s => s | OtherValue _ => "" end.

(** structpb.Struct and corev3.Metadata. *)
Record pb_struct := { pb_fields : option (gmap string pb_value) }.
Record Metadata := { FilterMetadata : option (gmap string pb_struct) }.

(** extprocv3.ProcessingMode. *)
Inductive BodySendMode :=
| BODY_NONE | STREAMED | BUFFERED | BUFFERED_PARTIAL | FULL_DUPLEX_STREAMED.
Inductive HeaderSendMode := HEADER_DEFAULT | SEND | SKIP.

(** extprocv3.ExternalProcessor, as built for a pool. *)
Record ExternalProcessor := {
  grpc_cluster_name : string;
  grpc_authority : string;
  request_header_mode : HeaderSendMode;
  request_body_mode : BodySendMode;
  request_trailer_mode : HeaderSendMode;
  response_body_mode : BodySendMode;
  response_header_mode : HeaderSendMode;
  response_trailer_mode : HeaderSendMode;
  allow_mode_override : bool;
  message_timeout_s : Z;
  failure_mode_allow : bool
}.

#[export] Instance BodySendMode_eq_dec : EqDecision BodySendMode.
Proof. solve_decision. Defined.
#[export] Instance HeaderSendMode_eq_dec : EqDecision HeaderSendMode.
Proof. solve_decision. Defined.
#[export] Instance pb_value_eq_dec : EqDecision pb_value.
Proof. solve_decision. Defined.
#[export] Instance InferencePool_eq_dec : EqDecision InferencePool.
Proof. solve_decision. Defined.
#[export] Instance ExternalProcessor_eq_dec : EqDecision ExternalProcessor.
Proof. solve_decision. Defined.

(** ** Constants *)

Definition EndpointPickerHeaderKey : string := "x-gateway-destination-endpoint".
Definition defaultEndpointPickerPort : Z := 9002.
Definition processingBodyModeAnnotation : string := "aigateway.envoyproxy.io/processing-body-mode".
Definition allowModeOverrideAnnotation : string := "aigateway.envoyproxy.io/allow-mode-override".
Definition InternalEndpointMetadataNamespace : string := "aigateway.envoy.io".
Definition internalMetadataInferencePoolKey : string := "per_route_rule_inference_pool".

(** ** Annotations and ports *)

Definition annotation (pool : InferencePool) (key : string) : option string :=
  pool_annotations pool ≫= fun m => m !! key.

Definition getProcessingBodyModeStringFromAnnotations (pool : InferencePool) : string :=
  match annotation pool processingBodyModeAnnotation with
  | None => "duplex"
  | Some mode => mode
  end.

Definition getAllowModeOverrideStringFromAnnotations (pool : InferencePool) : string :=
  match annotation pool allowModeOverrideAnnotation with
  | None => "false"
  | Some value => value
  end.

Definition getProcessingBodyModeFromAnnotations (pool : InferencePool) : BodySendMode :=
  match annotation pool processingBodyModeAnnotation with
  | None => FULL_DUPLEX_STREAMED
  | Some mode =>
      if bool_decide (mode = "buffered") then BUFFERED
      else if bool_decide (mode = "duplex") then FULL_DUPLEX_STREAMED
      else FULL_DUPLEX_STREAMED
  end.

Definition getAllowModeOverrideFromAnnotations (pool : InferencePool) : bool :=
  match annotation pool allowModeOverrideAnnotation with
  | None => false
  | Some value => bool_decide (value = "true")
  end.

Definition portForInferencePool (pool : InferencePool) : Z :=
  match epp_ref_port pool with
  | None => defaultEndpointPickerPort
  | Some portNumber =>
      if (portNumber <? 0) || (65535 <? portNumber) then defaultEndpointPickerPort
      else portNumber
  end.

(** ** Names *)

Definition httpFilterNameForInferencePool (pool : InferencePool) : string :=
  "envoy.filters.http.ext_proc/endpointpicker/" +:+ pool_name pool +:+ "_"
    +:+ pool_namespace pool +:+ "_ext_proc".

Definition clusterNameForInferencePool (pool : InferencePool) : string :=
  "envoy.clusters.endpointpicker_" +:+ pool_name pool +:+ "_"
    +:+ pool_namespace pool +:+ "_ext_proc".

Definition dnsNameForInferencePool (pool : InferencePool) : string :=
  epp_ref_name pool +:+ "." +:+ pool_namespace pool +:+ ".svc".

Definition authorityForInferencePool (pool : InferencePool) : string :=
  epp_ref_name pool +:+ "." +:+ pool_namespace pool +:+ ".svc:"
    +:+ itoa (portForInferencePool pool).

Definition clusterRefInferencePool (namespace name serviceName : string) (servicePort : Z)
    (bodyMode allowModeOverride : string) : string :=
  namespace +:+ String "/" (name +:+ String "/" (serviceName +:+ String "/"
    (itoa servicePort +:+ String "/" (bodyMode +:+ String "/" allowModeOverride)))).

(** The reference a pool is stored under. *)
Definition pool_ref (pool : InferencePool) : string :=
  clusterRefInferencePool (pool_namespace pool) (pool_name pool) (epp_ref_name pool)
    (portForInferencePool pool)
    (getProcessingBodyModeStringFromAnnotations pool)
    (getAllowModeOverrideStringFromAnnotations pool).

(** ** Metadata: writer *)

(** The writes [buildEPPMetadata] makes to the object it holds. *)
Definition setPoolField (metadata : Metadata) (pool : InferencePool) : Metadata :=
  let fm := default ∅ (FilterMetadata metadata) in
  let m := default {| pb_fields := None |} (fm !! InternalEndpointMetadataNamespace) in
  let fields := default ∅ (pb_fields m) in
  let m' := {| pb_fields :=
    Some (<[internalMetadataInferencePoolKey := StringValue (pool_ref pool)]> fields) |} in
  {| FilterMetadata := Some (<[InternalEndpointMetadataNamespace := m']> fm) |}.

(** [metadata] is a pointer passed by value: when it is nil the function
    allocates an object that only its own parameter points to, and the caller's
    pointer stays nil.  The result is the caller's pointer after the call. *)
Definition buildEPPMetadata (metadata : option Metadata) (pool : InferencePool) : option Metadata :=
  let local := default {| FilterMetadata := None |} metadata in
  let written := setPoolField local pool in
  match metadata with
  | Some _ => Some written
  | None => None
  end.

(** ** Metadata: reader *)

(** [meta.FilterMetadata[ns].Fields[key]], with the nil checks of the code. *)
Definition metadata_field (meta : option Metadata) (ns key : string) : option pb_value :=
  match meta with
  | None => None
  | Some md =>
      match FilterMetadata md with
      | None => None
      | Some fm =>
          match fm !! ns with
          | None => None
          | Some m =>
              match pb_fields m with
              | None => None
              | Some fields => fields !! key
              end
          end
      end
  end.

Definition poolMetadataString (meta : option Metadata) : string :=
  match metadata_field meta InternalEndpointMetadataNamespace internalMetadataInferencePoolKey with
  | Some v => GetStringValue v
  | None => ""
  end.

Definition poolFromRef (metadata : string) : option InferencePool :=
  match split_on "/" metadata with
  | [ns; name; serviceName; p; processingBodyMode; allowModeOverride] =>
      match parse_int 32 p with
      | (_, Some _) => None
      | (port, None) =>
          Some {| pool_name := name;
                  pool_namespace := ns;
                  pool_annotations :=
                    Some (<[processingBodyModeAnnotation := processingBodyMode]>
                           {[allowModeOverrideAnnotation := allowModeOverride]});
                  pool_match_labels := ∅;
                  pool_target_ports := [];
                  epp_ref_name := serviceName;
                  epp_ref_port := Some (wrap_int32 port) |}
      end
  | _ => None
  end.

Definition getInferencePoolByMetadata (meta : option Metadata) : option InferencePool :=
  poolFromRef (poolMetadataString meta).

(** ** The ext_proc filter *)

Definition buildHTTPFilterForInferencePool (pool : InferencePool) : ExternalProcessor :=
  let processingBodyMode := getProcessingBodyModeFromAnnotations pool in
  {| grpc_cluster_name := clusterNameForInferencePool pool;
     grpc_authority := authorityForInferencePool pool;
     request_header_mode := SEND;
     request_body_mode := processingBodyMode;
     request_trailer_mode := SEND;
     response_body_mode := processingBodyMode;
     response_header_mode := SEND;
     response_trailer_mode := SEND;
     allow_mode_override := getAllowModeOverrideFromAnnotations pool;
     message_timeout_s := 300;
     failure_mode_allow := false |}.

(** ** Extension resources *)

(** unstructured.Unstructured and the runtime converter, from apimachinery. *)
Class UnstructuredCodec := {
  Unstructured : Type;
  json_unmarshal : string -> option Unstructured;
  GetAPIVersion : Unstructured -> string;
  GetKind : Unstructured -> string;
  FromUnstructured : Unstructured -> option InferencePool
}.

Section Resources.
Context {UC : UnstructuredCodec}.

(** One turn of the loop: the pool appended, if any. *)
Definition constructInferencePool (bytes : string) : option InferencePool :=
  match json_unmarshal bytes with
  | None => None
  | Some obj =>
      if bool_decide (GetAPIVersion obj = "inference.networking.k8s.io/v1")
         && bool_decide (GetKind obj = "InferencePool")
      then FromUnstructured obj
      else None
  end.

Fixpoint constructInferencePoolsFrom (extensionResources : list string) : list InferencePool :=
  match extensionResources with
  | [] => []
  | r :: rs =>
      match constructInferencePool r with
      | Some pool => pool :: constructInferencePoolsFrom rs
      | None => constructInferencePoolsFrom rs
      end
  end.

End Resources.

(** ** What the reader recovers *)

(** No piece of the reference holds the separator. *)
Definition slash_free (pool : InferencePool) : bool :=
  negb (has_char "/" (pool_namespace pool)) && negb (has_char "/" (pool_name pool))
  && negb (has_char "/" (epp_ref_name pool))
  && negb (has_char "/" (getProcessingBodyModeStringFromAnnotations pool))
  && negb (has_char "/" (getAllowModeOverrideStringFromAnnotations pool)).

(** The pool with its defaults made explicit. *)
Definition normalize_pool (pool : InferencePool) : InferencePool :=
  {| pool_name := pool_name pool;
     pool_namespace := pool_namespace pool;
     pool_annotations :=
       Some (<[processingBodyModeAnnotation := getProcessingBodyModeStringFromAnnotations pool]>
              {[allowModeOverrideAnnotation := getAllowModeOverrideStringFromAnnotations pool]});
     pool_match_labels := ∅;
     pool_target_ports := [];
     epp_ref_name := epp_ref_name pool;
     epp_ref_port := Some (portForInferencePool pool) |}.

(** ** Lemmas *)

Lemma portForInferencePool_range pool : 0 <= portForInferencePool pool <= 65535.
Proof.
  unfold portForInferencePool, defaultEndpointPickerPort.
  repeat case_match; bool_hyps; lia.
Qed.

Lemma poolMetadataString_built m pool :
  poolMetadataString (buildEPPMetadata (Some m) pool) = pool_ref pool.
Proof.
  unfold poolMetadataString, metadata_field, buildEPPMetadata, setPoolField. simpl.
  rewrite lookup_insert_eq. simpl. by rewrite lookup_insert_eq.
Qed.

Lemma split_pool_ref_pieces pool :
  split_on "/" (pool_ref pool) =
  split_on "/" (pool_namespace pool) ++ split_on "/" (pool_name pool)
  ++ split_on "/" (epp_ref_name pool) ++ [itoa (portForInferencePool pool)]
  ++ split_on "/" (getProcessingBodyModeStringFromAnnotations pool)
  ++ split_on "/" (getAllowModeOverrideStringFromAnnotations pool).
Proof.
  pose proof (portForInferencePool_range pool).
  unfold pool_ref, clusterRefInferencePool. rewrite !split_on_app_sep.
  rewrite (split_on_no_sep _ (itoa _)); [done|].
  unfold itoa. rewrite (proj2 (Z.ltb_ge _ _)) by lia. apply utoa_no_char; [lia|done].
Qed.

Lemma annotation_normalize pool :
  annotation (normalize_pool pool) processingBodyModeAnnotation
    = Some (getProcessingBodyModeStringFromAnnotations pool) /\
  annotation (normalize_pool pool) allowModeOverrideAnnotation
    = Some (getAllowModeOverrideStringFromAnnotations pool).
Proof. split; reflexivity. Qed.

Lemma normalize_pool_port pool : portForInferencePool (normalize_pool pool) = portForInferencePool pool.
Proof.
  pose proof (portForInferencePool_range pool).
  unfold portForInferencePool at 1. simpl.
  rewrite (proj2 (Z.ltb_ge _ _)), (proj2 (Z.ltb_ge _ _)) by lia. done.
Qed.

(** The filter built from the recovered pool is the filter of the original. *)
Lemma normalize_pool_filter pool :
  buildHTTPFilterForInferencePool (normalize_pool pool) = buildHTTPFilterForInferencePool pool.
Proof.
  unfold buildHTTPFilterForInferencePool, authorityForInferencePool.
  rewrite normalize_pool_port. simpl. f_equal.
  all: unfold getProcessingBodyModeFromAnnotations, getAllowModeOverrideFromAnnotations.
  all: rewrite ?(proj1 (annotation_normalize pool)), ?(proj2 (annotation_normalize pool)).
  all: unfold getProcessingBodyModeStringFromAnnotations, getAllowModeOverrideStringFromAnnotations.
  all: by destruct (annotation pool _).
Qed.

Lemma pool_ref_decodes pool :
  slash_free pool = true -> poolFromRef (pool_ref pool) = Some (normalize_pool pool).
Proof.
  unfold slash_free. intros H. bool_hyps. unfold poolFromRef.
  rewrite split_pool_ref_pieces, !split_on_no_sep by done. simpl.
  pose proof (portForInferencePool_range pool).
  rewrite parse_int_itoa by lia.
  unfold normalize_pool. do 2 f_equal. f_equal.
  unfold wrap_int32. rewrite Z.mod_small; lia.
Qed.

(** A slash anywhere makes the reference unreadable. *)
Lemma pool_ref_slash pool :
  slash_free pool = false -> poolFromRef (pool_ref pool) = None.
Proof.
  intros H. unfold poolFromRef.
  assert (length (split_on "/" (pool_ref pool)) <> 6%nat) as Hlen.
  { rewrite split_pool_ref_pieces, !length_app. simpl length.
    pose proof (split_on_length_sep "/" (pool_namespace pool)) as [_ H1].
    pose proof (split_on_length_sep "/" (pool_name pool)) as [_ H2].
    pose proof (split_on_length_sep "/" (epp_ref_name pool)) as [_ H3].
    pose proof (split_on_length_sep "/" (getProcessingBodyModeStringFromAnnotations pool)) as [_ H4].
    pose proof (split_on_length_sep "/" (getAllowModeOverrideStringFromAnnotations pool)) as [_ H5].
    pose proof (split_on_length_sep "/" (pool_namespace pool)) as [H1' _].
    pose proof (split_on_length_sep "/" (pool_name pool)) as [H2' _].
    pose proof (split_on_length_sep "/" (epp_ref_name pool)) as [H3' _].
    pose proof (split_on_length_sep "/" (getProcessingBodyModeStringFromAnnotations pool)) as [H4' _].
    pose proof (split_on_length_sep "/" (getAllowModeOverrideStringFromAnnotations pool)) as [H5' _].
    unfold slash_free in H.
    destruct (has_char "/" (pool_namespace pool)); [specialize (H1 eq_refl); lia|].
    destruct (has_char "/" (pool_name pool)); [specialize (H2 eq_refl); lia|].
    destruct (has_char "/" (epp_ref_name pool)); [specialize (H3 eq_refl); lia|].
    destruct (has_char "/" (getProcessingBodyModeStringFromAnnotations pool)); [specialize (H4 eq_refl); lia|].
    destruct (has_char "/" (getAllowModeOverrideStringFromAnnotations pool)); [specialize (H5 eq_refl); lia|].
    done. }
  destruct (split_on "/" (pool_ref pool)) as [|? [|? [|? [|? [|? [|? [|? ?]]]]]]]; done.
Qed.

(** The in-place writes leave every other namespace and every other key of the
    internal namespace as they were. *)
Lemma buildEPPMetadata_frame m pool ns key :
  ns <> InternalEndpointMetadataNamespace \/ key <> internalMetadataInferencePoolKey ->
  metadata_field (buildEPPMetadata (Some m) pool) ns key = metadata_field (Some m) ns key.
Proof.
  intros Hor. unfold metadata_field, buildEPPMetadata, setPoolField. simpl.
  destruct (decide (ns = InternalEndpointMetadataNamespace)) as [->|Hns].
  - destruct Hor as [|Hk]; [done|]. rewrite lookup_insert_eq. simpl.
    rewrite lookup_insert_ne by done.
    destruct (FilterMetadata m) as [fm|]; simpl; [|by rewrite lookup_empty].
    destruct (fm !! InternalEndpointMetadataNamespace) as [st|]; simpl; [|by rewrite lookup_empty].
    destruct (pb_fields st); simpl; [done|by rewrite lookup_empty].
  - rewrite lookup_insert_ne by done. destruct (FilterMetadata m); simpl; [done|].
    by rewrite lookup_empty.
Qed.

(** ** Properties *)

(** C37: pool metadata survives the trip, as far as it is written.  The metadata
    that the cluster and route hooks leave decodes to a pool exactly when it was
    there (nil metadata stays nil, and the pool is lost) and when neither the
    namespace, the name, the picker's service nor the two annotations hold a
    slash.  The decoded pool has the same namespace, name and picker service, the
    picker's port and the two annotations (processing body mode, mode override)
    with their defaults made explicit, hence the same ext_proc filter and
    cluster name; its labels, target ports and other annotations are gone.  No
    other metadata changes. *)
Theorem metadata_roundtrip (metadata : option Metadata) pool :
  match metadata with
  | None => buildEPPMetadata metadata pool = None /\
            getInferencePoolByMetadata (buildEPPMetadata metadata pool) = None
  | Some m =>
      (if slash_free pool then
         exists pool', getInferencePoolByMetadata (buildEPPMetadata metadata pool) = Some pool' /\
           pool_namespace pool' = pool_namespace pool /\ pool_name pool' = pool_name pool /\
           epp_ref_name pool' = epp_ref_name pool /\ epp_ref_port pool' = Some (portForInferencePool pool) /\
           pool_annotations pool' =
             Some {[processingBodyModeAnnotation := getProcessingBodyModeStringFromAnnotations pool;
                    allowModeOverrideAnnotation := getAllowModeOverrideStringFromAnnotations pool]} /\
           pool_match_labels pool' = ∅ /\ pool_target_ports pool' = [] /\
           httpFilterNameForInferencePool pool' = httpFilterNameForInferencePool pool /\
           buildHTTPFilterForInferencePool pool' = buildHTTPFilterForInferencePool pool /\
           clusterNameForInferencePool pool' = clusterNameForInferencePool pool
       else getInferencePoolByMetadata (buildEPPMetadata metadata pool) = None) /\
      forall ns key,
        (ns <> InternalEndpointMetadataNamespace \/ key <> internalMetadataInferencePoolKey) ->
        metadata_field (buildEPPMetadata metadata pool) ns key = metadata_field metadata ns key
  end.
Proof.
  destruct metadata as [m|]; [|done]. split; [|intros ns key; apply buildEPPMetadata_frame].
  unfold getInferencePoolByMetadata. rewrite poolMetadataString_built.
  destruct (slash_free pool) eqn:E; [|by apply pool_ref_slash].
  exists (normalize_pool pool). split; [by apply pool_ref_decodes|].
  split_and!; try done. apply normalize_pool_filter.
Qed.

Definition example_pool : InferencePool :=
  {| pool_name := "llm"; pool_namespace := "gw"; pool_annotations := None;
     pool_match_labels := ∅; pool_target_ports := [8000];
     epp_ref_name := "llm-epp"; epp_ref_port := Some 70000 |}.

(** Two pools with the same ext_proc filter name, or the same cluster name,
    are the same pool, as long as the first name and namespace have no
    underscore (Kubernetes names have none). *)
Theorem pool_names_injective p q :
  has_char "_" (pool_name p) = false -> has_char "_" (pool_name q) = false ->
  (httpFilterNameForInferencePool p = httpFilterNameForInferencePool q
   \/ clusterNameForInferencePool p = clusterNameForInferencePool q) ->
  pool_name p = pool_name q /\ pool_namespace p = pool_namespace q.
Proof.
  intros Hp Hq Heq.
  assert (pool_name p +:+ String "_" (pool_namespace p +:+ "_ext_proc")
          = pool_name q +:+ String "_" (pool_namespace q +:+ "_ext_proc")) as E.
  { destruct Heq as [Heq|Heq]; unfold httpFilterNameForInferencePool, clusterNameForInferencePool in Heq;
      repeat (rewrite str_app_cons in Heq; injection Heq as Heq); exact Heq. }
  apply str_sep_inj in E as [? E]; [|done..]. by apply str_app_inv_tail in E.
Qed.

Lemma pool_names_injective_witness :
  pool_name example_pool = pool_name (normalize_pool example_pool)
  /\ pool_namespace example_pool = pool_namespace (normalize_pool example_pool).
Proof.
  exact (pool_names_injective example_pool (normalize_pool example_pool)
           eq_refl eq_refl (or_introl eq_refl)).
Defined.
