(* ===== verification/Envoy.v ===== *)
(** * Envoy: the xDS resources the extension server edits

    The envoy protobuf messages (cluster, route, listener, HTTP connection
    manager) with the fields the gateway reads or writes, and the interface to
    the protobuf library ([ProtoCodec]): marshalling is a parameter whose only
    law is that unmarshalling what was marshalled gives it back. *)

From S2P Require Import Prelude GoStd ExtPool.

Local Open Scope Z_scope.

(** ** Messages *)

(** anypb.Any. *)
Record any := { type_url : string; value : string }.

Record HttpFilter := { hf_name : string; hf_typed_config : option any }.

(** [rds_route_config_name] is [None] when the route specifier is not Rds. *)
Record HttpConnectionManager := {
  rds_route_config_name : option string;
  http_filters : list HttpFilter;
  hcm_rest : string
}.

Record Filter := { f_name : string; f_typed_config : option any }.
Record FilterChain := { fc_name : string; fc_filters : list Filter }.
Record Listener := {
  l_name : string;
  filter_chains : list FilterChain;
  default_filter_chain : option FilterChain
}.

(** routev3.Route: the oneof [action] and the host rewrite of a RouteAction. *)
Inductive HostRewrite := AutoHostRewrite (b : bool) | OtherHostRewrite (spec : string).
Record RouteAction := { host_rewrite : option HostRewrite; action_rest : string }.
Inductive RouteActionKind :=
| ActionRoute (r : RouteAction)
| ActionOther (kind : string).
Record Route := {
  r_name : string;
  r_metadata : option Metadata;
  r_action : option RouteActionKind;
  typed_per_filter_config : option (gmap string any)
}.
Record VirtualHost := { vh_name : string; vh_routes : list Route }.
Record RouteConfiguration := { rc_name : string; virtual_hosts : list VirtualHost }.

(** clusterv3.Cluster. *)
Inductive DiscoveryType := STATIC | STRICT_DNS | LOGICAL_DNS | EDS | ORIGINAL_DST | CUSTOM.
Inductive LbPolicy := ROUND_ROBIN | LEAST_REQUEST | RING_HASH | RANDOM | MAGLEV | CLUSTER_PROVIDED.
Inductive LbConfig :=
| OriginalDstLbConfig (use_http_header : bool) (http_header_name : string)
| OtherLbConfig (cfg : string).
Record Endpoint := { ep_address : string; ep_port : Z; ep_healthy : bool }.
Record Cluster := {
  c_name : string;
  discovery_type : option DiscoveryType;
  lb_policy : LbPolicy;
  connect_timeout_s : option Z;
  lb_config : option LbConfig;
  load_balancing_policy : option string;
  eds_cluster_config : option string;
  c_metadata : option Metadata;
  transport_socket : option (string * any);
  load_assignment : option (string * list Endpoint);
  typed_extension_protocol_options : gmap string any
}.

(** The messages the gateway marshals. *)
Inductive proto_msg :=
| MHcm (h : HttpConnectionManager)
| MExtProc (e : ExternalProcessor)
| MExtProcPerRoute (disabled : bool)
| MUpstreamTls
| MHttp2Options.

(** ** The protobuf library *)

Definition envoyAPIPrefix : string := "type.googleapis.com/".

Class ProtoCodec := {
  proto_marshal : proto_msg -> option string;
  proto_full_name : proto_msg -> string;
  unmarshal_hcm : any -> option HttpConnectionManager;
  unmarshal_extproc : any -> option ExternalProcessor;
  (** wellknown.HTTPConnectionManager *)
  HTTPConnectionManager_name : string;
  unmarshal_marshal_hcm : forall h b,
    proto_marshal (MHcm h) = Some b ->
    unmarshal_hcm {| type_url := envoyAPIPrefix +:+ proto_full_name (MHcm h); value := b |} = Some h;
  unmarshal_marshal_extproc : forall e b,
    proto_marshal (MExtProc e) = Some b ->
    unmarshal_extproc {| type_url := envoyAPIPrefix +:+ proto_full_name (MExtProc e); value := b |} = Some e
}.

Inductive ext_error :=
| MarshalError
| TooManyPools (n : nat)
| NilFilterChain
| NoHcm (chain : string)
| UnmarshalError.

#[export] Instance any_eq_dec : EqDecision any.
Proof. solve_decision. Defined.
#[export] Instance HttpFilter_eq_dec : EqDecision HttpFilter.
Proof. solve_decision. Defined.
#[export] Instance HttpConnectionManager_eq_dec : EqDecision HttpConnectionManager.
Proof. solve_decision. Defined.
#[export] Instance ext_error_eq_dec : EqDecision ext_error.
Proof. solve_decision. Defined.

Section Codec.
Context {PC : ProtoCodec}.

(** [toAny]: the wire bytes under the URL of the message's full name. *)
Definition toAny (msg : proto_msg) : outcome ext_error any :=
  match proto_marshal msg with
  | None => Err MarshalError
  | Some b => Ret {| type_url := envoyAPIPrefix +:+ proto_full_name msg; value := b |}
  end.

(** [GetTypedConfig().UnmarshalTo]: a nil Any is an error. *)
Definition unmarshalHcm (a : option any) : outcome ext_error HttpConnectionManager :=
  match a ≫= unmarshal_hcm with Some h => Ret h | None => Err UnmarshalError end.

Definition unmarshalExtProc (a : option any) : outcome ext_error ExternalProcessor :=
  match a ≫= unmarshal_extproc with Some e => Ret e | None => Err UnmarshalError end.

Lemma toAny_hcm_roundtrip h a : toAny (MHcm h) = Ret a -> unmarshalHcm (Some a) = Ret h.
Proof.
  unfold toAny, unmarshalHcm. destruct (proto_marshal (MHcm h)) eqn:E; [|done].
  intros. simplify_eq/=. by rewrite unmarshal_marshal_hcm.
Qed.

Lemma toAny_extproc_roundtrip e a : toAny (MExtProc e) = Ret a -> unmarshalExtProc (Some a) = Ret e.
Proof.
  unfold toAny, unmarshalExtProc. destruct (proto_marshal (MExtProc e)) eqn:E; [|done].
  intros. simplify_eq/=. by rewrite unmarshal_marshal_extproc.
Qed.

End Codec.

#[export] Hint Resolve toAny_hcm_roundtrip toAny_extproc_roundtrip : go.

(** ** A concrete codec

    A wire format for examples: every value writes itself in front of what
    follows and reads itself back.  It shows that the law of [ProtoCodec] can
    hold and lets examples compute. *)

Class Wire (A : Type) := {
  put : A -> string -> string;
  get : string -> option (A * string);
  get_put : forall a k, get (put a k) = Some (a, k)
}.

#[export, refine] Instance wire_bool : Wire bool := {|
  put (b : bool) k := String (if b then "1" else "0")%char k;
  get (s : string) := match s with String c k => Some (bool_decide (c = "1"%char), k) | _ => None end
|}.
Proof. by intros []. Defined.

Fixpoint put_string (s k : string) : string :=
  match s with
  | EmptyString => String "." k
  | String c s' => String "x" (String c (put_string s' k))
  end.

Fixpoint get_string (s : string) : option (string * string) :=
  match s with
  | EmptyString => None
  | String t s1 =>
      if bool_decide (t = "."%char) then Some ("", s1)
      else match s1 with
           | EmptyString => None
           | String c s2 => '(r, k) ← get_string s2; Some (String c r, k)
           end
  end.

#[export, refine] Instance wire_string : Wire string := {| put := put_string; get := get_string |}.
Proof. intros s k. induction s as [|c s IH]; [done|]. simpl. by rewrite IH. Defined.

#[export, refine] Instance wire_prod {A B} `{Wire A, Wire B} : Wire (A * B) := {|
  put (p : A * B) k := put p.1 (put p.2 k);
  get (s : string) := '(a, s1) ← get s; '(b, s2) ← get s1; Some ((a, b), s2)
|}.
Proof. intros [a b] k. simpl. rewrite get_put. simpl. by rewrite get_put. Defined.

#[export, refine] Instance wire_option {A} `{Wire A} : Wire (option A) := {|
  put (o : option A) k := match o with None => put false k | Some a => put true (put a k) end;
  get (s : string) := '(b, s1) ← get s;
    if (b : bool) then '(a, s2) ← get s1; Some (Some a, s2) else Some (None, s1)
|}.
Proof. intros [a|] k; simpl; [by rewrite get_put|done]. Defined.

Fixpoint put_list {A} `{Wire A} (l : list A) (k : string) : string :=
  match l with [] => put false k | a :: l' => put true (put a (put_list l' k)) end.

Fixpoint get_list {A} `{Wire A} (fuel : nat) (s : string) : option (list A * string) :=
  match fuel with
  | O => None
  | S f => '(b, s1) ← get s;
      if (b : bool) then '(a, s2) ← get s1; '(l, s3) ← get_list f s2; Some (a :: l, s3)
      else Some ([], s1)
  end.

Lemma get_list_put_list {A} `{Wire A} (l : list A) k :
  get_list (S (length l)) (put_list l k) = Some (l, k).
Proof.
  induction l as [|a l IH]; [done|].
  assert (forall f s, get_list (A := A) (S f) (put true s)
    = '(a, s2) ← get s; '(l, s3) ← get_list f s2; Some (a :: l, s3)) as Hs by done.
  change (put_list (a :: l) k) with (put true (put a (put_list l k))).
  rewrite Hs, get_put. cbn [mbind option_bind length]. by rewrite IH.
Qed.

Fixpoint pluses (n : nat) : string :=
  match n with O => "" | S n' => String "+" (pluses n') end.

(** The length goes first, in unary, as the fuel of the reader. *)
#[export, refine] Instance wire_list {A} `{Wire A} : Wire (list A) := {|
  put (l : list A) k := put_string (pluses (length l)) (put_list l k);
  get (s : string) := '(n, s1) ← get_string s; get_list (S (String.length n)) s1
|}.
Proof.
  intros l k. change get_string with (get (A := string)). change put_string with (put (A := string)).
  rewrite get_put. simpl.
  assert (String.length (pluses (length l)) = length l) as ->.
  { induction (length l) as [|n IH]; [done|]. simpl. by rewrite IH. }
  apply get_list_put_list.
Defined.

Lemma wire_iso_law {A B} `{Wire B} (f : A -> B) (g : B -> A) :
  (forall a, g (f a) = a) ->
  forall a k, ('(b, s1) ← get (put (f a) k); Some (g b, s1)) = Some (a, k).
Proof. intros Hgf a k. rewrite get_put. simpl. by rewrite Hgf. Qed.

(** A type reads and writes as another one it maps to and from. *)
Definition wire_iso {A B} `{Wire B} (f : A -> B) (g : B -> A) (Hgf : forall a, g (f a) = a) : Wire A := {|
  put (a : A) k := put (f a) k;
  get (s : string) := '(b, s1) ← get s; Some (g b, s1);
  get_put := wire_iso_law f g Hgf
|}.

Fixpoint put_pos (p : positive) : string :=
  match p with xH => "" | xO p => String "0" (put_pos p) | xI p => String "1" (put_pos p) end.

Fixpoint get_pos (s : string) : positive :=
  match s with
  | EmptyString => xH
  | String c s' => if bool_decide (c = "1"%char) then xI (get_pos s') else xO (get_pos s')
  end.

Lemma get_put_pos p : get_pos (put_pos p) = p.
Proof. induction p as [p IH|p IH|]; simpl; by rewrite ?IH. Qed.

#[export, refine] Instance wire_Z : Wire Z :=
  wire_iso (fun z => put_pos (encode z)) (fun s => default 0 (decode (get_pos s))) _.
Proof. intros z. cbv beta. by rewrite get_put_pos, decode_encode. Defined.

Definition body_mode_code (m : BodySendMode) : Z :=
  match m with BODY_NONE => 0 | STREAMED => 1 | BUFFERED => 2 | BUFFERED_PARTIAL => 3
  | FULL_DUPLEX_STREAMED => 4 end.
Definition code_body_mode (n : Z) : BodySendMode :=
  match n with 0 => BODY_NONE | 1 => STREAMED | 2 => BUFFERED | 3 => BUFFERED_PARTIAL
  | _ => FULL_DUPLEX_STREAMED end.
Definition header_mode_code (m : HeaderSendMode) : Z :=
  match m with HEADER_DEFAULT => 0 | SEND => 1 | SKIP => 2 end.
Definition code_header_mode (n : Z) : HeaderSendMode :=
  match n with 0 => HEADER_DEFAULT | 1 => SEND | _ => SKIP end.

#[export, refine] Instance wire_body_mode : Wire BodySendMode := wire_iso body_mode_code code_body_mode _.
Proof. by intros []. Defined.
#[export, refine] Instance wire_header_mode : Wire HeaderSendMode := wire_iso header_mode_code code_header_mode _.
Proof. by intros []. Defined.

#[export, refine] Instance wire_any : Wire any :=
  wire_iso (fun a => (type_url a, value a)) (fun p => {| type_url := p.1; value := p.2 |}) _.
Proof. by intros []. Defined.
#[export, refine] Instance wire_HttpFilter : Wire HttpFilter :=
  wire_iso (fun f => (hf_name f, hf_typed_config f))
    (fun p => {| hf_name := p.1; hf_typed_config := p.2 |}) _.
Proof. by intros []. Defined.
#[export, refine] Instance wire_hcm : Wire HttpConnectionManager :=
  wire_iso (fun h => (rds_route_config_name h, http_filters h, hcm_rest h))
    (fun p => {| rds_route_config_name := p.1.1; http_filters := p.1.2; hcm_rest := p.2 |}) _.
Proof. by intros []. Defined.
#[export, refine] Instance wire_extproc : Wire ExternalProcessor :=
  wire_iso (fun e => (grpc_cluster_name e, grpc_authority e, request_header_mode e,
      request_body_mode e, request_trailer_mode e, response_body_mode e, response_header_mode e,
      response_trailer_mode e, allow_mode_override e, message_timeout_s e, failure_mode_allow e))
    (fun '(a, b, c, d, e, f, g, h, i, j, k) => Build_ExternalProcessor a b c d e f g h i j k) _.
Proof. by intros []. Defined.

Definition codec_name (m : proto_msg) : string :=
  match m with
  | MHcm _ => "hcm" | MExtProc _ => "ext_proc" | MExtProcPerRoute _ => "ext_proc_per_route"
  | MUpstreamTls => "tls" | MHttp2Options => "http2"
  end.

#[export, refine] Instance codec_default : ProtoCodec | 100 := {|
  proto_marshal m := Some
    match m with
    | MHcm h => put h ""
    | MExtProc e => put e ""
    | MExtProcPerRoute b => put b ""
    | _ => ""
    end;
  proto_full_name := codec_name;
  unmarshal_hcm a :=
    if bool_decide (type_url a = envoyAPIPrefix +:+ "hcm") then fst <$> get (value a) else None;
  unmarshal_extproc a :=
    if bool_decide (type_url a = envoyAPIPrefix +:+ "ext_proc") then fst <$> get (value a) else None;
  HTTPConnectionManager_name := "envoy.filters.network.http_connection_manager"
|}.
Proof.
  - intros h b E. simplify_eq. rewrite bool_decide_eq_true_2 by done. cbn [value]. by rewrite get_put.
  - intros h b E. simplify_eq. rewrite bool_decide_eq_true_2 by done. cbn [value]. by rewrite get_put.
Defined.
