(* ===== verification/ExtCluster.v ===== *)
(** * ExtCluster: the per-cluster and per-route hooks

    src/pkg/extensionserver/post_cluster_modify.go and post_route_modify.go: a
    cluster or a route that references an InferencePool is rewritten so that
    Envoy takes the destination from the endpoint picker's header, and the pool
    is recorded in its metadata. *)

From S2P Require Import Prelude GoStd ExtPool Envoy.

Local Open Scope Z_scope.

(** ** Requests

    The two requests have the same shape: the object, nil when unset, and the
    extension resources of its context, [None] when the context is nil. *)
Record PostClusterModifyRequest := {
  req_cluster : option Cluster;
  cluster_resources : option (list string)
}.

Record PostRouteModifyRequest := {
  req_route : option Route;
  route_resources : option (list string)
}.

(** ** Operations *)

Definition buildEPPMetadataForCluster (cluster : Cluster) (pool : InferencePool) : Cluster :=
  {| c_name := c_name cluster;
     discovery_type := discovery_type cluster;
     lb_policy := lb_policy cluster;
     connect_timeout_s := connect_timeout_s cluster;
     lb_config := lb_config cluster;
     load_balancing_policy := load_balancing_policy cluster;
     eds_cluster_config := eds_cluster_config cluster;
     c_metadata := buildEPPMetadata (c_metadata cluster) pool;
     transport_socket := transport_socket cluster;
     load_assignment := load_assignment cluster;
     typed_extension_protocol_options := typed_extension_protocol_options cluster |}.

Definition buildEPPMetadataForRoute (route : Route) (pool : InferencePool) : Route :=
  {| r_name := r_name route;
     r_metadata := buildEPPMetadata (r_metadata route) pool;
     r_action := r_action route;
     typed_per_filter_config := typed_per_filter_config route |}.

Definition handleInferencePoolCluster (cluster : Cluster) (pool : InferencePool) : Cluster :=
  buildEPPMetadataForCluster
    {| c_name := c_name cluster;
       discovery_type := Some ORIGINAL_DST;
       lb_policy := CLUSTER_PROVIDED;
       connect_timeout_s := Some 10;
       lb_config := Some (OriginalDstLbConfig true EndpointPickerHeaderKey);
       load_balancing_policy := None;
       eds_cluster_config := None;
       c_metadata := c_metadata cluster;
       transport_socket := transport_socket cluster;
       load_assignment := load_assignment cluster;
       typed_extension_protocol_options := typed_extension_protocol_options cluster |} pool.

(** [route.GetRoute().HostRewriteSpecifier = ...]: the getter gives nil for
    every other action, and the assignment through nil panics. *)
Definition disableHostRewrite (route : Route) : outcome ext_error Route :=
  match r_action route with
  | Some (ActionRoute a) =>
      Ret {| r_name := r_name route;
             r_metadata := r_metadata route;
             r_action := Some (ActionRoute {| host_rewrite := Some (AutoHostRewrite false);
                                              action_rest := action_rest a |});
             typed_per_filter_config := typed_per_filter_config route |}
  | _ => Panic NilDereference
  end.

Definition initPerFilterConfig (route : Route) : Route :=
  {| r_name := r_name route;
     r_metadata := r_metadata route;
     r_action := r_action route;
     typed_per_filter_config := Some (default ∅ (typed_per_filter_config route)) |}.

Section Hooks.
Context {UC : UnstructuredCodec}.

(** The result is the response: [None] for a nil response. *)
Definition PostClusterModify (req : PostClusterModifyRequest) : outcome ext_error (option Cluster) :=
  match req_cluster req with
  | None => Ret None
  | Some cluster =>
      match cluster_resources req with
      | None | Some [] => Ret (Some cluster)
      | Some resources =>
          match constructInferencePoolsFrom resources with
          | [] => Ret (Some cluster)
          | [pool] => Ret (Some (handleInferencePoolCluster cluster pool))
          | pools => Err (TooManyPools (length pools))
          end
      end
  end.

Definition PostRouteModify (req : PostRouteModifyRequest) : outcome ext_error (option Route) :=
  match req_route req with
  | None => Ret None
  | Some route =>
      match route_resources req with
      | None | Some [] => Ret (Some route)
      | Some resources =>
          match constructInferencePoolsFrom resources with
          | [] => Ret (Some route)
          | [pool] =>
              let* route1 := disableHostRewrite route in
              let route2 := initPerFilterConfig route1 in
              Ret (Some (buildEPPMetadataForRoute route2 pool))
          | pools => Err (TooManyPools (length pools))
          end
      end
  end.

(** The pools of a request: none for a nil context. *)
Definition request_pools (resources : option (list string)) : list InferencePool :=
  constructInferencePoolsFrom (default [] resources).

(** ** Lemmas *)

Lemma constructInferencePoolsFrom_omap resources :
  constructInferencePoolsFrom resources = omap constructInferencePool resources.
Proof.
  induction resources as [|r rs IH]; [done|]. simpl.
  by destruct (constructInferencePool r); rewrite IH.
Qed.

Lemma PostClusterModify_some cluster resources :
  PostClusterModify {| req_cluster := Some cluster; cluster_resources := resources |}
  = match request_pools resources with
    | [] => Ret (Some cluster)
    | [pool] => Ret (Some (handleInferencePoolCluster cluster pool))
    | pools => Err (TooManyPools (length pools))
    end.
Proof. by destruct resources as [[|]|]. Qed.

Lemma PostRouteModify_some route resources :
  PostRouteModify {| req_route := Some route; route_resources := resources |}
  = match request_pools resources with
    | [] => Ret (Some route)
    | [pool] =>
        let* route1 := disableHostRewrite route in
        Ret (Some (buildEPPMetadataForRoute (initPerFilterConfig route1) pool))
    | pools => Err (TooManyPools (length pools))
    end.
Proof. by destruct resources as [[|]|]. Qed.

Lemma buildEPPMetadata_decodes m pool :
  slash_free pool = true ->
  getInferencePoolByMetadata (buildEPPMetadata (Some m) pool) = Some (normalize_pool pool).
Proof.
  intros H. unfold getInferencePoolByMetadata. rewrite poolMetadataString_built.
  by apply pool_ref_decodes.
Qed.

(** ** Properties *)

(** The cluster hook, on every branch.  It answers nil for a nil cluster,
    the cluster itself when the request names no InferencePool, an error that
    counts the pools when it names several; with exactly one, the cluster keeps
    its name, takes destinations from the endpoint picker's header as an
    ORIGINAL_DST cluster, loses its load balancing policy and EDS config, and,
    when it had metadata, decodes to that pool with defaults explicit. *)
Theorem post_cluster_modify_branches cluster resources :
  PostClusterModify {| req_cluster := None; cluster_resources := resources |} = Ret None /\
  match request_pools resources,
        PostClusterModify {| req_cluster := Some cluster; cluster_resources := resources |} with
  | [], Ret (Some c) => c = cluster
  | [pool], Ret (Some c) =>
      c_name c = c_name cluster /\ discovery_type c = Some ORIGINAL_DST /\
      lb_policy c = CLUSTER_PROVIDED /\
      lb_config c = Some (OriginalDstLbConfig true EndpointPickerHeaderKey) /\
      load_balancing_policy c = None /\ eds_cluster_config c = None /\
      (c_metadata cluster = None \/ slash_free pool = false \/
       getInferencePoolByMetadata (c_metadata c) = Some (normalize_pool pool))
  | (_ :: _ :: _) as pools, Err e => e = TooManyPools (length pools)
  | _, _ => False
  end.
Proof.
  split; [done|]. rewrite PostClusterModify_some.
  destruct (request_pools resources) as [|pool [|]]; [done| |done]. simpl.
  repeat split; [].
  destruct (c_metadata cluster) as [m|] eqn:Em; [|by left]. right.
  destruct (slash_free pool) eqn:Es; [|by left]. right.
  by apply buildEPPMetadata_decodes.
Qed.

(** A cluster or a route whose metadata is nil loses the pool: the hook
    returns it with its metadata still nil, so that no pool can be read back
    from it, whatever the request names. *)
Theorem nil_metadata_loses_pool cluster route resources :
  c_metadata cluster = None -> r_metadata route = None ->
  (forall c, PostClusterModify {| req_cluster := Some cluster; cluster_resources := resources |}
      = Ret (Some c) -> c_metadata c = None /\ getInferencePoolByMetadata (c_metadata c) = None) /\
  (forall r, PostRouteModify {| req_route := Some route; route_resources := resources |}
      = Ret (Some r) -> r_metadata r = None /\ getInferencePoolByMetadata (r_metadata r) = None).
Proof.
  intros Hc Hr. rewrite PostClusterModify_some, PostRouteModify_some.
  unfold disableHostRewrite. split; intros x H.
  - destruct (request_pools resources) as [|pool [|]]; simplify_eq/=; by rewrite Hc.
  - destruct (request_pools resources) as [|pool [|]]; simplify_eq/=; [by rewrite Hr|].
    destruct (r_action route) as [[]|]; simplify_eq/=. by rewrite Hr.
Qed.

(** The route hook panics in exactly one case, one pool on a route whose
    action is not a forward to a cluster (a redirect, a direct response, no
    action); otherwise, with one pool, host rewriting is off, the per-filter
    configuration is no longer nil and keeps its entries, and the rest of the
    action, the name and the other metadata are untouched. *)
Theorem post_route_modify_branches route resources :
  (PostRouteModify {| req_route := Some route; route_resources := resources |} = Panic NilDereference
   <-> (exists pool, request_pools resources = [pool]) /\
       forall a, r_action route <> Some (ActionRoute a)) /\
  forall pool r, request_pools resources = [pool] ->
    PostRouteModify {| req_route := Some route; route_resources := resources |} = Ret (Some r) ->
    (exists a, r_action route = Some (ActionRoute a) /\
       r_action r = Some (ActionRoute {| host_rewrite := Some (AutoHostRewrite false);
                                         action_rest := action_rest a |})) /\
    typed_per_filter_config r = Some (default ∅ (typed_per_filter_config route)) /\
    r_name r = r_name route /\
    (forall m ns key, r_metadata route = Some m ->
       ns <> InternalEndpointMetadataNamespace \/ key <> internalMetadataInferencePoolKey ->
       metadata_field (r_metadata r) ns key = metadata_field (r_metadata route) ns key).
Proof.
  rewrite PostRouteModify_some. unfold disableHostRewrite. split.
  - destruct (request_pools resources) as [|pool [|]]; [naive_solver| |naive_solver].
    destruct (r_action route) as [[]|]; simpl; naive_solver.
  - intros pool r -> H.
    destruct (r_action route) as [[a|]|]; simplify_eq/=.
    repeat split; [eauto|]. intros m ns key -> Hor. by apply buildEPPMetadata_frame.
Qed.

End Hooks.

(** ** Witnesses *)

(** A decoder for examples: the resource is the name of the pool. *)
#[local] Instance codec_example : UnstructuredCodec := {|
  Unstructured := string;
  json_unmarshal s := if bool_decide (s = "") then None else Some s;
  GetAPIVersion _ := "inference.networking.k8s.io/v1";
  GetKind _ := "InferencePool";
  FromUnstructured s :=
    Some {| pool_name := s; pool_namespace := "gw"; pool_annotations := None;
            pool_match_labels := ∅; pool_target_ports := [8000];
            epp_ref_name := s; epp_ref_port := None |}
|}.

Definition example_cluster : Cluster :=
  {| c_name := "httproute/gw/r/rule/0"; discovery_type := Some EDS; lb_policy := ROUND_ROBIN;
     connect_timeout_s := None; lb_config := None; load_balancing_policy := Some "wrr";
     eds_cluster_config := Some "ads"; c_metadata := None; transport_socket := None;
     load_assignment := None; typed_extension_protocol_options := ∅ |}.

Definition example_route : Route :=
  {| r_name := "r0"; r_metadata := None;
     r_action := Some (ActionRoute {| host_rewrite := None; action_rest := "cluster" |});
     typed_per_filter_config := None |}.

Lemma nil_metadata_loses_pool_witness :
  c_metadata (handleInferencePoolCluster example_cluster example_pool) = None.
Proof.
  exact (proj1 (proj1 (nil_metadata_loses_pool example_cluster example_route (Some ["llm"])
           eq_refl eq_refl) _ eq_refl)).
Defined.

Lemma post_route_modify_branches_witness :
  exists r, PostRouteModify {| req_route := Some example_route; route_resources := Some ["llm"] |}
            = Ret (Some r) /\ typed_per_filter_config r = Some ∅.
Proof.
  eexists. split; [reflexivity|].
  exact (proj1 (proj2 (proj2 (post_route_modify_branches example_route (Some ["llm"])) _ _ eq_refl eq_refl))).
Defined.
