(* ===== verification/ExtTranslate.v ===== *)
(** * ExtTranslate: the translation hook

    src/pkg/extensionserver/post_translate_modify.go: once per translation the
    hook adds one cluster per endpoint picker, inserts the pools' ext_proc
    filters into the listeners that reach them, and disables those filters on
    the routes that do not use them.  Listeners and routes are objects the code
    reaches through maps from their names; the maps hold indexes here, and a
    write through an index is the write to the shared object. *)

From S2P Require Import Prelude GoStd ExtPool Envoy.

Local Open Scope Z_scope.

(** ** The xDS state *)

Record xds := { xds_listeners : list Listener; xds_routes : list RouteConfiguration }.

Record PostTranslateModifyRequest := {
  tr_clusters : list Cluster;
  tr_secrets : list string;
  tr_listeners : list Listener;
  tr_routes : list RouteConfiguration
}.

(** [m[k] = index of the last element named k]. *)
Fixpoint index_by_name {A} (name : A -> string) (i : nat) (l : list A) (m : gmap string nat)
    : gmap string nat :=
  match l with
  | [] => m
  | x :: l' => index_by_name name (S i) l' (<[name x := i]> m)
  end.

Section Translate.
Context {PC : ProtoCodec} {MI : MapIter}.

(** ** Clusters *)

Definition buildExtProcClusterForInferencePoolEndpointPicker (pool : InferencePool)
    : outcome ext_error Cluster :=
  let name := clusterNameForInferencePool pool in
  let* anyTLS := toAny MUpstreamTls in
  let* anyHTTP2 := toAny MHttp2Options in
  Ret {| c_name := name;
         discovery_type := Some STRICT_DNS;
         lb_policy := LEAST_REQUEST;
         connect_timeout_s := Some 10;
         lb_config := None;
         load_balancing_policy := None;
         eds_cluster_config := None;
         c_metadata := None;
         transport_socket := Some ("envoy.transport_sockets.tls", anyTLS);
         load_assignment := Some (name,
           [{| ep_address := dnsNameForInferencePool pool;
               ep_port := portForInferencePool pool;
               ep_healthy := true |}]);
         typed_extension_protocol_options :=
           {["envoy.extensions.upstreams.http.v3.HttpProtocolOptions" := anyHTTP2]} |}.

Fixpoint buildClustersForInferencePoolEndpointPickers (clusters : list Cluster)
    : outcome ext_error (list Cluster) :=
  match clusters with
  | [] => Ret []
  | cluster :: rest =>
      match getInferencePoolByMetadata (c_metadata cluster) with
      | None => buildClustersForInferencePoolEndpointPickers rest
      | Some pool =>
          let* c := buildExtProcClusterForInferencePoolEndpointPicker pool in
          let* cs := buildClustersForInferencePoolEndpointPickers rest in
          Ret (c :: cs)
      end
  end.

(** ** HTTP filters *)

Definition buildInferencePoolHTTPFilter (pool : InferencePool) : outcome ext_error HttpFilter :=
  let* a := toAny (MExtProc (buildHTTPFilterForInferencePool pool)) in
  Ret {| hf_name := httpFilterNameForInferencePool pool; hf_typed_config := Some a |}.

(** The first filter of that name: its processor and its index, [None] for the
    index -1. *)
Fixpoint searchFilter (name : string) (i : nat) (chain : list HttpFilter)
    : outcome ext_error (option (ExternalProcessor * nat)) :=
  match chain with
  | [] => Ret None
  | filter :: rest =>
      if bool_decide (hf_name filter = name) then
        let* ep := unmarshalExtProc (hf_typed_config filter) in
        Ret (Some (ep, i))
      else searchFilter name (S i) rest
  end.

Definition searchInferencePoolInFilterChain (pool : InferencePool) (chain : list HttpFilter)
    : outcome ext_error (option (ExternalProcessor * nat)) :=
  searchFilter (httpFilterNameForInferencePool pool) 0 chain.

Fixpoint findHcm (chain : string) (i : nat) (filters : list Filter)
    : outcome ext_error (HttpConnectionManager * nat) :=
  match filters with
  | [] => Err (NoHcm chain)
  | filter :: rest =>
      if bool_decide (f_name filter = HTTPConnectionManager_name) then
        let* hcm := unmarshalHcm (f_typed_config filter) in
        Ret (hcm, i)
      else findHcm chain (S i) rest
  end.

Definition findHttpConnectionManager (filterChain : option FilterChain)
    : outcome ext_error (HttpConnectionManager * nat) :=
  match filterChain with
  | None => Err NilFilterChain
  | Some fc => findHcm (fc_name fc) 0 (fc_filters fc)
  end.

(** The route configuration name of a chain, when it has an HCM with RDS. *)
Definition chainRouteName (fc : option FilterChain) : option string :=
  match findHttpConnectionManager fc with
  | Ret (hcm, _) => rds_route_config_name hcm
  | _ => None
  end.

Definition findListenerRouteConfigs (listener : Listener) : list string :=
  omap (fun fc => n ← chainRouteName (Some fc); if bool_decide (n = ""%string) then None else Some n)
    (filter_chains listener)
  ++ option_list (chainRouteName (default_filter_chain listener)).

(** ** Listeners *)

(** The filters a chain lacks: pools whose search or marshalling fails are
    skipped. *)
Definition poolFilter (filters : list HttpFilter) (pool : InferencePool) : option HttpFilter :=
  match searchInferencePoolInFilterChain pool filters with
  | Ret None =>
      match buildInferencePoolHTTPFilter pool with Ret f => Some f | _ => None end
  | _ => None
  end.

Definition poolFilters (filters : list HttpFilter) (pools : list InferencePool) : list HttpFilter :=
  omap (poolFilter filters) pools.

(** The last filter is the router: the new ones go before it. Indexing an empty
    slice at [length-1] panics. *)
Definition insertPoolFilters (filters newFilters : list HttpFilter)
    : outcome ext_error (list HttpFilter) :=
  match newFilters with
  | [] => Ret filters
  | _ =>
      match last filters with
      | None => Panic IndexOutOfRange
      | Some router =>
          Ret ((take (length filters - 1) filters ++ newFilters) ++ [router])
      end
  end.

Definition with_http_filters (hcm : HttpConnectionManager) (fs : list HttpFilter)
    : HttpConnectionManager :=
  {| rds_route_config_name := rds_route_config_name hcm; http_filters := fs;
     hcm_rest := hcm_rest hcm |}.

Definition setTypedConfig (a : any) (f : Filter) : Filter :=
  {| f_name := f_name f; f_typed_config := Some a |}.

(** One turn of the loop over the chains. *)
Definition patchFilterChain (pools : list InferencePool) (currChain : FilterChain)
    : outcome ext_error FilterChain :=
  match findHttpConnectionManager (Some currChain) with
  | Ret (hcm, hcmIndex) =>
      let* fs := insertPoolFilters (http_filters hcm) (poolFilters (http_filters hcm) pools) in
      match toAny (MHcm (with_http_filters hcm fs)) with
      | Ret hcmAny =>
          Ret {| fc_name := fc_name currChain;
                 fc_filters := alter (setTypedConfig hcmAny) hcmIndex (fc_filters currChain) |}
      | _ => Ret currChain
      end
  | _ => Ret currChain
  end.

Fixpoint patchChains (pools : list InferencePool) (chains : list FilterChain)
    : outcome ext_error (list FilterChain) :=
  match chains with
  | [] => Ret []
  | c :: cs =>
      let* c' := patchFilterChain pools c in
      let* cs' := patchChains pools cs in
      Ret (c' :: cs')
  end.

Definition patchListenerWithInferencePoolFilters (listener : Listener) (pools : list InferencePool)
    : outcome ext_error Listener :=
  let* chains := patchChains pools (filter_chains listener) in
  let* defaultFC :=
    match default_filter_chain listener with
    | None => Ret None
    | Some fc => let* fc' := patchFilterChain pools fc in Ret (Some fc')
    end in
  Ret {| l_name := l_name listener; filter_chains := chains; default_filter_chain := defaultFC |}.

(** ** Virtual hosts *)

Definition inferenceMatrix (pools : list InferencePool) : gmap string InferencePool :=
  foldl (fun m pool => <[httpFilterNameForInferencePool pool := pool]> m) ∅ pools.

Definition set_per_filter_config (route : Route) (key : string) (a : any) : Route :=
  {| r_name := r_name route; r_metadata := r_metadata route; r_action := r_action route;
     typed_per_filter_config := Some (<[key := a]> (default ∅ (typed_per_filter_config route))) |}.

Definition patchRoute (matrix : gmap string InferencePool) (route : Route)
    : outcome ext_error Route :=
  let* overrideAny := toAny (MExtProcPerRoute true) in
  match getInferencePoolByMetadata (r_metadata route) with
  | None =>
      Ret (foldl (fun r kp => set_per_filter_config r kp.1 overrideAny) route
             (map_range ["matrix"; r_name route] matrix))
  | Some inferencePool =>
      Ret (foldl (fun r kp =>
             if bool_decide (kp.1 <> httpFilterNameForInferencePool inferencePool)
             then set_per_filter_config r kp.1 overrideAny else r) route
             (map_range ["matrix"; r_name route] matrix))
  end.

Fixpoint patchRoutes (matrix : gmap string InferencePool) (routes : list Route)
    : outcome ext_error (list Route) :=
  match routes with
  | [] => Ret []
  | r :: rs =>
      let* r' := patchRoute matrix r in
      let* rs' := patchRoutes matrix rs in
      Ret (r' :: rs')
  end.

Definition patchVirtualHostWithInferencePool (vh : VirtualHost) (pools : list InferencePool)
    : outcome ext_error VirtualHost :=
  let* rs := patchRoutes (inferenceMatrix pools) (vh_routes vh) in
  Ret {| vh_name := vh_name vh; vh_routes := rs |}.

Fixpoint patchVirtualHosts (pools : list InferencePool) (vhs : list VirtualHost)
    : outcome ext_error (list VirtualHost) :=
  match vhs with
  | [] => Ret []
  | vh :: rest =>
      let* vh' := patchVirtualHostWithInferencePool vh pools in
      let* rest' := patchVirtualHosts pools rest in
      Ret (vh' :: rest')
  end.

(** ** Listeners and routes together *)

Definition special_listener (listener : Listener) : bool :=
  has_prefix "envoy-gateway-proxy-stats-" (l_name listener)
  || has_prefix "envoy-gateway-proxy-ready-" (l_name listener).

(** The two maps of the first loop, keyed by listener name. *)
Fixpoint indexListeners (i : nat) (listeners : list Listener)
    (names : gmap string (list string)) (idx : gmap string nat)
    : gmap string (list string) * gmap string nat :=
  match listeners with
  | [] => (names, idx)
  | l :: ls =>
      if special_listener l then indexListeners (S i) ls names idx
      else indexListeners (S i) ls (<[l_name l := findListenerRouteConfigs l]> names)
             (<[l_name l := i]> idx)
  end.

(** The inner map of one route configuration: a later route of the same name
    replaces the pool of an earlier one.  [None] is the nil inner map. *)
Definition addRoutePool (m : option (gmap string InferencePool)) (route : Route)
    : option (gmap string InferencePool) :=
  match getInferencePoolByMetadata (r_metadata route) with
  | None => m
  | Some pool => Some (<[r_name route := pool]> (default ∅ m))
  end.

Definition config_routes (rc : RouteConfiguration) : list Route :=
  mjoin (vh_routes <$> virtual_hosts rc).

Definition addRouteConfigPools (m : gmap string (gmap string InferencePool))
    (rc : RouteConfiguration) : gmap string (gmap string InferencePool) :=
  match foldl addRoutePool (m !! rc_name rc) (config_routes rc) with
  | None => m
  | Some inner => <[rc_name rc := inner]> m
  end.

Definition routePools (routes : list RouteConfiguration)
    : gmap string (gmap string InferencePool) :=
  foldl addRouteConfigPools ∅ routes.

(** The pools of one listener, in the order they are met; [i] numbers the
    names, since a name met twice is iterated twice. *)
Fixpoint listenerPools (listener : string) (i : nat) (routeIdx : gmap string nat)
    (pools : gmap string (gmap string InferencePool)) (names : list string) : list InferencePool :=
  match names with
  | [] => []
  | name :: rest =>
      match routeIdx !! name, pools !! name with
      | Some _, Some inner =>
          (map_range ["pools"; listener; itoa (Z.of_nat i); name] inner).*2
      | _, _ => []
      end ++ listenerPools listener (S i) routeIdx pools rest
  end.

(** A listener gets an entry only when a pool is appended to it. *)
Definition addListenerPools (routeIdx : gmap string nat)
    (pools : gmap string (gmap string InferencePool))
    (m : gmap string (list InferencePool)) (entry : string * list string)
    : gmap string (list InferencePool) :=
  match listenerPools entry.1 0 routeIdx pools entry.2 with
  | [] => m
  | ps => <[entry.1 := ps]> m
  end.

Definition listenerToInferencePools (names : gmap string (list string))
    (routeIdx : gmap string nat) (pools : gmap string (gmap string InferencePool))
    : gmap string (list InferencePool) :=
  foldl (addListenerPools routeIdx pools) ∅ (map_range ["listeners"] names).

Definition patchRouteConfiguration (pools : list InferencePool) (rc : RouteConfiguration)
    : outcome ext_error RouteConfiguration :=
  let* vhs := patchVirtualHosts pools (virtual_hosts rc) in
  Ret {| rc_name := rc_name rc; virtual_hosts := vhs |}.

Fixpoint patchRouteConfigs (pools : list InferencePool) (routeIdx : gmap string nat)
    (names : list string) (routes : list RouteConfiguration)
    : outcome ext_error (list RouteConfiguration) :=
  match names with
  | [] => Ret routes
  | name :: rest =>
      match routeIdx !! name ≫= fun i => rc ← routes !! i; Some (i, rc) with
      | None => patchRouteConfigs pools routeIdx rest routes
      | Some (i, rc) =>
          let* rc' := patchRouteConfiguration pools rc in
          patchRouteConfigs pools routeIdx rest (<[i := rc']> routes)
      end
  end.

(** One turn of the patching loop. *)
Definition patchEntry (names : gmap string (list string)) (listenerIdx routeIdx : gmap string nat)
    (entry : string * list InferencePool) (st : xds) : outcome ext_error xds :=
  let* i := deref (listenerIdx !! entry.1) in
  let* l := deref (xds_listeners st !! i) in
  let* l' := patchListenerWithInferencePoolFilters l entry.2 in
  let* rs := patchRouteConfigs entry.2 routeIdx (default [] (names !! entry.1)) (xds_routes st) in
  Ret {| xds_listeners := <[i := l']> (xds_listeners st); xds_routes := rs |}.

Fixpoint patchEntries (names : gmap string (list string)) (listenerIdx routeIdx : gmap string nat)
    (entries : list (string * list InferencePool)) (st : xds) : outcome ext_error xds :=
  match entries with
  | [] => Ret st
  | e :: es =>
      let* st' := patchEntry names listenerIdx routeIdx e st in
      patchEntries names listenerIdx routeIdx es st'
  end.

Definition maybeModifyListenerAndRoutes (st : xds) : outcome ext_error xds :=
  let '(names, listenerIdx) := indexListeners 0 (xds_listeners st) ∅ ∅ in
  let routeIdx := index_by_name rc_name 0 (xds_routes st) ∅ in
  let pools := routePools (xds_routes st) in
  patchEntries names listenerIdx routeIdx
    (map_range ["patch"] (listenerToInferencePools names routeIdx pools)) st.

Definition PostTranslateModify (req : PostTranslateModifyRequest)
    : outcome ext_error PostTranslateModifyRequest :=
  let* cs := buildClustersForInferencePoolEndpointPickers (tr_clusters req) in
  let* st := maybeModifyListenerAndRoutes
               {| xds_listeners := tr_listeners req; xds_routes := tr_routes req |} in
  Ret {| tr_clusters := tr_clusters req ++ cs;
         tr_secrets := tr_secrets req;
         tr_listeners := xds_listeners st;
         tr_routes := xds_routes st |}.

End Translate.
