(* ===== verification/EgListener.v ===== *)
(** * EgListener: the listeners of the Envoy gateway, and the extension server

    pkg/envoygateway/xds/translator/listener.go: the HTTP connection manager that
    the translator puts into the default filter chain of a listener; and what the
    extension server (ExtTranslate) makes of such a listener.  The name of the
    chain is left out in the source and is a parameter. *)

From S2P Require Import Prelude GoStd ExtPool Envoy ExtTranslate.

(** ** The translator *)

Inductive listener_error := ChainExists | HcmMarshal (e : ext_error).

#[export] Instance listener_error_eq_dec : EqDecision listener_error.
Proof. solve_decision. Defined.

Section Listener.
Context {PC : ProtoCodec} {MI : MapIter} (chain_name : string).

(** The fields that are not the zero value. *)
Definition translator_hcm : HttpConnectionManager :=
  {| rds_route_config_name := None; http_filters := [];
     hcm_rest := "codec_type: AUTO, server_header_transformation: PASS_THROUGH" |}.

Definition addHTTPConnectionManagerToXdsListener (xdsListener : Listener) : outcome listener_error Listener :=
  match toAny (MHcm translator_hcm) with
  | Err e => Err (HcmMarshal e)
  | Panic p => Panic p
  | Ret filterAny =>
      let filters := [{| f_name := HTTPConnectionManager_name; f_typed_config := Some filterAny |}] in
      let filterChain := {| fc_name := chain_name; fc_filters := filters |} in
      match default_filter_chain xdsListener with
      | Some _ => Err ChainExists
      | None => Ret {| l_name := l_name xdsListener; filter_chains := filter_chains xdsListener;
                       default_filter_chain := Some filterChain |}
      end
  end.

(** ** The extension server on such a listener *)

Lemma findHcm_translator a rest :
  toAny (MHcm translator_hcm) = Ret a ->
  findHcm chain_name 0 ({| f_name := HTTPConnectionManager_name; f_typed_config := Some a |} :: rest) =
  Ret (translator_hcm, 0).
Proof. intros Ha. cbn. rewrite bool_decide_eq_true_2 by done. by rewrite (toAny_hcm_roundtrip _ _ Ha). Qed.

(** C16: the translator and the extension server do not meet.  A listener gets its
    connection manager once: the default chain is set, nothing else changes, and
    a second attempt is refused.  The extension server finds this manager, but it
    has neither routes nor filters: the default chain names no route
    configuration, so no InferencePool is ever looked for behind it; and if the
    server were to add a pool's picker to it, the process would panic, for it
    indexes the last filter of an empty list. *)
Theorem translator_listener_unpicked (l l' : Listener) :
  addHTTPConnectionManagerToXdsListener l = Ret l' ->
  (l_name l' = l_name l /\ filter_chains l' = filter_chains l /\
   addHTTPConnectionManagerToXdsListener l' = Err ChainExists) /\
  findHttpConnectionManager (default_filter_chain l') = Ret (translator_hcm, 0) /\
  (filter_chains l = [] -> findListenerRouteConfigs l' = []) /\
  (forall pools, poolFilters [] pools <> [] ->
     Forall (fun f => exists c, patchFilterChain pools f = Ret c) (filter_chains l) ->
     patchListenerWithInferencePoolFilters l' pools = Panic IndexOutOfRange).
Proof.
  unfold addHTTPConnectionManagerToXdsListener.
  destruct (toAny (MHcm translator_hcm)) as [a|e|p] eqn:Ha; [|done..].
  destruct (default_filter_chain l) eqn:Hd; [done|]. intros [= <-]. cbn [l_name filter_chains default_filter_chain].
  assert (findHttpConnectionManager
    (Some {| fc_name := chain_name;
             fc_filters := [{| f_name := HTTPConnectionManager_name; f_typed_config := Some a |}] |}) =
    Ret (translator_hcm, 0)) as Hf by (by apply findHcm_translator).
  split_and!; try done.
  - intros Hc. unfold findListenerRouteConfigs, chainRouteName. cbn [filter_chains default_filter_chain].
    rewrite Hf, Hc. done.
  - intros pools Hp Hok. unfold patchListenerWithInferencePoolFilters. cbn [filter_chains default_filter_chain].
    assert (exists cs, patchChains pools (filter_chains l) = Ret cs) as [cs ->].
    { induction Hok as [|c cs [c' Hc] _ [cs' IH]]; [by eexists|]. cbn. rewrite Hc, IH. by eexists. }
    cbn [obind]. unfold patchFilterChain. rewrite Hf. cbn [http_filters translator_hcm].
    by destruct (poolFilters [] pools).
Qed.
End Listener.

(** ** On concrete inputs *)

Definition bare_listener : Listener := {| l_name := "http-80"; filter_chains := []; default_filter_chain := None |}.

Definition built_listener : Listener :=
  match addHTTPConnectionManagerToXdsListener "http" bare_listener with Ret l => l | _ => bare_listener end.

Definition some_pool : InferencePool :=
  {| pool_name := "p"; pool_namespace := "ns"; pool_annotations := None; pool_match_labels := ∅;
     pool_target_ports := [8000%Z]; epp_ref_name := "epp"; epp_ref_port := None |}.

Lemma translator_listener_unpicked_witness :
  findListenerRouteConfigs built_listener = [] /\
  patchListenerWithInferencePoolFilters built_listener [some_pool] = Panic IndexOutOfRange.
Proof.
  destruct (translator_listener_unpicked "http" bare_listener built_listener) as (_ & _ & H1 & H2).
  - vm_compute. reflexivity.
  - split; [by apply H1|]. apply H2; [|by constructor]. apply (bool_decide_unpack _). vm_compute. exact I.
Defined.
