(* ===== verification/ExtTranslateProofs.v ===== *)
(** * ExtTranslateProofs: what the translation hook guarantees

    Theorems on the definitions of ExtTranslate: where filters are inserted and
    how many, which routes are disabled, which clusters are added, what the hook
    leaves alone, and that every pool a listener reaches gets its filter. *)

From S2P Require Import Prelude GoStd ExtPool Envoy ExtTranslate.


(** How many filters of a list carry a name. *)
Definition named (n : string) (fs : list HttpFilter) : nat :=
  length (filter (fun f => hf_name f = n) fs).

Definition pools_named (n : string) (pools : list InferencePool) : nat :=
  length (filter (fun p => httpFilterNameForInferencePool p = n) pools).

Definition filter_names (pools : list InferencePool) : list string :=
  httpFilterNameForInferencePool <$> pools.

Section Translate.
Context {PC : ProtoCodec} {MI : MapIter}.

(** ** Searching and inserting filters *)

Lemma named_app n fs gs : named n (fs ++ gs) = (named n fs + named n gs)%nat.
Proof. unfold named. by rewrite filter_app, length_app. Qed.

Lemma named_cons n f fs :
  named n (f :: fs) = ((if decide (hf_name f = n) then 1 else 0) + named n fs)%nat.
Proof. unfold named. rewrite filter_cons. by case_decide. Qed.

Lemma pools_named_cons n p ps :
  pools_named n (p :: ps)
  = ((if decide (httpFilterNameForInferencePool p = n) then 1 else 0) + pools_named n ps)%nat.
Proof. unfold pools_named. rewrite filter_cons. by case_decide. Qed.

Lemma poolFilters_cons fs p ps :
  poolFilters fs (p :: ps)
  = match poolFilter fs p with Some f => f :: poolFilters fs ps | None => poolFilters fs ps end.
Proof. done. Qed.

Lemma named_elem n fs : named n fs <> 0%nat <-> exists f, f ∈ fs /\ hf_name f = n.
Proof.
  unfold named. split.
  - intros H. destruct (filter _ fs) as [|f l] eqn:E; [done|].
    assert (f ∈ filter (fun f => hf_name f = n) fs) as Hf by (rewrite E; left).
    apply list_elem_of_filter in Hf. naive_solver.
  - intros (f & Hf & Hn) H0. apply nil_length_inv in H0.
    assert (f ∈ filter (fun f => hf_name f = n) fs) as Hin by by apply list_elem_of_filter.
    rewrite H0 in Hin. by apply not_elem_of_nil in Hin.
Qed.

Lemma searchFilter_absent name i fs : searchFilter name i fs = Ret None <-> named name fs = 0%nat.
Proof.
  revert i. induction fs as [|f fs IH]; intros i; [done|]. simpl. unfold named.
  rewrite filter_cons. case_bool_decide; [|rewrite decide_False by done; apply IH].
  rewrite decide_True by done. unfold unmarshalExtProc. destruct (_ ≫= _); done.
Qed.

Lemma toAny_total m : is_Some (proto_marshal m) -> exists a, toAny m = Ret a.
Proof. intros [b Hb]. unfold toAny. rewrite Hb. eauto. Qed.

Lemma insertPoolFilters_ret fs news out :
  insertPoolFilters fs news = Ret out ->
  (news = [] /\ out = fs) \/
  exists init router, fs = init ++ [router] /\ out = init ++ news ++ [router].
Proof.
  unfold insertPoolFilters. destruct news as [|g news]; intros H; [by simplify_eq; left|right].
  destruct (last fs) as [router|] eqn:E; [|done]. simplify_eq.
  apply last_Some in E as [init ->]. exists init, router. split; [done|].
  rewrite length_app. simpl. replace (length init + 1 - 1)%nat with (length init) by lia.
  by rewrite take_app_length, <- app_assoc.
Qed.

Lemma insertPoolFilters_nonempty fs news : fs <> [] -> exists out, insertPoolFilters fs news = Ret out.
Proof.
  intros H. unfold insertPoolFilters. destruct news; [eauto|].
  destruct (last fs) eqn:E; [eauto|]. by apply last_None in E.
Qed.

Lemma insertPoolFilters_named n fs news out :
  insertPoolFilters fs news = Ret out -> named n out = (named n fs + named n news)%nat.
Proof.
  intros [[-> ->]|(init & router & -> & ->)]%insertPoolFilters_ret; rewrite ?named_app.
  - unfold named. simpl. lia.
  - lia.
Qed.

Lemma poolFilter_name fs pool f :
  poolFilter fs pool = Some f ->
  hf_name f = httpFilterNameForInferencePool pool /\
  unmarshalExtProc (hf_typed_config f) = Ret (buildHTTPFilterForInferencePool pool).
Proof.
  unfold poolFilter, buildInferencePoolHTTPFilter. intros H.
  destruct (searchInferencePoolInFilterChain pool fs) as [[|]|?|?]; [done| |done..].
  destruct (toAny _) as [a|?|?] eqn:Ha; simplify_eq/=. split; [done|]. by apply toAny_extproc_roundtrip.
Qed.

Lemma poolFilter_some fs pool :
  (forall e, is_Some (proto_marshal (MExtProc e))) ->
  is_Some (poolFilter fs pool) <-> named (httpFilterNameForInferencePool pool) fs = 0%nat.
Proof.
  intros Hm. rewrite <- (searchFilter_absent _ 0). unfold poolFilter, searchInferencePoolInFilterChain.
  destruct (toAny_total _ (Hm (buildHTTPFilterForInferencePool pool))) as [a Ha].
  unfold buildInferencePoolHTTPFilter. rewrite Ha. simpl.
  destruct (searchFilter _ _ _) as [[|]|?|?]; split; try done; intros []; done.
Qed.

Lemma poolFilters_named n fs pools :
  (forall e, is_Some (proto_marshal (MExtProc e))) ->
  named n (poolFilters fs pools)
  = if decide (named n fs = 0%nat) then pools_named n pools else 0%nat.
Proof.
  intros Hm. induction pools as [|p pools IH]; [simpl; by case_decide|].
  rewrite pools_named_cons, poolFilters_cons.
  destruct (poolFilter fs p) as [f|] eqn:Ef.
  - destruct (poolFilter_name _ _ _ Ef) as [Hn _].
    assert (named (httpFilterNameForInferencePool p) fs = 0%nat) as H0
      by (apply poolFilter_some; [done|by rewrite Ef]).
    rewrite named_cons, Hn, IH. repeat case_decide; congruence || lia.
  - assert (named (httpFilterNameForInferencePool p) fs <> 0%nat) as H0.
    { intros H0. apply poolFilter_some in H0; [|done]. rewrite Ef in H0. by destruct H0. }
    rewrite IH. repeat case_decide; congruence || lia.
Qed.

(** ** Filter chains *)

Lemma findHcm_spec chain i0 fs hcm i :
  findHcm chain i0 fs = Ret (hcm, i) ->
  (i0 <= i)%nat /\
  forall a h, unmarshalHcm (Some a) = Ret h ->
    findHcm chain i0 (alter (setTypedConfig a) (i - i0) fs) = Ret (h, i) /\
    forall j f, fs !! j = Some f -> f_name f <> HTTPConnectionManager_name ->
      alter (setTypedConfig a) (i - i0) fs !! j = Some f.
Proof.
  revert i0. induction fs as [|f fs IH]; intros i0 H; [done|]. simpl in H.
  case_bool_decide as Hn.
  - apply obind_ret_inv in H as (h0 & _ & H). simplify_eq. split; [lia|].
    intros a h Ha. split; [|rewrite Nat.sub_diag; by intros [|j] g ? ?; simplify_eq/=]. rewrite Nat.sub_diag. simpl. rewrite bool_decide_eq_true_2 by done.
    change (f_typed_config (setTypedConfig a f)) with (Some a). by rewrite Ha.
  - destruct (IH _ H) as [Hle Hf]. split; [lia|]. intros a h Ha.
    replace (i - i0)%nat with (S (i - S i0)) by lia. simpl.
    rewrite bool_decide_eq_false_2 by done. destruct (Hf a h Ha) as [Hf1 Hf2]. split; [done|].
    intros [|j] g Hg ?; simplify_eq/=; [done|]. by apply Hf2.
Qed.

Lemma findHcm_no_panic chain i fs p : findHcm chain i fs <> Panic p.
Proof.
  revert i. induction fs as [|f fs IH]; intros i; [done|]. simpl. case_bool_decide; [|apply IH].
  unfold unmarshalHcm. by destruct (_ ≫= _).
Qed.

(** The HCM a chain decodes to. *)
Definition chain_hcm (fc : FilterChain) : option HttpConnectionManager :=
  match findHttpConnectionManager (Some fc) with Ret (hcm, _) => Some hcm | _ => None end.

(** A patched chain is as it was, or its first connection manager, still the
    first one found, has the new filters and every other network filter is as it
    was. *)
Lemma patchFilterChain_cases pools fc fc' :
  patchFilterChain pools fc = Ret fc' ->
  fc_name fc' = fc_name fc /\
  (fc' = fc \/
   exists hcm i fs, findHttpConnectionManager (Some fc) = Ret (hcm, i) /\
     insertPoolFilters (http_filters hcm) (poolFilters (http_filters hcm) pools) = Ret fs /\
     findHttpConnectionManager (Some fc') = Ret (with_http_filters hcm fs, i) /\
     forall j, j <> i -> fc_filters fc' !! j = fc_filters fc !! j).
Proof.
  unfold patchFilterChain. intros H.
  destruct (findHttpConnectionManager (Some fc)) as [[hcm i]|?|?] eqn:Ef; [|naive_solver..].
  apply obind_ret_inv in H as (fs & Hfs & H).
  destruct (toAny _) as [a|?|?] eqn:Ea; [|naive_solver..]. simplify_eq. simpl. split; [done|right].
  exists hcm, i, fs. do 2 (split; [done|]). simpl in Ef.
  destruct (findHcm_spec _ _ _ _ _ Ef) as [_ Hs]. rewrite Nat.sub_0_r in Hs.
  split; [exact (proj1 (Hs _ _ (toAny_hcm_roundtrip _ _ Ea)))|].
  intros j Hj. by apply list_lookup_alter_ne.
Qed.

Lemma patchFilterChain_hcm pools fc fc' hcm :
  (forall h, is_Some (proto_marshal (MHcm h))) ->
  patchFilterChain pools fc = Ret fc' -> chain_hcm fc = Some hcm ->
  exists fs, insertPoolFilters (http_filters hcm) (poolFilters (http_filters hcm) pools) = Ret fs /\
    chain_hcm fc' = Some (with_http_filters hcm fs).
Proof.
  unfold patchFilterChain, chain_hcm. intros Hm H Hh.
  destruct (findHttpConnectionManager (Some fc)) as [[hcm0 i]|?|?] eqn:Ef; simplify_eq.
  apply obind_ret_inv in H as (fs & Hfs & H). exists fs. split; [done|].
  destruct (toAny_total _ (Hm (with_http_filters hcm fs))) as [a Ea]. rewrite Ea in H.
  simplify_eq. simpl in *. destruct (findHcm_spec _ _ _ _ _ Ef) as [_ Hs].
  rewrite Nat.sub_0_r in Hs. by rewrite (proj1 (Hs _ _ (toAny_hcm_roundtrip _ _ Ea))).
Qed.

Lemma patchFilterChain_others pools fc fc' j f :
  patchFilterChain pools fc = Ret fc' -> fc_filters fc !! j = Some f ->
  f_name f <> HTTPConnectionManager_name -> fc_filters fc' !! j = Some f.
Proof.
  unfold patchFilterChain. intros H Hj Hf.
  destruct (findHttpConnectionManager (Some fc)) as [[hcm i]|?|?] eqn:Ef; [|naive_solver..].
  apply obind_ret_inv in H as (fs & _ & H).
  destruct (toAny _) as [a|?|?] eqn:Ea; [|naive_solver..]. simplify_eq.
  destruct (findHcm_spec _ _ _ _ _ Ef) as [_ Hs]. rewrite Nat.sub_0_r in Hs.
  by apply (proj2 (Hs _ _ (toAny_hcm_roundtrip _ _ Ea))).
Qed.

(** ** Properties of one chain *)

(** Patching a filter chain keeps every HTTP filter and their order, puts
    the new ones, in the order of the pools, just before the last filter (the
    router), and writes the connection manager back so that it decodes; the
    other network filters of the chain do not change. *)
Theorem router_stays_last pools fc fc' hcm :
  (forall h, is_Some (proto_marshal (MHcm h))) ->
  patchFilterChain pools fc = Ret fc' -> chain_hcm fc = Some hcm ->
  exists fs, chain_hcm fc' = Some (with_http_filters hcm fs) /\
    (fs = http_filters hcm \/
     exists init router news, http_filters hcm = init ++ [router] /\
       fs = init ++ news ++ [router] /\
       Forall (fun f => exists p, p ∈ pools /\ hf_name f = httpFilterNameForInferencePool p /\
         unmarshalExtProc (hf_typed_config f) = Ret (buildHTTPFilterForInferencePool p)) news) /\
    (forall j f, fc_filters fc !! j = Some f -> f_name f <> HTTPConnectionManager_name ->
       fc_filters fc' !! j = Some f).
Proof.
  intros Hm H Hh. destruct (patchFilterChain_hcm _ _ _ _ Hm H Hh) as (fs & Hi & Hc).
  exists fs. split; [done|]. split; [|by intros; eapply patchFilterChain_others].
  apply insertPoolFilters_ret in Hi as [[_ ->]|(init & router & E & ->)]; [by left|right].
  exists init, router, (poolFilters (http_filters hcm) pools). split; [done|]. split; [done|].
  apply Forall_forall. intros f Hf. apply list_elem_of_omap in Hf as (p & Hp & Hpf).
  exists p. split; [done|]. by apply poolFilter_name in Hpf.
Qed.

(** C15: how many filters of each name a patched chain has: a name already there
    gets none, decodable or not; a name not there gets one for each occurrence of
    its pool in the list.  So a pool always ends with a filter, patching twice
    adds nothing, and a pool that the list holds twice gets two filters. *)
Theorem pool_filter_count pools fc fc' hcm :
  (forall m, is_Some (proto_marshal m)) ->
  patchFilterChain pools fc = Ret fc' -> chain_hcm fc = Some hcm ->
  exists hcm', chain_hcm fc' = Some hcm' /\
    (forall n, named n (http_filters hcm')
      = if decide (named n (http_filters hcm) = 0%nat) then pools_named n pools
        else named n (http_filters hcm)) /\
    poolFilters (http_filters hcm') pools = [].
Proof.
  intros Hm H Hh.
  destruct (patchFilterChain_hcm _ _ _ _ (fun h => Hm _) H Hh) as (fs & Hi & Hc).
  exists (with_http_filters hcm fs). split; [done|]. simpl.
  assert (forall n, named n fs = if decide (named n (http_filters hcm) = 0%nat)
    then pools_named n pools else named n (http_filters hcm)) as Hcount.
  { intros n. rewrite (insertPoolFilters_named n _ _ _ Hi), poolFilters_named by auto.
    case_decide; lia. }
  split; [done|].
  apply dec_stable. intros Hne.
  destruct (poolFilters fs pools) as [|f l] eqn:E; [done|]. clear Hne.
  assert (f ∈ poolFilters fs pools) as Hf by (rewrite E; left).
  apply list_elem_of_omap in Hf as (p & Hp & Hpf).
  assert (is_Some (poolFilter fs p)) as Hs by (rewrite Hpf; done).
  apply poolFilter_some in Hs; [|auto]. rewrite Hcount in Hs. case_decide; [|done].
  apply nil_length_inv in Hs.
  assert (p ∈ filter (fun p0 => httpFilterNameForInferencePool p0 = httpFilterNameForInferencePool p) pools)
    as Hin by by apply list_elem_of_filter.
  rewrite Hs in Hin. by apply not_elem_of_nil in Hin.
Qed.

(** ** Virtual hosts *)

Definition per_filter (r : Route) (k : string) : option any :=
  m ← typed_per_filter_config r; m !! k.

(** The filter of the pool a route goes to. *)
Definition own_filter (r : Route) : option string :=
  httpFilterNameForInferencePool <$> getInferencePoolByMetadata (r_metadata r).

Definition same_route (r r' : Route) : Prop :=
  r_name r' = r_name r /\ r_metadata r' = r_metadata r /\ r_action r' = r_action r.

Lemma set_per_filter_config_spec r k a :
  same_route r (set_per_filter_config r k a) /\
  forall k', per_filter (set_per_filter_config r k a) k'
             = if decide (k' = k) then Some a else per_filter r k'.
Proof.
  split; [done|]. intros k'. unfold per_filter, set_per_filter_config. simpl.
  case_decide as E; [subst; by rewrite lookup_insert_eq|]. rewrite lookup_insert_ne by done.
  destruct (typed_per_filter_config r); simpl; [done|]. by rewrite lookup_empty.
Qed.

Lemma disable_fold_spec (P : string -> bool) a (l : list (string * InferencePool)) r :
  let r' := foldl (fun r kp => if P kp.1 then set_per_filter_config r kp.1 a else r) r l in
  same_route r r' /\
  forall k, per_filter r' k
            = if decide (k ∈ l.*1 /\ P k = true) then Some a else per_filter r k.
Proof.
  revert r. induction l as [|[k0 p] l IH]; intros r r'; subst r'; cbn [foldl fst].
  - split; [done|]. intros k. case_decide as Hk; [|done]. destruct Hk as [?%not_elem_of_nil _]; done.
  - destruct (IH (if P k0 then set_per_filter_config r k0 a else r)) as [IH1 IH2].
    pose proof (set_per_filter_config_spec r k0 a) as [H1 H2]. split.
    + destruct (P k0); [|done]. destruct IH1 as (? & ? & ?). unfold same_route. simpl in *.
      repeat split; congruence.
    + intros k. rewrite IH2, fmap_cons. cbn [fst].
      destruct (P k0) eqn:E; rewrite ?H2; destruct (decide (k = k0)) as [->|Hk].
      all: do 2 try case_decide; try done.
      all: exfalso; rewrite ?elem_of_cons in *; intuition congruence.
Qed.

Lemma map_range_keys tag (m : gmap string InferencePool) k :
  k ∈ (map_range tag m).*1 <-> is_Some (m !! k).
Proof.
  rewrite (map_range_perm _ tag m). rewrite list_elem_of_fmap. split.
  - intros ([k' p] & -> & H). apply elem_of_map_to_list in H. by exists p.
  - intros [p H]. exists (k, p). split; [done|]. by apply elem_of_map_to_list.
Qed.

Lemma inferenceMatrix_keys pools k : is_Some (inferenceMatrix pools !! k) <-> k ∈ filter_names pools.
Proof.
  unfold inferenceMatrix, filter_names.
  assert (forall m : gmap string InferencePool,
    is_Some (foldl (fun m pool => <[httpFilterNameForInferencePool pool := pool]> m) m pools !! k)
    <-> is_Some (m !! k) \/ k ∈ httpFilterNameForInferencePool <$> pools) as H.
  { induction pools as [|p pools IH]; intros m; simpl; [set_solver|].
    rewrite IH, lookup_insert_is_Some, elem_of_cons.
    destruct (decide (httpFilterNameForInferencePool p = k)); naive_solver. }
  rewrite H, lookup_empty. split; [intros [[]|]; done|auto].
Qed.

(** What one route becomes, whatever the iteration order. *)
Definition route_patched (pools : list InferencePool) (a : any) (r r' : Route) : Prop :=
  same_route r r' /\
  forall k, per_filter r' k
    = if decide (k ∈ filter_names pools /\ own_filter r <> Some k) then Some a else per_filter r k.

Lemma patchRoute_spec pools r r' a :
  toAny (MExtProcPerRoute true) = Ret a ->
  patchRoute (inferenceMatrix pools) r = Ret r' -> route_patched pools a r r'.
Proof.
  intros Ha. unfold patchRoute, route_patched, own_filter. rewrite Ha. cbn [obind].
  destruct (getInferencePoolByMetadata (r_metadata r)) as [own|] eqn:E; intros H; simplify_eq.
  - destruct (disable_fold_spec (fun k => bool_decide (k <> httpFilterNameForInferencePool own)) a
      (map_range ["matrix"; r_name r] (inferenceMatrix pools)) r) as [H1 H2].
    split; [done|]. intros k. rewrite H2. apply decide_ext.
    rewrite map_range_keys, inferenceMatrix_keys, bool_decide_eq_true. naive_solver.
  - destruct (disable_fold_spec (fun _ => true) a
      (map_range ["matrix"; r_name r] (inferenceMatrix pools)) r) as [H1 H2].
    split; [done|]. intros k. rewrite H2. apply decide_ext.
    rewrite map_range_keys, inferenceMatrix_keys. naive_solver.
Qed.

Lemma patchRoute_ret pools r a :
  toAny (MExtProcPerRoute true) = Ret a -> exists r', patchRoute pools r = Ret r'.
Proof. intros Ha. unfold patchRoute. rewrite Ha. simpl. case_match; eauto. Qed.

Lemma patchRoutes_spec pools rs a :
  toAny (MExtProcPerRoute true) = Ret a ->
  exists rs', patchRoutes (inferenceMatrix pools) rs = Ret rs' /\ Forall2 (route_patched pools a) rs rs'.
Proof.
  intros Ha. induction rs as [|r rs (rs' & IH1 & IH2)]; simpl; [eauto|].
  destruct (patchRoute_ret (inferenceMatrix pools) r a Ha) as [r' Hr].
  rewrite Hr, IH1. simpl. eexists. split; [done|]. constructor; [|done]. by eapply patchRoute_spec.
Qed.

(** Patching a virtual host, for every iteration order of the pool map: it
    fails only if the override cannot be marshalled and there is a route; the
    routes keep their number, order, name, metadata and action; after it, a
    route has the filter of each listed pool disabled except its own pool's, and
    every other per-filter entry as before. *)
Theorem virtual_host_disables vh pools :
  match toAny (MExtProcPerRoute true), patchVirtualHostWithInferencePool vh pools with
  | Ret a, Ret vh' =>
      vh_name vh' = vh_name vh /\ Forall2 (route_patched pools a) (vh_routes vh) (vh_routes vh')
  | Err e, out => out = if decide (vh_routes vh = []) then Ret vh else Err e
  | _, _ => False
  end.
Proof.
  unfold patchVirtualHostWithInferencePool. destruct (toAny _) as [a|e|p] eqn:Ha.
  - destruct (patchRoutes_spec pools (vh_routes vh) a Ha) as (rs' & H1 & H2). rewrite H1. done.
  - destruct vh as [n [|r rs]]; [done|]. simpl. unfold patchRoute. by rewrite Ha.
  - unfold toAny in Ha. by destruct (proto_marshal _).
Qed.

(** ** Clusters *)

Definition cluster_pools (clusters : list Cluster) : list InferencePool :=
  omap (fun c => getInferencePoolByMetadata (c_metadata c)) clusters.

(** The endpoint picker's cluster is the one the pool's filter sends to. *)
Definition epp_cluster (pool : InferencePool) (c : Cluster) : Prop :=
  c_name c = grpc_cluster_name (buildHTTPFilterForInferencePool pool) /\
  discovery_type c = Some STRICT_DNS /\ c_metadata c = None /\
  exists ep, load_assignment c = Some (c_name c, [ep]) /\
    ep_address ep +:+ ":" +:+ itoa (ep_port ep)
      = grpc_authority (buildHTTPFilterForInferencePool pool) /\
    (0 <= ep_port ep <= 65535)%Z.

Lemma authority_split pool :
  dnsNameForInferencePool pool +:+ ":" +:+ itoa (portForInferencePool pool)
  = authorityForInferencePool pool.
Proof.
  unfold dnsNameForInferencePool, authorityForInferencePool. rewrite !str_app_assoc. done.
Qed.

(** The clusters the hook adds: one for each cluster whose metadata decodes
    to a pool, in the order of the request, named as the pool's ext_proc filter
    names it, with the single endpoint that the filter's authority spells, and
    without pool metadata of its own (so that a second pass over the added
    clusters adds nothing). *)
Theorem epp_clusters_built clusters cs :
  buildClustersForInferencePoolEndpointPickers clusters = Ret cs ->
  Forall2 epp_cluster (cluster_pools clusters) cs /\
  buildClustersForInferencePoolEndpointPickers cs = Ret [].
Proof.
  unfold cluster_pools.
  revert cs. induction clusters as [|c clusters IH]; intros cs H; simpl in *; [by simplify_eq|].
  destruct (getInferencePoolByMetadata (c_metadata c)) as [pool|]; [|by apply IH].
  apply obind_ret_inv in H as (c' & Hc & H). apply obind_ret_inv in H as (cs' & Hcs & H).
  simplify_eq. destruct (IH _ Hcs) as [IH1 IH2].
  unfold buildExtProcClusterForInferencePoolEndpointPicker in Hc.
  apply obind_ret_inv in Hc as (t & _ & Hc). apply obind_ret_inv in Hc as (h & _ & Hc).
  simplify_eq. split; [|done]. constructor; [|done].
  repeat split; [done..|]. eexists. split; [done|]. simpl.
  split; [apply authority_split|apply portForInferencePool_range].
Qed.

(** ** What one step of the hook may change *)

(** A filter the hook inserts: a pool's name and that pool's processor. *)
Definition pool_filter (f : HttpFilter) : Prop :=
  exists pool, hf_name f = httpFilterNameForInferencePool pool /\
    unmarshalExtProc (hf_typed_config f) = Ret (buildHTTPFilterForInferencePool pool).

(** [fs'] is [fs], or [fs] with pools' filters put right before its last one. *)
Definition pool_inserts (fs fs' : list HttpFilter) : Prop :=
  fs' = fs \/
  exists init router news, fs = init ++ [router] /\ fs' = init ++ news ++ [router] /\
    Forall pool_filter news.

(** A chain without a readable connection manager is as it was; otherwise only
    its first connection manager may differ, and only by inserted filters. *)
Definition chain_step (fc fc' : FilterChain) : Prop :=
  fc_name fc' = fc_name fc /\ (chain_hcm fc = None -> fc' = fc) /\
  forall hcm i, findHttpConnectionManager (Some fc) = Ret (hcm, i) ->
    (forall j, j <> i -> fc_filters fc' !! j = fc_filters fc !! j) /\
    exists hcm', findHttpConnectionManager (Some fc') = Ret (hcm', i) /\
      rds_route_config_name hcm' = rds_route_config_name hcm /\
      hcm_rest hcm' = hcm_rest hcm /\
      pool_inserts (http_filters hcm) (http_filters hcm').

Definition listener_step (l l' : Listener) : Prop :=
  l_name l' = l_name l /\
  Forall2 chain_step (filter_chains l) (filter_chains l') /\
  option_Forall2 chain_step (default_filter_chain l) (default_filter_chain l') /\
  (special_listener l = true -> l' = l).

Definition route_step (r r' : Route) : Prop :=
  same_route r r' /\
  forall k, per_filter r' k = per_filter r k \/
    (own_filter r <> Some k /\ (exists p, k = httpFilterNameForInferencePool p) /\
     exists a, toAny (MExtProcPerRoute true) = Ret a /\ per_filter r' k = Some a).

Definition vh_step (vh vh' : VirtualHost) : Prop :=
  vh_name vh' = vh_name vh /\ Forall2 route_step (vh_routes vh) (vh_routes vh').

Definition rc_step (rc rc' : RouteConfiguration) : Prop :=
  rc_name rc' = rc_name rc /\ Forall2 vh_step (virtual_hosts rc) (virtual_hosts rc').

#[local] Instance pool_inserts_preorder : PreOrder pool_inserts.
Proof.
  split; [by left|]. intros f1 f2 f3 [->|(i1 & r1 & n1 & -> & -> & H1)]; [done|].
  intros [->|(i2 & r2 & n2 & E & -> & H2)]; [by right; exists i1, r1, n1|]. right.
  rewrite app_assoc in E. apply app_inj_tail in E as [<- <-].
  exists i1, r1, (n1 ++ n2). rewrite <- !app_assoc. do 2 (split; [done|]). by apply Forall_app.
Qed.

Lemma chain_hcm_none fc : chain_hcm fc = None ->
  forall x, findHttpConnectionManager (Some fc) <> Ret x.
Proof. unfold chain_hcm. intros H [hcm i] E. by rewrite E in H. Qed.

#[local] Instance chain_step_preorder : PreOrder chain_step.
Proof.
  split; [intros fc; do 2 (split; [done|]); intros hcm i Hh; split; [done|];
    exists hcm; by repeat split|].
  intros f1 f2 f3 (N1 & U1 & H1) (N2 & U2 & H2). split; [congruence|].
  split; [intros Hn; rewrite U2, U1 by (rewrite ?U1; done); done|]. intros hcm i Hh.
  destruct (H1 _ _ Hh) as (O1 & h2 & Hh2 & R2 & X2 & S2).
  destruct (H2 _ _ Hh2) as (O2 & h3 & Hh3 & R3 & X3 & S3).
  split; [intros j Hj; by rewrite O2, O1|]. exists h3. repeat split; [done|congruence..|by etrans].
Qed.

#[local] Instance listener_step_preorder : PreOrder listener_step.
Proof.
  split.
  - intros l. split; [done|]. split; [done|]. split; [|done].
    destruct (default_filter_chain l); constructor. reflexivity.
  - intros l1 l2 l3 (N1 & F1 & D1 & S1) (N2 & F2 & D2 & S2). split; [congruence|].
    split; [by etrans|]. split; [|intros Hs; rewrite S2, S1; [done..|]; by rewrite S1].
    inversion D1 as [? ? Ha E1 E2|E1 E2]; rewrite <- E2 in D2; inversion D2; constructor. by etrans.
Qed.

#[local] Instance route_step_preorder : PreOrder route_step.
Proof.
  split; [intros r; split; [done|]; by left|].
  intros r1 r2 r3 [(N1 & M1 & A1) H1] [(N2 & M2 & A2) H2]. split; [repeat split; congruence|].
  intros k. destruct (H2 k) as [->|(Ho & Hk & Ha)]; [apply H1|]. right.
  unfold own_filter in *. rewrite M1 in Ho. done.
Qed.

#[local] Instance vh_step_preorder : PreOrder vh_step.
Proof.
  split; [done|]. intros v1 v2 v3 [N1 H1] [N2 H2]. split; [congruence|by etrans].
Qed.

#[local] Instance rc_step_preorder : PreOrder rc_step.
Proof.
  split; [done|]. intros v1 v2 v3 [N1 H1] [N2 H2]. split; [congruence|by etrans].
Qed.

Lemma poolFilters_pool fs pools : Forall pool_filter (poolFilters fs pools).
Proof.
  apply Forall_forall. intros f (pool & _ & Hf)%list_elem_of_omap. exists pool. by eapply poolFilter_name.
Qed.

Lemma patchFilterChain_step pools fc fc' : patchFilterChain pools fc = Ret fc' -> chain_step fc fc'.
Proof.
  intros [Hn [->|(hcm & i & fs & Hh & Hi & Hh' & Ho)]]%patchFilterChain_cases; [done|].
  split; [done|]. split; [intros H; by destruct (chain_hcm_none _ H (hcm, i))|].
  intros hcm0 i0 H0. rewrite Hh in H0. simplify_eq. split; [done|].
  exists (with_http_filters hcm0 fs). do 3 (split; [done|]). simpl.
  apply insertPoolFilters_ret in Hi as [[_ ->]|(init & router & -> & ->)]; [by left|right].
  exists init, router, (poolFilters (init ++ [router]) pools).
  do 2 (split; [done|]). apply poolFilters_pool.
Qed.

(** What the step says of the connection manager a chain decodes to. *)
Lemma chain_step_hcm fc fc' hcm :
  chain_step fc fc' -> chain_hcm fc = Some hcm ->
  exists hcm', chain_hcm fc' = Some hcm' /\ (http_filters hcm' = [] -> http_filters hcm = []).
Proof.
  intros (_ & _ & H) Hh. unfold chain_hcm in Hh.
  destruct (findHttpConnectionManager (Some fc)) as [[h i]|?|?] eqn:E; simplify_eq.
  destruct (H _ _ eq_refl) as (_ & h' & Hh' & _ & _ & Hi). exists h'. unfold chain_hcm.
  rewrite Hh'. split; [done|].
  destruct Hi as [->|(init & router & news & -> & -> & _)]; [done|].
  intros E0. by destruct init, news.
Qed.

Lemma patchChains_spec pools cs cs' :
  patchChains pools cs = Ret cs' <-> Forall2 (fun c c' => patchFilterChain pools c = Ret c') cs cs'.
Proof.
  revert cs'. induction cs as [|c cs IH]; intros cs'; simpl.
  - split; [intros H; simplify_eq; constructor|by inversion 1].
  - split.
    + intros (c' & Hc & (cs1 & Hcs & ?)%obind_ret_inv)%obind_ret_inv. simplify_eq.
      constructor; [done|by apply IH].
    + inversion 1 as [|? c' ? cs1 Hc Hcs]; subst. apply IH in Hcs. by rewrite Hc, Hcs.
Qed.

Lemma patchListener_step l l' pools :
  special_listener l = false ->
  patchListenerWithInferencePoolFilters l pools = Ret l' -> listener_step l l'.
Proof.
  unfold patchListenerWithInferencePoolFilters. intros Hs (cs & Hcs & H)%obind_ret_inv.
  apply obind_ret_inv in H as (d & Hd & H). simplify_eq. split; [done|]. simpl.
  split; [eapply Forall2_impl; [by apply patchChains_spec|apply patchFilterChain_step]|].
  split; [|intros; congruence].
  destruct (default_filter_chain l) as [fc|]; [|by simplify_eq; constructor].
  apply obind_ret_inv in Hd as (fc' & Hfc & Hd). simplify_eq. constructor.
  by eapply patchFilterChain_step.
Qed.

Lemma patchVirtualHosts_spec pools vhs vhs' :
  patchVirtualHosts pools vhs = Ret vhs' <->
  Forall2 (fun v v' => patchVirtualHostWithInferencePool v pools = Ret v') vhs vhs'.
Proof.
  revert vhs'. induction vhs as [|v vhs IH]; intros vhs'; simpl.
  - split; [intros H; simplify_eq; constructor|by inversion 1].
  - split.
    + intros (v' & Hv & (vs1 & Hvs & ?)%obind_ret_inv)%obind_ret_inv. simplify_eq.
      constructor; [done|by apply IH].
    + inversion 1 as [|? v' ? vs1 Hv Hvs]; subst. apply IH in Hvs. by rewrite Hv, Hvs.
Qed.

Lemma route_patched_step pools a r r' :
  toAny (MExtProcPerRoute true) = Ret a -> route_patched pools a r r' -> route_step r r'.
Proof.
  intros Ha [Hs H]. split; [done|]. intros k. rewrite H. case_decide as Hk; [right|by left].
  destruct Hk as [Hk Ho]. split; [done|]. split; [|eauto].
  unfold filter_names in Hk. apply list_elem_of_fmap in Hk as (p & -> & _). eauto.
Qed.

Lemma patchVirtualHost_patched pools vh vh' :
  patchVirtualHostWithInferencePool vh pools = Ret vh' ->
  vh_name vh' = vh_name vh /\
  Forall2 (fun r r' => route_step r r' /\
    forall k, k ∈ filter_names pools -> own_filter r <> Some k -> is_Some (per_filter r' k) /\
      forall a, toAny (MExtProcPerRoute true) = Ret a -> per_filter r' k = Some a)
    (vh_routes vh) (vh_routes vh').
Proof.
  intros H. destruct (toAny (MExtProcPerRoute true)) as [a|e|?] eqn:Ha.
  - unfold patchVirtualHostWithInferencePool in H.
    destruct (patchRoutes_spec pools (vh_routes vh) a Ha) as (rs & Hrs & HF).
    rewrite Hrs in H. simplify_eq/=. split; [done|].
    eapply Forall2_impl; [exact HF|]. intros r r' Hr. split; [by eapply route_patched_step|].
    intros k Hk Ho. destruct Hr as [_ Hr]. rewrite Hr, decide_True by done. naive_solver.
  - destruct vh as [n [|r rs]]; unfold patchVirtualHostWithInferencePool in H; simpl in H;
      [by simplify_eq; split; [|constructor]|]. unfold patchRoute in H. by rewrite Ha in H.
  - unfold toAny in Ha. by destruct (proto_marshal _).
Qed.

Lemma patchRouteConfiguration_step pools rc rc' :
  patchRouteConfiguration pools rc = Ret rc' -> rc_step rc rc'.
Proof.
  intros (vhs & Hv & ?)%obind_ret_inv. simplify_eq. split; [done|]. simpl.
  eapply Forall2_impl; [by apply patchVirtualHosts_spec|].
  intros v v' [Hn HF]%patchVirtualHost_patched. split; [done|].
  eapply Forall2_impl; [exact HF|]. by intros ? ? [? _].
Qed.

Lemma patchRouteConfigs_step pools routeIdx names rs rs' :
  patchRouteConfigs pools routeIdx names rs = Ret rs' -> Forall2 rc_step rs rs'.
Proof.
  revert rs. induction names as [|n names IH]; intros rs H; simpl in H; [by simplify_eq|].
  destruct (routeIdx !! n ≫= _) as [[i rc]|] eqn:E; [|by apply IH].
  apply obind_ret_inv in H as (rc' & Hrc & H). apply IH in H. etrans; [|exact H].
  apply bind_Some in E as (i0 & _ & E). apply bind_Some in E as (rc0 & Hl & E). simplify_eq.
  eapply Forall2_insert_self; [apply _|done|by eapply patchRouteConfiguration_step].
Qed.

(** ** The name maps *)

(** Every index of the listener map is a listener of that name, not one of the
    special ones, and the other map has its route names. *)
Definition names_ok (ls : list Listener) (names : gmap string (list string))
    (idx : gmap string nat) : Prop :=
  dom names = dom idx /\
  forall n i, idx !! n = Some i -> exists l, ls !! i = Some l /\ l_name l = n /\
    special_listener l = false /\ names !! n = Some (findListenerRouteConfigs l).

Lemma indexListeners_ok pre ls names idx :
  names_ok pre names idx ->
  names_ok (pre ++ ls) (indexListeners (length pre) ls names idx).1
    (indexListeners (length pre) ls names idx).2.
Proof.
  revert pre names idx. induction ls as [|l ls IH]; intros pre names idx [Hd Hok]; simpl.
  - by rewrite app_nil_r.
  - rewrite cons_middle, app_assoc.
    replace (S (length pre)) with (length (pre ++ [l])) by (rewrite length_app; simpl; lia).
    destruct (special_listener l) eqn:Hs; apply IH; split; [done| |set_solver|].
    + intros n i (l0 & Hl & H)%Hok. exists l0. split; [by apply lookup_app_l_Some|done].
    + intros n i [[<- <-]|[Hne (l0 & Hl & Hn & Hs0 & H)%Hok]]%lookup_insert_Some.
      * exists l. rewrite lookup_app_r, Nat.sub_diag by done. by rewrite lookup_insert_eq.
      * exists l0. rewrite lookup_insert_ne by done. split; [by apply lookup_app_l_Some|done].
Qed.

Lemma indexListeners_keeps n i0 ls names idx :
  n ∉ l_name <$> ls -> (indexListeners i0 ls names idx).2 !! n = idx !! n.
Proof.
  revert i0 names idx. induction ls as [|l ls IH]; intros i0 names idx Hn; [done|]. simpl.
  rewrite fmap_cons, not_elem_of_cons in Hn. destruct Hn as [Hne Hn].
  case_match; rewrite IH by done; [done|]. by rewrite lookup_insert_ne.
Qed.

Lemma indexListeners_at i0 ls names idx i l :
  NoDup (l_name <$> ls) -> ls !! i = Some l -> special_listener l = false ->
  (indexListeners i0 ls names idx).2 !! l_name l = Some (i0 + i).
Proof.
  revert i0 i names idx. induction ls as [|l0 ls IH]; intros i0 i names idx; [done|].
  rewrite fmap_cons, NoDup_cons. intros [Hn Hnd] Hi Hs. destruct i as [|i]; simplify_eq/=.
  - rewrite Hs. rewrite indexListeners_keeps, lookup_insert_eq by done. f_equal. lia.
  - case_match; rewrite (IH (S i0) i) by done; f_equal; lia.
Qed.

Lemma index_by_name_keeps {A} (name : A -> string) n i0 (l : list A) m :
  n ∉ name <$> l -> index_by_name name i0 l m !! n = m !! n.
Proof.
  revert i0 m. induction l as [|x l IH]; intros i0 m Hn; [done|]. simpl.
  rewrite fmap_cons, not_elem_of_cons in Hn. rewrite IH, lookup_insert_ne by naive_solver. done.
Qed.

Lemma index_by_name_at {A} (name : A -> string) i0 (l : list A) m i x :
  NoDup (name <$> l) -> l !! i = Some x -> index_by_name name i0 l m !! name x = Some (i0 + i).
Proof.
  revert i0 i m. induction l as [|y l IH]; intros i0 i m; [done|].
  rewrite fmap_cons, NoDup_cons. intros [Hn Hnd] Hi. destruct i as [|i]; simplify_eq/=.
  - rewrite index_by_name_keeps, lookup_insert_eq by done. f_equal. lia.
  - rewrite (IH (S i0) i) by done. f_equal. lia.
Qed.

Lemma index_by_name_ok {A} (name : A -> string) pre (l : list A) m :
  (forall n i, m !! n = Some i -> exists x, pre !! i = Some x /\ name x = n) ->
  forall n i, index_by_name name (length pre) l m !! n = Some i ->
    exists x, (pre ++ l) !! i = Some x /\ name x = n.
Proof.
  revert pre m. induction l as [|y l IH]; intros pre m Hm n i H; [rewrite app_nil_r; by apply Hm|].
  rewrite cons_middle, app_assoc. simpl in H.
  replace (S (length pre)) with (length (pre ++ [y])) in H by (rewrite length_app; simpl; lia).
  eapply IH; [|exact H]. intros n' i' [[<- <-]|[Hne (x & Hx & Hn)%Hm]]%lookup_insert_Some.
  - exists y. by rewrite lookup_app_r, Nat.sub_diag by done.
  - exists x. split; [by apply lookup_app_l_Some|done].
Qed.

(** ** Sequences of patches *)

Lemma names_ok_step ls ls' names idx :
  names_ok ls names idx -> Forall2 listener_step ls ls' ->
  forall n i, idx !! n = Some i -> exists l', ls' !! i = Some l' /\ l_name l' = n /\
    special_listener l' = false.
Proof.
  intros [_ Hok] HF n i (l & Hl & Hn & Hs & _)%Hok.
  destruct (Forall2_lookup_related _ _ _ _ _ HF Hl) as (l' & Hl' & Hn' & _).
  exists l'. split; [done|]. unfold special_listener in *. by rewrite Hn'.
Qed.

Lemma patchEntry_step ls0 names idx routeIdx e st st' :
  names_ok ls0 names idx -> Forall2 listener_step ls0 (xds_listeners st) ->
  patchEntry names idx routeIdx e st = Ret st' ->
  Forall2 listener_step (xds_listeners st) (xds_listeners st') /\
  Forall2 rc_step (xds_routes st) (xds_routes st').
Proof.
  intros Hok HF (i & Hi%deref_ret_inv & H)%obind_ret_inv.
  apply obind_ret_inv in H as (l & Hl%deref_ret_inv & H).
  apply obind_ret_inv in H as (l' & Hp & H). apply obind_ret_inv in H as (rs & Hrs & H).
  simplify_eq. simpl. split; [|by eapply patchRouteConfigs_step].
  destruct (names_ok_step _ _ _ _ Hok HF _ _ Hi) as (l0 & Hl0 & _ & Hs). simplify_eq.
  eapply Forall2_insert_self; [apply _|done|by eapply patchListener_step].
Qed.

Lemma patchEntries_step ls0 names idx routeIdx es st st' :
  names_ok ls0 names idx -> Forall2 listener_step ls0 (xds_listeners st) ->
  patchEntries names idx routeIdx es st = Ret st' ->
  Forall2 listener_step (xds_listeners st) (xds_listeners st') /\
  Forall2 rc_step (xds_routes st) (xds_routes st').
Proof.
  intros Hok. revert st. induction es as [|e es IH]; intros st HF H; simpl in H.
  - simplify_eq. split; reflexivity.
  - apply obind_ret_inv in H as (st1 & H1 & H).
    destruct (patchEntry_step _ _ _ _ _ _ _ Hok HF H1) as [A1 B1].
    destruct (IH st1 ltac:(by etrans) H) as [A2 B2]. split; by etrans.
Qed.

Lemma patchEntries_other names idx routeIdx es st st' i :
  patchEntries names idx routeIdx es st = Ret st' ->
  Forall (fun e => idx !! e.1 <> Some i) es ->
  xds_listeners st' !! i = xds_listeners st !! i.
Proof.
  revert st. induction es as [|e es IH]; intros st H HF; simpl in H; [by simplify_eq|].
  inversion HF as [|? ? Hne HF']; subst.
  apply obind_ret_inv in H as (st1 & H1 & H). rewrite (IH _ H HF').
  apply obind_ret_inv in H1 as (j & Hj%deref_ret_inv & H1).
  apply obind_ret_inv in H1 as (l & Hl & H1). apply obind_ret_inv in H1 as (l' & Hl' & H1).
  apply obind_ret_inv in H1 as (rs & _ & H1). simplify_eq. simpl.
  rewrite list_lookup_insert_ne; [done|]. intros ->. congruence.
Qed.

Lemma patchEntries_app names idx routeIdx es1 es2 st :
  patchEntries names idx routeIdx (es1 ++ es2) st
  = let* st1 := patchEntries names idx routeIdx es1 st in patchEntries names idx routeIdx es2 st1.
Proof.
  revert st. induction es1 as [|e es1 IH]; intros st; [done|]. simpl.
  destruct (patchEntry _ _ _ e st); simpl; [apply IH|done..].
Qed.

Lemma indexListeners_names_ok ls :
  names_ok ls (indexListeners 0 ls ∅ ∅).1 (indexListeners 0 ls ∅ ∅).2.
Proof. apply (indexListeners_ok []). split; [set_solver|]. intros n i H. by rewrite lookup_empty in H. Qed.

(** C2: what the hook leaves alone, for every iteration order of its maps.
    Clusters are only appended and secrets are returned as they came; listeners
    keep their number, order, name and chains; in each chain only the first
    connection manager may differ, still the first one and at its place among
    the network filters, with the same route name and settings: only its list of
    HTTP filters may grow, by filters that carry a pool's name and that pool's
    processor, put right before the last one; the stats and readiness listeners
    do not change at all; routes keep their name, metadata and action, and the
    only per-filter entries written are disabled marks for a pool's filter,
    never for the pool the route goes to. *)
Theorem translate_frame req resp :
  PostTranslateModify req = Ret resp ->
  (exists cs, tr_clusters resp = tr_clusters req ++ cs /\ length cs = length (cluster_pools (tr_clusters req))) /\
  tr_secrets resp = tr_secrets req /\
  Forall2 listener_step (tr_listeners req) (tr_listeners resp) /\
  Forall2 rc_step (tr_routes req) (tr_routes resp).
Proof.
  unfold PostTranslateModify. intros (cs & Hcs & (st & Hst & ?)%obind_ret_inv)%obind_ret_inv.
  simplify_eq. simpl. split; [|split; [done|]].
  - exists cs. split; [done|]. clear Hst. revert cs Hcs. unfold cluster_pools.
    induction (tr_clusters req) as [|c l IH]; intros cs Hcs; simpl in *; [by simplify_eq|].
    destruct (getInferencePoolByMetadata _); [|by apply IH].
    apply obind_ret_inv in Hcs as (c' & _ & (cs' & Hcs & ?)%obind_ret_inv). simplify_eq/=.
    f_equal. by apply IH.
  - unfold maybeModifyListenerAndRoutes in Hst. simpl in Hst.
    pose proof (indexListeners_names_ok (tr_listeners req)) as Hok.
    destruct (indexListeners 0 (tr_listeners req) ∅ ∅) as [names idx].
    by apply (patchEntries_step _ _ _ _ _ _ _ Hok) in Hst.
Qed.

(** ** Pools reach their listeners *)

Lemma addRoutePool_spec rs m n p :
  NoDup (r_name <$> rs) ->
  (exists r, r ∈ rs /\ r_name r = n /\ getInferencePoolByMetadata (r_metadata r) = Some p) ->
  exists inner, foldl addRoutePool m rs = Some inner /\ inner !! n = Some p.
Proof.
  assert (forall rs m, n ∉ r_name <$> rs -> (exists i, m = Some i /\ i !! n = Some p) ->
    exists i, foldl addRoutePool m rs = Some i /\ i !! n = Some p) as Hkeep.
  { clear. induction rs as [|r rs IH]; intros m Hn (i & -> & Hi); simpl; [eauto|].
    rewrite fmap_cons, not_elem_of_cons in Hn. destruct Hn as [Hne Hn]. apply IH; [done|].
    unfold addRoutePool. case_match; [|eauto]. eexists. split; [done|]. simpl.
    by rewrite lookup_insert_ne. }
  revert m. induction rs as [|r rs IH]; intros m; [intros _ (r & Hr & _); by apply not_elem_of_nil in Hr|].
  rewrite fmap_cons, NoDup_cons. intros [Hn Hnd] (r' & Hr & <- & Hp).
  apply elem_of_cons in Hr as [->|Hr]; simpl; [|apply IH; eauto].
  apply Hkeep; [done|]. unfold addRoutePool. rewrite Hp. eexists. split; [done|].
  by rewrite lookup_insert_eq.
Qed.

Lemma addRouteConfigPools_ne m rc n : rc_name rc <> n -> addRouteConfigPools m rc !! n = m !! n.
Proof.
  intros Hne. unfold addRouteConfigPools. case_match; [by rewrite lookup_insert_ne|done].
Qed.

Lemma routePools_spec rcs rc r p :
  NoDup (rc_name <$> rcs) -> rc ∈ rcs -> NoDup (r_name <$> config_routes rc) ->
  r ∈ config_routes rc -> getInferencePoolByMetadata (r_metadata r) = Some p ->
  exists inner, routePools rcs !! rc_name rc = Some inner /\ inner !! r_name r = Some p.
Proof.
  unfold routePools. generalize (∅ : gmap string (gmap string InferencePool)) as m.
  induction rcs as [|rc0 rcs IH]; intros m; [intros _ H; by apply not_elem_of_nil in H|].
  rewrite fmap_cons, NoDup_cons. intros [Hn Hnd] Hin Hr Hin' Hp. simpl.
  apply elem_of_cons in Hin as [->|Hin]; [|by apply IH].
  assert (forall rcs m, rc_name rc0 ∉ rc_name <$> rcs ->
    foldl addRouteConfigPools m rcs !! rc_name rc0 = m !! rc_name rc0) as Hkeep.
  { clear. induction rcs as [|x rcs IH]; intros m Hn; [done|]. simpl.
    rewrite fmap_cons, not_elem_of_cons in Hn. rewrite IH by naive_solver.
    apply addRouteConfigPools_ne. naive_solver. }
  rewrite Hkeep by done. unfold addRouteConfigPools.
  destruct (addRoutePool_spec (config_routes rc0) (m !! rc_name rc0) (r_name r) p Hr) as (i & Hi & Hp');
    [eauto|]. rewrite Hi, lookup_insert_eq. eauto.
Qed.

Lemma listenerPools_elem listener i routeIdx pools names name inner n p :
  name ∈ names -> is_Some (routeIdx !! name) -> pools !! name = Some inner -> inner !! n = Some p ->
  p ∈ listenerPools listener i routeIdx pools names.
Proof.
  intros Hin [j Hj] Hp Hn. revert i. induction names as [|x names IH]; intros i; [by apply not_elem_of_nil in Hin|].
  simpl. apply elem_of_app. apply elem_of_cons in Hin as [<-|Hin]; [left|right; by apply IH].
  rewrite Hj, Hp, (map_range_perm _ _ inner). apply list_elem_of_fmap.
  exists (n, p). split; [done|]. by apply elem_of_map_to_list.
Qed.

Lemma addListenerPools_fold routeIdx pools es m n :
  n ∉ es.*1 -> foldl (addListenerPools routeIdx pools) m es !! n = m !! n.
Proof.
  revert m. induction es as [|e es IH]; intros m Hn; [done|].
  rewrite fmap_cons, not_elem_of_cons in Hn. simpl. rewrite IH by naive_solver.
  unfold addListenerPools. case_match; [done|]. rewrite lookup_insert_ne by naive_solver. done.
Qed.

Lemma map_range_NoDup {V} tag (m : gmap string V) : NoDup (map_range tag m).*1.
Proof. rewrite (map_range_perm _ tag m). apply NoDup_fst_map_to_list. Qed.

Lemma map_range_elem {V} tag (m : gmap string V) k v : (k, v) ∈ map_range tag m <-> m !! k = Some v.
Proof. rewrite (map_range_perm _ tag m). apply elem_of_map_to_list. Qed.

(** The entry of a listener is exactly its list of pools, unless that is empty. *)
Lemma listenerToInferencePools_spec names routeIdx pools n ps :
  listenerToInferencePools names routeIdx pools !! n = Some ps <->
  ps <> [] /\ exists ns, names !! n = Some ns /\ listenerPools n 0 routeIdx pools ns = ps.
Proof.
  unfold listenerToInferencePools. destruct (names !! n) as [ns|] eqn:E.
  - apply (map_range_elem ["listeners"]) in E. apply list_elem_of_split in E as (l1 & l2 & E).
    pose proof (map_range_NoDup ["listeners"] names) as Hnd. rewrite E in Hnd |- *.
    rewrite fmap_app, fmap_cons in Hnd. apply NoDup_app in Hnd as (Hnd1 & Hnin & Hnd2).
    apply NoDup_cons in Hnd2 as [Hnd2 _].
    rewrite foldl_app. cbn [foldl]. rewrite addListenerPools_fold by done.
    unfold addListenerPools at 1. cbn [fst snd]. destruct (listenerPools n 0 routeIdx pools ns) eqn:El.
    + rewrite addListenerPools_fold, lookup_empty by (intros H; apply (Hnin _ H); by left).
      split; [done|]. intros (Hne & ns' & ? & Hl); simplify_eq; congruence.
    + rewrite lookup_insert_eq. split; [intros ?; simplify_eq; eauto|].
      intros (Hne & ns' & ? & Hl); simplify_eq; congruence.
  - rewrite addListenerPools_fold, lookup_empty; [split; [done|by intros (_ & ? & ? & _)]|].
    intros ([n' ns] & -> & H)%list_elem_of_fmap. apply map_range_elem in H. simpl in E. congruence.
Qed.

(** ** The listener of an entry *)

Definition chains_of (l : Listener) : list FilterChain :=
  filter_chains l ++ option_list (default_filter_chain l).

Lemma patchListener_chains l l' pools :
  patchListenerWithInferencePoolFilters l pools = Ret l' ->
  Forall2 (fun c c' => patchFilterChain pools c = Ret c') (chains_of l) (chains_of l').
Proof.
  unfold patchListenerWithInferencePoolFilters, chains_of. intros (cs & Hcs & H)%obind_ret_inv.
  apply obind_ret_inv in H as (d & Hd & H). simplify_eq. simpl.
  apply Forall2_app; [by apply patchChains_spec|].
  destruct (default_filter_chain l) as [fc|]; [|by simplify_eq; constructor].
  apply obind_ret_inv in Hd as (fc' & Hfc & Hd). simplify_eq. by repeat constructor.
Qed.

Lemma patchFilterChain_undecodable pools fc fc' :
  patchFilterChain pools fc = Ret fc' -> chain_hcm fc = None -> fc' = fc.
Proof.
  unfold patchFilterChain, chain_hcm. intros H Hn.
  by destruct (findHttpConnectionManager (Some fc)) as [[]|?|?]; simplify_eq.
Qed.

Lemma patched_listener_covered l l' pools p :
  (forall m, is_Some (proto_marshal m)) ->
  patchListenerWithInferencePoolFilters l pools = Ret l' -> p ∈ pools ->
  Forall (fun fc => forall hcm, chain_hcm fc = Some hcm ->
            named (httpFilterNameForInferencePool p) (http_filters hcm) <> 0) (chains_of l').
Proof.
  intros Hm Hp Hin. apply patchListener_chains in Hp. apply Forall_forall. intros fc' Hfc' hcm' Hh'.
  apply list_elem_of_lookup in Hfc' as [i Hi].
  eapply Forall2_lookup_r in Hp as (fc & Hfc & Hpc); [|exact Hi].
  destruct (chain_hcm fc) as [hcm|] eqn:Hh;
    [|apply patchFilterChain_undecodable in Hpc as ->; [congruence|done]].
  destruct (patchFilterChain_hcm _ _ _ _ (fun h => Hm _) Hpc Hh) as (fs & Hi' & Hc).
  rewrite Hc in Hh'. simplify_eq. simpl.
  rewrite (insertPoolFilters_named _ _ _ _ Hi'), poolFilters_named by auto.
  case_decide; [|lia]. assert (pools_named (httpFilterNameForInferencePool p) pools <> 0); [|lia].
  intros H0. apply nil_length_inv in H0.
  assert (p ∈ filter (fun p0 => httpFilterNameForInferencePool p0 = httpFilterNameForInferencePool p) pools)
    as Hf by by apply list_elem_of_filter.
  rewrite H0 in Hf. by apply not_elem_of_nil in Hf.
Qed.

(** A listener with an entry is patched once, with the pools of its entry. *)
Lemma patchEntries_listener names idx routeIdx tag m st st' n ps i l :
  names_ok (xds_listeners st) names idx ->
  patchEntries names idx routeIdx (map_range tag m) st = Ret st' ->
  m !! n = Some ps -> idx !! n = Some i -> xds_listeners st !! i = Some l ->
  exists l', xds_listeners st' !! i = Some l' /\ patchListenerWithInferencePoolFilters l ps = Ret l'.
Proof.
  intros Hok H HL Hidx Hl. pose proof (map_range_NoDup tag m) as Hnd.
  apply (map_range_elem tag) in HL. apply list_elem_of_split in HL as (es1 & es2 & HL).
  rewrite HL in H, Hnd. rewrite fmap_app, fmap_cons in Hnd.
  apply NoDup_app in Hnd as (_ & Hn1 & Hnd2). apply NoDup_cons in Hnd2 as [Hn2 _].
  rewrite patchEntries_app in H. apply obind_ret_inv in H as (st1 & H1 & H).
  simpl in H. apply obind_ret_inv in H as (st2 & H2 & H3).
  assert (forall es, n ∉ es.*1 -> Forall (fun e : string * list InferencePool => idx !! e.1 <> Some i) es) as Hother.
  { intros es Hnin. apply Forall_forall. intros [n' q] He Hi.
    destruct (proj2 Hok _ _ Hi) as (l1 & Hl1 & Hn & _), (proj2 Hok _ _ Hidx) as (l2 & Hl2 & Hn' & _).
    apply Hnin, list_elem_of_fmap. exists (n', q). split; [simpl in *; congruence|done]. }
  rewrite (patchEntries_other _ _ _ _ _ _ _ H3) by by apply Hother.
  unfold patchEntry in H2. cbn [fst snd] in H2. rewrite Hidx in H2. simpl in H2.
  rewrite (patchEntries_other _ _ _ _ _ _ _ H1) in H2
    by (apply Hother; intros E; apply (Hn1 _ E); by left).
  rewrite Hl in H2. simpl in H2. apply obind_ret_inv in H2 as (l' & Hl' & H2).
  apply obind_ret_inv in H2 as (rs & _ & H2). simplify_eq. simpl. exists l'. split; [|done].
  apply list_lookup_insert_eq.
  rewrite <- (Forall2_length _ _ _ (proj1 (patchEntries_step _ _ _ _ _ _ _ Hok ltac:(reflexivity) H1))).
  by eapply lookup_lt_Some.
Qed.

(** C1: every pool a listener reaches is served.  When listener, route
    configuration and route names are unique, and a listener that is not one of
    the special two reaches (by RDS) a route whose metadata decodes to a pool,
    then after the hook every connection manager of that listener has the pool's
    ext_proc filter. *)
Theorem reachable_pools_covered st st' i l rc r p :
  (forall m, is_Some (proto_marshal m)) ->
  NoDup (l_name <$> xds_listeners st) -> NoDup (rc_name <$> xds_routes st) ->
  maybeModifyListenerAndRoutes st = Ret st' ->
  xds_listeners st !! i = Some l -> special_listener l = false ->
  rc ∈ xds_routes st -> rc_name rc ∈ findListenerRouteConfigs l ->
  NoDup (r_name <$> config_routes rc) -> r ∈ config_routes rc ->
  getInferencePoolByMetadata (r_metadata r) = Some p ->
  exists l', xds_listeners st' !! i = Some l' /\
    Forall (fun fc => forall hcm, chain_hcm fc = Some hcm ->
              named (httpFilterNameForInferencePool p) (http_filters hcm) <> 0) (chains_of l').
Proof.
  intros Hm Hndl Hndr H Hl Hs Hrc Hname Hndc Hr Hp. unfold maybeModifyListenerAndRoutes in H.
  pose proof (indexListeners_names_ok (xds_listeners st)) as Hok.
  pose proof (indexListeners_at 0 _ ∅ ∅ _ _ Hndl Hl Hs) as Hidx.
  destruct (indexListeners 0 (xds_listeners st) ∅ ∅) as [names idx]. simpl in Hok, Hidx.
  destruct (routePools_spec _ _ _ _ Hndr Hrc Hndc Hr Hp) as (inner & Hinner & Hpool).
  destruct (proj1 (list_elem_of_lookup _ _) Hrc) as [j Hj].
  pose proof (index_by_name_at rc_name 0 _ ∅ _ _ Hndr Hj) as Hroute.
  destruct (proj2 Hok _ _ Hidx) as (l0 & Hl0 & _ & _ & Hnames).
  assert (l0 = l) as -> by congruence. clear Hl0.
  pose proof (listenerPools_elem (l_name l) 0 _ _ _ _ _ _ _ Hname (ex_intro _ _ Hroute) Hinner Hpool) as Hin.
  edestruct (patchEntries_listener names idx) as (l' & Hl' & Hpl); [exact Hok|exact H| |exact Hidx|exact Hl|].
  { apply listenerToInferencePools_spec. split; [|eauto].
    intros E; rewrite E in Hin; by apply not_elem_of_nil in Hin. }
  exists l'. split; [done|]. by eapply patched_listener_covered.
Qed.

(** ** Panics *)

Definition hcms_nonempty (l : Listener) : Prop :=
  Forall (fun fc => forall hcm, chain_hcm fc = Some hcm -> http_filters hcm <> []) (chains_of l).

Lemma toAny_no_panic m p : toAny m <> Panic p.
Proof. unfold toAny. by destruct (proto_marshal m). Qed.

Lemma patchFilterChain_returns pools fc :
  (forall hcm, chain_hcm fc = Some hcm -> http_filters hcm <> []) ->
  exists fc', patchFilterChain pools fc = Ret fc'.
Proof.
  unfold patchFilterChain, chain_hcm. intros H.
  destruct (findHttpConnectionManager (Some fc)) as [[hcm i]|?|?]; [|eauto..].
  destruct (insertPoolFilters_nonempty _ (poolFilters (http_filters hcm) pools) (H _ eq_refl)) as [out ->].
  simpl. case_match; eauto.
Qed.

Lemma patchListener_returns l pools :
  hcms_nonempty l -> exists l', patchListenerWithInferencePoolFilters l pools = Ret l'.
Proof.
  unfold hcms_nonempty, chains_of, patchListenerWithInferencePoolFilters.
  rewrite Forall_app. intros [H1 H2].
  assert (exists cs, patchChains pools (filter_chains l) = Ret cs) as [cs ->].
  { clear H2. induction H1 as [|fc fcs Hfc _ [cs IH]]; simpl; [eauto|].
    destruct (patchFilterChain_returns pools _ Hfc) as [fc' ->]. rewrite IH. simpl. eauto. }
  cbn [obind]. destruct (default_filter_chain l) as [fc|]; simpl in *; [|eauto].
  inversion H2; subst. destruct (patchFilterChain_returns pools fc) as [fc' ->]; [done|]. simpl. eauto.
Qed.

Lemma patchRouteConfigs_no_panic pools routeIdx names rs p :
  patchRouteConfigs pools routeIdx names rs <> Panic p.
Proof.
  assert (forall m r, patchRoute m r <> Panic p) as Hr.
  { intros m r. unfold patchRoute. destruct (toAny _) eqn:E; [by case_match|done|].
    exfalso. by eapply toAny_no_panic. }
  assert (forall m r, patchRoutes m r <> Panic p) as Hrs.
  { intros m r. induction r as [|x r IH]; [done|]. simpl.
    destruct (patchRoute m x) eqn:E; [|done|]; simpl; [|specialize (Hr m x); congruence].
    destruct (patchRoutes m r); simpl; congruence. }
  assert (forall v, patchVirtualHosts pools v <> Panic p) as Hv.
  { intros v. induction v as [|x v IH]; [done|]. simpl. unfold patchVirtualHostWithInferencePool at 1.
    specialize (Hrs (inferenceMatrix pools) (vh_routes x)).
    destruct (patchRoutes _ _); simpl; [|done|congruence].
    destruct (patchVirtualHosts pools v); simpl; congruence. }
  revert rs. induction names as [|n names IH]; intros rs; [done|]. simpl.
  case_match; [|apply IH]. case_match. unfold patchRouteConfiguration.
  specialize (Hv (virtual_hosts r)). destruct (patchVirtualHosts _ _); simpl; [apply IH|done|congruence].
Qed.

Lemma hcms_nonempty_step l l' : hcms_nonempty l -> listener_step l l' -> hcms_nonempty l'.
Proof.
  intros H (_ & HF & HD & _). unfold hcms_nonempty in *.
  assert (Forall2 chain_step (chains_of l) (chains_of l')) as HC.
  { apply Forall2_app; [done|]. destruct HD; simpl; [by apply Forall2_cons|by apply Forall2_nil]. }
  apply Forall_forall. intros fc' Hfc' hcm' Hh'. apply list_elem_of_lookup in Hfc' as [i Hi].
  eapply Forall2_lookup_r in HC as (fc & Hfc & Hst); [|exact Hi].
  destruct (chain_hcm fc) as [hcm|] eqn:E;
    [|destruct Hst as (_ & Hu & _); rewrite Hu in Hh' by done; congruence].
  destruct (chain_step_hcm _ _ _ Hst E) as (h & Hh & Hne). simplify_eq. intros E0.
  rewrite Forall_forall in H. apply list_elem_of_lookup_2 in Hfc.
  by apply (H _ Hfc hcm), Hne.
Qed.

Lemma patchEntries_no_panic ls0 names idx routeIdx es st p :
  names_ok ls0 names idx -> Forall2 listener_step ls0 (xds_listeners st) ->
  Forall hcms_nonempty (xds_listeners st) -> Forall (fun e => is_Some (idx !! e.1)) es ->
  patchEntries names idx routeIdx es st <> Panic p.
Proof.
  intros Hok. revert st. induction es as [|e es IH]; intros st HF Hne Hes; [done|].
  inversion Hes as [|? ? [i Hi] Hes']; subst. simpl.
  destruct (patchEntry names idx routeIdx e st) as [st1|?|p'] eqn:E; simpl; [|done|].
  - destruct (patchEntry_step _ _ _ _ _ _ _ Hok HF E) as [Hst _].
    apply IH; [by etrans| |done]. apply Forall_forall. intros l' Hl'.
    apply list_elem_of_lookup in Hl' as [j Hj].
    eapply Forall2_lookup_r in Hst as (l & Hl & Hs); [|exact Hj].
    eapply hcms_nonempty_step; [|done]. by eapply Forall_lookup_1.
  - exfalso. unfold patchEntry in E. rewrite Hi in E. simpl in E.
    destruct (names_ok_step _ _ _ _ Hok HF _ _ Hi) as (l & Hl & _). rewrite Hl in E. simpl in E.
    destruct (patchListener_returns l e.2) as [l' Hp]; [by eapply Forall_lookup_1|].
    rewrite Hp in E. simpl in E. destruct (patchRouteConfigs _ _ _ _) eqn:Er; [done|done|].
    by eapply patchRouteConfigs_no_panic.
Qed.

Lemma indexed_entries ls routeIdx pools tag :
  let '(names, idx) := indexListeners 0 ls ∅ ∅ in
  Forall (fun e => is_Some (idx !! e.1))
    (map_range tag (listenerToInferencePools names routeIdx pools)).
Proof.
  pose proof (indexListeners_names_ok ls) as [Hd _].
  destruct (indexListeners 0 ls ∅ ∅) as [names idx]. apply Forall_forall. intros [n ps] H.
  apply map_range_elem, listenerToInferencePools_spec in H as (_ & ns & Hn & _). simpl in *.
  apply elem_of_dom. rewrite <- Hd. by apply elem_of_dom_2 in Hn.
Qed.

(** C36: the hook never panics on a request in which every connection manager has
    at least one HTTP filter (the router): the two unchecked accesses, the last
    element of the filters and the listener found by name, are safe there. *)
Theorem translate_never_panics req p :
  Forall hcms_nonempty (tr_listeners req) -> PostTranslateModify req <> Panic p.
Proof.
  intros Hne. unfold PostTranslateModify, maybeModifyListenerAndRoutes. simpl.
  destruct (buildClustersForInferencePoolEndpointPickers (tr_clusters req)) eqn:E; simpl; [|done|].
  - pose proof (indexListeners_names_ok (tr_listeners req)) as Hok.
    pose proof (indexed_entries (tr_listeners req) (index_by_name rc_name 0 (tr_routes req) ∅)
      (routePools (tr_routes req)) ["patch"]) as Hes.
    destruct (indexListeners 0 (tr_listeners req) ∅ ∅) as [names idx].
    destruct (patchEntries _ _ _ _ _) eqn:E2; simpl; [done|done|].
    exfalso. refine (patchEntries_no_panic _ _ _ _ _ _ _ Hok _ _ Hes E2); [simpl; reflexivity|exact Hne].
  - exfalso. clear Hne. revert E. induction (tr_clusters req) as [|c l IH]; [done|]. simpl.
    case_match; [|done]. unfold buildExtProcClusterForInferencePoolEndpointPicker.
    pose proof (toAny_no_panic MUpstreamTls). pose proof (toAny_no_panic MHttp2Options).
    destruct (toAny MUpstreamTls); simpl; [|done|naive_solver].
    destruct (toAny MHttp2Options); simpl; [|done|naive_solver].
    destruct (buildClustersForInferencePoolEndpointPickers l); [done|done|naive_solver].
Qed.

(** ** No pools *)

Lemma listenerPools_empty listener i routeIdx names :
  listenerPools listener i routeIdx ∅ names = [].
Proof.
  revert i. induction names as [|x ns IH]; intros i; [done|]. simpl.
  rewrite lookup_empty, IH. by destruct (routeIdx !! x).
Qed.

(** A request without InferencePools comes back as it was: when no cluster
    and no route decodes to a pool, the response is the request, whatever its
    listeners hold (nothing is marshalled, nothing can fail). *)
Theorem no_pools_identity req :
  cluster_pools (tr_clusters req) = [] ->
  Forall (fun rc => Forall (fun r => getInferencePoolByMetadata (r_metadata r) = None) (config_routes rc))
    (tr_routes req) ->
  PostTranslateModify req = Ret req.
Proof.
  intros Hc Hr. unfold PostTranslateModify, maybeModifyListenerAndRoutes.
  assert (buildClustersForInferencePoolEndpointPickers (tr_clusters req) = Ret []) as ->.
  { revert Hc. unfold cluster_pools. induction (tr_clusters req) as [|c l IH]; [done|]. simpl.
    by destruct (getInferencePoolByMetadata (c_metadata c)). }
  assert (routePools (tr_routes req) = ∅) as Hp.
  { unfold routePools. induction Hr as [|rc rcs Hrc _ IH]; [done|]. simpl.
    assert (foldl addRoutePool ((∅ : gmap string (gmap string InferencePool)) !! rc_name rc) (config_routes rc) = None) as E.
    { rewrite lookup_empty. clear IH. induction Hrc as [|r rs Hr _ IH]; [done|]. simpl.
      unfold addRoutePool at 2. by rewrite Hr. }
    unfold addRouteConfigPools at 2. by rewrite E. }
  simpl. rewrite Hp. destruct (indexListeners 0 (tr_listeners req) ∅ ∅) as [names idx].
  set (L := listenerToInferencePools _ _ _). assert (L = ∅) as ->.
  { apply map_empty. intros n. apply eq_None_not_Some. intros [ps Hps].
    apply listenerToInferencePools_spec in Hps as (Hne & ns & _ & <-). apply Hne.
    apply listenerPools_empty. }
  assert (map_range ["patch"] (∅ : gmap string (list InferencePool)) = []) as ->.
  { apply Permutation_nil. rewrite <- map_to_list_empty. symmetry. apply map_range_perm. }
  simpl. rewrite app_nil_r. by destruct req.
Qed.

End Translate.

(** ** A concrete request

    One listener with one connection manager, whose route configuration has two
    routes to the same pool and one to none. *)

Definition example_router : HttpFilter := {| hf_name := "envoy.filters.http.router"; hf_typed_config := None |}.

Definition example_hcm : HttpConnectionManager :=
  {| rds_route_config_name := Some "rc0"; http_filters := [example_router]; hcm_rest := "" |}.

Definition example_chain : FilterChain :=
  {| fc_name := "c0";
     fc_filters := [{| f_name := HTTPConnectionManager_name;
                       f_typed_config := match toAny (MHcm example_hcm) with Ret a => Some a | _ => None end |}] |}.

Definition example_listener : Listener :=
  {| l_name := "gw/http"; filter_chains := []; default_filter_chain := Some example_chain |}.

Definition example_pool_route (n : string) : Route :=
  {| r_name := n; r_metadata := buildEPPMetadata (Some {| FilterMetadata := None |}) example_pool;
     r_action := None; typed_per_filter_config := None |}.

Definition example_plain_route : Route :=
  {| r_name := "plain"; r_metadata := None; r_action := None; typed_per_filter_config := None |}.

Definition example_routes : RouteConfiguration :=
  {| rc_name := "rc0"; virtual_hosts := [{| vh_name := "v";
       vh_routes := [example_pool_route "r0"; example_pool_route "r1"; example_plain_route] |}] |}.

Definition example_xds : xds := {| xds_listeners := [example_listener]; xds_routes := [example_routes] |}.

Definition example_epp_cluster (m : option Metadata) : Cluster :=
  {| c_name := "httproute/gw/r/rule/0"; discovery_type := Some ORIGINAL_DST; lb_policy := CLUSTER_PROVIDED;
     connect_timeout_s := None; lb_config := None; load_balancing_policy := None;
     eds_cluster_config := None; c_metadata := m; transport_socket := None;
     load_assignment := None; typed_extension_protocol_options := ∅ |}.

Definition example_request (m : option Metadata) (routes : list RouteConfiguration)
    : PostTranslateModifyRequest :=
  {| tr_clusters := [example_epp_cluster m]; tr_secrets := ["s"]; tr_listeners := [example_listener];
     tr_routes := routes |}.

(** The value of a call that returns. *)
Definition ret_or {E A} (d : A) (m : outcome E A) : A := match m with Ret a => a | _ => d end.

Definition example_pool_read : InferencePool := normalize_pool example_pool.

Definition patched_example (pools : list InferencePool) : FilterChain :=
  ret_or example_chain (patchFilterChain pools example_chain).

Lemma codec_total : forall m, is_Some (proto_marshal m).
Proof. intros m. eexists. reflexivity. Qed.

Lemma router_stays_last_witness :
  exists hcm', chain_hcm (patched_example [example_pool_read]) = Some hcm' /\
    last (http_filters hcm') = Some example_router.
Proof.
  destruct (router_stays_last [example_pool_read] example_chain (patched_example [example_pool_read])
    example_hcm (fun h => codec_total (MHcm h)) ltac:(vm_compute; reflexivity) ltac:(vm_compute; reflexivity))
    as (fs & Hfs & H & _).
  exists (with_http_filters example_hcm fs). split; [exact Hfs|]. simpl.
  destruct H as [->|(init & router & news & Hi & -> & _)]; [reflexivity|].
  rewrite !last_app. simpl. apply (f_equal last) in Hi. rewrite last_app in Hi. simpl in Hi. congruence.
Defined.

(** The listener reaches two routes to one pool, and gets its filter twice. *)
Lemma pool_filter_count_witness :
  exists hcm', chain_hcm (patched_example [example_pool_read; example_pool_read]) = Some hcm' /\
    named (httpFilterNameForInferencePool example_pool) (http_filters hcm') = 2%nat.
Proof.
  destruct (pool_filter_count [example_pool_read; example_pool_read] example_chain
    (patched_example [example_pool_read; example_pool_read]) example_hcm codec_total
    ltac:(vm_compute; reflexivity) ltac:(vm_compute; reflexivity)) as (hcm' & Hh & Hn & _).
  exists hcm'. split; [exact Hh|]. rewrite (Hn (httpFilterNameForInferencePool example_pool)).
  vm_compute. reflexivity.
Defined.

Definition example_clusters : list Cluster :=
  [example_epp_cluster (buildEPPMetadata (Some {| FilterMetadata := None |}) example_pool)].

Definition example_built : list Cluster :=
  ret_or [] (buildClustersForInferencePoolEndpointPickers example_clusters).

Lemma epp_clusters_built_witness :
  length example_built = 1%nat /\ buildClustersForInferencePoolEndpointPickers example_built = Ret [].
Proof.
  assert (buildClustersForInferencePoolEndpointPickers example_clusters = Ret example_built) as H
    by (vm_compute; reflexivity).
  split; [vm_compute; reflexivity|]. exact (proj2 (epp_clusters_built example_clusters example_built H)).
Defined.

Definition example_translated : PostTranslateModifyRequest :=
  ret_or (example_request None [example_routes]) (PostTranslateModify (example_request None [example_routes])).

Lemma translate_frame_witness :
  PostTranslateModify (example_request None [example_routes]) = Ret example_translated /\
  tr_secrets example_translated = ["s"].
Proof.
  assert (PostTranslateModify (example_request None [example_routes]) = Ret example_translated) as H
    by (vm_compute; reflexivity).
  split; [exact H|]. exact (proj1 (proj2 (translate_frame _ _ H))).
Defined.

Definition example_patched : xds := ret_or example_xds (maybeModifyListenerAndRoutes example_xds).

Lemma reachable_pools_covered_witness :
  exists l', xds_listeners example_patched !! 0%nat = Some l' /\ chains_of l' <> [].
Proof.
  destruct (reachable_pools_covered example_xds example_patched 0 example_listener example_routes
    (example_pool_route "r0") example_pool_read codec_total) as (l' & Hl & _).
  - apply (bool_decide_unpack _). vm_compute. exact I.
  - apply (bool_decide_unpack _). vm_compute. exact I.
  - vm_compute. reflexivity.
  - reflexivity.
  - reflexivity.
  - left.
  - apply (bool_decide_unpack _). vm_compute. exact I.
  - apply (bool_decide_unpack _). vm_compute. exact I.
  - left.
  - reflexivity.
  - exists l'. split; [exact Hl|]. vm_compute in Hl. injection Hl as <-. discriminate.
Defined.

Lemma translate_never_panics_witness :
  PostTranslateModify (example_request None [example_routes]) <> Panic IndexOutOfRange.
Proof.
  apply (translate_never_panics (example_request None [example_routes]) IndexOutOfRange).
  repeat constructor. intros hcm H. assert (chain_hcm example_chain = Some example_hcm) as E
    by (vm_compute; reflexivity). rewrite E in H. injection H as <-. discriminate.
Defined.

Lemma no_pools_identity_witness :
  PostTranslateModify (example_request None []) = Ret (example_request None []).
Proof. apply (no_pools_identity (example_request None [])); [reflexivity|constructor]. Defined.
