(* ===== verification/K8s.v ===== *)
(** * K8s: objects of the API server and the client the controllers call

    The Kubernetes objects the LeaderWorkerSet controllers read and write, with
    the fields they use, and the client they talk to ([LwsApi]): a state [W] of
    the API server with its reads and writes.  Handlers are computations of
    [kube W E A], which may write to [W] before they return, fail or panic. *)

From S2P Require Import Prelude GoStd.

Local Open Scope Z_scope.

(** ** Objects *)

Record OwnerReference := {
  owner_api_version : string; owner_kind : string; owner_name : string; owner_uid : string;
  owner_block_deletion : bool; owner_controller : bool
}.

(** metav1.ObjectMeta; [None] labels or annotations are the nil map. *)
Record ObjectMeta := {
  o_name : string; o_namespace : string; o_uid : string;
  o_labels : option (gmap string string); o_annotations : option (gmap string string);
  o_owners : list OwnerReference; o_deleting : bool
}.

(** [m[key]] of a possibly nil map. *)
Definition label (m : option (gmap string string)) (key : string) : string :=
  default "" (m ≫= fun l => l !! key).

Definition has_label (m : option (gmap string string)) (key : string) : bool :=
  bool_decide (is_Some (m ≫= fun l => l !! key)).

Record PodTemplateSpec := {
  pt_labels : option (gmap string string); pt_annotations : option (gmap string string);
  pt_spec : string
}.

Record RollingUpdateConfiguration := { ru_partition : option Z; ru_max_unavailable : string }.

Record LeaderWorkerSet := {
  lws_meta : ObjectMeta;
  lws_kind : string;
  lws_replicas : option Z;
  lws_leader_template : option PodTemplateSpec;
  lws_worker_template : PodTemplateSpec;
  lws_size : option Z;
  lws_rollout_type : string;
  lws_rolling_update : option RollingUpdateConfiguration;
  (** NetworkConfig, with its SubdomainPolicy pointer *)
  lws_network_config : option (option string)
}.

(** runtime.RawExtension: the bytes, and the dump of the object if there is one. *)
Record RawExtension := { Raw : string; Object : option string }.

Record ControllerRevision := { rev_meta : ObjectMeta; rev_revision : Z; rev_data : RawExtension }.

Record StatefulSet := { sts_meta : ObjectMeta }.
Record Pod := { pod_meta : ObjectMeta }.

(** appsv1 apply configuration of a StatefulSet, the fields that are set. *)
Record StatefulSetApply := {
  sa_name : string; sa_namespace : string;
  sa_labels : gmap string string; sa_annotations : gmap string string;
  sa_owners : list OwnerReference;
  sa_service_name : string; sa_replicas : Z;
  sa_match_labels : gmap string string;
  sa_template_labels : gmap string string; sa_template_annotations : gmap string string;
  sa_template_spec : string;
  sa_pod_management : string;
  sa_update_strategy : option (string * Z * string);
  sa_ordinals_start : option Z
}.

(** ctrl.Result. *)
Record Result := { Requeue : bool; RequeueAfter : Z }.
Definition done_result : Result := {| Requeue := false; RequeueAfter := 0 |}.
Definition second : Z := 1000000000.

(** ** The client *)

Inductive api_error := NotFound | ApiFailure (reason : string).

#[export] Instance api_error_eq_dec : EqDecision api_error.
Proof. solve_decision. Defined.

Definition IgnoreNotFound (e : api_error) : option api_error :=
  match e with NotFound => None | ApiFailure _ => Some e end.

Class LwsApi (W : Type) := {
  get_lws : W -> string -> string -> api_error + LeaderWorkerSet;
  get_sts : W -> string -> string -> api_error + StatefulSet;
  get_pod : W -> string -> string -> api_error + Pod;
  list_sts_controlled_by : W -> string -> string -> api_error + list StatefulSet;
  list_revisions : W -> string -> gmap string string -> api_error + list ControllerRevision;
  create_revision : W -> ControllerRevision -> option api_error * W;
  apply_sts : W -> StatefulSetApply -> option api_error * W;
  create_sts : W -> StatefulSetApply -> option api_error * W;
  record_event : W -> string -> string -> string -> W
}.

(** ** Computations *)

Definition kube (W E A : Type) := W -> outcome E A * W.

Definition kret {W E A} (a : A) : kube W E A := fun w => (Ret a, w).
Definition kerr {W E A} (e : E) : kube W E A := fun w => (Err e, w).
Definition klift {W E A} (m : outcome E A) : kube W E A := fun w => (m, w).
Definition kbind {W E A B} (m : kube W E A) (k : A -> kube W E B) : kube W E B :=
  fun w => match m w with
           | (Ret a, w') => k a w'
           | (Err e, w') => (Err e, w')
           | (Panic p, w') => (Panic p, w')
           end.
Definition kget {W E A} (f : W -> A) : kube W E A := fun w => (Ret (f w), w).
Definition kdo {W E A} (f : W -> A * W) : kube W E A := fun w => let '(a, w') := f w in (Ret a, w').

Declare Scope kube_scope.
Notation "'do!' x ':=' m 'in' k" := (kbind m (fun x => k))
  (at level 10, x name, m at level 100, k at level 200) : kube_scope.
#[global] Open Scope kube_scope.

(** A computation that writes nothing. *)
Definition read_only {W E A} (m : kube W E A) : Prop := forall w, (m w).2 = w.

Lemma read_only_bind {W E A B} (m : kube W E A) (k : A -> kube W E B) :
  read_only m -> (forall a, read_only (k a)) -> read_only (kbind m k).
Proof.
  intros Hm Hk w. unfold kbind. specialize (Hm w).
  destruct (m w) as [[a|e|p] w']; simpl in *; subst; [apply Hk|done..].
Qed.

Lemma read_only_klift {W E A} (m : outcome E A) : read_only (W := W) (klift m).
Proof. done. Qed.
Lemma read_only_kget {W E A} (f : W -> A) : read_only (E := E) (kget f).
Proof. done. Qed.
Lemma read_only_kret {W E A} (a : A) : read_only (W := W) (E := E) (kret a).
Proof. done. Qed.
Lemma read_only_kerr {W E A} (e : E) : read_only (W := W) (A := A) (kerr e).
Proof. done. Qed.

Create HintDb kube.
#[export] Hint Resolve read_only_bind read_only_klift read_only_kget read_only_kret read_only_kerr : kube.

(** Walks through a computation known to write nothing. *)
Ltac read_only_tac :=
  repeat first
    [ done
    | apply read_only_klift | apply read_only_kget | apply read_only_kret | apply read_only_kerr
    | solve [auto with kube]
    | apply read_only_bind; [|intros ?]
    | progress case_match ].

Lemma kbind_ret {W E A B} (m : kube W E A) (k : A -> kube W E B) w a w' :
  m w = (Ret a, w') -> kbind m k w = k a w'.
Proof. intros H. unfold kbind. by rewrite H. Qed.

Lemma kbind_inv {W E A B} (m : kube W E A) (k : A -> kube W E B) w b w' :
  kbind m k w = (Ret b, w') -> exists a w1, m w = (Ret a, w1) /\ k a w1 = (Ret b, w').
Proof. unfold kbind. destruct (m w) as [[a|e|p] w1]; intros H; simplify_eq; eauto. Qed.

(** ** An API server to compute with

    Revisions, StatefulSets, pods and sets in lists, written in order; the
    controller of a StatefulSet is the owner marked so. *)
Record server := {
  srv_lws : list LeaderWorkerSet; srv_sts : list StatefulSet; srv_pods : list Pod;
  srv_revisions : list ControllerRevision; srv_applied : list StatefulSetApply;
  srv_events : list string
}.

Definition find_named {A} (meta : A -> ObjectMeta) (ns name : string) (l : list A) : api_error + A :=
  match List.find (fun a => bool_decide (o_namespace (meta a) = ns) && bool_decide (o_name (meta a) = name)) l with
  | Some a => inr a
  | None => inl NotFound
  end.

Definition selects (sel : gmap string string) (labels : option (gmap string string)) : bool :=
  bool_decide (sel ⊆ default ∅ labels).

Definition applied_sts (a : StatefulSetApply) : StatefulSet :=
  {| sts_meta := {| o_name := sa_name a; o_namespace := sa_namespace a; o_uid := sa_name a;
                    o_labels := Some (sa_labels a); o_annotations := Some (sa_annotations a);
                    o_owners := sa_owners a; o_deleting := false |} |}.

#[export] Instance server_api : LwsApi server := {|
  get_lws s ns n := find_named lws_meta ns n (srv_lws s);
  get_sts s ns n := find_named sts_meta ns n (srv_sts s);
  get_pod s ns n := find_named pod_meta ns n (srv_pods s);
  list_sts_controlled_by s ns uid :=
    inr (filter (fun x => o_namespace (sts_meta x) = ns /\
      Exists (fun o => owner_controller o = true /\ owner_uid o = uid) (o_owners (sts_meta x))) (srv_sts s));
  list_revisions s ns sel :=
    inr (filter (fun r => o_namespace (rev_meta r) = ns /\ selects sel (o_labels (rev_meta r)) = true)
           (srv_revisions s));
  create_revision s r :=
    (None, {| srv_lws := srv_lws s; srv_sts := srv_sts s; srv_pods := srv_pods s;
              srv_revisions := srv_revisions s ++ [r]; srv_applied := srv_applied s;
              srv_events := srv_events s |});
  apply_sts s a :=
    (None, {| srv_lws := srv_lws s; srv_sts := srv_sts s ++ [applied_sts a]; srv_pods := srv_pods s;
              srv_revisions := srv_revisions s; srv_applied := srv_applied s ++ [a];
              srv_events := srv_events s |});
  create_sts s a :=
    (None, {| srv_lws := srv_lws s; srv_sts := srv_sts s ++ [applied_sts a]; srv_pods := srv_pods s;
              srv_revisions := srv_revisions s; srv_applied := srv_applied s ++ [a];
              srv_events := srv_events s |});
  record_event s ty reason msg :=
    {| srv_lws := srv_lws s; srv_sts := srv_sts s; srv_pods := srv_pods s;
       srv_revisions := srv_revisions s; srv_applied := srv_applied s;
       srv_events := srv_events s ++ [ty +:+ " " +:+ reason +:+ " " +:+ msg] |}
|}.
