(* ===== verification/LwsRevision.v ===== *)
(** * LwsRevision: controller revisions of a LeaderWorkerSet

    src/pkg/controllers/workloads/lws/revision.go: the patch a revision stores,
    its hash and number, how revisions are listed, looked up and created, and
    how one is applied back to a LeaderWorkerSet.  JSON conversion, strategic
    merge, label selectors and the safe alphabet are apimachinery's and are
    parameters ([LwsLib]). *)

From S2P Require Import Prelude GoStd K8s.

Local Open Scope Z_scope.

(** ** Parameters *)

(** Unstructured JSON: a Go map[string]interface{} as its entries. *)
Inductive json :=
| JScalar (s : string)
| JArray (l : list json)
| JMap (m : list (string * json)).

Fixpoint jlookup (key : string) (m : list (string * json)) : option json :=
  match m with
  | [] => None
  | (k, v) :: rest => if bool_decide (k = key) then Some v else jlookup key rest
  end.

(** [m[key] = v]. *)
Fixpoint jset (key : string) (v : json) (m : list (string * json)) : list (string * json) :=
  match m with
  | [] => [(key, v)]
  | (k, v0) :: rest => if bool_decide (k = key) then (k, v) :: rest else (k, v0) :: jset key v rest
  end.

Class LwsLib := {
  SetNameLabelKey : string; RevisionKey : string; WorkerIndexLabelKey : string;
  GroupIndexLabelKey : string; GroupUniqueHashLabelKey : string;
  LeaderPodNameAnnotationKey : string; SizeAnnotationKey : string; ReplicasAnnotationKey : string;
  SubdomainShared : string; lws_group_version : string;
  label_keys_distinct :
    NoDup [SetNameLabelKey; RevisionKey; WorkerIndexLabelKey; GroupIndexLabelKey; GroupUniqueHashLabelKey];
  annotation_keys_distinct : LeaderPodNameAnnotationKey <> SizeAnnotationKey;
  (** metav1.LabelSelectorAsSelector refuses some names *)
  selector_valid : gmap string string -> bool;
  SafeEncodeString : string -> string;
  lws_to_unstructured : LeaderWorkerSet -> option (list (string * json));
  json_marshal : list (string * json) -> option string;
  lws_marshal : LeaderWorkerSet -> option string;
  lws_unmarshal : string -> option LeaderWorkerSet;
  strategic_merge_patch : string -> string -> option string
}.

Inductive lws_error :=
| ApiError (e : api_error)
| InvalidSelector
| ConversionError
| JsonError
| PatchError
| MissingLabel (key : string)
| NoKindRegistered.

#[export] Instance lws_error_eq_dec : EqDecision lws_error.
Proof. solve_decision. Defined.

(** ** Pure operations *)

Section Revision.
Context {LL : LwsLib}.

Definition GetRevisionKey (obj : ObjectMeta) : string := label (o_labels obj) RevisionKey.

(** [start <= revision.Revision] keeps the last among equals. *)
Fixpoint highestFrom (start : Z) (max : option ControllerRevision) (revisions : list ControllerRevision)
    : option ControllerRevision :=
  match revisions with
  | [] => max
  | r :: rest =>
      if start <=? rev_revision r then highestFrom (rev_revision r) (Some r) rest
      else highestFrom start max rest
  end.

Definition getHighestRevision (revisions : list ControllerRevision) : option ControllerRevision :=
  highestFrom 0 None revisions.

(** [hasher.Reset] then the dump: whatever was hashed before is dropped. *)
Definition deepHashObject (hasher : Z) (dump : string) : Z := fnv32 dump.

Definition HashRevision (data : RawExtension) : string :=
  let hasher := match Raw data with EmptyString => fnv32_offset | raw => fnv32 raw end in
  let hasher := match Object data with None => hasher | Some obj => deepHashObject hasher obj end in
  SafeEncodeString (utoa hasher).

(** [x.(map[string]interface{})], which panics on anything else, nil included. *)
Definition as_map (j : option json) : outcome lws_error (list (string * json)) :=
  match j with Some (JMap m) => Ret m | _ => Panic TypeAssertion end.

Definition withDefaultNetwork (lws : LeaderWorkerSet) : LeaderWorkerSet :=
  {| lws_meta := lws_meta lws; lws_kind := lws_kind lws; lws_replicas := lws_replicas lws;
     lws_leader_template := lws_leader_template lws; lws_worker_template := lws_worker_template lws;
     lws_size := lws_size lws; lws_rollout_type := lws_rollout_type lws;
     lws_rolling_update := lws_rolling_update lws;
     lws_network_config := match lws_network_config lws with
                           | None => Some (Some SubdomainShared)
                           | c => c
                           end |}.

(** The object that is marshalled, from the unstructured form. *)
Definition revisionObject (raw : list (string * json)) : outcome lws_error (list (string * json)) :=
  let* spec := as_map (jlookup "spec" raw) in
  let* networkConfig := as_map (jlookup "networkConfig" spec) in
  let* template := as_map (jlookup "leaderWorkerTemplate" spec) in
  let patched m := JMap (jset "$patch" (JScalar "replace") m) in
  Ret [("spec", JMap [("networkConfig", patched networkConfig); ("leaderWorkerTemplate", patched template)])].

Definition getRevisionPatchForLWS (lws : LeaderWorkerSet) : outcome lws_error string :=
  match lws_to_unstructured (withDefaultNetwork lws) with
  | None => Err ConversionError
  | Some raw =>
      let* obj := revisionObject raw in
      match json_marshal obj with Some b => Ret b | None => Err JsonError end
  end.

(** The error of the first Marshal is overwritten: nil bytes are merged. *)
Definition ApplyRevision (lws : LeaderWorkerSet) (revision : ControllerRevision)
    : outcome lws_error LeaderWorkerSet :=
  let cloneBytes := default "" (lws_marshal lws) in
  match strategic_merge_patch cloneBytes (Raw (rev_data revision)) with
  | None => Err PatchError
  | Some patched =>
      match lws_unmarshal patched with Some restored => Ret restored | None => Err JsonError end
  end.

(** ** Operations on the API server *)

Context {W : Type} {API : LwsApi W}.

(** A revision is appended once for each of its owner references with the
    object's UID. *)
Definition owned_copies (uid : string) (r : ControllerRevision) : list ControllerRevision :=
  (fun _ => r) <$> filter (fun o => owner_uid o = uid) (o_owners (rev_meta r)).

Definition ListRevisions (obj : ObjectMeta) (selector : gmap string string)
    : kube W lws_error (list ControllerRevision) :=
  do! res := kget (fun w => list_revisions w (o_namespace obj) selector) in
  match res with
  | inl e => kerr (ApiError e)
  | inr items => kret (mjoin (owned_copies (o_uid obj) <$> items))
  end.

Definition name_selector (lws : LeaderWorkerSet) : gmap string string :=
  {[SetNameLabelKey := o_name (lws_meta lws)]}.

Definition key_selector (lws : LeaderWorkerSet) (revisionKey : string) : gmap string string :=
  <[SetNameLabelKey := o_name (lws_meta lws)]> {[RevisionKey := revisionKey]}.

Definition GetRevision (lws : LeaderWorkerSet) (revisionKey : string)
    : kube W lws_error (option ControllerRevision) :=
  if bool_decide (revisionKey = ""%string) then kret None
  else if negb (selector_valid (key_selector lws revisionKey)) then kerr InvalidSelector
  else
    do! revisions := ListRevisions (lws_meta lws) (key_selector lws revisionKey) in
    match revisions with
    | [] => kret None
    | [r] => kret (Some r)
    | _ => kret (getHighestRevision revisions)
    end.

Definition revisionNumberAfter (revisions : list ControllerRevision) : Z :=
  match getHighestRevision revisions with
  | None => 1
  | Some highest => wrap_int64 (rev_revision highest + 1)
  end.

Definition buildRevision (lws : LeaderWorkerSet) (revisionNumber : Z) (patch revisionKey : string)
    : ControllerRevision :=
  let data := {| Raw := patch; Object := None |} in
  let hashRevision := HashRevision data in
  let key := if bool_decide (revisionKey = ""%string) then hashRevision else revisionKey in
  {| rev_meta := {|
       o_name := o_name (lws_meta lws) +:+ "-" +:+ hashRevision +:+ "-" +:+ itoa revisionNumber;
       o_namespace := o_namespace (lws_meta lws);
       o_uid := "";
       o_labels := Some (<[RevisionKey := key]> {[SetNameLabelKey := o_name (lws_meta lws)]});
       o_annotations := None;
       o_owners := [{| owner_api_version := lws_group_version; owner_kind := lws_kind lws;
                       owner_name := o_name (lws_meta lws); owner_uid := o_uid (lws_meta lws);
                       owner_block_deletion := true; owner_controller := true |}];
       o_deleting := false |};
     rev_revision := revisionNumber;
     rev_data := data |}.

Definition NewRevision (lws : LeaderWorkerSet) (revisionKey : string)
    : kube W lws_error ControllerRevision :=
  if negb (selector_valid (name_selector lws)) then kerr InvalidSelector
  else
    do! revisions := ListRevisions (lws_meta lws) (name_selector lws) in
    do! patch := klift (getRevisionPatchForLWS lws) in
    kret (buildRevision lws (revisionNumberAfter revisions) patch revisionKey).

Definition createRevision (r : ControllerRevision) : kube W lws_error (option api_error) :=
  kdo (fun w => create_revision w r).

Definition GetOrCreateRevision (lws : LeaderWorkerSet) (revisionKey : string)
    : kube W lws_error ControllerRevision :=
  do! found := GetRevision lws revisionKey in
  match found with
  | Some revision => kret revision
  | None =>
      do! revision := NewRevision lws revisionKey in
      do! err := createRevision revision in
      match err with
      | Some e => kerr (ApiError e)
      | None => kret revision
      end
  end.

(** ** Lemmas *)

Lemma ListRevisions_read_only obj sel : read_only (ListRevisions obj sel).
Proof. unfold ListRevisions. read_only_tac. Qed.

Lemma GetRevision_read_only lws key : read_only (GetRevision lws key).
Proof.
  unfold GetRevision. case_bool_decide; [done|]. case_match; [done|].
  apply read_only_bind; [apply ListRevisions_read_only|]. intros [|? [|]]; done.
Qed.

Lemma NewRevision_read_only lws key : read_only (NewRevision lws key).
Proof.
  unfold NewRevision. case_match; [done|].
  apply read_only_bind; [apply ListRevisions_read_only|]. intros a.
  apply read_only_bind; [done|]. done.
Qed.

(** The scan returns an element that bounds all others with a number above the
    start; it is the last of those that reach the bound. *)
Lemma highestFrom_spec start max revs r :
  highestFrom start max revs = Some r ->
  (Some r = max /\ Forall (fun x => rev_revision x < start) revs) \/
  exists l1 l2, revs = l1 ++ r :: l2 /\ start <= rev_revision r /\
    Forall (fun x => rev_revision x <= rev_revision r) l1 /\
    Forall (fun x => rev_revision x < rev_revision r) l2.
Proof.
  revert start max. induction revs as [|x revs IH]; intros start max H; simpl in H; [by left|].
  destruct (start <=? rev_revision x) eqn:E.
  - apply Z.leb_le in E. right. destruct (IH _ _ H) as [[Hm HF]|(l1 & l2 & -> & Hs & H1 & H2)].
    + simplify_eq. exists [], revs. auto.
    + exists (x :: l1), l2. split_and!; [done|lia|by constructor|done].
  - apply Z.leb_gt in E. destruct (IH _ _ H) as [[Hm HF]|(l1 & l2 & -> & Hs & H1 & H2)].
    + left. split; [done|]. by constructor.
    + right. exists (x :: l1), l2. split_and!; [done|lia| |done]. constructor; [lia|done].
Qed.

Lemma highestFrom_none start revs :
  highestFrom start None revs = None <-> Forall (fun x => rev_revision x < start) revs.
Proof.
  assert (forall start m revs, highestFrom start (Some m) revs <> None) as Hs.
  { clear. intros start m revs. revert start m. induction revs as [|x revs IH]; intros start m; [done|].
    simpl. by case_match. }
  revert start. induction revs as [|x revs IH]; intros start; simpl; [by split|].
  rewrite Forall_cons. destruct (start <=? rev_revision x) eqn:E.
  - apply Z.leb_le in E. split; [intros H; by apply Hs in H|intros [H _]; lia].
  - apply Z.leb_gt in E. rewrite IH. naive_solver.
Qed.

Lemma getHighestRevision_some revs r :
  getHighestRevision revs = Some r ->
  exists l1 l2, revs = l1 ++ r :: l2 /\ 0 <= rev_revision r /\
    Forall (fun x => rev_revision x <= rev_revision r) l1 /\
    Forall (fun x => rev_revision x < rev_revision r) l2.
Proof. intros H. apply highestFrom_spec in H as [[Hn _]|H]; [discriminate|exact H]. Qed.

Lemma jlookup_jset k v k' m :
  jlookup k' (jset k v m) = if bool_decide (k = k') then Some v else jlookup k' m.
Proof.
  induction m as [|[k0 v0] m IH]; simpl; [done|].
  destruct (decide (k0 = k)) as [->|Hne].
  - rewrite (bool_decide_eq_true_2 (k = k)) by done. simpl. by repeat case_bool_decide.
  - rewrite (bool_decide_eq_false_2 (k0 = k)) by done. simpl. rewrite IH.
    repeat case_bool_decide; congruence.
Qed.

Lemma buildRevision_key lws n patch key :
  GetRevisionKey (rev_meta (buildRevision lws n patch key))
  = if bool_decide (key = ""%string) then HashRevision {| Raw := patch; Object := None |} else key.
Proof. unfold GetRevisionKey, label. simpl. by rewrite lookup_insert_eq. Qed.

(** The labels a new revision carries answer both selectors. *)
Lemma buildRevision_selected lws n patch key sel :
  sel = name_selector lws \/ (key <> ""%string /\ sel = key_selector lws key) ->
  selects sel (o_labels (rev_meta (buildRevision lws n patch key))) = true.
Proof.
  pose proof label_keys_distinct as Hd.
  assert (RevisionKey <> SetNameLabelKey) as Hne.
  { inversion Hd as [|? ? Hn _]; subst. set_solver. }
  intros H. unfold selects. apply bool_decide_eq_true_2. simpl.
  destruct H as [->|[Hk ->]]; unfold name_selector, key_selector.
  - by apply insert_subseteq, lookup_singleton_ne.
  - rewrite bool_decide_eq_false_2 by done. apply map_subseteq_spec. intros k v.
    rewrite !lookup_insert_Some, !lookup_singleton_Some. naive_solver.
Qed.

Lemma buildRevision_owned lws n patch key :
  owned_copies (o_uid (lws_meta lws)) (buildRevision lws n patch key) = [buildRevision lws n patch key].
Proof. unfold owned_copies. simpl. rewrite filter_cons_True; done. Qed.

(** ** The API server's promise

    A created revision is from then on listed, in its namespace, by every
    selector its labels satisfy; nothing else changes in the lists. *)
Class ConsistentRevisions := {
  list_after_create : forall w r w' ns sel l,
    create_revision w r = (None, w') -> list_revisions w ns sel = inr l ->
    exists l', list_revisions w' ns sel = inr l' /\
      l' ≡ₚ l ++ (if bool_decide (o_namespace (rev_meta r) = ns) && selects sel (o_labels (rev_meta r))
                  then [r] else [])
}.

Lemma ListRevisions_inv obj sel w l w' :
  ListRevisions obj sel w = (Ret l, w') ->
  w' = w /\ exists items, list_revisions w (o_namespace obj) sel = inr items /\
    l = mjoin (owned_copies (o_uid obj) <$> items).
Proof.
  intros (res & w1 & H1 & H2)%kbind_inv. unfold kget in H1. simplify_eq.
  destruct (list_revisions w1 (o_namespace obj) sel) as [e|items] eqn:E; [done|].
  unfold kret in H2. simplify_eq. eauto.
Qed.

Lemma NewRevision_inv lws key w r w' :
  NewRevision lws key w = (Ret r, w') ->
  w' = w /\ exists revs patch,
    ListRevisions (lws_meta lws) (name_selector lws) w = (Ret revs, w) /\
    getRevisionPatchForLWS lws = Ret patch /\
    r = buildRevision lws (revisionNumberAfter revs) patch key.
Proof.
  unfold NewRevision. case_match; [done|]. intros (revs & w1 & Hl & H')%kbind_inv.
  apply kbind_inv in H' as (patch & w2 & Hp & H'). unfold klift, kret in *. simplify_eq.
  destruct (ListRevisions_inv _ _ _ _ _ Hl) as [-> _]. split; [done|]. by exists revs, patch.
Qed.

Lemma GetOrCreateRevision_inv lws key w r w' :
  GetOrCreateRevision lws key w = (Ret r, w') ->
  (GetRevision lws key w = (Ret (Some r), w) /\ w' = w) \/
  (GetRevision lws key w = (Ret None, w) /\ NewRevision lws key w = (Ret r, w) /\
   create_revision w r = (None, w')).
Proof.
  intros (found & w1 & Hg & H)%kbind_inv.
  pose proof (GetRevision_read_only lws key w) as Hro. rewrite Hg in Hro. simpl in Hro. subst w1.
  destruct found as [rev|]; [left; unfold kret in H; by simplify_eq|right].
  apply kbind_inv in H as (rev & w1 & Hn & H).
  pose proof (NewRevision_inv _ _ _ _ _ Hn) as [-> _].
  apply kbind_inv in H as (err & w2 & Hc & H). unfold createRevision, kdo, kret, kerr in *.
  destruct (create_revision w rev) as [e w3] eqn:E. simplify_eq. destruct err; by simplify_eq.
Qed.

Lemma owned_list_elem uid items x :
  x ∈ mjoin (owned_copies uid <$> items) <-> owned_copies uid x <> [] /\ x ∈ items.
Proof.
  rewrite list_elem_of_join. split.
  - intros (l & Hx & (y & -> & Hy)%list_elem_of_fmap).
    assert (x = y) as -> by by apply list_elem_of_fmap in Hx as (? & -> & _).
    split; [|done]. intros E. rewrite E in Hx. by apply not_elem_of_nil in Hx.
  - intros [Hne Hx]. exists (owned_copies uid x).
    split; [|apply list_elem_of_fmap; eauto]. unfold owned_copies in *.
    destruct (filter _ _); [done|]. by left.
Qed.

Lemma revisionNumberAfter_gt revs :
  Forall (fun x => rev_revision x < max_int64) revs ->
  1 <= revisionNumberAfter revs /\ Forall (fun x => rev_revision x < revisionNumberAfter revs) revs.
Proof.
  unfold revisionNumberAfter. intros Hmax. destruct (getHighestRevision revs) as [r|] eqn:E.
  - apply getHighestRevision_some in E as (l1 & l2 & -> & H0 & H1 & H2).
    assert (rev_revision r < max_int64) by (rewrite Forall_app, Forall_cons in Hmax; tauto).
    assert (wrap_int64 (rev_revision r + 1) = rev_revision r + 1) as ->
      by (unfold wrap_int64, max_int64 in *; rewrite Z.mod_small; lia).
    split; [lia|]. apply Forall_app. split; [|constructor; [lia|]];
      (eapply Forall_impl; [eassumption|]; simpl; intros; lia).
  - apply highestFrom_none in E. split; [done|]. eapply Forall_impl; [exact E|]. simpl. lia.
Qed.

Lemma getRevision_none_nil (lws : LeaderWorkerSet) sel w l w1 w2 :
  (forall sel l, list_revisions w (o_namespace (lws_meta lws)) sel = inr l ->
     Forall (fun x => 0 <= rev_revision x) l) ->
  ListRevisions (lws_meta lws) sel w = (Ret l, w1) ->
  match l with
  | [] => kret None
  | [r] => kret (Some r)
  | _ => kret (getHighestRevision l)
  end w1 = (Ret (A := option ControllerRevision) (E := lws_error) None, w2) ->
  l = [].
Proof.
  intros Hnn (-> & items & Hi & Hl)%ListRevisions_inv H.
  destruct l as [|x [|y l]]; unfold kret in H; [done|by simplify_eq|].
  destruct (getHighestRevision (x :: y :: l)) eqn:E; [by simplify_eq|].
  apply highestFrom_none, Forall_cons in E as [E _].
  assert (x ∈ mjoin (owned_copies (o_uid (lws_meta lws)) <$> items)) as Hx by (rewrite <- Hl; left).
  apply owned_list_elem in Hx as [_ Hx].
  pose proof (proj1 (Forall_forall _ _) (Hnn _ _ Hi) _ Hx). simpl in *. lia.
Qed.

(** After a creation the list of owned revisions under a selector that had none
    is the created one alone. *)
Lemma ListRevisions_created obj sel w r w' items :
  ConsistentRevisions -> create_revision w r = (None, w') ->
  list_revisions w (o_namespace obj) sel = inr items ->
  [] = mjoin (owned_copies (o_uid obj) <$> items) ->
  owned_copies (o_uid obj) r = [r] -> o_namespace (rev_meta r) = o_namespace obj ->
  selects sel (o_labels (rev_meta r)) = true ->
  ListRevisions obj sel w' = (Ret [r], w').
Proof.
  intros HC Hc Hi Hnil Ho Hns Hsel.
  destruct (list_after_create _ _ _ _ _ _ Hc Hi) as (items' & Hi' & Hp).
  rewrite Hsel, bool_decide_eq_true_2 in Hp by done. simpl in Hp.
  unfold ListRevisions, kbind, kget, kret. rewrite Hi'. do 2 f_equal.
  apply Permutation_singleton_r. rewrite Hp, fmap_app, join_app, <- Hnil. simpl.
  by rewrite Ho.
Qed.

(** ** Properties *)

(** The highest revision of a list is none exactly when every number is
    negative; otherwise it is in the list, no number exceeds it, and among equals
    it is the last. *)
Theorem highest_revision_is_last_max revs :
  match getHighestRevision revs with
  | None => Forall (fun x => rev_revision x < 0) revs
  | Some r => exists l1 l2, revs = l1 ++ r :: l2 /\ 0 <= rev_revision r /\
      Forall (fun x => rev_revision x <= rev_revision r) l1 /\
      Forall (fun x => rev_revision x < rev_revision r) l2
  end.
Proof.
  destruct (getHighestRevision revs) as [r|] eqn:E; [by apply getHighestRevision_some|].
  by apply highestFrom_none.
Qed.

(** What a revision's patch depends on.  Two sets whose JSON agrees on
    spec.networkConfig and spec.leaderWorkerTemplate have the same patch, byte
    for byte, whatever else differs (replicas, rollout, labels), and so the same
    hash; a set without a network config has the patch of the same set with the
    shared subdomain policy written out. *)
Theorem revision_patch_scope lws1 lws2 raw1 raw2 spec1 spec2 :
  lws_to_unstructured (withDefaultNetwork lws1) = Some raw1 ->
  lws_to_unstructured (withDefaultNetwork lws2) = Some raw2 ->
  jlookup "spec" raw1 = Some (JMap spec1) -> jlookup "spec" raw2 = Some (JMap spec2) ->
  jlookup "networkConfig" spec1 = jlookup "networkConfig" spec2 ->
  jlookup "leaderWorkerTemplate" spec1 = jlookup "leaderWorkerTemplate" spec2 ->
  getRevisionPatchForLWS lws1 = getRevisionPatchForLWS lws2 /\
  getRevisionPatchForLWS (withDefaultNetwork lws1) = getRevisionPatchForLWS lws1.
Proof.
  intros H1 H2 S1 S2 Hn Ht. split.
  - unfold getRevisionPatchForLWS. rewrite H1, H2. unfold revisionObject.
    rewrite S1, S2. simpl. by rewrite Hn, Ht.
  - unfold getRevisionPatchForLWS.
    assert (withDefaultNetwork (withDefaultNetwork lws1) = withDefaultNetwork lws1) as ->; [|done].
    unfold withDefaultNetwork. simpl. by destruct (lws_network_config lws1).
Qed.

(** A new revision writes nothing; its number exceeds that of every revision
    of the set that is listed, as long as those are below the largest int64; it
    is in the set's namespace, owned by the set, found again by the set's name
    and, if a key was given, by that key, and its key label is the given one or
    else the hash of its patch. *)
Theorem new_revision_numbered lws key w r w' :
  NewRevision lws key w = (Ret r, w') ->
  w' = w /\
  (exists items, list_revisions w (o_namespace (lws_meta lws)) (name_selector lws) = inr items /\
    (Forall (fun x => rev_revision x < max_int64) items ->
     1 <= rev_revision r /\
     Forall (fun x => owned_copies (o_uid (lws_meta lws)) x <> [] -> rev_revision x < rev_revision r) items)) /\
  o_namespace (rev_meta r) = o_namespace (lws_meta lws) /\
  owned_copies (o_uid (lws_meta lws)) r = [r] /\
  selects (name_selector lws) (o_labels (rev_meta r)) = true /\
  (key <> ""%string -> selects (key_selector lws key) (o_labels (rev_meta r)) = true) /\
  GetRevisionKey (rev_meta r) = if bool_decide (key = ""%string) then HashRevision (rev_data r) else key.
Proof.
  intros H. destruct (NewRevision_inv _ _ _ _ _ H) as (-> & revs & patch & Hl & _ & ->).
  destruct (ListRevisions_inv _ _ _ _ _ Hl) as (_ & items & Hi & ->).
  split_and!; [done| |done|apply buildRevision_owned|apply buildRevision_selected; by left| |apply buildRevision_key].
  - exists items. split; [done|]. intros Hmax.
    destruct (revisionNumberAfter_gt (mjoin (owned_copies (o_uid (lws_meta lws)) <$> items))) as [H1 H2].
    { rewrite Forall_forall in Hmax |- *. intros x [_ Hx]%owned_list_elem. by apply Hmax. }
    split; [done|]. apply Forall_forall. intros x Hx Hne. simpl.
    rewrite Forall_forall in H2. by apply H2, owned_list_elem.
  - intros Hk. apply buildRevision_selected. by right.
Qed.

(** C10: looking a revision up by key and creating it if absent is idempotent on a
    consistent API server: a second call with the same key returns the revision
    of the first and writes nothing.  With the empty key it never looks: every
    call that returns has created a revision.  (Kubernetes admits no negative
    revision number.) *)
Theorem get_or_create_idempotent lws key w r w' :
  ConsistentRevisions ->
  (forall sel l, list_revisions w (o_namespace (lws_meta lws)) sel = inr l ->
     Forall (fun x => 0 <= rev_revision x) l) ->
  GetOrCreateRevision lws key w = (Ret r, w') ->
  (key <> ""%string -> GetOrCreateRevision lws key w' = (Ret r, w')) /\
  (key = ""%string -> create_revision w r = (None, w')).
Proof.
  intros HC Hnn H. destruct (GetOrCreateRevision_inv _ _ _ _ _ H) as [[Hg ->]|(Hg & Hn & Hc)].
  - split; [done|]. intros ->. unfold GetRevision, kret in Hg. simpl in Hg. by simplify_eq.
  - split; [|done]. intros Hk.
    enough (GetRevision lws key w' = (Ret (Some r), w')) as Hg'
      by (unfold GetOrCreateRevision; by rewrite (kbind_ret _ _ _ _ _ Hg')).
    destruct (NewRevision_inv _ _ _ _ _ Hn) as (_ & revs & patch & _ & _ & Hr).
    unfold GetRevision in *. rewrite bool_decide_eq_false_2 in * by done.
    destruct (negb (selector_valid (key_selector lws key))); [done|].
    apply kbind_inv in Hg as (l & w1 & Hl & Hg).
    assert (l = []) as -> by (by eapply getRevision_none_nil).
    destruct (ListRevisions_inv _ _ _ _ _ Hl) as (-> & items & Hi & Hl').
    rewrite (kbind_ret _ _ _ [r] w'); [done|].
    eapply ListRevisions_created; [done|exact Hc|exact Hi|done|..]; rewrite Hr.
    + apply buildRevision_owned.
    + done.
    + apply buildRevision_selected. by right.
Qed.

End Revision.

Arguments ConsistentRevisions W {API}.

#[export] Instance server_consistent : ConsistentRevisions server.
Proof.
  constructor. intros w r w' ns sel l Hc Hl. simpl in *. simplify_eq. simpl.
  eexists. split; [done|]. rewrite filter_app, filter_cons, filter_nil.
  case_decide as Hd; destruct (bool_decide _ && _) eqn:E; [done| | |done]; exfalso.
  - destruct Hd as [H1 H2]. rewrite bool_decide_eq_true_2, H2 in E by done. done.
  - bool_hyps. tauto.
Qed.

(** ** A library to compute with *)

Definition example_meta (name : string) : ObjectMeta :=
  {| o_name := name; o_namespace := "lws-system"; o_uid := "uid-" +:+ name; o_labels := None;
     o_annotations := None; o_owners := []; o_deleting := false |}.

Definition example_template : PodTemplateSpec :=
  {| pt_labels := None; pt_annotations := None; pt_spec := "worker" |}.

Definition example_lws : LeaderWorkerSet :=
  {| lws_meta := example_meta "lws"; lws_kind := "LeaderWorkerSet"; lws_replicas := Some 2;
     lws_leader_template := None; lws_worker_template := example_template; lws_size := Some 3;
     lws_rollout_type := "RollingUpdate";
     lws_rolling_update := Some {| ru_partition := Some 0; ru_max_unavailable := "1" |};
     lws_network_config := None |}.

Fixpoint marshal_json (fuel : nat) (j : json) : string :=
  match fuel, j with
  | S f, JMap m => "{" +:+ String.concat "," ((fun kv => kv.1 +:+ ":" +:+ marshal_json f kv.2) <$> m) +:+ "}"
  | S f, JArray l => "[" +:+ String.concat "," (marshal_json f <$> l) +:+ "]"
  | _, JScalar s => s
  | O, _ => ""
  end.

#[export, refine] Instance lws_lib_example : LwsLib | 100 := {|
  SetNameLabelKey := "leaderworkerset.sigs.k8s.io/name";
  RevisionKey := "leaderworkerset.sigs.k8s.io/template-revision-hash";
  WorkerIndexLabelKey := "leaderworkerset.sigs.k8s.io/worker-index";
  GroupIndexLabelKey := "leaderworkerset.sigs.k8s.io/group-index";
  GroupUniqueHashLabelKey := "leaderworkerset.sigs.k8s.io/group-key";
  LeaderPodNameAnnotationKey := "leaderworkerset.sigs.k8s.io/leader-name";
  SizeAnnotationKey := "leaderworkerset.sigs.k8s.io/size";
  ReplicasAnnotationKey := "leaderworkerset.sigs.k8s.io/replicas";
  SubdomainShared := "Shared"; lws_group_version := "leaderworkerset.x-k8s.io/v1";
  selector_valid := fun _ => true;
  SafeEncodeString := fun s => s;
  lws_to_unstructured := fun lws => Some [("metadata", JScalar (o_name (lws_meta lws))); ("spec", JMap
    [("replicas", JScalar (itoa (default 0 (lws_replicas lws))));
     ("networkConfig", JMap [("subdomainPolicy", JScalar (default "" (mjoin (lws_network_config lws))))]);
     ("leaderWorkerTemplate", JMap [("workerTemplate", JScalar (pt_spec (lws_worker_template lws)))])])];
  json_marshal := fun m => Some (marshal_json 5 (JMap m));
  lws_marshal := fun lws => Some (o_name (lws_meta lws));
  lws_unmarshal := fun _ => Some example_lws;
  strategic_merge_patch := fun _ patch => Some patch
|}.
Proof.
  - apply (bool_decide_unpack _). vm_compute. exact I.
  - done.
Defined.

Definition empty_server : server :=
  {| srv_lws := [example_lws]; srv_sts := []; srv_pods := []; srv_revisions := []; srv_applied := [];
     srv_events := [] |}.

Definition example_more_replicas : LeaderWorkerSet :=
  {| lws_meta := example_meta "lws"; lws_kind := "LeaderWorkerSet"; lws_replicas := Some 9;
     lws_leader_template := None; lws_worker_template := example_template; lws_size := Some 3;
     lws_rollout_type := "RollingUpdate"; lws_rolling_update := None;
     lws_network_config := Some (Some "Shared"%string) |}.

Lemma revision_patch_scope_witness :
  getRevisionPatchForLWS example_lws = getRevisionPatchForLWS example_more_replicas.
Proof.
  refine (proj1 (revision_patch_scope example_lws example_more_replicas _ _ _ _ eq_refl eq_refl
    eq_refl eq_refl eq_refl eq_refl)).
Defined.

Definition created_revision (key : string) : ControllerRevision :=
  match NewRevision (W := server) example_lws key empty_server with
  | (Ret r, _) => r
  | _ => buildRevision example_lws 0 "" ""
  end.

Lemma new_revision_numbered_witness :
  NewRevision (W := server) example_lws "k1" empty_server = (Ret (created_revision "k1"), empty_server) /\
  GetRevisionKey (rev_meta (created_revision "k1")) = "k1".
Proof.
  assert (NewRevision (W := server) example_lws "k1" empty_server = (Ret (created_revision "k1"), empty_server)) as H
    by (vm_compute; reflexivity).
  split; [exact H|].
  exact (proj2 (proj2 (proj2 (proj2 (proj2 (proj2 (new_revision_numbered _ _ _ _ _ H))))))).
Defined.

Definition server_with (r : ControllerRevision) : server :=
  (create_revision empty_server r).2.

Lemma get_or_create_idempotent_witness :
  GetOrCreateRevision (W := server) example_lws "k1" (server_with (created_revision "k1"))
  = (Ret (created_revision "k1"), server_with (created_revision "k1")).
Proof.
  refine (proj1 (get_or_create_idempotent example_lws "k1" empty_server (created_revision "k1")
    (server_with (created_revision "k1")) _ _ _) _).
  - intros sel l H. vm_compute in H. injection H as <-. constructor.
  - vm_compute. reflexivity.
  - discriminate.
Defined.
