(* ===== verification/LwsReconcile.v ===== *)
(** * LwsReconcile: the LeaderWorkerSet controllers

    src/pkg/controllers/workloads/lws/leaderworkerset_reconciler.go and
    worker_statefulset_reconciler.go: the event filters, the StatefulSet that is
    applied for the leaders of a set, the one that is created for the workers of
    a leader pod, and the two reconcilers, with every early return and every
    error that the code drops. *)

From S2P Require Import Prelude GoStd K8s LwsRevision.

Local Open Scope Z_scope.

(** The scheme and the converters of apimachinery. *)
Class LwsScheme := {
  (** apiutil.GVKForObject, by Go type: group version and kind *)
  gvk_for : string -> option (string * string);
  (** PodTemplateSpec through unstructured to its apply configuration *)
  pod_template_apply : PodTemplateSpec -> option PodTemplateSpec;
  sts_convertible : StatefulSetApply -> bool;
  api_error_text : api_error -> string
}.

(** ** Event filters *)

Inductive watched :=
| WatchedLws (meta : ObjectMeta)
| WatchedSts (meta : ObjectMeta)
| WatchedPod (meta : ObjectMeta)
| WatchedService (meta : ObjectMeta)
| WatchedOther.

Section Reconcile.
Context {LL : LwsLib} {LS : LwsScheme}.

Definition lwsEventFilter (object : watched) : bool :=
  match object with
  | WatchedLws m => has_label (o_labels m) "lx1036"
  | WatchedSts m => has_label (o_labels m) SetNameLabelKey
  | _ => false
  end.

Definition workerEventFilter (object : watched) : bool :=
  match object with
  | WatchedPod m | WatchedSts m => has_label (o_labels m) SetNameLabelKey
  | WatchedService _ => true
  | _ => false
  end.

(** ** StatefulSets *)

Definition LeaderPod (pod : Pod) : bool :=
  bool_decide (label (o_labels (pod_meta pod)) WorkerIndexLabelKey = "0"%string).

Definition constructLeaderStatefulSetApplyConfiguration (lws : LeaderWorkerSet)
    (revision : ControllerRevision) : outcome lws_error StatefulSetApply :=
  let podTemplateSpec := default (lws_worker_template lws) (lws_leader_template lws) in
  match pod_template_apply podTemplateSpec with
  | None => Err ConversionError
  | Some pt =>
      let name := o_name (lws_meta lws) in
      let key := GetRevisionKey (rev_meta revision) in
      let* replicas := deref (lws_replicas lws) in
      let matchLabels := <[SetNameLabelKey := name]> {[WorkerIndexLabelKey := "0"%string]} in
      let* size := deref (lws_size lws) in
      let* rolling := deref (lws_rolling_update lws) in
      let* partition := deref (ru_partition rolling) in
      Ret {| sa_name := name; sa_namespace := o_namespace (lws_meta lws);
             sa_labels := <[SetNameLabelKey := name]> {[RevisionKey := key]};
             sa_annotations := {[ReplicasAnnotationKey := itoa replicas]};
             sa_owners := [];
             sa_service_name := name; sa_replicas := replicas;
             sa_match_labels := matchLabels;
             sa_template_labels := <[RevisionKey := key]> (matchLabels ∪ default ∅ (pt_labels pt));
             sa_template_annotations := <[SizeAnnotationKey := itoa size]> (default ∅ (pt_annotations pt));
             sa_template_spec := pt_spec pt;
             sa_pod_management := "Parallel";
             sa_update_strategy := Some (lws_rollout_type lws, partition, ru_max_unavailable rolling);
             sa_ordinals_start := None |}
  end.

Definition workerServiceName (leaderPod : Pod) (lws : LeaderWorkerSet) : outcome lws_error string :=
  match lws_network_config lws with
  | None => Ret (o_name (lws_meta lws))
  | Some policy =>
      let* p := deref policy in
      if bool_decide (p = SubdomainShared) then Ret (o_name (lws_meta lws))
      else Ret (o_name (pod_meta leaderPod))
  end.

Definition constructWorkerStatefulSetApplyConfiguration (leaderPod : Pod) (lws : LeaderWorkerSet)
    (currentRevision : ControllerRevision) : outcome lws_error StatefulSetApply :=
  let* currentLws := ApplyRevision lws currentRevision in
  match pod_template_apply (lws_worker_template currentLws) with
  | None => Err ConversionError
  | Some pt =>
      let podLabels := o_labels (pod_meta leaderPod) in
      let podName := o_name (pod_meta leaderPod) in
      let matchLabels :=
        <[GroupIndexLabelKey := label podLabels GroupIndexLabelKey]>
        (<[SetNameLabelKey := o_name (lws_meta lws)]>
        {[GroupUniqueHashLabelKey := label podLabels GroupUniqueHashLabelKey]}) in
      let* serviceName := workerServiceName leaderPod lws in
      let* size := deref (lws_size lws) in
      Ret {| sa_name := podName; sa_namespace := o_namespace (pod_meta leaderPod);
             sa_labels := <[RevisionKey := GetRevisionKey (pod_meta leaderPod)]> matchLabels;
             sa_annotations := ∅;
             sa_owners := [];
             sa_service_name := serviceName; sa_replicas := wrap_int32 (size - 1);
             sa_match_labels := matchLabels;
             sa_template_labels := matchLabels ∪ default ∅ (pt_labels pt);
             sa_template_annotations :=
               <[SizeAnnotationKey := itoa size]> (<[LeaderPodNameAnnotationKey := podName]>
                 (default ∅ (pt_annotations pt)));
             sa_template_spec := pt_spec pt;
             sa_pod_management := "Parallel";
             sa_update_strategy := None;
             sa_ordinals_start := Some 1 |}
  end.

Definition with_owner (o : OwnerReference) (s : StatefulSetApply) : StatefulSetApply :=
  {| sa_name := sa_name s; sa_namespace := sa_namespace s; sa_labels := sa_labels s;
     sa_annotations := sa_annotations s; sa_owners := sa_owners s ++ [o];
     sa_service_name := sa_service_name s; sa_replicas := sa_replicas s;
     sa_match_labels := sa_match_labels s; sa_template_labels := sa_template_labels s;
     sa_template_annotations := sa_template_annotations s; sa_template_spec := sa_template_spec s;
     sa_pod_management := sa_pod_management s; sa_update_strategy := sa_update_strategy s;
     sa_ordinals_start := sa_ordinals_start s |}.

(** [sts] is the pointer; a nil one panics, but only after the kind is found. *)
Definition setControllerReferenceWithStatefulSet (go_type : string) (owner : ObjectMeta)
    (sts : option StatefulSetApply) : outcome lws_error StatefulSetApply :=
  match gvk_for go_type with
  | None => Err NoKindRegistered
  | Some (gv, kind) =>
      let* s := deref sts in
      Ret (with_owner {| owner_api_version := gv; owner_kind := kind; owner_name := o_name owner;
                         owner_uid := o_uid owner; owner_block_deletion := true;
                         owner_controller := true |} s)
  end.

(** ** Reconcilers *)

Context {W : Type} {API : LwsApi W}.

Definition zero_meta : ObjectMeta :=
  {| o_name := ""; o_namespace := ""; o_uid := ""; o_labels := None; o_annotations := None;
     o_owners := []; o_deleting := false |}.

(** [client.IgnoreNotFound(err)] as the result of the handler. *)
Definition ignoreNotFound (e : api_error) : kube W lws_error Result :=
  match IgnoreNotFound e with None => kret done_result | Some e' => kerr (ApiError e') end.

(** The tail, from the leader StatefulSet on: the revision to run, then a second
    revision that is always created (two pointers from two calls never compare
    equal), its error overwritten; the construction error is overwritten too, and
    leaves a nil configuration; the error of the patch is dropped. *)
Definition applyLeader (lws : LeaderWorkerSet) (leaderSts : ObjectMeta) : kube W lws_error Result :=
  do! revision := GetOrCreateRevision lws (GetRevisionKey leaderSts) in
  do! currentRevision := NewRevision lws "" in
  do! createErr := createRevision currentRevision in
  do! built := klift match constructLeaderStatefulSetApplyConfiguration lws revision with
                     | Ret sts => Ret (Some sts)
                     | Err _ => Ret None
                     | Panic p => Panic p
                     end in
  do! sts := klift (setControllerReferenceWithStatefulSet "LeaderWorkerSet" (lws_meta lws) built) in
  if negb (sts_convertible sts) then kerr ConversionError
  else
    do! patchErr := kdo (fun w => apply_sts w sts) in
    kret done_result.

Definition LeaderReconcile (namespace name : string) : kube W lws_error Result :=
  do! res := kget (fun w => get_lws w namespace name) in
  match res with
  | inl e => ignoreNotFound e
  | inr lws =>
      if o_deleting (lws_meta lws) then kret done_result
      else
        do! stsList := kget (fun w =>
          list_sts_controlled_by w (o_namespace (lws_meta lws)) (o_uid (lws_meta lws))) in
        match stsList with
        | inl e => kerr (ApiError e)
        | inr [] => kret done_result
        | inr _ =>
            do! got := kget (fun w => get_sts w (o_namespace (lws_meta lws)) (o_name (lws_meta lws))) in
            match got with
            | inl (ApiFailure r) => kerr (ApiError (ApiFailure r))
            | inl NotFound => applyLeader lws zero_meta
            | inr s =>
                if o_deleting (sts_meta s)
                then kret {| Requeue := false; RequeueAfter := 5 * second |}
                else applyLeader lws (sts_meta s)
            end
        end
  end.

(** Get-or-create of the worker StatefulSet.  When the Get reports NotFound the
    object it filled is the zero one, and the event names that. *)
Definition createWorker (leaderPod : Pod) (sts : StatefulSetApply) : kube W lws_error Result :=
  do! res := kget (fun w => get_sts w (o_namespace (pod_meta leaderPod)) (o_name (pod_meta leaderPod))) in
  match res with
  | inr _ => kret done_result
  | inl (ApiFailure r) => kerr (ApiError (ApiFailure r))
  | inl NotFound =>
      do! err := kdo (fun w => create_sts w sts) in
      match err with
      | Some e =>
          do! _ := kdo (fun w => (tt, record_event w "Warning" "StatefulSetCreateFailed"
                          ("Failed to create worker statefulSet: " +:+ api_error_text e))) in
          kerr (ApiError e)
      | None =>
          do! _ := kdo (fun w => (tt, record_event w "Normal" "StatefulSetCreated"
                          ("StatefulSet " +:+ o_namespace zero_meta +:+ "/" +:+ o_name zero_meta
                           +:+ " created"))) in
          kret done_result
      end
  end.

Definition reconcileWorkers (leaderPod : Pod) (lws : LeaderWorkerSet) : kube W lws_error Result :=
  do! size := klift (deref (lws_size lws)) in
  if bool_decide (size = 1) then kret done_result
  else
    do! currentControllerRevision := GetRevision lws (GetRevisionKey (pod_meta leaderPod)) in
    match currentControllerRevision with
    | None => kret {| Requeue := true; RequeueAfter := second |}
    | Some rev =>
        do! built := klift (constructWorkerStatefulSetApplyConfiguration leaderPod lws rev) in
        do! sts := klift (setControllerReferenceWithStatefulSet "Pod" (pod_meta leaderPod) (Some built)) in
        if negb (sts_convertible sts) then kerr ConversionError
        else createWorker leaderPod sts
    end.

Definition WorkerReconcile (namespace name : string) : kube W lws_error Result :=
  do! res := kget (fun w => get_pod w namespace name) in
  match res with
  | inl e => ignoreNotFound e
  | inr leaderPod =>
      let m := pod_meta leaderPod in
      let lwsName := label (o_labels m) SetNameLabelKey in
      if bool_decide (lwsName = ""%string) then kerr (MissingLabel SetNameLabelKey)
      else if negb (has_label (o_labels m) WorkerIndexLabelKey) then kerr (MissingLabel WorkerIndexLabelKey)
      else if negb (LeaderPod leaderPod) then kret done_result
      else if negb (bool_decide (label (o_annotations m) LeaderPodNameAnnotationKey = ""%string))
      then kret done_result
      else if o_deleting m then kret done_result
      else
        do! got := kget (fun w => get_lws w (o_namespace m) lwsName) in
        match got with
        | inl e => ignoreNotFound e
        | inr leaderWorkerSet => reconcileWorkers leaderPod leaderWorkerSet
        end
  end.

(** ** Lemmas *)

Lemma keys_ne :
  SetNameLabelKey <> RevisionKey /\ WorkerIndexLabelKey <> RevisionKey /\
  GroupIndexLabelKey <> RevisionKey /\ GroupUniqueHashLabelKey <> RevisionKey /\
  SetNameLabelKey <> WorkerIndexLabelKey /\ GroupIndexLabelKey <> SetNameLabelKey /\
  GroupUniqueHashLabelKey <> SetNameLabelKey /\ GroupIndexLabelKey <> GroupUniqueHashLabelKey.
Proof.
  pose proof label_keys_distinct as H. rewrite !NoDup_cons, !not_elem_of_cons in H. naive_solver.
Qed.

Lemma leader_match_labels_revision (name : string) :
  (<[SetNameLabelKey := name]> {[WorkerIndexLabelKey := "0"%string]} : gmap string string) !! RevisionKey = None.
Proof. pose proof keys_ne. rewrite lookup_insert_ne, lookup_singleton_ne by naive_solver. done. Qed.

Lemma worker_match_labels_revision (g name h : string) :
  (<[GroupIndexLabelKey := g]> (<[SetNameLabelKey := name]>
    {[GroupUniqueHashLabelKey := h]}) : gmap string string) !! RevisionKey = None.
Proof.
  pose proof keys_ne. rewrite !lookup_insert_ne, lookup_singleton_ne by naive_solver. done.
Qed.

(** ** Properties *)

(** The StatefulSet applied for the leaders of a set, whenever it can be
    built: it is named after the set, has one replica per group, selects pods by
    the set's name and worker index 0, and its template carries the selected
    labels (so the API server accepts it), the revision key and the group size,
    keeping the other labels and the spec of the leader template, or of the
    worker template when there is none. *)
Theorem leader_statefulset_wellformed lws revision sts :
  constructLeaderStatefulSetApplyConfiguration lws revision = Ret sts ->
  sa_name sts = o_name (lws_meta lws) /\ lws_replicas lws = Some (sa_replicas sts) /\
  sa_match_labels sts ⊆ sa_template_labels sts /\
  sa_match_labels sts !! WorkerIndexLabelKey = Some "0"%string /\
  sa_labels sts !! RevisionKey = Some (GetRevisionKey (rev_meta revision)) /\
  sa_template_labels sts !! RevisionKey = Some (GetRevisionKey (rev_meta revision)) /\
  (exists size, lws_size lws = Some size /\
     sa_template_annotations sts !! SizeAnnotationKey = Some (itoa size)) /\
  exists pt, pod_template_apply (default (lws_worker_template lws) (lws_leader_template lws)) = Some pt /\
    sa_template_spec sts = pt_spec pt /\
    forall k v, pt_labels pt ≫= (lookup k) = Some v -> k <> RevisionKey ->
      sa_match_labels sts !! k = None -> sa_template_labels sts !! k = Some v.
Proof.
  pose proof keys_ne as Hk. unfold constructLeaderStatefulSetApplyConfiguration. intros H.
  destruct (pod_template_apply _) as [pt|]; [|done].
  apply obind_ret_inv in H as (replicas & Hr%deref_ret_inv & H).
  apply obind_ret_inv in H as (size & Hs%deref_ret_inv & H).
  apply obind_ret_inv in H as (rolling & Hro & H). apply obind_ret_inv in H as (part & Hp & H).
  simplify_eq. simpl. split_and!; [done|done| | | | | |].
  - apply subseteq_insert_union, leader_match_labels_revision.
  - rewrite lookup_insert_ne by naive_solver. by rewrite lookup_singleton_eq.
  - rewrite lookup_insert_ne by naive_solver. by rewrite lookup_singleton_eq.
  - by rewrite lookup_insert_eq.
  - exists size. by rewrite lookup_insert_eq.
  - exists pt. split_and!; [done|done|]. intros k v Hv Hne Hnone.
    rewrite lookup_insert_ne by done. rewrite lookup_union_r by done.
    destruct (pt_labels pt); simplify_eq/=; done.
Qed.

(** The StatefulSet created for the workers of a leader pod, whenever it can
    be built: named after the pod, with one replica fewer than the group size
    (int32), ordinals from 1 so that no worker takes the leader's index, a
    selector its template satisfies, the template of the revision and not of the
    current set, and annotations naming the leader pod and the group size. *)
Theorem worker_statefulset_wellformed pod lws revision sts :
  constructWorkerStatefulSetApplyConfiguration pod lws revision = Ret sts ->
  sa_name sts = o_name (pod_meta pod) /\ sa_ordinals_start sts = Some 1 /\
  (exists size, lws_size lws = Some size /\
     sa_template_annotations sts !! SizeAnnotationKey = Some (itoa size) /\
     (1 <= size < 2 ^ 31 -> sa_replicas sts = size - 1 /\ 0 <= sa_replicas sts)) /\
  sa_template_annotations sts !! LeaderPodNameAnnotationKey = Some (o_name (pod_meta pod)) /\
  sa_match_labels sts ⊆ sa_template_labels sts /\ sa_match_labels sts ⊆ sa_labels sts /\
  sa_labels sts !! RevisionKey = Some (GetRevisionKey (pod_meta pod)) /\
  (sa_service_name sts = o_name (lws_meta lws) \/ sa_service_name sts = o_name (pod_meta pod)) /\
  exists current pt, ApplyRevision lws revision = Ret current /\
    pod_template_apply (lws_worker_template current) = Some pt /\ sa_template_spec sts = pt_spec pt.
Proof.
  pose proof keys_ne as Hk. pose proof annotation_keys_distinct as Ha.
  unfold constructWorkerStatefulSetApplyConfiguration. intros H.
  apply obind_ret_inv in H as (current & Hc & H).
  destruct (pod_template_apply _) as [pt|] eqn:Ept; [|done].
  apply obind_ret_inv in H as (svc & Hsvc & H).
  apply obind_ret_inv in H as (size & Hs%deref_ret_inv & H).
  simplify_eq. simpl. split_and!; [done|done| | | | | | |by exists current, pt].
  - exists size. split_and!; [done|by rewrite lookup_insert_eq|].
    intros Hz. unfold wrap_int32. rewrite Z.mod_small by lia. lia.
  - rewrite lookup_insert_ne by done. by rewrite lookup_insert_eq.
  - apply map_union_subseteq_l.
  - apply insert_subseteq, worker_match_labels_revision.
  - by rewrite lookup_insert_eq.
  - unfold workerServiceName in Hsvc. destruct (lws_network_config lws) as [policy|]; [|left; by simplify_eq].
    apply obind_ret_inv in Hsvc as (p & _ & Hsvc). case_bool_decide; simplify_eq; auto.
Qed.

(** A set that has no StatefulSet yet never gets one: when the list of
    StatefulSets it controls is empty, the leader reconciler returns without an
    error, without asking to be called again and without writing anything. *)
Theorem leader_never_bootstraps ns name lws w :
  get_lws w ns name = inr lws ->
  list_sts_controlled_by w (o_namespace (lws_meta lws)) (o_uid (lws_meta lws)) = inr [] ->
  LeaderReconcile ns name w = (Ret done_result, w).
Proof.
  intros Hl Hs. unfold LeaderReconcile, kbind, kget. rewrite Hl.
  destruct (o_deleting (lws_meta lws)); [done|]. by rewrite Hs.
Qed.

(** With a live leader StatefulSet, once the revision to run is known and the
    configuration can be built, the leader reconciler creates one more revision
    (numbered and named anew, even when the set has not changed) and applies the
    StatefulSet, and returns success whatever those two writes answered. *)
Theorem leader_creates_revision_every_time ns name lws s l ls revision current sts0 sts w w1 :
  get_lws w ns name = inr lws -> o_deleting (lws_meta lws) = false ->
  list_sts_controlled_by w (o_namespace (lws_meta lws)) (o_uid (lws_meta lws)) = inr (l :: ls) ->
  get_sts w (o_namespace (lws_meta lws)) (o_name (lws_meta lws)) = inr s ->
  o_deleting (sts_meta s) = false ->
  GetOrCreateRevision lws (GetRevisionKey (sts_meta s)) w = (Ret revision, w1) ->
  NewRevision lws "" w1 = (Ret current, w1) ->
  constructLeaderStatefulSetApplyConfiguration lws revision = Ret sts0 ->
  setControllerReferenceWithStatefulSet "LeaderWorkerSet" (lws_meta lws) (Some sts0) = Ret sts ->
  sts_convertible sts = true ->
  LeaderReconcile ns name w
  = (Ret done_result, (apply_sts (create_revision w1 current).2 sts).2).
Proof.
  intros Hl Hd Hlist Hg Hds Hrev Hcur Hsts0 Hsts Hconv.
  unfold LeaderReconcile, kget. rewrite (kbind_ret _ _ w (inr lws) w) by by rewrite Hl.
  rewrite Hd. rewrite (kbind_ret _ _ w (inr (l :: ls)) w) by by rewrite Hlist.
  rewrite (kbind_ret _ _ w (inr s) w) by by rewrite Hg. rewrite Hds.
  unfold applyLeader. rewrite (kbind_ret _ _ _ _ _ Hrev), (kbind_ret _ _ _ _ _ Hcur).
  unfold kbind, createRevision, kdo. destruct (create_revision w1 current) as [e w2]. simpl.
  rewrite Hsts0. simpl. unfold klift. rewrite Hsts, Hconv. simpl.
  by destruct (apply_sts w2 sts).
Qed.

Lemma createWorker_effect pod sts w :
  (createWorker pod sts w).2 = w \/
  (get_sts w (o_namespace (pod_meta pod)) (o_name (pod_meta pod)) = inl NotFound /\
   exists ty reason msg,
     (createWorker pod sts w).2 = record_event (create_sts w sts).2 ty reason msg /\
     ((create_sts w sts).1 = None -> msg = "StatefulSet / created"%string)).
Proof.
  unfold createWorker, kbind, kget. destruct (get_sts w _ _) as [[|r]|x]; [right|by left|by left].
  split; [done|]. unfold kdo. destruct (create_sts w sts) as [[e|] w2]; simpl; do 3 eexists;
    (split; [reflexivity|done]).
Qed.

(** Closes a branch that returned with the server unchanged. *)
Ltac unchanged := left; unfold kret, kerr in *; simpl in *; simplify_eq/=; done.

(** C26: when the worker reconciler writes.  It leaves the API server as it is
    except in one case: a live leader pod (worker index 0, not annotated with a
    leader of its own) of an existing set of size other than 1, whose revision
    exists, and no StatefulSet of the pod's name.  Then it creates exactly the
    constructed StatefulSet, owned by the pod, and records one event; the event of
    a success names no StatefulSet, since the object it prints was never filled. *)
Theorem worker_writes_only_when_absent ns name w :
  (WorkerReconcile ns name w).2 = w \/
  exists pod lws rev sts0 sts ty reason msg,
    get_pod w ns name = inr pod /\ LeaderPod pod = true /\ o_deleting (pod_meta pod) = false /\
    label (o_annotations (pod_meta pod)) LeaderPodNameAnnotationKey = ""%string /\
    get_lws w (o_namespace (pod_meta pod)) (label (o_labels (pod_meta pod)) SetNameLabelKey) = inr lws /\
    lws_size lws <> Some 1 /\
    GetRevision lws (GetRevisionKey (pod_meta pod)) w = (Ret (Some rev), w) /\
    constructWorkerStatefulSetApplyConfiguration pod lws rev = Ret sts0 /\
    setControllerReferenceWithStatefulSet "Pod" (pod_meta pod) (Some sts0) = Ret sts /\
    get_sts w (o_namespace (pod_meta pod)) (o_name (pod_meta pod)) = inl NotFound /\
    (WorkerReconcile ns name w).2 = record_event (create_sts w sts).2 ty reason msg /\
    ((create_sts w sts).1 = None -> msg = "StatefulSet / created"%string).
Proof.
  destruct (WorkerReconcile ns name w) as [o w'] eqn:E. cbn [snd].
  unfold WorkerReconcile, ignoreNotFound, kbind, kget in E.
  destruct (get_pod w ns name) as [e|pod]; [destruct e; unchanged|].
  case_bool_decide; [unchanged|]. destruct (has_label _ _); [|unchanged]. cbn [negb] in E.
  destruct (LeaderPod pod) eqn:HL; [|unchanged]. cbn [negb] in E.
  case_bool_decide as Ha; [|unchanged]. destruct (o_deleting (pod_meta pod)) eqn:Hd; [unchanged|].
  cbn [negb] in E. destruct (get_lws w _ _) as [e|lws] eqn:Hl; [destruct e; unchanged|].
  unfold reconcileWorkers, kbind, klift in E.
  destruct (lws_size lws) as [size|] eqn:Hs; [|unchanged]. cbn [deref] in E.
  case_bool_decide as H1; [unchanged|].
  pose proof (GetRevision_read_only lws (GetRevisionKey (pod_meta pod)) w) as Hro.
  destruct (GetRevision lws _ w) as [[[rev|]|e|p] w1] eqn:Hrev; simpl in Hro; subst w1; [|unchanged..].
  destruct (constructWorkerStatefulSetApplyConfiguration pod lws rev) as [sts0|?|?] eqn:Hb; [|unchanged..].
  destruct (setControllerReferenceWithStatefulSet _ _ _) as [sts|?|?] eqn:Hc; [|unchanged..].
  destruct (sts_convertible sts); cbn [negb] in E; [|unchanged].
  destruct (createWorker_effect pod sts w) as [Hw|(Hn & ty & reason & msg & Hw & Hm)];
    rewrite E in Hw; simpl in Hw; [by left|right].
  exists pod, lws, rev, sts0, sts, ty, reason, msg. split_and!; try done. congruence.
Qed.

End Reconcile.

(** ** Witnesses *)

#[export] Instance lws_scheme_example : LwsScheme | 100 := {|
  gvk_for t := Some ("v1", t);
  pod_template_apply t := Some t;
  sts_convertible _ := true;
  api_error_text _ := "error"
|}.

(** The value a computation returned. *)
Definition kube_value {W E A} (d : A) (r : outcome E A * W) : A :=
  match r.1 with Ret a => a | _ => d end.

Definition sts_or (m : outcome lws_error StatefulSetApply) : StatefulSetApply :=
  match m with
  | Ret s => s
  | _ => {| sa_name := ""; sa_namespace := ""; sa_labels := ∅; sa_annotations := ∅; sa_owners := [];
            sa_service_name := ""; sa_replicas := 0; sa_match_labels := ∅; sa_template_labels := ∅;
            sa_template_annotations := ∅; sa_template_spec := ""; sa_pod_management := "";
            sa_update_strategy := None; sa_ordinals_start := None |}
  end.

Definition example_revision : ControllerRevision := created_revision "k1".
Definition example_leader_sts : StatefulSetApply :=
  sts_or (constructLeaderStatefulSetApplyConfiguration example_lws example_revision).

Definition example_pod : Pod :=
  {| pod_meta := {| o_name := "lws-0"; o_namespace := "lws-system"; o_uid := "uid-lws-0";
       o_labels := Some (<[SetNameLabelKey := "lws"]> (<[WorkerIndexLabelKey := "0"]> {[RevisionKey := "k1"]}));
       o_annotations := None; o_owners := []; o_deleting := false |} |}.

Definition example_worker_sts : StatefulSetApply :=
  sts_or (constructWorkerStatefulSetApplyConfiguration example_pod example_lws example_revision).

Lemma leader_statefulset_wellformed_witness :
  sa_match_labels example_leader_sts ⊆ sa_template_labels example_leader_sts /\
  sa_replicas example_leader_sts = 2.
Proof.
  split; [|reflexivity].
  exact (proj1 (proj2 (proj2 (leader_statefulset_wellformed example_lws example_revision
           example_leader_sts eq_refl)))).
Defined.

Lemma worker_statefulset_wellformed_witness :
  sa_ordinals_start example_worker_sts = Some 1 /\ sa_replicas example_worker_sts = 2.
Proof.
  split; [|reflexivity].
  exact (proj1 (proj2 (worker_statefulset_wellformed example_pod example_lws example_revision
           example_worker_sts eq_refl))).
Defined.

Lemma leader_never_bootstraps_witness :
  LeaderReconcile (W := server) "lws-system" "lws" empty_server = (Ret done_result, empty_server).
Proof. exact (leader_never_bootstraps "lws-system" "lws" example_lws empty_server eq_refl eq_refl). Defined.

(** A server with the set, its leader StatefulSet at revision k1, and that revision. *)
Definition running_server : server :=
  {| srv_lws := [example_lws];
     srv_sts := [applied_sts (sts_or (setControllerReferenceWithStatefulSet "LeaderWorkerSet"
                   (lws_meta example_lws) (Some example_leader_sts)))];
     srv_pods := [example_pod]; srv_revisions := [example_revision]; srv_applied := []; srv_events := [] |}.

Definition next_revision : ControllerRevision :=
  kube_value example_revision (NewRevision example_lws "" running_server).

Definition example_owned_sts : StatefulSetApply :=
  sts_or (setControllerReferenceWithStatefulSet "LeaderWorkerSet" (lws_meta example_lws)
            (Some example_leader_sts)).

Lemma leader_creates_revision_every_time_witness :
  exists s', LeaderReconcile "lws-system" "lws" running_server = (Ret done_result, s') /\
    length (srv_revisions s') = 2%nat.
Proof.
  eexists. split.
  - apply (leader_creates_revision_every_time "lws-system" "lws" example_lws
      (applied_sts example_owned_sts) (applied_sts example_owned_sts) [] example_revision next_revision
      example_leader_sts example_owned_sts running_server running_server);
      vm_compute; reflexivity.
  - vm_compute. reflexivity.
Defined.
