(* ===== verification/EppMetrics.v ===== *)
(** * EppMetrics: scraping the model servers

    src/pkg/epp/datalayer: the grammar of a metric specification
    (backend/metrics/metrics_spec.go), how a scrape updates the metrics of an
    endpoint and the life of its refresh loop (backend/metrics/pod_metrics.go,
    metrics.go, endpoint.go), and pod readiness (../utils/pod.go).  HTTP and the
    Prometheus text parser are the input of a scrape. *)

From S2P Require Import Prelude GoStd Float64.

Local Open Scope Z_scope.

(** ** Metric specifications *)

Record MetricSpec := { MetricName : string; spec_labels : option (gmap string string) }.

Record MetricMapping := {
  TotalQueuedRequests : option MetricSpec;
  TotalRunningRequests : option MetricSpec;
  KVCacheUtilization : option MetricSpec;
  LoraRequestInfo : option MetricSpec;
  CacheConfigInfo : option MetricSpec
}.

Inductive spec_error :=
| MalformedBlock
| InvalidPair (pair : string)
| EmptyLabel (pair : string)
| TrailingCharacters
| EmptyMetricName.

#[export] Instance spec_error_eq_dec : EqDecision spec_error.
Proof. solve_decision. Defined.

(** One pair of the label section. *)
Definition parsePair (pair : string) : outcome spec_error (string * string) :=
  let pair := trim_space pair in
  match split_on "=" pair with
  | [n; v] =>
      let labelName := trim_space n in
      let labelValue := trim_space v in
      if bool_decide (labelName = ""%string) || bool_decide (labelValue = ""%string)
      then Err (EmptyLabel pair)
      else Ret (labelName, labelValue)
  | _ => Err (InvalidPair pair)
  end.

Fixpoint parsePairs (labels : gmap string string) (labelPairs : list string)
    : outcome spec_error (gmap string string) :=
  match labelPairs with
  | [] => Ret labels
  | p :: ps =>
      let* ' (n, v) := parsePair p in
      parsePairs (<[n := v]> labels) ps
  end.

(** The name and the labels of a trimmed specification. *)
Definition parseSpec (specStr : string) : outcome spec_error (string * gmap string string) :=
  let start := index_byte "{" specStr in
  let stop := index_byte "}" specStr in
  if negb (start =? -1) || negb (stop =? -1) then
    if (start =? -1) || (stop =? -1) || (stop <=? start + 1) then Err MalformedBlock
    else
      let metricName := trim_space (str_take (Z.to_nat start) specStr) in
      let labelStr := str_take (Z.to_nat (stop - (start + 1))) (str_drop (Z.to_nat (start + 1)) specStr) in
      let* labels := parsePairs ∅ (split_on "," labelStr) in
      if negb (stop =? Z.of_nat (String.length specStr) - 1) then Err TrailingCharacters
      else Ret (metricName, labels)
  else Ret (specStr, ∅).

Definition stringToMetricSpec (specStr : string) : outcome spec_error (option MetricSpec) :=
  if bool_decide (specStr = ""%string) then Ret None
  else
    let specStr := trim_space specStr in
    let* ' (metricName, labels) := parseSpec specStr in
    if bool_decide (metricName = ""%string) then Err EmptyMetricName
    else Ret (Some {| MetricName := metricName; spec_labels := Some labels |}).

Definition NewMetricMapping (queuedStr runningStr kvUsageStr loraReqInfoStr cacheInfoMetric : string)
    : outcome spec_error MetricMapping :=
  let* queuedSpec := stringToMetricSpec queuedStr in
  let* runningSpec := stringToMetricSpec runningStr in
  let* kvUsageSpec := stringToMetricSpec kvUsageStr in
  let* loraReqInfoSpec := stringToMetricSpec loraReqInfoStr in
  let* cacheInfoSpec := stringToMetricSpec cacheInfoMetric in
  Ret {| TotalQueuedRequests := queuedSpec; TotalRunningRequests := runningSpec;
         KVCacheUtilization := kvUsageSpec; LoraRequestInfo := loraReqInfoSpec;
         CacheConfigInfo := cacheInfoSpec |}.

(** ** Metrics of an endpoint *)

Record Metrics := {
  ActiveModels : option (gmap string Z);
  WaitingModels : option (gmap string Z);
  MaxActiveModels : Z;
  RunningRequestsSize : Z;
  WaitingQueueSize : Z;
  KVCacheUsagePercent : f64;
  KvCacheMaxTokenCapacity : Z;
  CacheBlockSize : Z;
  CacheNumGPUBlocks : Z;
  UpdateTime : Z
}.

Definition NewMetrics : Metrics :=
  {| ActiveModels := Some ∅; WaitingModels := Some ∅; MaxActiveModels := 0;
     RunningRequestsSize := 0; WaitingQueueSize := 0; KVCacheUsagePercent := f64_zero;
     KvCacheMaxTokenCapacity := 0; CacheBlockSize := 0; CacheNumGPUBlocks := 0; UpdateTime := 0 |}.

(** A nil receiver gives nil; nil maps become empty ones. *)
Definition Clone (m : option Metrics) : option Metrics :=
  match m with
  | None => None
  | Some m =>
      Some {| ActiveModels := Some (default ∅ (ActiveModels m));
              WaitingModels := Some (default ∅ (WaitingModels m));
              MaxActiveModels := MaxActiveModels m;
              RunningRequestsSize := RunningRequestsSize m;
              WaitingQueueSize := WaitingQueueSize m;
              KVCacheUsagePercent := KVCacheUsagePercent m;
              KvCacheMaxTokenCapacity := KvCacheMaxTokenCapacity m;
              CacheBlockSize := CacheBlockSize m;
              CacheNumGPUBlocks := CacheNumGPUBlocks m;
              UpdateTime := UpdateTime m |}
  end.

Definition set_waiting (n : Z) (m : Metrics) : Metrics :=
  {| ActiveModels := ActiveModels m; WaitingModels := WaitingModels m;
     MaxActiveModels := MaxActiveModels m; RunningRequestsSize := RunningRequestsSize m;
     WaitingQueueSize := n; KVCacheUsagePercent := KVCacheUsagePercent m;
     KvCacheMaxTokenCapacity := KvCacheMaxTokenCapacity m; CacheBlockSize := CacheBlockSize m;
     CacheNumGPUBlocks := CacheNumGPUBlocks m; UpdateTime := UpdateTime m |}.
Definition set_running (n : Z) (m : Metrics) : Metrics :=
  {| ActiveModels := ActiveModels m; WaitingModels := WaitingModels m;
     MaxActiveModels := MaxActiveModels m; RunningRequestsSize := n;
     WaitingQueueSize := WaitingQueueSize m; KVCacheUsagePercent := KVCacheUsagePercent m;
     KvCacheMaxTokenCapacity := KvCacheMaxTokenCapacity m; CacheBlockSize := CacheBlockSize m;
     CacheNumGPUBlocks := CacheNumGPUBlocks m; UpdateTime := UpdateTime m |}.
Definition set_usage (x : f64) (m : Metrics) : Metrics :=
  {| ActiveModels := ActiveModels m; WaitingModels := WaitingModels m;
     MaxActiveModels := MaxActiveModels m; RunningRequestsSize := RunningRequestsSize m;
     WaitingQueueSize := WaitingQueueSize m; KVCacheUsagePercent := x;
     KvCacheMaxTokenCapacity := KvCacheMaxTokenCapacity m; CacheBlockSize := CacheBlockSize m;
     CacheNumGPUBlocks := CacheNumGPUBlocks m; UpdateTime := UpdateTime m |}.
Definition set_cache (block gpu : Z) (m : Metrics) : Metrics :=
  {| ActiveModels := ActiveModels m; WaitingModels := WaitingModels m;
     MaxActiveModels := MaxActiveModels m; RunningRequestsSize := RunningRequestsSize m;
     WaitingQueueSize := WaitingQueueSize m; KVCacheUsagePercent := KVCacheUsagePercent m;
     KvCacheMaxTokenCapacity := KvCacheMaxTokenCapacity m; CacheBlockSize := block;
     CacheNumGPUBlocks := gpu; UpdateTime := UpdateTime m |}.
Definition set_time (t : Z) (m : Metrics) : Metrics :=
  {| ActiveModels := ActiveModels m; WaitingModels := WaitingModels m;
     MaxActiveModels := MaxActiveModels m; RunningRequestsSize := RunningRequestsSize m;
     WaitingQueueSize := WaitingQueueSize m; KVCacheUsagePercent := KVCacheUsagePercent m;
     KvCacheMaxTokenCapacity := KvCacheMaxTokenCapacity m; CacheBlockSize := CacheBlockSize m;
     CacheNumGPUBlocks := CacheNumGPUBlocks m; UpdateTime := t |}.

(** ** Prometheus families

    dto.Metric: label pairs, the gauge if there is one, and the timestamp. *)
Record Metric := {
  m_labels : list (string * string);
  m_gauge : option f64;
  m_timestamp : option Z
}.

Definition GetTimestampMs (m : Metric) : Z := default 0 (m_timestamp m).
Definition GetGaugeValue (m : Metric) : f64 := default f64_zero (m_gauge m).

Inductive scrape_error :=
| FamilyNotFound (name : string)
| NoMetrics (name : string)
| NoMatch (name : string)
| Number (e : num_error)
| FetchFailed
| UnexpectedStatus (code : Z)
| ParseFailed.

#[export] Instance scrape_error_eq_dec : EqDecision scrape_error.
Proof. solve_decision. Defined.

Definition CacheConfigBlockSizeInfoMetricName : string := "block_size".
Definition CacheConfigNumGPUBlocksMetricName : string := "num_gpu_blocks".

Section Scrape.
Context {MI : MapIter} {GA : GoArch}.

Definition hasLabel (metricLabels : list (string * string)) (specName specValue : string) : bool :=
  existsb (fun l => bool_decide (l.1 = specName) && bool_decide (l.2 = specValue)) metricLabels.

Definition labelsMatch (metricLabels : list (string * string)) (specLabels : gmap string string) : bool :=
  if (size specLabels =? 0)%nat then true
  else forallb (fun kv => hasLabel metricLabels kv.1 kv.2) (map_range ["specLabels"] specLabels).

Definition metricMatches (spec : MetricSpec) (m : Metric) : bool :=
  match spec_labels spec with None => true | Some ls => labelsMatch (m_labels m) ls end.

(** The scan for the newest match: a later metric replaces the kept one only with
    a strictly greater timestamp. *)
Fixpoint latest (spec : MetricSpec) (kept : option Metric) (latestTimestamp : Z) (ms : list Metric)
    : option Metric :=
  match ms with
  | [] => kept
  | m :: rest =>
      if metricMatches spec m && (latestTimestamp <? GetTimestampMs m)
      then latest spec (Some m) (GetTimestampMs m) rest
      else latest spec kept latestTimestamp rest
  end.

Definition getMetric (metricFamilies : gmap string (list Metric)) (spec : MetricSpec)
    : outcome scrape_error Metric :=
  match metricFamilies !! MetricName spec with
  | None => Err (FamilyNotFound (MetricName spec))
  | Some [] => Err (NoMetrics (MetricName spec))
  | Some ms =>
      match latest spec None (-1) ms with
      | Some m => Ret m
      | None => Err (NoMatch (MetricName spec))
      end
  end.

(** The state of a scrape: the pointer to the clone and the collected errors.  A
    write through a nil pointer panics. *)
Definition scrape_state : Type := option Metrics * list scrape_error.

Definition writeMetrics (f : Metrics -> Metrics) (st : scrape_state)
    : outcome scrape_error scrape_state :=
  let* m := deref st.1 in Ret (Some (f m), st.2).

Definition addError (e : scrape_error) (st : scrape_state) : scrape_state := (st.1, st.2 ++ [e]).

(** A mapped gauge: written when it is found, its error collected when not; an
    unmapped one is skipped. *)
Definition scrapeGauge (families : gmap string (list Metric)) (spec : option MetricSpec)
    (write : f64 -> Metrics -> Metrics) (st : scrape_state) : outcome scrape_error scrape_state :=
  match spec with
  | None => Ret st
  | Some spec =>
      match getMetric families spec with
      | Ret m => writeMetrics (write (GetGaugeValue m)) st
      | Err e => Ret (addError e st)
      | Panic p => Panic p
      end
  end.

(** [updated.Field, err = strconv.Atoi(..)] assigns the value even with an
    error: 0 for a malformed number, the bound for one out of range. *)
Definition assignAtoi (text : string) (write : Z -> Metrics -> Metrics) (st : scrape_state)
    : outcome scrape_error scrape_state :=
  let '(n, err) := atoi text in
  let* st' := writeMetrics (write n) st in
  Ret (match err with Some e => addError (Number e) st' | None => st' end).

Definition set_block (n : Z) (m : Metrics) : Metrics := set_cache n (CacheNumGPUBlocks m) m.
Definition set_gpu (n : Z) (m : Metrics) : Metrics := set_cache (CacheBlockSize m) n m.

Fixpoint cacheLabels (labels : list (string * string)) (st : scrape_state)
    : outcome scrape_error scrape_state :=
  match labels with
  | [] => Ret st
  | (name, value) :: rest =>
      let* st' :=
        if bool_decide (name = CacheConfigBlockSizeInfoMetricName) then assignAtoi value set_block st
        else if bool_decide (name = CacheConfigNumGPUBlocksMetricName) then assignAtoi value set_gpu st
        else Ret st in
      cacheLabels rest st'
  end.

Definition scrapeCache (families : gmap string (list Metric)) (spec : option MetricSpec)
    (st : scrape_state) : outcome scrape_error scrape_state :=
  match spec with
  | None => Ret st
  | Some spec =>
      match getMetric families spec with
      | Ret m => cacheLabels (m_labels m) st
      | Err e => Ret (addError e st)
      | Panic p => Panic p
      end
  end.

Definition promToPodMetrics (mapping : MetricMapping) (families : gmap string (list Metric))
    (existing : option Metrics) : outcome scrape_error scrape_state :=
  let* st1 := scrapeGauge families (TotalQueuedRequests mapping)
                (fun v => set_waiting (f64_to_int v)) (Clone existing, []) in
  let* st2 := scrapeGauge families (TotalRunningRequests mapping)
                (fun v => set_running (f64_to_int v)) st1 in
  let* st3 := scrapeGauge families (KVCacheUtilization mapping) set_usage st2 in
  scrapeCache families (CacheConfigInfo mapping) st3.

(** What the HTTP client and the text parser answer. *)
Inductive response :=
| RequestFailed
| Response (status : Z) (body : option (gmap string (list Metric))).

(** The metrics pointer and the errors, as [FetchMetrics] returns them. *)
Definition FetchMetrics (mapping : MetricMapping) (resp : response) (existing : option Metrics)
    : outcome scrape_error scrape_state :=
  match resp with
  | RequestFailed => Ret (None, [FetchFailed])
  | Response status body =>
      if negb (status =? 200) then Ret (None, [UnexpectedStatus status])
      else match body with
           | None => Ret (None, [ParseFailed])
           | Some families => promToPodMetrics mapping families existing
           end
  end.

(** ** The refresh loop *)

Record EndpointMetadata := {
  em_namespace : string; em_name : string; em_pod_name : string; em_address : string;
  em_port : string; em_metrics_host : string; em_labels : gmap string string
}.

Definition getMetricEndpoint (scheme path : string) (pod : EndpointMetadata) : string :=
  scheme +:+ "://" +:+ em_metrics_host pod +:+ path.

(** PodMetrics with the state of its goroutine. *)
Inductive loop_state := NotStarted | Running | Exited.

Record PodMetrics := {
  pm_metadata : EndpointMetadata;
  pm_latest : option Metrics;
  pm_loop : loop_state;
  pm_stopped : bool;     (* stopOnce has run *)
  pm_closed : nat;       (* how often done was closed *)
  pm_cancelled : bool    (* the parent context is done *)
}.

Definition with_latest (l : option Metrics) (pm : PodMetrics) : PodMetrics :=
  {| pm_metadata := pm_metadata pm; pm_latest := l; pm_loop := pm_loop pm;
     pm_stopped := pm_stopped pm; pm_closed := pm_closed pm; pm_cancelled := pm_cancelled pm |}.

Definition with_loop (s : loop_state) (pm : PodMetrics) : PodMetrics :=
  {| pm_metadata := pm_metadata pm; pm_latest := pm_latest pm; pm_loop := s;
     pm_stopped := pm_stopped pm; pm_closed := pm_closed pm; pm_cancelled := pm_cancelled pm |}.

(** startOnce: a second call does nothing. *)
Definition startRefreshLoop (pm : PodMetrics) : PodMetrics :=
  match pm_loop pm with NotStarted => with_loop Running pm | _ => pm end.

Definition NewEndpoint (metadata : EndpointMetadata) : PodMetrics :=
  startRefreshLoop
    {| pm_metadata := metadata; pm_latest := Some NewMetrics; pm_loop := NotStarted;
       pm_stopped := false; pm_closed := 0; pm_cancelled := false |}.

Definition UpdateMetadata (metadata : EndpointMetadata) (pm : PodMetrics) : PodMetrics :=
  {| pm_metadata := metadata; pm_latest := pm_latest pm; pm_loop := pm_loop pm;
     pm_stopped := pm_stopped pm; pm_closed := pm_closed pm; pm_cancelled := pm_cancelled pm |}.

Definition UpdateMetrics (now : Z) (updated : Metrics) (pm : PodMetrics) : PodMetrics :=
  with_latest (Some (set_time now updated)) pm.

(** [refreshMetrics] logs the errors and always returns nil. *)
Definition refreshMetrics (mapping : MetricMapping) (resp : response) (now : Z) (pm : PodMetrics)
    : outcome scrape_error PodMetrics :=
  let* ' (updated, errs) := FetchMetrics mapping resp (pm_latest pm) in
  match updated with
  | Some m => Ret (UpdateMetrics now m pm)
  | None => Ret pm
  end.

Definition StopRefreshLoop (pm : PodMetrics) : PodMetrics :=
  if pm_stopped pm then pm
  else {| pm_metadata := pm_metadata pm; pm_latest := pm_latest pm; pm_loop := pm_loop pm;
          pm_stopped := true; pm_closed := S (pm_closed pm); pm_cancelled := pm_cancelled pm |}.

Definition cancelContext (pm : PodMetrics) : PodMetrics :=
  {| pm_metadata := pm_metadata pm; pm_latest := pm_latest pm; pm_loop := pm_loop pm;
     pm_stopped := pm_stopped pm; pm_closed := pm_closed pm; pm_cancelled := true |}.

(** What the goroutine and the other goroutines may do.  A ready tick may still
    be taken after the channel is closed: [select] picks any ready case. *)
Inductive endpoint_step (mapping : MetricMapping) : PodMetrics -> PodMetrics -> Prop :=
| StepTick pm pm' resp now :
    pm_loop pm = Running -> refreshMetrics mapping resp now pm = Ret pm' ->
    endpoint_step mapping pm pm'
| StepDone pm :
    pm_loop pm = Running -> (0 < pm_closed pm)%nat -> endpoint_step mapping pm (with_loop Exited pm)
| StepCancelled pm :
    pm_loop pm = Running -> pm_cancelled pm = true -> endpoint_step mapping pm (with_loop Exited pm)
| StepStop pm : endpoint_step mapping pm (StopRefreshLoop pm)
| StepCancel pm : endpoint_step mapping pm (cancelContext pm)
| StepMetadata pm md : endpoint_step mapping pm (UpdateMetadata md pm)
| StepStart pm : endpoint_step mapping pm (startRefreshLoop pm).

(** ** Lemmas *)







(** ** Properties *)


Lemma promToPodMetrics_returns mapping families m :
  exists m' errs, promToPodMetrics mapping families (Some m) = Ret (Some m', errs).
Proof.
  assert (forall sp w m errs, exists m' errs', scrapeGauge families sp w (Some m, errs) = Ret (Some m', errs')) as Hg.
  { intros [sp|] w m0 errs; simpl; [|eauto]. unfold getMetric.
    destruct (families !! MetricName sp) as [[|]|]; [by unfold addError; eauto| |by unfold addError; eauto].
    destruct (latest _ _ _ _); unfold addError; eauto. }
  assert (forall ls m errs, exists m' errs', cacheLabels ls (Some m, errs) = Ret (Some m', errs')) as Hc.
  { induction ls as [|[n v] ls IH]; intros m0 errs; simpl; [eauto|].
    unfold assignAtoi. destruct (atoi v) as [k [e|]]; repeat case_bool_decide; simpl; apply IH. }
  unfold promToPodMetrics. simpl.
  edestruct Hg as (m1 & e1 & ->). simpl. edestruct Hg as (m2 & e2 & ->). simpl.
  edestruct Hg as (m3 & e3 & ->). simpl. unfold scrapeCache.
  destruct (CacheConfigInfo mapping) as [sp|]; [|eauto]. unfold getMetric.
  destruct (families !! MetricName sp) as [[|]|]; [by unfold addError; eauto| |by unfold addError; eauto].
  destruct (latest _ _ _ _); [apply Hc|unfold addError; eauto].
Qed.

(** What each field of the clone becomes. *)
Definition scraped_gauge (families : gmap string (list Metric)) (spec : option MetricSpec)
    : option f64 :=
  sp ← spec; match getMetric families sp with Ret m => Some (GetGaugeValue m) | _ => None end.

(** The value of the last label of that name on the chosen metric. *)
Definition scraped_label (families : gmap string (list Metric)) (spec : option MetricSpec)
    (name : string) : option string :=
  sp ← spec;
  match getMetric families sp with
  | Ret m => last (snd <$> filter (fun l => l.1 = name) (m_labels m))
  | _ => None
  end.

(** What a field ends as: the new value if there is one. *)
Definition updated {A B} (f : A -> B) (old : B) (new : option A) : B :=
  match new with Some a => f a | None => old end.

Lemma getMetric_no_panic families sp p : getMetric families sp <> Panic p.
Proof. unfold getMetric. repeat case_match; done. Qed.

Lemma scrapeGauge_some families spec w m errs :
  exists errs', scrapeGauge families spec w (Some m, errs)
    = Ret (Some (updated (fun v => w v m) m (scraped_gauge families spec)), errs').
Proof.
  unfold scrapeGauge, scraped_gauge. destruct spec as [sp|]; simpl; [|eauto].
  destruct (getMetric families sp) as [x|e|p] eqn:E; [by eexists|by eexists|].
  exfalso. by eapply getMetric_no_panic.
Qed.

Definition last_named (name : string) (ls : list (string * string)) : option string :=
  last (snd <$> filter (fun l => l.1 = name) ls).

Lemma last_cons_some {A} (x : A) l : last (x :: l) = Some (default x (last l)).
Proof. rewrite last_cons. by destruct (last l). Qed.

Lemma last_named_cons name n v ls :
  last_named name ((n, v) :: ls)
  = if decide (n = name) then Some (default v (last_named name ls)) else last_named name ls.
Proof.
  unfold last_named. rewrite filter_cons. simpl. case_decide; [|done].
  rewrite fmap_cons. apply last_cons_some.
Qed.

Lemma updated_cons (old : Z) (v : string) (l : option string) :
  updated (fun v => (atoi v).1) old (Some (default v l))
  = updated (fun v => (atoi v).1) (atoi v).1 l.
Proof. by destruct l. Qed.

Lemma cacheLabels_some ls m errs :
  exists errs', cacheLabels ls (Some m, errs)
    = Ret (Some (set_cache
        (updated (fun v => (atoi v).1) (CacheBlockSize m) (last_named CacheConfigBlockSizeInfoMetricName ls))
        (updated (fun v => (atoi v).1) (CacheNumGPUBlocks m) (last_named CacheConfigNumGPUBlocksMetricName ls))
        m), errs').
Proof.
  revert m errs. induction ls as [|[n v] ls IH]; intros m errs.
  - exists errs. by destruct m.
  - cbn [cacheLabels]. rewrite !last_named_cons. unfold assignAtoi, writeMetrics.
    assert (CacheConfigBlockSizeInfoMetricName <> CacheConfigNumGPUBlocksMetricName) by done.
    destruct (atoi v) as [k e] eqn:E.
    repeat case_bool_decide; repeat (case_decide; try congruence); cbn [deref obind fst snd];
      rewrite ?updated_cons; [| |apply IH].
    + destruct (IH (set_block k m) (match e with Some e => errs ++ [Number e] | None => errs end)) as [errs' IH'].
      exists errs'. rewrite E. destruct e; exact IH'.
    + destruct (IH (set_gpu k m) (match e with Some e => errs ++ [Number e] | None => errs end)) as [errs' IH'].
      exists errs'. rewrite E. destruct e; exact IH'.
Qed.

(** What one scrape leaves in the metrics.  It always returns; each gauge
    field is the gauge that its specification picks, converted, or the value of
    the previous scrape when the specification is absent or picks nothing; the
    two cache fields are the numbers read from the last label of their name, and
    a label that is not a number overwrites the previous value, with 0 or with
    the bound it exceeds; everything else is as before. *)
Theorem scrape_fields mapping families m :
  exists m' errs, promToPodMetrics mapping families (Some m) = Ret (Some m', errs) /\
    WaitingQueueSize m' = updated f64_to_int (WaitingQueueSize m)
      (scraped_gauge families (TotalQueuedRequests mapping)) /\
    RunningRequestsSize m' = updated f64_to_int (RunningRequestsSize m)
      (scraped_gauge families (TotalRunningRequests mapping)) /\
    KVCacheUsagePercent m' = updated id (KVCacheUsagePercent m)
      (scraped_gauge families (KVCacheUtilization mapping)) /\
    CacheBlockSize m' = updated (fun v => (atoi v).1) (CacheBlockSize m)
      (scraped_label families (CacheConfigInfo mapping) CacheConfigBlockSizeInfoMetricName) /\
    CacheNumGPUBlocks m' = updated (fun v => (atoi v).1) (CacheNumGPUBlocks m)
      (scraped_label families (CacheConfigInfo mapping) CacheConfigNumGPUBlocksMetricName) /\
    default ∅ (ActiveModels m') = default ∅ (ActiveModels m) /\
    default ∅ (WaitingModels m') = default ∅ (WaitingModels m) /\
    MaxActiveModels m' = MaxActiveModels m /\
    KvCacheMaxTokenCapacity m' = KvCacheMaxTokenCapacity m /\ UpdateTime m' = UpdateTime m.
Proof.
  unfold promToPodMetrics. cbn [Clone].
  edestruct scrapeGauge_some as [e1 ->]. cbn [obind].
  edestruct scrapeGauge_some as [e2 ->]. cbn [obind].
  edestruct scrapeGauge_some as [e3 ->]. cbn [obind].
  destruct (scraped_gauge families (TotalQueuedRequests mapping)),
    (scraped_gauge families (TotalRunningRequests mapping)),
    (scraped_gauge families (KVCacheUtilization mapping)); cbn [updated];
  (unfold scrapeCache, scraped_label; destruct (CacheConfigInfo mapping) as [sp|];
    [|do 2 eexists; split; [reflexivity|]; split_and!; reflexivity]; cbn [mbind option_bind];
   destruct (getMetric families sp) as [x|err|p] eqn:Eg;
    [edestruct cacheLabels_some as [e4 ->]; do 2 eexists; split; [reflexivity|]; split_and!; reflexivity
    |do 2 eexists; split; [reflexivity|]; split_and!; reflexivity
    |exfalso; by eapply getMetric_no_panic]).
Qed.

(** ** The life of an endpoint *)

Definition endpoint_ok (pm : PodMetrics) : Prop :=
  is_Some (pm_latest pm) /\ pm_closed pm = (if pm_stopped pm then 1 else 0)%nat.

Lemma refresh_returns mapping resp now pm :
  is_Some (pm_latest pm) ->
  exists pm', refreshMetrics mapping resp now pm = Ret pm' /\ is_Some (pm_latest pm') /\
    pm_loop pm' = pm_loop pm /\ pm_stopped pm' = pm_stopped pm /\ pm_closed pm' = pm_closed pm.
Proof.
  intros [m Hm]. unfold refreshMetrics, FetchMetrics. rewrite Hm.
  destruct resp as [|status body]; simpl; [by eauto 10|].
  destruct (negb (status =? 200)); simpl; [by eauto 10|]. destruct body as [families|]; simpl; [|by eauto 10].
  destruct (promToPodMetrics_returns mapping families m) as (m' & errs & ->). simpl.
  eexists. split; [done|]. simpl. eauto.
Qed.

Lemma endpoint_step_ok mapping pm pm' :
  endpoint_ok pm -> endpoint_step mapping pm pm' -> endpoint_ok pm'.
Proof.
  intros [Hl Hc] Hs. destruct Hs as [pm pm' resp now _ Hr|pm _ _|pm _ _|pm|pm|pm md|pm]; unfold endpoint_ok; try done.
  - destruct (refresh_returns mapping resp now pm Hl) as (pm1 & H1 & H2 & _ & H3 & H4).
    assert (pm' = pm1) as -> by congruence. split; [done|]. by rewrite H3, H4.
  - unfold StopRefreshLoop. destruct (pm_stopped pm) eqn:E; simpl; [by rewrite E|]. by rewrite Hc.
  - unfold startRefreshLoop. by destruct (pm_loop pm).
Qed.

(** C11: the life of an endpoint, over every interleaving of its refresh loop with
    the calls of other goroutines: it always has metrics, so no refresh panics;
    its channel is closed exactly once after the first stop and never twice;
    once it is stopped the loop can end, and once the loop has ended it never
    runs again and the metrics never change. *)
Theorem endpoint_invariant mapping md pm :
  rtc (endpoint_step mapping) (NewEndpoint md) pm ->
  is_Some (pm_latest pm) /\ pm_closed pm = (if pm_stopped pm then 1 else 0)%nat /\
  (forall resp now p, refreshMetrics mapping resp now pm <> Panic p) /\
  (pm_stopped pm = true -> pm_loop pm = Running -> endpoint_step mapping pm (with_loop Exited pm)) /\
  (forall pm', pm_loop pm = Exited -> rtc (endpoint_step mapping) pm pm' ->
     pm_loop pm' = Exited /\ pm_latest pm' = pm_latest pm).
Proof.
  intros H. assert (endpoint_ok pm) as [Hl Hc].
  { eapply (rtc_ind_r endpoint_ok (NewEndpoint md)); [split; [by eexists|done]| |exact H].
    intros y z _ Hyz IH. by eapply endpoint_step_ok. }
  split_and!; [done|done| | |].
  - intros resp now p Hp. destruct (refresh_returns mapping resp now pm Hl) as (? & ? & _). congruence.
  - intros Hs Hr. apply StepDone; [done|]. rewrite Hc, Hs. lia.
  - intros pm' He Hr. clear H Hl Hc. induction Hr as [x|x y z Hxy _ IH]; [done|].
    assert (pm_loop y = Exited /\ pm_latest y = pm_latest x) as [E1 E2].
    { destruct Hxy; try congruence; try done; unfold StopRefreshLoop, startRefreshLoop.
      - by destruct (pm_stopped pm).
      - by rewrite He. }
    destruct (IH E1) as [-> ->]. done.
Qed.

End Scrape.


(** ** Pod readiness *)

Record PodCondition := { cond_type : string; cond_status : string }.

(** The first Ready condition decides. *)
Fixpoint readyCondition (conditions : list PodCondition) : bool :=
  match conditions with
  | [] => false
  | c :: cs =>
      if bool_decide (cond_type c = "Ready"%string) then bool_decide (cond_status c = "True"%string)
      else readyCondition cs
  end.

Definition IsPodReady (deleting : bool) (conditions : list PodCondition) : bool :=
  if deleting then false else readyCondition conditions.

(** ** Printing a specification *)

Definition print_pair (p : string * string) : string := p.1 +:+ String "=" p.2.

Definition print_spec (name : string) (labels : list (string * string)) : string :=
  match labels with
  | [] => name
  | _ => name +:+ String "{" (join_with "," (print_pair <$> labels) +:+ "}")
  end.

(** Characters that a name or a label may use: printable, and none of the
    delimiters. *)
Definition spec_char (c : ascii) : bool :=
  graphic c && negb (bool_decide (c = "{"%char)) && negb (bool_decide (c = "}"%char))
  && negb (bool_decide (c = ","%char)) && negb (bool_decide (c = "="%char)).

Definition spec_word (s : string) : bool := all_chars spec_char s && negb (bool_decide (s = ""%string)).

Lemma spec_word_facts s :
  spec_word s = true ->
  s <> ""%string /\ trim_space s = s /\ all_chars graphic s = true /\
  has_char "{" s = false /\ has_char "}" s = false /\ has_char "," s = false /\ has_char "=" s = false.
Proof.
  unfold spec_word. intros H. bool_hyps.
  assert (all_chars graphic s = true) as Hg
    by (eapply all_chars_impl; [|eassumption]; unfold spec_char; intros; bool_hyps; done).
  split_and!; [done|by apply trim_space_graphic|done|..];
    (apply (all_chars_has_char spec_char); [done|reflexivity]).
Qed.

Lemma parsePair_print n v :
  spec_word n = true -> spec_word v = true -> parsePair (print_pair (n, v)) = Ret (n, v).
Proof.
  intros Hn Hv. apply spec_word_facts in Hn as (Hn0 & Hnt & Hng & _ & _ & _ & Hne).
  apply spec_word_facts in Hv as (Hv0 & Hvt & Hvg & _ & _ & _ & Hve).
  unfold parsePair, print_pair. simpl.
  assert (trim_space (n +:+ String "=" v) = n +:+ String "=" v) as ->.
  { apply trim_space_graphic. rewrite all_chars_app. simpl. by rewrite Hng, Hvg. }
  rewrite split_on_app, split_on_no_sep by done. rewrite Hnt, Hvt.
  by rewrite !bool_decide_eq_false_2 by done.
Qed.

Definition add_labels (m : gmap string string) (l : list (string * string)) : gmap string string :=
  foldl (fun m p => <[p.1 := p.2]> m) m l.

Lemma parsePairs_print m labels :
  Forall (fun p => spec_word p.1 = true /\ spec_word p.2 = true) labels ->
  parsePairs m (print_pair <$> labels) = Ret (add_labels m labels).
Proof.
  intros H. revert m. induction H as [|[n v] labels [Hn Hv] _ IH]; intros m; [done|].
  rewrite fmap_cons. simpl in *. rewrite parsePair_print by done. simpl. apply IH.
Qed.

Lemma join_has_char c labels :
  has_char c "," = false -> has_char c "=" = false ->
  Forall (fun p => has_char c p.1 = false /\ has_char c p.2 = false) labels ->
  has_char c (join_with "," (print_pair <$> labels)) = false.
Proof.
  intros H1 H2 HF. induction HF as [|[n v] labels [Hn Hv] _ IH]; [done|].
  assert (has_char c (print_pair (n, v)) = false) as Hp.
  { unfold print_pair. simpl in *. rewrite has_char_app. simpl in *. by rewrite Hn, Hv, H2. }
  destruct labels as [|q labels]; [exact Hp|].
  change (join_with "," (print_pair <$> (n, v) :: q :: labels))
    with (print_pair (n, v) +:+ String "," (join_with "," (print_pair <$> q :: labels))).
  set (J := join_with "," (print_pair <$> q :: labels)) in *.
  rewrite has_char_app, Hp. simpl in H1 |- *. rewrite IH. by destruct (bool_decide _).
Qed.

Lemma join_graphic labels :
  Forall (fun p => all_chars graphic p.1 = true /\ all_chars graphic p.2 = true) labels ->
  all_chars graphic (join_with "," (print_pair <$> labels)) = true.
Proof.
  intros HF. induction HF as [|[n v] labels [Hn Hv] _ IH]; [done|].
  assert (all_chars graphic (print_pair (n, v)) = true) as Hp
    by (unfold print_pair; rewrite all_chars_app; simpl in *; by rewrite Hn, Hv).
  destruct labels as [|q labels]; [exact Hp|].
  change (join_with "," (print_pair <$> (n, v) :: q :: labels))
    with (print_pair (n, v) +:+ String "," (join_with "," (print_pair <$> q :: labels))).
  set (J := join_with "," (print_pair <$> q :: labels)) in *.
  rewrite all_chars_app, Hp. exact IH.
Qed.

Lemma parseSpec_print name labels :
  spec_word name = true -> labels <> [] ->
  Forall (fun p => spec_word p.1 = true /\ spec_word p.2 = true) labels ->
  parseSpec (print_spec name labels) = Ret (name, add_labels ∅ labels).
Proof.
  intros Hn Hne HF. pose proof (spec_word_facts _ Hn) as (Hn0 & Hnt & _ & Hn1 & Hn2 & _).
  set (body := join_with "," (print_pair <$> labels)).
  assert (print_spec name labels = name +:+ String "{" (body +:+ "}")) as -> by by destruct labels.
  assert (forall c, spec_char c = false -> has_char c "," = false -> has_char c "=" = false ->
    has_char c body = false) as Hc.
  { intros c Hs H1 H2. apply join_has_char; [done..|]. eapply Forall_impl; [exact HF|].
    intros [n v] [Hw1 Hw2]; unfold spec_word in *; simpl in *; bool_hyps.
    split; by apply (all_chars_has_char spec_char). }
  assert (0 < String.length body)%nat as Hlen.
  { destruct labels as [|[n v] labels]; [done|]. unfold body. clear.
    destruct labels; simpl; unfold print_pair; simpl; rewrite ?str_length_app; simpl; lia. }
  set (ln := String.length name). set (lb := String.length body).
  unfold parseSpec. rewrite (index_byte_app "{") by done.
  assert (index_byte "}" (name +:+ String "{" (body +:+ "}")) = Z.of_nat ln + 1 + Z.of_nat lb) as ->.
  { replace (name +:+ String "{" (body +:+ "}")) with ((name +:+ String "{" body) +:+ "}")
      by (by rewrite str_app_assoc, str_app_cons).
    rewrite index_byte_app.
    - rewrite str_length_app. simpl. unfold ln, lb. lia.
    - rewrite has_char_app, Hn2. simpl. by apply Hc. }
  fold ln. rewrite (proj2 (Z.eqb_neq (Z.of_nat ln) (-1))) by lia.
  rewrite (proj2 (Z.eqb_neq (Z.of_nat ln + 1 + Z.of_nat lb) (-1))) by lia.
  rewrite (proj2 (Z.leb_gt _ _)) by lia. cbn [negb orb].
  replace (Z.to_nat (Z.of_nat ln + 1)) with (String.length (name +:+ "{"))
    by (rewrite str_length_app; simpl; unfold ln; lia).
  replace (Z.to_nat (Z.of_nat ln + 1 + Z.of_nat lb - (Z.of_nat ln + 1))) with lb by lia.
  rewrite Nat2Z.id. unfold ln. rewrite str_take_app.
  replace (name +:+ String "{" (body +:+ "}")) with ((name +:+ "{") +:+ (body +:+ "}"))
    by (by rewrite str_app_assoc).
  rewrite str_drop_app. unfold lb. rewrite str_take_app. unfold body.
  rewrite split_join; [|by destruct labels|].
  2: { apply Forall_fmap. eapply Forall_impl; [exact HF|]. intros [n v] [Hw1 Hw2].
       apply spec_word_facts in Hw1 as (_ & _ & _ & _ & _ & Hw1 & _).
       apply spec_word_facts in Hw2 as (_ & _ & _ & _ & _ & Hw2 & _).
       unfold print_pair. simpl in *. rewrite has_char_app. simpl. by rewrite Hw1, Hw2. }
  rewrite parsePairs_print by done.
  cbn [obind]. fold body. rewrite !str_length_app. simpl.
  rewrite (proj2 (Z.eqb_eq _ _)) by lia. by rewrite Hnt.
Qed.

(** A specification reads back as it was written: a metric name and labels of
    printable characters other than the delimiters, written
    name{label=value,...}, parse to that name and those labels, the last value
    winning for a repeated label; a name alone parses to no labels, and the empty
    string to no specification. *)
Theorem spec_roundtrip name labels :
  spec_word name = true ->
  Forall (fun p => spec_word p.1 = true /\ spec_word p.2 = true) labels ->
  stringToMetricSpec (print_spec name labels)
    = Ret (Some {| MetricName := name; spec_labels := Some (add_labels ∅ labels) |}) /\
  stringToMetricSpec "" = Ret None.
Proof.
  intros Hn HF. split; [|done].
  pose proof (spec_word_facts _ Hn) as (Hn0 & Hnt & Hg & Hn1 & Hn2 & _).
  unfold stringToMetricSpec.
  assert (all_chars graphic (print_spec name labels) = true) as Hgp.
  { assert (all_chars graphic (join_with "," (print_pair <$> labels)) = true) as Hj.
    { apply join_graphic, (Forall_impl _ _ _ HF). intros [n v] [Hw1 Hw2]. split; by apply spec_word_facts. }
    unfold print_spec. set (J := join_with "," (print_pair <$> labels)) in *.
    destruct labels; [done|]. rewrite all_chars_app, Hg. simpl. by rewrite all_chars_app, Hj. }
  assert (print_spec name labels <> ""%string) as Hne.
  { destruct labels; [done|]. unfold print_spec. by destruct name. }
  rewrite bool_decide_eq_false_2, trim_space_graphic by done.
  destruct (decide (labels = [])) as [->|Hl].
  - unfold parseSpec, print_spec. rewrite (proj1 (index_byte_absent "{" name)),
      (proj1 (index_byte_absent "}" name)) by done. simpl. by rewrite bool_decide_eq_false_2.
  - rewrite parseSpec_print by done. simpl. by rewrite bool_decide_eq_false_2.
Qed.

(** ** Witnesses *)

Lemma spec_roundtrip_witness :
  stringToMetricSpec (print_spec "vllm:num_requests_waiting" [("model_name", "m1")])
  = Ret (Some {| MetricName := "vllm:num_requests_waiting"; spec_labels := Some {["model_name" := "m1"]} |}).
Proof.
  refine (proj1 (spec_roundtrip "vllm:num_requests_waiting" [("model_name", "m1")] _ _)).
  - reflexivity.
  - repeat constructor.
Defined.

Definition example_endpoint : EndpointMetadata :=
  {| em_namespace := "gw"; em_name := "p-rank-0"; em_pod_name := "p"; em_address := "127.0.0.1";
     em_port := "8000"; em_metrics_host := "127.0.0.1:8000"; em_labels := ∅ |}.

Definition example_mapping : MetricMapping :=
  {| TotalQueuedRequests := None; TotalRunningRequests := None; KVCacheUtilization := None;
     LoraRequestInfo := None;
     CacheConfigInfo := Some {| MetricName := "vllm:cache_config_info"; spec_labels := None |} |}.

Lemma endpoint_invariant_witness :
  is_Some (pm_latest (StopRefreshLoop (NewEndpoint example_endpoint))) /\
  pm_closed (StopRefreshLoop (StopRefreshLoop (NewEndpoint example_endpoint))) = 1%nat.
Proof.
  split; [|reflexivity].
  refine (proj1 (endpoint_invariant example_mapping example_endpoint _ _)).
  eapply rtc_l; [apply StepStop|apply rtc_refl].
Defined.

(** A malformed block size overwrites the known one with zero. *)
Definition example_families : gmap string (list Metric) :=
  {["vllm:cache_config_info" :=
      [{| m_labels := [("block_size", "16x")]; m_gauge := None; m_timestamp := None |}]]}.

Lemma bad_block_size_overwrites :
  exists m' errs, promToPodMetrics example_mapping example_families (Some (set_cache 16 1024 NewMetrics))
    = Ret (Some m', errs) /\ CacheBlockSize m' = 0 /\ CacheNumGPUBlocks m' = 1024.
Proof. do 2 eexists. split; [vm_compute; reflexivity|]. split; reflexivity. Qed.
