(* ===== verification/KvCache.v ===== *)
(** * KvCache: block keys of prompts and the subscribers of engines

    src/pkg/epp/scheduling/framework/plugins/prefix-cache-kvevents/kvcache:
    kvblock/token_processor.go (tokens to chunks to chained 64-bit keys),
    kvevents/manager.go (one subscriber per engine), and hashPrompt of
    src/pkg/epp/scheduling/framework/prefix_cache_plugin.go (the same chaining
    over the bytes of a prompt).  The CBOR encoder and xxhash are parameters. *)

From S2P Require Import Prelude GoStd.

Local Open Scope Z_scope.

(** ** Chunks *)

Section Chunks.
Context {A : Type}.

(** [for i := 0; i < len; i += size { end := i + size; if end > len { break } ... }] *)
Fixpoint chunkLoop (fuel : nat) (size i : Z) (tokens : list A) : list (list A) :=
  match fuel with
  | O => []
  | S f =>
      if i <? Z.of_nat (length tokens) then
        let stop := i + size in
        if Z.of_nat (length tokens) <? stop then []
        else take (Z.to_nat (stop - i)) (drop (Z.to_nat i) tokens) :: chunkLoop f size stop tokens
      else []
  end.

(** A positive size advances by at least one token a turn. *)
Definition chunkTokens (size : Z) (tokens : list A) : list (list A) :=
  chunkLoop (S (length tokens)) size 0 tokens.

End Chunks.

(** ** The token database *)

Definition BlockHash : Type := Z.
Definition EmptyBlockHash : BlockHash := 0.
Definition defaultBlockSize : Z := 16.

Record TokenProcessorConfig := { BlockSize : Z; HashSeed : string; initHash : Z }.

Definition DefaultTokenProcessorConfig : TokenProcessorConfig :=
  {| BlockSize := defaultBlockSize; HashSeed := ""; initHash := 0 |}.

Inductive extra_keys :=
| ExtraNil
| ExtraString (s : string)
| ExtraMMHashes (l : option (list string)).

Record BlockExtraFeatures := { MMHashes : option (list string) }.

(** cbor.EncMode: whether the canonical mode can be built, and its Marshal on
    the payload [parent, tokens, extra]. *)
Class CborEncoder := {
  cbor_mode_ok : bool;
  cbor_marshal : Z -> option (list Z) -> extra_keys -> option string
}.

Inductive kv_error := BadBlockSize (n : Z) | EncoderFailed | FeatureLengthMismatch.

#[export] Instance kv_error_eq_dec : EqDecision kv_error.
Proof. solve_decision. Defined.

Section Tokens.
Context {CB : CborEncoder}.

(** The database is its configuration; the caller's configuration object is the
    one the initial hash is cached in. *)
Definition NewChunkedTokenDatabase (config : option TokenProcessorConfig)
    : outcome kv_error TokenProcessorConfig :=
  let config := default DefaultTokenProcessorConfig config in
  if BlockSize config <=? 0 then Err (BadBlockSize (BlockSize config))
  else
    let config :=
      if initHash config =? 0
      then {| BlockSize := BlockSize config; HashSeed := HashSeed config;
              initHash := fnv64a (HashSeed config) |}
      else config in
    if cbor_mode_ok then Ret config else Err EncoderFailed.

(** 0 when the payload cannot be marshalled. *)
Definition hash (parent : Z) (tokens : option (list Z)) (extra : extra_keys) : Z :=
  match cbor_marshal parent tokens extra with
  | None => 0
  | Some b => fnv64a b
  end.

Definition extra_of (f : option BlockExtraFeatures) : extra_keys :=
  match f with None => ExtraNil | Some f => ExtraMMHashes (MMHashes f) end.

(** The lists have the same length when the code reaches this loop; an index
    past the features panics. *)
Fixpoint prefixHashes (parentHash : Z) (chunks : list (list Z))
    (extraFeatures : list (option BlockExtraFeatures)) : outcome kv_error (list BlockHash) :=
  match chunks, extraFeatures with
  | [], _ => Ret []
  | chunk :: cs, f :: fs =>
      let prefix := hash parentHash (Some chunk) (extra_of f) in
      let* rest := prefixHashes prefix cs fs in
      Ret (prefix :: rest)
  | _ :: _, [] => Panic IndexOutOfRange
  end.

Definition TokensToKVBlockKeys (db : TokenProcessorConfig) (parentKey : BlockHash)
    (tokens : list Z) (modelName : string)
    (extraFeatures : option (list (option BlockExtraFeatures))) : outcome kv_error (list BlockHash) :=
  let currentParentHash :=
    if negb (parentKey =? EmptyBlockHash) then parentKey
    else hash (initHash db) None (ExtraString modelName) in
  match chunkTokens (BlockSize db) tokens with
  | [] => Ret []
  | chunks =>
      match extraFeatures with
      | None => prefixHashes currentParentHash chunks (replicate (length chunks) None)
      | Some fs =>
          if negb (length fs =? length chunks)%nat then Err FeatureLengthMismatch
          else prefixHashes currentParentHash chunks fs
      end
  end.

End Tokens.

(** ** Lemmas on chunks *)

Section ChunkLemmas.
Context {A : Type}.

(** The loop without its index. *)
Fixpoint chunks_ref (fuel n : nat) (l : list A) : list (list A) :=
  match fuel with
  | O => []
  | S f =>
      match l with
      | [] => []
      | _ => if (length l <? n)%nat then [] else take n l :: chunks_ref f n (drop n l)
      end
  end.

Lemma chunkLoop_ref f n (pre l : list A) :
  chunkLoop f (Z.of_nat n) (Z.of_nat (length pre)) (pre ++ l) = chunks_ref f n l.
Proof.
  revert pre l. induction f as [|f IH]; intros pre l; [done|]. cbn [chunkLoop chunks_ref].
  rewrite length_app. destruct l as [|x l].
  - rewrite (proj2 (Z.ltb_ge _ _)); [done|simpl; lia].
  - rewrite (proj2 (Z.ltb_lt _ _)) by (simpl; lia).
    destruct (Nat.ltb_spec (length (x :: l)) n) as [H|H].
    + rewrite (proj2 (Z.ltb_lt _ _)) by lia. done.
    + rewrite (proj2 (Z.ltb_ge _ _)) by lia.
      rewrite Nat2Z.id, drop_app_length. f_equal; [f_equal; lia|].
      rewrite <- (IH (pre ++ take n (x :: l)) (drop n (x :: l))).
      rewrite <- app_assoc, take_drop, length_app, length_take.
      f_equal. rewrite Nat.min_l by lia. lia.
Qed.

Lemma chunkTokens_ref n (l : list A) : chunkTokens (Z.of_nat n) l = chunks_ref (S (length l)) n l.
Proof. apply (chunkLoop_ref _ n []). Qed.

Lemma chunks_ref_fuel f1 f2 n (l : list A) :
  (0 < n)%nat -> (length l < f1)%nat -> (length l < f2)%nat -> chunks_ref f1 n l = chunks_ref f2 n l.
Proof.
  intros Hn. revert f2 l. induction f1 as [|f1 IH]; intros [|f2] l H1 H2; try lia. simpl.
  destruct l as [|x l]; [done|]. case_match; [done|]. f_equal.
  apply IH; rewrite length_drop; simpl in *; lia.
Qed.

Lemma chunks_short n (l : list A) : (length l < n)%nat -> chunkTokens (Z.of_nat n) l = [].
Proof.
  intros H. rewrite chunkTokens_ref. simpl. destruct l as [|x l]; [done|].
  by rewrite (proj2 (Nat.ltb_lt _ _)).
Qed.

Lemma chunks_cons n (a b : list A) :
  (0 < n)%nat -> length a = n -> chunkTokens (Z.of_nat n) (a ++ b) = a :: chunkTokens (Z.of_nat n) b.
Proof.
  intros Hn Ha. rewrite !chunkTokens_ref. cbn [chunks_ref].
  destruct (a ++ b) as [|x l] eqn:E; [destruct a; simpl in *; [lia|done]|]. rewrite <- E.
  rewrite (proj2 (Nat.ltb_ge _ _)) by (rewrite length_app; lia).
  rewrite take_app_length', drop_app_length' by done. f_equal.
  change (chunks_ref (length (a ++ b)) n b = chunks_ref (S (length b)) n b).
  apply chunks_ref_fuel; [done| |lia]. rewrite length_app. lia.
Qed.

Lemma chunks_app n q (a b : list A) :
  (0 < n)%nat -> length a = (q * n)%nat ->
  chunkTokens (Z.of_nat n) (a ++ b) = chunkTokens (Z.of_nat n) a ++ chunkTokens (Z.of_nat n) b.
Proof.
  intros Hn. revert a. induction q as [|q IH]; intros a Ha.
  - apply nil_length_inv in Ha as ->. done.
  - rewrite <- (take_drop n a), <- app_assoc.
    assert (length (take n a) = n) by (rewrite length_take; lia).
    rewrite (chunks_cons n (take n a) (drop n a ++ b)), (chunks_cons n (take n a) (drop n a)) by done.
    simpl. f_equal. apply IH. rewrite length_drop. lia.
Qed.

Lemma chunks_full n q (a : list A) :
  (0 < n)%nat -> length a = (q * n)%nat ->
  mjoin (chunkTokens (Z.of_nat n) a) = a /\ length (chunkTokens (Z.of_nat n) a) = q /\
  Forall (fun c => length c = n) (chunkTokens (Z.of_nat n) a).
Proof.
  intros Hn. revert a. induction q as [|q IH]; intros a Ha.
  - apply nil_length_inv in Ha as ->. split_and!; [done|done|constructor].
  - assert (length (take n a) = n) as Ht by (rewrite length_take; lia).
    destruct (IH (drop n a)) as (H1 & H2 & H3); [rewrite length_drop; lia|].
    rewrite <- (take_drop n a) at 1 3 4. rewrite chunks_cons by done. split_and!.
    + simpl. rewrite H1. apply take_drop.
    + simpl. by rewrite H2.
    + by constructor.
Qed.

(** The whole blocks of a list, and what is left over. *)
Lemma chunks_split n (l : list A) :
  (0 < n)%nat ->
  let a := take (length l / n * n) l in
  length a = (length l / n * n)%nat /\ (length (drop (length l / n * n) l) < n)%nat /\
  chunkTokens (Z.of_nat n) l = chunkTokens (Z.of_nat n) a.
Proof.
  intros Hn a. pose proof (Nat.div_mod_eq (length l) n). pose proof (Nat.mod_upper_bound (length l) n ltac:(lia)).
  assert (length a = (length l / n * n)%nat) as Ha by (unfold a; rewrite length_take; lia).
  assert (length (drop (length l / n * n) l) < n)%nat as Hd by (rewrite length_drop; lia).
  split_and!; [done|done|]. rewrite <- (take_drop (length l / n * n) l) at 1. fold a.
  rewrite (chunks_app n (length l / n)) by done. by rewrite (chunks_short n (drop _ _)), app_nil_r.
Qed.

End ChunkLemmas.

Section TokenProperties.
Context {CB : CborEncoder}.

(** ** Lemmas on keys *)

Definition text_only (chunks : list (list Z)) : list (option BlockExtraFeatures) :=
  replicate (length chunks) None.

Lemma prefixHashes_app h cs1 cs2 fs1 fs2 :
  length cs1 = length fs1 ->
  prefixHashes h (cs1 ++ cs2) (fs1 ++ fs2)
  = let* k1 := prefixHashes h cs1 fs1 in
    let* k2 := prefixHashes (default h (last k1)) cs2 fs2 in Ret (k1 ++ k2).
Proof.
  revert h fs1. induction cs1 as [|c cs1 IH]; intros h [|f fs1] Hl; simplify_eq/=.
  - by destruct (prefixHashes h cs2 fs2).
  - rewrite IH by done. destruct (prefixHashes _ cs1 fs1) as [k1|?|?]; simpl; [|done..].
    rewrite last_cons. destruct (last k1); simpl; by destruct (prefixHashes _ cs2 fs2).
Qed.

Lemma prefixHashes_ret h cs fs :
  (length cs <= length fs)%nat -> exists ks, prefixHashes h cs fs = Ret ks /\ length ks = length cs.
Proof.
  revert h fs. induction cs as [|c cs IH]; intros h [|f fs] Hl; simpl in *; [by eexists..|lia|].
  destruct (IH (hash h (Some c) (extra_of f)) fs ltac:(lia)) as (ks & -> & Hk). simpl.
  eexists. split; [done|]. simpl. by rewrite Hk.
Qed.

Lemma hash_bounds h c e : 0 <= hash h c e < 2 ^ 64.
Proof. unfold hash. destruct (cbor_marshal h c e); [apply fnv64a_bounds|lia]. Qed.

Lemma prefixHashes_bounds h cs fs ks :
  prefixHashes h cs fs = Ret ks -> Forall (fun k => 0 <= k < 2 ^ 64) ks.
Proof.
  revert h fs ks. induction cs as [|c cs IH]; intros h fs ks H; simpl in H; [simplify_eq; constructor|].
  destruct fs as [|f fs]; [done|]. apply obind_ret_inv in H as (rest & Hr & H). simplify_eq.
  constructor; [apply hash_bounds|by eapply IH].
Qed.

Definition start_hash (db : TokenProcessorConfig) (parentKey : Z) (modelName : string) : Z :=
  if negb (parentKey =? EmptyBlockHash) then parentKey else hash (initHash db) None (ExtraString modelName).

Lemma keys_text db parent tokens model :
  TokensToKVBlockKeys db parent tokens model None
  = prefixHashes (start_hash db parent model) (chunkTokens (BlockSize db) tokens)
      (text_only (chunkTokens (BlockSize db) tokens)).
Proof. unfold TokensToKVBlockKeys. fold (start_hash db parent model). by destruct (chunkTokens _ _). Qed.

(** ** Properties *)

(** C39: tokens are cut into exactly as many blocks as fit, each of the block
    size, which together are the longest prefix of whole blocks; the rest is
    dropped and the loop ends. *)
Theorem chunks_tile size (tokens : list Z) :
  0 < size ->
  let n := Z.to_nat size in
  mjoin (chunkTokens size tokens) = take (length tokens / n * n) tokens /\
  length (chunkTokens size tokens) = (length tokens / n)%nat /\
  Forall (fun c => length c = n) (chunkTokens size tokens).
Proof.
  intros Hs n. assert (size = Z.of_nat n) as Hsize by (unfold n; lia).
  assert (0 < n)%nat as Hn by lia. clearbody n. subst size.
  destruct (chunks_split n tokens Hn) as (Ha & _ & ->).
  destruct (chunks_full n (length tokens / n) _ Hn Ha) as (H1 & H2 & H3). done.
Qed.

(** C27: the keys of a prompt of text are 64-bit numbers, one per whole block, and
    a prompt that extends another shares its keys: the keys of the shorter one
    are a prefix of the keys of the longer one.  No call on text fails. *)
Theorem keys_of_prefix db parent tokens more model :
  0 < BlockSize db ->
  exists ks ks', TokensToKVBlockKeys db parent tokens model None = Ret ks /\
    TokensToKVBlockKeys db parent (tokens ++ more) model None = Ret ks' /\
    ks `prefix_of` ks' /\ length ks = (length tokens / Z.to_nat (BlockSize db))%nat /\
    Forall (fun k => 0 <= k < 2 ^ 64) ks'.
Proof.
  intros Hb. rewrite !keys_text. set (n := Z.to_nat (BlockSize db)).
  assert (BlockSize db = Z.of_nat n) as -> by (unfold n; lia). assert (0 < n)%nat as Hn by lia.
  destruct (chunks_split n tokens Hn) as (Ha & _ & Hc). set (a := take _ _) in *.
  assert (chunkTokens (Z.of_nat n) (tokens ++ more)
    = chunkTokens (Z.of_nat n) tokens ++ chunkTokens (Z.of_nat n) (drop (length tokens / n * n) tokens ++ more)) as E.
  { rewrite Hc. rewrite <- (take_drop (length tokens / n * n) tokens) at 1. fold a.
    rewrite <- app_assoc. by rewrite (chunks_app n (length tokens / n)). }
  destruct (chunks_full n (length tokens / n) a Hn Ha) as (_ & Hlen & _). rewrite <- Hc in Hlen.
  set (cs := chunkTokens (Z.of_nat n) tokens) in *.
  destruct (prefixHashes_ret (start_hash db parent model) cs (text_only cs)) as (ks & Hks & Hkl);
    [unfold text_only; by rewrite length_replicate|].
  rewrite E. set (cs2 := chunkTokens _ (drop _ _ ++ more)).
  assert (text_only (cs ++ cs2) = text_only cs ++ text_only cs2) as ->
    by (unfold text_only; by rewrite length_app, replicate_add).
  rewrite prefixHashes_app, Hks by (unfold text_only; by rewrite length_replicate). cbn [obind].
  destruct (prefixHashes_ret (default (start_hash db parent model) (last ks)) cs2 (text_only cs2))
    as (ks2 & Hk2 & _); [unfold text_only; by rewrite length_replicate|].
  rewrite Hk2. cbn [obind]. exists ks, (ks ++ ks2).
  split_and!; [done|done|by apply prefix_app_r|congruence|].
  apply Forall_app. split; by eapply prefixHashes_bounds.
Qed.

(** Keys can be computed in steps: when the first part of a prompt is whole
    blocks, the keys of the rest, computed from the last key of the first part
    instead of the model name, continue the keys of the whole; the one exception
    is a last key of 0, which the code takes for no parent at all. *)
Theorem keys_continue db parent first rest model model' k :
  0 < BlockSize db -> (Z.to_nat (BlockSize db) | length first)%nat ->
  forall ks, TokensToKVBlockKeys db parent first model None = Ret ks ->
  last ks = Some k -> k <> EmptyBlockHash ->
  TokensToKVBlockKeys db parent (first ++ rest) model None
  = let* ks2 := TokensToKVBlockKeys db k rest model' None in Ret (ks ++ ks2).
Proof.
  intros Hb [q Hq] ks. rewrite !keys_text. set (n := Z.to_nat (BlockSize db)) in *.
  assert (BlockSize db = Z.of_nat n) as -> by (unfold n; lia). intros Hks Hl Hk.
  rewrite (chunks_app n q) by (done || lia).
  set (cs := chunkTokens (Z.of_nat n) first) in *. set (cs2 := chunkTokens (Z.of_nat n) rest).
  assert (text_only (cs ++ cs2) = text_only cs ++ text_only cs2) as ->
    by (unfold text_only; by rewrite length_app, replicate_add).
  rewrite prefixHashes_app, Hks by (unfold text_only; by rewrite length_replicate). cbn [obind].
  rewrite Hl. cbn [default]. unfold start_hash at 1.
  by rewrite (proj2 (Z.eqb_neq _ _)).
Qed.

(** When the database and the keys are refused: a database exactly for a
    block size that is not positive or an encoder that cannot be built, and it
    caches a non-zero seed hash once; keys exactly when extra features are given
    for at least one block and their number differs from the blocks. *)
Theorem token_errors config db parent tokens model features :
  (forall e, NewChunkedTokenDatabase config = Err e <->
     (BlockSize (default DefaultTokenProcessorConfig config) <= 0 /\
      e = BadBlockSize (BlockSize (default DefaultTokenProcessorConfig config))) \/
     (0 < BlockSize (default DefaultTokenProcessorConfig config) /\ cbor_mode_ok = false /\ e = EncoderFailed)) /\
  (forall d, NewChunkedTokenDatabase config = Ret d ->
     0 < BlockSize d /\
     initHash d = let c := default DefaultTokenProcessorConfig config in
                  if initHash c =? 0 then fnv64a (HashSeed c) else initHash c) /\
  (forall e, TokensToKVBlockKeys db parent tokens model features = Err e <->
     e = FeatureLengthMismatch /\ exists fs, features = Some fs /\
       chunkTokens (BlockSize db) tokens <> [] /\ length fs <> length (chunkTokens (BlockSize db) tokens)) /\
  (forall p, TokensToKVBlockKeys db parent tokens model features <> Panic p).
Proof.
  split_and!.
  - intros e. unfold NewChunkedTokenDatabase. set (c := default _ config).
    destruct (Z.leb_spec (BlockSize c) 0); [split; [intros; simplify_eq; auto|intros [[_ ->]|[? _]]; [done|lia]]|].
    destruct cbor_mode_ok; split; intros He; simplify_eq; try (destruct He as [[? _]|(_ & ? & _)]; [lia|done]); auto.
    destruct He as [[? _]|(_ & _ & ->)]; [lia|done].
  - intros d. unfold NewChunkedTokenDatabase. set (c := default _ config).
    destruct (Z.leb_spec (BlockSize c) 0); [done|].
    destruct cbor_mode_ok; [|done]. intros Hd. simplify_eq.
    by destruct (initHash c =? 0).
  - intros e. unfold TokensToKVBlockKeys. set (h := if negb _ then _ else _).
    destruct (chunkTokens (BlockSize db) tokens) as [|c cs]; [naive_solver|].
    destruct features as [fs|].
    + destruct (Nat.eqb_spec (length fs) (length (c :: cs))) as [Heq|Hne]; cbn [negb].
      * destruct (prefixHashes_ret h (c :: cs) fs ltac:(lia)) as (ks & -> & _).
        split; [done|]. intros (_ & fs' & ? & _ & ?). simplify_eq.
      * split; [intros; simplify_eq; eauto 6|]. by intros [-> _].
    + destruct (prefixHashes_ret h (c :: cs) (replicate (length (c :: cs)) None)) as (ks & -> & _);
        [by rewrite length_replicate|]. split; [done|]. by intros (_ & fs' & ? & _).
  - intros p. unfold TokensToKVBlockKeys. set (h := if negb _ then _ else _).
    destruct (chunkTokens (BlockSize db) tokens) as [|c cs]; [done|]. destruct features as [fs|].
    + destruct (Nat.eqb_spec (length fs) (length (c :: cs))) as [Heq|Hne]; cbn [negb]; [|done].
      by destruct (prefixHashes_ret h (c :: cs) fs ltac:(lia)) as (ks & -> & _).
    + by destruct (prefixHashes_ret h (c :: cs) (replicate (length (c :: cs)) None)) as (ks & -> & _);
        [by rewrite length_replicate|].
Qed.

End TokenProperties.

(** ** Subscribers

    manager.go.  A subscriber runs in a goroutine under a context of its own;
    [live] holds the contexts that were started and not cancelled. *)

Record subscriberEntry := { sub_ctx : nat; sub_endpoint : string; sub_topic : string }.

Record SubscriberManager := {
  subscribers : gmap string subscriberEntry;
  live : gset nat;
  next_ctx : nat
}.

Definition NewSubscriberManager : SubscriberManager :=
  {| subscribers := ∅; live := ∅; next_ctx := 0 |}.

(** [entry.cancel()] and the [delete]. *)
Definition removeSubscriber (podIdentifier : string) (entry : subscriberEntry)
    (manager : SubscriberManager) : SubscriberManager :=
  {| subscribers := delete podIdentifier (subscribers manager);
     live := live manager ∖ {[sub_ctx entry]};
     next_ctx := next_ctx manager |}.

Definition startSubscriber (podIdentifier endpoint topicFilter : string)
    (manager : SubscriberManager) : SubscriberManager :=
  let c := next_ctx manager in
  {| subscribers := <[podIdentifier := {| sub_ctx := c; sub_endpoint := endpoint; sub_topic := topicFilter |}]>
                      (subscribers manager);
     live := live manager ∪ {[c]};
     next_ctx := S c |}.

Definition CreateOrUpdateSubscriber (podIdentifier endpoint topicFilter : string)
    (manager : SubscriberManager) : SubscriberManager :=
  match subscribers manager !! podIdentifier with
  | Some entry =>
      if bool_decide (sub_endpoint entry = endpoint) then manager
      else startSubscriber podIdentifier endpoint topicFilter (removeSubscriber podIdentifier entry manager)
  | None => startSubscriber podIdentifier endpoint topicFilter manager
  end.

(** A sequence of calls: pod, endpoint, topic. *)
Definition runSubscribers (calls : list (string * string * string)) (manager : SubscriberManager)
    : SubscriberManager :=
  foldl (fun m c => CreateOrUpdateSubscriber c.1.1 c.1.2 c.2 m) manager calls.

(** The live contexts are those of the entries, one each. *)
Definition manager_ok (m : SubscriberManager) : Prop :=
  (forall c, c ∈ live m <-> exists p e, subscribers m !! p = Some e /\ sub_ctx e = c) /\
  (forall p q e e', subscribers m !! p = Some e -> subscribers m !! q = Some e' ->
     sub_ctx e = sub_ctx e' -> p = q) /\
  (forall p e, subscribers m !! p = Some e -> (sub_ctx e < next_ctx m)%nat).

Lemma removeSubscriber_ok p e m :
  manager_ok m -> subscribers m !! p = Some e -> manager_ok (removeSubscriber p e m).
Proof.
  intros (Hl & Hi & Hn) Hp. split_and!; simpl.
  - intros c. rewrite elem_of_difference, elem_of_singleton, Hl. split.
    + intros [(q & e' & Hq & <-) Hne]. exists q, e'. split; [|done].
      rewrite lookup_delete_ne; [done|]. intros <-. congruence.
    + intros (q & e' & [Hne Hq]%lookup_delete_Some & <-). split; [eauto|].
      intros Hc. apply Hne. symmetry. by eapply Hi.
  - intros q r e1 e2 [_ H1]%lookup_delete_Some [_ H2]%lookup_delete_Some. by eapply Hi.
  - intros q e' [_ Hq]%lookup_delete_Some. by eapply Hn.
Qed.

Lemma startSubscriber_ok p ep t m :
  manager_ok m -> subscribers m !! p = None -> manager_ok (startSubscriber p ep t m).
Proof.
  intros (Hl & Hi & Hn) Hp. split_and!; simpl.
  - intros c. rewrite elem_of_union, elem_of_singleton, Hl. split.
    + intros [(q & e' & Hq & <-)| ->].
      * exists q, e'. split; [|done]. rewrite lookup_insert_ne; [done|]. intros <-. congruence.
      * eexists p, _. by rewrite lookup_insert_eq.
    + intros (q & e' & [[<- <-]|[Hne Hq]]%lookup_insert_Some & <-); [by right|left; eauto].
  - intros q r e1 e2 [[<- <-]|[Hq Hq']]%lookup_insert_Some [[<- <-]|[Hr Hr']]%lookup_insert_Some Hc;
      simpl in *; [done| | |by eapply Hi].
    + apply Hn in Hr'. lia.
    + apply Hn in Hq'. lia.
  - intros q e' [[<- <-]|[Hq Hq']]%lookup_insert_Some; simpl; [lia|]. apply Hn in Hq'. lia.
Qed.

Lemma CreateOrUpdateSubscriber_ok p ep t m :
  manager_ok m -> manager_ok (CreateOrUpdateSubscriber p ep t m).
Proof.
  intros Hok. unfold CreateOrUpdateSubscriber. destruct (subscribers m !! p) as [e|] eqn:E.
  - case_bool_decide; [done|]. apply startSubscriber_ok; [by apply removeSubscriber_ok|].
    apply lookup_delete_eq.
  - by apply startSubscriber_ok.
Qed.

(** After any sequence of calls every pod has at most one subscriber running:
    the contexts that are alive are exactly those of the map's entries, one for
    each; after a call the pod's subscriber has the requested endpoint, the
    others are untouched, and repeating the call changes nothing (a new topic for
    the same endpoint is ignored). *)
Theorem one_subscriber_per_pod calls pod endpoint topic topic' :
  let m := runSubscribers calls NewSubscriberManager in
  let m' := CreateOrUpdateSubscriber pod endpoint topic m in
  manager_ok m' /\
  (exists e, subscribers m' !! pod = Some e /\ sub_endpoint e = endpoint /\ sub_ctx e ∈ live m') /\
  (forall q, q <> pod -> subscribers m' !! q = subscribers m !! q) /\
  CreateOrUpdateSubscriber pod endpoint topic' m' = m'.
Proof.
  intros m m'.
  assert (manager_ok m) as Hm.
  { unfold m, runSubscribers. assert (manager_ok NewSubscriberManager) as H0.
    { split_and!; simpl; [set_solver by (eexists; done)| |]; intros; simplify_map_eq. }
    revert H0. generalize NewSubscriberManager. induction calls as [|c calls IH]; intros m0 H0; [done|].
    simpl. apply IH. by apply CreateOrUpdateSubscriber_ok. }
  pose proof (CreateOrUpdateSubscriber_ok pod endpoint topic m Hm) as Hm'. fold m' in Hm'.
  assert (exists e, subscribers m' !! pod = Some e /\ sub_endpoint e = endpoint) as (e & He & Hep).
  { unfold m', CreateOrUpdateSubscriber. destruct (subscribers m !! pod) as [e|] eqn:E.
    - case_bool_decide; [eauto|]. simpl. rewrite lookup_insert_eq. eauto.
    - simpl. rewrite lookup_insert_eq. eauto. }
  split_and!; [done| | |].
  - exists e. split_and!; [done|done|]. apply Hm'. eauto.
  - intros q Hq. unfold m', CreateOrUpdateSubscriber.
    destruct (subscribers m !! pod) as [e0|]; [case_bool_decide; [done|]|]; simpl;
      rewrite lookup_insert_ne by done; [by rewrite lookup_delete_ne|done].
  - unfold CreateOrUpdateSubscriber at 1. rewrite He. by rewrite bool_decide_eq_true_2.
Qed.

(** ** Witnesses *)

#[export] Instance cbor_example : CborEncoder | 100 := {|
  cbor_mode_ok := true;
  cbor_marshal p tokens e :=
    Some (itoa p +:+ ";" +:+ join_with "," (itoa <$> default [] tokens)
          +:+ match e with ExtraString s => s | _ => "" end)
|}.

Definition example_db : TokenProcessorConfig :=
  match NewChunkedTokenDatabase (Some {| BlockSize := 2; HashSeed := "12345"; initHash := 0 |}) with
  | Ret d => d
  | _ => DefaultTokenProcessorConfig
  end.

Definition example_keys (tokens : list Z) : list Z :=
  match TokensToKVBlockKeys example_db 0 tokens "m" None with Ret ks => ks | _ => [] end.

Lemma chunks_tile_witness : length (chunkTokens 2 [1; 2; 3; 4; 5]) = 2%nat.
Proof. exact (proj1 (proj2 (chunks_tile 2 [1; 2; 3; 4; 5] eq_refl))). Defined.

Lemma keys_of_prefix_witness :
  exists ks ks', TokensToKVBlockKeys example_db 0 [1; 2; 3] "m" None = Ret ks /\
    TokensToKVBlockKeys example_db 0 ([1; 2; 3] ++ [4; 5]) "m" None = Ret ks' /\ ks `prefix_of` ks'.
Proof.
  destruct (keys_of_prefix example_db 0 [1; 2; 3] [4; 5] "m" eq_refl) as (ks & ks' & H1 & H2 & H3 & _).
  exists ks, ks'. auto.
Defined.

Lemma keys_continue_witness :
  exists ks2, TokensToKVBlockKeys example_db 0 ([1; 2] ++ [3; 4]) "m" None
    = (let* ks := TokensToKVBlockKeys example_db (default 0 (last (example_keys [1; 2]))) [3; 4] "other" None in
       Ret (ks2 ++ ks)).
Proof.
  exists (example_keys [1; 2]).
  apply (keys_continue example_db 0 [1; 2] [3; 4] "m" "other" (default 0 (last (example_keys [1; 2])))).
  - reflexivity.
  - exists 1%nat. reflexivity.
  - vm_compute. reflexivity.
  - vm_compute. reflexivity.
  - vm_compute. discriminate.
Defined.
