(* ===== verification/KvPool.v ===== *)
(** * KvPool: the workers that process KV-cache events

    pkg/epp/scheduling/.../kvcache/kvevents/pool.go: the configuration, the pool
    and the loop of a worker over its work queue, as a step relation interleaved
    with everything else that happens to the queue.  client-go's rate-limited
    queue is a parameter with the documented meaning of "being processed": Get
    never hands out an item that is being processed, and only Done ends that.
    The pool as a whole, with Shutdown, is in KvPoolLife;
    [processEventBatch], which returns nothing, is in KvEvents. *)

From S2P Require Import Prelude GoStd.

Local Open Scope Z_scope.

(** ** Configuration *)

Record PodDiscoveryConfig := { PodLabelSelector : string; PodNamespace : string; SocketPort : Z }.
Record Config := {
  ZMQEndpoint : string; TopicFilter : string; Concurrency : Z; EngineType : string;
  DiscoverPods : bool; cfg_PodDiscovery : option PodDiscoveryConfig
}.

Definition defaultPodSelector : string := "networking.lx1036.ai/inferenceServing=true".

Definition DefaultPodReconcilerConfig : PodDiscoveryConfig :=
  {| PodLabelSelector := defaultPodSelector; PodNamespace := ""; SocketPort := 5557 |}.

Definition DefaultConfig : Config :=
  {| ZMQEndpoint := ""; TopicFilter := "kv@"; Concurrency := 4; EngineType := ""; DiscoverPods := true;
     cfg_PodDiscovery := Some DefaultPodReconcilerConfig |}.

(** ** The queue *)

Inductive got (T Q : Type) := GotTask (t : T) (q : Q) | GotShutdown (q : Q).
Arguments GotTask {T Q} t q.
Arguments GotShutdown {T Q} q.

(** [q_get] blocks on [None]; [q_other] is any change that is not the worker's:
    additions, the timers of the rate limiter, a shutdown. *)
Class WorkQueue (T Q : Type) := {
  NewQueue : Q;
  q_get : Q -> option (got T Q);
  q_add_rate_limited : T -> Q -> Q;
  q_forget : T -> Q -> Q;
  q_done : T -> Q -> Q;
  q_other : Q -> Q -> Prop;
  processing : Q -> T -> Prop
}.

Class WorkQueueLaws {T Q : Type} (WQ : WorkQueue T Q) := {
  new_processing : forall t, ~ processing NewQueue t;
  get_processing : forall q t q', q_get q = Some (GotTask t q') ->
    ~ processing q t /\ forall u, processing q' u <-> u = t \/ processing q u;
  shutdown_processing : forall q q' u, q_get q = Some (GotShutdown q') -> (processing q' u <-> processing q u);
  add_processing : forall q t u, processing (q_add_rate_limited t q) u <-> processing q u;
  forget_processing : forall q t u, processing (q_forget t q) u <-> processing q u;
  done_processing : forall q t u, processing (q_done t q) u <-> u <> t /\ processing q u;
  other_processing : forall q q' u, q_other q q' -> (processing q' u <-> processing q u)
}.

Section Pool.
Context {T Q : Type} {WQ : WorkQueue T Q}.

(** ** The pool

    An adapter parses a message, or fails. *)
Record Pool := { queues : list Q; concurrency : Z; adapter : option (T -> string + unit) }.

(** The adapter that is passed in is not stored. *)
Definition NewPool (cfg : option Config) (adapter : option (T -> string + unit)) : outcome string Pool :=
  let cfg := default DefaultConfig cfg in
  if Concurrency cfg <? 0 then Panic IndexOutOfRange
  else Ret {| queues := repeat NewQueue (Z.to_nat (Concurrency cfg)); concurrency := Concurrency cfg; adapter := None |}.

(** The workers that are started, by index. *)
Definition Start (pool : Pool) : list nat := seq 0 (Z.to_nat (concurrency pool)).

Definition processTask (pool : Pool) (task : T) : outcome string unit :=
  match adapter pool with
  | None => Panic NilDereference
  | Some parse => match parse task with inl err => Err err | inr _ => Ret tt end
  end.

(** ** A worker

    Where it is, its queue, and the tasks it has processed with their results. *)
Inductive worker_pc := AtGet | AtProcess (task : T) | AtCheck | Returned | Crashed.

Record worker := { w_pc : worker_pc; w_queue : Q; w_log : list (T * bool) }.

Inductive worker_step (pool : Pool) : worker -> worker -> Prop :=
| step_other pc q q' log :
    q_other q q' -> worker_step pool {| w_pc := pc; w_queue := q; w_log := log |}
                                     {| w_pc := pc; w_queue := q'; w_log := log |}
| step_get q q' log t :
    q_get q = Some (GotTask t q') ->
    worker_step pool {| w_pc := AtGet; w_queue := q; w_log := log |}
                     {| w_pc := AtProcess t; w_queue := q'; w_log := log |}
| step_shutdown q q' log :
    q_get q = Some (GotShutdown q') ->
    worker_step pool {| w_pc := AtGet; w_queue := q; w_log := log |}
                     {| w_pc := Returned; w_queue := q'; w_log := log |}
| step_failed q log t err :
    processTask pool t = Err err ->
    worker_step pool {| w_pc := AtProcess t; w_queue := q; w_log := log |}
                     {| w_pc := AtGet; w_queue := q_add_rate_limited t q; w_log := log ++ [(t, false)] |}
| step_processed q log t :
    processTask pool t = Ret tt ->
    worker_step pool {| w_pc := AtProcess t; w_queue := q; w_log := log |}
                     {| w_pc := AtCheck; w_queue := q_done t (q_forget t q); w_log := log ++ [(t, true)] |}
| step_panic q log t p :
    processTask pool t = Panic p ->
    worker_step pool {| w_pc := AtProcess t; w_queue := q; w_log := log |}
                     {| w_pc := Crashed; w_queue := q; w_log := log |}
| step_check q log (ctx_done : bool) :
    worker_step pool {| w_pc := AtCheck; w_queue := q; w_log := log |}
                     {| w_pc := if ctx_done then Returned else AtGet; w_queue := q; w_log := log |}.

Definition new_worker (q : Q) : worker := {| w_pc := AtGet; w_queue := q; w_log := [] |}.

(** ** A failed task is lost *)

Section Lost.
Context {WL : WorkQueueLaws WQ}.
Variable pool : Pool.

(** After a failure of a task there is no later entry for it. *)
Definition never_again (log : list (T * bool)) : Prop :=
  forall i t, log !! i = Some (t, false) -> forall j r, (i < j)%nat -> log !! j <> Some (t, r).

Record worker_inv (w : worker) : Prop := {
  wi_failed : forall t, (t, false) ∈ w_log w -> processing (w_queue w) t;
  wi_current : forall t, w_pc w = AtProcess t -> processing (w_queue w) t /\ (t, false) ∉ w_log w;
  wi_log : never_again (w_log w)
}.

Lemma never_again_snoc log t r : never_again log -> (t, false) ∉ log -> never_again (log ++ [(t, r)]).
Proof.
  intros Hn Ht i u Hi j r' Hij Hj. apply lookup_app_Some in Hj as [Hj|[Hl Hj]].
  - apply lookup_app_Some in Hi as [Hi|[Hi _]]; [by eapply Hn|]. apply lookup_lt_Some in Hj. lia.
  - apply list_lookup_singleton_Some in Hj as [Hj [= <- <-]].
    apply lookup_app_Some in Hi as [Hi|[Hi Hi2]]; [|lia]. apply Ht. by eapply list_elem_of_lookup_2.
Qed.

Lemma worker_inv_step w w' : worker_step pool w w' -> worker_inv w -> worker_inv w'.
Proof.
  intros Hs [I1 I2 I3]. destruct Hs; cbn [w_pc w_queue w_log] in *.
  - split; cbn [w_pc w_queue w_log]; [| |done].
    + intros u Hu. rewrite other_processing by done. by apply I1.
    + intros u Hu. rewrite other_processing by done. by apply I2.
  - destruct (get_processing _ _ _ H) as [Hn Hp]. split; cbn [w_pc w_queue w_log]; [| |done].
    + intros u Hu. apply Hp. right. by apply I1.
    + intros u [= <-]. split; [by apply Hp; left|]. intros Hu. by apply Hn, I1.
  - split; cbn [w_pc w_queue w_log]; [|done|done].
    intros u Hu. rewrite shutdown_processing by done. by apply I1.
  - destruct (I2 t eq_refl) as [Hp Hn]. split; cbn [w_pc w_queue w_log]; [|done|by apply never_again_snoc].
    intros u [Hu|[= ->]%list_elem_of_singleton]%elem_of_app; rewrite add_processing; [by apply I1|done].
  - destruct (I2 t eq_refl) as [Hp Hn]. split; cbn [w_pc w_queue w_log]; [|done|by apply never_again_snoc].
    intros u [Hu|[=]%list_elem_of_singleton]%elem_of_app.
    rewrite done_processing, forget_processing. split; [by intros ->|by apply I1].
  - by split.
  - split; cbn [w_pc w_queue w_log]; [done| |done]. by destruct ctx_done.
Qed.

Lemma worker_inv_reachable w : rtc (worker_step pool) (new_worker NewQueue) w -> worker_inv w.
Proof.
  intros Hr. remember (new_worker NewQueue) as w0 eqn:E.
  assert (worker_inv w0) as H0.
  { subst. split; [by intros ? ?%not_elem_of_nil|done|by intros ?? ?]. }
  clear E. induction Hr as [|w1 w2 w3 Hs _ IH]; [done|]. by apply IH, (worker_inv_step w1).
Qed.

(** C38: a failed task is never retried.  A worker puts a task whose processing
    failed back with a delay but never says that it is done with it, so in every
    interleaving with additions, timers and shutdowns the task stays marked as
    being processed, and the worker never gets it again: the log has no entry for
    it after its failure. *)
Theorem failed_task_lost w i t :
  rtc (worker_step pool) (new_worker NewQueue) w ->
  w_log w !! i = Some (t, false) ->
  processing (w_queue w) t /\ (forall j r, (i < j)%nat -> w_log w !! j <> Some (t, r)).
Proof.
  intros [I1 I2 I3]%worker_inv_reachable Hi. split; [by apply I1; eapply list_elem_of_lookup_2|].
  intros j r Hj. by eapply I3.
Qed.

End Lost.

(** A pool of [NewPool] has no adapter, so its first task panics. *)
Lemma new_pool_panics cfg a pool t : NewPool cfg a = Ret pool -> processTask pool t = Panic NilDereference.
Proof. unfold NewPool. destruct (Concurrency _ <? 0); [done|]. by intros [= <-]. Qed.

(** One worker for each queue. *)
Lemma new_pool_workers cfg a pool :
  NewPool cfg a = Ret pool -> Start pool = seq 0 (length (queues pool)).
Proof. unfold NewPool. destruct (Concurrency _ <? 0); [done|]. intros [= <-]. cbn. by rewrite repeat_length. Qed.

End Pool.

(** ** A queue to compute with

    The tasks waiting, those being processed, and those added meanwhile. *)
Record list_queue := { lq_waiting : list string; lq_processing : list string; lq_dirty : list string }.

Definition lq_add (t : string) (q : list_queue) : list_queue :=
  if bool_decide (t ∈ lq_processing q)
  then {| lq_waiting := lq_waiting q; lq_processing := lq_processing q; lq_dirty := t :: lq_dirty q |}
  else {| lq_waiting := lq_waiting q ++ [t]; lq_processing := lq_processing q; lq_dirty := lq_dirty q |}.

#[local] Instance list_work_queue : WorkQueue string list_queue := {|
  NewQueue := {| lq_waiting := []; lq_processing := []; lq_dirty := [] |};
  q_get q := match filter (fun t => t ∉ lq_processing q) (lq_waiting q) with
             | [] => None
             | t :: rest => Some (GotTask t {| lq_waiting := rest; lq_processing := t :: lq_processing q;
                                               lq_dirty := lq_dirty q |})
             end;
  q_add_rate_limited := lq_add;
  q_forget _ q := q;
  q_done t q := {| lq_waiting := lq_waiting q ++ filter (fun u => u = t) (lq_dirty q);
                   lq_processing := filter (fun u => u <> t) (lq_processing q);
                   lq_dirty := filter (fun u => u <> t) (lq_dirty q) |};
  q_other q q' := exists t, q' = lq_add t q;
  processing q t := t ∈ lq_processing q
|}.

Lemma lq_add_processing t q u : u ∈ lq_processing (lq_add t q) <-> u ∈ lq_processing q.
Proof. unfold lq_add. by destruct (bool_decide _). Qed.

#[local] Instance list_work_queue_laws : WorkQueueLaws list_work_queue.
Proof.
  split.
  - intros t. apply not_elem_of_nil.
  - intros q t q'. cbn. destruct (filter _ (lq_waiting q)) as [|t' rest] eqn:Hf; [done|]. intros [= <- <-]. split.
    + assert (t' ∈ filter (fun t => t ∉ lq_processing q) (lq_waiting q)) as H by (rewrite Hf; by left).
      by apply list_elem_of_filter in H as [].
    + intros u. cbn. by rewrite elem_of_cons.
  - intros q q' u. cbn. by destruct (filter _ (lq_waiting q)).
  - intros. apply lq_add_processing.
  - done.
  - intros q t u. cbn. by rewrite list_elem_of_filter.
  - intros q q' u [t ->]. apply lq_add_processing.
Defined.

Definition failing_pool : Pool (T := string) (Q := list_queue) :=
  {| queues := [NewQueue]; concurrency := 1; adapter := Some (fun _ => inl "bad topic"%string) |}.

Definition after_failure : worker :=
  {| w_pc := AtGet; w_queue := {| lq_waiting := []; lq_processing := ["m"%string]; lq_dirty := ["m"%string] |};
     w_log := [("m"%string, false)] |}.

Lemma failed_task_lost_witness :
  processing (w_queue after_failure) "m"%string /\
  forall j r, (0 < j)%nat -> w_log after_failure !! j <> Some ("m"%string, r).
Proof.
  apply (failed_task_lost failing_pool after_failure 0 "m"%string); [|done].
  eapply rtc_l; [apply step_other; by exists "m"%string|].
  eapply rtc_l; [by apply step_get; vm_compute|].
  eapply rtc_l; [by eapply step_failed|]. apply rtc_refl.
Defined.
