(* ===== verification/KvPoolLife.v ===== *)
(** * KvPoolLife: the life of the pool of workers

    pkg/epp/scheduling/.../kvcache/kvevents/pool.go: Start, the wait group, the
    cancellation of the context and Shutdown, as a step relation of the whole pool
    over the workers of KvPool and one caller of Shutdown.  The queues' ShutDown is
    a parameter with its documented meaning: a queue that is shutting down stays
    so, hands out what it still holds, and then answers Get without blocking. *)

From stdpp Require Import list_numbers.
From S2P Require Import Prelude GoStd KvPool.

Local Open Scope Z_scope.

(** ** Shutting a queue down

    [q_pending] counts the items that a queue may still hand out. *)
Class QueueShutdown (T Q : Type) := { q_shutdown : Q -> Q; shutting_down : Q -> Prop; q_pending : Q -> nat }.

Class QueueShutdownLaws {T Q} (WQ : WorkQueue T Q) (QS : QueueShutdown T Q) := {
  shutdown_shutting q : shutting_down (q_shutdown q);
  get_answers q : shutting_down q -> q_get q <> None;
  get_takes q t q' : shutting_down q -> q_get q = Some (GotTask t q') ->
    shutting_down q' /\ (q_pending q' < q_pending q)%nat;
  get_shutdown_keeps q q' : shutting_down q -> q_get q = Some (GotShutdown q') ->
    shutting_down q' /\ (q_pending q' <= q_pending q)%nat;
  add_refused q t : shutting_down q ->
    shutting_down (q_add_rate_limited t q) /\ (q_pending (q_add_rate_limited t q) <= q_pending q)%nat;
  done_keeps q t : shutting_down q ->
    shutting_down (q_done t (q_forget t q)) /\ (q_pending (q_done t (q_forget t q)) <= q_pending q)%nat;
  other_keeps q q' : shutting_down q -> q_other q q' -> shutting_down q' /\ (q_pending q' <= q_pending q)%nat
}.

(** Replacing one element of a list changes a sum by that element. *)
Lemma sum_list_insert {A} (f : A -> nat) l i x y :
  l !! i = Some x -> (sum_list_with f (<[i := y]> l) + f x = sum_list_with f l + f y)%nat.
Proof.
  revert i. induction l as [|z l IH]; intros [|i] Hi; simplify_eq/=; [lia|]. specialize (IH i Hi). lia.
Qed.

Section Life.
Context {T Q : Type} {WQ : WorkQueue T Q} {QS : QueueShutdown T Q}.

(** ** States *)

(** Where Shutdown is: closing the queues one after the other, waiting for the
    group, or finished. *)
Inductive shutdown_pc := NotCalled | Closing (i : nat) | Waiting | Finished.

Record pool_state := {
  ps_workers : list (worker (T := T) (Q := Q));
  ps_wg : Z;
  ps_cancelled : bool;
  ps_shutdown : shutdown_pc
}.

(** After Start: the group has the pool's concurrency, and each index a worker. *)
Definition started (pool : Pool (T := T) (Q := Q)) : pool_state :=
  {| ps_workers := new_worker <$> take (length (Start pool)) (queues pool);
     ps_wg := concurrency pool; ps_cancelled := false; ps_shutdown := NotCalled |}.

Definition with_worker (i : nat) (w : worker) (s : pool_state) : pool_state :=
  {| ps_workers := <[i := w]> (ps_workers s); ps_wg := ps_wg s; ps_cancelled := ps_cancelled s;
     ps_shutdown := ps_shutdown s |}.

Definition with_shutdown (pc : shutdown_pc) (s : pool_state) : pool_state :=
  {| ps_workers := ps_workers s; ps_wg := ps_wg s; ps_cancelled := ps_cancelled s; ps_shutdown := pc |}.

(** The deferred wg.Done of a worker that returns. *)
Definition wg_done (pc : worker_pc (T := T)) (s : pool_state) : pool_state :=
  match pc with
  | Returned => {| ps_workers := ps_workers s; ps_wg := ps_wg s - 1; ps_cancelled := ps_cancelled s;
                   ps_shutdown := ps_shutdown s |}
  | _ => s
  end.

Definition with_queue (q : Q) (w : worker (T := T) (Q := Q)) : worker :=
  {| w_pc := w_pc w; w_queue := q; w_log := w_log w |}.

Definition is_crashed (w : worker (T := T) (Q := Q)) : bool := match w_pc w with Crashed => true | _ => false end.

(** A panic of a worker that nothing recovers ends the process. *)
Definition alive (s : pool_state) : Prop := forall w, w ∈ ps_workers s -> is_crashed w = false.

(** ** Steps

    [true]: of the workers and of Shutdown; [false]: what others do to the queues,
    the cancellation of the context and the call of Shutdown. *)
Inductive pool_step (pool : Pool) (s : pool_state) : bool -> pool_state -> Prop :=
| ps_work i w w' :
    alive s -> ps_workers s !! i = Some w -> worker_step pool w w' -> w_pc w' <> w_pc w ->
    (w_pc w = AtCheck -> w_pc w' = if ps_cancelled s then Returned else AtGet) ->
    pool_step pool s true (wg_done (w_pc w') (with_worker i w' s))
| ps_close i w :
    alive s -> ps_shutdown s = Closing i -> ps_workers s !! i = Some w ->
    pool_step pool s true (with_shutdown (Closing (S i)) (with_worker i (with_queue (q_shutdown (w_queue w)) w) s))
| ps_closed i :
    alive s -> ps_shutdown s = Closing i -> ps_workers s !! i = None ->
    pool_step pool s true (with_shutdown Waiting s)
| ps_return : alive s -> ps_shutdown s = Waiting -> ps_wg s = 0 -> pool_step pool s true (with_shutdown Finished s)
| ps_other i w q' :
    alive s -> ps_workers s !! i = Some w -> q_other (w_queue w) q' ->
    pool_step pool s false (with_worker i (with_queue q' w) s)
| ps_cancel :
    alive s -> pool_step pool s false {| ps_workers := ps_workers s; ps_wg := ps_wg s; ps_cancelled := true;
                                         ps_shutdown := ps_shutdown s |}
| ps_call : alive s -> ps_shutdown s = NotCalled -> pool_step pool s false (with_shutdown (Closing 0) s).

(** [n] steps of the program, in any interleaving with the others. *)
Inductive runs (pool : Pool) : nat -> pool_state -> pool_state -> Prop :=
| runs_nil s : runs pool 0 s s
| runs_step n s s' s'' b : pool_step pool s b s' -> runs pool n s' s'' -> runs pool (Nat.b2n b + n) s s''.

(** ** Invariant *)

Definition running (w : worker (T := T) (Q := Q)) : nat := match w_pc w with Returned => 0 | _ => 1 end.

Definition queues_closed (s : pool_state) : Prop :=
  forall j w, ps_workers s !! j = Some w ->
    match ps_shutdown s with
    | NotCalled => True
    | Closing i => (j < i)%nat -> shutting_down (w_queue w)
    | Waiting | Finished => shutting_down (w_queue w)
    end.

Record life_inv (s : pool_state) : Prop := {
  li_wg : ps_wg s = Z.of_nat (sum_list_with running (ps_workers s));
  li_closed : queues_closed s;
  li_finished : ps_shutdown s = Finished -> forall w, w ∈ ps_workers s -> w_pc w = Returned
}.

(** What the workers have left to do once every queue is shutting down. *)
Definition pc_work (pc : worker_pc (T := T)) : nat :=
  match pc with AtProcess _ => 3 | AtCheck => 2 | AtGet => 1 | Returned | Crashed => 0 end.
Definition worker_work (w : worker) : nat := 4 * q_pending (w_queue w) + pc_work (w_pc w).
Definition work (s : pool_state) : nat :=
  sum_list_with worker_work (ps_workers s) + match ps_shutdown s with Waiting => 1 | _ => 0 end.

Section Laws.
Context {QL : QueueShutdownLaws WQ QS}.
Variable pool : Pool (T := T) (Q := Q).

(** A step of a worker keeps its queue shutting down and leaves it less to do. *)
Lemma worker_step_closing w w' :
  worker_step pool w w' -> w_pc w' <> w_pc w -> shutting_down (w_queue w) ->
  shutting_down (w_queue w') /\ (worker_work w' < worker_work w)%nat.
Proof.
  unfold worker_work.
  intros [pc q q' log Ho|q q' log t Hg|q q' log Hg|q log t e _|q log t _|q log t p _|q log b] Hne Hd;
    cbn [w_queue w_pc pc_work] in *; [done|..].
  - destruct (get_takes _ _ _ Hd Hg). split; [done|lia].
  - destruct (get_shutdown_keeps _ _ Hd Hg). split; [done|lia].
  - destruct (add_refused q t Hd). split; [done|lia].
  - destruct (done_keeps q t Hd). split; [done|lia].
  - split; [done|lia].
  - split; [done|destruct b; cbn; lia].
Qed.

(** A worker that is to return is still running. *)
Lemma worker_step_running w w' : worker_step pool w w' -> w_pc w' <> w_pc w -> running w = 1%nat.
Proof. by intros []. Qed.

(** A queue that is closed stays closed under any step of its worker. *)
Lemma life_inv_work s i w w' :
  life_inv s -> ps_workers s !! i = Some w -> worker_step pool w w' -> w_pc w' <> w_pc w ->
  life_inv (wg_done (w_pc w') (with_worker i w' s)).
Proof.
  intros [I1 I2 I3] Hi Hs Hne. pose proof (worker_step_running _ _ Hs Hne) as Hr.
  pose proof (sum_list_insert running _ _ _ w' Hi) as Hsum.
  assert (ps_workers (wg_done (w_pc w') (with_worker i w' s)) = <[i := w']> (ps_workers s) /\
    ps_shutdown (wg_done (w_pc w') (with_worker i w' s)) = ps_shutdown s) as [Ew Es] by by destruct (w_pc w').
  split.
  - rewrite Ew. assert (running w' = match w_pc w' with Returned => 0 | _ => 1 end)%nat as Hr' by done.
    destruct (w_pc w'); cbn [wg_done ps_wg with_worker]; lia.
  - unfold queues_closed. rewrite Ew, Es. intros j u Hj. specialize (I2 j).
    destruct (decide (i = j)) as [<-|Hij]; [|rewrite list_lookup_insert_ne in Hj by done; by apply I2].
    rewrite list_lookup_insert_eq in Hj by (by eapply lookup_lt_Some). simplify_eq. specialize (I2 w Hi).
    destruct (ps_shutdown s); [done|intros Hlt; specialize (I2 Hlt)|..]; by apply (worker_step_closing w).
  - rewrite Ew, Es. intros Hf. specialize (I3 Hf w (list_elem_of_lookup_2 _ _ _ Hi)).
    unfold running in Hr. by rewrite I3 in Hr.
Qed.

(** Another state of a queue: of the worker nothing else changes. *)
Lemma life_inv_queue s i w q pc :
  life_inv s -> ps_workers s !! i = Some w -> (shutting_down (w_queue w) -> shutting_down q) ->
  pc = ps_shutdown s \/ (ps_shutdown s = Closing i /\ pc = Closing (S i) /\ shutting_down q) ->
  life_inv (with_shutdown pc (with_worker i (with_queue q w) s)).
Proof.
  intros [I1 I2 I3] Hi Hk Hpc. pose proof (sum_list_insert running _ _ _ (with_queue q w) Hi) as Hsum.
  change (running (with_queue q w)) with (running w) in Hsum.
  split; cbn [with_shutdown with_worker ps_wg ps_workers ps_shutdown]; [lia| |].
  - intros j u Hj. cbn [with_shutdown with_worker ps_workers ps_shutdown] in *. pose proof (I2 j) as Ij.
    destruct (decide (i = j)) as [<-|Hij].
    + rewrite list_lookup_insert_eq in Hj by (by eapply lookup_lt_Some). simplify_eq. specialize (Ij w Hi).
      destruct Hpc as [->|(Hs & -> & Hq)]; [|done]. destruct (ps_shutdown s); naive_solver.
    + rewrite list_lookup_insert_ne in Hj by done. specialize (Ij u Hj).
      destruct Hpc as [->|(Hs & -> & Hq)]; [done|]. rewrite Hs in Ij. intros Hlt. apply Ij. lia.
  - intros Hf u Hu. destruct Hpc as [->|(_ & -> & _)]; [|done].
    apply list_elem_of_lookup_1 in Hu as [j Hj]. destruct (decide (i = j)) as [<-|Hij].
    + rewrite list_lookup_insert_eq in Hj by (by eapply lookup_lt_Some). simplify_eq.
      apply (I3 Hf w). by eapply list_elem_of_lookup_2.
    + rewrite list_lookup_insert_ne in Hj by done. apply (I3 Hf u). by eapply list_elem_of_lookup_2.
Qed.

(** No worker runs once the group is at zero. *)
Lemma none_running l : sum_list_with running l = 0%nat -> forall w, w ∈ l -> w_pc w = Returned.
Proof.
  induction l as [|w l IH]; cbn; [by intros _ ? ?%not_elem_of_nil|].
  intros H u [->|Hu]%elem_of_cons; [|apply IH; [lia|done]].
  assert (running w = 0%nat) as Hw by lia. unfold running in Hw. by destruct (w_pc w).
Qed.

Lemma life_inv_step s b s' : pool_step pool s b s' -> life_inv s -> life_inv s'.
Proof.
  intros Hs HI. destruct Hs as [i w w' _ Hi Hw Hne _|i w _ Hc Hi|i _ Hc Hi|_ Hw Hz|i w q' _ Hi Ho|_|_ Hn].
  - by eapply life_inv_work.
  - pose proof (shutdown_shutting (w_queue w)). eapply life_inv_queue; [done..|]. by right.
  - destruct HI as [I1 I2 I3]. split; [done| |done]. intros j w Hj. cbn in *. specialize (I2 j w Hj).
    rewrite Hc in I2. apply I2. apply lookup_ge_None in Hi. apply lookup_lt_Some in Hj. lia.
  - destruct HI as [I1 I2 I3]. split; [done| |].
    + intros j w Hj. specialize (I2 j w Hj). by rewrite Hw in I2.
    + intros _. apply none_running. cbn. lia.
  - replace (with_worker i (with_queue q' w) s)
      with (with_shutdown (ps_shutdown s) (with_worker i (with_queue q' w) s)) by by destruct s.
    eapply life_inv_queue; [done|done| |by left]. intros Hd. by apply (other_keeps _ _ Hd).
  - by destruct HI.
  - destruct HI as [I1 I2 I3]. split; [done| |done]. intros j w Hj Hlt. lia.
Qed.

Lemma life_inv_runs n s s' : runs pool n s s' -> life_inv s -> life_inv s'.
Proof. induction 1 as [|n s s' s'' b Hs _ IH]; [done|]. intros HI. by eapply IH, life_inv_step. Qed.

Lemma life_inv_started : concurrency pool = Z.of_nat (length (queues pool)) -> life_inv (started pool).
Proof.
  intros Hc. split; [|by intros ???|done]. cbn. unfold Start. rewrite length_seq, Hc, Nat2Z.id, firstn_all.
  f_equal. clear Hc. induction (queues pool) as [|q l IH]; cbn; [done|]. by rewrite <- IH.
Qed.

(** ** Progress and termination *)

(** A worker that runs on a queue that is shutting down always has a step. *)
Lemma worker_progress (cancelled : bool) (w : worker) :
  shutting_down (w_queue w) -> running w = 1%nat -> is_crashed w = false ->
  exists w', worker_step pool w w' /\ w_pc w' <> w_pc w /\
    (w_pc w = AtCheck -> w_pc w' = if cancelled then Returned else AtGet).
Proof.
  destruct w as [pc q log]. unfold running. cbn. intros Hd Hr Hc. destruct pc as [|t| | |]; try done.
  - destruct (q_get q) as [[t q'|q']|] eqn:Hg; [..|by apply get_answers in Hg].
    + by eexists; split; [by eapply step_get|].
    + by eexists; split; [by eapply step_shutdown|].
  - destruct (processTask pool t) as [[]|e|p] eqn:Hp; eexists;
      (split; [first [by eapply step_processed|by eapply step_failed|by eapply step_panic]|done]).
  - eexists. split; [by apply (step_check _ _ _ cancelled)|]. by destruct cancelled.
Qed.

(** Some worker runs while the group is not at zero. *)
Lemma some_running l : sum_list_with running l <> 0%nat -> exists i w, l !! i = Some w /\ running w = 1%nat.
Proof.
  induction l as [|w l IH]; [done|]. cbn. intros H. destruct (running w) as [|n] eqn:Hr.
  - destruct IH as (i & u & Hi & Hu); [lia|]. by exists (S i), u.
  - exists 0%nat, w. split; [done|]. unfold running in *. by destruct (w_pc w).
Qed.

Lemma shutdown_progress s :
  life_inv s -> alive s -> (exists i, ps_shutdown s = Closing i) \/ ps_shutdown s = Waiting ->
  exists s', pool_step pool s true s'.
Proof.
  intros [I1 I2 _] Ha [[i Hc]|Hw].
  - destruct (ps_workers s !! i) as [w|] eqn:Hi; eexists; [by eapply ps_close|by eapply ps_closed].
  - destruct (decide (sum_list_with running (ps_workers s) = 0%nat)) as [Hz|Hz].
    { eexists. apply ps_return; [done..|lia]. }
    apply some_running in Hz as (i & w & Hi & Hr). specialize (I2 i w Hi). rewrite Hw in I2.
    destruct (worker_progress (ps_cancelled s) w I2 Hr) as (w' & Hs & Hne & Hck).
    { apply Ha. by eapply list_elem_of_lookup_2. }
    eexists. by eapply ps_work.
Qed.

(** Once every queue is closed, each step of the program leaves less to do and no
    other step leaves more. *)
Lemma work_step s b s' :
  pool_step pool s b s' -> life_inv s -> ps_shutdown s = Waiting \/ ps_shutdown s = Finished ->
  (Nat.b2n b + work s' <= work s)%nat /\ (ps_shutdown s' = Waiting \/ ps_shutdown s' = Finished).
Proof.
  intros Hs [I1 I2 _] Hpc.
  assert (forall i w, ps_workers s !! i = Some w -> shutting_down (w_queue w)) as Hd.
  { intros i w Hi. specialize (I2 i w Hi). by destruct Hpc as [E|E]; rewrite E in I2. }
  destruct Hs as [i w w' _ Hi Hw Hne _|i w _ Hc Hi|i _ Hc Hi|_ Hw Hz|i w q' _ Hi Ho|_|_ Hn]; unfold work.
  - destruct (worker_step_closing _ _ Hw Hne (Hd i w Hi)) as [_ Hlt].
    pose proof (sum_list_insert worker_work _ _ _ w' Hi).
    destruct (w_pc w'); cbn; (split; [lia|done]).
  - by destruct Hpc as [E|E]; rewrite E in Hc.
  - by destruct Hpc as [E|E]; rewrite E in Hc.
  - rewrite Hw. cbn. split; [lia|by right].
  - destruct (other_keeps _ _ (Hd i w Hi) Ho) as [_ Hle].
    pose proof (sum_list_insert worker_work _ _ _ (with_queue q' w) Hi) as Hsum.
    unfold worker_work at 2 4 in Hsum. cbn in *. split; [lia|done].
  - cbn. split; [lia|done].
  - by destruct Hpc as [E|E]; rewrite E in Hn.
Qed.

Lemma work_runs n s s' :
  runs pool n s s' -> life_inv s -> ps_shutdown s = Waiting \/ ps_shutdown s = Finished ->
  (n + work s' <= work s)%nat.
Proof.
  induction 1 as [|n s s' s'' b Hs _ IH]; intros HI Hpc; [lia|].
  destruct (work_step _ _ _ Hs HI Hpc) as [Hle Hpc']. specialize (IH (life_inv_step _ _ _ Hs HI) Hpc'). lia.
Qed.

(** C21: Shutdown of a started pool waits for exactly the workers that run, and
    returns.  In every state of every interleaving with producers, timers and the
    cancellation of the context: the wait group counts the workers that have not
    returned; when Shutdown has returned every worker has; while it is at work the
    program can step, unless a worker panicked; and from the moment it waits the
    program makes at most [work] more steps, whatever the others do. *)
Theorem shutdown_returns m s
    (Hpool : concurrency pool = Z.of_nat (length (queues pool))) (Hs : runs pool m (started pool) s) :
  ps_wg s = Z.of_nat (sum_list_with running (ps_workers s)) /\
  (ps_shutdown s = Finished -> forall w, w ∈ ps_workers s -> w_pc w = Returned) /\
  (alive s -> (exists i, ps_shutdown s = Closing i) \/ ps_shutdown s = Waiting -> exists s', pool_step pool s true s') /\
  (ps_shutdown s = Waiting -> forall n s', runs pool n s s' -> (n <= work s)%nat).
Proof.
  pose proof (life_inv_runs _ _ _ Hs (life_inv_started Hpool)) as HI. split_and!.
  - apply HI.
  - apply HI.
  - by apply shutdown_progress.
  - intros Hw n s' Hn. pose proof (work_runs _ _ _ Hn HI (or_introl Hw)). lia.
Qed.

End Laws.

(** The context is read only after a task was processed: its cancellation moves no
    worker that waits for one. *)
Lemma cancel_wakes_nobody (pool : Pool (T := T) (Q := Q)) s s' :
  ps_shutdown s = NotCalled ->
  (forall w, w ∈ ps_workers s -> w_pc w = AtGet /\ q_get (w_queue w) = None) ->
  ~ pool_step pool s true s'.
Proof.
  intros Hn Hw Hs. inversion Hs as [i w w' _ Hi Hst Hne _|i w _ Hc Hi|i _ Hc Hi|_ Hp Hz| | |]; subst; try congruence.
  destruct (Hw w) as [Hpc Hg]; [by eapply list_elem_of_lookup_2|].
  destruct Hst; cbn in *; try done; congruence.
Qed.

End Life.

(** ** A queue to compute with

    KvPool's queue with a flag: closed, it refuses additions, and answers Get once
    it is empty. *)
Definition closing_queue : Type := list_queue * bool.

Definition cq_add (t : string) (q : closing_queue) : closing_queue :=
  if q.2 then q else (lq_add t q.1, q.2).

#[local] Instance closing_work_queue : WorkQueue string closing_queue := {|
  NewQueue := (@NewQueue _ _ list_work_queue, false);
  q_get q := match @q_get _ _ list_work_queue q.1 with
             | Some (GotTask t l) => Some (GotTask t (l, q.2))
             | _ => if q.2 then Some (GotShutdown q) else None
             end;
  q_add_rate_limited := cq_add;
  q_forget _ q := q;
  q_done t q := (@q_done _ _ list_work_queue t q.1, q.2);
  q_other q q' := exists t, q' = cq_add t q;
  processing q t := t ∈ lq_processing q.1
|}.

#[local] Instance closing_shutdown : QueueShutdown string closing_queue := {|
  q_shutdown q := (q.1, true);
  shutting_down q := q.2 = true;
  q_pending q := (length (lq_waiting q.1) + length (lq_dirty q.1))%nat
|}.

Lemma length_filter_le {A} (P : A -> Prop) `{forall x, Decision (P x)} l : (length (filter P l) <= length l)%nat.
Proof. apply sublist_length, sublist_filter. Qed.

Lemma length_filter_split (t : string) l :
  (length (filter (fun u => u = t) l) + length (filter (fun u => u <> t) l) = length l)%nat.
Proof. induction l as [|u l IH]; [done|]. rewrite !filter_cons. repeat case_decide; cbn; naive_solver lia. Qed.

#[local] Instance closing_queue_laws : QueueShutdownLaws closing_work_queue closing_shutdown.
Proof.
  split; cbn; [done|..].
  - intros [l b]; cbn. intros ->. by destruct (filter _ _).
  - intros [l b] t q'; cbn. intros ->. pose proof (length_filter_le (fun t => t ∉ lq_processing l) (lq_waiting l)) as Hf.
    destruct (filter _ _) as [|u rest]; [done|]. intros [= <- <-]. cbn in *. split; [done|lia].
  - intros [l b] q'; cbn. intros ->. destruct (filter _ _); [|done]. by intros [= <-].
  - intros [l b] t; cbn. intros ->. done.
  - intros [l b] t; cbn. intros ->. split; [done|]. rewrite length_app.
    pose proof (length_filter_split t (lq_dirty l)). lia.
  - intros [l b] q'; cbn. intros -> [t ->]. done.
Defined.

Definition example_pool : Pool (T := string) (Q := closing_queue) :=
  {| queues := [NewQueue]; concurrency := 1; adapter := Some (fun _ => inr tt) |}.

(** A message arrived, and Shutdown waits. *)
Definition example_waiting : pool_state (T := string) (Q := closing_queue) :=
  {| ps_workers := [new_worker ({| lq_waiting := ["m"%string]; lq_processing := []; lq_dirty := [] |}, true)];
     ps_wg := 1; ps_cancelled := false; ps_shutdown := Waiting |}.

Lemma shutdown_returns_witness :
  (exists s', pool_step example_pool example_waiting true s') /\
  forall n s', runs example_pool n example_waiting s' -> (n <= 6)%nat.
Proof.
  assert (forall (w : worker (T := string) (Q := closing_queue)) pc wg c, is_crashed w = false -> alive {| ps_workers := [w]; ps_wg := wg; ps_cancelled := c;
    ps_shutdown := pc |}) as Ha by (by intros w pc wg c Hw u ->%list_elem_of_singleton).
  assert (runs example_pool 2 (started example_pool) example_waiting) as Hr.
  { apply (runs_step _ 2 _ (with_worker 0 (new_worker (cq_add "m" NewQueue)) (started example_pool)) _ false).
    { apply (ps_other example_pool (started example_pool) 0 (new_worker NewQueue) (cq_add "m" NewQueue));
        [by apply Ha|done|by exists "m"%string]. }
    eapply (runs_step _ 2 _ _ _ false); [apply ps_call; [by apply Ha|done]|].
    eapply (runs_step _ 1 _ _ _ true); [eapply ps_close; [by apply Ha|done..]|].
    eapply (runs_step _ 0 _ _ _ true); [eapply ps_closed; [by apply Ha|done..]|]. apply runs_nil. }
  destruct (shutdown_returns example_pool 2 example_waiting eq_refl Hr) as (_ & _ & Hp & Hn).
  split; [apply Hp; [by apply Ha|by right]|exact (Hn eq_refl)].
Defined.
