(* ===== verification/KvEvents.v ===== *)
(** * KvEvents: from the engines' messages to the block index

    kvevents/zmq_subscriber.go: the subscriber that receives the three-part
    messages of an inference engine and hands them to the pool, with its retry
    loop; and processEventBatch of kvevents/pool.go, which turns the events of a
    message into keys of the block index.  A run of the subscriber is a function
    of a script: what its socket answers, in order.  ZMQ is not under src/; the
    index and the four names of processEventBatch that no file declares are
    parameters ([EventIndex]). *)

From S2P Require Import Prelude GoStd KvCache KvPool.

Local Open Scope Z_scope.

(** ** Messages *)

Record RawMessage := { Topic : string; Sequence : Z; Payload : string }.

#[export] Instance raw_message_eq_dec : EqDecision RawMessage.
Proof. solve_decision. Defined.

(** [AddTask] looks up the first queue and does nothing with it. *)
Definition AddTask {Q} (pool : Pool (T := RawMessage) (Q := Q)) (task : RawMessage)
    : outcome string (Pool (T := RawMessage) (Q := Q)) :=
  match queues pool with
  | [] => Panic IndexOutOfRange
  | _ :: _ => Ret pool
  end.

(** ** The subscriber *)

Record zmqSubscriber := { zmq_endpoint : string; zmq_remote : bool; zmq_topicFilter : string }.

Definition newZMQSubscriber (endpoint topicFilter : string) (remote : bool) : zmqSubscriber :=
  {| zmq_endpoint := endpoint; zmq_remote := remote; zmq_topicFilter := topicFilter |}.

(** What [Recv] returns: the frames of a message, or an error and whether the
    context was done by then. *)
Inductive recv := RecvFailed (ctx_err : bool) | RecvFrames (parts : list string).

(** The answers of one socket. *)
Record session := { se_opened : bool; se_subscribed : bool; se_received : list recv }.

Inductive socket_call :=
| Listen (endpoint : string)
| Dial (endpoint : string)
| SetSubscribe (topicFilter : string)
| CloseSocket.

(** Where a script leaves the goroutine: blocked in [Recv], returned, or dead. *)
Inductive ended := Blocked | Ended | Died (p : panic).

#[export] Instance ended_eq_dec : EqDecision ended.
Proof. solve_decision. Defined.

Section Subscriber.
Context {Q : Type}.

(** The receiving loop: the messages handed to [AddTask], the pool and the end. *)
Fixpoint receive (pool : Pool (T := RawMessage) (Q := Q)) (rs : list recv)
    : list RawMessage * Pool (T := RawMessage) (Q := Q) * ended :=
  match rs with
  | [] => ([], pool, Blocked)
  | RecvFailed ctx_err :: _ => if ctx_err then ([], pool, Ended) else ([], pool, Ended)
  | RecvFrames parts :: rest =>
      match parts with
      | [topic; seqBytes; payload] =>
          match BigEndian_Uint64 (E := string) seqBytes with
          | Ret seq =>
              let m := {| Topic := topic; Sequence := seq; Payload := payload |} in
              match AddTask pool m with
              | Ret pool' => let '(ms, p, e) := receive pool' rest in (m :: ms, p, e)
              | Panic q => ([m], pool, Died q)
              | Err _ => ([m], pool, Ended)
              end
          | Panic q => ([], pool, Died q)
          | Err _ => ([], pool, Ended)
          end
      | _ => receive pool rest
      end
  end.

(** The deferred [Close] runs on a return and on a panic. *)
Definition close_calls (e : ended) : list socket_call :=
  match e with Blocked => [] | Ended | Died _ => [CloseSocket] end.

Definition runSubscriber (zmq : zmqSubscriber) (pool : Pool (T := RawMessage) (Q := Q)) (s : session)
    : list socket_call * list RawMessage * Pool (T := RawMessage) (Q := Q) * ended :=
  let open := if negb (zmq_remote zmq) then Listen (zmq_endpoint zmq) else Dial (zmq_endpoint zmq) in
  if negb (se_opened s) then ([open; CloseSocket], [], pool, Ended)
  else if negb (se_subscribed s) then ([open; SetSubscribe (zmq_topicFilter zmq); CloseSocket], [], pool, Ended)
  else
    let '(ms, pool, e) := receive pool (se_received s) in
    ([open; SetSubscribe (zmq_topicFilter zmq)] ++ close_calls e, ms, pool, e).

(** One turn of [Start]: whether the context is done at its head, the session,
    and whether the context is done before the five seconds are over. *)
Record attempt := { at_done : bool; at_session : session; at_cancelled : bool }.

Fixpoint zmq_Start (zmq : zmqSubscriber) (pool : Pool (T := RawMessage) (Q := Q)) (ats : list attempt)
    : list RawMessage * Pool (T := RawMessage) (Q := Q) * ended :=
  match ats with
  | [] => ([], pool, Blocked)
  | a :: rest =>
      if at_done a then ([], pool, Ended)
      else
        let '(_, ms, pool, e) := runSubscriber zmq pool (at_session a) in
        match e with
        | Ended =>
            if at_cancelled a then (ms, pool, Ended)
            else let '(ms', p, e') := zmq_Start zmq pool rest in (ms ++ ms', p, e')
        | _ => (ms, pool, e)
        end
  end.

(** ** What comes in

    The format that the comment in the subscriber quotes: topic, the sequence
    number on eight bytes, most significant first, and the payload.  Bytes after
    the eight of the sequence number are not looked at. *)
Definition publish (m : RawMessage) (extra : string) : list string :=
  [Topic m; be_bytes 8 (Sequence m) +:+ extra; Payload m].

Definition wf_message (m : RawMessage) : Prop := 0 <= Sequence m < 2 ^ 64.

(** A message of the engine, or anything that does not have three parts. *)
Definition sent (x : RawMessage * string + list string) : recv :=
  RecvFrames match x with inl (m, extra) => publish m extra | inr parts => parts end.

Definition messages (xs : list (RawMessage * string + list string)) : list RawMessage :=
  omap (fun x => match x with inl (m, _) => Some m | inr _ => None end) xs.

(** What the loop survives: frames that are not three, and, with a queue in the
    pool, the messages. *)
Definition survived (pool : Pool (T := RawMessage) (Q := Q)) (x : RawMessage * string + list string) : Prop :=
  match x with
  | inl (m, _) => wf_message m /\ queues pool <> []
  | inr parts => length parts <> 3%nat
  end.

(** How the loop ends at an answer of the socket, and what it handed over last. *)
Definition ends_with (pool : Pool (T := RawMessage) (Q := Q)) (tail : list recv) (last : list RawMessage)
    (e : ended) : Prop :=
  match tail with
  | [] => e = Blocked /\ last = []
  | RecvFailed _ :: _ => e = Ended /\ last = []
  | RecvFrames parts :: _ =>
      e = Died IndexOutOfRange /\
      ((exists topic b payload, parts = [topic; b; payload] /\ (String.length b < 8)%nat /\ last = []) \/
       (exists m extra, parts = publish m extra /\ wf_message m /\ queues pool = [] /\ last = [m]))
  end.

Lemma AddTask_keeps (pool pool' : Pool (T := RawMessage) (Q := Q)) m : AddTask pool m = Ret pool' -> pool' = pool.
Proof. unfold AddTask. destruct (queues pool); congruence. Qed.

Lemma receive_keeps_pool (pool : Pool (T := RawMessage) (Q := Q)) rs : (receive pool rs).1.2 = pool.
Proof.
  revert pool. induction rs as [|[[]|parts] rs IH]; intros pool; [done..|]. cbn [receive].
  destruct parts as [|t [|b [|p [|]]]]; try apply IH.
  destruct (BigEndian_Uint64 b); [|done..]. destruct (AddTask pool _) eqn:Ha; [|done..].
  apply AddTask_keeps in Ha as ->. specialize (IH pool). by destruct (receive pool rs) as [[??]?].
Qed.

Lemma str_split_at n s :
  (n <= String.length s)%nat -> s = str_take n s +:+ str_drop n s /\ String.length (str_take n s) = n.
Proof.
  revert n. induction s as [|a s IH]; intros [|n] Hn; simpl in *; [done|lia|done|].
  destruct (IH n) as [E L]; [lia|]. rewrite str_app_cons. split; [by rewrite <- E|by rewrite L].
Qed.

Lemma be_bytes_head n z :
  be_bytes (S n) z = String (ascii_of_N (Z.to_N (z / 256 ^ Z.of_nat n mod 256))) (be_bytes n z).
Proof.
  revert z. induction n as [|n IH]; intros z; [cbn; by rewrite Z.div_1_r|].
  change (be_bytes (S (S n)) z) with (be_bytes (S n) (z / 256) +:+ String (ascii_of_N (Z.to_N (z mod 256))) EmptyString).
  rewrite IH, str_app_cons, Z.div_div, <- Z.pow_succ_r, <- Nat2Z.inj_succ by lia. done.
Qed.

Lemma be_value_div a s : be_value a s / 256 ^ Z.of_nat (String.length s) = a.
Proof.
  revert a. induction s as [|c s IH]; intros a; [by rewrite Z.div_1_r|].
  cbn [be_value String.length]. rewrite Nat2Z.inj_succ, Z.pow_succ_r by lia.
  rewrite (Z.mul_comm 256 (256 ^ _)), <- Z.div_div, IH by lia. pose proof (byte_val_bounds c). rewrite Z.mul_comm, Z.div_add_l by lia.
  rewrite Z.div_small by lia. lia.
Qed.

Lemma be_bytes_value a s : be_bytes (String.length s) (be_value a s) = s.
Proof.
  revert a. induction s as [|c s IH]; intros a; [done|]. cbn [String.length be_value].
  rewrite be_bytes_head, be_value_div, IH. f_equal. pose proof (byte_val_bounds c).
  rewrite Z.mul_comm, Z.add_comm, Z.mod_add, Z.mod_small by lia.
  unfold byte_val. by rewrite N2Z.id, ascii_N_embedding.
Qed.

Lemma be_value_bounds s : 0 <= be_value 0 s < 256 ^ Z.of_nat (String.length s).
Proof.
  pose proof (be_value_div 0 s) as H. assert (0 < 256 ^ Z.of_nat (String.length s)) by lia.
  apply Z.div_small_iff in H; lia.
Qed.

(** Three frames are a message of the engine, or the second is too short. *)
Lemma three_frames topic b payload :
  (String.length b < 8)%nat \/ exists m extra, [topic; b; payload] = publish m extra /\ wf_message m.
Proof.
  destruct (decide (String.length b < 8)%nat) as [|Hb]; [by left|right].
  destruct (str_split_at 8 b) as [E L]; [lia|].
  exists {| Topic := topic; Sequence := be_value 0 (str_take 8 b); Payload := payload |}, (str_drop 8 b).
  unfold publish, wf_message. cbn [Topic Sequence Payload]. pose proof (be_value_bounds (str_take 8 b)) as Hv.
  rewrite L in Hv. split; [|done]. rewrite <- L at 1. by rewrite be_bytes_value, <- E.
Qed.

Lemma BigEndian_publish {E} z extra : 0 <= z < 2 ^ 64 -> BigEndian_Uint64 (E := E) (be_bytes 8 z +:+ extra) = Ret z.
Proof.
  intros Hz. unfold BigEndian_Uint64. rewrite str_length_app, be_bytes_length.
  rewrite (proj2 (Nat.ltb_ge _ _)) by lia. rewrite <- (be_bytes_length 8 z) at 1.
  rewrite str_take_app, be_value_bytes; [done|]. cbn. lia.
Qed.

(** Every sequence of answers, cut where the loop ends. *)
Lemma receive_spec (pool : Pool (T := RawMessage) (Q := Q)) rs :
  exists xs tail last e, rs = map sent xs ++ tail /\ Forall (survived pool) xs /\ ends_with pool tail last e /\
    receive pool rs = (messages xs ++ last, pool, e).
Proof.
  induction rs as [|[c|parts] rs (xs & tail & last & e & -> & Hx & He & IH)].
  - by exists [], [], [], Blocked.
  - exists [], (RecvFailed c :: map sent xs ++ tail), [], Ended. split_and!; try done. by destruct c.
  - destruct (decide (length parts = 3%nat)) as [H3|H3].
    + destruct parts as [|topic [|b [|payload [|]]]]; try done. clear H3.
      destruct (three_frames topic b payload) as [Hb|(m & extra & Hm & Hwf)].
      * exists [], (RecvFrames [topic; b; payload] :: map sent xs ++ tail), [], (Died IndexOutOfRange).
        split_and!; try done; [split; [done|]; left; by exists topic, b, payload|].
        cbn [receive]. unfold BigEndian_Uint64. by rewrite (proj2 (Nat.ltb_lt _ _)) by done.
      * rewrite Hm. destruct (decide (queues pool = [])) as [Hq|Hq].
        -- exists [], (RecvFrames (publish m extra) :: map sent xs ++ tail), [m], (Died IndexOutOfRange).
           split_and!; try done; [split; [done|]; right; by exists m, extra|].
           cbn [receive publish]. rewrite BigEndian_publish by done. unfold AddTask. rewrite Hq. by destruct m.
        -- exists (inl (m, extra) :: xs), tail, last, e. split_and!; try done; [by constructor|].
           cbn [receive publish]. rewrite BigEndian_publish by done. unfold AddTask.
           destruct (queues pool) as [|q qs]; [done|]. rewrite IH. by destruct m.
    + exists (inr parts :: xs), tail, last, e. split_and!; try done; [by constructor|].
      cbn [receive]. destruct parts as [|? [|? [|? [|]]]]; try done; apply IH.
Qed.

(** C28: what an engine publishes is what the subscriber decodes.  On a socket
    that opens and accepts the subscription, whatever it receives is cut in two.
    Of the first part, messages of three frames whose second has at least eight
    bytes and anything that has not three frames, exactly the former are handed
    to the pool, in order, each with its topic, the 64-bit number of the first
    eight bytes, and its payload.  Then the script is over and the subscriber
    waits for more, or the socket fails, which ends the session, or the process
    dies: at three frames whose second is shorter than eight bytes, or at the
    first message if the pool has no queue.  The subscriber dials a remote
    endpoint and listens on a local one, subscribes to its topic, and closes the
    socket unless it waits.  The pool is as it was: no message reaches a
    worker. *)
Theorem subscriber_delivers zmq (pool : Pool (T := RawMessage) (Q := Q)) received :
  exists xs tail last e,
    received = map sent xs ++ tail /\ Forall (survived pool) xs /\ ends_with pool tail last e /\
    runSubscriber zmq pool {| se_opened := true; se_subscribed := true; se_received := received |} =
    ([if zmq_remote zmq then Dial (zmq_endpoint zmq) else Listen (zmq_endpoint zmq);
      SetSubscribe (zmq_topicFilter zmq)] ++ (if decide (e = Blocked) then [] else [CloseSocket]),
     messages xs ++ last, pool, e).
Proof.
  destruct (receive_spec pool received) as (xs & tail & last & e & Hr & Hx & He & Hrun).
  exists xs, tail, last, e. split_and!; [done..|]. unfold runSubscriber. cbn [se_opened se_subscribed se_received negb].
  rewrite Hrun. destruct (zmq_remote zmq), e; by rewrite ?decide_True, ?decide_False by done.
Qed.

(** The cut is where it has to be: behind messages it survives, a message whose
    second frame is too short kills the process: nothing recovers the panic of
    the goroutine. *)
Lemma short_sequence_kills (pool : Pool (T := RawMessage) (Q := Q)) xs topic b payload rest :
  Forall (survived pool) xs -> (String.length b < 8)%nat ->
  receive pool (map sent xs ++ RecvFrames [topic; b; payload] :: rest) = (messages xs, pool, Died IndexOutOfRange).
Proof.
  intros Hx Hb. induction Hx as [|[[m extra]|parts] xs Hs _ IH]; cbn [map app].
  - cbn [receive]. unfold BigEndian_Uint64. by rewrite (proj2 (Nat.ltb_lt _ _)) by done.
  - destruct Hs as [Hwf Hq]. cbn [receive sent publish]. rewrite BigEndian_publish by done. unfold AddTask.
    destruct (queues pool); [done|]. rewrite IH. by destruct m.
  - cbn [receive sent survived] in *. destruct parts as [|? [|? [|? [|]]]]; try done; apply IH.
Qed.

(** Through every retry the pool stays as it was. *)
Lemma zmq_Start_keeps_pool zmq (pool : Pool (T := RawMessage) (Q := Q)) ats :
  (zmq_Start zmq pool ats).1.2 = pool.
Proof.
  induction ats as [|a ats IH]; [done|]. cbn [zmq_Start]. destruct (at_done a); [done|].
  unfold runSubscriber. pose proof (receive_keeps_pool pool (se_received (at_session a))) as Hp.
  destruct (se_opened _); [destruct (se_subscribed _)|]; cbn [negb].
  - destruct (receive pool _) as [[ms p] e]. cbn in Hp. subst p.
    destruct e; try done. destruct (at_cancelled a); [done|]. by destruct (zmq_Start zmq pool ats) as [[??]?].
  - destruct (at_cancelled a); [done|]. by destruct (zmq_Start zmq pool ats) as [[??]?].
  - destruct (at_cancelled a); [done|]. by destruct (zmq_Start zmq pool ats) as [[??]?].
Qed.
End Subscriber.

(** ** The events of a message *)

Record BlockStoredEvent := {
  ev_Tokens : list Z; ev_ParentHash : Z; ev_BlockHashes : list Z;
  ev_DeviceTier : string; ev_LoraName : option string
}.

(** A [*BlockStoredEvent], or another implementation of the interface with the
    type it gives. *)
Inductive GenericEvent := StoredEvent (e : BlockStoredEvent) | OtherEvent (ty : string).

Definition EventTypeBlockStored : string := "BlockStored".
Definition EventTypeBlockRemoved : string := "BlockRemoved".
Definition EventTypeAllBlocksCleared : string := "AllBlocksCleared".

Definition event_Type (e : GenericEvent) : string :=
  match e with StoredEvent _ => EventTypeBlockStored | OtherEvent ty => ty end.

Definition defaultEventSourceDeviceTier : string := "GPU".

Definition deviceTier (event : BlockStoredEvent) : string :=
  if bool_decide (ev_DeviceTier event <> "") then ToLower (ev_DeviceTier event)
  else defaultEventSourceDeviceTier.

Definition effectiveModelName (modelName : string) (event : BlockStoredEvent) : string :=
  match ev_LoraName event with
  | Some n => if bool_decide (n <> "") then n else modelName
  | None => modelName
  end.

(** The names of processEventBatch that are declared nowhere, and the index. *)
Class EventIndex (I E : Type) := {
  parentRequestKey : I -> BlockStoredEvent -> Z;
  extraFeatures_of : BlockStoredEvent -> option (list (option BlockExtraFeatures));
  engineKeys_of : BlockStoredEvent -> list Z;
  podEntries_of : string -> string -> E;
  index_Add : I -> list Z -> list Z -> E -> option string * I
}.

Section Batch.
Context {I E : Type} {CB : CborEncoder} {EI : EventIndex I E}.

(** [pool.tokenProcessor.TokensToKVBlockKeys]: on the nil pointer the reads of
    the seed and of the block size panic, and only they. *)
Definition tokenKeys (db : option TokenProcessorConfig) (parentKey : Z) (tokens : list Z) (model : string)
    (features : option (list (option BlockExtraFeatures))) : outcome kv_error (list BlockHash) :=
  match db with
  | Some db => TokensToKVBlockKeys db parentKey tokens model features
  | None =>
      if (parentKey =? EmptyBlockHash) || bool_decide (tokens <> []) then Panic NilDereference else Ret []
  end.

(** One event; an error of the keys or of the index only ends the event. *)
Definition processEvent (db : option TokenProcessorConfig) (podIdentifier modelName : string)
    (index : I) (genericEvent : GenericEvent) : outcome kv_error I :=
  if bool_decide (event_Type genericEvent = EventTypeBlockStored) then
    match genericEvent with
    | OtherEvent _ => Panic TypeAssertion
    | StoredEvent event =>
        match tokenKeys db (parentRequestKey index event) (ev_Tokens event)
                (effectiveModelName modelName event) (extraFeatures_of event) with
        | Panic p => Panic p
        | Err _ => Ret index
        | Ret blockHashes =>
            if (0 <? length (engineKeys_of event))%nat
            then Ret (index_Add index (engineKeys_of event) blockHashes
                        (podEntries_of podIdentifier (deviceTier event))).2
            else Ret index
        end
    end
  else Ret index.

Fixpoint processEventBatch (db : option TokenProcessorConfig) (podIdentifier modelName : string)
    (index : I) (events : list GenericEvent) : outcome kv_error I :=
  match events with
  | [] => Ret index
  | e :: rest =>
      let* index := processEvent db podIdentifier modelName index e in
      processEventBatch db podIdentifier modelName index rest
  end.

Definition is_stored (e : GenericEvent) : bool := bool_decide (event_Type e = EventTypeBlockStored).

(** The index only ever grows.  The events of a batch have the effect of its
    "BlockStored" events alone, in order: a removed block, a cleared cache and an
    unknown event leave every entry where it is.  With a token database the batch
    never fails or panics on the pointers the adapters make: an event whose keys
    cannot be computed, or that the index refuses, is skipped and the next one is
    processed. *)
Theorem removals_ignored db podIdentifier modelName index events :
  processEventBatch db podIdentifier modelName index events =
    processEventBatch db podIdentifier modelName index (filter is_stored events) /\
  ((forall ty, OtherEvent ty ∈ events -> ty <> EventTypeBlockStored) -> is_Some db ->
   exists index', processEventBatch db podIdentifier modelName index events = Ret index').
Proof.
  split.
  - revert index. induction events as [|e events IH]; intros index; [done|].
    rewrite filter_cons. cbn [processEventBatch]. destruct (decide (is_stored e)) as [He|He].
    + cbn [processEventBatch]. destruct (processEvent db podIdentifier modelName index e); [apply IH|done..].
    + apply Is_true_false_1 in He. unfold is_stored in He. unfold processEvent. rewrite He. apply IH.
  - intros Hty [d ->]. revert index. induction events as [|e events IH]; intros index; [by eexists|].
    cbn [processEventBatch].
    assert (exists i, processEvent (Some d) podIdentifier modelName index e = Ret i) as [i ->].
    { unfold processEvent. destruct (bool_decide _) eqn:He; [|by eexists]. destruct e as [event|ty].
      - cbn [tokenKeys]. destruct (TokensToKVBlockKeys d _ _ _ _) eqn:Hk; [|by eexists|].
        + destruct (0 <? _)%nat; by eexists.
        + exfalso. revert Hk. apply token_errors. exact None.
      - exfalso. apply (Hty ty); [by left|]. by apply bool_decide_eq_true in He. }
    cbn [obind]. apply IH. intros ty Ht. apply Hty. by right.
Qed.

End Batch.

(** The tier of an event that names none is not that of an event that names the
    same device. *)
Lemma default_tier_differs e :
  deviceTier {| ev_Tokens := ev_Tokens e; ev_ParentHash := ev_ParentHash e; ev_BlockHashes := ev_BlockHashes e;
                ev_DeviceTier := defaultEventSourceDeviceTier; ev_LoraName := ev_LoraName e |} <>
  deviceTier {| ev_Tokens := ev_Tokens e; ev_ParentHash := ev_ParentHash e; ev_BlockHashes := ev_BlockHashes e;
                ev_DeviceTier := ""; ev_LoraName := ev_LoraName e |}.
Proof. discriminate. Qed.

(** ** On concrete inputs *)

Definition one_queue : Pool (T := RawMessage) (Q := unit) := {| queues := [tt]; concurrency := 1; adapter := None |}.

Definition two_messages : list (RawMessage * string + list string) :=
  [inl ({| Topic := "kv@pod@model"; Sequence := 258; Payload := "p" |}, ""); inr ["kv@"; "hello"];
   inl ({| Topic := "kv@pod@model"; Sequence := 18446744073709551615; Payload := "" |}, "tail")]%string.

Lemma two_messages_delivered :
  runSubscriber (newZMQSubscriber "tcp://10.0.0.1:5557" "kv@" true) one_queue
    {| se_opened := true; se_subscribed := true;
       se_received := map sent two_messages ++ [RecvFrames ["kv@"; "short"; "p"]; RecvFailed false]%string |} =
  ([Dial "tcp://10.0.0.1:5557"; SetSubscribe "kv@"; CloseSocket], messages two_messages, one_queue,
   Died IndexOutOfRange).
Proof. vm_compute. reflexivity. Qed.

(** An index that lists the keys it was given; it refuses an event without a
    parent. *)
#[local] Instance list_index : EventIndex (list (Z * Z)) string := {|
  parentRequestKey _ e := ev_ParentHash e;
  extraFeatures_of _ := None;
  engineKeys_of := ev_BlockHashes;
  podEntries_of pod tier := (pod +:+ "@" +:+ tier)%string;
  index_Add i engine keys _ := (None, i ++ zip engine keys)
|}.

Definition stored_event (tokens hashes : list Z) : GenericEvent :=
  StoredEvent {| ev_Tokens := tokens; ev_ParentHash := 7; ev_BlockHashes := hashes; ev_DeviceTier := "GPU";
                 ev_LoraName := None |}.

Definition event_batch : list GenericEvent :=
  [stored_event [1; 2] [11]; OtherEvent EventTypeBlockRemoved; OtherEvent EventTypeAllBlocksCleared;
   stored_event [3; 4] [12]].

Lemma removals_ignored_witness :
  processEventBatch (Some example_db) "pod" "m" [] event_batch =
    processEventBatch (Some example_db) "pod" "m" [] (filter is_stored event_batch) /\
  exists index', processEventBatch (Some example_db) "pod" "m" [] event_batch = Ret index'.
Proof.
  destruct (removals_ignored (Some example_db) "pod" "m" [] event_batch) as [H1 H2].
  split; [exact H1|]. apply H2; [|by eexists].
  intros ty Hty. unfold event_batch, stored_event in Hty.
  repeat (apply elem_of_cons in Hty as [Hty|Hty]; [try discriminate; injection Hty as ->; discriminate|]).
  by apply elem_of_nil in Hty.
Defined.
