(* ===== verification/Strcase.v ===== *)
(** * Strcase: pkg/util/strcase

    The two conversions between the names of Kubernetes kinds: camel case and
    kebab case.  The generated tables of [Gvk] print kinds in kebab case and
    package ast derives the name of a validation function in camel case. *)

From S2P Require Import Prelude GoStd.

Local Open Scope Z_scope.

Definition isWordSeparator (c : ascii) : bool := bool_decide (c = "_"%char) || bool_decide (c = "-"%char).

(** Is c an ASCII lower-case letter? *)
Definition isASCIILower (c : ascii) : bool := in_bytes 97 122 c.

(** Is c an ASCII digit? *)
Definition isASCIIDigit (c : ascii) : bool := in_bytes 48 57 c.

Definition isASCIIUpper (c : ascii) : bool := in_bytes 65 90 c.

Definition byte_of (n : Z) : ascii := ascii_of_N (Z.to_N n).

(** [s[i] - 'A' + 'a'] and [c ^= ' ']. *)
Definition to_lower (c : ascii) : ascii := byte_of (byte_val c - 65 + 97).
Definition flip_case (c : ascii) : ascii := byte_of (Z.lxor (byte_val c) 32).

(** The loop [for i := range s] of [CamelCaseToKebabCase]: it visits the first
    byte of each rune; [skip] counts the bytes left of the current one. *)
Fixpoint kebab_loop (i : nat) (skip : nat) (s : string) : string :=
  match s with
  | EmptyString => EmptyString
  | String c s' =>
      match skip with
      | S k => kebab_loop (S i) k s'
      | O =>
          let rest := kebab_loop (S i) (rune_size s - 1) s' in
          if isASCIIUpper c then
            if (0 <? i)%nat then String "-" (String (to_lower c) rest)
            else String (to_lower c) rest
          else String c rest
      end
  end.

Definition kebab_special : list (string * string) :=
  [("HTTPAPISpec", "http-api-spec"); ("HTTPRoute", "http-route");
   ("HTTPAPISpecBinding", "http-api-spec-binding"); ("GRPCRoute", "grpc-route");
   ("TCPRoute", "tcp-route"); ("TLSRoute", "tls-route"); ("UDPRoute", "udp-route");
   ("BackendTLSPolicy", "backend-tls-policy")]%string.

Definition CamelCaseToKebabCase (s : string) : string :=
  switch s kebab_special (kebab_loop 0 0 s).

(** The loops of [CamelCase]; [in_word] holds while the inner loop, which
    accepts the lower case letters that follow a letter, is running. *)
Fixpoint camel_loop (in_word : bool) (s : string) : string :=
  match s with
  | EmptyString => EmptyString
  | String c s' =>
      if in_word && isASCIILower c then String c (camel_loop true s')
      else if isWordSeparator c then camel_loop false s'
      else if isASCIIDigit c then String c (camel_loop false s')
      else String (if isASCIILower c then flip_case c else c) (camel_loop true s')
  end.

Definition CamelCase (s : string) : string :=
  match s with
  | EmptyString => EmptyString
  | String c s' => if isWordSeparator c then String "X" (camel_loop false s') else camel_loop false s
  end.

(** ** Characters *)

Definition isASCIILetter (c : ascii) : bool := isASCIIUpper c || isASCIILower c.

(** Facts about one byte are checked on the 256 of them. *)
Definition all_bytes : list ascii := map ascii_of_nat (seq 0 256).

Lemma byte_cases (P : ascii -> bool) : forallb P all_bytes = true -> forall c, P c = true.
Proof.
  intros H c. rewrite forallb_forall in H. apply H. unfold all_bytes.
  apply in_map_iff. exists (nat_of_ascii c). split; [apply ascii_nat_embedding|].
  apply in_seq. pose proof (nat_ascii_bounded c). lia.
Qed.

(** Checks [H c -> P c] on every byte. *)
Ltac by_bytes P c :=
  let H := fresh "H" in let Hl := fresh "Hl" in
  pose proof (byte_cases P ltac:(vm_compute; reflexivity) c) as H; cbv beta in H;
  intros Hl; rewrite Hl in H; cbn [implb] in H; bool_hyps; auto 10.

Lemma flip_case_upper c :
  isASCIILower c = true ->
  isASCIILower (flip_case c) = false /\ isWordSeparator (flip_case c) = false /\
  isASCIIDigit (flip_case c) = false.
Proof.
  by_bytes (fun c => implb (isASCIILower c)
    (negb (isASCIILower (flip_case c)) && (negb (isWordSeparator (flip_case c)) &&
     negb (isASCIIDigit (flip_case c))))) c.
Qed.

Lemma to_lower_upper c :
  isASCIIUpper c = true ->
  isASCIILower (to_lower c) = true /\ flip_case (to_lower c) = c /\
  isASCIIUpper (to_lower c) = false /\ isASCIILower c = false.
Proof.
  by_bytes (fun c => implb (isASCIIUpper c)
    (isASCIILower (to_lower c) && (bool_decide (flip_case (to_lower c) = c) &&
     (negb (isASCIIUpper (to_lower c)) && negb (isASCIILower c))))) c.
Qed.

Lemma lower_not_upper c :
  isASCIILower c = true ->
  isASCIIUpper c = false /\ isWordSeparator c = false /\ isASCIIDigit c = false.
Proof.
  by_bytes (fun c => implb (isASCIILower c)
    (negb (isASCIIUpper c) && (negb (isWordSeparator c) && negb (isASCIIDigit c)))) c.
Qed.

Lemma digit_not_lower c : isASCIIDigit c = true -> isASCIILower c = false /\ isWordSeparator c = false.
Proof.
  by_bytes (fun c => implb (isASCIIDigit c) (negb (isASCIILower c) && negb (isWordSeparator c))) c.
Qed.

Lemma separator_not_lower c : isWordSeparator c = true -> isASCIILower c = false.
Proof. by_bytes (fun c => implb (isWordSeparator c) (negb (isASCIILower c))) c. Qed.

Lemma letter_ascii c : isASCIILetter c = true -> byte_val c < 128.
Proof.
  unfold isASCIILetter, isASCIIUpper, isASCIILower, in_bytes. intros H.
  apply orb_prop in H as [H|H]; bool_hyps; lia.
Qed.

(** ** Camel case *)

(** The output of the loop is a fixed point of it, without separators. *)
Lemma camel_loop_stable b s :
  camel_loop b (camel_loop b s) = camel_loop b s /\
  all_chars (fun c => negb (isWordSeparator c)) (camel_loop b s) = true /\
  (b = false -> camel_loop true (camel_loop false s) = camel_loop false s).
Proof.
  revert b. induction s as [|c s IH]; intros b; [done|].
  pose proof (IH true) as (IHt & Ct & _). pose proof (IH false) as (IHf & Cf & IHtf).
  specialize (IHtf eq_refl).
  assert (forall w, b = w ->
    camel_loop w (camel_loop b (String c s)) = camel_loop b (String c s) /\
    all_chars (fun c => negb (isWordSeparator c)) (camel_loop b (String c s)) = true /\
    (b = false -> camel_loop true (camel_loop b (String c s)) = camel_loop b (String c s))) as G;
    [|destruct (G b eq_refl) as (G1 & G2 & G3); split_and!; [done|done|]; intros ->; by apply G3].
  intros w <-. simpl. destruct (isASCIILower c) eqn:El.
  - destruct (lower_not_upper c El) as (_ & Es & Ed).
    destruct (flip_case_upper c El) as (El' & Es' & Ed').
    destruct b; simpl; rewrite ?Es, ?Ed; simpl; rewrite ?El, ?El', ?Es, ?Es', ?Ed'; simpl;
      rewrite ?El'; split_and!; intros; congruence.
  - rewrite andb_false_r. destruct (isWordSeparator c) eqn:Es.
    + destruct b; split_and!; auto; congruence.
    + destruct (isASCIIDigit c) eqn:Ed; simpl; rewrite El, ?andb_false_r, Es, Ed; simpl;
        split_and!; intros; congruence.
Qed.

(** ** From camel case to kebab case and back *)

Lemma kebab_loop_camel i s :
  all_chars isASCIILetter s = true ->
  camel_loop true (kebab_loop (S i) 0 s) = s /\
  all_chars (fun c => negb (isASCIIUpper c)) (kebab_loop (S i) 0 s) = true.
Proof.
  revert i. induction s as [|c s IH]; intros i Hs; [done|].
  cbn [all_chars] in Hs. bool_hyps.
  destruct (IH (S i)) as [IH1 IH2]; [done|].
  cbn [kebab_loop]. rewrite rune_size_ascii by (by apply letter_ascii).
  change (1 - 1)%nat with 0%nat. change (0 <? S i)%nat with true. cbv iota.
  destruct (isASCIIUpper c) eqn:Eu.
  - destruct (to_lower_upper c Eu) as (El & Ef & Eu' & _).
    destruct (lower_not_upper _ El) as (_ & Es & Ed).
    cbn [camel_loop all_chars]. rewrite El, Es, Ed, Ef, Eu', IH2, IH1. done.
  - unfold isASCIILetter in *. rewrite Eu in *. simpl in *.
    match goal with H : isASCIILower c = true |- _ => rewrite H end. simpl.
    by rewrite IH1, Eu, IH2.
Qed.

(** The cases of camelcase_test.go. *)
Example test_cases :
  map CamelCase [""; "foo"; "foobar"; "fooBar"; "foo_bar"; "foo-bar"; "foo_Bar"; "foo9bar";
                 "HTTP-API-Spec"; "http-api-spec"; "_foo"; "-foo"; "_Foo"; "-Foo"]%string =
    [""; "Foo"; "Foobar"; "FooBar"; "FooBar"; "FooBar"; "FooBar"; "Foo9Bar";
     "HTTPAPISpec"; "HttpApiSpec"; "XFoo"; "XFoo"; "XFoo"; "XFoo"]%string /\
  map CamelCaseToKebabCase [""; "Foo"; "FooBar"; "foo9bar"; "HTTPAPISpec"; "HTTPAPISpecBinding"]%string =
    [""; "foo"; "foo-bar"; "foo9bar"; "http-api-spec"; "http-api-spec-binding"]%string.
Proof. by vm_compute. Qed.

(** The bytes of a rune after its first one are lost. *)
Lemma kebab_drops_continuation_bytes :
  CamelCaseToKebabCase (byte_str [195; 156]%nat) = byte_str [195]%nat /\
  CamelCaseToKebabCase "MyName" = "my-name"%string.
Proof. by vm_compute. Qed.

(** [CamelCase] puts every string in a normal form: its result holds no [_]
    or [-] and [CamelCase] leaves it alone; and for a name that begins with an
    upper case letter, holds only ASCII letters and is none of the eight
    special names, [CamelCaseToKebabCase] prints no upper case letter and
    [CamelCase] reads the name back, so two such names never share a kebab
    name. *)
Theorem strcase_normal_forms :
  (forall s, CamelCase (CamelCase s) = CamelCase s /\
             all_chars (fun c => negb (isWordSeparator c)) (CamelCase s) = true) /\
  (forall c s,
     isASCIIUpper c = true -> all_chars isASCIILetter s = true ->
     String c s ∉ kebab_special.*1 ->
     CamelCase (CamelCaseToKebabCase (String c s)) = String c s /\
     all_chars (fun c => negb (isASCIIUpper c)) (CamelCaseToKebabCase (String c s)) = true).
Proof.
  split.
  - intros [|c s]; [done|]. destruct (camel_loop_stable false s) as (S1 & S2 & S3).
    cbn [CamelCase]. destruct (isWordSeparator c) eqn:Es.
    + change (CamelCase (String "X" (camel_loop false s)))
        with (String "X" (camel_loop true (camel_loop false s))).
      rewrite S3 by done. cbn [all_chars]. by rewrite S2.
    + destruct (camel_loop_stable false (String c s)) as (T1 & T2 & _). split; [|done].
      destruct (camel_loop false (String c s)) as [|d t] eqn:Et; [done|].
      cbn [CamelCase]. cbn [all_chars] in T2. bool_hyps.
      match goal with H : isWordSeparator d = false |- _ => by rewrite H end.
  - intros c s Hc Hs Hn. unfold CamelCaseToKebabCase. rewrite switch_default by done.
    destruct (kebab_loop_camel 0 s Hs) as [IH1 IH2].
    destruct (to_lower_upper c Hc) as (El & Ef & Eu & _).
    destruct (lower_not_upper _ El) as (_ & Es & Ed).
    assert (kebab_loop 0 0 (String c s) = String (to_lower c) (kebab_loop 1 0 s)) as ->.
    { cbn [kebab_loop]. rewrite rune_size_ascii
        by (apply letter_ascii; unfold isASCIILetter; by rewrite Hc).
      rewrite Hc. done. }
    cbn [CamelCase camel_loop all_chars]. rewrite El, Es, Ed, Ef, Eu, IH1, IH2. done.
Qed.

Lemma strcase_normal_forms_witness :
  CamelCase (CamelCaseToKebabCase "InferencePool") = "InferencePool"%string.
Proof.
  apply (proj2 strcase_normal_forms "I"%char "nferencePool"%string);
    [reflexivity | reflexivity | by apply (bool_decide_unpack _); vm_compute].
Defined.
