(* ===== verification/Resource.v ===== *)
(** * Resource: pkg/config/schema/resource, pkg/config/labels, pkg/config/validation

    The schema of a configuration resource: the [Builder] the registry is
    written with, the [schemaImpl] it builds and its accessors, its validation
    with the DNS label expression of package labels, and the registry of
    validation functions.  The proto registry is a parameter ([ProtoTypes]);
    the contents of Go values are abstract ([GoValues]). *)

From S2P Require Import Prelude GoStd GoRegexp.

Local Open Scope Z_scope.

(** ** pkg/config/model.go *)

Record GroupVersionKind := { gvk_Group : string; gvk_Version : string; gvk_Kind : string }.

#[export] Instance GroupVersionKind_eq_dec : EqDecision GroupVersionKind.
Proof. solve_decision. Defined.

#[export] Instance GroupVersionKind_countable : Countable GroupVersionKind.
Proof.
  refine (inj_countable'
    (fun g => (gvk_Group g, gvk_Version g, gvk_Kind g))
    (fun '(g, v, k) => {| gvk_Group := g; gvk_Version := v; gvk_Kind := k |}) _).
  by intros [].
Defined.

(** [schema.GroupVersionResource] of apimachinery. *)
Record GroupVersionResource := { gvr_Group : string; gvr_Version : string; gvr_Resource : string }.

#[export] Instance GroupVersionResource_eq_dec : EqDecision GroupVersionResource.
Proof. solve_decision. Defined.

(** A named Go type: its import path and its name. *)
Record GoType := { type_pkg : string; type_name : string }.

#[export] Instance GoType_eq_dec : EqDecision GoType.
Proof. solve_decision. Defined.

(** The contents of the values of Go types, with the zero value of each. *)
Class GoValues := { Value : Type; zero_value : GoType -> Value }.

(** A value of type [any]: nil, or a pointer to a value of a named type. *)
Inductive any `{GoValues} :=
| AnyNil
| AnyPtr (t : GoType) (v : Value).

(** [protoregistry.GlobalTypes.FindMessageByName]: [None] is its non-nil error. *)
Class ProtoTypes := { FindMessageByName : string -> option GoType }.

Record OwnerReference := {
  or_APIVersion : string; or_Kind : string; or_Name : string; or_UID : string;
  or_Controller : option bool; or_BlockOwnerDeletion : option bool }.

Record Meta := {
  meta_GroupVersionKind : GroupVersionKind;
  meta_UID : string;
  meta_Name : string;
  meta_Namespace : string;
  meta_Domain : string;
  meta_Labels : gmap string string;
  meta_Annotations : gmap string string;
  meta_ResourceVersion : string;
  meta_CreationTimestamp : Z;
  meta_OwnerReferences : list OwnerReference;
  meta_Generation : Z
}.

Record Config `{GoValues} := {
  config_Meta : Meta;
  config_Spec : any;
  config_Status : any;
  config_Extra : gmap string any
}.

(** ** pkg/config/labels/instance.go *)

Definition DNS1123LabelMaxLength : nat := 63.

(** [[a-zA-Z0-9]] and [[-a-zA-Z0-9]]. *)
Definition label_alnum (c : ascii) : bool :=
  in_bytes 97 122 c || in_bytes 65 90 c || in_bytes 48 57 c.
Definition label_inner (c : ascii) : bool := bool_decide (c = "-"%char) || label_alnum c.

(** [[a-zA-Z0-9](?:[-a-zA-Z0-9]*[a-zA-Z0-9])?]. *)
Definition dns1123LabelFmt : regex :=
  RSeq (RClass label_alnum) (ROpt (RSeq (RStar (RClass label_inner)) (RClass label_alnum))).

Definition IsDNS1123Label (value : string) : bool :=
  (String.length value <=? DNS1123LabelMaxLength)%nat && match_string dns1123LabelFmt value.

Section Schema.
Context {GV : GoValues} {PT : ProtoTypes}.

(** ** pkg/config/validation/validation.go *)

(** A validation function returns a warning and an error. *)
Definition ValidateFunc : Type := Config -> option string * option string.

(** The registry [validateFuncs]; a registered function may be nil. *)
Definition validateFuncs : Type := gmap string (option ValidateFunc).

Definition GetValidateFunc (fs : validateFuncs) (name : string) : option ValidateFunc :=
  match fs !! name with Some f => f | None => None end.

Definition IsValidateFunc (fs : validateFuncs) (name : string) : bool :=
  match GetValidateFunc fs name with Some _ => true | None => false end.

Definition RegisterValidateFunc (fs : validateFuncs) (name : string) (f : option ValidateFunc) :
    validateFuncs * option ValidateFunc :=
  (<[name := f]> fs, f).

Definition EmptyValidate : ValidateFunc := fun _ => (None, None).

(** The registry once the package is initialised. *)
Definition initial_validateFuncs : validateFuncs :=
  (RegisterValidateFunc ∅ "EmptyValidate" (Some EmptyValidate)).1.

(** ** pkg/config/schema/resource/schema.go *)

Record Builder := {
  ClusterScoped : bool;
  Synthetic : bool;
  Builtin : bool;
  b_Identifier : string;
  b_Kind : string;
  b_Plural : string;
  b_Group : string;
  b_Version : string;
  VersionAliases : list string;
  b_Proto : string;
  StatusProto : string;
  ReflectType : option GoType;
  StatusType : option GoType;
  b_ProtoPackage : string;
  b_StatusPackage : string;
  ValidateProto : option ValidateFunc
}.

Record schemaImpl := {
  clusterScoped : bool;
  builtin : bool;
  gvk : GroupVersionKind;
  versionAliases : list string;
  plural : string;
  apiVersion : string;
  proto : string;
  goPackage : string;
  validateConfig : ValidateFunc;
  reflectType : option GoType;
  statusType : option GoType;
  statusPackage : string;
  identifier : string;
  synthetic : bool
}.

Definition BuildNoValidate (b : Builder) : schemaImpl :=
  let validate := match ValidateProto b with None => EmptyValidate | Some f => f end in
  {| clusterScoped := ClusterScoped b;
     synthetic := Synthetic b;
     builtin := Builtin b;
     gvk := {| gvk_Group := b_Group b; gvk_Version := b_Version b; gvk_Kind := b_Kind b |};
     plural := b_Plural b;
     apiVersion := b_Group b +:+ "/" +:+ b_Version b;
     versionAliases := VersionAliases b;
     proto := b_Proto b;
     goPackage := b_ProtoPackage b;
     identifier := b_Identifier b;
     reflectType := ReflectType b;
     validateConfig := validate;
     statusType := StatusType b;
     statusPackage := b_StatusPackage b |}.

Definition Kind (s : schemaImpl) : string := gvk_Kind (gvk s).
Definition Group (s : schemaImpl) : string := gvk_Group (gvk s).
Definition Version (s : schemaImpl) : string := gvk_Version (gvk s).
Definition Plural (s : schemaImpl) : string := plural s.
Definition GVK (s : schemaImpl) : GroupVersionKind := gvk s.

Definition GVR (s : schemaImpl) : GroupVersionResource :=
  {| gvr_Group := Group s; gvr_Version := Version s; gvr_Resource := Plural s |}.

Definition IsSynthetic (s : schemaImpl) : bool := synthetic s.
Definition IsClusterScoped (s : schemaImpl) : bool := clusterScoped s.
Definition IsBuiltin (s : schemaImpl) : bool := builtin s.
Definition Identifier (s : schemaImpl) : string := identifier s.
Definition APIVersion (s : schemaImpl) : string := apiVersion s.
Definition Proto (s : schemaImpl) : string := proto s.
Definition ProtoPackage (s : schemaImpl) : string := goPackage s.
Definition StatusPackage (s : schemaImpl) : string := statusPackage s.

(** One entry per version alias, then the version itself. *)
Definition GroupVersionAliasKinds (s : schemaImpl) : list GroupVersionKind :=
  map (fun va => {| gvk_Group := gvk_Group (gvk s); gvk_Version := va; gvk_Kind := gvk_Kind (gvk s) |})
    (versionAliases s) ++ [GVK s].

Inductive schema_error :=
| InvalidKind (kind : string)
| InvalidPlural (kind plural : string)
| TypeNotFound (proto : string)
| NoReflectType
| UnknownStatusType.

(** [reflect.TypeOf] of the zero message is never nil. *)
Definition getProtoMessageType (name : string) : option GoType := FindMessageByName name.

(** The errors [multierror.Append] gathers; none is a nil error. *)
Definition Validate (s : schemaImpl) : list schema_error :=
  (if IsDNS1123Label (Kind s) then [] else [InvalidKind (Kind s)]) ++
  (if IsDNS1123Label (plural s) then [] else [InvalidPlural (Kind s) (plural s)]) ++
  (match reflectType s, getProtoMessageType (proto s) with
   | None, None => [TypeNotFound (proto s)]
   | _, _ => []
   end).

Definition Build (b : Builder) : outcome (list schema_error) schemaImpl :=
  let s := BuildNoValidate b in
  match Validate s with
  | [] => Ret s
  | errs => Err errs
  end.

Definition MustBuild (b : Builder) : outcome (list schema_error) schemaImpl :=
  match Build b with
  | Err _ => Panic ExplicitPanic
  | r => r
  end.

(** The assertion to [config.Spec], the empty interface, holds of every
    non-nil value, which a new instance is. *)
Definition NewInstance (s : schemaImpl) : outcome schema_error any :=
  match reflectType s with
  | None =>
      match FindMessageByName (proto s) with
      | None => Err NoReflectType
      | Some t => Ret (AnyPtr t (zero_value t))
      end
  | Some rt => Ret (AnyPtr rt (zero_value rt))
  end.

Definition Status (s : schemaImpl) : outcome schema_error any :=
  match statusType s with
  | None => Err UnknownStatusType
  | Some t => Ret (AnyPtr t (zero_value t))
  end.

Definition StatusKind (s : schemaImpl) : string :=
  match statusType s with None => "" | Some t => type_name t end.

Definition MustNewInstance (s : schemaImpl) : outcome schema_error any :=
  match NewInstance s with
  | Err _ => Panic ExplicitPanic
  | r => r
  end.

Definition ValidateConfig (s : schemaImpl) (cfg : Config) : option string * option string :=
  validateConfig s cfg.

Definition Equal (s o : schemaImpl) : bool :=
  bool_decide (IsClusterScoped s = IsClusterScoped o) &&
  bool_decide (Kind s = Kind o) &&
  bool_decide (Plural s = Plural o) &&
  bool_decide (Group s = Group o) &&
  bool_decide (Version s = Version o) &&
  bool_decide (Proto s = Proto o) &&
  bool_decide (ProtoPackage s = ProtoPackage o).

(** ** Schema equality as a setoid *)

Definition schema_equiv (s o : schemaImpl) : Prop := Equal s o = true.

Lemma schema_equiv_spec s o :
  schema_equiv s o <->
  IsClusterScoped s = IsClusterScoped o /\ GVK s = GVK o /\ Plural s = Plural o /\
  Proto s = Proto o /\ ProtoPackage s = ProtoPackage o.
Proof.
  unfold schema_equiv, Equal, Kind, Group, Version, GVK. rewrite !andb_true_iff, !bool_decide_eq_true.
  destruct (gvk s), (gvk o); naive_solver.
Qed.

#[local] Instance schema_equiv_equivalence : Equivalence schema_equiv.
Proof.
  split; intros s; intros; rewrite !schema_equiv_spec in *; naive_solver congruence.
Qed.

#[local] Instance GVR_proper : Proper (schema_equiv ==> eq) GVR.
Proof.
  intros s o H%schema_equiv_spec. unfold GVR, Group, Version, GVK, Plural in *.
  destruct H as (_ & Hg & Hp & _). by rewrite Hg, Hp.
Qed.

(** ** Building a schema *)

Lemma new_instance_built s :
  reflectType s <> None \/ FindMessageByName (proto s) <> None ->
  exists t, NewInstance s = Ret (AnyPtr t (zero_value t)) /\
            (reflectType s = Some t \/ reflectType s = None /\ FindMessageByName (proto s) = Some t).
Proof.
  intros H. unfold NewInstance. destruct (reflectType s) as [t|]; [by eauto|].
  destruct (FindMessageByName (proto s)) as [t|] eqn:E; [by eauto|]. naive_solver.
Qed.

Lemma Validate_nil s :
  Validate s = [] <->
  IsDNS1123Label (Kind s) = true /\ IsDNS1123Label (plural s) = true /\
  (reflectType s <> None \/ FindMessageByName (proto s) <> None).
Proof.
  unfold Validate, getProtoMessageType. rewrite !app_nil.
  repeat case_match; naive_solver.
Qed.

End Schema.

(** ** The DNS label expression *)

Lemma str_snoc_cases s : s = EmptyString \/ exists m d, s = m +:+ String d EmptyString.
Proof.
  induction s as [|a s [->|(m & d & ->)]]; [by left| |]; right.
  - by exists EmptyString, a.
  - by exists (String a m), d.
Qed.

Lemma dns_fmt_matches s :
  matches dns1123LabelFmt s <->
  exists c t, s = String c t /\ label_alnum c = true /\
    (t = EmptyString \/ exists m d, t = m +:+ String d EmptyString /\
       all_chars label_inner m = true /\ label_alnum d = true).
Proof.
  unfold dns1123LabelFmt, ROpt. split.
  - intros H. inversion H as [| |r1 r2 s1 s2 H1 H2 E1 E2| | | |]; subst.
    inversion H1 as [|p c Hc E1 E2| | | | |]; subst. exists c, s2.
    split; [by rewrite str_app_cons, str_app_nil_l|]. split; [done|].
    inversion H2 as [| | |r1 r2 t H3 E1 E2|r1 r2 t H3 E1 E2| |]; subst.
    + right. inversion H3 as [| |r1 r2 m u H4 H5 E1 E2| | | |]; subst.
      inversion H5 as [|p d Hd E1 E2| | | | |]; subst.
      exists m, d. by rewrite <- star_class_matches.
    + left. by inversion H3.
  - intros (c & t & -> & Hc & Ht).
    change (String c t) with (String c EmptyString +:+ t).
    constructor; [by constructor|]. destruct Ht as [->|(m & d & -> & Hm & Hd)].
    + apply m_alt_r. constructor.
    + apply m_alt_l. constructor; [by apply star_class_matches|by constructor].
Qed.

(** A DNS label: 1 to 63 letters, digits and dashes, no dash at either end. *)
Definition dns_label (s : string) : Prop :=
  (1 <= String.length s <= 63)%nat /\ all_chars label_inner s = true /\
  has_prefix "-" s = false /\ has_suffix "-" s = false.

Lemma label_inner_alnum c : label_alnum c = true <-> label_inner c = true /\ c <> "-"%char.
Proof.
  unfold label_inner. destruct (bool_decide (c = "-"%char)) eqn:E; bool_hyps; subst.
  - split; [by vm_compute|naive_solver].
  - simpl. naive_solver.
Qed.

Lemma has_suffix_snoc d m : has_suffix "-" (m +:+ String d EmptyString) = bool_decide (d = "-"%char).
Proof.
  unfold has_suffix. rewrite str_length_app. cbn [String.length].
  rewrite (proj2 (Nat.leb_le _ _)) by lia.
  replace (String.length m + 1 - 1)%nat with (String.length m) by lia.
  rewrite str_drop_app. simpl. apply bool_decide_ext. naive_solver.
Qed.

Lemma has_prefix_dash c s : has_prefix "-" (String c s) = bool_decide (c = "-"%char).
Proof.
  unfold has_prefix. cbn [String.prefix]. destruct (ascii_dec "-" c) as [<-|H].
  - by destruct s.
  - by rewrite bool_decide_eq_false_2 by congruence.
Qed.

Lemma IsDNS1123Label_spec s : IsDNS1123Label s = true <-> dns_label s.
Proof.
  unfold IsDNS1123Label, DNS1123LabelMaxLength, dns_label.
  rewrite andb_true_iff, Nat.leb_le, match_string_spec, dns_fmt_matches.
  destruct s as [|c t]; [naive_solver lia|]. rewrite has_prefix_dash, bool_decide_eq_false.
  destruct (str_snoc_cases t) as [->|(m & d & ->)].
  - rewrite (has_suffix_snoc c EmptyString : has_suffix "-" (String c EmptyString) = _).
    rewrite bool_decide_eq_false. simpl. rewrite andb_true_r.
    split; [|intros ([? ?] & ? & ? & ?); split; [lia|]; exists c, EmptyString; rewrite label_inner_alnum; auto].
    intros (Hl & c' & t' & ? & Hc & _); simplify_eq. apply label_inner_alnum in Hc. naive_solver lia.
  - rewrite (has_suffix_snoc d (String c m) : has_suffix "-" (String c (m +:+ String d EmptyString)) = _).
    rewrite bool_decide_eq_false. cbn [all_chars]. rewrite all_chars_app. cbn [all_chars].
    rewrite !andb_true_iff. cbn [String.length]. split.
    + intros (Hl & c' & t' & Es & Hc & Ht). injection Es as <- <-.
      destruct Ht as [Ht|(m' & d' & Ht & Hm & Hd)]; [by destruct m|].
      apply label_inner_alnum in Hc as [? ?], Hd as [? ?].
      assert (m = m' /\ d = d') as [-> ->].
      { clear -Ht. revert m' Ht. induction m as [|a m IH]; intros [|b m'] H;
          rewrite ?str_app_cons, ?str_app_nil_l in H; simplify_eq; [done|by destruct m'|by destruct m|].
        destruct (IH m'); auto; subst; auto. }
      split_and!; auto; lia.
    + intros ([? ?] & [? [? [? _]]] & ? & ?). split; [lia|].
      exists c, (m +:+ String d EmptyString). rewrite label_inner_alnum. split_and!; auto.
      right. exists m, d. rewrite label_inner_alnum. auto.
Qed.

(** [Build] accepts a builder exactly when its kind and its plural are DNS
    labels and its Go type or its proto message is known, and then returns the
    schema with the fields of the builder; [MustBuild] panics exactly when
    [Build] returns an error.  A schema that was built always has an instance:
    [MustNewInstance] never panics on it, and the instance is the zero value of
    the Go type, or else of the proto message. *)
Theorem build_accepts {GV : GoValues} {PT : ProtoTypes} (b : Builder) :
  let ok := dns_label (b_Kind b) /\ dns_label (b_Plural b) /\
            (ReflectType b <> None \/ FindMessageByName (b_Proto b) <> None) in
  (ok <-> Build b = Ret (BuildNoValidate b)) /\
  (ok <-> MustBuild b = Ret (BuildNoValidate b)) /\
  (~ ok -> MustBuild b = Panic ExplicitPanic /\ exists errs, errs <> [] /\ Build b = Err errs) /\
  (forall s, Build b = Ret s ->
     exists t, MustNewInstance s = Ret (AnyPtr t (zero_value t)) /\
       (ReflectType b = Some t \/ ReflectType b = None /\ FindMessageByName (b_Proto b) = Some t)).
Proof.
  cbv zeta. rewrite <- !IsDNS1123Label_spec.
  pose proof (Validate_nil (BuildNoValidate b)) as Hv. cbn in Hv. unfold Kind in Hv. cbn in Hv.
  unfold MustBuild, Build. cbv zeta.
  destruct (Validate (BuildNoValidate b)) as [|e errs] eqn:E.
  - assert (IsDNS1123Label (b_Kind b) = true /\ IsDNS1123Label (b_Plural b) = true /\
      (ReflectType b <> None \/ FindMessageByName (b_Proto b) <> None)) as Hok by by apply Hv.
    split_and!; [done|done|naive_solver|].
    intros s Hs. simplify_eq.
    destruct (new_instance_built (BuildNoValidate b)) as (t & Ht & Hor); [apply Hok|].
    exists t. unfold MustNewInstance. by rewrite Ht.
  - assert (~ (IsDNS1123Label (b_Kind b) = true /\ IsDNS1123Label (b_Plural b) = true /\
      (ReflectType b <> None \/ FindMessageByName (b_Proto b) <> None))) as Hok
      by (intros H; by apply Hv in H).
    split_and!; [naive_solver|naive_solver| |done]. intros _. split; [done|]. by exists (e :: errs).
Qed.
