(* ===== verification/Collection.v ===== *)
(** * Collection: pkg/config/schema/collection

    [Schemas], an insertion-ordered set of resource schemas keyed by their
    GroupVersionKind, and its builder.  The map of a builder is [None] once
    [Build] has handed it out: reading the nil map finds nothing, writing it
    panics. *)

From S2P Require Import Prelude Resource.

Section Collection.
Context {GV : GoValues} {PT : ProtoTypes}.

Record Schemas := {
  byCollection : option (gmap GroupVersionKind schemaImpl);
  byAddOrder : list schemaImpl
}.

Record SchemasBuilder := { schemas : Schemas }.

Inductive add_error := AlreadyExists (g : GroupVersionKind).

Definition NewSchemasBuilder : SchemasBuilder :=
  {| schemas := {| byCollection := Some ∅; byAddOrder := [] |} |}.

(** A lookup in a nil map finds nothing. *)
Definition found (b : SchemasBuilder) (g : GroupVersionKind) : bool :=
  match byCollection (schemas b) with
  | None => false
  | Some m => bool_decide (is_Some (m !! g))
  end.

(** An error leaves the builder as it was. *)
Definition Add (b : SchemasBuilder) (s : schemaImpl) : outcome add_error SchemasBuilder :=
  if found b (GVK s) then Err (AlreadyExists (GVK s))
  else
    match byCollection (schemas b) with
    | None => Panic NilMapWrite
    | Some m =>
        Ret {| schemas := {| byCollection := Some (<[GVK s := s]> m);
                             byAddOrder := byAddOrder (schemas b) ++ [s] |} |}
    end.

Definition MustAdd (b : SchemasBuilder) (s : schemaImpl) : outcome add_error SchemasBuilder :=
  match Add b s with
  | Err _ => Panic ExplicitPanic
  | r => r
  end.

(** The schemas built, and the builder left. *)
Definition Build (b : SchemasBuilder) : Schemas * SchemasBuilder :=
  (schemas b, {| schemas := {| byCollection := None; byAddOrder := [] |} |}).

(** [for _, s := range l { b.MustAdd(s) }]. *)
Fixpoint mustAddAll (b : SchemasBuilder) (l : list schemaImpl) : outcome add_error SchemasBuilder :=
  match l with
  | [] => Ret b
  | s :: rest => let* b' := MustAdd b s in mustAddAll b' rest
  end.

Definition Schemas_Add (s : Schemas) (toAdd : list schemaImpl) : outcome add_error Schemas :=
  let* b := mustAddAll NewSchemasBuilder (byAddOrder s) in
  let* b' := mustAddAll b toAdd in
  Ret (Build b').1.

(** ** Invariant *)

(** The map indexes the list, whose GroupVersionKinds are distinct. *)
Definition schemas_ok (s : Schemas) : Prop :=
  NoDup (map GVK (byAddOrder s)) /\
  byCollection s = Some (list_to_map (map (fun x => (GVK x, x)) (byAddOrder s))).

Lemma map_fst_gvk l : (map (fun x => (GVK x, x)) l).*1 = map GVK l.
Proof. induction l as [|x l IH]; [done|]. cbn. by rewrite IH. Qed.

Lemma schemas_ok_new : schemas_ok (schemas NewSchemasBuilder).
Proof. split; [constructor|done]. Qed.

Lemma found_spec b g :
  schemas_ok (schemas b) -> found b g = true <-> g ∈ map GVK (byAddOrder (schemas b)).
Proof.
  intros [Hn Hm]. unfold found. rewrite Hm, bool_decide_eq_true, <- map_fst_gvk.
  split; [intros [x Hx]; apply elem_of_list_to_map_2 in Hx;
    apply list_elem_of_fmap; by exists (g, x)|].
  intros Hg. apply not_eq_None_Some. intros E. by apply not_elem_of_list_to_map in E.
Qed.

Lemma list_to_map_snoc_gvk l s :
  GVK s ∉ map GVK l ->
  list_to_map (M := gmap GroupVersionKind schemaImpl) (map (fun x => (GVK x, x)) (l ++ [s])) =
  <[GVK s := s]> (list_to_map (map (fun x => (GVK x, x)) l)).
Proof.
  intros Hs. rewrite map_app. simpl. apply list_to_map_snoc. by rewrite map_fst_gvk.
Qed.

Lemma Add_spec b s :
  schemas_ok (schemas b) ->
  (GVK s ∈ map GVK (byAddOrder (schemas b)) /\ Add b s = Err (AlreadyExists (GVK s))) \/
  ((GVK s ∉ map GVK (byAddOrder (schemas b))) /\ (exists b', Add b s = Ret b' /\
     schemas_ok (schemas b') /\ byAddOrder (schemas b') = byAddOrder (schemas b) ++ [s])).
Proof.
  intros Hok. pose proof (found_spec b (GVK s) Hok) as Hf. unfold Add.
  destruct (found b (GVK s)) eqn:E; [left; naive_solver|right].
  assert (GVK s ∉ map GVK (byAddOrder (schemas b))) as Hs by naive_solver.
  split; [done|]. destruct Hok as [Hn Hm]. rewrite Hm. eexists; split_and!; [done| |done].
  split; simpl.
  - rewrite map_app. apply NoDup_app. split_and!; [done| |apply NoDup_singleton].
    intros x Hx Hx'. apply list_elem_of_singleton in Hx'. by subst.
  - by rewrite list_to_map_snoc_gvk.
Qed.

Lemma mustAddAll_spec b l :
  schemas_ok (schemas b) ->
  (NoDup (map GVK (byAddOrder (schemas b) ++ l)) ->
   exists b', mustAddAll b l = Ret b' /\ schemas_ok (schemas b') /\
     byAddOrder (schemas b') = byAddOrder (schemas b) ++ l) /\
  (~ NoDup (map GVK (byAddOrder (schemas b) ++ l)) -> mustAddAll b l = Panic ExplicitPanic).
Proof.
  revert b. induction l as [|s l IH]; intros b Hok.
  - rewrite app_nil_r. split; [by exists b|]. intros H. by destruct Hok.
  - cbn [mustAddAll]. unfold MustAdd.
    destruct (Add_spec b s Hok) as [[Hs ->]|(Hs & b' & -> & Hok' & Ho)]; cbn [obind].
    + split; [|done]. rewrite map_app. intros (_ & Hd & _)%NoDup_app.
      destruct (Hd _ Hs). simpl. by left.
    + destruct (IH b' Hok') as [IH1 IH2]. rewrite Ho, <- app_assoc in IH1, IH2. simpl in *. auto.
Qed.

End Collection.

(** C33: A builder is an insertion-ordered set.  From a new builder, adding a
    list of schemas succeeds exactly when their GroupVersionKinds are distinct
    and then [Build] returns the schemas in that order, indexed by
    GroupVersionKind; otherwise [MustAdd] panics.  [Add] reports a schema that
    is there already, and no other; [Schemas.Add] leaves its receiver alone
    and appends; and a builder that was built accepts nothing: the next [Add]
    writes a nil map. *)
Theorem schemas_builder_ordered_set {GV : GoValues} (l more : list schemaImpl) :
  (NoDup (map GVK l) ->
   exists b, mustAddAll NewSchemasBuilder l = Ret b /\
     let s := (Build b).1 in
     byAddOrder s = l /\
     (exists m, byCollection s = Some m /\
        forall g x, m !! g = Some x <-> x ∈ l /\ GVK x = g) /\
     (forall x, Add b x = Err (AlreadyExists (GVK x)) <-> GVK x ∈ map GVK l) /\
     (forall x, GVK x ∉ map GVK l -> is_ret (Add b x) = true) /\
     (NoDup (map GVK (l ++ more)) ->
        exists s', Schemas_Add s more = Ret s' /\ byAddOrder s' = l ++ more) /\
     (~ NoDup (map GVK (l ++ more)) -> Schemas_Add s more = Panic ExplicitPanic)) /\
  (~ NoDup (map GVK l) -> mustAddAll NewSchemasBuilder l = Panic ExplicitPanic) /\
  (forall b x, Add (Build b).2 x = Panic NilMapWrite).
Proof.
  pose proof schemas_ok_new as Hnew.
  destruct (mustAddAll_spec NewSchemasBuilder l Hnew) as [H1 H2]. simpl in H1, H2.
  split_and!; [|done|done]. intros Hl.
  destruct (H1 Hl) as (b & Hb & Hok & Ho). exists b. split; [done|]. cbv zeta. simpl.
  split_and!.
  - done.
  - destruct Hok as [_ Hm]. rewrite Hm, Ho. eexists; split; [done|]. intros g x.
    rewrite <- elem_of_list_to_map by by rewrite map_fst_gvk.
    rewrite list_elem_of_fmap. naive_solver.
  - intros x. rewrite <- Ho. destruct (Add_spec b x Hok) as [[? ->]|(? & b' & -> & _)]; naive_solver.
  - intros x Hx. rewrite <- Ho in Hx. destruct (Add_spec b x Hok) as [[? _]|(? & b' & -> & _)]; naive_solver.
  - intros Hm. unfold Schemas_Add. rewrite Ho, Hb. simpl.
    destruct (mustAddAll_spec b more Hok) as [H3 _]. rewrite Ho in H3.
    destruct (H3 Hm) as (b' & -> & _ & Ho'). simpl. eauto.
  - intros Hm. unfold Schemas_Add. rewrite Ho, Hb. simpl.
    destruct (mustAddAll_spec b more Hok) as [_ H3]. rewrite Ho in H3. by rewrite H3.
Qed.
