(* ===== verification/Gvr.v ===== *)
(** * Gvr: pkg/config/schema/gvr

    The GroupVersionResources of the registry and which are cluster-scoped, as
    generated in resources.gen.go. *)

From S2P Require Import Prelude Resource.

Local Open Scope string_scope.

Definition BackendTLSPolicy : GroupVersionResource :=
  {| gvr_Group := "gateway.networking.k8s.io"; gvr_Version := "v1"; gvr_Resource := "backendtlspolicies" |}.
Definition ConfigMap : GroupVersionResource :=
  {| gvr_Group := ""; gvr_Version := "v1"; gvr_Resource := "configmaps" |}.
Definition DaemonSet : GroupVersionResource :=
  {| gvr_Group := "apps"; gvr_Version := "v1"; gvr_Resource := "daemonsets" |}.
Definition Deployment : GroupVersionResource :=
  {| gvr_Group := "apps"; gvr_Version := "v1"; gvr_Resource := "deployments" |}.
Definition EndpointSlice : GroupVersionResource :=
  {| gvr_Group := "discovery.k8s.io"; gvr_Version := "v1"; gvr_Resource := "endpointslices" |}.
Definition Endpoints : GroupVersionResource :=
  {| gvr_Group := ""; gvr_Version := "v1"; gvr_Resource := "endpoints" |}.
Definition EnvoyFilter : GroupVersionResource :=
  {| gvr_Group := "networking.istio.io"; gvr_Version := "v1alpha3"; gvr_Resource := "envoyfilters" |}.
Definition GRPCRoute : GroupVersionResource :=
  {| gvr_Group := "gateway.networking.k8s.io"; gvr_Version := "v1"; gvr_Resource := "grpcroutes" |}.
Definition GRPCRoute_v1alpha2 : GroupVersionResource :=
  {| gvr_Group := "gateway.networking.k8s.io"; gvr_Version := "v1alpha2"; gvr_Resource := "grpcroutes" |}.
Definition GatewayClass : GroupVersionResource :=
  {| gvr_Group := "gateway.networking.k8s.io"; gvr_Version := "v1"; gvr_Resource := "gatewayclasses" |}.
Definition GatewayClass_v1alpha2 : GroupVersionResource :=
  {| gvr_Group := "gateway.networking.k8s.io"; gvr_Version := "v1alpha2"; gvr_Resource := "gatewayclasses" |}.
Definition GatewayClass_v1beta1 : GroupVersionResource :=
  {| gvr_Group := "gateway.networking.k8s.io"; gvr_Version := "v1beta1"; gvr_Resource := "gatewayclasses" |}.
Definition HTTPRoute : GroupVersionResource :=
  {| gvr_Group := "gateway.networking.k8s.io"; gvr_Version := "v1"; gvr_Resource := "httproutes" |}.
Definition HTTPRoute_v1alpha2 : GroupVersionResource :=
  {| gvr_Group := "gateway.networking.k8s.io"; gvr_Version := "v1alpha2"; gvr_Resource := "httproutes" |}.
Definition HTTPRoute_v1beta1 : GroupVersionResource :=
  {| gvr_Group := "gateway.networking.k8s.io"; gvr_Version := "v1beta1"; gvr_Resource := "httproutes" |}.
Definition InferencePool : GroupVersionResource :=
  {| gvr_Group := "inference.networking.k8s.io"; gvr_Version := "v1"; gvr_Resource := "inferencepools" |}.
Definition KubernetesGateway : GroupVersionResource :=
  {| gvr_Group := "gateway.networking.k8s.io"; gvr_Version := "v1"; gvr_Resource := "gateways" |}.
Definition KubernetesGateway_v1alpha2 : GroupVersionResource :=
  {| gvr_Group := "gateway.networking.k8s.io"; gvr_Version := "v1alpha2"; gvr_Resource := "gateways" |}.
Definition KubernetesGateway_v1beta1 : GroupVersionResource :=
  {| gvr_Group := "gateway.networking.k8s.io"; gvr_Version := "v1beta1"; gvr_Resource := "gateways" |}.
Definition Namespace : GroupVersionResource :=
  {| gvr_Group := ""; gvr_Version := "v1"; gvr_Resource := "namespaces" |}.
Definition Node : GroupVersionResource :=
  {| gvr_Group := ""; gvr_Version := "v1"; gvr_Resource := "nodes" |}.
Definition Pod : GroupVersionResource :=
  {| gvr_Group := ""; gvr_Version := "v1"; gvr_Resource := "pods" |}.
Definition ReferenceGrant : GroupVersionResource :=
  {| gvr_Group := "gateway.networking.k8s.io"; gvr_Version := "v1beta1"; gvr_Resource := "referencegrants" |}.
Definition ReferenceGrant_v1alpha2 : GroupVersionResource :=
  {| gvr_Group := "gateway.networking.k8s.io"; gvr_Version := "v1alpha2"; gvr_Resource := "referencegrants" |}.
Definition Secret : GroupVersionResource :=
  {| gvr_Group := ""; gvr_Version := "v1"; gvr_Resource := "secrets" |}.
Definition Service : GroupVersionResource :=
  {| gvr_Group := ""; gvr_Version := "v1"; gvr_Resource := "services" |}.
Definition ServiceAccount : GroupVersionResource :=
  {| gvr_Group := ""; gvr_Version := "v1"; gvr_Resource := "serviceaccounts" |}.
Definition StatefulSet : GroupVersionResource :=
  {| gvr_Group := "apps"; gvr_Version := "v1"; gvr_Resource := "statefulsets" |}.
Definition TCPRoute : GroupVersionResource :=
  {| gvr_Group := "gateway.networking.k8s.io"; gvr_Version := "v1alpha2"; gvr_Resource := "tcproutes" |}.
Definition TLSRoute : GroupVersionResource :=
  {| gvr_Group := "gateway.networking.k8s.io"; gvr_Version := "v1alpha2"; gvr_Resource := "tlsroutes" |}.
Definition UDPRoute : GroupVersionResource :=
  {| gvr_Group := "gateway.networking.k8s.io"; gvr_Version := "v1alpha2"; gvr_Resource := "udproutes" |}.
Definition WasmPlugin : GroupVersionResource :=
  {| gvr_Group := "extensions.istio.io"; gvr_Version := "v1alpha1"; gvr_Resource := "wasmplugins" |}.
Definition XBackendTrafficPolicy : GroupVersionResource :=
  {| gvr_Group := "gateway.networking.x-k8s.io"; gvr_Version := "v1alpha1"; gvr_Resource := "xbackendtrafficpolicies" |}.

Definition IsClusterScoped (g : GroupVersionResource) : bool :=
  switch g
    [(BackendTLSPolicy, false);
     (ConfigMap, false);
     (DaemonSet, false);
     (Deployment, false);
     (EndpointSlice, false);
     (Endpoints, false);
     (EnvoyFilter, false);
     (GRPCRoute, false);
     (GRPCRoute_v1alpha2, false);
     (GatewayClass, true);
     (GatewayClass_v1alpha2, true);
     (GatewayClass_v1beta1, true);
     (HTTPRoute, false);
     (HTTPRoute_v1alpha2, false);
     (HTTPRoute_v1beta1, false);
     (InferencePool, false);
     (KubernetesGateway, false);
     (KubernetesGateway_v1alpha2, false);
     (KubernetesGateway_v1beta1, false);
     (Namespace, true);
     (Node, true);
     (Pod, false);
     (ReferenceGrant, false);
     (ReferenceGrant_v1alpha2, false);
     (Secret, false);
     (Service, false);
     (ServiceAccount, false);
     (StatefulSet, false);
     (TCPRoute, false);
     (TLSRoute, false);
     (UDPRoute, false);
     (WasmPlugin, false);
     (XBackendTrafficPolicy, false)]
    false.
