(* ===== verification/Kind.v ===== *)
(** * Kind: pkg/config/schema/kind

    The enumeration of resource kinds, an 8-bit integer ([iota] from 0), with
    its printer and its parser, as generated in resources.gen.go. *)

From S2P Require Import Prelude.

Local Open Scope Z_scope.

Definition Kind : Type := Z.

Definition Unknown : Kind := 0.
Definition Address : Kind := 1.
Definition BackendTLSPolicy : Kind := 2.
Definition ConfigMap : Kind := 3.
Definition DNSName : Kind := 4.
Definition DaemonSet : Kind := 5.
Definition Deployment : Kind := 6.
Definition EndpointSlice : Kind := 7.
Definition Endpoints : Kind := 8.
Definition EnvoyFilter : Kind := 9.
Definition GRPCRoute : Kind := 10.
Definition GatewayClass : Kind := 11.
Definition HTTPRoute : Kind := 12.
Definition InferencePool : Kind := 13.
Definition KubernetesGateway : Kind := 14.
Definition Namespace : Kind := 15.
Definition Node : Kind := 16.
Definition Pod : Kind := 17.
Definition ReferenceGrant : Kind := 18.
Definition Secret : Kind := 19.
Definition Service : Kind := 20.
Definition ServiceAccount : Kind := 21.
Definition StatefulSet : Kind := 22.
Definition TCPRoute : Kind := 23.
Definition TLSRoute : Kind := 24.
Definition UDPRoute : Kind := 25.
Definition WasmPlugin : Kind := 26.
Definition XBackendTrafficPolicy : Kind := 27.

Definition Kind_String (k : Kind) : string :=
  switch k
    [(Address, "Address");
     (BackendTLSPolicy, "BackendTLSPolicy");
     (ConfigMap, "ConfigMap");
     (DNSName, "DNSName");
     (DaemonSet, "DaemonSet");
     (Deployment, "Deployment");
     (EndpointSlice, "EndpointSlice");
     (Endpoints, "Endpoints");
     (EnvoyFilter, "EnvoyFilter");
     (GRPCRoute, "GRPCRoute");
     (GatewayClass, "GatewayClass");
     (HTTPRoute, "HTTPRoute");
     (InferencePool, "InferencePool");
     (KubernetesGateway, "KubernetesGateway");
     (Namespace, "Namespace");
     (Node, "Node");
     (Pod, "Pod");
     (ReferenceGrant, "ReferenceGrant");
     (Secret, "Secret");
     (Service, "Service");
     (ServiceAccount, "ServiceAccount");
     (StatefulSet, "StatefulSet");
     (TCPRoute, "TCPRoute");
     (TLSRoute, "TLSRoute");
     (UDPRoute, "UDPRoute");
     (WasmPlugin, "WasmPlugin");
     (XBackendTrafficPolicy, "XBackendTrafficPolicy")]%string
    "Unknown"%string.

Definition FromString (s : string) : Kind :=
  switch s
    [("Address", Address);
     ("BackendTLSPolicy", BackendTLSPolicy);
     ("ConfigMap", ConfigMap);
     ("DNSName", DNSName);
     ("DaemonSet", DaemonSet);
     ("Deployment", Deployment);
     ("EndpointSlice", EndpointSlice);
     ("Endpoints", Endpoints);
     ("EnvoyFilter", EnvoyFilter);
     ("GRPCRoute", GRPCRoute);
     ("GatewayClass", GatewayClass);
     ("HTTPRoute", HTTPRoute);
     ("InferencePool", InferencePool);
     ("KubernetesGateway", KubernetesGateway);
     ("Namespace", Namespace);
     ("Node", Node);
     ("Pod", Pod);
     ("ReferenceGrant", ReferenceGrant);
     ("Secret", Secret);
     ("Service", Service);
     ("ServiceAccount", ServiceAccount);
     ("StatefulSet", StatefulSet);
     ("TCPRoute", TCPRoute);
     ("TLSRoute", TLSRoute);
     ("UDPRoute", UDPRoute);
     ("WasmPlugin", WasmPlugin);
     ("XBackendTrafficPolicy", XBackendTrafficPolicy)]%string
    Unknown.

(** The kinds declared. *)
Definition kinds : list Kind :=
  [Unknown; Address; BackendTLSPolicy; ConfigMap; DNSName; DaemonSet; Deployment; EndpointSlice; Endpoints; EnvoyFilter; GRPCRoute; GatewayClass; HTTPRoute; InferencePool; KubernetesGateway; Namespace; Node; Pod; ReferenceGrant; Secret; Service; ServiceAccount; StatefulSet; TCPRoute; TLSRoute; UDPRoute; WasmPlugin; XBackendTrafficPolicy].
