(* ===== verification/Gvk.v ===== *)
(** * Gvk: pkg/config/schema/gvk

    The GroupVersionKinds of the registry and the generated conversions of
    resources.gen.go between them, GroupVersionResources ([Gvr]), kinds
    ([Kind]) and kebab-case names.  [Some (x, true)] of the code is the pair
    [(x, true)] here too: the second component is Go's [ok]. *)

From S2P Require Import Prelude Resource.
From S2P Require Gvr Kind.

Local Open Scope string_scope.

Definition BackendTLSPolicy : GroupVersionKind :=
  {| gvk_Group := "gateway.networking.k8s.io"; gvk_Version := "v1"; gvk_Kind := "BackendTLSPolicy" |}.
Definition ConfigMap : GroupVersionKind :=
  {| gvk_Group := ""; gvk_Version := "v1"; gvk_Kind := "ConfigMap" |}.
Definition DaemonSet : GroupVersionKind :=
  {| gvk_Group := "apps"; gvk_Version := "v1"; gvk_Kind := "DaemonSet" |}.
Definition Deployment : GroupVersionKind :=
  {| gvk_Group := "apps"; gvk_Version := "v1"; gvk_Kind := "Deployment" |}.
Definition EndpointSlice : GroupVersionKind :=
  {| gvk_Group := "discovery.k8s.io"; gvk_Version := "v1"; gvk_Kind := "EndpointSlice" |}.
Definition Endpoints : GroupVersionKind :=
  {| gvk_Group := ""; gvk_Version := "v1"; gvk_Kind := "Endpoints" |}.
Definition EnvoyFilter : GroupVersionKind :=
  {| gvk_Group := "networking.istio.io"; gvk_Version := "v1alpha3"; gvk_Kind := "EnvoyFilter" |}.
Definition GRPCRoute : GroupVersionKind :=
  {| gvk_Group := "gateway.networking.k8s.io"; gvk_Version := "v1"; gvk_Kind := "GRPCRoute" |}.
Definition GRPCRoute_v1alpha2 : GroupVersionKind :=
  {| gvk_Group := "gateway.networking.k8s.io"; gvk_Version := "v1alpha2"; gvk_Kind := "GRPCRoute" |}.
Definition GatewayClass : GroupVersionKind :=
  {| gvk_Group := "gateway.networking.k8s.io"; gvk_Version := "v1"; gvk_Kind := "GatewayClass" |}.
Definition GatewayClass_v1alpha2 : GroupVersionKind :=
  {| gvk_Group := "gateway.networking.k8s.io"; gvk_Version := "v1alpha2"; gvk_Kind := "GatewayClass" |}.
Definition GatewayClass_v1beta1 : GroupVersionKind :=
  {| gvk_Group := "gateway.networking.k8s.io"; gvk_Version := "v1beta1"; gvk_Kind := "GatewayClass" |}.
Definition HTTPRoute : GroupVersionKind :=
  {| gvk_Group := "gateway.networking.k8s.io"; gvk_Version := "v1"; gvk_Kind := "HTTPRoute" |}.
Definition HTTPRoute_v1alpha2 : GroupVersionKind :=
  {| gvk_Group := "gateway.networking.k8s.io"; gvk_Version := "v1alpha2"; gvk_Kind := "HTTPRoute" |}.
Definition HTTPRoute_v1beta1 : GroupVersionKind :=
  {| gvk_Group := "gateway.networking.k8s.io"; gvk_Version := "v1beta1"; gvk_Kind := "HTTPRoute" |}.
Definition InferencePool : GroupVersionKind :=
  {| gvk_Group := "inference.networking.k8s.io"; gvk_Version := "v1"; gvk_Kind := "InferencePool" |}.
Definition KubernetesGateway : GroupVersionKind :=
  {| gvk_Group := "gateway.networking.k8s.io"; gvk_Version := "v1"; gvk_Kind := "Gateway" |}.
Definition KubernetesGateway_v1alpha2 : GroupVersionKind :=
  {| gvk_Group := "gateway.networking.k8s.io"; gvk_Version := "v1alpha2"; gvk_Kind := "Gateway" |}.
Definition KubernetesGateway_v1beta1 : GroupVersionKind :=
  {| gvk_Group := "gateway.networking.k8s.io"; gvk_Version := "v1beta1"; gvk_Kind := "Gateway" |}.
Definition Namespace : GroupVersionKind :=
  {| gvk_Group := ""; gvk_Version := "v1"; gvk_Kind := "Namespace" |}.
Definition Node : GroupVersionKind :=
  {| gvk_Group := ""; gvk_Version := "v1"; gvk_Kind := "Node" |}.
Definition Pod : GroupVersionKind :=
  {| gvk_Group := ""; gvk_Version := "v1"; gvk_Kind := "Pod" |}.
Definition ReferenceGrant : GroupVersionKind :=
  {| gvk_Group := "gateway.networking.k8s.io"; gvk_Version := "v1beta1"; gvk_Kind := "ReferenceGrant" |}.
Definition ReferenceGrant_v1alpha2 : GroupVersionKind :=
  {| gvk_Group := "gateway.networking.k8s.io"; gvk_Version := "v1alpha2"; gvk_Kind := "ReferenceGrant" |}.
Definition Secret : GroupVersionKind :=
  {| gvk_Group := ""; gvk_Version := "v1"; gvk_Kind := "Secret" |}.
Definition Service : GroupVersionKind :=
  {| gvk_Group := ""; gvk_Version := "v1"; gvk_Kind := "Service" |}.
Definition ServiceAccount : GroupVersionKind :=
  {| gvk_Group := ""; gvk_Version := "v1"; gvk_Kind := "ServiceAccount" |}.
Definition StatefulSet : GroupVersionKind :=
  {| gvk_Group := "apps"; gvk_Version := "v1"; gvk_Kind := "StatefulSet" |}.
Definition TCPRoute : GroupVersionKind :=
  {| gvk_Group := "gateway.networking.k8s.io"; gvk_Version := "v1alpha2"; gvk_Kind := "TCPRoute" |}.
Definition TLSRoute : GroupVersionKind :=
  {| gvk_Group := "gateway.networking.k8s.io"; gvk_Version := "v1alpha2"; gvk_Kind := "TLSRoute" |}.
Definition UDPRoute : GroupVersionKind :=
  {| gvk_Group := "gateway.networking.k8s.io"; gvk_Version := "v1alpha2"; gvk_Kind := "UDPRoute" |}.
Definition WasmPlugin : GroupVersionKind :=
  {| gvk_Group := "extensions.istio.io"; gvk_Version := "v1alpha1"; gvk_Kind := "WasmPlugin" |}.
Definition XBackendTrafficPolicy : GroupVersionKind :=
  {| gvk_Group := "gateway.networking.x-k8s.io"; gvk_Version := "v1alpha1"; gvk_Kind := "XBackendTrafficPolicy" |}.

Definition zero_gvr : GroupVersionResource :=
  {| gvr_Group := ""; gvr_Version := ""; gvr_Resource := "" |}.
Definition zero_gvk : GroupVersionKind :=
  {| gvk_Group := ""; gvk_Version := ""; gvk_Kind := "" |}.

Definition ToGVR (g : GroupVersionKind) : GroupVersionResource * bool :=
  switch g
    [(BackendTLSPolicy, (Gvr.BackendTLSPolicy, true));
     (ConfigMap, (Gvr.ConfigMap, true));
     (DaemonSet, (Gvr.DaemonSet, true));
     (Deployment, (Gvr.Deployment, true));
     (EndpointSlice, (Gvr.EndpointSlice, true));
     (Endpoints, (Gvr.Endpoints, true));
     (EnvoyFilter, (Gvr.EnvoyFilter, true));
     (GRPCRoute, (Gvr.GRPCRoute, true));
     (GRPCRoute_v1alpha2, (Gvr.GRPCRoute_v1alpha2, true));
     (GatewayClass, (Gvr.GatewayClass, true));
     (GatewayClass_v1alpha2, (Gvr.GatewayClass_v1alpha2, true));
     (GatewayClass_v1beta1, (Gvr.GatewayClass_v1beta1, true));
     (HTTPRoute, (Gvr.HTTPRoute, true));
     (HTTPRoute_v1alpha2, (Gvr.HTTPRoute_v1alpha2, true));
     (HTTPRoute_v1beta1, (Gvr.HTTPRoute_v1beta1, true));
     (InferencePool, (Gvr.InferencePool, true));
     (KubernetesGateway, (Gvr.KubernetesGateway, true));
     (KubernetesGateway_v1alpha2, (Gvr.KubernetesGateway_v1alpha2, true));
     (KubernetesGateway_v1beta1, (Gvr.KubernetesGateway_v1beta1, true));
     (Namespace, (Gvr.Namespace, true));
     (Node, (Gvr.Node, true));
     (Pod, (Gvr.Pod, true));
     (ReferenceGrant, (Gvr.ReferenceGrant, true));
     (ReferenceGrant_v1alpha2, (Gvr.ReferenceGrant_v1alpha2, true));
     (Secret, (Gvr.Secret, true));
     (Service, (Gvr.Service, true));
     (ServiceAccount, (Gvr.ServiceAccount, true));
     (StatefulSet, (Gvr.StatefulSet, true));
     (TCPRoute, (Gvr.TCPRoute, true));
     (TLSRoute, (Gvr.TLSRoute, true));
     (UDPRoute, (Gvr.UDPRoute, true));
     (WasmPlugin, (Gvr.WasmPlugin, true));
     (XBackendTrafficPolicy, (Gvr.XBackendTrafficPolicy, true))]
    (zero_gvr, false).

Definition ToKind (g : GroupVersionKind) : Kind.Kind * bool :=
  switch g
    [(BackendTLSPolicy, (Kind.BackendTLSPolicy, true));
     (ConfigMap, (Kind.ConfigMap, true));
     (DaemonSet, (Kind.DaemonSet, true));
     (Deployment, (Kind.Deployment, true));
     (EndpointSlice, (Kind.EndpointSlice, true));
     (Endpoints, (Kind.Endpoints, true));
     (EnvoyFilter, (Kind.EnvoyFilter, true));
     (GRPCRoute, (Kind.GRPCRoute, true));
     (GatewayClass, (Kind.GatewayClass, true));
     (HTTPRoute, (Kind.HTTPRoute, true));
     (InferencePool, (Kind.InferencePool, true));
     (KubernetesGateway, (Kind.KubernetesGateway, true));
     (Namespace, (Kind.Namespace, true));
     (Node, (Kind.Node, true));
     (Pod, (Kind.Pod, true));
     (ReferenceGrant, (Kind.ReferenceGrant, true));
     (Secret, (Kind.Secret, true));
     (Service, (Kind.Service, true));
     (ServiceAccount, (Kind.ServiceAccount, true));
     (StatefulSet, (Kind.StatefulSet, true));
     (TCPRoute, (Kind.TCPRoute, true));
     (TLSRoute, (Kind.TLSRoute, true));
     (UDPRoute, (Kind.UDPRoute, true));
     (WasmPlugin, (Kind.WasmPlugin, true));
     (XBackendTrafficPolicy, (Kind.XBackendTrafficPolicy, true))]
    (Kind.Unknown, false).

(** Converts, and panics if it cannot. *)
Definition must {E A} (r : A * bool) : outcome E A :=
  let '(x, ok) := r in if negb ok then Panic ExplicitPanic else Ret x.

Definition MustToKind {E} (g : GroupVersionKind) : outcome E Kind.Kind := must (ToKind g).
Definition MustToGVR {E} (g : GroupVersionKind) : outcome E GroupVersionResource := must (ToGVR g).

Definition FromGVR (g : GroupVersionResource) : GroupVersionKind * bool :=
  switch g
    [(Gvr.BackendTLSPolicy, (BackendTLSPolicy, true));
     (Gvr.ConfigMap, (ConfigMap, true));
     (Gvr.DaemonSet, (DaemonSet, true));
     (Gvr.Deployment, (Deployment, true));
     (Gvr.EndpointSlice, (EndpointSlice, true));
     (Gvr.Endpoints, (Endpoints, true));
     (Gvr.EnvoyFilter, (EnvoyFilter, true));
     (Gvr.GRPCRoute, (GRPCRoute, true));
     (Gvr.GatewayClass, (GatewayClass, true));
     (Gvr.HTTPRoute, (HTTPRoute, true));
     (Gvr.InferencePool, (InferencePool, true));
     (Gvr.KubernetesGateway, (KubernetesGateway, true));
     (Gvr.Namespace, (Namespace, true));
     (Gvr.Node, (Node, true));
     (Gvr.Pod, (Pod, true));
     (Gvr.ReferenceGrant, (ReferenceGrant, true));
     (Gvr.Secret, (Secret, true));
     (Gvr.Service, (Service, true));
     (Gvr.ServiceAccount, (ServiceAccount, true));
     (Gvr.StatefulSet, (StatefulSet, true));
     (Gvr.TCPRoute, (TCPRoute, true));
     (Gvr.TLSRoute, (TLSRoute, true));
     (Gvr.UDPRoute, (UDPRoute, true));
     (Gvr.WasmPlugin, (WasmPlugin, true));
     (Gvr.XBackendTrafficPolicy, (XBackendTrafficPolicy, true))]
    (zero_gvk, false).

Definition MustFromGVR {E} (g : GroupVersionResource) : outcome E GroupVersionKind := must (FromGVR g).

Definition KebabKind (k : string) : string :=
  switch k
    [("BackendTLSPolicy", "backend-tls-policy");
     ("ConfigMap", "config-map");
     ("DaemonSet", "daemon-set");
     ("Deployment", "deployment");
     ("EndpointSlice", "endpoint-slice");
     ("Endpoints", "endpoints");
     ("EnvoyFilter", "envoy-filter");
     ("GRPCRoute", "grpc-route");
     ("Gateway", "gateway");
     ("GatewayClass", "gateway-class");
     ("HTTPRoute", "http-route");
     ("InferencePool", "inference-pool");
     ("Namespace", "namespace");
     ("Node", "node");
     ("Pod", "pod");
     ("ReferenceGrant", "reference-grant");
     ("Secret", "secret");
     ("Service", "service");
     ("ServiceAccount", "service-account");
     ("StatefulSet", "stateful-set");
     ("TCPRoute", "tcp-route");
     ("TLSRoute", "tls-route");
     ("UDPRoute", "udp-route");
     ("WasmPlugin", "wasm-plugin");
     ("XBackendTrafficPolicy", "x-backend-traffic-policy")]
    "".
