(* ===== verification/Collections.v ===== *)
(** * Collections: pkg/config/schema/collections

    The registry of the resources the program watches: the builders of
    collections.gen.go (build without the tag [agent]), and the collections
    [All], [Kube], [Pilot] and the two Gateway API ones.  Each package variable
    is an outcome, because [MustBuild] and [MustAdd] may panic while the
    package is initialised. *)

From S2P Require Import Prelude Resource Collection.

Local Open Scope string_scope.

Section Collections.
Context {GV : GoValues} {PT : ProtoTypes}.

Definition BackendTLSPolicy_builder : Builder :=
  {| b_Identifier := "BackendTLSPolicy";
     b_Group := "gateway.networking.k8s.io";
     b_Kind := "BackendTLSPolicy";
     b_Plural := "backendtlspolicies";
     b_Version := "v1";
     VersionAliases := [];
     b_Proto := "k8s.io.gateway_api.api.v1.BackendTLSPolicySpec";
     StatusProto := "k8s.io.gateway_api.api.v1.PolicyStatus";
     ReflectType := Some {| type_pkg := "sigs.k8s.io/gateway-api/apis/v1"; type_name := "BackendTLSPolicySpec" |};
     StatusType := Some {| type_pkg := "sigs.k8s.io/gateway-api/apis/v1"; type_name := "PolicyStatus" |};
     b_ProtoPackage := "sigs.k8s.io/gateway-api/apis/v1";
     b_StatusPackage := "sigs.k8s.io/gateway-api/apis/v1";
     ClusterScoped := false;
     Synthetic := false;
     Builtin := false;
     ValidateProto := Some EmptyValidate |}.

Definition BackendTLSPolicy : outcome _ schemaImpl := MustBuild BackendTLSPolicy_builder.

Definition ConfigMap_builder : Builder :=
  {| b_Identifier := "ConfigMap";
     b_Group := "";
     b_Kind := "ConfigMap";
     b_Plural := "configmaps";
     b_Version := "v1";
     VersionAliases := [];
     b_Proto := "k8s.io.api.core.v1.ConfigMap";
     StatusProto := "";
     ReflectType := Some {| type_pkg := "k8s.io/api/core/v1"; type_name := "ConfigMap" |};
     StatusType := None;
     b_ProtoPackage := "k8s.io/api/core/v1";
     b_StatusPackage := "";
     ClusterScoped := false;
     Synthetic := false;
     Builtin := true;
     ValidateProto := Some EmptyValidate |}.

Definition ConfigMap : outcome _ schemaImpl := MustBuild ConfigMap_builder.

Definition DaemonSet_builder : Builder :=
  {| b_Identifier := "DaemonSet";
     b_Group := "apps";
     b_Kind := "DaemonSet";
     b_Plural := "daemonsets";
     b_Version := "v1";
     VersionAliases := [];
     b_Proto := "k8s.io.api.apps.v1.DaemonSetSpec";
     StatusProto := "";
     ReflectType := Some {| type_pkg := "k8s.io/api/apps/v1"; type_name := "DaemonSetSpec" |};
     StatusType := None;
     b_ProtoPackage := "k8s.io/api/apps/v1";
     b_StatusPackage := "";
     ClusterScoped := false;
     Synthetic := false;
     Builtin := true;
     ValidateProto := Some EmptyValidate |}.

Definition DaemonSet : outcome _ schemaImpl := MustBuild DaemonSet_builder.

Definition Deployment_builder : Builder :=
  {| b_Identifier := "Deployment";
     b_Group := "apps";
     b_Kind := "Deployment";
     b_Plural := "deployments";
     b_Version := "v1";
     VersionAliases := [];
     b_Proto := "k8s.io.api.apps.v1.DeploymentSpec";
     StatusProto := "";
     ReflectType := Some {| type_pkg := "k8s.io/api/apps/v1"; type_name := "DeploymentSpec" |};
     StatusType := None;
     b_ProtoPackage := "k8s.io/api/apps/v1";
     b_StatusPackage := "";
     ClusterScoped := false;
     Synthetic := false;
     Builtin := true;
     ValidateProto := Some EmptyValidate |}.

Definition Deployment : outcome _ schemaImpl := MustBuild Deployment_builder.

Definition EndpointSlice_builder : Builder :=
  {| b_Identifier := "EndpointSlice";
     b_Group := "discovery.k8s.io";
     b_Kind := "EndpointSlice";
     b_Plural := "endpointslices";
     b_Version := "v1";
     VersionAliases := [];
     b_Proto := "k8s.io.api.discovery.v1.EndpointSlice";
     StatusProto := "";
     ReflectType := Some {| type_pkg := "k8s.io/api/discovery/v1"; type_name := "EndpointSlice" |};
     StatusType := None;
     b_ProtoPackage := "k8s.io/api/discovery/v1";
     b_StatusPackage := "";
     ClusterScoped := false;
     Synthetic := false;
     Builtin := true;
     ValidateProto := Some EmptyValidate |}.

Definition EndpointSlice : outcome _ schemaImpl := MustBuild EndpointSlice_builder.

Definition Endpoints_builder : Builder :=
  {| b_Identifier := "Endpoints";
     b_Group := "";
     b_Kind := "Endpoints";
     b_Plural := "endpoints";
     b_Version := "v1";
     VersionAliases := [];
     b_Proto := "k8s.io.api.core.v1.Endpoints";
     StatusProto := "";
     ReflectType := Some {| type_pkg := "k8s.io/api/core/v1"; type_name := "Endpoints" |};
     StatusType := None;
     b_ProtoPackage := "k8s.io/api/core/v1";
     b_StatusPackage := "";
     ClusterScoped := false;
     Synthetic := false;
     Builtin := true;
     ValidateProto := Some EmptyValidate |}.

Definition Endpoints : outcome _ schemaImpl := MustBuild Endpoints_builder.

Definition EnvoyFilter_builder : Builder :=
  {| b_Identifier := "EnvoyFilter";
     b_Group := "networking.istio.io";
     b_Kind := "EnvoyFilter";
     b_Plural := "envoyfilters";
     b_Version := "v1alpha3";
     VersionAliases := [];
     b_Proto := "istio.networking.v1alpha3.EnvoyFilter";
     StatusProto := "istio.meta.v1alpha1.IstioStatus";
     ReflectType := Some {| type_pkg := "istio.io/api/networking/v1alpha3"; type_name := "EnvoyFilter" |};
     StatusType := Some {| type_pkg := "istio.io/api/meta/v1alpha1"; type_name := "IstioStatus" |};
     b_ProtoPackage := "istio.io/api/networking/v1alpha3";
     b_StatusPackage := "istio.io/api/meta/v1alpha1";
     ClusterScoped := false;
     Synthetic := false;
     Builtin := false;
     ValidateProto := Some EmptyValidate |}.

Definition EnvoyFilter : outcome _ schemaImpl := MustBuild EnvoyFilter_builder.

Definition GRPCRoute_builder : Builder :=
  {| b_Identifier := "GRPCRoute";
     b_Group := "gateway.networking.k8s.io";
     b_Kind := "GRPCRoute";
     b_Plural := "grpcroutes";
     b_Version := "v1";
     VersionAliases := ["v1alpha2"];
     b_Proto := "k8s.io.gateway_api.api.v1alpha1.GRPCRouteSpec";
     StatusProto := "k8s.io.gateway_api.api.v1alpha1.GRPCRouteStatus";
     ReflectType := Some {| type_pkg := "sigs.k8s.io/gateway-api/apis/v1"; type_name := "GRPCRouteSpec" |};
     StatusType := Some {| type_pkg := "sigs.k8s.io/gateway-api/apis/v1"; type_name := "GRPCRouteStatus" |};
     b_ProtoPackage := "sigs.k8s.io/gateway-api/apis/v1";
     b_StatusPackage := "sigs.k8s.io/gateway-api/apis/v1";
     ClusterScoped := false;
     Synthetic := false;
     Builtin := false;
     ValidateProto := Some EmptyValidate |}.

Definition GRPCRoute : outcome _ schemaImpl := MustBuild GRPCRoute_builder.

Definition GatewayClass_builder : Builder :=
  {| b_Identifier := "GatewayClass";
     b_Group := "gateway.networking.k8s.io";
     b_Kind := "GatewayClass";
     b_Plural := "gatewayclasses";
     b_Version := "v1";
     VersionAliases := ["v1alpha2"; "v1beta1"];
     b_Proto := "k8s.io.gateway_api.api.v1alpha1.GatewayClassSpec";
     StatusProto := "k8s.io.gateway_api.api.v1alpha1.GatewayClassStatus";
     ReflectType := Some {| type_pkg := "sigs.k8s.io/gateway-api/apis/v1"; type_name := "GatewayClassSpec" |};
     StatusType := Some {| type_pkg := "sigs.k8s.io/gateway-api/apis/v1"; type_name := "GatewayClassStatus" |};
     b_ProtoPackage := "sigs.k8s.io/gateway-api/apis/v1";
     b_StatusPackage := "sigs.k8s.io/gateway-api/apis/v1";
     ClusterScoped := true;
     Synthetic := false;
     Builtin := false;
     ValidateProto := Some EmptyValidate |}.

Definition GatewayClass : outcome _ schemaImpl := MustBuild GatewayClass_builder.

Definition HTTPRoute_builder : Builder :=
  {| b_Identifier := "HTTPRoute";
     b_Group := "gateway.networking.k8s.io";
     b_Kind := "HTTPRoute";
     b_Plural := "httproutes";
     b_Version := "v1";
     VersionAliases := ["v1alpha2"; "v1beta1"];
     b_Proto := "k8s.io.gateway_api.api.v1alpha1.HTTPRouteSpec";
     StatusProto := "k8s.io.gateway_api.api.v1alpha1.HTTPRouteStatus";
     ReflectType := Some {| type_pkg := "sigs.k8s.io/gateway-api/apis/v1"; type_name := "HTTPRouteSpec" |};
     StatusType := Some {| type_pkg := "sigs.k8s.io/gateway-api/apis/v1"; type_name := "HTTPRouteStatus" |};
     b_ProtoPackage := "sigs.k8s.io/gateway-api/apis/v1";
     b_StatusPackage := "sigs.k8s.io/gateway-api/apis/v1";
     ClusterScoped := false;
     Synthetic := false;
     Builtin := false;
     ValidateProto := Some EmptyValidate |}.

Definition HTTPRoute : outcome _ schemaImpl := MustBuild HTTPRoute_builder.

Definition InferencePool_builder : Builder :=
  {| b_Identifier := "InferencePool";
     b_Group := "inference.networking.k8s.io";
     b_Kind := "InferencePool";
     b_Plural := "inferencepools";
     b_Version := "v1";
     VersionAliases := [];
     b_Proto := "x-k8s.io.gateway-api-inference-extension.api.v1.InferencePoolSpec";
     StatusProto := "x-k8s.io.gateway-api-inference-extension.api.v1.InferencePoolStatus";
     ReflectType := Some {| type_pkg := "sigs.k8s.io/gateway-api-inference-extension/api/v1"; type_name := "InferencePoolSpec" |};
     StatusType := Some {| type_pkg := "sigs.k8s.io/gateway-api-inference-extension/api/v1"; type_name := "InferencePoolStatus" |};
     b_ProtoPackage := "sigs.k8s.io/gateway-api-inference-extension/api/v1";
     b_StatusPackage := "sigs.k8s.io/gateway-api-inference-extension/api/v1";
     ClusterScoped := false;
     Synthetic := false;
     Builtin := false;
     ValidateProto := Some EmptyValidate |}.

Definition InferencePool : outcome _ schemaImpl := MustBuild InferencePool_builder.

Definition KubernetesGateway_builder : Builder :=
  {| b_Identifier := "KubernetesGateway";
     b_Group := "gateway.networking.k8s.io";
     b_Kind := "Gateway";
     b_Plural := "gateways";
     b_Version := "v1";
     VersionAliases := ["v1alpha2"; "v1beta1"];
     b_Proto := "k8s.io.gateway_api.api.v1alpha1.GatewaySpec";
     StatusProto := "k8s.io.gateway_api.api.v1alpha1.GatewayStatus";
     ReflectType := Some {| type_pkg := "sigs.k8s.io/gateway-api/apis/v1"; type_name := "GatewaySpec" |};
     StatusType := Some {| type_pkg := "sigs.k8s.io/gateway-api/apis/v1"; type_name := "GatewayStatus" |};
     b_ProtoPackage := "sigs.k8s.io/gateway-api/apis/v1";
     b_StatusPackage := "sigs.k8s.io/gateway-api/apis/v1";
     ClusterScoped := false;
     Synthetic := false;
     Builtin := false;
     ValidateProto := Some EmptyValidate |}.

Definition KubernetesGateway : outcome _ schemaImpl := MustBuild KubernetesGateway_builder.

Definition Namespace_builder : Builder :=
  {| b_Identifier := "Namespace";
     b_Group := "";
     b_Kind := "Namespace";
     b_Plural := "namespaces";
     b_Version := "v1";
     VersionAliases := [];
     b_Proto := "k8s.io.api.core.v1.NamespaceSpec";
     StatusProto := "";
     ReflectType := Some {| type_pkg := "k8s.io/api/core/v1"; type_name := "NamespaceSpec" |};
     StatusType := None;
     b_ProtoPackage := "k8s.io/api/core/v1";
     b_StatusPackage := "";
     ClusterScoped := true;
     Synthetic := false;
     Builtin := true;
     ValidateProto := Some EmptyValidate |}.

Definition Namespace : outcome _ schemaImpl := MustBuild Namespace_builder.

Definition Node_builder : Builder :=
  {| b_Identifier := "Node";
     b_Group := "";
     b_Kind := "Node";
     b_Plural := "nodes";
     b_Version := "v1";
     VersionAliases := [];
     b_Proto := "k8s.io.api.core.v1.NodeSpec";
     StatusProto := "";
     ReflectType := Some {| type_pkg := "k8s.io/api/core/v1"; type_name := "NodeSpec" |};
     StatusType := None;
     b_ProtoPackage := "k8s.io/api/core/v1";
     b_StatusPackage := "";
     ClusterScoped := true;
     Synthetic := false;
     Builtin := true;
     ValidateProto := Some EmptyValidate |}.

Definition Node : outcome _ schemaImpl := MustBuild Node_builder.

Definition Pod_builder : Builder :=
  {| b_Identifier := "Pod";
     b_Group := "";
     b_Kind := "Pod";
     b_Plural := "pods";
     b_Version := "v1";
     VersionAliases := [];
     b_Proto := "k8s.io.api.core.v1.PodSpec";
     StatusProto := "";
     ReflectType := Some {| type_pkg := "k8s.io/api/core/v1"; type_name := "PodSpec" |};
     StatusType := None;
     b_ProtoPackage := "k8s.io/api/core/v1";
     b_StatusPackage := "";
     ClusterScoped := false;
     Synthetic := false;
     Builtin := true;
     ValidateProto := Some EmptyValidate |}.

Definition Pod : outcome _ schemaImpl := MustBuild Pod_builder.

Definition ReferenceGrant_builder : Builder :=
  {| b_Identifier := "ReferenceGrant";
     b_Group := "gateway.networking.k8s.io";
     b_Kind := "ReferenceGrant";
     b_Plural := "referencegrants";
     b_Version := "v1beta1";
     VersionAliases := ["v1alpha2"];
     b_Proto := "k8s.io.gateway_api.api.v1alpha1.ReferenceGrantSpec";
     StatusProto := "";
     ReflectType := Some {| type_pkg := "sigs.k8s.io/gateway-api/apis/v1beta1"; type_name := "ReferenceGrantSpec" |};
     StatusType := None;
     b_ProtoPackage := "sigs.k8s.io/gateway-api/apis/v1beta1";
     b_StatusPackage := "";
     ClusterScoped := false;
     Synthetic := false;
     Builtin := false;
     ValidateProto := Some EmptyValidate |}.

Definition ReferenceGrant : outcome _ schemaImpl := MustBuild ReferenceGrant_builder.

Definition Secret_builder : Builder :=
  {| b_Identifier := "Secret";
     b_Group := "";
     b_Kind := "Secret";
     b_Plural := "secrets";
     b_Version := "v1";
     VersionAliases := [];
     b_Proto := "k8s.io.api.core.v1.Secret";
     StatusProto := "";
     ReflectType := Some {| type_pkg := "k8s.io/api/core/v1"; type_name := "Secret" |};
     StatusType := None;
     b_ProtoPackage := "k8s.io/api/core/v1";
     b_StatusPackage := "";
     ClusterScoped := false;
     Synthetic := false;
     Builtin := true;
     ValidateProto := Some EmptyValidate |}.

Definition Secret : outcome _ schemaImpl := MustBuild Secret_builder.

Definition Service_builder : Builder :=
  {| b_Identifier := "Service";
     b_Group := "";
     b_Kind := "Service";
     b_Plural := "services";
     b_Version := "v1";
     VersionAliases := [];
     b_Proto := "k8s.io.api.core.v1.ServiceSpec";
     StatusProto := "k8s.io.api.core.v1.ServiceStatus";
     ReflectType := Some {| type_pkg := "k8s.io/api/core/v1"; type_name := "ServiceSpec" |};
     StatusType := Some {| type_pkg := "k8s.io/api/core/v1"; type_name := "ServiceStatus" |};
     b_ProtoPackage := "k8s.io/api/core/v1";
     b_StatusPackage := "k8s.io/api/core/v1";
     ClusterScoped := false;
     Synthetic := false;
     Builtin := true;
     ValidateProto := Some EmptyValidate |}.

Definition Service : outcome _ schemaImpl := MustBuild Service_builder.

Definition ServiceAccount_builder : Builder :=
  {| b_Identifier := "ServiceAccount";
     b_Group := "";
     b_Kind := "ServiceAccount";
     b_Plural := "serviceaccounts";
     b_Version := "v1";
     VersionAliases := [];
     b_Proto := "k8s.io.api.core.v1.ServiceAccount";
     StatusProto := "";
     ReflectType := Some {| type_pkg := "k8s.io/api/core/v1"; type_name := "ServiceAccount" |};
     StatusType := None;
     b_ProtoPackage := "k8s.io/api/core/v1";
     b_StatusPackage := "";
     ClusterScoped := false;
     Synthetic := false;
     Builtin := true;
     ValidateProto := Some EmptyValidate |}.

Definition ServiceAccount : outcome _ schemaImpl := MustBuild ServiceAccount_builder.

Definition StatefulSet_builder : Builder :=
  {| b_Identifier := "StatefulSet";
     b_Group := "apps";
     b_Kind := "StatefulSet";
     b_Plural := "statefulsets";
     b_Version := "v1";
     VersionAliases := [];
     b_Proto := "k8s.io.api.apps.v1.StatefulSetSpec";
     StatusProto := "";
     ReflectType := Some {| type_pkg := "k8s.io/api/apps/v1"; type_name := "StatefulSetSpec" |};
     StatusType := None;
     b_ProtoPackage := "k8s.io/api/apps/v1";
     b_StatusPackage := "";
     ClusterScoped := false;
     Synthetic := false;
     Builtin := true;
     ValidateProto := Some EmptyValidate |}.

Definition StatefulSet : outcome _ schemaImpl := MustBuild StatefulSet_builder.

Definition TCPRoute_builder : Builder :=
  {| b_Identifier := "TCPRoute";
     b_Group := "gateway.networking.k8s.io";
     b_Kind := "TCPRoute";
     b_Plural := "tcproutes";
     b_Version := "v1alpha2";
     VersionAliases := [];
     b_Proto := "k8s.io.gateway_api.api.v1alpha1.TCPRouteSpec";
     StatusProto := "k8s.io.gateway_api.api.v1alpha1.TCPRouteStatus";
     ReflectType := Some {| type_pkg := "sigs.k8s.io/gateway-api/apis/v1alpha2"; type_name := "TCPRouteSpec" |};
     StatusType := Some {| type_pkg := "sigs.k8s.io/gateway-api/apis/v1alpha2"; type_name := "TCPRouteStatus" |};
     b_ProtoPackage := "sigs.k8s.io/gateway-api/apis/v1alpha2";
     b_StatusPackage := "sigs.k8s.io/gateway-api/apis/v1alpha2";
     ClusterScoped := false;
     Synthetic := false;
     Builtin := false;
     ValidateProto := Some EmptyValidate |}.

Definition TCPRoute : outcome _ schemaImpl := MustBuild TCPRoute_builder.

Definition TLSRoute_builder : Builder :=
  {| b_Identifier := "TLSRoute";
     b_Group := "gateway.networking.k8s.io";
     b_Kind := "TLSRoute";
     b_Plural := "tlsroutes";
     b_Version := "v1alpha2";
     VersionAliases := [];
     b_Proto := "k8s.io.gateway_api.api.v1alpha1.TLSRouteSpec";
     StatusProto := "k8s.io.gateway_api.api.v1alpha1.TLSRouteStatus";
     ReflectType := Some {| type_pkg := "sigs.k8s.io/gateway-api/apis/v1alpha2"; type_name := "TLSRouteSpec" |};
     StatusType := Some {| type_pkg := "sigs.k8s.io/gateway-api/apis/v1alpha2"; type_name := "TLSRouteStatus" |};
     b_ProtoPackage := "sigs.k8s.io/gateway-api/apis/v1alpha2";
     b_StatusPackage := "sigs.k8s.io/gateway-api/apis/v1alpha2";
     ClusterScoped := false;
     Synthetic := false;
     Builtin := false;
     ValidateProto := Some EmptyValidate |}.

Definition TLSRoute : outcome _ schemaImpl := MustBuild TLSRoute_builder.

Definition UDPRoute_builder : Builder :=
  {| b_Identifier := "UDPRoute";
     b_Group := "gateway.networking.k8s.io";
     b_Kind := "UDPRoute";
     b_Plural := "udproutes";
     b_Version := "v1alpha2";
     VersionAliases := [];
     b_Proto := "k8s.io.gateway_api.api.v1alpha1.UDPRouteSpec";
     StatusProto := "k8s.io.gateway_api.api.v1alpha1.UDPRouteStatus";
     ReflectType := Some {| type_pkg := "sigs.k8s.io/gateway-api/apis/v1alpha2"; type_name := "UDPRouteSpec" |};
     StatusType := Some {| type_pkg := "sigs.k8s.io/gateway-api/apis/v1alpha2"; type_name := "UDPRouteStatus" |};
     b_ProtoPackage := "sigs.k8s.io/gateway-api/apis/v1alpha2";
     b_StatusPackage := "sigs.k8s.io/gateway-api/apis/v1alpha2";
     ClusterScoped := false;
     Synthetic := false;
     Builtin := false;
     ValidateProto := Some EmptyValidate |}.

Definition UDPRoute : outcome _ schemaImpl := MustBuild UDPRoute_builder.

Definition WasmPlugin_builder : Builder :=
  {| b_Identifier := "WasmPlugin";
     b_Group := "extensions.istio.io";
     b_Kind := "WasmPlugin";
     b_Plural := "wasmplugins";
     b_Version := "v1alpha1";
     VersionAliases := [];
     b_Proto := "istio.extensions.v1alpha1.WasmPlugin";
     StatusProto := "istio.meta.v1alpha1.IstioStatus";
     ReflectType := Some {| type_pkg := "istio.io/api/extensions/v1alpha1"; type_name := "WasmPlugin" |};
     StatusType := Some {| type_pkg := "istio.io/api/meta/v1alpha1"; type_name := "IstioStatus" |};
     b_ProtoPackage := "istio.io/api/extensions/v1alpha1";
     b_StatusPackage := "istio.io/api/meta/v1alpha1";
     ClusterScoped := false;
     Synthetic := false;
     Builtin := false;
     ValidateProto := Some EmptyValidate |}.

Definition WasmPlugin : outcome _ schemaImpl := MustBuild WasmPlugin_builder.

Definition XBackendTrafficPolicy_builder : Builder :=
  {| b_Identifier := "XBackendTrafficPolicy";
     b_Group := "gateway.networking.x-k8s.io";
     b_Kind := "XBackendTrafficPolicy";
     b_Plural := "xbackendtrafficpolicies";
     b_Version := "v1alpha1";
     VersionAliases := [];
     b_Proto := "k8s.io.gateway_api.apix.v1alpha1.BackendTrafficPolicySpec";
     StatusProto := "PolicyStatus";
     ReflectType := Some {| type_pkg := "sigs.k8s.io/gateway-api/apisx/v1alpha1"; type_name := "BackendTrafficPolicySpec" |};
     StatusType := Some {| type_pkg := "sigs.k8s.io/gateway-api/apisx/v1alpha1"; type_name := "PolicyStatus" |};
     b_ProtoPackage := "sigs.k8s.io/gateway-api/apisx/v1alpha1";
     b_StatusPackage := "sigs.k8s.io/gateway-api/apisx/v1alpha1";
     ClusterScoped := false;
     Synthetic := false;
     Builtin := false;
     ValidateProto := Some EmptyValidate |}.

Definition XBackendTrafficPolicy : outcome _ schemaImpl := MustBuild XBackendTrafficPolicy_builder.

(** [collection.NewSchemasBuilder().MustAdd(x1). ... .MustAdd(xn).Build()] once
    the variables [xi] are initialised. *)
Definition build_schemas (xs : list (outcome (list schema_error) schemaImpl)) :
    outcome add_error Schemas :=
  let* b := foldl (fun acc x =>
      let* b := acc in
      match x with
      | Ret s => MustAdd b s
      | Err _ => Panic ExplicitPanic
      | Panic p => Panic p
      end) (Ret NewSchemasBuilder) xs in
  Ret (Build b).1.

Definition All : outcome add_error Schemas :=
  build_schemas
    [BackendTLSPolicy; ConfigMap; DaemonSet; Deployment; EndpointSlice; Endpoints;
     EnvoyFilter; GRPCRoute; GatewayClass; HTTPRoute; InferencePool; KubernetesGateway;
     Namespace; Node; Pod; ReferenceGrant; Secret; Service; ServiceAccount; StatefulSet;
     TCPRoute; TLSRoute; UDPRoute; WasmPlugin; XBackendTrafficPolicy].

Definition Kube : outcome add_error Schemas :=
  build_schemas
    [BackendTLSPolicy; ConfigMap; DaemonSet; Deployment; EndpointSlice; Endpoints;
     GRPCRoute; GatewayClass; HTTPRoute; InferencePool; KubernetesGateway; Namespace; Node;
     Pod; ReferenceGrant; Secret; Service; ServiceAccount; StatefulSet; TCPRoute; TLSRoute;
     UDPRoute; XBackendTrafficPolicy].

Definition Pilot : outcome add_error Schemas :=
  build_schemas
    [EnvoyFilter; WasmPlugin].

Definition pilotGatewayAPI : outcome add_error Schemas :=
  build_schemas
    [BackendTLSPolicy; EnvoyFilter; GRPCRoute; GatewayClass; HTTPRoute; KubernetesGateway;
     ReferenceGrant; TCPRoute; TLSRoute; UDPRoute; WasmPlugin; XBackendTrafficPolicy].

Definition pilotStableGatewayAPI : outcome add_error Schemas :=
  build_schemas
    [BackendTLSPolicy; EnvoyFilter; GRPCRoute; GatewayClass; HTTPRoute; KubernetesGateway;
     ReferenceGrant; WasmPlugin].

(** extras.go. *)
Definition GatewayAPI : outcome add_error Schemas := pilotStableGatewayAPI.

End Collections.
