(* ===== verification/Ast.v ===== *)
(** * Ast: pkg/config/schema/ast

    The resources of metadata.yaml and the decoding of the file: defaults of
    the validation function and the identifier, uniqueness of identifiers.  The
    YAML and JSON decoders are a parameter ([YamlDecoder]); what they decode is
    a list of pointers, which a null entry of the file makes nil. *)

From S2P Require Import Prelude GoStd Strcase Resource.

Record Resource := {
  r_Identifier : string;
  r_Group : string;
  r_Version : string;
  r_VersionAliases : list string;
  r_Kind : string;
  r_Plural : string;
  r_ClusterScoped : bool;
  r_Builtin : bool;
  r_Specless : bool;
  r_Synthetic : bool;
  r_Proto : string;
  r_ProtoPackage : string;
  r_StatusProto : string;
  r_StatusProtoPackage : string;
  r_Validate : string;
  r_Description : string
}.

(** The resources a text decodes to; [None] is the decoder's error. *)
Class YamlDecoder := { decode_resources : string -> option (list (option Resource)) }.

Inductive parse_error :=
| DecodeError
| DuplicateIdentifier (id : string).

Definition asResourceVariableName (n : string) : string := CamelCase n.

Definition set_defaults (r : Resource) (id validate : string) : Resource :=
  {| r_Identifier := id; r_Group := r_Group r; r_Version := r_Version r;
     r_VersionAliases := r_VersionAliases r; r_Kind := r_Kind r; r_Plural := r_Plural r;
     r_ClusterScoped := r_ClusterScoped r; r_Builtin := r_Builtin r;
     r_Specless := r_Specless r; r_Synthetic := r_Synthetic r; r_Proto := r_Proto r;
     r_ProtoPackage := r_ProtoPackage r; r_StatusProto := r_StatusProto r;
     r_StatusProtoPackage := r_StatusProtoPackage r; r_Validate := validate;
     r_Description := r_Description r |}.

Section Ast.
Context {GV : GoValues} {YD : YamlDecoder}.

(** The name in the field Validate when the file gives none. *)
Definition default_validate (fs : validateFuncs) (r : Resource) : string :=
  let validateFn := "Validate" +:+ asResourceVariableName (r_Kind r) in
  if negb (IsValidateFunc fs validateFn) then "validation.EmptyValidate"
  else if bool_decide (r_Kind r = "EnvoyFilter"%string) then "envoyfilter." +:+ validateFn
  else "validation." +:+ validateFn.

(** What the loop body writes to one resource. *)
Definition with_defaults (fs : validateFuncs) (r : Resource) : Resource :=
  set_defaults r
    (if bool_decide (r_Identifier r = ""%string) then r_Kind r else r_Identifier r)
    (if bool_decide (r_Validate r = ""%string) then default_validate fs r else r_Validate r).

(** The loop of [UnmarshalJSON]: the resources as it leaves them, and the
    error it returns.  A nil resource is dereferenced. *)
Fixpoint process (fs : validateFuncs) (seen : gset string) (rs : list (option Resource)) :
    outcome parse_error (list (option Resource) * option parse_error) :=
  match rs with
  | [] => Ret ([], None)
  | None :: _ => Panic NilDereference
  | Some r0 :: rest =>
      let r := with_defaults fs r0 in
      if bool_decide (r_Identifier r ∈ seen) then
        Ret (Some r :: rest, Some (DuplicateIdentifier (r_Identifier r)))
      else
        let* ' (rest', e) := process fs ({[r_Identifier r]} ∪ seen) rest in
        Ret (Some r :: rest', e)
  end.

(** The new Resources of the receiver, and the error. *)
Definition UnmarshalJSON (fs : validateFuncs) (data : string) (old : list (option Resource)) :
    outcome parse_error (list (option Resource) * option parse_error) :=
  match decode_resources data with
  | None => Ret (old, Some DecodeError)
  | Some rs => process fs ∅ rs
  end.

Definition Parse (fs : validateFuncs) (yamlText : string) : outcome parse_error (list (option Resource)) :=
  let* ' (m, e) := UnmarshalJSON fs yamlText [] in
  match e with
  | Some err => Err err
  | None => Ret m
  end.

(** The identifier a resource ends up with. *)
Definition effective_id (r : Resource) : string :=
  if bool_decide (r_Identifier r = ""%string) then r_Kind r else r_Identifier r.

Lemma process_ok fs seen rs :
  NoDup (map effective_id rs) -> Forall (fun r => effective_id r ∉ seen) rs ->
  process fs seen (map Some rs) = Ret (map (fun r => Some (with_defaults fs r)) rs, None).
Proof.
  revert seen. induction rs as [|r rs IH]; intros seen Hn Hs; [done|].
  cbn [map process] in *. apply NoDup_cons in Hn as [Hr Hn]. apply Forall_cons in Hs as [Hr' Hs].
  change (r_Identifier (with_defaults fs r)) with (effective_id r).
  rewrite bool_decide_eq_false_2 by done. rewrite IH; [done..|].
  apply Forall_forall. intros r' Hin Hx. rewrite Forall_forall in Hs.
  apply elem_of_union in Hx as [Hx%elem_of_singleton|Hx]; [|by eapply Hs].
  apply Hr. apply list_elem_of_fmap. eauto.
Qed.

Lemma process_dup fs seen rs :
  ~ (NoDup (map effective_id rs) /\ Forall (fun r => effective_id r ∉ seen) rs) ->
  exists m id, process fs seen (map Some rs) = Ret (m, Some (DuplicateIdentifier id)).
Proof.
  revert seen. induction rs as [|r rs IH]; intros seen H; [destruct H; split; constructor|].
  cbn [map process]. change (r_Identifier (with_defaults fs r)) with (effective_id r).
  destruct (bool_decide (effective_id r ∈ seen)) eqn:E; bool_hyps; [by eauto|].
  destruct (IH ({[effective_id r]} ∪ seen)) as (m & id & ->); [|by cbn; eauto].
  intros [Hn Hs]. apply H. rewrite Forall_forall in Hs. split.
  - cbn. apply NoDup_cons. split; [|done]. intros (r' & Hr' & Hin)%list_elem_of_fmap.
    apply (Hs r' Hin). rewrite <- Hr'. set_solver.
  - apply Forall_cons. split; [done|]. apply Forall_forall. intros r' Hin Hx.
    apply (Hs r' Hin). set_solver.
Qed.

Lemma process_nil fs seen rs :
  None ∈ rs -> process fs seen rs = Panic NilDereference \/
  exists m id, process fs seen rs = Ret (m, Some (DuplicateIdentifier id)).
Proof.
  revert seen. induction rs as [|[r|] rs IH]; intros seen H; [by apply elem_of_nil in H| |by left].
  apply elem_of_cons in H as [H|H]; [done|]. cbn [process].
  destruct (bool_decide _); [right; eauto|].
  destruct (IH ({[r_Identifier (with_defaults fs r)]} ∪ seen) H) as [->|(m & id & ->)]; cbn; eauto.
Qed.

End Ast.

(** [Parse] succeeds exactly on a text that decodes to non-nil resources
    whose effective identifiers (the Kind when the file gives none) are
    distinct; it then returns the resources in order, changed only in the
    fields Identifier and Validate.  Two resources with the same identifier are
    an error, a null resource is a nil dereference unless a duplicate comes
    first; and while only the package's own function is registered, every
    missing Validate becomes [validation.EmptyValidate]. *)
Theorem parse_branches {GV : GoValues} {YD : YamlDecoder} (fs : validateFuncs) text :
  (decode_resources text = None -> Parse fs text = Err DecodeError) /\
  (forall rs, decode_resources text = Some (map Some rs) ->
     (NoDup (map effective_id rs) ->
        Parse fs text = Ret (map (fun r => Some (with_defaults fs r)) rs)) /\
     (~ NoDup (map effective_id rs) ->
        exists id, Parse fs text = Err (DuplicateIdentifier id))) /\
  (forall rs, decode_resources text = Some rs -> None ∈ rs ->
     Parse fs text = Panic NilDereference \/ exists id, Parse fs text = Err (DuplicateIdentifier id)) /\
  (forall r, default_validate initial_validateFuncs r = "validation.EmptyValidate"%string).
Proof.
  unfold Parse, UnmarshalJSON. split_and!.
  - by intros ->.
  - intros rs ->. split; intros Hn.
    + rewrite process_ok; [done|done|]. apply Forall_forall. set_solver.
    + destruct (process_dup fs ∅ rs) as (m & id & ->); [naive_solver|]. cbn. eauto.
  - intros rs -> Hin. destruct (process_nil fs ∅ rs Hin) as [->|(m & id & ->)]; cbn; eauto.
  - intros r. unfold default_validate.
    unfold IsValidateFunc, GetValidateFunc.
    assert (initial_validateFuncs !! ("Validate" +:+ asResourceVariableName (r_Kind r)) = None) as ->; [|done].
    apply (lookup_insert_None (∅ : gmap string (option ValidateFunc))). split; [done|].
    rewrite !str_app_cons. congruence.
Qed.
