(* ===== verification/Codegen.v ===== *)
(** * Codegen: pkg/config/schema/codegen

    The generator of the registry tables: [buildInputs] turns the resources of
    metadata.yaml into the sorted entries and imports the templates range over,
    and [Run] derives the entries of the kind table, of the agent build and the
    kinds of [KebabKind].  Executing the templates and goimports is I/O and not
    modelled; what the templates print is compared with the committed tables in
    [Registry]. *)

From S2P Require Import Prelude GoStd Ast.

Local Open Scope string_scope.

(** ** Library functions *)

(** [strings.ReplaceAll(s, c, "")] for a one-byte [c]. *)
Fixpoint remove_char (c : ascii) (s : string) : string :=
  match s with
  | EmptyString => EmptyString
  | String a s' => if bool_decide (a = c) then remove_char c s' else String a (remove_char c s')
  end.

(** [strings.Compare(a, b) < 0]. *)
Definition str_lt (a b : string) : bool :=
  match String.compare a b with Lt => true | _ => false end.

(** [sort.Slice] by a string key; the keys sorted here are distinct, so any
    sorting algorithm gives this list. *)
Fixpoint insert_by {A} (key : A -> string) (x : A) (l : list A) : list A :=
  match l with
  | [] => [x]
  | y :: l' => if str_lt (key y) (key x) then y :: insert_by key x l' else x :: l
  end.
Definition sort_by {A} (key : A -> string) (l : list A) : list A := foldr (insert_by key) [] l.

(** [strcase.UpperCamelCase] of github.com/stoewer/go-strcase. *)
Class StoewerStrcase := { UpperCamelCase : string -> string }.

(** The rune decoded at the start of a non-empty string, and [byte(c)]. *)
Definition decode_rune (s : string) : Z :=
  match s, rune_size s with
  | String c0 (String c1 _), 2%nat => (byte_val c0 - 192) * 64 + (byte_val c1 - 128)
  | String c0 (String c1 (String c2 _)), 3%nat =>
      (byte_val c0 - 224) * 4096 + (byte_val c1 - 128) * 64 + (byte_val c2 - 128)
  | String c0 (String c1 (String c2 (String c3 _))), 4%nat =>
      (byte_val c0 - 240) * 262144 + (byte_val c1 - 128) * 4096 +
      (byte_val c2 - 128) * 64 + (byte_val c3 - 128)
  | String c0 _, _ => if (byte_val c0 <? 128)%Z then byte_val c0 else 65533
  | EmptyString, _ => 65533
  end%Z.
Definition rune_byte (c : Z) : ascii := ascii_of_N (Z.to_N (c mod 256)).

(** [bytes.ToUpper([]byte{b})[0]]: a byte that is not ASCII is an invalid
    encoding and becomes the first byte of U+FFFD. *)
Definition upper_byte (b : ascii) : ascii :=
  if in_bytes 97 122 b then ascii_of_N (N_of_ascii b - 32)
  else if (byte_val b <? 128)%Z then b else ascii_of_N 239.

(** ** Names derived from a resource *)

Definition toImport (p : string) : string :=
  remove_char "-" (remove_char "." (remove_char "/" p)).

(** [p[:len(p)-1]]. *)
Fixpoint but_last (l : list string) : list string :=
  match l with
  | [] => []
  | [_] => []
  | x :: l' => x :: but_last l'
  end.

Definition toIstioAwareImport (protoPackage version : string) : string :=
  let p := split_on "/" protoPackage in
  let base := foldr String.append "" (but_last p) in
  let imp := remove_char "-" (remove_char "." base) +:+ version in
  if str_contains "istio.io" protoPackage then "api" +:+ imp else imp.

(** The loop over the runes of the plural; [i] is the index of the byte at
    hand and [skip] the bytes left of the current rune. *)
Fixpoint type_path_loop (k : string) (i skip : nat) (g : string) : string :=
  match g with
  | EmptyString => EmptyString
  | String _ g' =>
      match skip with
      | S n => type_path_loop k (S i) n g'
      | O =>
          let c := rune_byte (decode_rune g) in
          let rest := type_path_loop k (S i) (rune_size g - 1) g' in
          match String.get i k with
          | None => String c rest
          | Some ki => if bool_decide (ki = upper_byte c) then String ki rest else String c rest
          end
      end
  end.

Definition toTypePath (r : Resource) : string := type_path_loop (r_Kind r) 0 0 (r_Plural r).

Definition toGetter (protoPackage : string) : string :=
  if str_contains "istio.io" protoPackage then "Istio"
  else if str_contains "sigs.k8s.io/gateway-api-inference-extension" protoPackage then "GatewayAPIInference"
  else if str_contains "sigs.k8s.io/gateway-api" protoPackage then "GatewayAPI"
  else if str_contains "k8s.io/apiextensions-apiserver" protoPackage then "Ext"
  else "Kube".

Section Codegen.
Context {SC : StoewerStrcase}.

(** [p[e-1]] is out of range for a package path without a slash. *)
Definition toGroup (protoPackage version : string) : outcome parse_error string :=
  let p := split_on "/" protoPackage in
  let e := (length p - 1)%nat in
  if str_contains "sigs.k8s.io/gateway-api/apisx" protoPackage then
    Ret ("Experimental" +:+ UpperCamelCase version)
  else if str_contains "sigs.k8s.io/gateway-api-inference-extension" protoPackage then
    Ret ("Inference" +:+ UpperCamelCase version)
  else if str_contains "sigs.k8s.io/gateway-api" protoPackage then
    Ret ("Gateway" +:+ UpperCamelCase version)
  else
    match e with
    | O => Panic IndexOutOfRange
    | S e' =>
        match p !! e' with
        | Some x => Ret (UpperCamelCase x +:+ UpperCamelCase version)
        | None => Panic IndexOutOfRange
        end
    end.

(** ** buildInputs *)

Record packageImport := { PackageName : string; ImportName : string }.

Record colEntry := {
  ce_Resource : Resource;
  ClientImport : string;
  StatusImport : string;
  IstioAwareClientImport : string;
  ClientGroupPath : string;
  ClientGetter : string;
  ClientTypePath : string;
  SpecType : string;
  ce_StatusType : string
}.

Record inputs := { Entries : list colEntry; Packages : list packageImport }.

(** The last component of a dotted name. *)
Definition last_component (s : string) : string :=
  match last (split_on "." s) with Some x => x | None => "" end.

(** The body of the loop over the resources. *)
Definition entry_of (r : Resource) : outcome parse_error colEntry :=
  let* path := toGroup (r_ProtoPackage r) (r_Version r) in
  Ret {| ce_Resource := r;
         ClientImport := toImport (r_ProtoPackage r);
         StatusImport := toImport (r_StatusProtoPackage r);
         IstioAwareClientImport := toIstioAwareImport (r_ProtoPackage r) (r_Version r);
         ClientGroupPath := path;
         ClientGetter := toGetter (r_ProtoPackage r);
         ClientTypePath := toTypePath r;
         SpecType := last_component (r_Proto r);
         ce_StatusType :=
           if negb (bool_decide (r_StatusProtoPackage r = "")) then last_component (r_StatusProto r)
           else "" |}.

Fixpoint entries_of (rs : list (option Resource)) : outcome parse_error (list colEntry) :=
  match rs with
  | [] => Ret []
  | p :: rest =>
      let* r := deref p in
      let* e := entry_of r in
      let* es := entries_of rest in
      Ret (e :: es)
  end.

Definition entry_id (e : colEntry) : string := r_Identifier (ce_Resource e).

(** The non-empty package paths, a set. *)
Definition package_names (rs : list Resource) : gset string :=
  list_to_set (filter (fun p => p <> "")
    (concat (map (fun r => [r_ProtoPackage r; r_StatusProtoPackage r]) rs))).

(** The part of [buildInputs] after [ast.Parse]. *)
Definition buildInputs (m : list (option Resource)) : outcome parse_error inputs :=
  let* es := entries_of m in
  let names := package_names (omap id m) in
  let packages := map (fun p => {| PackageName := p; ImportName := toImport p |}) (elements names) in
  Ret {| Entries := sort_by entry_id es; Packages := sort_by PackageName packages |}.

(** ** Run *)

(** A synthetic entry has a resource and nothing else. *)
Definition synthetic_entry (name : string) : colEntry :=
  {| ce_Resource :=
       {| r_Identifier := name; r_Group := "internal"; r_Version := "internal";
          r_VersionAliases := []; r_Kind := name; r_Plural := ""; r_ClusterScoped := false;
          r_Builtin := false; r_Specless := false; r_Synthetic := false; r_Proto := "";
          r_ProtoPackage := ""; r_StatusProto := ""; r_StatusProtoPackage := "";
          r_Validate := ""; r_Description := "" |};
     ClientImport := ""; StatusImport := ""; IstioAwareClientImport := "";
     ClientGroupPath := ""; ClientGetter := ""; ClientTypePath := ""; SpecType := "";
     ce_StatusType := "" |}.

Definition kindEntries (inp : inputs) : list colEntry :=
  sort_by entry_id (synthetic_entry "Address" :: synthetic_entry "DNSName" :: Entries inp).

(** Only the types the agent needs. *)
Definition agentEntries (inp : inputs) : list colEntry :=
  filter (fun e =>
    str_contains "istio.io" (r_ProtoPackage (ce_Resource e)) &&
    negb (bool_decide (r_Kind (ce_Resource e) = "EnvoyFilter"))) (Entries inp).

(** The loop with the map [seenKinds], then [sort.Strings]. *)
Fixpoint unique_kinds_loop (seenKinds : gset string) (es : list colEntry) : list string :=
  match es with
  | [] => []
  | e :: rest =>
      let k := r_Kind (ce_Resource e) in
      if bool_decide (k ∈ seenKinds) then unique_kinds_loop seenKinds rest
      else k :: unique_kinds_loop ({[k]} ∪ seenKinds) rest
  end.

Definition uniqueKinds (inp : inputs) : list string :=
  sort_by id (unique_kinds_loop ∅ (Entries inp)).

End Codegen.
