(* ===== verification/Registry.v ===== *)
(** * Registry: the committed tables against metadata.yaml

    [metadata] is src/pkg/config/schema/metadata.yaml; the functions after it
    are what the templates of codegen print for the entries [buildInputs]
    derives.  The theorems show that the committed tables ([Collections],
    [Gvk], [Gvr], [Kind]) are the ones the generator prints, that the registry
    initialises, and how the conversions between its names invert each other. *)

From S2P Require Import Prelude GoStd Strcase Resource Collection.
From S2P Require Import Gvr Kind Gvk Collections Ast Codegen.

Local Open Scope string_scope.

(** ** metadata.yaml *)

Definition metadata : list Resource :=
  [ {| r_Identifier := ""; r_Group := "apps"; r_Version := "v1";
      r_VersionAliases := []; r_Kind := "Deployment"; r_Plural := "deployments";
      r_ClusterScoped := false; r_Builtin := true; r_Specless := false; r_Synthetic := false;
      r_Proto := "k8s.io.api.apps.v1.DeploymentSpec";
      r_ProtoPackage := "k8s.io/api/apps/v1";
      r_StatusProto := "";
      r_StatusProtoPackage := "";
      r_Validate := ""; r_Description := "" |};
    {| r_Identifier := ""; r_Group := ""; r_Version := "v1";
      r_VersionAliases := []; r_Kind := "Endpoints"; r_Plural := "endpoints";
      r_ClusterScoped := false; r_Builtin := true; r_Specless := true; r_Synthetic := false;
      r_Proto := "k8s.io.api.core.v1.Endpoints";
      r_ProtoPackage := "k8s.io/api/core/v1";
      r_StatusProto := "";
      r_StatusProtoPackage := "";
      r_Validate := ""; r_Description := "" |};
    {| r_Identifier := ""; r_Group := "discovery.k8s.io"; r_Version := "v1";
      r_VersionAliases := []; r_Kind := "EndpointSlice"; r_Plural := "endpointslices";
      r_ClusterScoped := false; r_Builtin := true; r_Specless := true; r_Synthetic := false;
      r_Proto := "k8s.io.api.discovery.v1.EndpointSlice";
      r_ProtoPackage := "k8s.io/api/discovery/v1";
      r_StatusProto := "";
      r_StatusProtoPackage := "";
      r_Validate := ""; r_Description := "" |};
    {| r_Identifier := ""; r_Group := ""; r_Version := "v1";
      r_VersionAliases := []; r_Kind := "Namespace"; r_Plural := "namespaces";
      r_ClusterScoped := true; r_Builtin := true; r_Specless := false; r_Synthetic := false;
      r_Proto := "k8s.io.api.core.v1.NamespaceSpec";
      r_ProtoPackage := "k8s.io/api/core/v1";
      r_StatusProto := "";
      r_StatusProtoPackage := "";
      r_Validate := ""; r_Description := "" |};
    {| r_Identifier := ""; r_Group := ""; r_Version := "v1";
      r_VersionAliases := []; r_Kind := "Node"; r_Plural := "nodes";
      r_ClusterScoped := true; r_Builtin := true; r_Specless := false; r_Synthetic := false;
      r_Proto := "k8s.io.api.core.v1.NodeSpec";
      r_ProtoPackage := "k8s.io/api/core/v1";
      r_StatusProto := "";
      r_StatusProtoPackage := "";
      r_Validate := ""; r_Description := "" |};
    {| r_Identifier := ""; r_Group := ""; r_Version := "v1";
      r_VersionAliases := []; r_Kind := "Pod"; r_Plural := "pods";
      r_ClusterScoped := false; r_Builtin := true; r_Specless := false; r_Synthetic := false;
      r_Proto := "k8s.io.api.core.v1.PodSpec";
      r_ProtoPackage := "k8s.io/api/core/v1";
      r_StatusProto := "";
      r_StatusProtoPackage := "";
      r_Validate := ""; r_Description := "" |};
    {| r_Identifier := ""; r_Group := "apps"; r_Version := "v1";
      r_VersionAliases := []; r_Kind := "DaemonSet"; r_Plural := "daemonsets";
      r_ClusterScoped := false; r_Builtin := true; r_Specless := false; r_Synthetic := false;
      r_Proto := "k8s.io.api.apps.v1.DaemonSetSpec";
      r_ProtoPackage := "k8s.io/api/apps/v1";
      r_StatusProto := "";
      r_StatusProtoPackage := "";
      r_Validate := ""; r_Description := "" |};
    {| r_Identifier := ""; r_Group := "apps"; r_Version := "v1";
      r_VersionAliases := []; r_Kind := "StatefulSet"; r_Plural := "statefulsets";
      r_ClusterScoped := false; r_Builtin := true; r_Specless := false; r_Synthetic := false;
      r_Proto := "k8s.io.api.apps.v1.StatefulSetSpec";
      r_ProtoPackage := "k8s.io/api/apps/v1";
      r_StatusProto := "";
      r_StatusProtoPackage := "";
      r_Validate := ""; r_Description := "" |};
    {| r_Identifier := ""; r_Group := ""; r_Version := "v1";
      r_VersionAliases := []; r_Kind := "Secret"; r_Plural := "secrets";
      r_ClusterScoped := false; r_Builtin := true; r_Specless := true; r_Synthetic := false;
      r_Proto := "k8s.io.api.core.v1.Secret";
      r_ProtoPackage := "k8s.io/api/core/v1";
      r_StatusProto := "";
      r_StatusProtoPackage := "";
      r_Validate := ""; r_Description := "" |};
    {| r_Identifier := ""; r_Group := ""; r_Version := "v1";
      r_VersionAliases := []; r_Kind := "Service"; r_Plural := "services";
      r_ClusterScoped := false; r_Builtin := true; r_Specless := false; r_Synthetic := false;
      r_Proto := "k8s.io.api.core.v1.ServiceSpec";
      r_ProtoPackage := "k8s.io/api/core/v1";
      r_StatusProto := "k8s.io.api.core.v1.ServiceStatus";
      r_StatusProtoPackage := "k8s.io/api/core/v1";
      r_Validate := ""; r_Description := "" |};
    {| r_Identifier := ""; r_Group := ""; r_Version := "v1";
      r_VersionAliases := []; r_Kind := "ConfigMap"; r_Plural := "configmaps";
      r_ClusterScoped := false; r_Builtin := true; r_Specless := true; r_Synthetic := false;
      r_Proto := "k8s.io.api.core.v1.ConfigMap";
      r_ProtoPackage := "k8s.io/api/core/v1";
      r_StatusProto := "";
      r_StatusProtoPackage := "";
      r_Validate := ""; r_Description := "" |};
    {| r_Identifier := ""; r_Group := ""; r_Version := "v1";
      r_VersionAliases := []; r_Kind := "ServiceAccount"; r_Plural := "serviceaccounts";
      r_ClusterScoped := false; r_Builtin := true; r_Specless := true; r_Synthetic := false;
      r_Proto := "k8s.io.api.core.v1.ServiceAccount";
      r_ProtoPackage := "k8s.io/api/core/v1";
      r_StatusProto := "";
      r_StatusProtoPackage := "";
      r_Validate := ""; r_Description := "" |};
    {| r_Identifier := ""; r_Group := "gateway.networking.k8s.io"; r_Version := "v1";
      r_VersionAliases := ["v1alpha2"; "v1beta1"]; r_Kind := "GatewayClass"; r_Plural := "gatewayclasses";
      r_ClusterScoped := true; r_Builtin := false; r_Specless := false; r_Synthetic := false;
      r_Proto := "k8s.io.gateway_api.api.v1alpha1.GatewayClassSpec";
      r_ProtoPackage := "sigs.k8s.io/gateway-api/apis/v1";
      r_StatusProto := "k8s.io.gateway_api.api.v1alpha1.GatewayClassStatus";
      r_StatusProtoPackage := "sigs.k8s.io/gateway-api/apis/v1";
      r_Validate := ""; r_Description := "" |};
    {| r_Identifier := "KubernetesGateway"; r_Group := "gateway.networking.k8s.io"; r_Version := "v1";
      r_VersionAliases := ["v1alpha2"; "v1beta1"]; r_Kind := "Gateway"; r_Plural := "gateways";
      r_ClusterScoped := false; r_Builtin := false; r_Specless := false; r_Synthetic := false;
      r_Proto := "k8s.io.gateway_api.api.v1alpha1.GatewaySpec";
      r_ProtoPackage := "sigs.k8s.io/gateway-api/apis/v1";
      r_StatusProto := "k8s.io.gateway_api.api.v1alpha1.GatewayStatus";
      r_StatusProtoPackage := "sigs.k8s.io/gateway-api/apis/v1";
      r_Validate := "validation.EmptyValidate"; r_Description := "" |};
    {| r_Identifier := ""; r_Group := "gateway.networking.k8s.io"; r_Version := "v1";
      r_VersionAliases := ["v1alpha2"; "v1beta1"]; r_Kind := "HTTPRoute"; r_Plural := "httproutes";
      r_ClusterScoped := false; r_Builtin := false; r_Specless := false; r_Synthetic := false;
      r_Proto := "k8s.io.gateway_api.api.v1alpha1.HTTPRouteSpec";
      r_ProtoPackage := "sigs.k8s.io/gateway-api/apis/v1";
      r_StatusProto := "k8s.io.gateway_api.api.v1alpha1.HTTPRouteStatus";
      r_StatusProtoPackage := "sigs.k8s.io/gateway-api/apis/v1";
      r_Validate := ""; r_Description := "" |};
    {| r_Identifier := ""; r_Group := "gateway.networking.k8s.io"; r_Version := "v1";
      r_VersionAliases := ["v1alpha2"]; r_Kind := "GRPCRoute"; r_Plural := "grpcroutes";
      r_ClusterScoped := false; r_Builtin := false; r_Specless := false; r_Synthetic := false;
      r_Proto := "k8s.io.gateway_api.api.v1alpha1.GRPCRouteSpec";
      r_ProtoPackage := "sigs.k8s.io/gateway-api/apis/v1";
      r_StatusProto := "k8s.io.gateway_api.api.v1alpha1.GRPCRouteStatus";
      r_StatusProtoPackage := "sigs.k8s.io/gateway-api/apis/v1";
      r_Validate := ""; r_Description := "" |};
    {| r_Identifier := ""; r_Group := "gateway.networking.k8s.io"; r_Version := "v1alpha2";
      r_VersionAliases := []; r_Kind := "TCPRoute"; r_Plural := "tcproutes";
      r_ClusterScoped := false; r_Builtin := false; r_Specless := false; r_Synthetic := false;
      r_Proto := "k8s.io.gateway_api.api.v1alpha1.TCPRouteSpec";
      r_ProtoPackage := "sigs.k8s.io/gateway-api/apis/v1alpha2";
      r_StatusProto := "k8s.io.gateway_api.api.v1alpha1.TCPRouteStatus";
      r_StatusProtoPackage := "sigs.k8s.io/gateway-api/apis/v1alpha2";
      r_Validate := ""; r_Description := "" |};
    {| r_Identifier := ""; r_Group := "gateway.networking.k8s.io"; r_Version := "v1alpha2";
      r_VersionAliases := []; r_Kind := "TLSRoute"; r_Plural := "tlsroutes";
      r_ClusterScoped := false; r_Builtin := false; r_Specless := false; r_Synthetic := false;
      r_Proto := "k8s.io.gateway_api.api.v1alpha1.TLSRouteSpec";
      r_ProtoPackage := "sigs.k8s.io/gateway-api/apis/v1alpha2";
      r_StatusProto := "k8s.io.gateway_api.api.v1alpha1.TLSRouteStatus";
      r_StatusProtoPackage := "sigs.k8s.io/gateway-api/apis/v1alpha2";
      r_Validate := ""; r_Description := "" |};
    {| r_Identifier := ""; r_Group := "gateway.networking.k8s.io"; r_Version := "v1alpha2";
      r_VersionAliases := []; r_Kind := "UDPRoute"; r_Plural := "udproutes";
      r_ClusterScoped := false; r_Builtin := false; r_Specless := false; r_Synthetic := false;
      r_Proto := "k8s.io.gateway_api.api.v1alpha1.UDPRouteSpec";
      r_ProtoPackage := "sigs.k8s.io/gateway-api/apis/v1alpha2";
      r_StatusProto := "k8s.io.gateway_api.api.v1alpha1.UDPRouteStatus";
      r_StatusProtoPackage := "sigs.k8s.io/gateway-api/apis/v1alpha2";
      r_Validate := ""; r_Description := "" |};
    {| r_Identifier := ""; r_Group := "gateway.networking.k8s.io"; r_Version := "v1beta1";
      r_VersionAliases := ["v1alpha2"]; r_Kind := "ReferenceGrant"; r_Plural := "referencegrants";
      r_ClusterScoped := false; r_Builtin := false; r_Specless := false; r_Synthetic := false;
      r_Proto := "k8s.io.gateway_api.api.v1alpha1.ReferenceGrantSpec";
      r_ProtoPackage := "sigs.k8s.io/gateway-api/apis/v1beta1";
      r_StatusProto := "";
      r_StatusProtoPackage := "";
      r_Validate := ""; r_Description := "" |};
    {| r_Identifier := ""; r_Group := "gateway.networking.x-k8s.io"; r_Version := "v1alpha1";
      r_VersionAliases := []; r_Kind := "XBackendTrafficPolicy"; r_Plural := "xbackendtrafficpolicies";
      r_ClusterScoped := false; r_Builtin := false; r_Specless := false; r_Synthetic := false;
      r_Proto := "k8s.io.gateway_api.apix.v1alpha1.BackendTrafficPolicySpec";
      r_ProtoPackage := "sigs.k8s.io/gateway-api/apisx/v1alpha1";
      r_StatusProto := "PolicyStatus";
      r_StatusProtoPackage := "sigs.k8s.io/gateway-api/apisx/v1alpha1";
      r_Validate := ""; r_Description := "" |};
    {| r_Identifier := ""; r_Group := "gateway.networking.k8s.io"; r_Version := "v1";
      r_VersionAliases := []; r_Kind := "BackendTLSPolicy"; r_Plural := "backendtlspolicies";
      r_ClusterScoped := false; r_Builtin := false; r_Specless := false; r_Synthetic := false;
      r_Proto := "k8s.io.gateway_api.api.v1.BackendTLSPolicySpec";
      r_ProtoPackage := "sigs.k8s.io/gateway-api/apis/v1";
      r_StatusProto := "k8s.io.gateway_api.api.v1.PolicyStatus";
      r_StatusProtoPackage := "sigs.k8s.io/gateway-api/apis/v1";
      r_Validate := ""; r_Description := "" |};
    {| r_Identifier := ""; r_Group := "inference.networking.k8s.io"; r_Version := "v1";
      r_VersionAliases := []; r_Kind := "InferencePool"; r_Plural := "inferencepools";
      r_ClusterScoped := false; r_Builtin := false; r_Specless := false; r_Synthetic := false;
      r_Proto := "x-k8s.io.gateway-api-inference-extension.api.v1.InferencePoolSpec";
      r_ProtoPackage := "sigs.k8s.io/gateway-api-inference-extension/api/v1";
      r_StatusProto := "x-k8s.io.gateway-api-inference-extension.api.v1.InferencePoolStatus";
      r_StatusProtoPackage := "sigs.k8s.io/gateway-api-inference-extension/api/v1";
      r_Validate := ""; r_Description := "" |};
    {| r_Identifier := ""; r_Group := "networking.istio.io"; r_Version := "v1alpha3";
      r_VersionAliases := []; r_Kind := "EnvoyFilter"; r_Plural := "envoyfilters";
      r_ClusterScoped := false; r_Builtin := false; r_Specless := false; r_Synthetic := false;
      r_Proto := "istio.networking.v1alpha3.EnvoyFilter";
      r_ProtoPackage := "istio.io/api/networking/v1alpha3";
      r_StatusProto := "istio.meta.v1alpha1.IstioStatus";
      r_StatusProtoPackage := "istio.io/api/meta/v1alpha1";
      r_Validate := ""; r_Description := "" |};
    {| r_Identifier := ""; r_Group := "extensions.istio.io"; r_Version := "v1alpha1";
      r_VersionAliases := []; r_Kind := "WasmPlugin"; r_Plural := "wasmplugins";
      r_ClusterScoped := false; r_Builtin := false; r_Specless := false; r_Synthetic := false;
      r_Proto := "istio.extensions.v1alpha1.WasmPlugin";
      r_ProtoPackage := "istio.io/api/extensions/v1alpha1";
      r_StatusProto := "istio.meta.v1alpha1.IstioStatus";
      r_StatusProtoPackage := "istio.io/api/meta/v1alpha1";
      r_Validate := ""; r_Description := "" |} ].

(** The resources after [ast.Parse], with the package's own validation registry. *)
Section Generated.
Context {GV : GoValues} {PT : ProtoTypes} {SC : StoewerStrcase}.

Definition parsed : list (option Ast.Resource) :=
  map (fun r => Some (with_defaults initial_validateFuncs r)) metadata.

Definition is_parsed (text : string) `{YamlDecoder} : Prop :=
  decode_resources text = Some (map Some metadata).

Definition generated : outcome parse_error inputs := buildInputs parsed.

(** ** The templates *)

(** The version of an entry and its aliases. *)
Definition versions (e : colEntry) : list string :=
  r_Version (ce_Resource e) :: r_VersionAliases (ce_Resource e).

Definition entry_gvk (e : colEntry) (v : string) : GroupVersionKind :=
  {| gvk_Group := r_Group (ce_Resource e); gvk_Version := v; gvk_Kind := r_Kind (ce_Resource e) |}.
Definition entry_gvr (e : colEntry) (v : string) : GroupVersionResource :=
  {| gvr_Group := r_Group (ce_Resource e); gvr_Version := v; gvr_Resource := r_Plural (ce_Resource e) |}.

(** templates/collections.go.tmpl: the builder of an entry.  A package alias
    stands for the path it was derived from. *)
Definition entry_builder (e : colEntry) : Builder :=
  let r := ce_Resource e in
  {| b_Identifier := r_Identifier r;
     b_Group := r_Group r;
     b_Kind := r_Kind r;
     b_Plural := r_Plural r;
     b_Version := r_Version r;
     VersionAliases := r_VersionAliases r;
     b_Proto := r_Proto r;
     StatusProto := r_StatusProto r;
     ReflectType := Some {| type_pkg := r_ProtoPackage r; type_name := SpecType e |};
     StatusType :=
       if bool_decide (ce_StatusType e = "") then None
       else Some {| type_pkg := r_StatusProtoPackage r; type_name := ce_StatusType e |};
     b_ProtoPackage := r_ProtoPackage r;
     b_StatusPackage := r_StatusProtoPackage r;
     ClusterScoped := r_ClusterScoped r;
     Synthetic := r_Synthetic r;
     Builtin := r_Builtin r;
     ValidateProto :=
       if bool_decide (r_Validate r = "validation.EmptyValidate") then Some EmptyValidate else None |}.

(** The selections of templates/collections.go.tmpl. *)
Definition in_kube (e : colEntry) : bool :=
  str_contains "k8s.io" (r_Group (ce_Resource e)) || r_Builtin (ce_Resource e).
Definition in_pilot (e : colEntry) : bool := str_contains "istio.io" (r_Group (ce_Resource e)).
Definition in_gateway (e : colEntry) : bool :=
  in_pilot e || str_contains "gateway.networking.k8s.io" (r_Group (ce_Resource e)) ||
  str_contains "gateway.networking.x-k8s.io" (r_Group (ce_Resource e)).
Definition in_stable (e : colEntry) : bool :=
  in_pilot e ||
  (str_contains "gateway.networking.k8s.io" (r_Group (ce_Resource e)) &&
   negb (str_contains "alpha" (r_Version (ce_Resource e)))).

Definition entries : list colEntry :=
  match generated with Ret inp => Entries inp | _ => [] end.

(** What an initialised collection of the entries selected by [p] holds. *)
Definition holds (p : colEntry -> bool) (c : outcome add_error Schemas) : Prop :=
  exists s, c = Ret s /\
    byAddOrder s = map (fun e => BuildNoValidate (entry_builder e)) (filter (fun e => p e) entries).

End Generated.

(** ** The collections *)

Section Collections.
Context {GV : GoValues} {PT : ProtoTypes} {SC : StoewerStrcase}.

Definition valid_builder (b : Builder) : bool :=
  match Validate (BuildNoValidate b) with [] => true | _ => false end.

Lemma MustBuild_valid b : valid_builder b = true -> MustBuild b = Ret (BuildNoValidate b).
Proof.
  unfold valid_builder, MustBuild, Resource.Build. cbv zeta.
  by destruct (Validate (BuildNoValidate b)).
Qed.

Lemma build_schemas_builders bs b :
  forallb valid_builder bs = true ->
  foldl (fun acc x =>
      let* b := acc in
      match x with
      | Ret s => MustAdd b s
      | Err _ => Panic ExplicitPanic
      | Panic p => Panic p
      end) (Ret b) (map MustBuild bs) = mustAddAll b (map BuildNoValidate bs).
Proof.
  revert b. induction bs as [|x bs IH]; intros b H; [done|]. cbn [forallb] in H. bool_hyps.
  cbn [map foldl mustAddAll obind]. rewrite MustBuild_valid by done.
  destruct (MustAdd b (BuildNoValidate x)) as [b'|e|p]; cbn [obind]; [by apply IH| |];
    clear; induction bs; cbn [map foldl obind]; auto.
Qed.

(** A collection of valid builders with distinct GroupVersionKinds holds them in order. *)
Lemma build_schemas_ok bs :
  forallb valid_builder bs = true -> NoDup (map (fun b => GVK (BuildNoValidate b)) bs) ->
  exists s, build_schemas (map MustBuild bs) = Ret s /\ byAddOrder s = map BuildNoValidate bs.
Proof.
  intros Hv Hn. unfold build_schemas. rewrite build_schemas_builders by done.
  destruct (mustAddAll_spec NewSchemasBuilder (map BuildNoValidate bs) schemas_ok_new) as [H _].
  destruct H as (b & -> & _ & Ho); [simpl; by rewrite map_map|]. cbn. eauto.
Qed.

Lemma holds_builders (p : colEntry -> bool) c bs :
  c = build_schemas (map MustBuild bs) ->
  forallb valid_builder bs = true ->
  bool_decide (NoDup (map (fun b => GVK (BuildNoValidate b)) bs)) = true ->
  bs = map entry_builder (filter (fun e => p e) entries) ->
  holds p c.
Proof.
  intros -> Hv Hn%bool_decide_eq_true Hb.
  destruct (build_schemas_ok bs Hv Hn) as (s & Hs & Ho).
  exists s. split; [done|]. rewrite Ho, Hb, map_map. done.
Qed.

(** Closed facts are computed. *)
Ltac by_holds bs := apply (holds_builders _ _ bs); [reflexivity|vm_compute; reflexivity..].

Lemma holds_All : holds (fun _ => true) All.
Proof.
  by_holds [BackendTLSPolicy_builder; ConfigMap_builder; DaemonSet_builder; Deployment_builder;
    EndpointSlice_builder; Endpoints_builder; EnvoyFilter_builder; GRPCRoute_builder;
    GatewayClass_builder; HTTPRoute_builder; InferencePool_builder; KubernetesGateway_builder;
    Namespace_builder; Node_builder; Pod_builder; ReferenceGrant_builder; Secret_builder;
    Service_builder; ServiceAccount_builder; StatefulSet_builder; TCPRoute_builder;
    TLSRoute_builder; UDPRoute_builder; WasmPlugin_builder; XBackendTrafficPolicy_builder].
Qed.

Lemma holds_Kube : holds in_kube Kube.
Proof.
  by_holds [BackendTLSPolicy_builder; ConfigMap_builder; DaemonSet_builder; Deployment_builder;
    EndpointSlice_builder; Endpoints_builder; GRPCRoute_builder; GatewayClass_builder;
    HTTPRoute_builder; InferencePool_builder; KubernetesGateway_builder; Namespace_builder;
    Node_builder; Pod_builder; ReferenceGrant_builder; Secret_builder; Service_builder;
    ServiceAccount_builder; StatefulSet_builder; TCPRoute_builder; TLSRoute_builder;
    UDPRoute_builder; XBackendTrafficPolicy_builder].
Qed.

Lemma holds_Pilot : holds in_pilot Pilot.
Proof. by_holds [EnvoyFilter_builder; WasmPlugin_builder]. Qed.

Lemma holds_pilotGatewayAPI : holds in_gateway pilotGatewayAPI.
Proof.
  by_holds [BackendTLSPolicy_builder; EnvoyFilter_builder; GRPCRoute_builder;
    GatewayClass_builder; HTTPRoute_builder; KubernetesGateway_builder; ReferenceGrant_builder;
    TCPRoute_builder; TLSRoute_builder; UDPRoute_builder; WasmPlugin_builder;
    XBackendTrafficPolicy_builder].
Qed.

Lemma holds_GatewayAPI : holds in_stable GatewayAPI.
Proof.
  by_holds [BackendTLSPolicy_builder; EnvoyFilter_builder; GRPCRoute_builder;
    GatewayClass_builder; HTTPRoute_builder; KubernetesGateway_builder; ReferenceGrant_builder;
    WasmPlugin_builder].
Qed.

Lemma generated_entries : exists inp, generated = Ret inp /\ Entries inp = entries.
Proof. unfold entries. assert (is_ret generated = true) as H by by vm_compute. destruct generated; [eauto|done..]. Qed.

Lemma parse_metadata {YD : YamlDecoder} text :
  is_parsed text -> Parse initial_validateFuncs text = Ret parsed.
Proof.
  intros H. unfold Parse, UnmarshalJSON. rewrite H. rewrite process_ok; [done| |].
  - apply (bool_decide_unpack _). by vm_compute.
  - apply Forall_forall. set_solver.
Qed.

(** C17: The registry is what the generator makes of metadata.yaml, and it
    initialises.  A text that decodes to metadata.yaml parses, [buildInputs]
    accepts it, and every committed collection ([All], [Kube], [Pilot], the full
    and the stable Gateway API) is built without a panic and holds, in order,
    the schemas of the entries its template selects. *)
Theorem registry_generated :
  (forall (YD : YamlDecoder) text, is_parsed text ->
     exists inp, (let* m := Parse initial_validateFuncs text in buildInputs m) = Ret inp /\
                 Entries inp = entries) /\
  holds (fun _ => true) All /\ holds in_kube Kube /\ holds in_pilot Pilot /\
  holds in_gateway pilotGatewayAPI /\ holds in_stable GatewayAPI.
Proof.
  refine (conj _ (conj holds_All (conj holds_Kube (conj holds_Pilot
            (conj holds_pilotGatewayAPI holds_GatewayAPI))))).
  intros YD text H. rewrite parse_metadata by done. cbn [obind]. apply generated_entries.
Qed.

(** ** The name tables *)

Definition gvk_gvr_pairs : list (GroupVersionKind * GroupVersionResource) :=
  concat (map (fun e => map (fun v => (entry_gvk e v, entry_gvr e v)) (versions e)) entries).

Definition main_gvk (e : colEntry) : GroupVersionKind := entry_gvk e (r_Version (ce_Resource e)).
Definition main_gvr (e : colEntry) : GroupVersionResource := entry_gvr e (r_Version (ce_Resource e)).

Lemma ToGVR_generated g :
  ToGVR g = switch g (map (fun p => (p.1, (p.2, true))) gvk_gvr_pairs) (zero_gvr, false).
Proof. unfold ToGVR. f_equal; by vm_compute. Qed.

Lemma FromGVR_generated r :
  FromGVR r = switch r (map (fun e => (main_gvr e, (main_gvk e, true))) entries) (zero_gvk, false).
Proof. unfold FromGVR. f_equal; by vm_compute. Qed.

Lemma ToKind_generated g :
  ToKind g = switch g (map (fun e => (main_gvk e, (FromString (entry_id e), true))) entries) (Kind.Unknown, false).
Proof. unfold ToKind. f_equal; by vm_compute. Qed.

Lemma KebabKind_generated k :
  KebabKind k =
  switch k (map (fun k => (k, CamelCaseToKebabCase k))
              match generated with Ret inp => uniqueKinds inp | _ => [] end) "".
Proof. unfold KebabKind. f_equal; by vm_compute. Qed.

Lemma IsClusterScoped_generated r :
  Gvr.IsClusterScoped r =
  switch r (concat (map (fun e => map (fun v => (entry_gvr e v, r_ClusterScoped (ce_Resource e))) (versions e)) entries)) false.
Proof. unfold Gvr.IsClusterScoped. f_equal; by vm_compute. Qed.

Lemma pairs_distinct : NoDup (gvk_gvr_pairs.*1) /\ NoDup (map main_gvr entries).
Proof. apply (bool_decide_unpack _). by vm_compute. Qed.

(** Unification must not compute the entries. *)
#[local] Opaque entries.

Lemma ToGVR_spec g x : ToGVR g = (x, true) <-> (g, x) ∈ gvk_gvr_pairs.
Proof.
  rewrite ToGVR_generated, switch_iff.
  - rewrite list_elem_of_In, in_map_iff. split.
    + intros [([g' x'] & ? & ?)|[_ ?]]; simplify_eq/=. by apply list_elem_of_In.
    + intros H. left. exists (g, x). by rewrite <- list_elem_of_In.
  - replace (map _ gvk_gvr_pairs).*1 with (gvk_gvr_pairs.*1); [apply pairs_distinct|].
    unfold fmap, list_fmap. induction gvk_gvr_pairs as [|q l IH]; cbn; [done|]. by f_equal.
Qed.

Lemma FromGVR_spec r g :
  FromGVR r = (g, true) <-> exists e, e ∈ entries /\ r = main_gvr e /\ g = main_gvk e.
Proof.
  rewrite FromGVR_generated, switch_iff.
  - rewrite list_elem_of_In, in_map_iff. setoid_rewrite list_elem_of_In. split.
    + intros [(e & ? & ?)|[_ ?]]; simplify_eq/=. eauto.
    + intros (e & ? & -> & ->). left. eauto.
  - replace (map _ entries).*1 with (map main_gvr entries); [apply pairs_distinct|].
    induction entries as [|q l IH]; cbn; [done|]. by f_equal.
Qed.

(** What the tables say of one entry. *)
Definition entry_tables (e : colEntry) : Prop :=
  ToGVR (main_gvk e) = (main_gvr e, true) /\
  FromGVR (main_gvr e) = (main_gvk e, true) /\
  MustToKind (E := unit) (main_gvk e) = Ret (FromString (entry_id e)) /\
  Kind_String (FromString (entry_id e)) = entry_id e /\
  KebabKind (r_Kind (ce_Resource e)) = CamelCaseToKebabCase (r_Kind (ce_Resource e)) /\
  Forall (fun v => Gvr.IsClusterScoped (entry_gvr e v) = r_ClusterScoped (ce_Resource e)) (versions e) /\
  Forall (fun v => ToGVR (entry_gvk e v) = (entry_gvr e v, true) /\
                   MustToKind (E := unit) (entry_gvk e v) = Panic ExplicitPanic /\
                   MustFromGVR (E := unit) (entry_gvr e v) = Panic ExplicitPanic)
         (r_VersionAliases (ce_Resource e)).

#[local] Instance entry_tables_dec e : Decision (entry_tables e).
Proof. unfold entry_tables. apply _. Defined.

Lemma entries_tables : Forall entry_tables entries.
Proof. apply (bool_decide_unpack _). by vm_compute. Qed.

Lemma kinds_roundtrip : Forall (fun k => FromString (Kind_String k) = k) kinds.
Proof. apply (bool_decide_unpack _). by vm_compute. Qed.

(** The generated name tables agree with each other.  [ToGVR] accepts
    exactly the GroupVersionKinds of the entries and of their version aliases,
    [FromGVR] exactly the GroupVersionResources of the entries' own versions.
    On each entry they invert each other, [MustToKind] returns the kind whose
    name is the entry's identifier, [KebabKind] is the kebab case of its Kind
    and [IsClusterScoped] its scope, for the aliases too; but an alias has no
    kind and no way back: [MustToKind] and [MustFromGVR] panic on it.  Printing
    and parsing a kind round-trips, and every other number prints [Unknown]. *)
Theorem name_tables_agree :
  (forall g x, ToGVR g = (x, true) <->
     exists e v, e ∈ entries /\ v ∈ versions e /\ g = entry_gvk e v /\ x = entry_gvr e v) /\
  (forall r g, FromGVR r = (g, true) <-> exists e, e ∈ entries /\ r = main_gvr e /\ g = main_gvk e) /\
  (forall e, e ∈ entries -> entry_tables e) /\
  (forall k, k ∈ kinds -> FromString (Kind_String k) = k) /\
  (forall k, k ∉ kinds -> Kind_String k = "Unknown").
Proof.
  split_and!.
  - intros g x. rewrite ToGVR_spec. unfold gvk_gvr_pairs. rewrite list_elem_of_In, in_concat.
    split.
    + intros (l & (e & <- & He)%in_map_iff & (v & Hv & Hin)%in_map_iff). simplify_eq.
      exists e, v. rewrite !list_elem_of_In. auto.
    + intros (e & v & He & Hv & -> & ->). apply list_elem_of_In in He, Hv.
      eexists. split; [apply in_map_iff; eauto|apply in_map_iff; eauto].
  - apply FromGVR_spec.
  - apply Forall_forall, entries_tables.
  - apply Forall_forall, kinds_roundtrip.
  - intros k Hk. apply switch_default. intros Hin. apply Hk. revert Hin.
    unfold kinds. cbn [fmap list_fmap fst]. set_solver.
Qed.

End Collections.
