(* ===== verification/CollectionsAgent.v ===== *)
(** * CollectionsAgent: the registry of the agent build

    pkg/config/schema/collections/collections.agent.gen.go, the collections under
    the build tag [agent], and the proof that they hold what the generator selects
    for the agent ([agentEntries]). *)

From S2P Require Import Prelude GoStd Strcase Resource Collection.
From S2P Require Import Collections Ast Codegen Registry.

Local Open Scope string_scope.

Section Collections.
Context {GV : GoValues} {PT : ProtoTypes}.

Definition WasmPlugin_builder : Builder :=
  {| b_Identifier := "WasmPlugin";
     b_Group := "extensions.istio.io";
     b_Kind := "WasmPlugin";
     b_Plural := "wasmplugins";
     b_Version := "v1alpha1";
     VersionAliases := [];
     b_Proto := "istio.extensions.v1alpha1.WasmPlugin";
     StatusProto := "istio.meta.v1alpha1.IstioStatus";
     ReflectType := Some {| type_pkg := "istio.io/api/extensions/v1alpha1"; type_name := "WasmPlugin" |};
     StatusType := Some {| type_pkg := "istio.io/api/meta/v1alpha1"; type_name := "IstioStatus" |};
     b_ProtoPackage := "istio.io/api/extensions/v1alpha1";
     b_StatusPackage := "istio.io/api/meta/v1alpha1";
     ClusterScoped := false;
     Synthetic := false;
     Builtin := false;
     ValidateProto := Some EmptyValidate |}.

Definition WasmPlugin : outcome _ schemaImpl := MustBuild WasmPlugin_builder.

Definition All : outcome add_error Schemas := build_schemas [WasmPlugin].
Definition Kube : outcome add_error Schemas := build_schemas [].
Definition Pilot : outcome add_error Schemas := build_schemas [WasmPlugin].
Definition pilotGatewayAPI : outcome add_error Schemas := build_schemas [WasmPlugin].
Definition pilotStableGatewayAPI : outcome add_error Schemas := build_schemas [WasmPlugin].

End Collections.

(** ** The agent's tables are generated *)

(** The selection of [agentEntries]. *)
Definition in_agent (e : colEntry) : bool :=
  str_contains "istio.io" (r_ProtoPackage (ce_Resource e)) &&
  negb (bool_decide (r_Kind (ce_Resource e) = "EnvoyFilter")).

Lemma agentEntries_filter inp : agentEntries inp = filter (fun e => in_agent e) (Entries inp).
Proof. done. Qed.

Section Generated.
Context {GV : GoValues} {PT : ProtoTypes} {SC : StoewerStrcase}.

(** Every collection of the agent build is the one of the full build restricted
    to the agent's entries, and is built without a panic. *)
Lemma agent_registry_generated :
  holds in_agent All /\ holds (fun e => in_agent e && in_kube e) Kube /\
  holds (fun e => in_agent e && in_pilot e) Pilot /\
  holds (fun e => in_agent e && in_gateway e) pilotGatewayAPI /\
  holds (fun e => in_agent e && in_stable e) pilotStableGatewayAPI.
Proof.
  split_and!.
  2: apply (holds_builders _ _ []); [reflexivity|vm_compute; reflexivity..].
  all: apply (holds_builders _ _ [WasmPlugin_builder]); [reflexivity|vm_compute; reflexivity..].
Qed.
End Generated.
