(* ===== verification/CodegenRun.v ===== *)
(** * CodegenRun: the files that the table generator writes

    Run, writeTemplate and applyTemplate of pkg/config/schema/codegen/codegen.go,
    and main.go: the eight generated files from the inputs that Codegen builds.
    Go's text/template, the disk and the goimports command are parameters
    ([TextTemplate], [Disk]); the template texts are embedded files and known by
    their names. *)

From S2P Require Import Prelude GoStd Resource Strcase Ast Codegen Registry.

Local Open Scope string_scope.

(** ** Libraries *)

Inductive template :=
| gvkTemplate | gvrTemplate | crdclientTemplate | typesTemplate | clientsTemplate | kindTemplate
| collectionsTemplate.

(** What a template is executed on: a map[string]any of these. *)
Inductive tvalue :=
| VEntries (l : list colEntry)
| VPackages (l : list packageImport)
| VStrings (l : list string)
| VString (s : string).
Notation tdata := (gmap string tvalue).

(** The functions of the FuncMap; whether a text parses, and what it prints. *)
Record func_map := { contains : string -> string -> bool; kebabcase : string -> string }.
Class TextTemplate := {
  parses : func_map -> template -> bool;
  execute : func_map -> template -> tdata -> option string
}.

Notation files := (gmap string string).

(** [WriteFile path text old] is what the file holds after the call, which may
    stop halfway, and [goimports] the formatted file, [None] when it exits with
    an error and leaves the file. *)
Class Disk := {
  WriteFile : string -> string -> option string -> bool * option string;
  goimports : string -> string -> option string;
  WriteFile_ok path text old new : WriteFile path text old = (true, new) -> new = Some text
}.

Section Run.
Context {TT : TextTemplate} {DK : Disk} {GV : GoValues} {YD : YamlDecoder} {SC : StoewerStrcase}.

Inductive gen_error :=
| ReadError
| InputError (e : parse_error)
| ApplyError (path : string)
| WriteError (path : string)
| ImportsError (path : string).

Definition camelCaseToKebabCase (s : string) : string := CamelCaseToKebabCase s.

Definition funcs : func_map :=
  {| contains s sub := str_contains sub s; kebabcase := camelCaseToKebabCase |}.

(** [template.Must] panics on a text that does not parse. *)
Definition applyTemplate (tmpl : template) (i : tdata) : outcome Empty_set (option string) :=
  if parses funcs tmpl then Ret (execute funcs tmpl i) else Panic ExplicitPanic.

(** The error and the file at its path afterwards. *)
Definition writeTemplate (path : string) (tmpl : template) (i : tdata) (old : option string) :
    outcome Empty_set (option gen_error * option string) :=
  let* applied := applyTemplate tmpl i in
  match applied with
  | None => Ret (Some (ApplyError path), old)
  | Some t =>
      match WriteFile path t old with
      | (false, new) => Ret (Some (WriteError path), new)
      | (true, new) =>
          match goimports path t with
          | None => Ret (Some (ImportsError path), new)
          | Some formatted => Ret (None, Some formatted)
          end
      end
  end.

(** The arguments of errors.Join, in the order of their evaluation. *)
Notation target := (string * template * tdata)%type.

Definition set_file (path : string) (f : option string) (fs : files) : files := partial_alter (fun _ => f) path fs.

(** The errors that are not nil, the files, and a panic that ends the run. *)
Fixpoint write_all (ts : list target) (fs : files) : outcome Empty_set (list gen_error) * files :=
  match ts with
  | [] => (Ret [], fs)
  | (path, tmpl, i) :: rest =>
      match writeTemplate path tmpl i (fs !! path) with
      | Panic p => (Panic p, fs)
      | Err e => match e with end
      | Ret (err, f) =>
          let '(r, fs') := write_all rest (set_file path f fs) in
          (match r with Ret errs => Ret (option_list err ++ errs) | Err e => Err e | Panic p => Panic p end, fs')
      end
  end%list.

Definition schema_dir : string := "pkg/config/schema/".

Definition targets (inp : inputs) : list target :=
  [(schema_dir +:+ "gvk/resources.gen.go", gvkTemplate,
      {["Entries" := VEntries (Entries inp); "UniqueKinds" := VStrings (uniqueKinds inp);
        "PackageName" := VString "gvk"]});
   (schema_dir +:+ "gvr/resources.gen.go", gvrTemplate,
      {["Entries" := VEntries (Entries inp); "PackageName" := VString "gvr"]});
   ("pkg/config/kube/crdclient/types.gen.go", crdclientTemplate,
      {["Entries" := VEntries (Entries inp); "Packages" := VPackages (Packages inp);
        "PackageName" := VString "crdclient"]});
   (schema_dir +:+ "kubetypes/resources.gen.go", typesTemplate,
      {["Entries" := VEntries (Entries inp); "Packages" := VPackages (Packages inp);
        "PackageName" := VString "kubetypes"]});
   (schema_dir +:+ "kubeclient/resources.gen.go", clientsTemplate,
      {["Entries" := VEntries (Entries inp); "Packages" := VPackages (Packages inp);
        "PackageName" := VString "kubeclient"]});
   (schema_dir +:+ "kind/resources.gen.go", kindTemplate,
      {["Entries" := VEntries (kindEntries inp); "PackageName" := VString "kind"]});
   (schema_dir +:+ "collections/collections.gen.go", collectionsTemplate,
      {["Entries" := VEntries (Entries inp); "Packages" := VPackages (Packages inp);
        "PackageName" := VString "collections"; "FilePrefix" := VString "//go:build !agent";
        "CustomImport" := VString ("  " +:+ String (ascii_of_nat 34)
          ("github.com/lx1036/gateway/pkg/config/validation/envoyfilter" +:+ String (ascii_of_nat 34) ""))]});
   (schema_dir +:+ "collections/collections.agent.gen.go", collectionsTemplate,
      {["Entries" := VEntries (agentEntries inp); "Packages" := VPackages (Packages inp);
        "PackageName" := VString "collections"; "FilePrefix" := VString "//go:build agent";
        "CustomImport" := VString ""]})].

(** The head of [buildInputs]: the file is read and parsed. *)
Definition read_inputs (validators : validateFuncs) (fs : files) : outcome gen_error inputs :=
  match fs !! (schema_dir +:+ "metadata.yaml") with
  | None => Err ReadError
  | Some text =>
      match (let* m := Parse validators text in buildInputs m) with
      | Ret inp => Ret inp
      | Err e => Err (InputError e)
      | Panic p => Panic p
      end
  end.

(** [Run]: the joined error is nil when the list is empty. *)
Definition Run (validators : validateFuncs) (fs : files) : outcome Empty_set (list gen_error) * files :=
  match read_inputs validators fs with
  | Err e => (Ret [e], fs)
  | Panic p => (Panic p, fs)
  | Ret inp => write_all (targets inp) fs
  end.

(** [main]: the exit code, the low byte of -2 for an error. *)
Definition main (validators : validateFuncs) (fs : files) : outcome Empty_set Z * files :=
  let '(r, fs') := Run validators fs in
  (match r with
   | Ret [] => Ret 0%Z
   | Ret _ => Ret (Z.land (-2) 255)
   | Err e => Err e
   | Panic p => Panic p
   end, fs').

(** ** What a run leaves *)

Definition path_of (t : target) : string := t.1.1.

Lemma writeTemplate_parsed path tmpl i old :
  parses funcs tmpl = true -> exists err f, writeTemplate path tmpl i old = Ret (err, f).
Proof.
  intros Hp. unfold writeTemplate, applyTemplate. rewrite Hp. cbn [obind].
  destruct (execute _ _ _); [|eauto]. destruct (WriteFile _ _ _) as [[] ?]; [|eauto].
  destruct (goimports _ _); eauto.
Qed.

Lemma writeTemplate_panics path tmpl i old :
  parses funcs tmpl = false -> writeTemplate path tmpl i old = Panic ExplicitPanic.
Proof. intros Hp. unfold writeTemplate, applyTemplate. by rewrite Hp. Qed.

(** A file that a target writes without error is the formatted text of its
    template. *)
Lemma writeTemplate_ok path tmpl i old f :
  writeTemplate path tmpl i old = Ret (None, f) ->
  exists text formatted, execute funcs tmpl i = Some text /\ goimports path text = Some formatted /\ f = Some formatted.
Proof.
  unfold writeTemplate, applyTemplate. destruct (parses _ _); [|done]. cbn [obind].
  destruct (execute _ _ _) as [t|]; [|done]. destruct (WriteFile _ _ _) as [[] ?]; [|done].
  destruct (goimports _ _) as [g|] eqn:Hg; [|done]. intros [= <-]. eauto.
Qed.

Lemma write_all_other ts fs path :
  path ∉ map path_of ts -> (write_all ts fs).2 !! path = fs !! path.
Proof.
  revert fs. induction ts as [|[[p tmpl] i] ts IH]; intros fs; [done|]. cbn. rewrite not_elem_of_cons. intros [Hne Hts].
  destruct (writeTemplate _ _ _ _) as [[err f]|[]|]; [|done]. specialize (IH (set_file p f fs) Hts).
  destruct (write_all ts _) as [r fs']. cbn in *. rewrite IH. unfold set_file. by rewrite lookup_partial_alter_ne.
Qed.

(** Distinct paths whose templates parse: every target is attempted, its error
    and its file are those of writing it alone, and a failure stops nothing. *)
Theorem write_all_spec ts fs :
  NoDup (map path_of ts) -> Forall (fun t => parses funcs t.1.2 = true) ts ->
  exists errs, (write_all ts fs).1 = Ret errs /\
    (forall path tmpl i, (path, tmpl, i) ∈ ts ->
      exists err, writeTemplate path tmpl i (fs !! path) = Ret (err, (write_all ts fs).2 !! path) /\
        (forall e, err = Some e -> e ∈ errs)) /\
    (forall e, e ∈ errs -> exists path tmpl i f, (path, tmpl, i) ∈ ts /\
       writeTemplate path tmpl i (fs !! path) = Ret (Some e, f)).
Proof.
  revert fs. induction ts as [|[[p tmpl] i] ts IH]; intros fs Hnd Hp.
  { exists []. split; [done|]. split; intros; set_solver. }
  apply NoDup_cons in Hnd as [Hni Hnd]. apply Forall_cons in Hp as [Hp Hps]. cbn in Hp, Hni.
  destruct (writeTemplate_parsed p tmpl i (fs !! p) Hp) as (err & f & Hw).
  destruct (IH (set_file p f fs) Hnd Hps) as (errs & Hr & Hall & Hback).
  pose proof (write_all_other ts (set_file p f fs) p Hni) as Hsame.
  cbn [write_all]. rewrite Hw. destruct (write_all ts _) as [r fs']. cbn [fst snd] in *. subst r.
  assert (forall q, q ∈ map path_of ts -> set_file p f fs !! q = fs !! q) as Hkeep.
  { intros q Hq. unfold set_file. rewrite lookup_partial_alter_ne; [done|]. intros ->. done. }
  exists (option_list err ++ errs)%list. split; [done|]. split.
  - intros path tmpl' i' [[= -> -> ->]|Hin]%elem_of_cons.
    + exists err. rewrite Hsame. unfold set_file at 1. rewrite lookup_partial_alter_eq. split; [done|].
      intros e ->. cbn. set_solver.
    + destruct (Hall _ _ _ Hin) as (err' & Hw' & He).
      rewrite Hkeep in Hw' by (apply list_elem_of_fmap; by exists (path, tmpl', i')).
      exists err'. split; [done|]. set_solver.
  - intros e [He|He]%elem_of_app.
    + exists p, tmpl, i, f. split; [by left|]. destruct err; cbn in He; [|set_solver].
      by apply list_elem_of_singleton in He as ->.
    + destruct (Hback e He) as (path & tmpl' & i' & f' & Hin & Hw').
      rewrite Hkeep in Hw' by (apply list_elem_of_fmap; by exists (path, tmpl', i')).
      exists path, tmpl', i', f'. split; [by right|done].
Qed.

Lemma targets_distinct inp : NoDup (map path_of (targets inp)).
Proof. apply (bool_decide_eq_true_1 (NoDup _)). by vm_compute. Qed.

(** A run that returns nil has written all eight files, each the formatted text
    of its template on the tables of Codegen, and no other file. *)
Theorem run_writes validators fs inp :
  read_inputs validators fs = Ret inp -> (forall t, parses funcs t = true) ->
  (main validators fs).1 = Ret 0%Z ->
  (forall path tmpl i, (path, tmpl, i) ∈ targets inp ->
    exists text formatted, execute funcs tmpl i = Some text /\ goimports path text = Some formatted /\
      (main validators fs).2 !! path = Some formatted) /\
  forall path, path ∉ map path_of (targets inp) -> (main validators fs).2 !! path = fs !! path.
Proof.
  intros Hinp Hp. unfold main, Run. rewrite Hinp.
  destruct (write_all_spec (targets inp) fs) as (errs & Hr & Hall & _);
    [apply targets_distinct|by apply Forall_forall|].
  pose proof (write_all_other (targets inp) fs) as Hother.
  destruct (write_all (targets inp) fs) as [r fs']. cbn [fst snd] in *. subst r.
  destruct errs as [|e errs]; [|done]. intros _. split; [|done].
  intros path tmpl i Hin. destruct (Hall _ _ _ Hin) as (err & Hw & He).
  destruct err as [e|]; [specialize (He e eq_refl); set_solver|].
  destruct (writeTemplate_ok _ _ _ _ _ Hw) as (text & formatted & ? & ? & ->). eauto.
Qed.

(** An input error writes nothing; a template that does not parse ends the
    generator after the files before it. *)
Lemma run_stops validators fs :
  (forall e, read_inputs validators fs = Err e -> main validators fs = (Ret 254%Z, fs)) /\
  (forall inp path, read_inputs validators fs = Ret inp -> parses funcs gvrTemplate = false ->
    parses funcs gvkTemplate = true ->
    (main validators fs).1 = Panic ExplicitPanic /\
    (path <> schema_dir +:+ "gvk/resources.gen.go" -> (main validators fs).2 !! path = fs !! path)).
Proof.
  unfold main, Run. split; [by intros e ->|]. intros inp path -> Hgvr Hgvk. cbn [targets write_all].
  destruct (writeTemplate_parsed (schema_dir +:+ "gvk/resources.gen.go") gvkTemplate
    {["Entries" := VEntries (Entries inp); "UniqueKinds" := VStrings (uniqueKinds inp);
      "PackageName" := VString "gvk"]} (fs !! (schema_dir +:+ "gvk/resources.gen.go")) Hgvk) as (err & f & ->).
  rewrite (writeTemplate_panics _ _ _ _ Hgvr). split; [done|]. intros Hne. cbn [snd].
  unfold set_file. by rewrite lookup_partial_alter_ne.
Qed.

End Run.

(** On a metadata.yaml that decodes to the committed resources the generator
    works on the entries from which the committed registry is derived. *)
Lemma committed_inputs {GV : GoValues} {PT : ProtoTypes} {SC : StoewerStrcase} {YD : YamlDecoder} text (fs : files) :
  is_parsed text -> fs !! (schema_dir +:+ "metadata.yaml") = Some text ->
  exists inp, read_inputs initial_validateFuncs fs = Ret inp /\ Entries inp = entries.
Proof.
  intros Ht Hf. destruct generated_entries as (inp & Hg & He). exists inp. unfold read_inputs.
  rewrite Hf, parse_metadata by done. cbn [obind]. unfold generated in Hg. by rewrite Hg.
Qed.
