(* ===== verification/EppSched.v ===== *)
(** * EppSched: pkg/epp/scheduling

    The endpoint picker's scheduling framework: the queue and KV-cache scorers,
    a scheduler profile (filters, scorers, picker), the state of a scheduling
    cycle and the block hashes of the prefix-cache scorer.  A pod is an
    interface value whose metrics a background loop refreshes, so each loop of a
    scorer reads the metrics it finds at that time.  The user input and the
    byte order of a hash, names the source leaves undefined, are parameters
    with the hash library. *)

From S2P Require Import Prelude GoStd Float64 EppMetrics.

Local Open Scope Z_scope.

(** ** Pods *)

(** The identity of a pod, the key of a map of scores. *)
Definition Pod : Type := positive.

(** What [GetMetrics] of each pod returns during one loop; it may be nil. *)
Definition readings : Type := Pod -> option Metrics.

(** ** least_waiting_request_plugin.go and least_running_request_plugin.go *)

(** The first loop: the least and the greatest queue size. *)
Fixpoint min_max (size : Metrics -> Z) (r : readings) (pods : list Pod) (mn mx : Z) :
    outcome Empty_set (Z * Z) :=
  match pods with
  | [] => Ret (mn, mx)
  | pod :: rest =>
      let* m := deref (r pod) in
      let queueSize := size m in
      min_max size r rest (if queueSize <? mn then queueSize else mn)
        (if mx <? queueSize then queueSize else mx)
  end.

(** The second loop. *)
Fixpoint score_loop (size : Metrics -> Z) (r : readings) (mn mx : Z) (pods : list Pod)
    (scores : gmap Pod f64) : outcome Empty_set (gmap Pod f64) :=
  match pods with
  | [] => Ret scores
  | pod :: rest =>
      if wrap_int64 (mx - mn) =? 0 then score_loop size r mn mx rest (<[pod := f64_one]> scores)
      else
        let* m := deref (r pod) in
        let score := f64_div (f64_of_int (wrap_int64 (mx - size m))) (f64_of_int (wrap_int64 (mx - mn))) in
        score_loop size r mn mx rest (<[pod := score]> scores)
  end.

(** [r1] and [r2] are the metrics read by the first and by the second loop. *)
Definition queue_score (size : Metrics -> Z) (r1 r2 : readings) (pods : list Pod) :
    outcome Empty_set (gmap Pod f64) :=
  let* ' (mn, mx) := min_max size r1 pods max_int64 min_int64 in
  score_loop size r2 mn mx pods ∅.

Definition RequestWaitingQueuePlugin_Score := queue_score WaitingQueueSize.

(** The score it assigns is not the unused [a], a quotient by the maximum. *)
Definition RequestRunningQueuePlugin_Score := queue_score RunningRequestsSize.

(** ** least_kvcache_utilization_plugin.go *)

Fixpoint kvcache_loop (r : readings) (pods : list Pod) (scores : gmap Pod f64) :
    outcome Empty_set (gmap Pod f64) :=
  match pods with
  | [] => Ret scores
  | pod :: rest =>
      let* m := deref (r pod) in
      kvcache_loop r rest (<[pod := f64_sub f64_one (KVCacheUsagePercent m)]> scores)
  end.

Definition KVCacheUtilization_Score (r : readings) (pods : list Pod) : outcome Empty_set (gmap Pod f64) :=
  kvcache_loop r pods ∅.

(** ** types.go *)

Section Profile.
Context {StateData LLMRequest : Type}.

(** The storage of a cycle, keyed by StateKey. *)
Definition CycleState : Type := gmap string StateData.

Definition NewCycleState : CycleState := ∅.

Inductive state_error := ErrNotFound.

Definition Read (c : CycleState) (key : string) : outcome state_error StateData :=
  match c !! key with
  | Some v => Ret v
  | None => Err ErrNotFound
  end.

Definition Write (c : CycleState) (key : string) (val : StateData) : CycleState := <[key := val]> c.

Definition Delete (c : CycleState) (key : string) : CycleState := delete key c.

(** ** scheduler_profile.go *)

(** A plugin runs against the state of the cycle. *)
Definition Filter : Type := CycleState -> LLMRequest -> list Pod -> CycleState * list Pod.
Definition Scorer : Type := CycleState -> LLMRequest -> list Pod -> CycleState * gmap Pod f64.
Definition Picker : Type := CycleState -> list (Pod * f64) -> CycleState * list Pod.

Inductive run_error := NoPodsAvailable.

Fixpoint runFilterPlugins (filters : list Filter) (c : CycleState) (request : LLMRequest) (pods : list Pod) :
    CycleState * list Pod :=
  match filters with
  | [] => (c, pods)
  | filter :: rest =>
      let '(c', filteredPods) := filter c request pods in
      match filteredPods with
      | [] => (c', [])
      | _ => runFilterPlugins rest c' request filteredPods
      end
  end.

(** The scored pods in the order [range] of the score map gives. *)
Definition runPickerPlugin (order : gmap Pod f64 -> list (Pod * f64)) (picker : Picker)
    (c : CycleState) (weightedScorePerPod : gmap Pod f64) : CycleState * list Pod :=
  picker c (order weightedScorePerPod).

(** [runScorerPlugins] has no body in the source and is a parameter. *)
Definition Run (filters : list Filter) (runScorerPlugins : Scorer)
    (order : gmap Pod f64 -> list (Pod * f64)) (picker : Picker)
    (c : CycleState) (request : LLMRequest) (candidatePods : list Pod) :
    CycleState * outcome run_error (list Pod) :=
  let '(c1, pods) := runFilterPlugins filters c request candidatePods in
  match pods with
  | [] => (c1, Err NoPodsAvailable)
  | _ =>
      let '(c2, scores) := runScorerPlugins c1 request pods in
      let '(c3, result) := runPickerPlugin order picker c2 scores in
      (c3, Ret result)
  end.

End Profile.

(** ** plugins.go *)

Record TypedName := { tn_Type : string; tn_Name : string }.

Definition TypedName_String (tn : TypedName) : string := tn_Name tn +:+ "/" +:+ tn_Type tn.

(** ** prefix_cache_plugin.go *)

(** [xxhash.Sum64] of the bytes written since the last reset, and the bytes
    of a hash. *)
Class BlockHasher := { Sum64 : string -> Z; toBytes : Z -> string }.

Section Prefix.
Context {BH : BlockHasher}.

(** The loop over the blocks, from the bytes left and the previous hash; each
    turn consumes a block, so the length of the input is enough fuel. *)
Fixpoint hash_loop (fuel : nat) (cacheBlockSize : nat) (userInput : string) (prev : Z) : list Z :=
  match fuel with
  | O => []
  | S f =>
      if (cacheBlockSize <=? String.length userInput)%nat then
        let h := Sum64 (str_take cacheBlockSize userInput +:+ toBytes prev) in
        h :: hash_loop f cacheBlockSize (str_drop cacheBlockSize userInput) h
      else []
  end.

(** The hash the first block is chained to. *)
Definition seed (targetModel cacheSalt : string) : Z :=
  Sum64 (targetModel +:+ (if bool_decide (cacheSalt = ""%string) then "" else cacheSalt)).

(** A block size of zero divides by zero when the result is allocated, and a
    negative one slices out of range. *)
Definition hashPrompt (targetModel cacheSalt userInput : string) (cacheBlockSize maxPrefixBlocks : Z) :
    outcome Empty_set (list Z) :=
  let len := Z.of_nat (String.length userInput) in
  if len <? cacheBlockSize then Ret []
  else
    let limit := wrap_int64 (cacheBlockSize * maxPrefixBlocks) in
    let* input :=
      if limit <? len then
        if limit <? 0 then Panic IndexOutOfRange else Ret (str_take (Z.to_nat limit) userInput)
      else Ret userInput in
    if cacheBlockSize =? 0 then Panic DivideByZero
    else if cacheBlockSize <? 0 then Panic IndexOutOfRange
    else Ret (hash_loop (String.length input) (Z.to_nat cacheBlockSize) input (seed targetModel cacheSalt)).

End Prefix.

(** ** The queue scorers *)

(** The least and greatest sizes that [min_max] ends with. *)
Lemma min_max_spec size r pods mn mx :
  (forall p, p ∈ pods -> is_Some (r p)) ->
  exists mn' mx', min_max size r pods mn mx = Ret (mn', mx') /\
    mn' <= mn /\ mx <= mx' /\
    (forall p m, p ∈ pods -> r p = Some m -> mn' <= size m <= mx') /\
    (mn' = mn \/ exists p m, p ∈ pods /\ r p = Some m /\ size m = mn') /\
    (mx' = mx \/ exists p m, p ∈ pods /\ r p = Some m /\ size m = mx').
Proof.
  revert mn mx. induction pods as [|p pods IH]; intros mn mx Hr.
  - exists mn, mx. split_and!; auto; try lia. intros p m Hp. by apply elem_of_nil in Hp.
  - destruct (Hr p) as [m Hm]; [by left|]. cbn [min_max]. rewrite Hm. cbn [deref obind].
    destruct (IH (if size m <? mn then size m else mn) (if mx <? size m then size m else mx))
      as (mn' & mx' & E & Hmn & Hmx & Hall & Hexn & Hexx).
    { intros q Hq. apply Hr. by right. }
    exists mn', mx'. split; [done|].
    assert (mn' <= mn /\ mn' <= size m /\ mx <= mx' /\ size m <= mx') as (? & ? & ? & ?).
    { destruct (Z.ltb_spec (size m) mn), (Z.ltb_spec mx (size m)); lia. }
    split_and!; [done|done| | |].
    + intros q n Hq Hn. apply elem_of_cons in Hq as [->|Hq]; [|by eapply Hall].
      rewrite Hm in Hn. simplify_eq. lia.
    + destruct Hexn as [->|(q & n & Hq & Hn & <-)].
      * destruct (Z.ltb_spec (size m) mn); [|by left]. right. exists p, m. split_and!; auto. by left.
      * right. exists q, n. split_and!; auto. by right.
    + destruct Hexx as [->|(q & n & Hq & Hn & <-)].
      * destruct (Z.ltb_spec mx (size m)); [|by left]. right. exists p, m. split_and!; auto. by left.
      * right. exists q, n. split_and!; auto. by right.
Qed.

(** The score of one pod. *)
Definition pod_score (mn mx n : Z) : f64 :=
  if wrap_int64 (mx - mn) =? 0 then f64_one
  else f64_div (f64_of_int (wrap_int64 (mx - n))) (f64_of_int (wrap_int64 (mx - mn))).

Lemma score_loop_spec size r mn mx pods scores :
  (forall p, p ∈ pods -> is_Some (r p)) ->
  exists scores', score_loop size r mn mx pods scores = Ret scores' /\
    (forall p, p ∉ pods -> scores' !! p = scores !! p) /\
    (forall p m, p ∈ pods -> r p = Some m -> scores' !! p = Some (pod_score mn mx (size m))).
Proof.
  revert scores. induction pods as [|p pods IH]; intros scores Hr.
  - exists scores. split_and!; [done|done|]. intros p m Hp. by apply elem_of_nil in Hp.
  - destruct (Hr p) as [m Hm]; [by left|].
    assert (score_loop size r mn mx (p :: pods) scores =
            score_loop size r mn mx pods (<[p := pod_score mn mx (size m)]> scores)) as ->.
    { cbn [score_loop]. unfold pod_score. rewrite Hm. by destruct (_ =? _). }
    destruct (IH (<[p := pod_score mn mx (size m)]> scores)) as (scores' & E & Hout & Hin).
    { intros q Hq. apply Hr. by right. }
    exists scores'. split_and!; [done| |].
    + intros q [Hq Hq']%not_elem_of_cons. rewrite Hout by done. by rewrite lookup_insert_ne.
    + intros q n Hq Hn. destruct (decide (q ∈ pods)) as [Hin'|Hin']; [by apply Hin|].
      apply elem_of_cons in Hq as [->|Hq]; [|done].
      rewrite Hout by done. rewrite Hm in Hn. simplify_eq. by rewrite lookup_insert_eq.
Qed.

Lemma wrap_int64_small z : 0 <= z <= max_int64 -> wrap_int64 z = z.
Proof. unfold wrap_int64, max_int64. intros H. rewrite Z.mod_small; lia. Qed.

Lemma pod_score_extremes mn mx :
  mn <= mx -> mx - mn < 2 ^ 53 ->
  (mn = mx -> forall n, pod_score mn mx n = f64_one) /\
  pod_score mn mx mn = f64_one /\
  (mn < mx -> pod_score mn mx mx = f64_zero).
Proof.
  intros Hle Hd. unfold pod_score. rewrite wrap_int64_small by (unfold max_int64; lia).
  split_and!.
  - intros -> n. by rewrite Z.sub_diag.
  - destruct (Z.eqb_spec (mx - mn) 0) as [|Hne]; [done|].
    destruct (mx - mn) as [|p|p] eqn:E; [done| |lia].
    destruct (f64_of_int_finite p) as (m & e & Hf); [lia|]. rewrite Hf.
    apply f64_div_self.
  - intros Hlt. destruct (Z.eqb_spec (mx - mn) 0); [lia|]. rewrite Z.sub_diag.
    destruct (mx - mn) as [|p|p] eqn:E; [done| |lia].
    destruct (f64_of_int_finite p) as (m & e & Hf); [lia|]. rewrite Hf. apply f64_zero_div.
Qed.

Lemma min_max_nil size r pods mn mx p :
  p ∈ pods -> r p = None -> min_max size r pods mn mx = Panic NilDereference.
Proof.
  revert mn mx. induction pods as [|q pods IH]; intros mn mx Hp Hr; [by apply elem_of_nil in Hp|].
  cbn [min_max]. destruct (r q) as [m|] eqn:E; [|done]. cbn [deref obind].
  apply elem_of_cons in Hp as [->|Hp]; [congruence|]. by apply IH.
Qed.

(** A queue size that occurs in practice. *)
Definition sane (n : Z) : Prop := 0 <= n < 2 ^ 53.

(** What a scorer by queue size promises of its scores. *)
Definition ranks (size : Metrics -> Z) (r : readings) (pods : list Pod) (scores : gmap Pod f64) : Prop :=
  dom scores = list_to_set pods /\
  (forall p q mp mq, p ∈ pods -> q ∈ pods -> r p = Some mp -> r q = Some mq ->
     size mp = size mq -> scores !! p = scores !! q) /\
  (forall p mp, p ∈ pods -> r p = Some mp ->
     (forall q mq, q ∈ pods -> r q = Some mq -> size mp <= size mq) -> scores !! p = Some f64_one) /\
  (forall p mp, p ∈ pods -> r p = Some mp ->
     (forall q mq, q ∈ pods -> r q = Some mq -> size mq <= size mp) ->
     (exists q mq, q ∈ pods /\ r q = Some mq /\ size mq < size mp) -> scores !! p = Some f64_zero).

Lemma queue_score_ranks size r pods :
  (forall p, p ∈ pods -> exists m, r p = Some m /\ sane (size m)) ->
  exists scores, queue_score size r r pods = Ret scores /\ ranks size r pods scores.
Proof.
  intros Hr. unfold queue_score.
  assert (forall p, p ∈ pods -> is_Some (r p)) as Hs by (intros p Hp; destruct (Hr p Hp) as (m & -> & _); eauto).
  destruct (min_max_spec size r pods max_int64 min_int64 Hs) as (mn & mx & -> & Hmn & Hmx & Hall & Hn & Hx).
  cbn [obind]. destruct (score_loop_spec size r mn mx pods ∅ Hs) as (scores & -> & Hout & Hin).
  exists scores. split; [done|].
  assert (forall p mp, p ∈ pods -> r p = Some mp ->
    (exists q mq, q ∈ pods /\ r q = Some mq /\ size mq = mn) /\
    (exists q mq, q ∈ pods /\ r q = Some mq /\ size mq = mx) /\ mn <= mx /\ mx - mn < 2 ^ 53) as Hb.
  { intros p mp Hp Hmp. pose proof (Hall p mp Hp Hmp).
    destruct (Hr p Hp) as (mp' & Hmp' & Hsane). rewrite Hmp in Hmp'. simplify_eq. unfold sane in Hsane.
    assert (exists q mq, q ∈ pods /\ r q = Some mq /\ size mq = mn) as Hn'
      by (destruct Hn as [->|Hn]; [unfold max_int64 in *; lia|exact Hn]).
    assert (exists q mq, q ∈ pods /\ r q = Some mq /\ size mq = mx) as Hx'
      by (destruct Hx as [->|Hx]; [unfold min_int64 in *; lia|exact Hx]).
    split_and!; [done|done|lia|].
    destruct Hn' as (a & ma & Ha & Hma & <-), Hx' as (b & mb & Hb & Hmb & <-).
    destruct (Hr a Ha) as (ma' & Ea & Ha'), (Hr b Hb) as (mb' & Eb & Hb'). unfold sane in *.
    rewrite Hma in Ea. rewrite Hmb in Eb. simplify_eq. lia. }
  split_and!.
  - apply set_eq. intros p. rewrite elem_of_dom, elem_of_list_to_set. split.
    + intros [s Hp]. destruct (decide (p ∈ pods)) as [|Hn']; [done|]. by rewrite Hout in Hp.
    + intros Hp. destruct (Hs p Hp) as [m Hm]. erewrite Hin by done. eauto.
  - intros p q mp mq Hp Hq Hmp Hmq E. erewrite !Hin by done. by rewrite E.
  - intros p mp Hp Hmp Hmin. erewrite Hin by done. f_equal.
    destruct (Hb p mp Hp Hmp) as ((q & mq & Hq & Hmq & Eq) & _ & Hle & Hd).
    pose proof (Hmin q mq Hq Hmq). pose proof (Hall p mp Hp Hmp).
    replace (size mp) with mn by lia. by apply pod_score_extremes.
  - intros p mp Hp Hmp Hmax (q & mq & Hq & Hmq & Hlt). erewrite Hin by done. f_equal.
    destruct (Hb p mp Hp Hmp) as (_ & (q' & mq' & Hq' & Hmq' & Eq) & Hle & Hd).
    pose proof (Hmax q' mq' Hq' Hmq'). pose proof (Hall p mp Hp Hmp). pose proof (Hall q mq Hq Hmq).
    replace (size mp) with mx by lia. apply pod_score_extremes; lia.
Qed.

(** C34: Both queue scorers rank the pods by queue size, as long as the metrics
    do not change between their two loops.  Every pod gets a score; pods with
    equal queues get equal scores; a pod with the shortest queue gets exactly
    1, so all pods do when the queues are equal, and a pod with the longest
    queue gets exactly 0 when another is shorter.  A pod without metrics is a
    nil dereference. *)
Theorem queue_scorers_rank :
  Forall (fun '(plugin, size) =>
    (forall r pods, (forall p, p ∈ pods -> exists m, r p = Some m /\ sane (size m)) ->
       exists scores, plugin r r pods = Ret scores /\ ranks size r pods scores) /\
    (forall r1 r2 pods p, p ∈ pods -> r1 p = None -> plugin r1 r2 pods = Panic NilDereference))
  [(RequestWaitingQueuePlugin_Score, WaitingQueueSize);
   (RequestRunningQueuePlugin_Score, RunningRequestsSize)].
Proof.
  assert (forall size r1 r2 pods p, p ∈ pods -> r1 p = None ->
    queue_score size r1 r2 pods = Panic NilDereference) as Hnil.
  { intros size r1 r2 pods p Hp Hr. unfold queue_score.
    by rewrite (min_max_nil size r1 pods _ _ p Hp Hr). }
  repeat constructor; try apply Hnil; intros r pods; apply queue_score_ranks.
Qed.

Definition queue_of (n : Z) : Metrics := set_waiting n NewMetrics.

(** When a refresh lands between the loops, the score may leave [0, 1]. *)
Lemma scores_race :
  let r1 (p : Pod) := Some (queue_of (if bool_decide (p = 1%positive) then 0 else 1)) in
  let r2 (p : Pod) := Some (queue_of (if bool_decide (p = 1%positive) then 3 else 1)) in
  exists scores, RequestWaitingQueuePlugin_Score r1 r2 [1%positive; 2%positive] = Ret scores /\
    scores !! 1%positive = Some (f64_of_int (-2)).
Proof. eexists. split; [vm_compute; reflexivity|by vm_compute]. Qed.

(** ** Filters *)

Section Filters.
Context {StateData LLMRequest : Type}.

(** A filter that only removes pods and keeps their order. *)
Definition removes (f : Filter (StateData := StateData) (LLMRequest := LLMRequest)) : Prop :=
  forall c request pods, (f c request pods).2 `sublist_of` pods.

Lemma runFilterPlugins_sublist (filters : list Filter) (c : CycleState) (request : LLMRequest) pods :
  Forall removes filters -> (runFilterPlugins filters c request pods).2 `sublist_of` pods.
Proof.
  intros Hf. revert c pods. induction Hf as [|f filters Hf' _ IH]; intros c pods; [done|].
  cbn [runFilterPlugins]. pose proof (Hf' c request pods) as Hsub.
  destruct (f c request pods) as [c' [|p ps]]; cbn in *; [apply sublist_nil_l|].
  etrans; [apply IH|done].
Qed.

End Filters.

(** ** Block hashes *)

Section Hashes.
Context {BH : BlockHasher}.

Lemma str_drop_length n s : String.length (str_drop n s) = (String.length s - n)%nat.
Proof. revert n. induction s as [|a s IH]; intros [|n]; simpl; auto. Qed.

Lemma str_take_app_le n s t : (n <= String.length s)%nat -> str_take n (s +:+ t) = str_take n s.
Proof.
  revert n. induction s as [|a s IH]; intros [|n] H; simpl in *; [by destruct t|lia|done|].
  rewrite ?str_app_cons. simpl. rewrite IH; [done|lia].
Qed.

Lemma str_drop_app_le n s t : (n <= String.length s)%nat -> str_drop n (s +:+ t) = str_drop n s +:+ t.
Proof.
  revert n. induction s as [|a s IH]; intros [|n] H; simpl in *; [done|lia|done|].
  rewrite ?str_app_cons. simpl. rewrite IH; [done|lia].
Qed.

(** One hash per whole block. *)
Lemma hash_loop_length fuel bs s prev :
  (0 < bs)%nat -> (String.length s <= fuel)%nat ->
  length (hash_loop fuel bs s prev) = (String.length s / bs)%nat.
Proof.
  intros Hbs. revert s prev. induction fuel as [|fuel IH]; intros s prev Hf; cbn [hash_loop].
  - replace (String.length s) with 0%nat by lia. by rewrite Nat.Div0.div_0_l.
  - destruct (Nat.leb_spec bs (String.length s)) as [Hle|Hlt]; cbn [length].
    + rewrite IH by (rewrite str_drop_length; lia). rewrite str_drop_length.
      replace (String.length s) with (String.length s - bs + 1 * bs)%nat at 2 by lia.
      rewrite Nat.div_add by lia. lia.
    + by rewrite Nat.div_small.
Qed.

(** A longer input only adds hashes at the end. *)
Lemma hash_loop_prefix fuel fuel' bs s t prev :
  (0 < bs)%nat -> (String.length s <= fuel)%nat -> (String.length (s +:+ t) <= fuel')%nat ->
  hash_loop fuel bs s prev `prefix_of` hash_loop fuel' bs (s +:+ t) prev.
Proof.
  intros Hbs. revert fuel' s prev. induction fuel as [|fuel IH]; intros fuel' s prev Hf Hf';
    cbn [hash_loop]; [apply prefix_nil|].
  destruct (Nat.leb_spec bs (String.length s)) as [Hle|Hlt]; [|apply prefix_nil].
  rewrite str_length_app in Hf'. destruct fuel' as [|fuel']; [lia|]. cbn [hash_loop].
  rewrite str_length_app, (proj2 (Nat.leb_le _ _)) by lia.
  rewrite str_take_app_le, str_drop_app_le by done. apply prefix_cons.
  apply IH; rewrite ?str_length_app, str_drop_length; lia.
Qed.

Lemma str_take_length n s : String.length (str_take n s) = Nat.min n (String.length s).
Proof. revert n. induction s as [|a s IH]; intros [|n]; simpl; auto. Qed.

Lemma str_take_all n s : (String.length s <= n)%nat -> str_take n s = s.
Proof.
  revert n. induction s as [|a s IH]; intros [|n] H; simpl in *; [done..|lia|].
  rewrite IH; [done|lia].
Qed.

(** Truncation commutes with extension. *)
Lemma str_take_extends n s t : exists u, str_take n (s +:+ t) = str_take n s +:+ u.
Proof.
  revert n. induction s as [|a s IH]; intros [|n].
  - exists EmptyString. by destruct t.
  - exists (str_take (S n) t). done.
  - by exists EmptyString.
  - destruct (IH n) as [u Hu]. exists u. rewrite str_app_cons. cbn [str_take].
    by rewrite Hu, str_app_cons.
Qed.

(** The hashes of the input cut to the maximal number of blocks. *)
Lemma hashPrompt_blocks model salt u bs mb :
  0 < bs -> 0 <= mb -> bs * mb <= max_int64 ->
  let input := str_take (Z.to_nat (bs * mb)) u in
  hashPrompt model salt u bs mb =
  Ret (hash_loop (String.length input) (Z.to_nat bs) input (seed model salt)).
Proof.
  intros Hbs Hmb Hlim input. unfold hashPrompt.
  rewrite wrap_int64_small by nia.
  rewrite (proj2 (Z.eqb_neq bs 0)), (proj2 (Z.ltb_ge bs 0)) by lia.
  destruct (Z.ltb_spec (Z.of_nat (String.length u)) bs) as [Hlt|Hge].
  - assert (String.length input <= String.length u)%nat by (unfold input; rewrite str_take_length; lia).
    destruct (String.length input) as [|n] eqn:E; [done|]. cbn [hash_loop].
    by rewrite (proj2 (Nat.leb_gt _ _)) by lia.
  - destruct (Z.ltb_spec (bs * mb) (Z.of_nat (String.length u))).
    + by rewrite (proj2 (Z.ltb_ge _ _)) by nia.
    + unfold input. by rewrite str_take_all by lia.
Qed.

End Hashes.

(** [hashPrompt] has one hash per whole block up to the maximum, and the
    hashes of a prompt are a prefix of those of any continuation of it, so a
    cached prefix is found again by its hashes. *)
Theorem hash_prompt_prefix {BH : BlockHasher} model salt u t bs mb
    (Hbs : 0 < bs) (Hmb : 0 <= mb) (Hlim : bs * mb <= max_int64) :
  exists hs hs',
    hashPrompt model salt u bs mb = Ret hs /\
    hashPrompt model salt (u +:+ t) bs mb = Ret hs' /\
    hs `prefix_of` hs' /\
    Z.of_nat (length hs) = Z.min mb (Z.of_nat (String.length u) / bs).
Proof.
  rewrite !hashPrompt_blocks by done. eexists _, _. split; [done|]. split; [done|].
  destruct (str_take_extends (Z.to_nat (bs * mb)) u t) as [v ->]. split.
  - apply hash_loop_prefix; lia.
  - rewrite hash_loop_length by lia. rewrite str_take_length.
    rewrite Nat2Z.inj_div, Nat2Z.inj_min, !Z2Nat.id by nia.
    destruct (Z.le_gt_cases (bs * mb) (Z.of_nat (String.length u))) as [H|H].
    + rewrite Z.min_l by done. rewrite Z.mul_comm, Z.div_mul by lia.
      rewrite Z.min_l; [done|]. apply Z.div_le_lower_bound; lia.
    + rewrite Z.min_r by lia. rewrite Z.min_r; [done|]. apply Z.div_le_upper_bound; lia.
Qed.

(** A hasher to compute with: FNV-1a, and the digits of the hash. *)
Definition fnv_hasher : BlockHasher := {| Sum64 := fnv64a; toBytes := itoa |}.

Lemma hash_prompt_prefix_witness :
  exists hs hs',
    hashPrompt (BH := fnv_hasher) "qwen" "" "abcde" 2 8 = Ret hs /\
    hashPrompt (BH := fnv_hasher) "qwen" "" ("abcde" +:+ "fgh") 2 8 = Ret hs' /\
    hs `prefix_of` hs' /\ Z.of_nat (length hs) = Z.min 8 (Z.of_nat (String.length "abcde") / 2).
Proof. apply (hash_prompt_prefix (BH := fnv_hasher) "qwen" "" "abcde" "fgh" 2 8); done. Defined.
