(* ===== verification/Json.v ===== *)
(** * Json: the values of encoding/json

    A JSON text is the value it encodes; an object decoded to
    [map[string]interface{}] is a Go map, which may be nil.  The syntax of the
    text is [JsonLib]; what [json.Unmarshal] does to the map it is given, and
    the type assertions on the values, are written out. *)

From S2P Require Import Prelude.

Inductive json :=
| JNull
| JBool (b : bool)
| JNumber (literal : string)
| JString (s : string)
| JArray (l : list json)
| JObject (l : list (string * json)).

(** A [map[string]interface{}], nil or not. *)
Definition object : Type := option (gmap string json).

(** The decoder of a whole text ([None] is a syntax error) and the encoder of
    an object ([None] is an error). *)
Class JsonLib := {
  json_parse : string -> option json;
  json_marshal : object -> option string
}.

(** The members of an object are stored in order: of two with one key the last
    stays. *)
Definition store_members (l : list (string * json)) (m : gmap string json) : gmap string json :=
  foldl (fun m kv => <[kv.1 := kv.2]> m) m l.

(** [json.Unmarshal(data, &m)] for a map [m]: its new value, and whether an
    error is returned.  The syntax is checked before anything is stored; the
    members are added to the map that is there, a new one when it is nil; null
    sets the map to nil; any other value leaves it and is an error. *)
Definition unmarshal_map `{JsonLib} (data : string) (m : object) : object * bool :=
  match json_parse data with
  | Some (JObject l) => (Some (store_members l (default ∅ m)), false)
  | Some JNull => (None, false)
  | _ => (m, true)
  end.

(** [m[k]] of a map that may be nil. *)
Definition obj_get (k : string) (m : object) : option json :=
  match m with Some m => m !! k | None => None end.

(** [v.(string)] with its ok: the empty string when it is not one. *)
Definition as_string (v : option json) : string * bool :=
  match v with Some (JString s) => (s, true) | _ => (""%string, false) end.

Lemma store_members_lookup l m k :
  store_members l m !! k =
  match list_find (fun kv => kv.1 = k) (rev l) with
  | Some (_, kv) => Some kv.2
  | None => m !! k
  end.
Proof.
  revert m. induction l as [|[k' v] l IH]; intros m; [done|].
  change (store_members ((k', v) :: l) m) with (store_members l (<[k' := v]> m)).
  rewrite IH. cbn [rev].
  destruct (list_find (fun kv => kv.1 = k) (rev l)) as [[i [k0 v0]]|] eqn:E.
  - by rewrite (list_find_app_l _ _ [(k', v)] i (k0, v0) E).
  - rewrite list_find_app_r by done. cbn.
    destruct (decide (k' = k)) as [->|Hk]; [by rewrite lookup_insert_eq|by rewrite lookup_insert_ne].
Qed.
