(* ===== verification/ExtProcStream.v ===== *)
(** * ExtProcStream: the gRPC stream of an external processor

    A server of Envoy's ext_proc protocol is a loop that talks to its stream
    for as long as Envoy keeps it open, so it is an interaction tree over the
    events below.  [handle] gives the events their meaning against a script,
    what the stream answers turn by turn, and collects what is sent.  The file
    has the lemmas that run a tree against a script. *)

From ITree Require Import ITree ITreeFacts Events.State Events.StateFacts.
From Paco Require Import paco.
From S2P Require Import Prelude.

Notation "'perform' x ':=' m 'in' k" := (ITree.bind m (fun x => k))
  (at level 10, x name, m at level 100, k at level 200) : go_scope.
Notation Leaf x := (go (RetF x)).
Notation "t1 ~~ t2" := (eutt eq t1 t2) (at level 70) : go_scope.

(** Why [Recv] fails: io.EOF, the status Canceled, or anything else. *)
Inductive recv_error := EOF | StatusCanceled | StatusOther.

Section Stream.
Context {Request Response : Type}.

(** [ctx.Done()], [Recv], [Send] (whether it succeeds), a fresh uuid and the
    clock. *)
Inductive streamE : Type -> Type :=
| CtxDone : streamE bool
| Recv : streamE (recv_error + Request)
| Send (r : Response) : streamE bool
| NewString : streamE string
| Now : streamE Z.

Definition event {T} (e : streamE T) : itree streamE T := ITree.trigger e.

(** What the environment answers during one turn of a loop. *)
Record turn := {
  t_done : bool;
  t_recv : recv_error + Request;
  t_uuid : string;
  t_now : Z;
  t_sent : bool
}.

(** The turns to come and the responses that were accepted.  Once the script
    is over the peer has gone: the context is done. *)
Definition world : Type := list turn * list Response.

Definition handle : streamE ~> Monads.stateT world (itree void1) :=
  fun T e w =>
    match e in streamE T return itree void1 (world * T) with
    | CtxDone => Leaf (w, match w.1 with t :: _ => t_done t | [] => true end)
    | Recv => Leaf (w, match w.1 with t :: _ => t_recv t | [] => inl EOF end)
    | NewString => Leaf (w, match w.1 with t :: _ => t_uuid t | [] => ""%string end)
    | Now => Leaf (w, match w.1 with t :: _ => t_now t | [] => 0%Z end)
    | Send r =>
        match w.1 with
        | t :: rest => Leaf ((rest, if t_sent t then w.2 ++ [r] else w.2), t_sent t)
        | [] => Leaf (w, false)
        end
    end.

Definition run {T} (t : itree streamE T) (w : world) : itree void1 (world * T) := interp_state handle t w.

(** ** Running a tree *)

Lemma run_ret {T} (x : T) w : run (Leaf x) w ~~ Leaf (w, x).
Proof. unfold run. by rewrite interp_state_ret. Qed.

Lemma run_bind {T U} (t : itree streamE T) (k : T -> itree streamE U) w :
  run (ITree.bind t k) w ~~ ITree.bind (run t w) (fun wx => run (k wx.2) wx.1).
Proof. unfold run. by rewrite interp_state_bind. Qed.

Lemma run_event {T U} (e : streamE T) (k : T -> itree streamE U) w w' x :
  handle T e w = Leaf (w', x) ->
  run (ITree.bind (event e) k) w ~~ run (k x) w'.
Proof.
  intros H. unfold event. rewrite run_bind. unfold run at 1. rewrite interp_state_trigger, H.
  by rewrite bind_ret_l.
Qed.

Lemma run_spin {T} w : run (ITree.spin (R := T)) w ~~ ITree.spin.
Proof.
  unfold run. einit. ecofix CIH. rewrite (itree_eta ITree.spin). cbn.
  rewrite interp_state_tau. rewrite (itree_eta (ITree.spin (R := world * T))). cbn. etau.
Qed.

Lemma run_iter {I T} (body : I -> itree streamE (I + T)) i w :
  run (ITree.iter body i) w ~~
  ITree.bind (run (body i) w)
    (fun wx => match wx.2 with
               | inl i' => run (ITree.iter body i') wx.1
               | inr r => Leaf (wx.1, r)
               end).
Proof.
  rewrite unfold_iter, run_bind. apply eutt_clo_bind with (UU := eq); [reflexivity|].
  intros [w1 x] ? <-. cbn. destruct x as [i'|r]; [|apply run_ret].
  unfold run. by rewrite interp_state_tau, tau_eutt.
Qed.

End Stream.

Lemma spin_bind {E : Type -> Type} {T U} (k : T -> itree E U) : ITree.bind ITree.spin k ~~ ITree.spin.
Proof.
  einit. ecofix CIH. rewrite (itree_eta (ITree.spin (R := T))). cbn. rewrite bind_tau.
  rewrite (itree_eta (ITree.spin (R := U))). cbn. etau.
Qed.
