(* ===== verification/EppServer.v ===== *)
(** * EppServer: pkg/epp/server and pkg/epp/scheduling/scheduler.go

    The endpoint picker's ext_proc server: the stream loop [Process], the
    request headers and body, the router, and the scheduler it calls.  The loop
    is an interaction tree (ExtProcStream), because nothing but its peer ends
    it, and the scheduler's loop is one because it need not end at all.  Names
    the source leaves undeclared are parameters ([Responses]); what is computed
    and then dropped by the code (the error response, the sizes) has no effect
    here either. *)

From ITree Require Import ITree ITreeFacts Events.State Events.StateFacts.
From Paco Require Import paco.
From S2P Require Import Prelude GoStd Json Float64 EppMetrics EppSched ExtProcStream.

(** ** Messages *)

Record HeaderValue := { Key : string; Value : string; RawValue : string }.

(** [HttpHeaders]; its [Headers] message may be missing. *)
Record HttpHeaders := { Headers : option (list HeaderValue); EndOfStream : bool }.

Record HttpBody := { Body : string; eos : bool }.

(** The oneof of a ProcessingRequest; a member may be a nil message, and the
    oneof may be unset. *)
Inductive ProcessingRequest :=
| RequestHeaders (h : option HttpHeaders)
| RequestBody (b : option HttpBody)
| RequestTrailers
| ResponseHeaders
| ResponseBody
| ResponseTrailers
| NoRequest.

(** ** The state of a stream *)

Inductive StreamRequestState :=
| RequestReceived
| HeaderRequestResponseComplete
| BodyRequestResponsesComplete
| TrailerRequestResponsesComplete
| ResponseReceived
| HeaderResponseResponseComplete
| BodyResponseResponsesComplete
| TrailerResponseResponsesComplete.

Record RequestData := {
  req_headers : gmap string string;
  req_body : object;
  req_metadata : object
}.

Record RequestContext := {
  modelName : string;
  Request : RequestData;
  RequestState : StreamRequestState;
  RequestReceivedTimestamp : option Z;
  ResponseCompleteTimestamp : option Z;
  Response_Headers : gmap string string
}.

Inductive stream_error := UnmarshalFailed | ModelNotFound.

(** The variables of [Process] that outlive a turn of its loop. *)
Record loop := { reqCtx : RequestContext; body : string; err : option stream_error }.

(** How [Process] returns. *)
Inductive process_error :=
| CtxErr
| CannotReceive (stale : option stream_error)
| CannotSend.

(** [resp], the response that a turn sends, is declared nowhere. *)
Class Responses (ProcessingResponse : Type) := { resp : loop -> ProcessingResponse }.

Definition set_headers (h : gmap string string) (c : RequestContext) : RequestContext :=
  {| modelName := modelName c;
     Request := {| req_headers := h; req_body := req_body (Request c); req_metadata := req_metadata (Request c) |};
     RequestState := RequestState c; RequestReceivedTimestamp := RequestReceivedTimestamp c;
     ResponseCompleteTimestamp := ResponseCompleteTimestamp c; Response_Headers := Response_Headers c |}.

Definition set_body (b : object) (c : RequestContext) : RequestContext :=
  {| modelName := modelName c;
     Request := {| req_headers := req_headers (Request c); req_body := b; req_metadata := req_metadata (Request c) |};
     RequestState := RequestState c; RequestReceivedTimestamp := RequestReceivedTimestamp c;
     ResponseCompleteTimestamp := ResponseCompleteTimestamp c; Response_Headers := Response_Headers c |}.

Definition set_received (t : Z) (c : RequestContext) : RequestContext :=
  {| modelName := modelName c; Request := Request c; RequestState := RequestState c;
     RequestReceivedTimestamp := Some t;
     ResponseCompleteTimestamp := ResponseCompleteTimestamp c; Response_Headers := Response_Headers c |}.

Definition set_model (m : string) (c : RequestContext) : RequestContext :=
  {| modelName := m; Request := Request c; RequestState := RequestState c;
     RequestReceivedTimestamp := RequestReceivedTimestamp c;
     ResponseCompleteTimestamp := ResponseCompleteTimestamp c; Response_Headers := Response_Headers c |}.

Definition new_loop : loop :=
  {| reqCtx :=
       {| modelName := "";
          Request := {| req_headers := ∅; req_body := Some ∅; req_metadata := Some ∅ |};
          RequestState := RequestReceived; RequestReceivedTimestamp := None;
          ResponseCompleteTimestamp := None; Response_Headers := ∅ |};
     body := ""; err := None |}.

(** ** request_headers.go *)

Definition RequestIdHeaderKey : string := "x-request-id".

Definition GetHeaderValue (header : HeaderValue) : string :=
  if (0 <? String.length (RawValue header))%nat then RawValue header else Value header.

Fixpoint find_header (key : string) (hs : list HeaderValue) : string :=
  match hs with
  | [] => ""
  | kv :: rest => if bool_decide (ToLower (Key kv) = key) then GetHeaderValue kv else find_header key rest
  end.

Definition ExtractHeadersValue (req : option HttpHeaders) (headerKey : string) : string :=
  let headerKeyInLower := ToLower headerKey in
  match req with
  | Some {| Headers := Some hs |} => find_header headerKeyInLower hs
  | _ => ""
  end.

Definition store_headers (hs : list HeaderValue) (m : gmap string string) : gmap string string :=
  foldl (fun m header => <[Key header := GetHeaderValue header]> m) m hs.

(** Its error is always nil. *)
Definition HandleRequestHeaders (now : Z) (c : RequestContext) (req : option HttpHeaders) :
    outcome Empty_set RequestContext :=
  let c := set_received now c in
  let* h := deref req in
  let* hs := deref (Headers h) in
  Ret (set_headers (store_headers hs (req_headers (Request c))) c).

(** The whole case of the request headers. *)
Definition on_request_headers (uuid : string) (now : Z) (req : option HttpHeaders) (l : loop) :
    outcome Empty_set loop :=
  let requestID := ExtractHeadersValue req RequestIdHeaderKey in
  let c := if bool_decide (String.length requestID = 0%nat)
           then set_headers (<[RequestIdHeaderKey := uuid]> (req_headers (Request (reqCtx l)))) (reqCtx l)
           else reqCtx l in
  let* c := HandleRequestHeaders now c req in
  Ret {| reqCtx := c; body := body l; err := None |}.

(** ** pkg/epp/scheduling/scheduler.go *)

Section Scheduler.
Context {StateData LLMRequest SchedulingResult : Type} {MI : MapIter}.

(** A profile with its plugins, as EppSched runs them. *)
Record SchedulerProfile := {
  filters : list (Filter (StateData := StateData) (LLMRequest := LLMRequest));
  runScorerPlugins : Scorer (StateData := StateData) (LLMRequest := LLMRequest);
  scored_order : gmap Pod f64 -> list (Pod * f64);
  picker : Picker (StateData := StateData)
}.

(** [ProcessResults] of the profile handler, whose interface is empty. *)
Record Scheduler := {
  ProcessResults : CycleState (StateData := StateData) -> LLMRequest -> gmap string (list Pod) -> SchedulingResult;
  profiles : gmap string SchedulerProfile
}.

(** The inner loop: every profile runs on the shared state of the cycle, and
    its result is dropped. *)
Definition run_profiles (s : Scheduler) (request : LLMRequest) (candidatePods : list Pod) (n : nat)
    (cycleState : CycleState) : CycleState :=
  foldl (fun c np => (Run (filters np.2) (runScorerPlugins np.2) (scored_order np.2) (picker np.2)
                        c request candidatePods).1)
    cycleState (map_range ("Schedule" :: replicate n "again")%string (profiles s)).

(** One turn of the outer loop, with the number of turns so far. *)
Definition schedule_turn {E : Type -> Type} (s : Scheduler) (request : LLMRequest) (candidatePods : list Pod)
    (st : nat * CycleState) : itree E ((nat * CycleState) + CycleState) :=
  if bool_decide (size (profiles s) = 0%nat) then Leaf (inr st.2)
  else Leaf (inl (S st.1, run_profiles s request candidatePods st.1 st.2)).

(** The map of results stays empty: the assignment to it follows the loop. *)
Definition Schedule {E : Type -> Type} (s : Scheduler) (request : LLMRequest) (candidatePods : list Pod) :
    itree E SchedulingResult :=
  perform cycleState := ITree.iter (schedule_turn s request candidatePods) (0%nat, NewCycleState) in
  Leaf (ProcessResults s cycleState request ∅).

Lemma Schedule_returns {E : Type -> Type} s request pods :
  profiles s = ∅ ->
  (Schedule (E := E) s request pods ~~ Leaf (ProcessResults s NewCycleState request ∅))%go.
Proof.
  intros Hp. unfold Schedule. rewrite unfold_iter. unfold schedule_turn at 1.
  rewrite bool_decide_eq_true_2 by (by rewrite Hp, map_size_empty).
  rewrite !bind_ret_l. cbn. reflexivity.
Qed.

Lemma Schedule_spins {E : Type -> Type} s request pods :
  profiles s <> ∅ -> (Schedule (E := E) s request pods ~~ ITree.spin)%go.
Proof.
  intros Hp. unfold Schedule.
  enough (forall st, (ITree.iter (schedule_turn (E := E) s request pods) st ~~ ITree.spin)%go) as ->
    by apply spin_bind.
  einit. ecofix CIH. intros st. rewrite unfold_iter. unfold schedule_turn at 1.
  rewrite bool_decide_eq_false_2 by (by rewrite map_size_empty_iff).
  rewrite bind_ret_l. rewrite (itree_eta ITree.spin). cbn. etau.
Qed.

End Scheduler.

(** ** router.go and ext_proc.go *)

Section Server.
Context {StateData LLMRequest SchedulingResult ProcessingResponse : Type} {MI : MapIter} {JL : JsonLib}
  {RS : Responses ProcessingResponse}.

(** The router: its scheduler, the pods its datastore lists, and the request
    [reqCtx.SchedulingRequest] it hands over, a field of no declaration. *)
Record Router := {
  scheduler : Scheduler (StateData := StateData) (LLMRequest := LLMRequest) (SchedulingResult := SchedulingResult);
  GetPodsSnapshot : list Pod;
  SchedulingRequest : RequestContext -> LLMRequest
}.

#[local] Notation stream := (streamE (Request := ProcessingRequest) (Response := ProcessingResponse)).

(** [reqCtx.modelName, ok = ...] assigns the empty string when there is none. *)
Definition HandleRequest (router : Router) (c : RequestContext) :
    itree stream (RequestContext * option stream_error) :=
  let '(model, ok) := as_string (obj_get "model" (req_body (Request c))) in
  let c := set_model model c in
  if ok then
    perform _ := Schedule (scheduler router) (SchedulingRequest router c) (GetPodsSnapshot router) in
    Leaf (c, None)
  else Leaf (c, Some ModelNotFound).

(** The case of the request body.  A chunk is added to those before it; the
    last one is decoded into the body of the request, and the chunks are
    forgotten once that has succeeded. *)
Definition on_request_body (router : Router) (b : option HttpBody) (l : loop) :
    itree stream (outcome Empty_set loop) :=
  match b with
  | None => Leaf (Panic NilDereference)
  | Some chunk =>
      let data := body l +:+ Body chunk in
      if eos chunk then
        let '(m, failed) := unmarshal_map data (req_body (Request (reqCtx l))) in
        let c := set_body m (reqCtx l) in
        if failed then Leaf (Ret {| reqCtx := c; body := data; err := Some UnmarshalFailed |})
        else
          perform ce := HandleRequest router c in
          Leaf (Ret {| reqCtx := ce.1; body := ""; err := ce.2 |})
      else Leaf (Ret {| reqCtx := reqCtx l; body := data; err := err l |})
  end.

(** The switch on the message: five of its cases do nothing. *)
Definition dispatch (router : Router) (req : ProcessingRequest) (l : loop) :
    itree stream (outcome Empty_set loop) :=
  match req with
  | RequestHeaders h =>
      perform uuid := (if bool_decide (String.length (ExtractHeadersValue h RequestIdHeaderKey) = 0%nat)
                       then event NewString else Leaf ""%string) in
      perform now := event Now in
      Leaf (on_request_headers uuid now h l)
  | RequestBody b => on_request_body router b l
  | RequestTrailers | ResponseHeaders | ResponseBody | ResponseTrailers | NoRequest => Leaf (Ret l)
  end.

Inductive finish := Returned (e : option process_error) | Panicked (p : panic).

(** One turn of the loop of [Process]. *)
Definition process_turn (router : Router) (l : loop) : itree stream (loop + finish) :=
  perform done := event CtxDone in
  if done then Leaf (inr (Returned (Some CtxErr)))
  else
    perform received := event Recv in
    match received with
    | inl EOF | inl StatusCanceled => Leaf (inr (Returned None))
    | inl StatusOther => Leaf (inr (Returned (Some (CannotReceive (err l)))))
    | inr req =>
        perform o := dispatch router req l in
        match o with
        | Ret l' =>
            perform sent := event (Send (resp l')) in
            if sent then Leaf (inl l') else Leaf (inr (Returned (Some CannotSend)))
        | Err e => match e with end
        | Panic p => Leaf (inr (Panicked p))
        end
    end.

Definition Process (router : Router) : itree stream finish := ITree.iter (process_turn router) new_loop.

(** ** What a stream does, as a function of its script *)

(** The state after one message; [None] when the scheduler is entered and does
    not come back. *)
Definition after_body (idle : bool) (chunk : HttpBody) (l : loop) : option loop :=
  let data := body l +:+ Body chunk in
  if eos chunk then
    let '(m, failed) := unmarshal_map data (req_body (Request (reqCtx l))) in
    let c := set_body m (reqCtx l) in
    if failed then Some {| reqCtx := c; body := data; err := Some UnmarshalFailed |}
    else match obj_get "model" m with
         | Some (JString model) =>
             if idle then Some {| reqCtx := set_model model c; body := ""; err := None |} else None
         | _ => Some {| reqCtx := set_model "" c; body := ""; err := Some ModelNotFound |}
         end
  else Some {| reqCtx := reqCtx l; body := data; err := err l |}.

Definition after (idle : bool) (t : turn (Request := ProcessingRequest)) (req : ProcessingRequest) (l : loop) :
    option (outcome Empty_set loop) :=
  match req with
  | RequestHeaders h =>
      let uuid := if bool_decide (String.length (ExtractHeadersValue h RequestIdHeaderKey) = 0%nat)
                  then t_uuid t else ""%string in
      Some (on_request_headers uuid (t_now t) h l)
  | RequestBody None => Some (Panic NilDereference)
  | RequestBody (Some chunk) => Ret <$> after_body idle chunk l
  | _ => Some (Ret l)
  end.

Fixpoint serve (idle : bool) (script : list (turn (Request := ProcessingRequest))) (log : list ProcessingResponse)
    (l : loop) : option (world (Request := ProcessingRequest) (Response := ProcessingResponse) * finish) :=
  match script with
  | [] => Some ([], log, Returned (Some CtxErr))
  | t :: rest =>
      if t_done t then Some (script, log, Returned (Some CtxErr))
      else match t_recv t with
           | inl EOF | inl StatusCanceled => Some (script, log, Returned None)
           | inl StatusOther => Some (script, log, Returned (Some (CannotReceive (err l))))
           | inr req =>
               match after idle t req l with
               | None => None
               | Some (Ret l') =>
                   if t_sent t then serve idle rest (log ++ [resp l']) l'
                   else Some (rest, log, Returned (Some CannotSend))
               | Some (Err e) => match e with end
               | Some (Panic p) => Some (script, log, Panicked p)
               end
           end
  end.

(** ** Lemmas *)

#[local] Open Scope go_scope.

(** No profile is configured. *)
Definition idle_router (router : Router) : bool := bool_decide (size (profiles (scheduler router)) = 0%nat).

Lemma Schedule_idle {E : Type -> Type} (router : Router) request pods :
  Schedule (E := E) (scheduler router) request pods ~~
  if idle_router router then Leaf (ProcessResults (scheduler router) NewCycleState request ∅) else ITree.spin.
Proof.
  unfold idle_router. case_bool_decide as Hs.
  - apply Schedule_returns. by apply map_size_empty_iff.
  - apply Schedule_spins. by rewrite <- map_size_empty_iff.
Qed.

Lemma run_HandleRequest router c w :
  run (HandleRequest router c) w ~~
  match obj_get "model" (req_body (Request c)) with
  | Some (JString model) => if idle_router router then Leaf (w, (set_model model c, None)) else ITree.spin
  | _ => Leaf (w, (set_model "" c, Some ModelNotFound))
  end.
Proof.
  unfold HandleRequest, as_string.
  destruct (obj_get _ _) as [[]|]; try apply run_ret.
  unfold run. rewrite interp_state_bind. fold (run (Request := ProcessingRequest) (Response := ProcessingResponse)
    (Schedule (scheduler router) (SchedulingRequest router (set_model s c)) (GetPodsSnapshot router)) w).
  unfold run. rewrite Schedule_idle. destruct (idle_router router).
  - rewrite interp_state_ret, bind_ret_l. cbn. by rewrite interp_state_ret.
  - fold (run (T := SchedulingResult) (Request := ProcessingRequest) (Response := ProcessingResponse) ITree.spin w).
    rewrite run_spin. apply spin_bind.
Qed.

Lemma run_on_request_body router chunk l w :
  run (on_request_body router (Some chunk) l) w ~~
  match after_body (idle_router router) chunk l with
  | Some l' => Leaf (w, Ret l')
  | None => ITree.spin
  end.
Proof.
  unfold on_request_body, after_body. destruct (eos chunk); [|apply run_ret].
  destruct (unmarshal_map _ _) as [m failed]. destruct failed; [apply run_ret|].
  rewrite run_bind, run_HandleRequest. cbn [req_body Request set_body].
  destruct (obj_get "model" m) as [[]|];
    try (rewrite bind_ret_l; cbn [fst snd]; apply run_ret).
  destruct (idle_router router); [|apply spin_bind].
  rewrite bind_ret_l. cbn [fst snd]. apply run_ret.
Qed.

Lemma run_dispatch router req l t rest log :
  run (dispatch router req l) (t :: rest, log) ~~
  match after (idle_router router) t req l with
  | Some o => Leaf ((t :: rest, log), o)
  | None => ITree.spin
  end.
Proof.
  destruct req as [h|[chunk|]| | | | |]; cbn [dispatch after]; try apply run_ret.
  - case_bool_decide.
    + rewrite run_event by done. rewrite run_event by done. apply run_ret.
    + rewrite run_bind, run_ret, bind_ret_l. cbn [fst snd].
      rewrite run_event by done. apply run_ret.
  - rewrite run_on_request_body. by destruct (after_body _ _ _).
Qed.

Lemma run_process_turn router l t rest log :
  run (process_turn router l) (t :: rest, log) ~~
  if t_done t then Leaf (t :: rest, log, inr (Returned (Some CtxErr)))
  else match t_recv t with
       | inl EOF | inl StatusCanceled => Leaf (t :: rest, log, inr (Returned None))
       | inl StatusOther => Leaf (t :: rest, log, inr (Returned (Some (CannotReceive (err l)))))
       | inr req =>
           match after (idle_router router) t req l with
           | None => ITree.spin
           | Some (Ret l') =>
               if t_sent t then Leaf (rest, log ++ [resp l'], inl l')
               else Leaf (rest, log, inr (Returned (Some CannotSend)))
           | Some (Err e) => match e with end
           | Some (Panic p) => Leaf (t :: rest, log, inr (Panicked p))
           end
       end.
Proof.
  unfold process_turn. rewrite run_event by done. cbn [fst]. destruct (t_done t); [apply run_ret|].
  rewrite run_event by done. cbn [fst]. destruct (t_recv t) as [[]|req]; try apply run_ret.
  rewrite run_bind, run_dispatch. destruct (after _ _ _ _) as [[l'|[]|p]|]; [| |apply spin_bind].
  - rewrite bind_ret_l. cbn [fst snd]. erewrite run_event by done. cbn [fst snd].
    destruct (t_sent t); apply run_ret.
  - rewrite bind_ret_l. cbn [fst snd]. apply run_ret.
Qed.

Lemma process_iter_serves router script log l :
  run (ITree.iter (process_turn router) l) (script, log) ~~
  match serve (idle_router router) script log l with
  | Some result => Leaf result
  | None => ITree.spin
  end.
Proof.
  revert log l. induction script as [|t rest IH]; intros log l; rewrite run_iter.
  - unfold process_turn. rewrite run_event by done. cbn [fst]. rewrite run_ret, bind_ret_l. done.
  - rewrite run_process_turn. cbn [serve].
    destruct (t_done t); [by rewrite bind_ret_l|].
    destruct (t_recv t) as [[]|req]; try (by rewrite bind_ret_l).
    destruct (after _ _ _ _) as [[l'|[]|p]|]; [|by rewrite bind_ret_l|apply spin_bind].
    destruct (t_sent t); rewrite bind_ret_l; cbn [fst snd]; [apply IH|done].
Qed.

End Server.

(** ** The stream loop *)

(** C4: The loop, run against any script, does exactly what [serve] says: the
    messages in order until the context ends, the peer closes, a receive or a
    send fails or a message panics; and it runs forever, sending nothing more,
    when the scheduler of a router with a profile is entered. *)
Theorem process_serves {StateData LLMRequest SchedulingResult ProcessingResponse : Type} {MI : MapIter}
    {JL : JsonLib} {RS : Responses ProcessingResponse}
    (router : Router (StateData := StateData) (LLMRequest := LLMRequest) (SchedulingResult := SchedulingResult))
    (script : list (turn (Request := ProcessingRequest))) :
  (run (Process router) (script, []) ~~
   match serve (idle_router router) script [] new_loop with
   | Some result => Leaf result
   | None => ITree.spin
   end)%go.
Proof. apply process_iter_serves. Qed.

Section Streams.
Context {ProcessingResponse : Type} {JL : JsonLib} {RS : Responses ProcessingResponse}.

#[local] Notation turn := (turn (Request := ProcessingRequest)).

(** A message arrives and the response to it is taken. *)
Definition accepted (req : ProcessingRequest) (t : turn) : Prop :=
  t_done t = false /\ t_recv t = inr req /\ t_sent t = true.

(** The state after accepted messages, and the responses to them. *)
Inductive accepts (idle : bool) : list turn -> loop -> loop -> list ProcessingResponse -> Prop :=
| accepts_nil l : accepts idle [] l l []
| accepts_cons t req ts l l1 l2 out :
    accepted req t -> after idle t req l = Some (Ret l1) -> accepts idle ts l1 l2 out ->
    accepts idle (t :: ts) l l2 (resp l1 :: out).

Lemma serve_accepts idle ts l l' out rest log :
  accepts idle ts l l' out -> serve idle (ts ++ rest) log l = serve idle rest (log ++ out) l'.
Proof.
  intros H. revert log. induction H as [l|t req ts l l1 l2 out (Hd & Hr & Hs) Ha _ IH]; intros log.
  - by rewrite app_nil_r.
  - cbn [serve app]. rewrite Hd, Hr, Ha, Hs, IH. by rewrite <- app_assoc.
Qed.

Lemma accepts_length idle ts l l' out : accepts idle ts l l' out -> length out = length ts.
Proof. induction 1; simpl; congruence. Qed.

Lemma after_body_chunk idle c l :
  eos c = false ->
  after_body idle c l = Some {| reqCtx := reqCtx l; body := body l +:+ Body c; err := err l |}.
Proof. intros H. unfold after_body. by rewrite H. Qed.

(** The chunks of a body joined. *)
Definition joined (cs : list HttpBody) : string := foldr (fun c s => Body c +:+ s) ""%string cs.

Lemma chunks_accepted idle cs ts l :
  Forall (fun c => eos c = false) cs ->
  Forall2 (fun c t => accepted (RequestBody (Some c)) t) cs ts ->
  exists out, accepts idle ts l {| reqCtx := reqCtx l; body := body l +:+ joined cs; err := err l |} out.
Proof.
  intros Hf H. revert l. induction H as [|c t cs ts Ht _ IH]; intros l.
  - exists []. cbn. rewrite str_app_nil_r. destruct l. constructor.
  - apply Forall_cons in Hf as [Hc Hf].
    destruct (IH Hf {| reqCtx := reqCtx l; body := body l +:+ Body c; err := err l |}) as [out Ho].
    cbn [reqCtx body err] in Ho. rewrite str_app_assoc in Ho.
    eexists. econstructor; [exact Ht| |exact Ho].
    cbn [after]. by rewrite after_body_chunk.
Qed.

End Streams.

(** ** Bodies *)

Section Bodies.
Context {StateData LLMRequest SchedulingResult ProcessingResponse : Type} {MI : MapIter}
  {JL : JsonLib} {RS : Responses ProcessingResponse}.

#[local] Notation turn := (turn (Request := ProcessingRequest)).
#[local] Notation Router := (Router (StateData := StateData) (LLMRequest := LLMRequest)
  (SchedulingResult := SchedulingResult)).

(** What a stream goes on to do from a state. *)
Definition continues (router : Router) (rest : list turn) (log : list ProcessingResponse) (l : loop) :
    itree void1 (world * finish) :=
  match serve (idle_router router) rest log l with
  | Some result => Leaf result
  | None => ITree.spin
  end.

Lemma joined_app cs last : joined (cs ++ [last]) = joined cs +:+ Body last.
Proof.
  unfold joined. induction cs as [|c cs IH]; cbn in *; [by rewrite str_app_nil_r|].
  by rewrite IH, str_app_assoc.
Qed.

Lemma after_body_last idle (l : loop) data last :
  eos last = true ->
  after_body idle last {| reqCtx := reqCtx l; body := body l +:+ data; err := err l |} =
  after_body idle {| Body := data +:+ Body last; eos := true |} l.
Proof. intros H. unfold after_body. rewrite H. cbn [body reqCtx Body eos]. by rewrite str_app_assoc. Qed.

(** C9: A body that arrives in chunks is handled like the whole body in one
    message, wherever it is cut: one response per chunk, then the decoded body
    with its error if any.  When the decoded body names a model and a profile is
    configured, the stream hangs in the scheduler and the last chunk is never
    answered. *)
Theorem body_decoded_whole (router : Router) pre l out cs last ts t rest
    (Hpre : accepts (idle_router router) pre new_loop l out)
    (Hcs : Forall (fun c => eos c = false) cs) (Hlast : eos last = true)
    (Hts : Forall2 (fun c t => accepted (RequestBody (Some c)) t) cs ts)
    (Ht : accepted (RequestBody (Some last)) t) :
  (match after_body (idle_router router) {| Body := joined (cs ++ [last]); eos := true |} l with
   | Some l' =>
       exists answers, length answers = length cs /\
       run (Process router) (pre ++ ts ++ t :: rest, []) ~~
       continues router rest (out ++ answers ++ [resp l']) l'
   | None => run (Process router) (pre ++ ts ++ t :: rest, []) ~~ ITree.spin
   end)%go.
Proof.
  destruct (chunks_accepted (idle_router router) cs ts l Hcs Hts) as [answers Ha].
  assert (length answers = length cs) as Hlen
    by (rewrite (accepts_length _ _ _ _ _ Ha); symmetry; by eapply Forall2_length).
  rewrite joined_app, <- (after_body_last _ l (joined cs) last Hlast).
  destruct Ht as (Hd & Hr & Hs).
  pose proof (process_serves router (pre ++ ts ++ t :: rest)) as Hp.
  rewrite (serve_accepts _ _ _ _ _ _ _ Hpre), (serve_accepts _ _ _ _ _ _ _ Ha) in Hp.
  cbn [serve app] in Hp. rewrite Hd, Hr in Hp. cbn [after] in Hp.
  destruct (after_body _ last _) as [l'|]; cbn [fmap option_fmap option_map] in Hp; [|done].
  rewrite Hs in Hp. exists answers. split; [done|]. rewrite Hp. unfold continues.
  by rewrite <- !app_assoc.
Qed.

End Bodies.

(** ** Headers *)

Lemma store_headers_lookup hs m k :
  store_headers hs m !! k =
  match list_find (fun h => Key h = k) (rev hs) with
  | Some (_, h) => Some (GetHeaderValue h)
  | None => m !! k
  end.
Proof.
  revert m. induction hs as [|h hs IH]; intros m; [done|].
  change (store_headers (h :: hs) m) with (store_headers hs (<[Key h := GetHeaderValue h]> m)).
  rewrite IH. cbn [rev].
  destruct (list_find (fun h => Key h = k) (rev hs)) as [[i h0]|] eqn:E.
  - by rewrite (list_find_app_l _ _ [h] i h0 E).
  - rewrite list_find_app_r by done. cbn.
    destruct (decide (Key h = k)) as [<-|Hk]; [by rewrite lookup_insert_eq|by rewrite lookup_insert_ne].
Qed.

(** What the request headers leave in the context: under every name the value
    of its last header; under x-request-id the generated id only when no header
    has that name in any case or the first that has is empty, and even then a
    header spelt exactly so wins; under any other name what was there.  The
    stream's error is cleared and its chunks are kept.  A message without
    headers panics. *)
Theorem headers_recorded uuid now h l :
  match h with
  | Some {| Headers := Some hs |} =>
      exists l', on_request_headers uuid now h l = Ret l' /\ err l' = None /\ body l' = body l /\
        req_body (Request (reqCtx l')) = req_body (Request (reqCtx l)) /\
        modelName (reqCtx l') = modelName (reqCtx l) /\
        RequestReceivedTimestamp (reqCtx l') = Some now /\
        (forall k, req_headers (Request (reqCtx l')) !! k =
           match list_find (fun h => Key h = k) (rev hs) with
           | Some (_, h) => Some (GetHeaderValue h)
           | None =>
               if bool_decide (k = RequestIdHeaderKey /\ find_header RequestIdHeaderKey hs = "")
               then Some uuid else req_headers (Request (reqCtx l)) !! k
           end)
  | _ => on_request_headers uuid now h l = Panic NilDereference
  end.
Proof.
  destruct h as [[[hs|] e]|]; [|unfold on_request_headers; by case_bool_decide..].
  unfold on_request_headers, ExtractHeadersValue, HandleRequestHeaders.
  change (ToLower RequestIdHeaderKey) with RequestIdHeaderKey. cbn [Headers deref obind].
  assert (String.length (find_header RequestIdHeaderKey hs) = 0%nat <->
          find_header RequestIdHeaderKey hs = ""%string) as Hlen
    by (destruct (find_header _ hs); naive_solver).
  case_bool_decide as Hid; (eexists; split; [reflexivity|]; cbn; split_and!; [done..|]); intros k;
    rewrite store_headers_lookup; destruct (list_find _ (rev hs)) as [[i h0]|]; try done;
    case_bool_decide as Hk.
  - destruct Hk as [-> _]. by rewrite lookup_insert_eq.
  - rewrite lookup_insert_ne; [done|]. intros <-. tauto.
  - tauto.
  - done.
Qed.

(** The generated id is lost to an empty header. *)
Lemma generated_id_lost uuid now l :
  exists l',
    on_request_headers uuid now
      (Some {| Headers := Some [{| Key := "x-request-id"; Value := ""; RawValue := "" |}];
               EndOfStream := false |}) l = Ret l' /\
    req_headers (Request (reqCtx l')) !! "x-request-id"%string = Some ""%string.
Proof. eexists. split; [reflexivity|]. cbn. by rewrite lookup_insert_eq. Qed.

(** An error stays with the stream until the next headers or last chunk: the
    messages in between are answered as failed too, and a failed receive reports
    it instead of its own error. *)
Lemma error_outlives_message {JL : JsonLib} idle t req l l' :
  (forall h, req <> RequestHeaders h) -> (forall c, req = RequestBody (Some c) -> eos c = false) ->
  after idle t req l = Some (Ret l') -> err l' = err l.
Proof.
  intros Hh Hc H. destruct req as [h|[c|]| | | | |]; cbn [after] in H; simplify_eq; try done.
  - by destruct (Hh h).
  - rewrite after_body_chunk in H by auto. cbn in H. by simplify_eq.
Qed.

(** ** A picker with a profile *)

Module Example.

Definition codec : JsonLib :=
  {| json_parse s := if bool_decide (s = "{model}"%string) then Some (JObject [("model", JString "qwen")]%string)
                     else None;
     json_marshal _ := Some ""%string |}.

Definition count : Responses string := {| resp l := body l |}.

Definition profile : SchedulerProfile (StateData := unit) (LLMRequest := unit) :=
  {| filters := []; runScorerPlugins := fun c _ _ => (c, ∅); scored_order := map_to_list;
     picker := fun c _ => (c, []) |}.

Definition router : Router (StateData := unit) (LLMRequest := unit) (SchedulingResult := unit) :=
  {| scheduler := {| ProcessResults := fun _ _ _ => (); profiles := {["default" := profile]} |};
     GetPodsSnapshot := [1%positive]; SchedulingRequest := fun _ => () |}.

Definition chunk (s : string) (last : bool) : HttpBody := {| Body := s; eos := last |}.

Definition sends (c : HttpBody) : turn (Request := ProcessingRequest) :=
  {| t_done := false; t_recv := inr (RequestBody (Some c)); t_uuid := "id"; t_now := 0; t_sent := true |}.

End Example.

Lemma body_decoded_whole_witness :
  (run (Process (JL := Example.codec) (RS := Example.count) Example.router)
     ([] ++ [Example.sends (Example.chunk "{mod" false)] ++ Example.sends (Example.chunk "el}" true) :: [], [])
   ~~ ITree.spin)%go.
Proof.
  apply (body_decoded_whole (JL := Example.codec) (RS := Example.count) Example.router [] new_loop []
    [Example.chunk "{mod" false] (Example.chunk "el}" true)
    [Example.sends (Example.chunk "{mod" false)] (Example.sends (Example.chunk "el}" true)) []).
  - constructor.
  - by repeat constructor.
  - done.
  - by repeat constructor.
  - done.
Defined.

(** ** options.go *)

Record Options := {
  GRPCPort : Z;
  ConfigFile : string;
  ModelServerMetricsScheme : string;
  ModelServerMetricsPath : string;
  ModelServerMetricsHTTPSInsecure : bool;
  TotalQueuedRequestsMetric : string;
  TotalRunningRequestsMetric : string;
  KVCacheUsagePercentageMetric : string;
  LoRAInfoMetric : string;
  CacheInfoMetric : string;
  RefreshMetricsInterval : Z
}.

Definition DefaultGrpcPort : Z := 9002.

(** A time.Duration counts nanoseconds. *)
Definition NewOptions : Options :=
  {| GRPCPort := DefaultGrpcPort; ConfigFile := "";
     ModelServerMetricsScheme := "http"; ModelServerMetricsPath := "/metrics";
     ModelServerMetricsHTTPSInsecure := false;
     TotalQueuedRequestsMetric := "vllm:num_requests_waiting";
     TotalRunningRequestsMetric := "vllm:num_requests_running";
     KVCacheUsagePercentageMetric := "vllm:kv_cache_usage_perc";
     LoRAInfoMetric := "vllm:lora_requests_info";
     CacheInfoMetric := "vllm:cache_config_info";
     RefreshMetricsInterval := 1000000000 |}.

Inductive flag := IntVar (name : string) (value : Z) | StringVar (name value : string).

(** The flags registered, with their defaults. *)
Definition AddFlags (opts : Options) : list flag :=
  [IntVar "grpc-port" (GRPCPort opts); StringVar "config-file" (ConfigFile opts);
   StringVar "model-server-metrics-scheme" (ModelServerMetricsScheme opts)].
