(* ===== verification/EppRunner.v ===== *)
(** * EppRunner: how the endpoint picker is put together

    cmd/envoy-inferencepool/runner/runner.go and pkg/epp/server/server.go: the
    flags, the metric mapping and the metrics client made from them, the
    registration of the controllers and of the gRPC server with the manager.
    The options are those of EppServer and the mapping that of EppMetrics; the
    manager, the listener and the gRPC server are parameters ([PickerHost]), as
    are Complete, Validate and the configuration file, which no file declares. *)

From S2P Require Import Prelude GoStd K8s EppMetrics EppServer.

Local Open Scope Z_scope.

(** ** Flags *)

(** The flags given on the command line. *)
Record PickerFlags := { fl_grpc_port : option Z; fl_config_file : option string; fl_scheme : option string }.

(** Parsing sets the three variables that [AddFlags] registers. *)
Definition parsed (opts : Options) (f : PickerFlags) : Options :=
  {| GRPCPort := default (GRPCPort opts) (fl_grpc_port f);
     ConfigFile := default (ConfigFile opts) (fl_config_file f);
     ModelServerMetricsScheme := default (ModelServerMetricsScheme opts) (fl_scheme f);
     ModelServerMetricsPath := ModelServerMetricsPath opts;
     ModelServerMetricsHTTPSInsecure := ModelServerMetricsHTTPSInsecure opts;
     TotalQueuedRequestsMetric := TotalQueuedRequestsMetric opts;
     TotalRunningRequestsMetric := TotalRunningRequestsMetric opts;
     KVCacheUsagePercentageMetric := KVCacheUsagePercentageMetric opts;
     LoRAInfoMetric := LoRAInfoMetric opts; CacheInfoMetric := CacheInfoMetric opts;
     RefreshMetricsInterval := RefreshMetricsInterval opts |}.

(** ** Metrics *)

(** http.DefaultClient, or a client with its own TLS configuration. *)
Inductive http_client := DefaultClient | TLSClient (InsecureSkipVerify : bool).

Record PodMetricsClient := {
  MetricMapping_ : MetricMapping; pmc_Path : string; pmc_Scheme : string; pmc_Client : http_client
}.

Record PodMetricsFactory := { podMetricsClient : PodMetricsClient; refreshMetricsInterval : Z }.

Definition NewPodMetricsFactory (c : PodMetricsClient) (interval : Z) : PodMetricsFactory :=
  {| podMetricsClient := c; refreshMetricsInterval := interval |}.

Definition setUpMetrics (opts : Options) : outcome spec_error PodMetricsFactory :=
  let* mapping :=
    NewMetricMapping (TotalQueuedRequestsMetric opts) (TotalRunningRequestsMetric opts)
      (KVCacheUsagePercentageMetric opts) (LoRAInfoMetric opts) (CacheInfoMetric opts) in
  let metricsHttpClient :=
    if bool_decide (ModelServerMetricsScheme opts = "https"%string)
    then TLSClient (ModelServerMetricsHTTPSInsecure opts) else DefaultClient in
  Ret (NewPodMetricsFactory
         {| MetricMapping_ := mapping; pmc_Path := ModelServerMetricsPath opts;
            pmc_Scheme := ModelServerMetricsScheme opts; pmc_Client := metricsHttpClient |}
         (RefreshMetricsInterval opts)).

(** The metric of a plain name. *)
Definition plain (name : string) : option MetricSpec := Some {| MetricName := name; spec_labels := Some ∅ |}.

Definition vllm_mapping : MetricMapping :=
  {| TotalQueuedRequests := plain "vllm:num_requests_waiting";
     TotalRunningRequests := plain "vllm:num_requests_running";
     KVCacheUtilization := plain "vllm:kv_cache_usage_perc";
     LoraRequestInfo := plain "vllm:lora_requests_info";
     CacheConfigInfo := plain "vllm:cache_config_info" |}.

(** Whatever the flags are, the metrics are set up: vLLM's names, the path
    /metrics, every second, and with the https scheme certificates are always
    verified. *)
Theorem metrics_set_up f :
  setUpMetrics (parsed NewOptions f) =
    Ret {| podMetricsClient :=
             {| MetricMapping_ := vllm_mapping; pmc_Path := "/metrics"; pmc_Scheme := default "http" (fl_scheme f);
                pmc_Client := if bool_decide (fl_scheme f = Some "https"%string) then TLSClient false
                              else DefaultClient |};
           refreshMetricsInterval := 1000000000 |}.
Proof.
  unfold setUpMetrics, parsed. cbn [TotalQueuedRequestsMetric TotalRunningRequestsMetric KVCacheUsagePercentageMetric
    LoRAInfoMetric CacheInfoMetric NewOptions].
  assert (NewMetricMapping "vllm:num_requests_waiting" "vllm:num_requests_running" "vllm:kv_cache_usage_perc"
            "vllm:lora_requests_info" "vllm:cache_config_info" = Ret vllm_mapping) as -> by (vm_compute; reflexivity).
  cbn. repeat f_equal. destruct (fl_scheme f) as [s|]; [|done]. cbn.
  destruct (decide (s = "https"%string)) as [->|Hs]; [done|].
  by rewrite !bool_decide_eq_false_2 by congruence.
Qed.

(** ** The host *)

Inductive runner_error :=
| CompleteFailed (e : string) | ValidateFailed (e : string)
| RestConfigFailed (e : string) | ManagerFailed (e : string)
| InferencePoolSetup (e : string) | PodSetup (e : string) | RegisterFailed (e : string)
| ListenFailed (e : string) | ServeFailed (e : string).

(** The grpc error of a stopped server. *)
Inductive serve_result := ServedOut | ErrServerStopped | ServeError (e : string).

Class PickerHost (W : Type) := {
  Complete : Options -> option string;
  Validate : Options -> option string;
  get_config : W -> option string * W;
  new_manager : W -> option string * W;
  setup_controller : W -> string -> option string * W;
  manager_add : W -> option string * W;
  net_listen : W -> Z -> option string * W;
  grpc_serve : W -> serve_result * W
}.

Section Runner.
Context {W : Type} {PH : PickerHost W}.

Definition wrap (mk : string -> runner_error) (r : option string * W) : outcome runner_error unit * W :=
  match r with (Some e, w) => (Err (mk e), w) | (None, w) => (Ret tt, w) end.

Lemma wrap_ret mk r u w : wrap mk r = (Ret u, w) -> r = (None, w).
Proof. unfold wrap. destruct r as [[e|] w1]; intros H; by simplify_eq. Qed.

(** [ExtProcRunner.SetupWithManager]. *)
Definition SetupWithManager : kube W runner_error unit :=
  do! _ := (fun w => wrap InferencePoolSetup (setup_controller w "InferencePool")) in
  fun w => wrap PodSetup (setup_controller w "Pod").

(** The function of [AsRunnable], until it returns. A signal ends the process
    instead. *)
Definition runnable (port : Z) : kube W runner_error unit :=
  do! _ := (fun w => wrap ListenFailed (net_listen w port)) in
  do! r := kdo grpc_serve in
  match r with
  | ServeError e => kerr (ServeFailed e)
  | ServedOut | ErrServerStopped => kret tt
  end.

Definition of_spec {A} (m : outcome spec_error A) : option A := match m with Ret a => Some a | _ => None end.

(** [Runner.Run]. The errors of the configuration and of the metrics are not
    looked at; the manager is not started. *)
Definition Run (f : PickerFlags) : kube W runner_error (option PodMetricsFactory) :=
  let opts := parsed NewOptions f in
  match Complete opts with
  | Some e => kerr (CompleteFailed e)
  | None =>
      match Validate opts with
      | Some e => kerr (ValidateFailed e)
      | None =>
          let podMetricsFactory := of_spec (setUpMetrics opts) in
          do! _ := (fun w => wrap RestConfigFailed (get_config w)) in
          do! _ := (fun w => wrap ManagerFailed (new_manager w)) in
          do! _ := SetupWithManager in
          do! _ := (fun w => wrap RegisterFailed (manager_add w)) in
          kret podMetricsFactory
      end
  end.

(** The picker serves nobody: a run that succeeds has registered the two
    controllers and the server, in that order, and returns; it neither listens
    nor serves. *)
Theorem picker_returns f (w w' : W) r :
  Run f w = (Ret r, w') ->
  is_Some r /\
  exists w1 w2 w3 w4,
    get_config w = (None, w1) /\ new_manager w1 = (None, w2) /\
    setup_controller w2 "InferencePool" = (None, w3) /\ setup_controller w3 "Pod" = (None, w4) /\
    manager_add w4 = (None, w').
Proof.
  unfold Run. rewrite metrics_set_up. destruct (Complete _); [done|]. destruct (Validate _); [done|].
  intros H. repeat (apply kbind_inv in H as (? & ? & ? & H)). unfold SetupWithManager in *.
  repeat match goal with
  | H : kbind _ _ _ = _ |- _ => apply kbind_inv in H as (? & ? & ? & ?)
  end.
  injection H as <- <-. split; [by eexists|].
  repeat match goal with H : wrap _ _ = _ |- _ => apply wrap_ret in H end. eauto 10.
Qed.

(** What the server's runnable returns. *)
Lemma runnable_branches port (w w' : W) r :
  runnable port w = (r, w') ->
  (exists e, net_listen w port = (Some e, w') /\ r = Err (ListenFailed e)) \/
  (exists w1, net_listen w port = (None, w1) /\
     (grpc_serve w1 = (ServedOut, w') /\ r = Ret tt \/
      grpc_serve w1 = (ErrServerStopped, w') /\ r = Ret tt \/
      exists e, grpc_serve w1 = (ServeError e, w') /\ r = Err (ServeFailed e))).
Proof.
  unfold runnable, kbind, wrap, kdo, kerr, kret. destruct (net_listen w port) as [[e|] w1]; intros H.
  - simplify_eq. left. by exists e.
  - destruct (grpc_serve w1) as [[| |e] w2] eqn:Hg; simplify_eq; right; exists w1; naive_solver.
Qed.

End Runner.
