(* ===== verification/ExtProcSamples.v ===== *)
(** * ExtProcSamples: the sample ext_proc servers

    src/test/envoy-ext-proc/loadbalancer: the three [Process] loops of envoy-lb
    and original-destination and the health check of the latter.  The loops have
    one shape, [responder]: every message is answered, a failed send is only
    logged.  They run over the stream of ExtProcStream. *)

From ITree Require Import ITree ITreeFacts Events.State Events.StateFacts.
From Paco Require Import paco.
From S2P Require Import Prelude GoStd ExtProcStream.

Local Open Scope Z_scope.

(** ** A loop that answers *)

Inductive responder_end := ContextErr | StreamEnded | ReceiveFailed | RespondPanicked (p : panic).

Section Responder.
Context {Request Response : Type} (respond : Request -> outcome Empty_set Response).

#[local] Notation stream := (streamE (Request := Request) (Response := Response)).

Definition responder_turn (st : unit) : itree stream (unit + responder_end) :=
  perform done := event CtxDone in
  if done then Leaf (inr ContextErr)
  else
    perform received := event Recv in
    match received with
    | inl EOF => Leaf (inr StreamEnded)
    | inl _ => Leaf (inr ReceiveFailed)
    | inr request =>
        match respond request with
        | Ret response => perform sent := event (Send response) in Leaf (inl tt)
        | Err e => match e with end
        | Panic p => Leaf (inr (RespondPanicked p))
        end
    end.

Definition responder : itree stream responder_end := ITree.iter responder_turn tt.

(** The run against a script, turn by turn. *)
Fixpoint answered (script : list (turn (Request := Request))) (log : list Response)
    : world (Request := Request) (Response := Response) * responder_end :=
  match script with
  | [] => (([], log), ContextErr)
  | t :: rest =>
      if t_done t then ((script, log), ContextErr)
      else
        match t_recv t with
        | inl EOF => ((script, log), StreamEnded)
        | inl _ => ((script, log), ReceiveFailed)
        | inr request =>
            match respond request with
            | Ret response => answered rest (if t_sent t then log ++ [response] else log)
            | Err e => match e with end
            | Panic p => ((script, log), RespondPanicked p)
            end
        end
  end.

(** The loop is its run. *)
Theorem responder_answers script log : (run responder (script, log) ~~ Leaf (answered script log))%go.
Proof.
  unfold responder. revert log. induction script as [|t rest IH]; intros log;
    rewrite run_iter; unfold responder_turn at 1; rewrite run_event by done; cbn [fst];
    [by rewrite run_ret, bind_ret_l|].
  cbn [answered]. destruct (t_done t); [by rewrite run_ret, bind_ret_l|].
  rewrite run_event by done. cbn [fst]. destruct (t_recv t) as [[]|request]; try (by rewrite run_ret, bind_ret_l).
  destruct (respond request) as [r|[]|p]; [|by rewrite run_ret, bind_ret_l].
  erewrite run_event by done. rewrite run_ret, bind_ret_l. cbn [fst snd]. apply IH.
Qed.

(** Messages that all can be answered, then the end of the stream: one response
    each, in order, less those whose send failed. *)
Lemma answered_all (ts : list (turn (Request := Request))) last log responses :
  Forall2 (fun t r => t_done t = false /\ exists q, t_recv t = inr q /\ respond q = Ret r) ts responses ->
  t_done last = false -> t_recv last = inl EOF ->
  answered (ts ++ [last]) log =
    (([last], log ++ omap (fun tr => if t_sent tr.1 then Some tr.2 else None) (zip ts responses)), StreamEnded).
Proof.
  intros H Hd Hl. revert log. induction H as [|t r ts rs (Ht & q & Hq & Hr) _ IH]; intros log; cbn.
  - by rewrite Hd, Hl, app_nil_r.
  - rewrite Ht, Hq, Hr, IH. destruct (t_sent t); [by rewrite <- app_assoc|done].
Qed.
End Responder.

(** ** Messages *)

(** A header; [None] is a nil RawValue. *)
Record Header := { h_Key : string; h_Value : string; h_RawValue : option string }.

(** A value of a protobuf struct; GetStringValue of the others is empty. *)
Inductive pvalue := PString (s : string) | PNumber (n : Z) | POther.
Definition GetStringValue (v : pvalue) : string := match v with PString s => s | _ => "" end.

(** Structs by name; a nil map has no keys. *)
Notation structs := (gmap string (gmap string pvalue)).

(** The two pointers above the headers may be nil. *)
Inductive message :=
| RequestHeaders (h : option (option (list Header)))
| RequestBody | RequestTrailers
| ResponseHeaders | ResponseBody | ResponseTrailers
| UnknownMessage.

Record request := { msg : message; Attributes : structs; FilterMetadata : structs }.

Record mutation := { SetHeaders : list (string * string); ClearRouteCache : bool }.

Inductive response :=
| EmptyResponse
| RequestHeadersResponse (m : mutation) (DynamicMetadata : structs)
| ResponseHeadersResponse (m : mutation) (DynamicMetadata : structs).

(** [m[name]] and then the string of [.Fields[field]]. *)
Definition struct_field (m : structs) (name field : string) : string :=
  match m !! name with
  | Some fields => match fields !! field with Some v => GetStringValue v | None => "" end
  | None => ""
  end.

Definition ext_proc_attributes : string := "envoy.filters.http.ext_proc".
Definition xds_route_name (r : request) : string := struct_field (Attributes r) ext_proc_attributes "xds.route_name".
Definition rbac_result (r : request) : string :=
  struct_field (FilterMetadata r) "envoy.filters.http.rbac" "enforced_engine_result".

Definition emittedDynamicMetadata : structs :=
  {["io.envoyproxy.gateway.e2e" := {["ext-proc-emitted-metadata" := PString "received"]}]}.

(** ** envoy-lb, Process2 *)

(** The last header of that name. *)
Definition last_raw (key : string) (hs : list Header) : string :=
  foldl (fun acc h => if bool_decide (h_Key h = key) then default ""%string (h_RawValue h) else acc) ""%string hs.

Definition respond2 (r : request) : outcome Empty_set response :=
  match msg r with
  | RequestHeaders h =>
      let xrch := match h with Some hs => last_raw "x-request-client-header" (default [] hs) | None => ""%string end in
      Ret (RequestHeadersResponse
             {| SetHeaders :=
                  [("x-request-ext-processed", "true"); ("x-request-xds-route-name", xds_route_name r)] ++
                  (if bool_decide (xrch = "") then []
                   else [("x-request-client-header", "mutated"); ("x-request-client-header-received", xrch)]);
                ClearRouteCache := false |}%string emittedDynamicMetadata)
  | ResponseHeaders =>
      Ret (ResponseHeadersResponse
             {| SetHeaders :=
                  [("x-response-ext-processed", "true"); ("x-response-xds-route-name", xds_route_name r);
                   ("x-response-rbac-result-metadata", rbac_result r)];
                ClearRouteCache := false |}%string
             {["io.envoyproxy.gateway.e2e"%string := {["request_cost_set_by_ext_proc"%string := PNumber 10]}]})
  | _ => Ret EmptyResponse
  end.

(** ** envoy-lb, Process *)

Definition DefaultDestinationEndpointHintMetadataNamespace : string := "envoy.lb".
Definition DefaultDestinationEndpointHintKey : string := "x-gateway-destination-endpoint".
Definition endpoint : string := "127.0.0.1:7788".

Definition raw_or_value (h : Header) : string * string := (h_Key h, default (h_Value h) (h_RawValue h)).

Definition lb_respond (r : request) : outcome Empty_set response :=
  match msg r with
  | RequestHeaders h =>
      let* h := deref h in
      let* hs := deref h in
      Ret (RequestHeadersResponse
             {| SetHeaders := map raw_or_value hs ++ [(DefaultDestinationEndpointHintKey, endpoint)];
                ClearRouteCache := true |}
             {[DefaultDestinationEndpointHintMetadataNamespace :=
                 {[DefaultDestinationEndpointHintKey := PString endpoint]}]})
  | ResponseHeaders =>
      Ret (ResponseHeadersResponse
             {| SetHeaders := [("x-extproc-hello", "Hello from ext_proc")]; ClearRouteCache := false |}%string ∅)
  | _ => Ret EmptyResponse
  end.

(** ** original-destination *)

Definition target_pod : mutation :=
  {| SetHeaders := [("target-pod", "127.0.0.1:8899")]; ClearRouteCache := true |}%string.

(** The headers that it builds from the attributes of a response are dropped. *)
Definition od_respond (r : request) : outcome Empty_set response :=
  match msg r with
  | RequestHeaders _ => Ret (RequestHeadersResponse target_pod emittedDynamicMetadata)
  | ResponseHeaders => Ret (ResponseHeadersResponse target_pod ∅)
  | _ => Ret EmptyResponse
  end.

(** The health check: it sends empty headers and reads one response; any error
    ends the process. [GetRequestHeaders] of another response is nil, and its
    response is then dereferenced; a response is CONTINUE unless it says
    otherwise. *)
Inductive health_error := NoConnection | NoStream | NoSend | NoRecv.

Definition health_request : request := {| msg := RequestHeaders (Some None); Attributes := ∅; FilterMetadata := ∅ |}.

Definition healthCheckHandler (connected : option health_error) (reply : option response) : outcome Empty_set Z :=
  match connected with
  | Some _ => Panic FatalExit
  | None =>
      match reply with
      | None => Ret 503
      | Some (RequestHeadersResponse _ _) => Ret 200
      | Some _ => Panic NilDereference
      end
  end.

(** ** The handlers *)

(** envoy-lb's two, and original-destination's. *)
Definition Process2 := responder respond2.
Definition Process := responder lb_respond.
Definition od_Process := responder od_respond.

(** ** What they answer *)

(** The balancer keeps every header of the request, in order, and adds the
    destination as the last one and in the metadata that the load balancer
    reads. *)
Lemma lb_destination hs attrs md :
  exists m dyn,
    lb_respond {| msg := RequestHeaders (Some (Some hs)); Attributes := attrs; FilterMetadata := md |} =
      Ret (RequestHeadersResponse m dyn) /\
    (map fst (SetHeaders m) = map h_Key hs ++ [DefaultDestinationEndpointHintKey])%list /\
    last (SetHeaders m) = Some (DefaultDestinationEndpointHintKey, endpoint) /\
    struct_field dyn DefaultDestinationEndpointHintMetadataNamespace DefaultDestinationEndpointHintKey = endpoint /\
    ClearRouteCache m = true.
Proof.
  eexists _, _. split; [reflexivity|]. cbn [SetHeaders ClearRouteCache]. split_and!; try done.
  - rewrite map_app, map_map. done.
  - by rewrite last_snoc.
Qed.

(** original-destination passes its own health check; the balancer would crash
    on the same request. *)
Lemma health_checks :
  healthCheckHandler None (match od_respond health_request with Ret r => Some r | _ => None end) = Ret 200 /\
  lb_respond health_request = Panic NilDereference.
Proof. done. Qed.

(** original-destination never panics and answers a response's headers without
    reading its attributes. *)
Lemma od_total r : exists a, od_respond r = Ret a /\
  (msg r = ResponseHeaders -> a = ResponseHeadersResponse target_pod ∅).
Proof. unfold od_respond. destruct (msg r); by eexists. Qed.

(** A message that it does not change is answered with an empty response. *)
Lemma others_empty r :
  (forall h, msg r <> RequestHeaders h) -> msg r <> ResponseHeaders ->
  respond2 r = Ret EmptyResponse /\ lb_respond r = Ret EmptyResponse /\ od_respond r = Ret EmptyResponse.
Proof. unfold respond2, lb_respond, od_respond. intros H1 H2. destruct (msg r); naive_solver. Qed.

(** original-destination answers every message that it receives, in order, and
    ends with the stream. *)
Lemma od_Process_answers (requests : list request) (sent : request -> bool) :
  let turn q := {| t_done := false; t_recv := inr q; t_uuid := ""; t_now := 0; t_sent := sent q |} in
  let last := {| t_done := false; t_recv := inl EOF; t_uuid := ""; t_now := 0; t_sent := true |} in
  exists responses, map od_respond requests = map Ret responses /\
    (run od_Process (map turn requests ++ [last], []) ~~
     Leaf (([last], omap (fun tr => if t_sent tr.1 then Some tr.2 else None) (zip (map turn requests) responses)), StreamEnded))%go.
Proof.
  intros turn last.
  assert (exists responses, map od_respond requests = map Ret responses) as [responses Hr].
  { induction requests as [|q qs [rs IH]]; [by exists []|]. destruct (od_total q) as (a & Ha & _).
    exists (a :: rs). cbn. by rewrite Ha, IH. }
  exists responses. split; [done|]. unfold od_Process. rewrite responder_answers.
  rewrite (answered_all od_respond (map turn requests) last [] responses); [done| |done..].
  revert responses Hr. induction requests as [|q qs IH]; intros [|r rs] Hr; try done.
  injection Hr as Hq Hr. constructor; [|by apply IH]. split; [done|]. by exists q.
Qed.
