(* ===== verification/GoRouter.v ===== *)
(** * GoRouter: pkg/router and pkg/cache

    The first ext_proc router of the repository, [Server.Process] with its
    handlers, over the stream of ExtProcStream, and the cache of pods by model
    that it asks.  The pod lookup, the choice of a target, the header builder
    and the error answer have no body or use undeclared names and are the class
    [RouterLib]. *)

From ITree Require Import ITree ITreeFacts Events.State Events.StateFacts.
From Paco Require Import paco.
From S2P Require Import Prelude GoStd ExtProcStream EppServer.

Local Open Scope Z_scope.

(** ** Messages *)

Definition HeaderWentIntoReqHeaders : string := "x-went-into-req-headers".
Definition HeaderTargetPod : string := "target-pod".

(** The CommonResponse of a headers or body answer: the headers to set, the
    body to put, and whether the route is computed again. *)
Inductive ProcessingResponse :=
| HeadersResponse (SetHeaders : list HeaderValue) (ClearRouteCache : bool)
| BodyResponse (SetHeaders : list HeaderValue) (BodyMutation : string)
| ImmediateResponse (answer : string).

Class RouterLib := {
  ListPodsByModel : option (list string);
  selectTargetPod : list string -> string;
  buildEnvoyProxyHeaders : list HeaderValue -> list (string * string) -> list HeaderValue;
  generateErrorResponse : ProcessingResponse
}.

Section Router.
Context {RL : RouterLib}.

(** ** request_headers.go and request_body.go *)

Definition HandleRequestHeaders (request : ProcessingRequest) : ProcessingResponse :=
  HeadersResponse [{| Key := HeaderWentIntoReqHeaders; Value := ""; RawValue := "true" |}] true.

(** [RequestBody.GetBody()] of a message that may be nil. *)
Definition GetBody (b : option HttpBody) : string :=
  match b with Some b => Body b | None => "" end.

(** The request is asserted to be a body; the pods' error and emptiness are
    answered alike. *)
Definition HandleRequestBody (request : ProcessingRequest) : outcome Empty_set ProcessingResponse :=
  match request with
  | RequestBody b =>
      match ListPodsByModel with
      | None | Some [] => Ret generateErrorResponse
      | Some pods =>
          let headers := buildEnvoyProxyHeaders [] [(HeaderTargetPod, selectTargetPod pods)] in
          Ret (BodyResponse headers (GetBody b))
      end
  | _ => Panic TypeAssertion
  end.

(** ** router.go *)

(** The response of a message: nil when there is none. *)
Definition handleProcessingRequest (request : ProcessingRequest) : outcome Empty_set (option ProcessingResponse) :=
  match request with
  | RequestHeaders _ => Ret (Some (HandleRequestHeaders request))
  | RequestBody _ => let* r := HandleRequestBody request in Ret (Some r)
  | _ => Ret None
  end.

Inductive router_error := ContextErr | RecvErr (e : recv_error) | SendErr.
Inductive router_finish := RouterReturned (e : option router_error) | RouterPanicked (p : panic).

#[local] Notation stream := (streamE (Request := ProcessingRequest) (Response := option ProcessingResponse)).

Definition sendProcessingResponse (response : option ProcessingResponse) : itree stream router_finish :=
  perform sent := event (Send response) in
  Leaf (RouterReturned (if sent then None else Some SendErr)).

(** One turn of [Process]: it always returns. *)
Definition router_turn (st : unit) : itree stream (unit + router_finish) :=
  perform done := event CtxDone in
  if done then Leaf (inr (RouterReturned (Some ContextErr)))
  else
    perform received := event Recv in
    match received with
    | inl e => Leaf (inr (RouterReturned (Some (RecvErr e))))
    | inr request =>
        match handleProcessingRequest request with
        | Ret response => perform r := sendProcessingResponse response in Leaf (inr r)
        | Err e => match e with end
        | Panic p => Leaf (inr (RouterPanicked p))
        end
    end.

Definition Router_Process : itree stream router_finish := ITree.iter router_turn tt.

End Router.

(** ** pkg/cache *)

Record Pod := {
  pod_name : string;
  Labels : gmap string string;
  Annotations : gmap string string;
  PodIP : string
}.

Definition MetricPortLabel : string := "model.gateway.ai/metric-port".
Definition defaultMetricPort : Z := 8000.

(** The labels of a pod that may be nil; a nil map has no keys. *)
Definition getPodMetricPort (pod : option Pod) : Z :=
  match pod with
  | None => defaultMetricPort
  | Some pod =>
      match Labels pod !! MetricPortLabel with
      | None => defaultMetricPort
      | Some v =>
          if bool_decide (v = ""%string) then defaultMetricPort
          else match atoi v with
               | (p, None) => p
               | (_, Some _) => defaultMetricPort
               end
      end
  end.

(** The endpoint that a worker scrapes. *)
Definition worker_endpoint (pod : option Pod) : outcome Empty_set string :=
  let podMetricPort := getPodMetricPort pod in
  let* p := deref pod in
  Ret (PodIP p +:+ ":" +:+ itoa podMetricPort).

Section Cache.
(** The key of the model name, a constant that is declared nowhere. *)
Context (modelIdentifier : string).

Definition getModelNameFromPod (pod : Pod) : string * bool :=
  let model_of (m : gmap string string) :=
    match m !! modelIdentifier with
    | Some name => if bool_decide (name = ""%string) then None else Some name
    | None => None
    end in
  match model_of (Labels pod) with
  | Some name => (name, true)
  | None =>
      match model_of (Annotations pod) with
      | Some name => (name, true)
      | None => (""%string, false)
      end
  end.

(** [LoadOrStore]: a model that is there keeps its pod. *)
Definition updateModels (models : gmap string Pod) (modelName : string) (pod : Pod) : gmap string Pod :=
  match models !! modelName with
  | Some _ => models
  | None => <[modelName := pod]> models
  end.

Definition addPod (models : gmap string Pod) (pod : Pod) : gmap string Pod :=
  let '(modelName, ok) := getModelNameFromPod pod in
  if ok then updateModels models modelName pod else models.

(** The bodies of the other two handlers are empty. *)
Definition updatePod (models : gmap string Pod) (oldPod newPod : Pod) : gmap string Pod := models.
Definition deletePod (models : gmap string Pod) (pod : Pod) : gmap string Pod := models.

Inductive pod_event := PodAdded (pod : Pod) | PodUpdated (old new : Pod) | PodDeleted (pod : Pod).

Definition on_event (models : gmap string Pod) (e : pod_event) : gmap string Pod :=
  match e with
  | PodAdded pod => addPod models pod
  | PodUpdated old new => updatePod models old new
  | PodDeleted pod => deletePod models pod
  end.

End Cache.

(** ** The router answers one message *)

(** Whatever a stream would send, the router reads at most one message, answers
    it with exactly one response (a nil one for the messages it does not know)
    and returns: the body that follows the headers of a request is never read. *)
Theorem router_answers_once {RL : RouterLib} (script : list (turn (Request := ProcessingRequest))) :
  (run Router_Process (script, []) ~~
   Leaf (match script with
         | [] => ([], [], RouterReturned (Some ContextErr))
         | t :: rest =>
             if t_done t then (script, [], RouterReturned (Some ContextErr))
             else match t_recv t with
                  | inl e => (script, [], RouterReturned (Some (RecvErr e)))
                  | inr request =>
                      let response :=
                        match request with
                        | RequestHeaders _ => Some (HandleRequestHeaders request)
                        | RequestBody b =>
                            Some (match ListPodsByModel with
                                  | None | Some [] => generateErrorResponse
                                  | Some pods =>
                                      BodyResponse (buildEnvoyProxyHeaders [] [("target-pod", selectTargetPod pods)]%string)
                                        (GetBody b)
                                  end)
                        | _ => None
                        end in
                      if t_sent t then (rest, [response], RouterReturned None)
                      else (rest, [], RouterReturned (Some SendErr))
                  end
         end))%go.
Proof.
  unfold Router_Process. rewrite run_iter. unfold router_turn at 1.
  destruct script as [|t rest]; rewrite run_event by done; cbn [fst];
    [by rewrite run_ret, bind_ret_l|].
  destruct (t_done t); [by rewrite run_ret, bind_ret_l|].
  rewrite run_event by done. cbn [fst]. destruct (t_recv t) as [e|request]; [by rewrite run_ret, bind_ret_l|].
  assert (forall r, run (perform r := sendProcessingResponse r in Leaf (@inr unit _ r)) (t :: rest, []) ~~
    Leaf (if t_sent t then (rest, [r], inr (RouterReturned None)) else (rest, [], inr (RouterReturned (Some SendErr)))))%go
    as Hsend.
  { intros r. unfold sendProcessingResponse. rewrite bind_bind. erewrite run_event by done. cbn [fst snd].
    rewrite bind_ret_l, run_ret. by destruct (t_sent t). }
  destruct request as [h|b| | | | |]; cbn [handleProcessingRequest HandleRequestBody obind];
    try (rewrite Hsend; destruct (t_sent t); by rewrite bind_ret_l).
  destruct ListPodsByModel as [[|p ps]|]; cbn [obind]; rewrite Hsend; destruct (t_sent t); by rewrite bind_ret_l.
Qed.

(** ** The cache never forgets and never replaces *)

Lemma cache_fold (modelIdentifier : string) es models name :
  foldl (on_event modelIdentifier) models es !! name =
  match models !! name with
  | Some pod => Some pod
  | None => head (omap (fun e => match e with
                                 | PodAdded pod =>
                                     if bool_decide (getModelNameFromPod modelIdentifier pod = (name, true))
                                     then Some pod else None
                                 | _ => None
                                 end) es)
  end.
Proof.
  revert models. induction es as [|e es IH]; intros models; [cbn; by destruct (models !! name)|].
  cbn [foldl omap list_omap]. rewrite IH. destruct e as [pod|old new|pod]; try done.
  cbn [on_event]. unfold addPod, updateModels.
  destruct (getModelNameFromPod modelIdentifier pod) as [m ok].
  case_bool_decide as Hm; simplify_eq.
  - destruct (models !! name) eqn:E; [by rewrite E|]. by rewrite lookup_insert_eq.
  - destruct ok; [|done]. destruct (models !! m) eqn:E; [done|].
    rewrite lookup_insert_ne by congruence. done.
Qed.

(** After any events the pod of a model is the first pod that was ever added
    with that model in its label or annotation, later pods, updates and
    deletions notwithstanding. *)
Theorem cache_keeps_first_pod (modelIdentifier : string) (events : list pod_event) (name : string) :
  foldl (on_event modelIdentifier) ∅ events !! name =
  head (omap (fun e => match e with
                       | PodAdded pod =>
                           if bool_decide (getModelNameFromPod modelIdentifier pod = (name, true))
                           then Some pod else None
                       | _ => None
                       end) events).
Proof. by rewrite cache_fold, lookup_empty. Qed.

(** Any integer of 64 bits is taken as a port. *)
Lemma metric_port_unchecked :
  let pod v := Some {| pod_name := "p"; Labels := {[MetricPortLabel := v]}; Annotations := ∅; PodIP := "10.0.0.1" |} in
  map (fun v => worker_endpoint (pod v)) ["9000"; "-1"; "70000"; "http"]%string =
  map Ret ["10.0.0.1:9000"; "10.0.0.1:-1"; "10.0.0.1:70000"; "10.0.0.1:8000"]%string.
Proof. by vm_compute. Qed.
