(* ===== verification/LlmRouter.v ===== *)
(** * LlmRouter: pkg/llmrouter/router and pkg/llmrouter/scheduler

    The LLM router's proxying: the request to a model endpoint with its
    streamed or whole response, the prefill/decode connectors (LMCache, NIXL,
    Mooncake) with their registry, and the ranking of the scheduler.  The
    network and the client connection are parameters.  A JSON body is the value
    it encodes; an object is a Go map, which may be nil. *)

From S2P Require Import Prelude GoStd Json.

Local Open Scope Z_scope.

(** ** Values and messages *)

Inductive body := RawBody (s : string) | JsonBody (m : object).

Record request := {
  req_scheme : string;
  req_host : string;
  req_body : body
}.

(** What a body delivers before it ends, and whether it ends with an error
    other than io.EOF. *)
Record reader := { rd_data : string; rd_fails : bool }.

Record response := {
  StatusCode : Z;
  Header : list (string * list string);
  Body : reader
}.

(** The response side of a [gin.Context]. *)
Record context := {
  Request : request;
  status : Z;
  headers : list (string * string);
  written : string
}.

Inductive proxy_error :=
| RequestError
| UnexpectedStatus (code : Z)
| ReadBodyError
| WriteError
| UnmarshalError.

(** [http.DefaultTransport.RoundTrip] ([None] is its error), and whether the
    client still takes a write after what was written before; a stream also
    stops when the client is gone, which is a refusal of the next line. *)
Class Network := {
  RoundTrip : request -> option response;
  client_accepts : string -> string -> bool
}.

Section Router.
Context {NW : Network}.

(** ** Writing to the client *)

Definition set_url (scheme host : string) (r : request) : request :=
  {| req_scheme := scheme; req_host := host; req_body := req_body r |}.

Definition with_request (r : request) (c : context) : context :=
  {| Request := r; status := status c; headers := headers c; written := written c |}.

Definition with_status (code : Z) (c : context) : context :=
  {| Request := Request c; status := code; headers := headers c; written := written c |}.

(** [c.Header(key, v)] sets the header, or deletes it when [v] is empty. *)
Definition set_header (kv : string * string) (c : context) : context :=
  {| Request := Request c; status := status c;
     headers := filter (fun h => h.1 <> kv.1) (headers c) ++
                (if bool_decide (kv.2 = ""%string) then [] else [kv]);
     written := written c |}.

Definition write (data : string) (c : context) : context * bool :=
  if client_accepts (written c) data then
    ({| Request := Request c; status := status c; headers := headers c;
        written := written c +:+ data |}, true)
  else (c, false).

(** [for key, value := range resp.Header { for _, v := range value { c.Header(key, v) } }]. *)
Definition copy_headers (hs : list (string * list string)) (c : context) : context :=
  foldl (fun c kv => foldl (fun c v => set_header (kv.1, v) c) c kv.2) c hs.

(** ** Streaming *)

Definition newline : ascii := ascii_of_nat 10.

(** [reader.ReadBytes('\n')]: the line with its newline and the rest, or
    nothing when the body ends first. *)
Fixpoint read_line (s : string) : option (string * string) :=
  match s with
  | EmptyString => None
  | String c s' =>
      if bool_decide (c = newline) then Some (String c EmptyString, s')
      else match read_line s' with
           | Some (line, rest) => Some (String c line, rest)
           | None => None
           end
  end.

(** [c.Stream]: the step runs until it returns false.  Each step consumes a
    byte at least, so the length of the data plus one is enough fuel. *)
Fixpoint stream_loop (fuel : nat) (data : string) (c : context) : context :=
  match fuel with
  | O => c
  | S f =>
      match read_line data with
      | None => c
      | Some (line, rest) =>
          let '(c', ok) := write line c in
          if ok then stream_loop f rest c' else c'
      end
  end.

Definition stream_body (b : reader) (c : context) : context :=
  stream_loop (S (String.length (rd_data b))) (rd_data b) c.

(** [io.ReadAll], then one write. *)
Definition write_body (b : reader) (c : context) : context * option proxy_error :=
  if rd_fails b then (c, Some ReadBodyError)
  else
    let '(c', ok) := write (rd_data b) c in
    if ok then (c', None) else (c', Some WriteError).

(** ** router.go *)

Definition success (code : Z) : bool := negb ((code <? 200) || (300 <=? code)).

(** The request it leaves, and the response. *)
Definition doRequest (req : request) (endpoint : string) : request * outcome proxy_error response :=
  let req' := set_url "http" endpoint req in
  match RoundTrip req' with
  | None => (req', Err RequestError)
  | Some resp =>
      if negb (success (StatusCode resp)) then (req', Err (UnexpectedStatus (StatusCode resp)))
      else (req', Ret resp)
  end.

Definition proxyModelEndpoint (c : context) (endpoint : string) (stream : bool) :
    context * option proxy_error :=
  let '(req', r) := doRequest (Request c) endpoint in
  let c := with_request req' c in
  match r with
  | Ret resp =>
      let c := with_status (StatusCode resp) (copy_headers (Header resp) c) in
      if stream then (stream_body (Body resp) c, None) else write_body (Body resp) c
  | Err e => (c, Some e)
  | Panic _ => (c, None)
  end.

(** [strconv.ParseBool]. *)
Definition ParseBool (s : string) : option bool :=
  switch s
    [("1", Some true); ("t", Some true); ("T", Some true); ("true", Some true);
     ("TRUE", Some true); ("True", Some true);
     ("0", Some false); ("f", Some false); ("F", Some false); ("false", Some false);
     ("FALSE", Some false); ("False", Some false)]%string
    None.

(** The variable's value, if it is set. *)
Definition getEnvBool (env : string -> option string) (key : string) (fallback : bool) : bool :=
  match env key with
  | Some value =>
      match ParseBool value with
      | Some b => b
      | None => fallback
      end
  | None => fallback
  end.

(** [stream = v.(bool)]. *)
Definition wants_stream (modelRequest : gmap string json) : outcome proxy_error bool :=
  match modelRequest !! "stream"%string with
  | None => Ret false
  | Some (JBool b) => Ret b
  | Some _ => Panic TypeAssertion
  end.

(** ** pd: building the requests *)

(** [maps.Copy(dst, src)]: a nil [dst] cannot be written. *)
Definition maps_Copy (dst : object) (src : gmap string json) : outcome proxy_error object :=
  if bool_decide (src = ∅) then Ret dst
  else match dst with
       | None => Panic NilMapWrite
       | Some m => Ret (Some (src ∪ m))
       end.

(** [delete] on a nil map does nothing. *)
Definition map_delete (k : string) (m : object) : object :=
  match m with None => None | Some m => Some (delete k m) end.

Definition map_set (k : string) (v : json) (m : object) : outcome proxy_error object :=
  match m with None => Panic NilMapWrite | Some m => Ret (Some (<[k := v]> m)) end.

Definition map_has (k : string) (m : object) : bool :=
  match m with None => false | Some m => bool_decide (is_Some (m !! k)) end.

Definition with_body (b : object) (scheme : string) (req : request) : request :=
  {| req_scheme := scheme; req_host := req_host req; req_body := JsonBody b |}.

(** The body of a prefill request, shared by both connectors: the variable
    [reqBody] is declared without a value. *)
Definition prefill_body (modelRequest : gmap string json) : outcome proxy_error object :=
  let reqBody : object := None in
  let* reqBody := maps_Copy reqBody modelRequest in
  let reqBody := map_delete "stream_options" (map_delete "stream" reqBody) in
  let* reqBody := map_set "max_tokens" (JNumber "1") reqBody in
  if map_has "max_completion_tokens" reqBody then
    map_set "max_completion_tokens" (JNumber "1") reqBody
  else Ret reqBody.

Definition LMCache_buildPrefillRequest (req : request) (modelRequest : gmap string json) :
    outcome proxy_error request :=
  let* reqBody := prefill_body modelRequest in
  Ret (with_body reqBody "http" req).

Definition LMCache_buildDecodeRequest (req : request) (modelRequest : gmap string json) :
    outcome proxy_error request :=
  let* reqBody := maps_Copy None modelRequest in
  Ret (with_body reqBody (req_scheme req) req).

(** The encoding of [&KVTransferParams{DoRemoteDecode: true, ...}]. *)
Definition prefill_kv_params : json :=
  JObject [("do_remote_decode", JBool true); ("do_remote_prefill", JBool false)]%string.

Definition NIXL_buildPrefillRequest (req : request) (modelRequest : gmap string json) :
    outcome proxy_error request :=
  let* reqBody := prefill_body modelRequest in
  let* reqBody := map_set "kv_transfer_params" prefill_kv_params reqBody in
  Ret (with_body reqBody "http" req).

Definition NIXL_buildDecodeRequest (req : request) (modelRequest : gmap string json) (kvTransferParams : json) :
    outcome proxy_error request :=
  let* reqBody := maps_Copy None modelRequest in
  let* reqBody := map_set "kv_transfer_params" kvTransferParams reqBody in
  Ret (with_body reqBody "http" req).

(** ** pd: talking to the endpoints *)

Definition is_stream_type (contentType : string) : bool :=
  bool_decide (contentType = "text/event-stream"%string) ||
  bool_decide (contentType = "application/x-ndjson"%string).

(** The first value of the canonical key. *)
Definition header_get (key : string) (hs : list (string * list string)) : string :=
  match filter (fun h => h.1 = key) hs with
  | (_, v :: _) :: _ => v
  | _ => ""
  end.

Definition isStreamingResponse (resp : response) : bool :=
  is_stream_type (header_get "Content-Type" (Header resp)).

(** Both connectors' [decode]: the status is checked before anything is
    written to the client. *)
Definition decode (c : context) (decodeReq : request) (decodeEndpoint : string) :
    context * option proxy_error :=
  match RoundTrip (set_url "http" decodeEndpoint decodeReq) with
  | None => (c, Some RequestError)
  | Some resp =>
      if negb (success (StatusCode resp)) then (c, Some (UnexpectedStatus (StatusCode resp)))
      else
        let c := with_status (StatusCode resp) (copy_headers (Header resp) c) in
        if isStreamingResponse resp then (stream_body (Body resp) c, None)
        else write_body (Body resp) c
  end.

Definition LMCache_prefill (prefillReq : request) (prefillEndpoint : string) : option proxy_error :=
  match RoundTrip (set_url "http" prefillEndpoint prefillReq) with
  | None => Some RequestError
  | Some resp =>
      if negb (success (StatusCode resp)) then Some (UnexpectedStatus (StatusCode resp)) else None
  end.

(** [parse] decodes a response body to an object; a missing entry is nil. *)
Definition NIXL_prefill (parse : string -> option object) (prefillReq : request) (prefillEndpoint : string) :
    json * option proxy_error :=
  match RoundTrip (set_url "http" prefillEndpoint prefillReq) with
  | None => (JNull, Some RequestError)
  | Some resp =>
      if negb (success (StatusCode resp)) then (JNull, Some (UnexpectedStatus (StatusCode resp)))
      else if rd_fails (Body resp) then (JNull, Some ReadBodyError)
      else match parse (rd_data (Body resp)) with
           | None => (JNull, Some UnmarshalError)
           | Some m =>
               (match m with
                | Some m => default JNull (m !! "kv_transfer_params"%string)
                | None => JNull
                end, None)
           end
  end.

(** ** pd: the connectors *)

Inductive connector := NewLMCacheConnector | NewNixlConnector | NewMoonCakeConnector.

(** NIXL's own copy of [decode] is the same code. *)
Definition NIXL_decode : context -> request -> string -> context * option proxy_error := decode.

(** The errors of both phases are dropped. *)
Definition LMCache_Proxy (c : context) (modelRequest : gmap string json)
    (prefillEndpoint decodeEndpoint : string) : outcome proxy_error context :=
  let* prefillReq := LMCache_buildPrefillRequest (Request c) modelRequest in
  let* decodeReq := LMCache_buildDecodeRequest (Request c) modelRequest in
  let _ := LMCache_prefill prefillReq prefillEndpoint in
  Ret (decode c decodeReq decodeEndpoint).1.

Definition NIXL_Proxy (parse : string -> option object) (c : context) (modelRequest : gmap string json)
    (prefillEndpoint decodeEndpoint : string) : outcome proxy_error context :=
  let* prefillReq := NIXL_buildPrefillRequest (Request c) modelRequest in
  let '(kvTransferParams, _) := NIXL_prefill parse prefillReq prefillEndpoint in
  let* decodeReq := NIXL_buildDecodeRequest (Request c) modelRequest kvTransferParams in
  Ret (NIXL_decode c decodeReq decodeEndpoint).1.

Definition Proxy (k : connector) (parse : string -> option object) (c : context)
    (modelRequest : gmap string json) (prefillEndpoint decodeEndpoint : string) :
    outcome proxy_error context :=
  match k with
  | NewLMCacheConnector => LMCache_Proxy c modelRequest prefillEndpoint decodeEndpoint
  | NewNixlConnector | NewMoonCakeConnector => NIXL_Proxy parse c modelRequest prefillEndpoint decodeEndpoint
  end.

(** The registry; a registered function may be nil. *)
Definition Connectors : Type := gmap string (option connector).

(** The lookup assigns the parameter [connector] itself. *)
Definition Register (cs : Connectors) (name : string) (connector_arg : option connector) :
    outcome proxy_error Connectors :=
  let '(connector, ok) := match cs !! name with Some k => (k, true) | None => (None, false) end in
  if ok then Panic FatalExit else Ret (<[name := connector]> cs).

Definition GetConnector (cs : Connectors) (name : string) : outcome proxy_error (option connector) :=
  match cs !! name with
  | Some k => Ret k
  | None => Panic FatalExit
  end.

(** The registry once [init] has run. *)
Definition init_connectors : outcome proxy_error Connectors :=
  let* cs := Register ∅ "lmcache" (Some NewLMCacheConnector) in
  let* cs := Register cs "nixl" (Some NewNixlConnector) in
  Register cs "mooncake" (Some NewMoonCakeConnector).

Definition proxyPrefillDecode (cs : Connectors) (parse : string -> option object) (c : context)
    (modelRequest : gmap string json) (prefillEndpoint decodeEndpoint : string) :
    outcome proxy_error context :=
  let* k := GetConnector cs "lmcache" in
  let* k := deref k in
  Proxy k parse c modelRequest prefillEndpoint decodeEndpoint.

End Router.

(** ** Lemmas: lines *)

(** A string made of whole lines. *)
Definition whole_lines (s : string) : Prop := s = EmptyString \/ exists t, s = t +:+ String newline EmptyString.

Lemma read_line_some s line rest :
  read_line s = Some (line, rest) ->
  s = line +:+ rest /\ (exists t, line = t +:+ String newline EmptyString) /\
  (String.length rest < String.length s)%nat.
Proof.
  revert line. induction s as [|a s IH]; intros line H; [done|]. cbn [read_line] in H.
  case_bool_decide as Ha; simplify_eq.
  - split_and!; [done|by exists EmptyString|simpl; lia].
  - destruct (read_line s) as [[l r]|]; simplify_eq.
    destruct (IH l eq_refl) as (-> & (t & ->) & Hlt). split_and!; [done| |simpl in *; lia].
    by exists (String a t).
Qed.

Lemma read_line_none s : read_line s = None <-> has_char newline s = false.
Proof.
  induction s as [|a s IH]; [done|]. cbn [read_line has_char].
  case_bool_decide; [done|]. destruct (read_line s) as [[l r]|]; naive_solver.
Qed.

Lemma whole_lines_cons t s : whole_lines s -> whole_lines ((t +:+ String newline EmptyString) +:+ s).
Proof.
  intros [->|(u & ->)]; right; [exists t; by rewrite str_app_nil_r|].
  exists ((t +:+ String newline EmptyString) +:+ u). by rewrite !str_app_assoc.
Qed.

Section Relay.
Context {NW : Network}.

(** Where the stream stops: no whole line is left, or the client refused one. *)
Definition stream_end (tail already : string) : Prop :=
  has_char newline tail = false \/
  exists line rest, read_line tail = Some (line, rest) /\ client_accepts already line = false.

Lemma stream_loop_spec fuel data c :
  (String.length data < fuel)%nat ->
  exists out tail,
    data = out +:+ tail /\ whole_lines out /\
    stream_loop fuel data c =
      {| Request := Request c; status := status c; headers := headers c; written := written c +:+ out |} /\
    stream_end tail (written c +:+ out).
Proof.
  revert data c. induction fuel as [|fuel IH]; intros data c Hf; [lia|].
  cbn [stream_loop]. destruct (read_line data) as [[line rest]|] eqn:E.
  - destruct (read_line_some data line rest E) as (Hd & (t & Ht) & Hlt).
    unfold write. destruct (client_accepts (written c) line) eqn:Ea.
    + destruct (IH rest {| Request := Request c; status := status c; headers := headers c;
        written := written c +:+ line |}) as (out & tail & Hr & Hw & -> & He); [lia|].
      cbn [Request status headers written] in *. rewrite !str_app_assoc in *.
      exists (line +:+ out), tail. split_and!; [|rewrite Ht; by apply whole_lines_cons|done|done].
      by rewrite Hd, Hr, str_app_assoc.
    + exists EmptyString, data. rewrite str_app_nil_r. split_and!; [done|by left|by destruct c|].
      right. eauto.
  - exists EmptyString, data. rewrite str_app_nil_r. split_and!; [done|by left|by destruct c|].
    left. by apply read_line_none.
Qed.

Lemma copy_headers_keeps hs c :
  Request (copy_headers hs c) = Request c /\ status (copy_headers hs c) = status c /\
  written (copy_headers hs c) = written c.
Proof.
  unfold copy_headers.
  split_and!; (apply foldl_keeps; intros c' kv; apply foldl_keeps; done).
Qed.

(** The values of a response's headers, each with its name, in order. *)
Definition header_values (hs : list (string * list string)) : list (string * string) :=
  concat (map (fun kv => map (pair kv.1) kv.2) hs).

(** The entries of the name [k] that the client has after the copy: the last value
    of the response alone, none if that is empty, what there was if it has none. *)
Definition relayed_header (hs : list (string * list string)) (k : string) (old : list (string * string))
    : list (string * string) :=
  match last (filter (fun kv => kv.1 = k) (header_values hs)) with
  | None => filter (fun kv => kv.1 = k) old
  | Some (_, v) => if bool_decide (v = ""%string) then [] else [(k, v)]
  end.

Lemma copy_headers_values hs c :
  copy_headers hs c = foldl (fun c kv => set_header kv c) c (header_values hs).
Proof.
  unfold copy_headers, header_values. revert c. induction hs as [|[k vs] hs IH]; intros c; [done|].
  cbn [map concat foldl fst snd]. rewrite foldl_app, IH. f_equal. clear.
  revert c. induction vs as [|v vs IH]; intros c; [done|]. apply IH.
Qed.

Lemma copy_headers_spec hs c k :
  filter (fun kv => kv.1 = k) (headers (copy_headers hs c)) = relayed_header hs k (headers c).
Proof.
  rewrite copy_headers_values. unfold relayed_header.
  induction (header_values hs) as [|[k' v] l IH] using rev_ind; [done|].
  rewrite foldl_app, filter_app. cbn [foldl set_header headers fst snd].
  rewrite filter_app, list_filter_filter, (filter_cons _ (k', v)), filter_nil. cbn [fst].
  case_decide as Hk.
  - subst k'. rewrite last_snoc. rewrite (list_filter_iff _ (fun _ => False)) by naive_solver.
    assert (forall l : list (string * string), filter (fun _ => False) l = []) as -> by (induction 0; done).
    case_bool_decide; [done|]. by rewrite filter_cons, decide_True, filter_nil by done.
  - rewrite app_nil_r, <- IH. rewrite (list_filter_iff _ (fun kv => kv.1 = k)) by naive_solver.
    case_bool_decide; [by rewrite filter_nil, app_nil_r|].
    by rewrite filter_cons, decide_False, filter_nil, app_nil_r by done.
Qed.

End Relay.

(** C31: What [proxyModelEndpoint] relays.  A response with a 2xx status has its
    status copied, and of each header its last value: [c.Header] sets, so the
    earlier values of a header are lost, as is a header whose last value is
    empty; the other headers of the client stay.  A streamed body is relayed as
    whole lines, in order, until no whole line is left or the client refuses one,
    so that the whole body arrives when it ends in a newline and the client
    accepts it; any other body is relayed in one write, or not at all when
    reading it fails.  On a failed request or another status nothing reaches the
    client, and the error is returned. *)
Theorem proxy_relays {NW : Network} (c : context) (endpoint : string) (stream : bool) :
  let req := set_url "http" endpoint (Request c) in
  let '(c', e) := proxyModelEndpoint c endpoint stream in
  Request c' = req /\
  (forall resp, RoundTrip req = Some resp -> success (StatusCode resp) = true ->
     status c' = StatusCode resp /\
     (forall k, filter (fun kv => kv.1 = k) (headers c') = relayed_header (Header resp) k (headers c)) /\
     (stream = true ->
        e = None /\
        exists out tail, rd_data (Body resp) = out +:+ tail /\ whole_lines out /\
          written c' = written c +:+ out /\ stream_end tail (written c')) /\
     (stream = false -> rd_fails (Body resp) = true ->
        e = Some ReadBodyError /\ written c' = written c) /\
     (stream = false -> rd_fails (Body resp) = false ->
        client_accepts (written c) (rd_data (Body resp)) = true ->
        e = None /\ written c' = written c +:+ rd_data (Body resp)) /\
     (stream = false -> rd_fails (Body resp) = false ->
        client_accepts (written c) (rd_data (Body resp)) = false ->
        e = Some WriteError /\ written c' = written c)) /\
  (RoundTrip req = None -> e = Some RequestError /\ c' = with_request req c) /\
  (forall resp, RoundTrip req = Some resp -> success (StatusCode resp) = false ->
     e = Some (UnexpectedStatus (StatusCode resp)) /\ c' = with_request req c).
Proof.
  cbv zeta. unfold proxyModelEndpoint, doRequest.
  destruct (RoundTrip (set_url "http" endpoint (Request c))) as [resp|] eqn:E;
    [|by split_and!; intros; simplify_eq].
  destruct (success (StatusCode resp)) eqn:Es; cbn [negb];
    [|split_and!; [done|..]; intros; simplify_eq; try congruence; done].
  set (c1 := with_request (set_url "http" endpoint (Request c)) c).
  destruct (copy_headers_keeps (Header resp) c1) as (Hq & _ & Hw).
  assert (forall k, filter (fun kv => kv.1 = k) (headers (copy_headers (Header resp) c1))
            = relayed_header (Header resp) k (headers c)) as Hh
    by (intros k; exact (copy_headers_spec (Header resp) c1 k)).
  destruct stream.
  - unfold stream_body.
    destruct (stream_loop_spec (S (String.length (rd_data (Body resp)))) (rd_data (Body resp))
      (with_status (StatusCode resp) (copy_headers (Header resp) c1))) as (out & tail & Hd & Hl & -> & He); [lia|].
    cbn in *. rewrite Hw in *. split_and!; [done| |done|]; intros; simplify_eq; [|congruence].
    split_and!; try done. intros _. split; [done|]. by exists out, tail.
  - unfold write_body, write. cbn. rewrite Hw. cbn.
    destruct (rd_fails (Body resp)) eqn:Ef; [|destruct (client_accepts (written c) (rd_data (Body resp))) eqn:Ea];
      cbn; split_and!; try done; intros; simplify_eq; try congruence;
      split_and!; intros; simplify_eq; try congruence; done.
Qed.

(** The end of a streamed body after its last newline is lost. *)
Lemma stream_drops_partial_line {NW : Network} c :
  stream_body {| rd_data := "data: [DONE]"; rd_fails := false |} c = c.
Proof. done. Qed.

(** ** The connectors cannot be used *)

(** Every connector is registered as nil, because the lookup in [Register]
    overwrites its argument; and a connector that was not nil would panic on
    the nil map its prefill body starts from, whatever the request. *)
Lemma prefill_decode_panics {NW : Network} parse c modelRequest p d :
  (exists cs, init_connectors = Ret cs /\
     (forall name, name ∈ ["lmcache"; "nixl"; "mooncake"]%string -> GetConnector cs name = Ret None) /\
     proxyPrefillDecode cs parse c modelRequest p d = Panic NilDereference) /\
  (forall k, Proxy k parse c modelRequest p d = Panic NilMapWrite).
Proof.
  split.
  - eexists. split; [done|]. split; [|done]. intros name Hn. repeat (apply elem_of_cons in Hn as [->|Hn]; [done|]).
    by apply elem_of_nil in Hn.
  - assert (prefill_body modelRequest = Panic NilMapWrite) as Hp
      by (unfold prefill_body, maps_Copy; by case_bool_decide).
    intros []; cbn [Proxy];
      unfold LMCache_Proxy, NIXL_Proxy, LMCache_buildPrefillRequest, NIXL_buildPrefillRequest; by rewrite Hp.
Qed.

(** ** The scheduler: pkg/llmrouter/scheduler/scheduler.go *)

(** A pod, the key of a map of scores, by its identity. *)
Definition PodInfo : Type := positive.

(** [sort.Slice] with [list[i].score > list[j].score]: the order of equal
    scores is open. *)
Class SliceSort := {
  sort_scores : list (PodInfo * Z) -> list (PodInfo * Z);
  sort_scores_perm l : sort_scores l ≡ₚ l;
  sort_scores_sorted l : StronglySorted (fun x y => y.2 <= x.2) (sort_scores l)
}.

Section Scheduler.
Context {SchedulerContext : Type}.

Inductive schedule_error := FilteredOut (plugin : string).

Record FilterPlugin := {
  Name : string;
  Filter : SchedulerContext -> list PodInfo -> list PodInfo
}.

Fixpoint RunFilterPlugins (filterPlugins : list FilterPlugin) (pods : list PodInfo) (ctx : SchedulerContext) :
    outcome schedule_error (list PodInfo) :=
  match filterPlugins with
  | [] => Ret pods
  | filterPlugin :: rest =>
      let pods := Filter filterPlugin ctx pods in
      match pods with
      | [] => Err (FilteredOut (Name filterPlugin))
      | _ => RunFilterPlugins rest pods ctx
      end
  end.

End Scheduler.

Definition topN : nat := 5.

(** [entries] is the map in the order [range] visits it. *)
Definition TopNPodInfos `{SliceSort} (entries : list (PodInfo * Z)) (n : nat) : list PodInfo :=
  map fst (take n (sort_scores entries)).

Lemma strongly_sorted_app {A} (R : A -> A -> Prop) l1 l2 x y :
  StronglySorted R (l1 ++ l2) -> x ∈ l1 -> y ∈ l2 -> R x y.
Proof.
  induction l1 as [|a l1 IH]; intros Hs Hx Hy; [by apply elem_of_nil in Hx|].
  cbn in Hs. apply StronglySorted_inv in Hs as [Hs Ha].
  apply elem_of_cons in Hx as [->|Hx]; [|auto].
  rewrite Forall_forall in Ha. apply Ha. apply elem_of_app. by right.
Qed.

(** The pods returned are [min n] of those scored, and none left out scores
    more than one returned. *)
Lemma TopNPodInfos_best `{SliceSort} (entries : list (PodInfo * Z)) n :
  exists chosen rest,
    entries ≡ₚ chosen ++ rest /\ TopNPodInfos entries n = map fst chosen /\
    length chosen = Nat.min n (length entries) /\
    (forall x y, x ∈ chosen -> y ∈ rest -> y.2 <= x.2).
Proof.
  exists (take n (sort_scores entries)), (drop n (sort_scores entries)). split_and!.
  - rewrite take_drop. symmetry. apply sort_scores_perm.
  - done.
  - rewrite length_take, sort_scores_perm. done.
  - intros x y. apply (strongly_sorted_app (fun x y => y.2 <= x.2)).
    rewrite take_drop. apply sort_scores_sorted.
Qed.
