(* ===== verification/LlmServer.v ===== *)
(** * LlmServer: the LLM router's handler, score plugins, datastore and metrics

    [HandlerFunc] and [scheduling] of pkg/llmrouter/router on top of the proxy
    of LlmRouter, two score plugins of its scheduler, and pkg/llmrouter/
    datastore: the metrics provider of vLLM and the store of pods it refreshes.
    gin's abort, the encoder and the names the sources leave undeclared are
    parameters. *)

From S2P Require Import Prelude GoStd Json Float64 LlmRouter.

Local Open Scope Z_scope.

(** ** router.go: the handler *)

Inductive abort_reason :=
| BodyUnreadable
| BodyNotJson
| ModelRequired
| ProxyFailed (e : proxy_error)
| SchedulingFailed.

(** gin: [c.AbortWithStatusJSON]. *)
Class GinLib := { AbortWithStatusJSON : Z -> abort_reason -> context -> context }.

(** What the handler keeps besides the connection: the request id header and
    the model set for the middleware. *)
Record gin_context := { conn : context; request_id : string; model : option json }.

Definition with_conn (f : context -> context) (c : gin_context) : gin_context :=
  {| conn := f (conn c); request_id := request_id c; model := model c |}.

(** A handler leaves the context and may panic. *)
Definition handler_result : Type := gin_context * option panic.

(** A scheduler says whether it fails; the router's may be nil. *)
Record Router := { scheduler : option (gmap string json -> bool) }.

Definition NewRouter : Router := {| scheduler := None |}.

Section Handler.
Context {NW : Network} {GL : GinLib} {JL : JsonLib}.
(** The registered connectors, and the decoder of a prefill response. *)
Context (connectors : Connectors) (parse : string -> option object).

Definition endpoint : string := "localhost:18080".
Definition prefillEndpoint : string := "localhost:18080".
Definition decodeEndpoint : string := "localhost:18081".

(** The error of [Schedule] is assigned again before it is read. *)
Definition scheduling (r : Router) (c : gin_context) (modelRequest : gmap string json) : handler_result :=
  match scheduler r with
  | None => (c, Some NilDereference)
  | Some _ =>
      match wants_stream modelRequest with
      | Panic p => (c, Some p)
      | Err _ => (c, None)
      | Ret stream =>
          let req := with_body (Some modelRequest) (req_scheme (Request (conn c))) (Request (conn c)) in
          let '(c', e) := proxyModelEndpoint (with_request req (conn c)) endpoint stream in
          let c := with_conn (fun _ => c') c in
          match e with
          | Some e => (with_conn (AbortWithStatusJSON 500 (ProxyFailed e)) c, None)
          | None =>
              match proxyPrefillDecode connectors parse (conn c) modelRequest prefillEndpoint decodeEndpoint with
              | Ret c' => (with_conn (fun _ => c') c, None)
              | Err _ => (c, None)
              | Panic p => (c, Some p)
              end
          end
      end
  end.

Definition fairnessScheduling : option abort_reason := None.

(** [body] is [None] when reading it fails; a body of null leaves the map nil,
    which has no model. *)
Definition HandlerFunc (r : Router) (EnableFairnessScheduling : bool) (uuid : string) (body : option string)
    (c : gin_context) : handler_result :=
  match body with
  | None => (with_conn (AbortWithStatusJSON 500 BodyUnreadable) c, None)
  | Some bodyBytes =>
      let '(modelRequest, failed) := unmarshal_map bodyBytes None in
      if failed then (with_conn (AbortWithStatusJSON 400 BodyNotJson) c, None)
      else match obj_get "model" modelRequest with
           | None => (with_conn (AbortWithStatusJSON 400 ModelRequired) c, None)
           | Some modelName =>
               let c := {| conn := conn c;
                           request_id := if bool_decide (request_id c = ""%string) then uuid else request_id c;
                           model := Some modelName |} in
               if negb EnableFairnessScheduling then scheduling r c (default ∅ modelRequest)
               else match fairnessScheduling with
                    | Some e => (with_conn (AbortWithStatusJSON 500 e) c, None)
                    | None => (c, None)
                    end
           end
  end.

End Handler.

(** ** scheduler/plugins *)

Definition f64_mul (x y : f64) : f64 := SFmul 53 1024 x y.

(** A pod by its identity. *)
Definition scores : Type := gmap PodInfo Z.

Definition GPUCacheUsagePluginName : string := "gpu_cache_usage".
Definition RandomPluginName : string := "random".

(** [int((1 - pod.GPUCacheUsage) * 100)]. *)
Definition GPUCacheUsage_Score `{GoArch} (usage : PodInfo -> f64) (pods : list PodInfo) : scores :=
  foldl (fun scoreResults pod =>
           <[pod := f64_to_int (f64_mul (f64_sub f64_one (usage pod)) (f64_of_int 100))]> scoreResults)
    ∅ pods.

(** [rng.Intn(n)] draws the numbers of [draws] one after the other. *)
Fixpoint Random_loop (draws : list Z) (pods : list PodInfo) (scoreResults : scores) : scores :=
  match pods, draws with
  | pod :: pods, score :: draws => Random_loop draws pods (<[pod := score]> scoreResults)
  | _, _ => scoreResults
  end.

Definition Random_Score (draws : list Z) (pods : list PodInfo) : scores := Random_loop draws pods ∅.

(** ** datastore: metrics *)

Section Metrics.
(** A [dto.Histogram]. *)
Context {Histogram : Type}.

(** A metric of a scraped family: the value of its gauge, zero when it has
    none, and its histogram, nil when it has none. *)
Record Metric := { gauge : f64; histogram : option Histogram }.

Definition families : Type := gmap string (list Metric).

(** A map of histogram pointers. *)
#[local] Notation histograms := (gmap string (option Histogram)).

Record Pod := { Namespace : string; Name : string; PodIP : string }.

Record PodInfo := {
  pod : Pod;
  engine : string;
  GPUCacheUsage : f64;
  RequestWaitingNum : f64;
  RequestRunningNum : f64;
  TimeToFirstToken : option Histogram;
  TimePerOutputToken : option Histogram;
  TPOT : f64;
  TTFT : f64
}.

(** The names of the store's metrics, the providers' renaming, the average of
    the last period, the histograms kept of a pod, and the refresh of its models,
    which is to leave the pod itself alone: declared nowhere.  The scrape of a URL
    is the network. *)
Class MetricNames := {
  key_GPUCacheUsage : string;
  key_RequestWaitingNum : string;
  key_RequestRunningNum : string;
  key_TPOT : string;
  key_TTFT : string;
  mapOfMetricsName : gmap string string;
  LastPeriodAvg : Histogram -> option Histogram -> f64;
  getPreviousHistogram : PodInfo -> histograms;
  updatePodModels : PodInfo -> PodInfo;
  updatePodModels_pod p : pod (updatePodModels p) = pod p
}.

Context {MN : MetricNames}.

(** *** provider/vllm *)

Definition CounterAndGaugeMetrics : list string :=
  ["vllm:gpu_cache_usage_perc"; "vllm:num_requests_waiting"; "vllm:num_requests_running"]%string.
Definition HistogramMetrics : list string :=
  ["vllm:time_per_output_token_seconds"; "vllm:time_to_first_token_seconds"]%string.

Record MetricsProvider := { MetricPort : Z }.

(** The port is a uint32. *)
Definition vllm_Port : Z := 8000.
Definition vllm_NewMetricsProvider (metricPort : Z) : MetricsProvider :=
  {| MetricPort := if metricPort =? 0 then vllm_Port else metricPort |}.

(** sglang has no default. *)
Definition sglang_NewMetricsProvider (metricPort : Z) : MetricsProvider := {| MetricPort := metricPort |}.

Definition metrics_url (provider : MetricsProvider) (p : Pod) : string :=
  "http://" +:+ PodIP p +:+ ":" +:+ itoa (MetricPort provider) +:+ "/metrics".

(** [ParseMetricsURL]: [None] when the request or the parser fails. *)
Definition provider_GetPodMetrics (ParseMetricsURL : string -> option families) (provider : MetricsProvider) (p : Pod) :
    option families :=
  ParseMetricsURL (metrics_url provider p).

(** [mapOfMetricsName[name]]: a missing name is the empty string. *)
Definition renamed (metricName : string) : string := default ""%string (mapOfMetricsName !! metricName).

Definition GetCountMetricsInfo (allMetrics : families) : gmap string f64 :=
  foldl (fun wantMetrics metricName =>
           match allMetrics !! metricName with
           | None => wantMetrics
           | Some metricInfo =>
               foldl (fun wantMetrics metric => <[renamed metricName := gauge metric]> wantMetrics)
                 wantMetrics metricInfo
           end)
    ∅ CounterAndGaugeMetrics.

(** One metric of a histogram family. *)
Definition histogram_step (previousHistogram : histograms) (metricName : string)
    (acc : gmap string f64 * histograms) (metric : Metric) : gmap string f64 * histograms :=
  let key := renamed metricName in
  (<[key := match mjoin (previousHistogram !! key) with
            | None => f64_zero
            | Some previousMetric => LastPeriodAvg previousMetric (histogram metric)
            end]> acc.1,
   <[key := histogram metric]> acc.2).

Definition GetHistogramPodMetrics (allMetrics : families) (previousHistogram : histograms) :
    gmap string f64 * histograms :=
  foldl (fun acc metricName =>
           match allMetrics !! metricName with
           | None => acc
           | Some metricInfo => foldl (histogram_step previousHistogram metricName) acc metricInfo
           end)
    (∅, ∅) HistogramMetrics.

(** *** provider.go *)

Definition engineRegistry : gmap string MetricsProvider :=
  {[ "vLLM"%string := vllm_NewMetricsProvider 0 ]}.

Definition GetMetricsProvider (engine : string) : option MetricsProvider := engineRegistry !! engine.

(** [None] is the pair of nil maps.  The histogram values replace the others;
    the order of that loop is immaterial, its keys being distinct. *)
Definition GetPodMetrics (ParseMetricsURL : string -> option families) (engine : string) (p : Pod)
    (previousHistogram : histograms) : option (gmap string f64 * histograms) :=
  match GetMetricsProvider engine with
  | None => None
  | Some provider =>
      match provider_GetPodMetrics ParseMetricsURL provider p with
      | None => None
      | Some allMetrics =>
          let countMetricsInfo := GetCountMetricsInfo allMetrics in
          let '(histogramMetricsInfo, histogramMetrics) := GetHistogramPodMetrics allMetrics previousHistogram in
          Some (histogramMetricsInfo ∪ countMetricsInfo, histogramMetrics)
      end
  end.

(** *** store.go *)

Definition value (m : gmap string f64) (key : string) : f64 := default f64_zero (m !! key).

(** Both maps are nil or neither is. *)
Definition updatePodMetrics (ParseMetricsURL : string -> option families) (p : PodInfo) : PodInfo :=
  if bool_decide (engine p = ""%string) then p
  else
    match GetPodMetrics ParseMetricsURL (engine p) (pod p) (getPreviousHistogram p) with
    | None => p
    | Some (gaugeMetrics, histogramMetrics) =>
        {| pod := pod p; engine := engine p;
           GPUCacheUsage := value gaugeMetrics key_GPUCacheUsage;
           RequestWaitingNum := value gaugeMetrics key_RequestWaitingNum;
           RequestRunningNum := value gaugeMetrics key_RequestRunningNum;
           TPOT := value gaugeMetrics key_TPOT;
           TTFT := value gaugeMetrics key_TTFT;
           TimeToFirstToken := mjoin (histogramMetrics !! key_TTFT);
           TimePerOutputToken := mjoin (histogramMetrics !! key_TPOT) |}
    end.

(** The store by namespace and name. *)
#[local] Notation store := (gmap (string * string) PodInfo).

Definition pod_key (p : Pod) : string * string := (Namespace p, Name p).

(** The engine of a new pod, [e], is declared nowhere. *)
Definition AddOrUpdatePod (ParseMetricsURL : string -> option families) (e : string) (s : store) (p : Pod) : store :=
  match s !! pod_key p with
  | Some _ => s
  | None =>
      <[pod_key p := updatePodModels (updatePodMetrics ParseMetricsURL
          {| pod := p; engine := e; GPUCacheUsage := f64_zero; RequestWaitingNum := f64_zero;
             RequestRunningNum := f64_zero; TimeToFirstToken := None; TimePerOutputToken := None;
             TPOT := f64_zero; TTFT := f64_zero |})]> s
  end.

(** A turn of [Run]: every pod is scraped once; [Range] visits each pod once and
    an update touches no other, so the order is immaterial. *)
Definition Run_turn (ParseMetricsURL : string -> option families) (s : store) : store :=
  (fun p => updatePodModels (updatePodMetrics ParseMetricsURL p)) <$> s.

(** The options are applied in order; a nil one is skipped. *)
Definition New (opts : list (option (store -> store))) : store :=
  foldl (fun s opt => match opt with Some f => f s | None => s end) ∅ opts.

(** The goroutine of [Run]: at each turn it finds the context done ([None]) or
    scrapes, and then notes that it is synced; between two turns the store
    changes as others change it. *)
Fixpoint Run (turns : list (option (string -> option families) * (store -> store))) (s : store)
    (initialSynced : bool) : store * bool :=
  match turns with
  | (Some ParseMetricsURL, others) :: rest => Run rest (others (Run_turn ParseMetricsURL s)) true
  | _ => (s, initialSynced)
  end.

End Metrics.

(** ** The handler *)

(** A clause about one way of handling a request. *)
Ltac outcome_cases :=
  cbn; split_and!; intros; try congruence; simplify_eq; repeat split;
  (done || congruence || (by eauto 6) || (left; done) || (right; by eauto 6)).

Section HandlerProofs.
Context {NW : Network} {GL : GinLib} {JL : JsonLib}.

(** A failed request was answered with an error status. *)
Definition aborted (c : context) : Prop := exists code reason c0, c = AbortWithStatusJSON code reason c0.

(** The model a request names, when its body can be read and decoded. *)
Definition named_model (body : option string) : option json :=
  b ← body; match unmarshal_map b None with (m, false) => obj_get "model" m | _ => None end.

(** C32: No request is ever completed.  A request whose body cannot be read or
    decoded, or that names no model, is aborted.  With fairness scheduling on,
    any other request is not answered by the handler at all, which leaves gin's
    empty 200; with it off, any other request is aborted or panics: the router
    that [NewRouter] builds has no scheduler, so it never reaches a model server;
    and with one, a response that was relayed whole is followed by a panic,
    because scheduling goes on to the connectors. *)
Theorem requests_never_complete (connectors : Connectors) parse (r : Router) fair uuid body c
    (Hcs : init_connectors = Ret connectors) :
  let '(c', p) := HandlerFunc connectors parse r fair uuid body c in
  match named_model body with
  | None => p = None /\ aborted (conn c')
  | Some _ => if fair then p = None /\ conn c' = conn c else p <> None \/ aborted (conn c')
  end /\
  (scheduler r = None ->
     conn c' = conn c \/ exists code reason, conn c' = AbortWithStatusJSON code reason (conn c)) /\
  (forall bodyBytes m name s stream c1,
     fair = false -> body = Some bodyBytes -> unmarshal_map bodyBytes None = (Some m, false) ->
     m !! "model"%string = Some name -> scheduler r = Some s -> wants_stream m = Ret stream ->
     proxyModelEndpoint (with_request (with_body (Some m) (req_scheme (Request (conn c))) (Request (conn c))) (conn c))
       endpoint stream = (c1, None) ->
     conn c' = c1 /\ p = Some NilDereference).
Proof.
  assert (forall c m pe de, proxyPrefillDecode connectors parse c m pe de = Panic NilDereference) as Hpd.
  { intros c0 m pe de. destruct (prefill_decode_panics parse c0 m pe de) as [(cs & Hi & _ & Hp) _].
    rewrite Hcs in Hi. by injection Hi as <-. }
  unfold HandlerFunc, aborted, named_model. destruct body as [b|]; [|outcome_cases].
  cbn [option_bind mbind]. destruct (unmarshal_map b None) as [m failed] eqn:Hu.
  destruct failed; [outcome_cases|].
  destruct (obj_get "model" m) as [name|] eqn:Hm; [|destruct m; cbn [obj_get] in Hm; outcome_cases].
  destruct fair; [outcome_cases|].
  cbn [negb]. unfold scheduling. destruct (scheduler r) as [s|]; [|outcome_cases].
  destruct m as [m|]; [|done]. change (default ∅ (Some m)) with m.
  destruct (wants_stream m) as [stream|e|q] eqn:Hw; [| |outcome_cases].
  - cbn [conn with_conn]. destruct (proxyModelEndpoint _ _ stream) as [c1 [e|]] eqn:Hp; [outcome_cases|].
    cbn [conn with_conn]. rewrite Hpd. outcome_cases.
  - unfold wants_stream in Hw. by destruct (m !! "stream"%string) as [[]|].
Qed.

End HandlerProofs.

Module HandlerExample.

Definition net : Network :=
  {| RoundTrip _ := Some {| StatusCode := 200; Header := []; Body := {| rd_data := "hi"; rd_fails := false |} |};
     client_accepts _ _ := true |}.
Definition gin : GinLib := {| AbortWithStatusJSON code _ c := with_status code c |}.
Definition codec : JsonLib :=
  {| json_parse s := if bool_decide (s = "{}") then Some (JObject [("model", JString "qwen")]) else None;
     json_marshal _ := None |}%string.
Definition registered : Connectors :=
  {[ "lmcache" := None; "nixl" := None; "mooncake" := None ]}%string.
Definition start : gin_context :=
  {| conn := {| Request := {| req_scheme := ""; req_host := ""; req_body := RawBody "" |};
                status := 200; headers := []; written := "" |};
     request_id := ""; model := None |}.
Definition scheduled : Router := {| scheduler := Some (fun _ => false) |}.

End HandlerExample.

(** A request with a model, on a router with a scheduler: the answer of the model
    server is relayed, and the handler panics. *)
Lemma requests_never_complete_witness :
  let '(c', p) := HandlerFunc (NW := HandlerExample.net) (GL := HandlerExample.gin) (JL := HandlerExample.codec)
    HandlerExample.registered (fun _ => None) HandlerExample.scheduled false "id" (Some "{}"%string) HandlerExample.start in
  (p <> None \/ aborted (GL := HandlerExample.gin) (conn c')) /\ p = Some NilDereference /\ written (conn c') = "hi"%string.
Proof.
  pose proof (requests_never_complete (NW := HandlerExample.net) (GL := HandlerExample.gin) (JL := HandlerExample.codec)
    HandlerExample.registered (fun _ => None) HandlerExample.scheduled false "id" (Some "{}"%string) HandlerExample.start
    ltac:(vm_compute; reflexivity)) as H.
  destruct (HandlerFunc _ _ _ _ _ _ _) as [c' p] eqn:E. destruct H as (H & _ & _). split; [exact H|].
  vm_compute in E. injection E as <- <-. split; reflexivity.
Defined.

(** ** The metrics of a pod *)

Section MetricProofs.
Context {Histogram : Type} {MN : MetricNames (Histogram := Histogram)}.

#[local] Notation histograms := (gmap string (option Histogram)).

(** The renaming of the providers gives the names the store reads, which differ. *)
Definition names_agree : Prop :=
  map renamed (CounterAndGaugeMetrics ++ HistogramMetrics) =
    [key_GPUCacheUsage; key_RequestWaitingNum; key_RequestRunningNum; key_TPOT; key_TTFT] /\
  NoDup [key_GPUCacheUsage; key_RequestWaitingNum; key_RequestRunningNum; key_TPOT; key_TTFT].

(** The last metric of a family, if it is there. *)
Definition last_metric (fams : families (Histogram := Histogram)) (name : string) : option Metric :=
  last (default [] (fams !! name)).

Lemma gauge_family (l : list (Metric (Histogram := Histogram))) key (w : gmap string f64) :
  foldl (fun w metric => <[key := gauge metric]> w) w l =
  match last l with None => w | Some metric => <[key := gauge metric]> w end.
Proof.
  induction l as [|x l IH] using rev_ind; [done|].
  rewrite foldl_app, last_snoc. cbn. rewrite IH. destruct (last l); [|done]. apply insert_insert_eq.
Qed.

Lemma histogram_family prev name (l : list (Metric (Histogram := Histogram))) acc :
  foldl (histogram_step prev name) acc l =
  match last l with None => acc | Some metric => histogram_step prev name acc metric end.
Proof.
  induction l as [|x l IH] using rev_ind; [done|].
  rewrite foldl_app, last_snoc. cbn [foldl]. rewrite IH. destruct (last l); [|done].
  unfold histogram_step. cbn [fst snd]. f_equal; apply insert_insert_eq.
Qed.

Definition put (fams : families (Histogram := Histogram)) (name : string) (w : gmap string f64) : gmap string f64 :=
  match last_metric fams name with None => w | Some metric => <[renamed name := gauge metric]> w end.

Lemma count_metrics fams :
  GetCountMetricsInfo fams =
  put fams "vllm:num_requests_running" (put fams "vllm:num_requests_waiting"
    (put fams "vllm:gpu_cache_usage_perc" ∅)).
Proof.
  assert (forall name w, match fams !! name with
    | None => w
    | Some l => foldl (fun w metric => <[renamed name := gauge metric]> w) w l end = put fams name w) as H.
  { intros name w. unfold put, last_metric. destruct (fams !! name); [apply gauge_family|done]. }
  unfold GetCountMetricsInfo, CounterAndGaugeMetrics. cbn [foldl]. by rewrite !H.
Qed.

Definition put_histogram (fams : families (Histogram := Histogram)) prev (name : string) acc :=
  match last_metric fams name with None => acc | Some metric => histogram_step prev name acc metric end.

Lemma histogram_metrics fams prev :
  GetHistogramPodMetrics fams prev =
  put_histogram fams prev "vllm:time_to_first_token_seconds"
    (put_histogram fams prev "vllm:time_per_output_token_seconds" (∅, ∅)).
Proof.
  assert (forall name acc, match fams !! name with
    | None => acc
    | Some l => foldl (histogram_step prev name) acc l end = put_histogram fams prev name acc) as H.
  { intros name acc. unfold put_histogram, last_metric. destruct (fams !! name); [apply histogram_family|done]. }
  unfold GetHistogramPodMetrics, HistogramMetrics. cbn [foldl]. by rewrite !H.
Qed.

(** The average a histogram metric gets. *)
Definition averaged (prev : histograms) (key : string) (m : option Metric) : f64 :=
  match m with
  | None => f64_zero
  | Some metric =>
      match mjoin (prev !! key) with
      | None => f64_zero
      | Some previous => LastPeriodAvg previous (histogram metric)
      end
  end.

Lemma put_lookup fams name w k :
  put fams name w !! k =
  if decide (renamed name = k) then
    match last_metric fams name with Some m => Some (gauge m) | None => w !! k end
  else w !! k.
Proof.
  unfold put. destruct (last_metric fams name); case_decide; subst; try done;
    [by rewrite lookup_insert_eq|by rewrite lookup_insert_ne].
Qed.

Lemma put_histogram_lookup fams prev name acc k :
  (put_histogram fams prev name acc).1 !! k =
    (if decide (renamed name = k) then
       match last_metric fams name with Some m => Some (averaged prev (renamed name) (Some m)) | None => acc.1 !! k end
     else acc.1 !! k) /\
  (put_histogram fams prev name acc).2 !! k =
    (if decide (renamed name = k) then
       match last_metric fams name with Some m => Some (histogram m) | None => acc.2 !! k end
     else acc.2 !! k).
Proof.
  unfold put_histogram. destruct (last_metric fams name); case_decide; subst; try done; cbn;
    split; by rewrite ?lookup_insert_eq, ?lookup_insert_ne.
Qed.

(** A refresh of a vLLM pod whose scrape succeeds sets each number to the last
    metric of its family, zero when the family is missing whatever it was
    before, and each average to that of the last period, zero at the first
    scrape and when the family is missing; the histograms kept for the next
    period are those just scraped.  A pod of another engine, or whose scrape
    fails, keeps everything. *)
Theorem refresh_fields (Hnames : names_agree) (scrape : string -> option families) (p : PodInfo) :
  let p' := updatePodMetrics scrape p in
  pod p' = pod p /\ engine p' = engine p /\
  match (if bool_decide (engine p = "vLLM"%string)
         then scrape (metrics_url (vllm_NewMetricsProvider 0) (pod p)) else None) with
  | None => p' = p
  | Some fams =>
      let number name := match last_metric fams name with None => f64_zero | Some m => gauge m end in
      let ttft := last_metric fams "vllm:time_to_first_token_seconds" in
      let tpot := last_metric fams "vllm:time_per_output_token_seconds" in
      GPUCacheUsage p' = number "vllm:gpu_cache_usage_perc"%string /\
      RequestWaitingNum p' = number "vllm:num_requests_waiting"%string /\
      RequestRunningNum p' = number "vllm:num_requests_running"%string /\
      TTFT p' = averaged (getPreviousHistogram p) key_TTFT ttft /\
      TPOT p' = averaged (getPreviousHistogram p) key_TPOT tpot /\
      TimeToFirstToken p' = (ttft ≫= histogram) /\
      TimePerOutputToken p' = (tpot ≫= histogram)
  end.
Proof.
  destruct Hnames as [Hr Hn]. injection Hr as H1 H2 H3 H4 H5.
  cbv zeta. unfold updatePodMetrics, GetPodMetrics, GetMetricsProvider, engineRegistry, provider_GetPodMetrics.
  destruct (decide (engine p = "vLLM"%string)) as [He|He].
  - rewrite He, lookup_singleton_eq, bool_decide_eq_false_2, bool_decide_eq_true_2 by done.
    destruct (scrape _) as [fams|]; [|done].
    rewrite count_metrics, histogram_metrics.
    repeat setoid_rewrite NoDup_cons in Hn. repeat setoid_rewrite not_elem_of_cons in Hn. destruct_and! Hn.
    destruct (put_histogram _ _ _ _) as [h hs] eqn:Hh.
    assert (forall k, h !! k = (h, hs).1 !! k) as Hl by done.
    assert (forall k, hs !! k = (h, hs).2 !! k) as Hl' by done.
    setoid_rewrite <- Hh in Hl. setoid_rewrite <- Hh in Hl'. clear Hh.
    unfold value. cbn [pod engine GPUCacheUsage RequestWaitingNum RequestRunningNum TTFT TPOT
      TimeToFirstToken TimePerOutputToken].
    split_and!; try done; rewrite ?lookup_union, ?Hl, ?Hl';
      rewrite ?(proj1 (put_histogram_lookup _ _ _ _ _)), ?(proj2 (put_histogram_lookup _ _ _ _ _)),
        ?put_lookup, ?H1, ?H2, ?H3, ?H4, ?H5;
      repeat ((rewrite decide_True by done) || (rewrite decide_False by congruence));
      by repeat destruct (last_metric _ _).
  - rewrite (bool_decide_eq_false_2 (engine p = "vLLM"%string)) by done.
    rewrite lookup_singleton_ne by done. by case_bool_decide.
Qed.

End MetricProofs.

(** A known pod is never replaced, nor is one ever removed. *)
Lemma store_keeps_pods {Histogram : Type} {MN : MetricNames (Histogram := Histogram)}
    (scrape : string -> option families) (e : string)
    (s : gmap (string * string) (PodInfo (Histogram := Histogram))) p k q :
  s !! k = Some q ->
  AddOrUpdatePod scrape e s p !! k = Some q /\ pod <$> (Run_turn scrape s !! k) = Some (pod q).
Proof.
  intros Hk. unfold AddOrUpdatePod, Run_turn. split.
  - destruct (s !! pod_key p) eqn:Ep; [done|]. rewrite lookup_insert_ne; [done|]. intros <-. congruence.
  - rewrite lookup_fmap, Hk. cbn. f_equal. rewrite updatePodModels_pod. unfold updatePodMetrics.
    case_bool_decide; [done|]. by destruct (GetPodMetrics _ _ _ _) as [[]|].
Qed.

(** The store is synced once one turn has scraped every pod, and every pod that
    was there, and that others leave, stays there. *)
Lemma Run_synced {Histogram : Type} {MN : MetricNames (Histogram := Histogram)} (s : gmap (string * string) PodInfo)
    turns (b : bool) k (q : PodInfo (Histogram := Histogram)) :
  Forall (fun t : option (string -> option (families (Histogram := Histogram))) * (gmap (string * string) PodInfo -> _) =>
            forall s k p, s !! k = Some p -> t.2 s !! k = Some p) turns ->
  s !! k = Some q ->
  pod <$> ((Run turns s b).1 !! k) = Some (pod q) /\
  ((Run turns s b).2 = true <-> b = true \/ exists scrape others, turns !! 0%nat = Some (Some scrape, others)).
Proof.
  intros Ht. revert s b q. induction Ht as [|[[scrape|] others] turns Hf _ IH]; intros s b q Hk.
  - cbn. rewrite Hk. split; [done|]. split; [by left|by intros [?|(? & ? & ?)]].
  - destruct (store_keeps_pods scrape "" s (pod q) k q Hk) as [_ Hp]. cbn [Run].
    destruct (Run_turn scrape s !! k) as [q'|] eqn:Hq; [|done]. injection Hp as Hp.
    destruct (IH (others (Run_turn scrape s)) true q' (Hf _ _ _ Hq)) as [H1 H2].
    rewrite H1, Hp. split; [done|]. rewrite H2. split; [intros _; right; by exists scrape, others|by left].
  - cbn. rewrite Hk. split; [done|]. split; [by left|]. by intros [?|(? & ? & ?)].
Qed.

Module MetricExample.

(** The providers' names shortened, and histograms that are their sums. *)
Definition names : MetricNames (Histogram := Z) :=
  {| key_GPUCacheUsage := "usage"; key_RequestWaitingNum := "waiting"; key_RequestRunningNum := "running";
     key_TPOT := "tpot"; key_TTFT := "ttft"; updatePodModels p := p; updatePodModels_pod _ := eq_refl;
     mapOfMetricsName := list_to_map (zip (CounterAndGaugeMetrics ++ HistogramMetrics)
       ["usage"; "waiting"; "running"; "tpot"; "ttft"]%string);
     LastPeriodAvg previous current := f64_of_int (default 0 current - previous);
     getPreviousHistogram p := {[ "ttft"%string := TimeToFirstToken p; "tpot"%string := TimePerOutputToken p ]} |}.

Definition served (ttft : Z) : families (Histogram := Z) :=
  {[ "vllm:num_requests_running"%string := [{| gauge := f64_of_int 3; histogram := None |}];
     "vllm:time_to_first_token_seconds"%string := [{| gauge := f64_zero; histogram := Some ttft |}] ]}.

Definition known : PodInfo (Histogram := Z) :=
  {| pod := {| Namespace := "ns"; Name := "p"; PodIP := "10.0.0.1" |}; engine := "vLLM";
     GPUCacheUsage := f64_one; RequestWaitingNum := f64_one; RequestRunningNum := f64_one;
     TimeToFirstToken := Some 5; TimePerOutputToken := None; TPOT := f64_one; TTFT := f64_one |}.

End MetricExample.

Lemma refresh_fields_witness :
  let p' := updatePodMetrics (MN := MetricExample.names)
    (fun url => if bool_decide (url = "http://10.0.0.1:8000/metrics"%string) then Some (MetricExample.served 9) else None)
    MetricExample.known in
  GPUCacheUsage p' = f64_zero /\ RequestRunningNum p' = f64_of_int 3 /\ TTFT p' = f64_of_int 4 /\
  TimeToFirstToken p' = Some 9.
Proof.
  destruct (refresh_fields (MN := MetricExample.names)) with
    (scrape := fun url => if bool_decide (url = "http://10.0.0.1:8000/metrics"%string)
                          then Some (MetricExample.served 9) else None)
    (p := MetricExample.known) as (_ & _ & H).
  - split; [vm_compute; reflexivity|]. apply (bool_decide_unpack _). vm_compute. exact I.
  - destruct H as (Hu & _ & Hr & Ht & _ & Hh & _). cbn zeta.
    rewrite Hu, Hr, Ht, Hh. vm_compute. repeat split.
Defined.

(** The score by cache usage truncates what is left: an empty cache gets 100, a
    full one 0, and 90% usage 9 instead of 10. *)
Lemma gpu_scores :
  map (fun usage => GPUCacheUsage_Score (fun _ => usage) [1%positive] !! 1%positive)
    [f64_zero; f64_div f64_one (f64_of_int 2); f64_div (f64_of_int 9) (f64_of_int 10); f64_one] =
  map Some [100; 50; 9; 0].
Proof. by vm_compute. Qed.
