(* ===== verification/LlmScheduler.v ===== *)
(** * LlmScheduler: pkg/llmrouter/scheduler, its plugins' registry and their scores

    The registry of plugin builders (factory.go) and the scheduler that is built
    from it (scheduler.go), on the filters and the ranking of LlmRouter and the
    score plugins of LlmServer.  The functions that enter a builder into the
    registry and take the configured plugins out of it, the plugins' names but two
    and their constructors are declared nowhere and are parameters.  A plugin's
    weight and name, which the source writes as the type's, are read as the
    plugin's. *)

From S2P Require Import Prelude GoStd LlmRouter.
From S2P Require LlmServer.

Local Open Scope Z_scope.

Section Scheduler.
Context {SchedulerContext RawExtension : Type}.
#[local] Notation scores := (gmap PodInfo Z).
#[local] Notation FilterPlugin := (FilterPlugin (SchedulerContext := SchedulerContext)).

Record ScorePlugin := { score_Name : string; Score : SchedulerContext -> list PodInfo -> scores }.

(** ** factory.go *)

Record PluginRegistry := {
  scorePluginBuilders : gmap string (RawExtension -> ScorePlugin);
  filterPluginBuilders : gmap string (RawExtension -> FilterPlugin)
}.

Definition NewPluginRegistry : PluginRegistry := {| scorePluginBuilders := ∅; filterPluginBuilders := ∅ |}.

(** A score plugin with its weight, an int. *)
Record scorePlugin := { plugin : ScorePlugin; weight : Z }.

Class SchedulerDraft := {
  LeastLatencyPluginName : string;
  LeastRequestPluginName : string;
  PrefixCachePluginName : string;
  KVCacheAwarePluginName : string;
  LoraAffinityPluginName : string;
  NewGPUCacheUsage : ScorePlugin;
  NewLeastLatency : RawExtension -> ScorePlugin;
  NewLeastRequest : RawExtension -> ScorePlugin;
  NewLeastRequest_filter : RawExtension -> FilterPlugin;
  NewRandom : RawExtension -> ScorePlugin;
  PrefixCache : ScorePlugin;
  NewKVCacheAware : RawExtension -> ScorePlugin;
  NewLoraAffinity : FilterPlugin;
  registerScorePlugin : string -> (RawExtension -> ScorePlugin) -> PluginRegistry -> PluginRegistry;
  registerFilterPlugin : string -> (RawExtension -> FilterPlugin) -> PluginRegistry -> PluginRegistry;
  getFilterPlugins : PluginRegistry -> list FilterPlugin;
  getScorePlugins : PluginRegistry -> list scorePlugin
}.

(** What the two register functions are to do. *)
Class SchedulerDraftLaws (SD : SchedulerDraft) := {
  registerScorePlugin_spec n b r :
    registerScorePlugin n b r = {| scorePluginBuilders := <[n := b]> (scorePluginBuilders r);
                                   filterPluginBuilders := filterPluginBuilders r |};
  registerFilterPlugin_spec n b r :
    registerFilterPlugin n b r = {| scorePluginBuilders := scorePluginBuilders r;
                                    filterPluginBuilders := <[n := b]> (filterPluginBuilders r) |}
}.

Context {SD : SchedulerDraft}.

Definition registerDefaultPlugins (registry : PluginRegistry) : PluginRegistry :=
  let registry := registerScorePlugin LlmServer.GPUCacheUsagePluginName (fun _ => NewGPUCacheUsage) registry in
  let registry := registerScorePlugin LeastLatencyPluginName NewLeastLatency registry in
  let registry := registerScorePlugin LeastRequestPluginName NewLeastRequest registry in
  let registry := registerScorePlugin LlmServer.RandomPluginName NewRandom registry in
  let registry := registerScorePlugin PrefixCachePluginName (fun _ => PrefixCache) registry in
  let registry := registerScorePlugin KVCacheAwarePluginName NewKVCacheAware registry in
  let registry := registerFilterPlugin LeastRequestPluginName NewLeastRequest_filter registry in
  registerFilterPlugin LoraAffinityPluginName (fun _ => NewLoraAffinity) registry.

(** ** scheduler.go *)

Record scheduler := { filterPlugins : list FilterPlugin; scorePlugins : list scorePlugin }.

Definition NewScheduler : scheduler :=
  let registry := registerDefaultPlugins NewPluginRegistry in
  {| filterPlugins := getFilterPlugins registry; scorePlugins := getScorePlugins registry |}.

(** [res[k] = v * weight], or [res[k] += v * weight], in an int. *)
Definition add_score (weight : Z) (k : PodInfo) (v : Z) (res : scores) : scores :=
  match res !! k with
  | None => <[k := wrap_int64 (v * weight)]> res
  | Some x => <[k := wrap_int64 (x + wrap_int64 (v * weight))]> res
  end.

(** The scores of one plugin; they are visited in any order, each pod once. *)
Definition add_scores (weight : Z) (plugin_scores res : scores) : scores :=
  map_fold (add_score weight) res plugin_scores.

Fixpoint score_loop (plugins : list scorePlugin) (pods : list PodInfo) (ctx : SchedulerContext) (res : scores) :
    outcome schedule_error scores :=
  match plugins with
  | [] => Ret res
  | plg :: rest =>
      let scores := Score (plugin plg) ctx pods in
      match pods with
      | [] => Err (FilteredOut (score_Name (plugin plg)))
      | _ => score_loop rest pods ctx (add_scores (weight plg) scores res)
      end
  end.

(** The scores are computed and dropped: the answer is the pods. *)
Definition RunScorePlugins (s : scheduler) (pods : list PodInfo) (ctx : SchedulerContext) :
    outcome schedule_error (list PodInfo) :=
  let* _ := score_loop (scorePlugins s) pods ctx ∅ in
  Ret pods.

(** [Schedule] ranks what [RunScorePlugins] answers as if it were the scores; this
    is what it means to do: [entries] is the map in the order its range visits. *)
Definition Schedule `{SliceSort} (s : scheduler) (entries : scores -> list (PodInfo * Z)) (ctx : SchedulerContext)
    (pods : list PodInfo) : outcome schedule_error (list PodInfo) :=
  let* pods := RunFilterPlugins (filterPlugins s) pods ctx in
  let* res := score_loop (scorePlugins s) pods ctx ∅ in
  Ret (TopNPodInfos (entries res) topN).

(** ** Theorems *)

(** Whatever the plugins answer, the pods come back as they were; an error only
    when there are no pods and some plugin. *)
Lemma RunScorePlugins_pods s pods ctx :
  RunScorePlugins s pods ctx =
    match pods, scorePlugins s with
    | [], plg :: _ => Err (FilteredOut (score_Name (plugin plg)))
    | _, _ => Ret pods
    end.
Proof.
  unfold RunScorePlugins. destruct pods as [|p pods]; [by destruct (scorePlugins s)|].
  assert (forall res, exists res', score_loop (scorePlugins s) (p :: pods) ctx res = Ret res') as H.
  { induction (scorePlugins s) as [|plg rest IH]; intros res; [by eexists|]. apply IH. }
  by destruct (H ∅) as [res' ->].
Qed.

(** One plugin's scores: each pod it scored has its weighted score added. *)
Lemma add_scores_lookup w sc res k :
  add_scores w sc res !! k =
    match sc !! k with
    | None => res !! k
    | Some v => Some (match res !! k with
                      | None => wrap_int64 (v * w)
                      | Some x => wrap_int64 (x + wrap_int64 (v * w))
                      end)
    end.
Proof.
  unfold add_scores. revert k.
  apply (map_fold_weak_ind (fun r m => forall k, r !! k = match m !! k with None => res !! k | Some v => _ end)).
  - intros k. by rewrite lookup_empty.
  - intros i v m r Hi IH k. pose proof (IH i) as Hr. rewrite Hi in Hr. unfold add_score.
    destruct (decide (i = k)) as [<-|Hne].
    + rewrite lookup_insert_eq, Hr. by destruct (res !! i); rewrite lookup_insert_eq.
    + rewrite lookup_insert_ne by done. rewrite <- IH. by destruct (r !! i); rewrite lookup_insert_ne.
Qed.

Lemma wrap_int64_add x y : wrap_int64 (wrap_int64 x + wrap_int64 y) = wrap_int64 (x + y).
Proof.
  unfold wrap_int64. f_equal. set (a := (x + 2 ^ 63) mod 2 ^ 64). set (b := (y + 2 ^ 63) mod 2 ^ 64).
  replace (a - 2 ^ 63 + (b - 2 ^ 63) + 2 ^ 63) with (a + b - 2 ^ 63) by lia.
  unfold a, b. rewrite Zminus_mod, <- Zplus_mod, <- Zminus_mod. f_equal. lia.
Qed.

(** The weighted scores of a pod, by the plugins that score it. *)
Definition weighted (plugins : list scorePlugin) (pods : list PodInfo) (ctx : SchedulerContext) (k : PodInfo) : list Z :=
  omap (fun plg => (fun v => v * weight plg) <$> Score (plugin plg) ctx pods !! k) plugins.

(** The scores that [Schedule] is to rank: of each pod that some plugin scored, the
    sum of its weighted scores, as an int. *)
Lemma score_loop_sums plugins pods ctx res k :
  score_loop plugins pods ctx ∅ = Ret res ->
  res !! k = match weighted plugins pods ctx k with [] => None | l => Some (wrap_int64 (foldr Z.add 0 l)) end.
Proof.
  assert (forall acc (raw : option Z), acc !! k = wrap_int64 <$> raw -> score_loop plugins pods ctx acc = Ret res ->
    res !! k = wrap_int64 <$>
      match raw, weighted plugins pods ctx k with
      | None, [] => None
      | x, l => Some (default 0 x + foldr Z.add 0 l)
      end) as H.
  2:{ intros Hr. rewrite (H ∅ None) by (done || apply lookup_empty). by destruct (weighted _ _ _ _). }
  induction plugins as [|plg rest IH]; intros acc raw Ha; cbn [score_loop].
  { intros [= <-]. rewrite Ha. destruct raw as [x|]; [|done]. cbn. by rewrite Z.add_0_r. }
  destruct pods as [|p pods]; [done|]. intros Hr.
  pose proof (add_scores_lookup (weight plg) (Score (plugin plg) ctx (p :: pods)) acc k) as Hk.
  unfold weighted. cbn [omap list_omap]. destruct (Score (plugin plg) ctx (p :: pods) !! k) as [v|].
  - assert (res !! k = wrap_int64 <$> Some (default 0 raw + v * weight plg +
      foldr Z.add 0 (weighted rest (p :: pods) ctx k))) as ->.
    { refine (IH _ (Some _) _ Hr). rewrite Hk, Ha. destruct raw as [x|]; [|done]. cbn. by rewrite wrap_int64_add. }
    destruct raw; cbn; unfold weighted; do 2 f_equal; lia.
  - refine (IH _ raw _ Hr). by rewrite Hk.
Qed.

(** With the two register functions as they are meant, the default plugins are
    there under their names, and nothing else is. *)
Lemma default_plugins {SL : SchedulerDraftLaws SD} n :
  (is_Some (scorePluginBuilders (registerDefaultPlugins NewPluginRegistry) !! n) <->
     n ∈ [LlmServer.GPUCacheUsagePluginName; LeastLatencyPluginName; LeastRequestPluginName;
          LlmServer.RandomPluginName; PrefixCachePluginName; KVCacheAwarePluginName]) /\
  (is_Some (filterPluginBuilders (registerDefaultPlugins NewPluginRegistry) !! n) <->
     n ∈ [LeastRequestPluginName; LoraAffinityPluginName]).
Proof.
  unfold registerDefaultPlugins. rewrite !registerFilterPlugin_spec, !registerScorePlugin_spec. cbn.
  assert (forall A, is_Some (∅ !! n : option A) <-> False) as He by (intros A; rewrite lookup_empty; split; [by intros [?]|done]).
  rewrite !lookup_insert_is_Some', !He, !elem_of_cons, !elem_of_nil. naive_solver.
Qed.

End Scheduler.
