(* ===== verification/CoreServer.v ===== *)
(** * CoreServer: pkg/core, the Istio-style core of the gateway

    The ingress stack from the bottom up: the gateway controller of a cluster
    ([Gateway]), the configuration of all clusters and its translation
    ([Ingress]), and the server that initialises, synchronises and serves them
    ([Server]).  Istio's schemas, stores and servers are the class [Istio]; its
    runner of components and client-go's wait for the caches are the class
    [Runtime], with what they are documented to do as [RuntimeLaws].  What time
    brings (a stop, a synchronised informer, the update counters of the xDS
    server) arrives as a list of polls. *)

From S2P Require Import Prelude GoStd.

Local Open Scope Z_scope.

(** ** Istio *)

(** Schemas with their group; [MustAdd] panics on a duplicate. *)
Class Istio := {
  schema : Type;
  schema_group : schema -> string;
  PilotGatewayAPI : list schema;
  GatewayClass : schema;
  InferencePool : schema;
  MustAdd : schema -> list schema -> outcome Empty_set (list schema);
  IngressIR : list schema;
  EnableGatewayAPIInferenceExtension : bool
}.

(** ** Running and waiting *)

(** How the function of a component ends: with nil, with an error, or not. *)
Inductive component_result := Returned | Failed | Blocks.

(** Istio's [server.Instance.Start] of the components that were added, given how
    each ends: those that were run to their end, and whether no error came;
    [None] when it does not return.  client-go's [cache.WaitForCacheSync] of a
    condition over a state, at a list of polls of which some stop: whether the
    condition held, the polls it left (the one at which it held included) and
    the state; [None] when it is still waiting after them. *)
Class Runtime := {
  instance_Start : (string -> component_result) -> list string -> option (list string * bool);
  WaitForCacheSync : forall {P St : Type},
    (P -> bool) -> (St -> P -> bool * St) -> St -> list P -> option (bool * list P * St)
}.

(** The components that were already added are run immediately, in the order
    they were added, and an error is returned at once.  The wait tries the
    condition until it holds and gives up when the stop is closed. *)
Class RuntimeLaws (RT : Runtime) := {
  start_none run : instance_Start run [] = Some ([], true);
  start_returned run name names : run name = Returned ->
    instance_Start run (name :: names) = prod_map (cons name) id <$> instance_Start run names;
  start_failed run name names : run name = Failed -> instance_Start run (name :: names) = Some ([], false);
  start_blocks run name names : run name = Blocks -> instance_Start run (name :: names) = None;
  wait_none {P St} stop (cond : St -> P -> bool * St) st : WaitForCacheSync stop cond st [] = None;
  wait_holds {P St} stop (cond : St -> P -> bool * St) st p ps : (cond st p).1 = true ->
    WaitForCacheSync stop cond st (p :: ps) = Some (true, p :: ps, (cond st p).2);
  wait_stopped {P St} stop (cond : St -> P -> bool * St) st p ps : (cond st p).1 = false -> stop p = true ->
    WaitForCacheSync stop cond st (p :: ps) = Some (false, ps, (cond st p).2);
  wait_again {P St} stop (cond : St -> P -> bool * St) st p ps : (cond st p).1 = false -> stop p = false ->
    WaitForCacheSync stop cond st (p :: ps) = WaitForCacheSync stop cond (cond st p).2 ps
}.

(** Components that end without an error are all run, unless one never ends. *)
Lemma start_all {RT : Runtime} {RL : RuntimeLaws RT} (returns : string -> bool) names :
  instance_Start (fun name => if returns name then Returned else Blocks) names =
  if forallb returns names then Some (names, true) else None.
Proof.
  induction names as [|name names IH]; [apply start_none|]. cbn [forallb].
  destruct (returns name) eqn:E; cbn [andb].
  - rewrite start_returned by (by rewrite E). rewrite IH. by destruct (forallb returns names).
  - apply start_blocks. by rewrite E.
Qed.

(** The first poll at which the condition holds, no earlier one stopping. *)
Definition first_where {P} (stop f : P -> bool) (pre : list P) (p : P) : Prop :=
  f p = true /\ Forall (fun q => f q = false /\ stop q = false) pre.

(** The wait for a condition that, over the states of an invariant, is decided
    by the poll. *)
Lemma wait_decided {RT : Runtime} {RL : RuntimeLaws RT} {P St} (stop f : P -> bool) (cond : St -> P -> bool * St) (I : St -> Prop) st ps :
  I st -> (forall st p, I st -> (cond st p).1 = f p /\ I (cond st p).2) ->
  match WaitForCacheSync stop cond st ps with
  | None => Forall (fun q => f q = false /\ stop q = false) ps
  | Some (true, rest, _) => exists pre p post, ps = pre ++ p :: post /\ rest = p :: post /\ first_where stop f pre p
  | Some (false, _, _) =>
      exists pre p post, ps = pre ++ p :: post /\ stop p = true /\ f p = false /\
        Forall (fun q => f q = false /\ stop q = false) pre
  end.
Proof.
  intros Hst Hc. revert st Hst. induction ps as [|p ps IH]; intros st Hst.
  { rewrite wait_none. constructor. }
  destruct (Hc st p Hst) as [Hf Hst']. destruct (f p) eqn:Hp.
  { rewrite wait_holds by done. by exists [], p, ps. }
  destruct (stop p) eqn:Hs.
  { rewrite wait_stopped by done. by exists [], p, ps. }
  rewrite wait_again by done. specialize (IH _ Hst').
  destruct (WaitForCacheSync _ _ _ ps) as [[[[] rest] st']|]; [| |by constructor].
  - destruct IH as (pre & q & post & -> & -> & Hq & Hall). exists (p :: pre), q, post. by repeat constructor.
  - destruct IH as (pre & q & post & -> & ? & ? & Hall). exists (p :: pre), q, post. by repeat constructor.
Qed.

(** pkg/core/ingress/kube/common/model.go. *)
Record Options := {
  Enable : bool;
  ClusterId : string;
  IngressClass : string;
  WatchNamespace : string;
  EnableStatus : bool;
  SystemNamespace : string;
  GatewaySelectorKey : string;
  GatewaySelectorValue : string
}.

(** ** pkg/core/ingress/kube/gateway/controller.go *)

Module Gateway.
Section Gateway.
Context {IS : Istio}.

(** The store's schemas and the handlers it has, whether the two loops run, the
    status manager, and of Istio's controller whether its informers have synced
    and how often it was reconciled. *)
Record gatewayController := {
  store_schemas : list schema;
  store_handlers : list schema;
  store_running : bool;
  istio_running : bool;
  istio_synced : bool;
  istio_reconciled : nat;
  statusManager : option bool
}.

(** The schemas of the store: those of the group of GatewayClass, and the
    InferencePool when its feature is on. *)
Fixpoint add_group (l : list schema) (b : list schema) : outcome Empty_set (list schema) :=
  match l with
  | [] => Ret b
  | s :: l =>
      let* b := (if bool_decide (schema_group s = schema_group GatewayClass) then MustAdd s b else Ret b) in
      add_group l b
  end.

Definition controller_schemas : outcome Empty_set (list schema) :=
  let* b := add_group PilotGatewayAPI [] in
  if EnableGatewayAPIInferenceExtension then MustAdd InferencePool b else Ret b.

Definition NewController (options : Options) : outcome Empty_set gatewayController :=
  let* schemas := controller_schemas in
  Ret {| store_schemas := schemas; store_handlers := []; store_running := false; istio_running := false;
         istio_synced := false; istio_reconciled := 0;
         statusManager := if EnableStatus options then Some false else None |}.

Definition Run (g : gatewayController) : gatewayController :=
  {| store_schemas := store_schemas g; store_handlers := store_handlers g ++ store_schemas g;
     store_running := true; istio_running := true;
     istio_synced := istio_synced g; istio_reconciled := istio_reconciled g;
     statusManager := match statusManager g with Some _ => Some true | None => None end |}.

(** The body is empty: the handler is not kept. *)
Definition RegisterEventHandler (kind : schema) (g : gatewayController) : gatewayController := g.

(** A synchronised controller is reconciled every time it is asked. *)
Definition HasSynced (g : gatewayController) : bool * gatewayController :=
  let ret := istio_synced g in
  (ret,
   if ret then
     {| store_schemas := store_schemas g; store_handlers := store_handlers g;
        store_running := store_running g; istio_running := istio_running g;
        istio_synced := istio_synced g; istio_reconciled := S (istio_reconciled g);
        statusManager := statusManager g |}
   else g).

(** [Schemas], [Get], [List], [Create], [Update], [UpdateStatus], [Delete] and
    [KrtCollection]. *)
Definition unimplemented {A} (g : gatewayController) : outcome Empty_set A := Panic ExplicitPanic.

(** The informers of Istio's controller report their state. *)
Definition set_synced (b : bool) (g : gatewayController) : gatewayController :=
  {| store_schemas := store_schemas g; store_handlers := store_handlers g;
     store_running := store_running g; istio_running := istio_running g;
     istio_synced := b; istio_reconciled := istio_reconciled g; statusManager := statusManager g |}.

End Gateway.
End Gateway.

(** ** pkg/core/ingress/config and pkg/core/ingress/translation *)

Module Ingress.

(** The controllers by cluster. *)
Notation IngressConfig := (gmap string Gateway.gatewayController).

Section Ingress.
Context {IS : Istio} {MI : MapIter}.

Definition NewIngressConfig (options : Options) : IngressConfig := ∅.

Definition AddLocalCluster (options : Options) (m : IngressConfig) : outcome Empty_set IngressConfig :=
  let* g := Gateway.NewController options in
  Ret (<[ClusterId options := g]> m).

Definition Run (m : IngressConfig) : IngressConfig := Gateway.Run <$> m.

Definition RegisterEventHandler (kind : schema) (m : IngressConfig) : IngressConfig :=
  Gateway.RegisterEventHandler kind <$> m.

(** The range stops at the first controller that has not synced. *)
Fixpoint sync_range (l : list (string * Gateway.gatewayController)) (m : IngressConfig) : bool * IngressConfig :=
  match l with
  | [] => (true, m)
  | (id, g) :: rest =>
      let '(ok, g') := Gateway.HasSynced g in
      let m := <[id := g']> m in
      if ok then sync_range rest m else (false, m)
  end.

Definition HasSynced (turn : nat) (m : IngressConfig) : bool * IngressConfig :=
  sync_range (map_range ("HasSynced" :: replicate turn "again")%string m) m.

(** The translation wraps the configuration.  Its constructor renames the
    cluster Kubernetes in its own copy of the options only. *)
Record IngressTranslation := { ingressConfig : IngressConfig }.

Definition local_options (options : Options) : Options :=
  {| Enable := Enable options;
     ClusterId := if bool_decide (ClusterId options = "Kubernetes"%string) then "" else ClusterId options;
     IngressClass := IngressClass options; WatchNamespace := WatchNamespace options;
     EnableStatus := EnableStatus options; SystemNamespace := SystemNamespace options;
     GatewaySelectorKey := GatewaySelectorKey options; GatewaySelectorValue := GatewaySelectorValue options |}.

Definition NewIngressTranslation (options : Options) : IngressTranslation :=
  {| ingressConfig := NewIngressConfig (local_options options) |}.

Definition translation_AddLocalCluster (options : Options) (t : IngressTranslation) :
    outcome Empty_set IngressTranslation :=
  let* m := AddLocalCluster options (ingressConfig t) in Ret {| ingressConfig := m |}.

Definition translation_Run (t : IngressTranslation) : IngressTranslation := {| ingressConfig := Run (ingressConfig t) |}.

Definition translation_RegisterEventHandler (kind : schema) (t : IngressTranslation) : IngressTranslation :=
  {| ingressConfig := RegisterEventHandler kind (ingressConfig t) |}.

Definition translation_HasSynced (turn : nat) (t : IngressTranslation) : bool * IngressTranslation :=
  let '(ok, m) := HasSynced turn (ingressConfig t) in (ok, {| ingressConfig := m |}).

Definition translation_Schemas (t : IngressTranslation) : list schema := IngressIR.

(** [Get], [List], [Create], [Update], [UpdateStatus] and [Delete]. *)
Definition translation_unimplemented {A} (t : IngressTranslation) : outcome Empty_set A := Panic ExplicitPanic.

End Ingress.
End Ingress.

(** ** pkg/core/bootstrap/server.go *)

Module Server.
Import Ingress.
Section Server.
Context {IS : Istio} {MI : MapIter} {RT : Runtime}.

(** What the construction of clients and of the aggregate store answers. *)
Record environment := { rest_config_ok : bool; kube_client_ok : bool; make_cache_ok : bool }.

Inductive server_error :=
| KubeConfigFailed
| KubeClientFailed
| CacheFailed
| ComponentFailed
| SyncFailed
| ListenFailed.

(** The server: its client, the components registered with [server.Instance] in
    order, its stores and the aggregate of them, and the gRPC server. *)
Record Server := {
  kubeClient : bool;
  components : list string;
  configStores : list IngressTranslation;
  configController : option (list IngressTranslation);
  grpcServer : bool
}.

Definition empty_server : Server :=
  {| kubeClient := false; components := []; configStores := []; configController := None; grpcServer := false |}.

Definition RunComponent (name : string) (s : Server) : Server :=
  {| kubeClient := kubeClient s; components := components s ++ [name]; configStores := configStores s;
     configController := configController s; grpcServer := grpcServer s |}.

Definition initKubeClient (e : environment) (s : Server) : outcome server_error Server :=
  if kubeClient s then Ret s
  else if negb (rest_config_ok e) then Err KubeConfigFailed
  else if negb (kube_client_ok e) then Err KubeClientFailed
  else Ret {| kubeClient := true; components := components s; configStores := configStores s;
              configController := configController s; grpcServer := grpcServer s |}.

Definition initXdsServer (s : Server) : outcome server_error Server :=
  let s := RunComponent "xds-server" s in
  Ret {| kubeClient := kubeClient s; components := components s; configStores := configStores s;
         configController := configController s; grpcServer := true |}.

(** The options of the local cluster: the fields commented out keep their zero
    values. *)
Definition local_cluster (clusterID podNamespace : string) : Options :=
  {| Enable := true; ClusterId := clusterID; IngressClass := ""; WatchNamespace := ""; EnableStatus := false;
     SystemNamespace := podNamespace; GatewaySelectorKey := ""; GatewaySelectorValue := "" |}.

Definition lift {A} (m : outcome Empty_set A) : outcome server_error A :=
  match m with Ret a => Ret a | Err e => match e with end | Panic p => Panic p end.

Definition initConfigController (e : environment) (clusterID podNamespace : string) (s : Server) :
    outcome server_error Server :=
  let options := local_cluster clusterID podNamespace in
  let* ingressConfig := lift (translation_AddLocalCluster options (NewIngressTranslation options)) in
  let stores := configStores s ++ [ingressConfig] in
  if negb (make_cache_ok e) then Err CacheFailed
  else
    Ret (RunComponent "config-controller"
      {| kubeClient := kubeClient s; components := components s; configStores := stores;
         configController := Some stores; grpcServer := grpcServer s |}).

Definition NewServer (e : environment) (clusterID podNamespace : string) : outcome server_error Server :=
  let* s := initKubeClient e empty_server in
  let* s := initXdsServer s in
  let* s := initConfigController e clusterID podNamespace s in
  Ret (RunComponent "kube-client" s).

(** [initRegistryEventHandlers], which nothing calls: the push handler is
    registered for every schema of the ingress. *)
Definition initRegistryEventHandlers (s : Server) : Server :=
  {| kubeClient := kubeClient s; components := components s; configStores := configStores s;
     configController :=
       option_map (fun stores : list IngressTranslation =>
           foldl (fun stores kind => map (translation_RegisterEventHandler kind) stores) stores IngressIR)
         (configController s);
     grpcServer := grpcServer s |}.

(** *** Starting *)

(** What a poll of the start-up sees: whether to stop, which clusters' informers
    have synced, and the two counters of the xDS server. *)
Record poll := {
  p_stop : bool;
  p_synced : string -> bool;
  p_inbound : Z;
  p_committed : Z
}.

Inductive action := Started (component : string) | CachesSynced | Listening | Serving.

(** The informers' state as a poll finds it. *)
Definition observe (p : poll) (t : IngressTranslation) : IngressTranslation :=
  {| ingressConfig := map_imap (fun id g => Some (Gateway.set_synced (p_synced p id) g)) (ingressConfig t) |}.

(** Every store has synced; the check stops at the first that has not. *)
Fixpoint aggregate_HasSynced (turn : nat) (stores : list IngressTranslation) : bool * list IngressTranslation :=
  match stores with
  | [] => (true, [])
  | t :: rest =>
      let '(ok, t) := translation_HasSynced turn t in
      if ok then let '(ok, rest) := aggregate_HasSynced turn rest in (ok, t :: rest) else (false, t :: rest)
  end.

(** [cachesSynced] at a poll. *)
Definition cachesSynced (turn : nat) (p : poll) (stores : list IngressTranslation) : bool * list IngressTranslation :=
  aggregate_HasSynced turn (observe p <$> stores).

Definition pushContextReady (expected : Z) (p : poll) : bool := negb (p_committed p <? expected).

(** Both waits give up on the stop.  The updates expected are read at the poll
    that found the caches synced; [None] is still waiting. *)
Definition waitForCacheSync (polls : list poll) (stores : list IngressTranslation) : option bool :=
  match WaitForCacheSync p_stop (fun '(turn, stores) p =>
            let '(ok, stores) := cachesSynced turn p stores in (ok, (S turn, stores)))
          (0%nat, stores) polls with
  | None => None
  | Some (false, _, _) => Some false
  | Some (true, [], _) => None
  | Some (true, (p :: _) as rest, _) =>
      let expected := p_inbound p in
      match WaitForCacheSync p_stop (fun _ p => (pushContextReady expected p, tt)) tt rest with
      | None => None
      | Some (ok, _, _) => Some ok
      end
  end.

(** The functions of the three components end with nil once the library's call
    in them has returned: xdsServer.Start, the go statement of the config
    controller, and RunAndWait, which waits for the client's informers. *)
Definition component_run (returns : string -> bool) (name : string) : component_result :=
  if returns name then Returned else Blocks.

(** The config controller runs its stores. *)
Definition component_effect (name : string) (stores : list IngressTranslation) : list IngressTranslation :=
  if bool_decide (name = "config-controller"%string) then translation_Run <$> stores else stores.

(** What [Start] does and returns; [None] while it waits. *)
Definition Start (returns : string -> bool) (listen_ok : bool) (polls : list poll) (s : Server) :
    option (list action * option server_error) :=
  match instance_Start (component_run returns) (components s) with
  | None => None
  | Some (started, ok) =>
      let acts := Started <$> started in
      if negb ok then Some (acts, Some ComponentFailed)
      else
        let stores := foldl (flip component_effect) (default [] (configController s)) started in
        match waitForCacheSync polls stores with
        | None => None
        | Some false => Some (acts, Some SyncFailed)
        | Some true =>
            if listen_ok then Some (acts ++ [CachesSynced; Listening; Serving], None)
            else Some (acts ++ [CachesSynced], Some ListenFailed)
        end
  end.

End Server.
End Server.

(** ** Synchronisation *)

Section Sync.
Context {IS : Istio} {MI : MapIter} {RT : Runtime}.

Import Ingress Server.

Lemma sync_range_cons id g l (m : IngressConfig) :
  sync_range ((id, g) :: l) m =
  if Gateway.istio_synced g then sync_range l (<[id := (Gateway.HasSynced g).2]> m)
  else (false, <[id := g]> m).
Proof. cbn [sync_range]. unfold Gateway.HasSynced. by destruct (Gateway.istio_synced g). Qed.

Lemma sync_range_spec l (m : IngressConfig) :
  NoDup l.*1 -> (forall id g, (id, g) ∈ l -> m !! id = Some g) ->
  let '(ok, m') := sync_range l m in
  ok = forallb (fun ig => Gateway.istio_synced ig.2) l /\
  (forall id, id ∉ l.*1 -> m' !! id = m !! id) /\
  (ok = true -> forall id g, (id, g) ∈ l ->
     m' !! id = Some (Gateway.HasSynced g).2).
Proof.
  revert m. induction l as [|[id g] l IH]; intros m Hn Hl.
  { cbn. split_and!; [done|done|]. intros _ id g Hg. by apply elem_of_nil in Hg. }
  apply NoDup_cons in Hn as [Hid Hn]. rewrite sync_range_cons. cbn [forallb snd].
  destruct (Gateway.istio_synced g) eqn:Hg.
  - specialize (IH (<[id := (Gateway.HasSynced g).2]> m) Hn).
    destruct (sync_range l _) as [ok m']. destruct IH as (Hok & Hout & Hin).
    { intros id' g' Hg'. rewrite lookup_insert_ne; [by apply Hl; right|].
      intros <-. apply Hid. apply list_elem_of_fmap. by exists (id, g'). }
    split_and!.
    + done.
    + intros id' Hid'. apply not_elem_of_cons in Hid' as [Hne Hid']. cbn [fst] in Hne.
      rewrite Hout by done. by rewrite lookup_insert_ne.
    + intros Ht id' g' Hg'. apply elem_of_cons in Hg' as [[= -> ->]|Hg']; [|by apply Hin].
      rewrite Hout by done. by rewrite lookup_insert_eq.
  - split_and!; [done| |done].
    intros id' Hid'. apply not_elem_of_cons in Hid' as [Hne _]. cbn [fst] in Hne.
    by rewrite lookup_insert_ne.
Qed.

(** The configuration has synced exactly when every cluster's controller has,
    whatever the order of the map, and then each was reconciled once more. *)
Lemma HasSynced_all turn (m : IngressConfig) :
  let '(ok, m') := HasSynced turn m in
  ok = bool_decide (map_Forall (fun _ g => Gateway.istio_synced g = true) m) /\
  (ok = true -> m' = (fun g => (Gateway.HasSynced g).2) <$> m).
Proof.
  unfold HasSynced. set (l := map_range _ m).
  assert (l ≡ₚ map_to_list m) as Hp by apply map_range_perm.
  pose proof (sync_range_spec l m) as H.
  destruct (sync_range l m) as [ok m'].
  destruct H as (Hok & Hout & Hin).
  { rewrite Hp. apply NoDup_fst_map_to_list. }
  { intros id g Hg. apply elem_of_map_to_list. by rewrite <- Hp. }
  split.
  - rewrite Hok. apply eq_bool_prop_intro. rewrite bool_decide_spec, forallb_True, Forall_forall.
    rewrite map_Forall_lookup. split.
    + intros H id g Hg. apply elem_of_map_to_list in Hg. rewrite <- Hp in Hg.
      specialize (H (id, g) Hg). cbn in H. by apply Is_true_true.
    + intros H [id g] Hg. rewrite Hp in Hg. apply elem_of_map_to_list in Hg. cbn.
      apply Is_true_true. by eapply H.
  - intros Ht. apply map_eq. intros id. rewrite lookup_fmap.
    destruct (m !! id) as [g|] eqn:Hg; cbn.
    + apply Hin; [done|]. rewrite Hp. by apply elem_of_map_to_list.
    + rewrite Hout; [done|]. rewrite Hp. intros Hid.
      apply list_elem_of_fmap in Hid as ([id' g] & -> & Hg'). apply elem_of_map_to_list in Hg'.
      cbn in Hg. congruence.
Qed.

(** ** The start of the server *)

(** The one store of the server, with the controller of its cluster. *)
Definition single (cluster : string) (stores : list IngressTranslation) : Prop :=
  exists g, stores = [{| ingressConfig := {[cluster := g]} |}].

Lemma cachesSynced_single cluster turn p stores :
  single cluster stores ->
  exists stores', cachesSynced turn p stores = (p_synced p cluster, stores') /\ single cluster stores'.
Proof.
  intros [g ->].
  assert (map_imap (fun id g => Some (Gateway.set_synced (p_synced p id) g)) ({[cluster := g]} : gmap string _) =
          {[cluster := Gateway.set_synced (p_synced p cluster) g]}) as Hs.
  { apply map_eq. intros id. rewrite map_lookup_imap.
    destruct (decide (cluster = id)) as [->|Hne]; [by rewrite !lookup_singleton_eq|by rewrite !lookup_singleton_ne]. }
  unfold cachesSynced. cbn [fmap list_fmap aggregate_HasSynced]. unfold observe, translation_HasSynced.
  cbn [ingressConfig]. rewrite Hs. set (g' := Gateway.set_synced _ g).
  assert (map_range ("HasSynced" :: replicate turn "again")%string ({[cluster := g']} : gmap string _) = [(cluster, g')]) as Hr.
  { apply Permutation_singleton_r. rewrite map_range_perm. by rewrite map_to_list_singleton. }
  unfold HasSynced. rewrite Hr, sync_range_cons. cbn [Gateway.istio_synced g' Gateway.set_synced].
  destruct (p_synced p cluster); cbn [sync_range]; eexists; (split; [reflexivity|]); eexists;
    by rewrite insert_singleton_eq.
Qed.

Notation first_at := (first_where p_stop).

(** The server that [NewServer] returns. *)
Lemma NewServer_shape e cluster ns s :
  NewServer e cluster ns = Ret s ->
  components s = ["xds-server"; "config-controller"; "kube-client"]%string /\
  exists stores, configController s = Some stores /\ single cluster stores.
Proof.
  unfold NewServer, initKubeClient, initXdsServer, initConfigController. cbn [kubeClient empty_server].
  destruct (rest_config_ok e), (kube_client_ok e); cbn [negb obind]; try done.
  unfold translation_AddLocalCluster, AddLocalCluster, NewIngressTranslation, NewIngressConfig.
  cbn [ingressConfig]. destruct (Gateway.NewController _) as [g|[]|p]; cbn [obind lift]; [|done].
  destruct (make_cache_ok e); cbn [negb obind]; [|done].
  intros [= <-]. split; [done|]. eexists. split; [reflexivity|]. exists g. by rewrite insert_empty.
Qed.

(** Running the components keeps the one store of the server. *)
Lemma single_started cluster names stores :
  single cluster stores -> single cluster (foldl (flip component_effect) stores names).
Proof.
  revert stores. induction names as [|name names IH]; intros stores Hs; [done|]. apply IH.
  destruct Hs as [g ->]. cbn. unfold component_effect. case_bool_decide; [|by exists g].
  exists (Gateway.Run g). cbn. unfold translation_Run, Run. cbn [ingressConfig]. by rewrite map_fmap_singleton.
Qed.

(** The two waits of the start: for the caches, then for the updates that were
    inbound when they had synced. *)
Lemma waitForCacheSync_spec `{!RuntimeLaws RT} cluster polls stores :
  single cluster stores ->
  match waitForCacheSync polls stores with
  | None =>
      Forall (fun q => p_synced q cluster = false /\ p_stop q = false) polls \/
      exists pre p post, polls = pre ++ p :: post /\ first_at (fun q => p_synced q cluster) pre p /\
        Forall (fun q => pushContextReady (p_inbound p) q = false /\ p_stop q = false) (p :: post)
  | Some false => exists q, q ∈ polls /\ p_stop q = true
  | Some true =>
      exists pre p post mid q post',
        polls = pre ++ p :: post /\ first_at (fun q => p_synced q cluster) pre p /\
        p :: post = mid ++ q :: post' /\ first_at (pushContextReady (p_inbound p)) mid q
  end.
Proof.
  intros Hs. unfold waitForCacheSync.
  pose proof (wait_decided p_stop (fun q => p_synced q cluster)
    (fun '(turn, stores) p => let '(ok, stores) := cachesSynced turn p stores in (ok, (S turn, stores)))
    (fun st => single cluster st.2) (0%nat, stores) polls Hs) as Hw.
  lapply Hw; clear Hw; [intros Hw|].
  2: { intros [turn st] p Hst. destruct (cachesSynced_single cluster turn p st Hst) as (st' & -> & Hst'). done. }
  destruct (WaitForCacheSync _ _ _ polls) as [[[[] rest] st]|]; [| |by left].
  - destruct Hw as (pre & p & post & -> & -> & Hp). cbv zeta.
    pose proof (wait_decided p_stop (pushContextReady (p_inbound p))
      (fun _ q => (pushContextReady (p_inbound p) q, tt)) (fun _ => True) tt (p :: post) I) as Hq.
    lapply Hq; clear Hq; [intros Hq|done].
    destruct (WaitForCacheSync _ _ tt _) as [[[[] rest'] []]|].
    + destruct Hq as (mid & q & post' & Heq & _ & Hq). by exists pre, p, post, mid, q, post'.
    + destruct Hq as (mid & q & post' & Heq & Hstop & _). exists q. split; [|done]. rewrite Heq. set_solver.
    + right. by exists pre, p, post.
  - destruct Hw as (pre & p & post & -> & Hstop & _). exists p. split; [set_solver|done].
Qed.

End Sync.

(** C14: Starting a server that [NewServer] built: the discovery server is told that
    the caches have synced and its listener serves only after the components
    have run to their end in order, a poll has found the informers of the
    cluster synced, and the xDS server has committed every update that was
    inbound at that poll; then it does serve, unless the address cannot be
    listened on.  Any error serves nothing; no component fails the start, but
    one whose library call does not return (RunAndWait of the client) keeps it
    waiting; and the start gives up on synchronising only when it is stopped. *)
Theorem server_serves_synced {IS : Istio} {MI : MapIter} {RT : Runtime} {RL : RuntimeLaws RT}
    (e : Server.environment) (cluster ns : string)
    (s : Server.Server) (returns : string -> bool) (listen_ok : bool) (polls : list Server.poll)
    (Hs : Server.NewServer e cluster ns = Ret s) :
  let names := ["xds-server"; "config-controller"; "kube-client"]%string in
  match Server.Start returns listen_ok polls s with
  | None =>
      forallb returns names = false \/
      Forall (fun q => Server.p_synced q cluster = false /\ Server.p_stop q = false) polls \/
      exists pre p post, polls = pre ++ p :: post /\
        first_where Server.p_stop (fun q => Server.p_synced q cluster) pre p /\
        Forall (fun q => Server.pushContextReady (Server.p_inbound p) q = false /\ Server.p_stop q = false) (p :: post)
  | Some (acts, None) =>
      acts = map Server.Started names ++ [Server.CachesSynced; Server.Listening; Server.Serving] /\
      listen_ok = true /\ forallb returns names = true /\
      exists pre p post mid q post',
        polls = pre ++ p :: post /\ first_where Server.p_stop (fun q => Server.p_synced q cluster) pre p /\
        p :: post = mid ++ q :: post' /\
        first_where Server.p_stop (Server.pushContextReady (Server.p_inbound p)) mid q /\
        Server.p_inbound p <= Server.p_committed q
  | Some (acts, Some err) =>
      ~ Server.Serving ∈ acts /\ forallb returns names = true /\
      match err with
      | Server.SyncFailed => exists q, q ∈ polls /\ Server.p_stop q = true
      | Server.ListenFailed => listen_ok = false /\ Server.CachesSynced ∈ acts
      | _ => False
      end
  end.
Proof.
  cbv zeta. destruct (NewServer_shape e cluster ns s Hs) as (Hc & stores & Hstores & Hsingle).
  unfold Server.Start, Server.component_run. rewrite Hc, Hstores, start_all. cbn [default id].
  destruct (forallb returns _) eqn:Hret; [|by left]. cbn [negb].
  pose proof (waitForCacheSync_spec cluster polls _ (single_started cluster
    ["xds-server"; "config-controller"; "kube-client"]%string stores Hsingle)) as Hw.
  destruct (Server.waitForCacheSync _ _) as [[]|]; [| |by right].
  - destruct Hw as (pre & p & post & mid & q & post' & -> & Hp & Heq & Hq).
    destruct listen_ok; [|split_and!; [set_solver|done|done|set_solver]].
    split_and!; [done..|]. exists pre, p, post, mid, q, post'. split_and!; [done..|].
    destruct Hq as [Hq _]. unfold Server.pushContextReady in Hq. by apply negb_true_iff, Z.ltb_ge in Hq.
  - split_and!; [set_solver|done|done].
Qed.

Module Example.

Definition istio : Istio :=
  {| schema := string; schema_group s := "gateway.networking.k8s.io"%string;
     PilotGatewayAPI := ["GatewayClass"; "Gateway"]%string; GatewayClass := "GatewayClass"%string;
     InferencePool := "InferencePool"%string; MustAdd s b := Ret (b ++ [s]);
     IngressIR := ["Gateway"; "VirtualService"]%string; EnableGatewayAPIInferenceExtension := true |}.

Definition up : Server.environment :=
  {| Server.rest_config_ok := true; Server.kube_client_ok := true; Server.make_cache_ok := true |}.

(** A runner of components and a wait that do what is documented. *)
Fixpoint run_all (run : string -> component_result) (names : list string) : option (list string * bool) :=
  match names with
  | [] => Some ([], true)
  | name :: names =>
      match run name with
      | Returned => prod_map (cons name) id <$> run_all run names
      | Failed => Some ([], false)
      | Blocks => None
      end
  end.

Fixpoint poll_until {P St} (stop : P -> bool) (cond : St -> P -> bool * St) (st : St) (ps : list P) :
    option (bool * list P * St) :=
  match ps with
  | [] => None
  | p :: rest =>
      let '(ok, st) := cond st p in
      if ok then Some (true, ps, st) else if stop p then Some (false, rest, st) else poll_until stop cond st rest
  end.

#[export] Instance runtime : Runtime := {| instance_Start := run_all; WaitForCacheSync := @poll_until |}.

#[export] Instance runtime_laws : RuntimeLaws runtime.
Proof.
  split; cbn.
  - done.
  - by intros run name names ->.
  - by intros run name names ->.
  - by intros run name names ->.
  - done.
  - intros P St stop cond st p ps. by destruct (cond st p) as [[] ?].
  - intros P St stop cond st p ps. destruct (cond st p) as [[] ?]; [done|]. by intros _ ->.
  - intros P St stop cond st p ps. destruct (cond st p) as [[] ?]; [done|]. by intros _ ->.
Qed.

(** The informers sync at the second poll, with five updates inbound, which are
    committed at the third. *)
Definition polls : list Server.poll :=
  [{| Server.p_stop := false; Server.p_synced _ := false; Server.p_inbound := 2; Server.p_committed := 2 |};
   {| Server.p_stop := false; Server.p_synced _ := true; Server.p_inbound := 5; Server.p_committed := 3 |};
   {| Server.p_stop := false; Server.p_synced _ := true; Server.p_inbound := 7; Server.p_committed := 5 |}].

(** The server that [NewServer] builds for them. *)
Definition server : Server.Server (IS := istio) :=
  match Server.NewServer (IS := istio) up "Kubernetes" "ns" with
  | Ret s => s
  | _ => Server.empty_server (IS := istio)
  end.

End Example.

Lemma server_serves_synced_witness :
  exists acts,
    Server.Start (IS := Example.istio) (RT := Example.runtime) (fun _ => true) true Example.polls Example.server = Some (acts, None) /\
    Server.Serving ∈ acts.
Proof.
  assert (Server.NewServer (IS := Example.istio) Example.up "Kubernetes" "ns" = Ret Example.server) as Hs
    by (vm_compute; reflexivity).
  pose proof (server_serves_synced (IS := Example.istio) (RT := Example.runtime) (RL := Example.runtime_laws)
    Example.up "Kubernetes" "ns" Example.server (fun _ => true) true Example.polls Hs) as H. cbv zeta in H.
  destruct (Server.Start (RT := Example.runtime) (fun _ => true) true Example.polls Example.server)
    as [[acts [err|]]|] eqn:E; [vm_compute in E; discriminate E| |vm_compute in E; discriminate E].
  exists acts. split; [done|]. destruct H as (-> & _).
  apply elem_of_app. right. right. right. left.
Defined.

(** ** What is lost on the way *)

(** A handler registered for configuration updates changes nothing, and the
    store of the server has no implementation of its reads and writes. *)
Lemma handlers_are_dropped {IS : Istio} kind (t : Ingress.IngressTranslation) :
  Ingress.translation_RegisterEventHandler kind t = t /\
  Ingress.translation_unimplemented (A := unit) t = Panic ExplicitPanic.
Proof.
  split; [|done]. destruct t as [m]. unfold Ingress.translation_RegisterEventHandler, Ingress.RegisterEventHandler.
  cbn [Ingress.ingressConfig]. f_equal.
  apply map_eq. intros i. rewrite lookup_fmap. by destruct (m !! i).
Qed.

(** The local cluster is kept under its own name, Kubernetes included. *)
Lemma cluster_not_renamed {IS : Istio} e cluster ns s :
  Server.NewServer e cluster ns = Ret s -> cluster = "Kubernetes"%string ->
  exists g, Server.configController s =
    Some [{| Ingress.ingressConfig := {["Kubernetes"%string := g]} |}].
Proof.
  intros H ->. destruct (NewServer_shape e "Kubernetes" ns s H) as (_ & stores & -> & [g ->]). by exists g.
Qed.
