(* ===== verification/Commands.v ===== *)
(** * Commands: the processes of the gateway and their addresses

    The small mains under src/cmd: the extension server with its health service,
    the router, the LLM router, the Envoy gateway's version and xDS port, and the
    core server with its flags, whose start is CoreServer's.  A flag is [None]
    when the command line does not set it; [bind] is the operating system's
    answer to a host and a port. *)

From S2P Require Import Prelude GoStd CoreServer.

Local Open Scope string_scope.

Section Listening.
Context (bind : string -> string -> bool).

(** [net.Listen("tcp", address)]: the empty address is any port. *)
Definition Listen (address : string) : bool :=
  if bool_decide (address = "") then bind "" ""
  else match SplitHostPort address with inl _ => false | inr (host, port) => bind host port end.

(** A process exits with a code or serves an address until its signal. *)
Inductive process_end := Exit (code : Z) | Serves (address : string) | Idle.

(** cmd/envoy-inferencepool-extension-server/main.go; it serves in a goroutine
    and stops gracefully on the signal. *)
Definition extension_server_main (port : option string) : process_end :=
  let extensionServerPort := default "50052" port in
  if Listen extensionServerPort then Serves extensionServerPort else Exit 1.

(** cmd/envoy-router/main.go; [klog.Fatalf] exits with 255. *)
Definition router_main (grpc_bind_address : option string) : process_end :=
  let grpcAddr := default ":50052" grpc_bind_address in
  if Listen grpcAddr then Serves grpcAddr else Exit 255.

(** pkg/llmrouter/server/server.go under cmd/go-router: a failure to listen is
    logged, and the process waits for its signal. *)
Definition llm_server_Run : process_end := if Listen ":8000" then Serves ":8000" else Idle.

(** [startXdsServer] of pkg/envoygateway/xds/server/xds_server.go. *)
Definition startXdsServer : process_end := if Listen "0.0.0.0:18000" then Serves "0.0.0.0:18000" else Idle.

(** ** The extension server never serves its default port

    It is given a port where an address is needed. *)
Theorem extension_server_needs_colon (port : option string) :
  has_char ":" (default "50052" port) = false -> default "50052" port <> "" ->
  extension_server_main port = Exit 1.
Proof.
  intros Hc Hne. unfold extension_server_main, Listen. rewrite bool_decide_eq_false_2 by done.
  by rewrite SplitHostPort_no_colon.
Qed.

Lemma default_port_fails : extension_server_main None = Exit 1.
Proof. reflexivity. Qed.

(** An address that joins a host and a port is served when it can be bound. *)
Lemma joined_address_serves host port :
  has_char "[" host = false -> has_char "]" host = false ->
  has_char ":" port = false -> has_char "[" port = false -> has_char "]" port = false ->
  Listen (JoinHostPort host port) = bind host port.
Proof.
  intros. unfold Listen. rewrite SplitHostPort_Join by done. rewrite bool_decide_eq_false_2; [done|].
  unfold JoinHostPort. destruct (has_char ":" host); [done|]. by destruct host.
Qed.

(** The other processes are given addresses and depend on the binding alone. *)
Lemma other_addresses :
  router_main None = (if bind "" "50052" then Serves ":50052" else Exit 255) /\
  llm_server_Run = (if bind "" "8000" then Serves ":8000" else Idle) /\
  startXdsServer = (if bind "0.0.0.0" "18000" then Serves "0.0.0.0:18000" else Idle).
Proof. done. Qed.

End Listening.

(** ** pkg/extensionserver/server.go: the health service *)

Inductive health_status := UNKNOWN | SERVING | NOT_SERVING.

Definition serverName : string := "envoy-gateway-extension-server".

(** Any service is said to serve, one that is not there included. *)
Definition Check (service : string) : health_status := SERVING.

Inductive grpc_code := Unimplemented.
Definition Watch (service : string) : grpc_code := Unimplemented.

Definition List : gmap string health_status := {[serverName := SERVING]}.

Lemma health_agrees service status : List !! service = Some status -> Check service = status.
Proof. unfold List. by intros [_ <-]%lookup_singleton_Some. Qed.

(** ** pkg/envoygateway/version *)

Record Info := {
  EnvoyGatewayVersion : string; GatewayAPIVersion : string; EnvoyProxyVersion : string;
  GitCommitID : string; GolangVersion : string
}.

(** [runtime] is the version of the Go run time. *)
Definition Get (runtime : string) : Info :=
  {| EnvoyGatewayVersion := "1.0.0"; GatewayAPIVersion := "v1"; EnvoyProxyVersion := "v1alpha1";
     GitCommitID := "123abc"; GolangVersion := runtime |}.

Definition line (key value : string) : string := key +:+ ": " +:+ value +:+ String (ascii_of_nat 10) "".

(** What is written; nothing when marshalling fails. *)
Definition PrintVersion (MarshalIndent MarshalYaml : Info -> option string) (runtime format : string) : string :=
  let v := Get runtime in
  let marshalled m := match m v with Some text => text +:+ String (ascii_of_nat 10) "" | None => "" end in
  if bool_decide (format = "json") then marshalled MarshalIndent
  else if bool_decide (format = "yaml") then marshalled MarshalYaml
  else line "ENVOY_GATEWAY_VERSION" (EnvoyGatewayVersion v) +:+ line "ENVOY_PROXY_VERSION" (EnvoyProxyVersion v) +:+
       line "GATEWAYAPI_VERSION" (GatewayAPIVersion v) +:+ line "GIT_COMMIT_ID" (GitCommitID v) +:+
       line "GOLANG_VERSION" (GolangVersion v).

(** An unknown format is the plain one. *)
Lemma unknown_format mj my runtime format :
  format <> "json" -> format <> "yaml" -> PrintVersion mj my runtime format = PrintVersion mj my runtime "".
Proof. intros Hj Hy. unfold PrintVersion. by rewrite !bool_decide_eq_false_2 by done. Qed.

(** ** cmd/envoy-core/main.go *)

(** The arguments of the server that a flag sets. *)
Record ServerArgs := {
  args_GatewaySelectorKey : string; args_GatewaySelectorValue : string; GrpcAddress : string;
  ClusterRegistriesNamespace : string; KubeConfig : string; DomainSuffix : string; ClusterID : string;
  ClusterAliases : gmap string string; KubernetesAPIQPS : Z; KubernetesAPIBurst : Z
}.

Record CoreFlags := {
  f_gatewaySelectorKey : option string; f_gatewaySelectorValue : option string; f_grpcAddress : option string;
  f_clusterRegistriesNamespace : option string; f_kubeconfig : option string; f_domain : option string;
  f_clusterID : option string; f_clusterAliases : option (gmap string string);
  f_kubernetesApiQPS : option Z; f_kubernetesApiBurst : option Z
}.

(** [DefaultClusterLocalDomain] is Istio's. *)
Definition core_args (DefaultClusterLocalDomain : string) (f : CoreFlags) : ServerArgs :=
  {| args_GatewaySelectorKey := default "higress" (f_gatewaySelectorKey f);
     args_GatewaySelectorValue := default "higress-system-higress-gateway" (f_gatewaySelectorValue f);
     GrpcAddress := default ":15051" (f_grpcAddress f);
     ClusterRegistriesNamespace := default "" (f_clusterRegistriesNamespace f);
     KubeConfig := default "" (f_kubeconfig f);
     DomainSuffix := default DefaultClusterLocalDomain (f_domain f);
     ClusterID := default "Kubernetes" (f_clusterID f);
     ClusterAliases := default ∅ (f_clusterAliases f);
     KubernetesAPIQPS := default 80%Z (f_kubernetesApiQPS f);
     KubernetesAPIBurst := default 160%Z (f_kubernetesApiBurst f) |}.

Section Core.
Context {IS : Istio} {MI : MapIter} {RT : Runtime}.

(** How the command ends: with an error before it served, or at its signal. *)
Inductive core_end :=
| CreateFailed (e : Server.server_error)
| StartFailed (acts : list Server.action) (e : Server.server_error)
| Signalled (acts : list Server.action).

(** [RunE] of the serve command; [None] while the server waits for its caches.
    [podNamespace] is the variable of pkg/core/util. *)
Definition serve_RunE (bind : string -> string -> bool) (podNamespace : string) (e : Server.environment)
    (returns : string -> bool) (polls : list Server.poll) (args : ServerArgs) : outcome Empty_set (option core_end) :=
  match Server.NewServer e (ClusterID args) podNamespace with
  | Panic p => Panic p
  | Err err => Ret (Some (CreateFailed err))
  | Ret s =>
      match Server.Start returns (Listen bind (GrpcAddress args)) polls s with
      | None => Ret None
      | Some (acts, Some err) => Ret (Some (StartFailed acts err))
      | Some (acts, None) => Ret (Some (Signalled acts))
      end
  end.

(** With the default flags the server serves exactly when port 15051 can be
    bound: a start that has synchronised ends in serving or in a failed listen. *)
Lemma default_flags_serve bind domain ns e ok polls f acts :
  f_grpcAddress f = None ->
  serve_RunE bind ns e ok polls (core_args domain f) = Ret (Some (Signalled acts)) -> bind "" "15051" = true.
Proof.
  intros Hg. unfold serve_RunE, core_args. cbn [GrpcAddress ClusterID]. rewrite Hg. cbn [default].
  destruct (Server.NewServer _ _ _) as [s|?|?]; [|done..]. change (Listen bind ":15051") with (bind "" "15051").
  unfold Server.Start. destruct (instance_Start _ _) as [[? []]|]; [|done..]. cbn [negb].
  destruct (Server.waitForCacheSync _ _) as [[]|]; [|done..]. by destruct (bind "" "15051").
Qed.

(** The selector, the domain and the namespace of the registries are flags that
    nothing reads; the kubeconfig, the rates and the aliases go to the clients. *)
Lemma unread_flags bind domain ns e ok polls f f' :
  f_grpcAddress f = f_grpcAddress f' -> f_clusterID f = f_clusterID f' ->
  f_kubeconfig f = f_kubeconfig f' -> f_clusterAliases f = f_clusterAliases f' ->
  f_kubernetesApiQPS f = f_kubernetesApiQPS f' -> f_kubernetesApiBurst f = f_kubernetesApiBurst f' ->
  serve_RunE bind ns e ok polls (core_args domain f) = serve_RunE bind ns e ok polls (core_args domain f').
Proof. intros Hg Hc _ _ _ _. unfold serve_RunE, core_args. cbn [GrpcAddress ClusterID]. by rewrite Hg, Hc. Qed.

End Core.
