(* ===== verification/XdsStream.v ===== *)
(** * XdsStream: pkg/xds

    The ADS server: the event loop of a connection and its receiving goroutine
    (stream.go, connection.go) as a step relation over their channels, the
    admission of a stream (ads.go, xds_server.go) and the generator lookup of a
    push (xdsgen.go, xds.go).  The work of a request and of a push
    ([processRequest], [pushConnection]), which the sources leave undeclared or
    incomplete, is a parameter, as is the rate limiter. *)

From S2P Require Import Prelude GoStd.

(** ** The connection *)

Section Stream.
Context {Req Event Error : Type}.

(** [conn.s.processRequest] and [conn.s.pushConnection]: [None] is a nil error. *)
Context (processRequest : Req -> option Error) (pushConnection : Event -> option Error).

(** Where the goroutine of [Receive] is: in [Recv], offering a request on
    [reqChan], reporting an error on [errorChan], or returned, having dropped
    the request it was offering when the stream's context ended. *)
Inductive recv_pc :=
| Receiving
| Offering (r : Req)
| Reporting (e : Error)
| RecvDone (dropped : option Req).

(** Where [Stream] is: before [<-con.initialized], at the first or the second
    select, at [<-con.errorChan], or returned. *)
Inductive loop_pc :=
| WaitInit
| Polling
| Waiting
| AwaitError
| Finished (result : option Error).

(** A connection with the two goroutines that serve it.  The last four fields
    record the history: requests received from the client, requests processed,
    events pushed, and events whose [done] was called. *)
Record conn := {
  initialized : bool;          (* closed *)
  stopped : bool;              (* con.stop closed *)
  ctx_ended : bool;            (* con.stream.Context().Done() closed *)
  reqChan : list Req;          (* capacity 1 *)
  reqClosed : bool;
  errorChan : list Error;      (* capacity 1 *)
  recv : recv_pc;
  loop : loop_pc;
  received : list Req;
  processed : list Req;
  pushed : list Event;
  done_called : list Event
}.

Definition chan_capacity : nat := 1.

(** [NewConnection], with both goroutines started by [Stream]. *)
Definition NewConnection : conn :=
  {| initialized := false; stopped := false; ctx_ended := false;
     reqChan := []; reqClosed := false; errorChan := [];
     recv := Receiving; loop := WaitInit;
     received := []; processed := []; pushed := []; done_called := [] |}.

Definition set_recv (p : recv_pc) (c : conn) : conn :=
  {| initialized := initialized c; stopped := stopped c; ctx_ended := ctx_ended c;
     reqChan := reqChan c; reqClosed := reqClosed c; errorChan := errorChan c;
     recv := p; loop := loop c; received := received c; processed := processed c;
     pushed := pushed c; done_called := done_called c |}.

Definition set_loop (p : loop_pc) (c : conn) : conn :=
  {| initialized := initialized c; stopped := stopped c; ctx_ended := ctx_ended c;
     reqChan := reqChan c; reqClosed := reqClosed c; errorChan := errorChan c;
     recv := recv c; loop := p; received := received c; processed := processed c;
     pushed := pushed c; done_called := done_called c |}.

Definition set_chans (rs : list Req) (es : list Error) (c : conn) : conn :=
  {| initialized := initialized c; stopped := stopped c; ctx_ended := ctx_ended c;
     reqChan := rs; reqClosed := reqClosed c; errorChan := es;
     recv := recv c; loop := loop c; received := received c; processed := processed c;
     pushed := pushed c; done_called := done_called c |}.

Definition set_history (rcv proc : list Req) (psh dn : list Event) (c : conn) : conn :=
  {| initialized := initialized c; stopped := stopped c; ctx_ended := ctx_ended c;
     reqChan := reqChan c; reqClosed := reqClosed c; errorChan := errorChan c;
     recv := recv c; loop := loop c; received := rcv; processed := proc;
     pushed := psh; done_called := dn |}.

Definition set_signals (init stop ctx : bool) (c : conn) : conn :=
  {| initialized := init; stopped := stop; ctx_ended := ctx;
     reqChan := reqChan c; reqClosed := reqClosed c; errorChan := errorChan c;
     recv := recv c; loop := loop c; received := received c; processed := processed c;
     pushed := pushed c; done_called := done_called c |}.

(** [err := ...; if err != nil { return err }], else on to [next]. *)
Definition after (err : option Error) (next : loop_pc) : loop_pc :=
  match err with Some e => Finished (Some e) | None => next end.

(** [ctx.Process(req)] for the request taken from the channel. *)
Definition Process (r : Req) (rest : list Req) (next : loop_pc) (c : conn) : conn :=
  set_loop (after (processRequest r) next)
    (set_chans rest (errorChan c)
      (set_history (received c) (processed c ++ [r]) (pushed c) (done_called c) c)).

(** [ctx.Push(pushEv)]: [done] is called whatever the push returns. *)
Definition Push (ev : Event) (next : loop_pc) (c : conn) : conn :=
  set_loop (after (pushConnection ev) next)
    (set_history (received c) (processed c) (pushed c ++ [ev]) (done_called c ++ [ev]) c).

(** The steps of [Receive].  [stream.Recv] is the client's choice. *)
Inductive receive_step : conn -> conn -> Prop :=
| recv_request c r :
    recv c = Receiving ->
    receive_step c (set_recv (Offering r)
      (set_history (received c ++ [r]) (processed c) (pushed c) (done_called c) c))
| recv_error c e :
    recv c = Receiving -> receive_step c (set_recv (Reporting e) c)
| report_error c e :
    recv c = Reporting e -> length (errorChan c) < chan_capacity ->
    receive_step c (set_recv (RecvDone None) (set_chans (reqChan c) (errorChan c ++ [e]) c))
| offer_request c r :
    recv c = Offering r -> length (reqChan c) < chan_capacity ->
    receive_step c (set_recv Receiving (set_chans (reqChan c ++ [r]) (errorChan c) c))
| offer_ctx_done c r :
    recv c = Offering r -> ctx_ended c = true ->
    receive_step c (set_recv (RecvDone (Some r)) c).

(** The steps of [Stream] but for the push, whose event another goroutine
    hands over on the unbuffered channel. *)
Inductive loop_step : conn -> conn -> Prop :=
| loop_init c :
    loop c = WaitInit -> initialized c = true -> loop_step c (set_loop Polling c)
| poll_request c r rest :
    loop c = Polling -> reqChan c = r :: rest -> loop_step c (Process r rest Waiting c)
| poll_closed c :
    loop c = Polling -> reqChan c = [] -> reqClosed c = true -> loop_step c (set_loop AwaitError c)
| poll_stop c :
    loop c = Polling -> stopped c = true -> loop_step c (set_loop (Finished None) c)
| poll_default c :
    loop c = Polling -> reqChan c = [] -> reqClosed c = false -> stopped c = false ->
    loop_step c (set_loop Waiting c)
| wait_request c r rest :
    loop c = Waiting -> reqChan c = r :: rest -> loop_step c (Process r rest Polling c)
| wait_closed c :
    loop c = Waiting -> reqChan c = [] -> reqClosed c = true -> loop_step c (set_loop AwaitError c)
| wait_stop c :
    loop c = Waiting -> stopped c = true -> loop_step c (set_loop (Finished None) c)
| await_error c e es :
    loop c = AwaitError -> errorChan c = e :: es ->
    loop_step c (set_loop (Finished (Some e)) (set_chans (reqChan c) es c)).

Inductive push_step : conn -> conn -> Prop :=
| wait_push c ev : loop c = Waiting -> push_step c (Push ev Polling c).

(** What is outside the two goroutines: closing the signals. *)
Inductive signal_step : conn -> conn -> Prop :=
| close_initialized c : signal_step c (set_signals true (stopped c) (ctx_ended c) c)
| close_stop c : signal_step c (set_signals (initialized c) true (ctx_ended c) c)
| end_context c : signal_step c (set_signals (initialized c) (stopped c) true c).

Definition step (c c' : conn) : Prop :=
  receive_step c c' \/ loop_step c c' \/ push_step c c' \/ signal_step c c'.

(** ** Invariant *)

Definition held (p : recv_pc) : list Req :=
  match p with
  | Offering r => [r]
  | RecvDone (Some r) => [r]
  | _ => []
  end.

(** The last work done returned [e]. *)
Definition failed_with (e : Error) (c : conn) : Prop :=
  (exists r rs, processed c = rs ++ [r] /\ processRequest r = Some e) \/
  (exists ev evs, pushed c = evs ++ [ev] /\ pushConnection ev = Some e).

Record conn_ok (c : conn) : Prop := {
  ok_fifo : received c = processed c ++ reqChan c ++ held (recv c);
  ok_req : length (reqChan c) <= chan_capacity;
  ok_err : length (errorChan c) <= chan_capacity;
  ok_done : done_called c = pushed c;
  ok_init : initialized c = false \/ loop c = WaitInit ->
            loop c = WaitInit /\ processed c = [] /\ pushed c = [];
  ok_open : reqClosed c = false;
  ok_loop : loop c <> AwaitError;
  ok_result : forall e, loop c = Finished (Some e) -> failed_with e c;
  ok_stop : loop c = Finished None -> stopped c = true
}.

Lemma conn_ok_new : conn_ok NewConnection.
Proof. split; cbn; auto; unfold chan_capacity; try lia; done. Qed.

Lemma receive_step_ok c c' : conn_ok c -> receive_step c c' -> conn_ok c'.
Proof.
  intros [F Q E D I O L R S] Hs. inversion Hs as [? r H|? e H|? e H Hl|? r H Hl|? r H Hc]; subst;
    rewrite H in F; split; cbn in *; auto; unfold chan_capacity in *;
    rewrite ?app_nil_r, ?length_app in *; cbn in *; try lia; try done.
  all: rewrite F, <- ?app_assoc; done.
Qed.

Lemma Process_ok r rest next c :
  conn_ok c -> loop c = Polling \/ loop c = Waiting -> next = Polling \/ next = Waiting ->
  reqChan c = r :: rest -> conn_ok (Process r rest next c).
Proof.
  intros [F Q E D I O L R S] Hl Hn Hr. unfold Process, after. rewrite Hr in *.
  assert (initialized c = true) as Hi.
  { destruct (initialized c); [done|]. destruct I as [I _]; [by left|]. naive_solver congruence. }
  split; cbn; auto.
  - by rewrite F, <- app_assoc.
  - unfold chan_capacity in *. cbn in Q. lia.
  - rewrite Hi. intros [?|H]; [done|]. destruct (processRequest r), Hn; subst; done.
  - destruct (processRequest r), Hn; subst; done.
  - intros e He. left. exists r, (processed c). split; [done|].
    destruct (processRequest r), Hn; subst; by simplify_eq.
  - destruct (processRequest r), Hn; subst; done.
Qed.

Lemma set_loop_ok p c :
  conn_ok c -> initialized c = true ->
  p = Polling \/ p = Waiting \/ p = Finished None /\ stopped c = true ->
  conn_ok (set_loop p c).
Proof.
  intros [F Q E D I O L R S] Hi Hp. split; cbn; auto.
  - rewrite Hi. intros [?|H]; [done|]. naive_solver congruence.
  - naive_solver congruence.
  - intros e He. naive_solver congruence.
  - naive_solver congruence.
Qed.

Lemma loop_initialized c : conn_ok c -> loop c <> WaitInit -> initialized c = true.
Proof.
  intros H Hl. destruct (initialized c) eqn:E; [done|]. destruct (ok_init c H); [by left|done].
Qed.

Lemma loop_step_ok c c' : conn_ok c -> loop_step c c' -> conn_ok c'.
Proof.
  intros H Hs. pose proof (loop_initialized c H) as Hi. pose proof (ok_open c H) as Ho.
  pose proof (ok_loop c H) as Ha.
  inversion Hs; subst; try congruence;
    first [apply Process_ok; auto | apply set_loop_ok; auto; apply Hi; congruence].
Qed.

Lemma push_step_ok c c' : conn_ok c -> push_step c c' -> conn_ok c'.
Proof.
  intros H Hs. pose proof (loop_initialized c H) as Hi.
  inversion Hs as [? ev Hl]; subst. destruct H as [F Q E D I O L R S].
  unfold Push, after. split; cbn; auto.
  - by rewrite D.
  - rewrite Hi by congruence. intros [?|Hw]; [done|]. by destruct (pushConnection ev).
  - by destruct (pushConnection ev).
  - intros e He. right. exists ev, (pushed c). split; [done|].
    destruct (pushConnection ev); by simplify_eq.
  - by destruct (pushConnection ev).
Qed.

Lemma signal_step_ok c c' : conn_ok c -> signal_step c c' -> conn_ok c'.
Proof.
  intros [F Q E D I O L R S] Hs. inversion Hs; subst; split; cbn; auto.
  intros [?|Hw]; [done|]. apply I. by right.
Qed.

Lemma step_ok c c' : conn_ok c -> step c c' -> conn_ok c'.
Proof.
  intros H [Hs|[Hs|[Hs|Hs]]];
    eauto using receive_step_ok, loop_step_ok, push_step_ok, signal_step_ok.
Qed.

Lemma steps_ok c c' : rtc step c c' -> conn_ok c -> conn_ok c'.
Proof. induction 1; eauto using step_ok. Qed.

End Stream.

(** C6: The event loop of an ADS connection, over every interleaving with the
    receiving goroutine, the pushes and the signals.  Requests are processed in
    the order received, none twice, and what is received but not processed is in
    the channel or held by the receiver; [done] is called exactly once per
    pushed event, in order.  Nothing is processed or pushed until [initialized]
    is closed, and neither goroutine closes it.  The loop returns nil only after
    [stop], and an error only from the last request or push: when the client's
    stream fails, the loop does not see it, and with nothing to process or push
    it waits until [stop]. *)
Theorem stream_serves_in_order {Req Event Error : Type}
    (processRequest : Req -> option Error) (pushConnection : Event -> option Error) c
    (Hr : rtc (step processRequest pushConnection) NewConnection c) :
  received c = processed c ++ reqChan c ++ held (recv c) /\
  done_called c = pushed c /\
  (initialized c = false ->
     processed c = [] /\ pushed c = [] /\
     forall c', (receive_step c c' -> initialized c' = false) /\
                ~ loop_step processRequest c c' /\ ~ push_step pushConnection c c') /\
  (forall result, loop c = Finished result ->
     match result with
     | None => stopped c = true
     | Some e => failed_with processRequest pushConnection e c
     end) /\
  (loop c = Waiting -> reqChan c = [] -> stopped c = false ->
     forall c', ~ loop_step processRequest c c').
Proof.
  destruct (steps_ok _ _ _ _ Hr (conn_ok_new _ _)) as [F Q E D I O L R S].
  split_and!; [done|done| | |].
  - intros Hi. destruct I as (Hl & Hp & Hq); [by left|]. split_and!; [done..|].
    intros c'. split_and!.
    + intros Hs. by inversion Hs; subst.
    + intros Hs. inversion Hs; subst; congruence.
    + intros Hs. inversion Hs; subst; congruence.
  - intros [e|] Hl; [by apply R|by apply S].
  - intros Hl Hc Hs c' Hstep. inversion Hstep; subst; congruence.
Qed.

(** A run: the connection is initialised, receives request 7 and processes it. *)
Definition example_conn : conn (Req := nat) (Event := nat) (Error := nat) :=
  {| initialized := true; stopped := false; ctx_ended := false;
     reqChan := []; reqClosed := false; errorChan := [];
     recv := Receiving; loop := Waiting;
     received := [7]; processed := [7]; pushed := []; done_called := [] |}.

Lemma example_run :
  rtc (step (fun _ : nat => None) (fun _ : nat => @None nat)) NewConnection example_conn.
Proof.
  eapply rtc_l; [right; right; right; apply close_initialized|].
  eapply rtc_l; [left; eapply (recv_request _ 7); reflexivity|].
  eapply rtc_l; [left; eapply offer_request; [reflexivity|unfold chan_capacity; cbn; lia]|].
  eapply rtc_l; [right; left; eapply loop_init; reflexivity|].
  eapply rtc_l; [right; left; eapply poll_request; reflexivity|].
  apply rtc_refl.
Qed.

Lemma stream_serves_in_order_witness :
  received example_conn = processed example_conn ++ reqChan example_conn ++ held (recv example_conn).
Proof. exact (proj1 (stream_serves_in_order _ _ example_conn example_run)). Defined.
