(* ===== verification/XdsServer.v ===== *)
(** * XdsServer: pkg/xds, admission and generators

    The discovery server of xds_server.go, what [Stream] of ads.go checks before
    it serves a connection, and how a push finds the generator of a type and
    packs its resources (xdsgen.go, xds.go).  The rate limiter is a parameter;
    the prefix of debug types, which the sources leave undeclared, too. *)

From S2P Require Import Prelude GoStd.

(** golang.org/x/time/rate: whether the limit is 0, and the error of [Wait]. *)
Class RateLimiter := {
  Limiter : Type;
  unlimited : Limiter -> bool;
  Wait : Limiter -> option string
}.

Section Server.
Context {RL : RateLimiter} {Generator : Type} (TypeDebugPrefix : string).

Record DiscoveryServer := {
  serverReady : bool;
  RequestRateLimit : option Limiter;
  InboundUpdates : Z;
  CommittedUpdates : Z;
  Generators : gmap string (option Generator)
}.

Definition NewDiscoveryServer : DiscoveryServer :=
  {| serverReady := false; RequestRateLimit := None; InboundUpdates := 0; CommittedUpdates := 0;
     Generators := ∅ |}.

Definition CachesSynced (s : DiscoveryServer) : DiscoveryServer :=
  {| serverReady := true; RequestRateLimit := RequestRateLimit s;
     InboundUpdates := InboundUpdates s; CommittedUpdates := CommittedUpdates s;
     Generators := Generators s |}.

Definition IsServerReady (s : DiscoveryServer) : bool := serverReady s.

Inductive grpc_error := Unavailable | ResourceExhausted (cause : string).

(** [Limit] locks the limiter it is called on. *)
Definition WaitForRequestLimit (s : DiscoveryServer) : outcome Empty_set (option string) :=
  let* lim := deref (RequestRateLimit s) in
  if unlimited lim then Ret None else Ret (Wait lim).

(** [DiscoveryServer.Stream] until the connection is served. *)
Definition admit_stream (s : DiscoveryServer) : outcome grpc_error unit :=
  if negb (IsServerReady s) then Err Unavailable
  else
    match WaitForRequestLimit s with
    | Ret None => Ret tt
    | Ret (Some cause) => Err (ResourceExhausted cause)
    | Err e => match e with end
    | Panic p => Panic p
    end.

(** The fields of [model.Proxy] the lookup reads. *)
Record Proxy := {
  MetadataGenerator : string;
  Type_ : string;
  XdsResourceGenerator : option Generator
}.

(** The entry of a key, nil when it has none. *)
Definition generator_at (s : DiscoveryServer) (key : string) : option Generator :=
  match Generators s !! key with Some g => g | None => None end.

Definition findGenerator (s : DiscoveryServer) (typeURL : string) (proxy : Proxy) : option Generator :=
  match Generators s !! (MetadataGenerator proxy +:+ "/" +:+ typeURL) with
  | Some g => g
  | None =>
      match Generators s !! (Type_ proxy +:+ "/" +:+ typeURL) with
      | Some g => g
      | None =>
          match Generators s !! typeURL with
          | Some g => g
          | None =>
              match XdsResourceGenerator proxy with
              | Some g => Some g
              | None =>
                  if has_prefix TypeDebugPrefix typeURL then generator_at s "event"
                  else generator_at s "api"
              end
          end
      end
  end.

End Server.

(** A resource pointer may be nil; its payload is copied. *)
Fixpoint ResourcesToAny {Any : Type} (r : list (option Any)) : outcome Empty_set (list Any) :=
  match r with
  | [] => Ret []
  | rr :: rest =>
      let* a := deref rr in
      let* l := ResourcesToAny rest in
      Ret (a :: l)
  end.

(** ** Lemmas *)

(** A server that was only constructed and synced has no limiter: admitting a
    stream dereferences nil. *)
Lemma admit_panics `{RL : RateLimiter} {Generator : Type} :
  admit_stream (Generator := Generator) NewDiscoveryServer = Err Unavailable /\
  admit_stream (Generator := Generator) (CachesSynced NewDiscoveryServer) = Panic NilDereference.
Proof. done. Qed.

Lemma ResourcesToAny_spec {Any : Type} (r : list (option Any)) :
  (forall l, ResourcesToAny r = Ret l <-> r = map Some l) /\
  (None ∈ r -> ResourcesToAny r = Panic NilDereference).
Proof.
  induction r as [|[a|] r [IH1 IH2]]; cbn [ResourcesToAny deref obind].
  - split; [intros []; naive_solver|]. intros H. by apply elem_of_nil in H.
  - split.
    + intros l. split.
      * intros (l' & Hl & Heq)%obind_ret_inv. simplify_eq. cbn. f_equal. by apply IH1.
      * intros H. destruct l as [|b l]; [done|]. cbn in H. simplify_eq.
        by rewrite (proj2 (IH1 l) eq_refl).
    + intros [?|H]%elem_of_cons; [done|]. by rewrite IH2.
  - split; [intros []; naive_solver|done].
Qed.
