(* ===== verification/XdsPush.v ===== *)
(** * XdsPush: pushing configuration to a connection

    pkg/xds: [pushConnection] (ads.go), [pushXds], [nonce] (xdsgen.go), [Send]
    (stream.go) and the cluster generator (cds.go).  The generators, the test
    whether a proxy needs a push and the order of the watched types are
    parameters: no file under src/ gives them a body.  A stream is a script: what
    the next sends and the next uuids are, and what was sent. *)

From S2P Require Import Prelude GoStd K8s XdsServer.

(** ** The stream *)

Record DiscoveryResponse {Any : Type} := {
  ControlPlane : string; r_TypeUrl : string; VersionInfo : string; Nonce : string; r_Resources : list Any
}.
Arguments DiscoveryResponse Any : clear implicits.

(** A send past the script succeeds. *)
Record stream {Any : Type} := {
  st_results : list (option string); st_uuids : list string; st_sent : list (DiscoveryResponse Any)
}.
Arguments stream Any : clear implicits.

Record WatchedResource := { TypeUrl : string }.

(** [Push] may be nil; otherwise its version. *)
Record PushRequest := { Push : option string }.

Section Push.
Context {Any Generator : Type} {RL : RateLimiter}.
Context (TypeDebugPrefix : string) (env : string -> option string).
Context (Generate : Generator -> Proxy (Generator := Generator) -> WatchedResource -> PushRequest ->
                    list (option Any) * option string).
Context (ProxyNeedsPush : Proxy (Generator := Generator) -> PushRequest -> PushRequest * bool).

Definition uuid_New (st : stream Any) : string * stream Any :=
  (default ""%string (head (st_uuids st)),
   {| st_results := st_results st; st_uuids := tail (st_uuids st); st_sent := st_sent st |}).

Definition nonce (noncePrefix : string) : kube (stream Any) string string :=
  do! u := kdo uuid_New in kret (noncePrefix +:+ u)%string.

(** The error is returned whatever its code is. *)
Definition Send (res : DiscoveryResponse Any) : kube (stream Any) string unit :=
  fun st =>
    let st' := {| st_results := tail (st_results st); st_uuids := st_uuids st; st_sent := st_sent st ++ [res] |} in
    match head (st_results st) with
    | Some (Some err) => (Err err, st')
    | _ => (Ret tt, st')
    end.

(** [fmt.Sprintf("%s-%s", w.TypeUrl, util.LookupEnv("POD_NAME", "defaultPod"))]. *)
Definition control_plane (w : WatchedResource) : string :=
  (TypeUrl w +:+ "-" +:+ default "defaultPod" (env "POD_NAME"))%string.

Definition lift_panic {A} (m : outcome Empty_set A) : outcome string A :=
  match m with Ret a => Ret a | Err e => match e with end | Panic p => Panic p end.

(** The error of the generator is not looked at. *)
Definition pushXds (s : DiscoveryServer (Generator := Generator)) (proxy : Proxy (Generator := Generator))
    (w : option WatchedResource) (req : PushRequest) : kube (stream Any) string unit :=
  match w with
  | None => kret tt
  | Some w =>
      match findGenerator TypeDebugPrefix s (TypeUrl w) proxy with
      | None => kret tt
      | Some gen =>
          let '(res, _) := Generate gen proxy w req in
          do! version := klift (deref (Push req)) in
          do! n := nonce version in
          do! resources := klift (lift_panic (ResourcesToAny res)) in
          Send {| ControlPlane := control_plane w; r_TypeUrl := TypeUrl w; VersionInfo := version;
                  Nonce := n; r_Resources := resources |}
      end
  end.

(** The loop over the watched types. *)
Fixpoint push_all (s : DiscoveryServer (Generator := Generator)) (proxy : Proxy (Generator := Generator))
    (wrl : list (option WatchedResource)) (req : PushRequest) : kube (stream Any) string unit :=
  match wrl with
  | [] => kret tt
  | w :: rest =>
      do! _ := pushXds s proxy w req in
      push_all s proxy rest req
  end.

Definition pushConnection (s : DiscoveryServer (Generator := Generator)) (proxy : Proxy (Generator := Generator))
    (watchedResourcesByOrder : list (option WatchedResource)) (pushRequest : PushRequest)
    : kube (stream Any) string unit :=
  let '(pushRequest, needsPush) := ProxyNeedsPush proxy pushRequest in
  if negb needsPush then kret tt else push_all s proxy watchedResourcesByOrder pushRequest.

(** ** What is pushed *)

(** The watched types that have a generator, in order. *)
Definition due (s : DiscoveryServer (Generator := Generator)) (proxy : Proxy (Generator := Generator))
    (wrl : list (option WatchedResource)) : list (WatchedResource * Generator) :=
  omap (fun w => w ≫= fun w => g ← findGenerator TypeDebugPrefix s (TypeUrl w) proxy; Some (w, g)) wrl.

(** Their responses, given the uuids to come: what the generator returned,
    with or without an error, and were it nothing. *)
Fixpoint responses (version : string) (proxy : Proxy (Generator := Generator)) (req : PushRequest)
    (uuids : list string) (l : list (WatchedResource * Generator)) : list (DiscoveryResponse Any) :=
  match l with
  | [] => []
  | (w, g) :: l =>
      {| ControlPlane := control_plane w; r_TypeUrl := TypeUrl w; VersionInfo := version;
         Nonce := (version +:+ default "" (head uuids))%string;
         r_Resources := omap id (Generate g proxy w req).1 |} :: responses version proxy req (tail uuids) l
  end.

(** A send that is answered without an error. *)
Definition sent_ok (results : list (option string)) (i : nat) : Prop :=
  forall e, results !! i <> Some (Some e).

(** A type whose response can be built: there is a push context, and the
    generator returned no nil resource. *)
Definition sendable (proxy : Proxy (Generator := Generator)) (req : PushRequest)
    (wg : WatchedResource * Generator) : Prop :=
  is_Some (Push req) /\ None ∉ (Generate wg.2 proxy wg.1 req).1.

#[local] Instance nil_resource_dec (r : list (option Any)) : Decision (None ∈ r).
Proof.
  refine (cast_if (decide (Exists (fun x => x = None) r)));
    rewrite Exists_exists in *; naive_solver.
Defined.

Lemma ResourcesToAny_some (r : list (option Any)) : None ∉ r -> ResourcesToAny r = Ret (omap id r).
Proof.
  induction r as [|[a|] r IH]; intros Hn; [done| |by destruct Hn; left].
  cbn. rewrite IH; [done|]. intros H. apply Hn. by right.
Qed.

(** One type that is due. *)
Lemma pushXds_due s proxy w g req version st :
  findGenerator TypeDebugPrefix s (TypeUrl w) proxy = Some g -> Push req = Some version ->
  None ∉ (Generate g proxy w req).1 ->
  pushXds s proxy (Some w) req st =
  (match head (st_results st) with Some (Some e) => Err e | _ => Ret tt end,
   {| st_results := tail (st_results st); st_uuids := tail (st_uuids st);
      st_sent := st_sent st ++ responses version proxy req (st_uuids st) [(w, g)] |}).
Proof.
  intros Hg Hv Hn. unfold pushXds. rewrite Hg.
  destruct (Generate g proxy w req) as [res err] eqn:HG. cbn [fst] in *.
  unfold nonce, kbind, klift, kdo, kret, deref. rewrite Hv. cbn.
  rewrite ResourcesToAny_some by done. cbn. unfold Send. cbn. rewrite HG.
  by destruct (head (st_results st)) as [[]|].
Qed.

(** One whose response cannot be built. *)
Lemma pushXds_unsendable s proxy w g req st :
  findGenerator TypeDebugPrefix s (TypeUrl w) proxy = Some g -> ~ sendable proxy req (w, g) ->
  exists st', pushXds s proxy (Some w) req st = (Panic NilDereference, st') /\ st_sent st' = st_sent st.
Proof.
  intros Hg Hs. unfold pushXds. rewrite Hg. unfold sendable in Hs. cbn [fst snd] in Hs.
  destruct (Generate g proxy w req) as [res err]. cbn [fst] in Hs.
  unfold kbind, klift. destruct (Push req) as [v|]; [|by eexists].
  cbn. rewrite (proj2 (ResourcesToAny_spec res)); [by eexists|].
  destruct (decide (None ∈ res)) as [H|H]; [done|]. destruct Hs. by split.
Qed.

Lemma sent_ok_tail results i : sent_ok (tail results) i <-> sent_ok results (S i).
Proof. by destruct results. Qed.

(** What it means for a push over [dues] to end with [r] after [n] sends. *)
Definition attempts (ok : WatchedResource * Generator -> Prop) (results : list (option string))
    (dues : list (WatchedResource * Generator)) (n : nat) (r : outcome string unit) : Prop :=
  (forall i wg, i < n -> dues !! i = Some wg -> ok wg) /\
  match r with
  | Ret _ => n = length dues /\ forall i, i < n -> sent_ok results i
  | Err e => 0 < n <= length dues /\ results !! (n - 1) = Some (Some e) /\ forall i, i < n - 1 -> sent_ok results i
  | Panic p => p = NilDereference /\ (exists wg, dues !! n = Some wg /\ ~ ok wg) /\ forall i, i < n -> sent_ok results i
  end.

Lemma attempts_head ok results wg dues n r :
  ok wg -> sent_ok results 0 -> attempts ok (tail results) dues n r ->
  attempts ok results (wg :: dues) (S n) r.
Proof.
  intros Hok H0 [Hb H]. split.
  { intros [|i] wg' Hi Hl; cbn in Hl; [by simplify_eq|]. apply (Hb i); [lia|done]. }
  assert (forall m, (forall i, i < m -> sent_ok (tail results) i) -> forall i, i < S m -> sent_ok results i) as Hs.
  { intros m Hm [|i] Hi; [done|]. apply sent_ok_tail, Hm. lia. }
  destruct r as [[]|e|p]; cbn in H |- *.
  - destruct H as [-> H]. split; [done|by apply Hs].
  - destruct H as ([Hn1 Hn2] & Hl & H). split; [lia|]. rewrite Nat.sub_0_r. split.
    + destruct results; [done|]. destruct n; [lia|].
      cbn in *. by rewrite Nat.sub_0_r in Hl.
    + intros i Hi. apply (Hs (n - 1) H). lia.
  - destruct H as (-> & Hw & H). split; [done|]. split; [done|by apply Hs].
Qed.

Lemma push_all_sends s proxy wrl req st :
  exists n st', push_all s proxy wrl req st = ((push_all s proxy wrl req st).1, st') /\
    attempts (sendable proxy req) (st_results st) (due s proxy wrl) n (push_all s proxy wrl req st).1 /\
    st_sent st' = st_sent st ++
      take n (responses (default ""%string (Push req)) proxy req (st_uuids st) (due s proxy wrl)).
Proof.
  revert st. induction wrl as [|w wrl IH]; intros st; cbn [push_all].
  { exists 0, st. cbn. rewrite app_nil_r. split; [done|]. split; [|done].
    split; [lia|]. split; [done|lia]. }
  destruct (w ≫= fun w => g ← findGenerator TypeDebugPrefix s (TypeUrl w) proxy; Some (w, g)) as [[w' g]|] eqn:Hw.
  2:{ assert (due s proxy (w :: wrl) = due s proxy wrl) as -> by (unfold due; cbn; by rewrite Hw).
      assert (pushXds s proxy w req st = (Ret tt, st)) as Hp.
      { destruct w as [w|]; [|done]. cbn in Hw |- *. by destruct (findGenerator _ _ _ _). }
      unfold kbind. rewrite Hp. by apply IH. }
  destruct w as [w|]; cbn in Hw; [|done].
  destruct (findGenerator TypeDebugPrefix s (TypeUrl w) proxy) as [g'|] eqn:Hg; [|done].
  injection Hw as <- <-.
  assert (due s proxy (Some w :: wrl) = (w, g') :: due s proxy wrl) as -> by (unfold due; cbn; by rewrite Hg).
  destruct (decide (None ∈ (Generate g' proxy w req).1)) as [Hnil|Hnil];
    [|destruct (Push req) as [version|] eqn:Hv].
  1,3: assert (~ sendable proxy req (w, g')) as Hno by (intros [[v E] H]; cbn in H; congruence || done);
       destruct (pushXds_unsendable s proxy w g' req st Hg Hno) as (st' & He & Hs);
       exists 0, st'; unfold kbind; rewrite He; cbn [fst]; rewrite Hs, take_0, app_nil_r;
       split; [done|]; split; [|done]; split; [lia|]; split; [done|]; split; [by exists (w, g')|lia].
  assert (sendable proxy req (w, g')) as Hok by (split; [by rewrite Hv|done]).
  unfold kbind. rewrite (pushXds_due s proxy w g' req version) by done.
  destruct (head (st_results st)) as [[e|]|] eqn:Hh.
  1:{ exists 1, {| st_results := tail (st_results st); st_uuids := tail (st_uuids st);
        st_sent := st_sent st ++ responses version proxy req (st_uuids st) [(w, g')] |}.
      cbn [fst st_sent default]. split; [done|]. split; [|done]. split.
      - intros [|i] wg Hi Hl; [|lia]. cbn in Hl. by simplify_eq.
      - destruct (st_results st); [done|]. cbn in Hh |- *. simplify_eq. split_and!; [lia|lia|done|lia]. }
  1,2: edestruct IH as (n & st' & He & Ha & Hs); rewrite He;
       exists (S n), st'; cbn [fst]; split; [done|]; split;
       [apply attempts_head; [done| |exact Ha]; intros e; destruct (st_results st); [done|]; cbn in *; congruence
       |rewrite Hs; cbn [st_sent st_uuids default]; by rewrite <- app_assoc].
Qed.

(** C7: what a push sends.  Nothing when the proxy needs no push.  Otherwise the
    watched types that have a generator are served in the order of the list, one
    response each, with the type, the version of the push and a nonce that
    starts with it; types without a generator are passed over.  A response
    carries exactly the resources the generator returned: its error is not
    looked at, and a generation without resources is sent too.  The push ends
    well when all are sent; the first send that fails ends it with its error;
    and it panics, with what came before sent, at the first type for which there
    is no push context or a nil resource, and at no other. *)
Theorem pushes_in_order s proxy wrl req0 st :
  let '(req, needsPush) := ProxyNeedsPush proxy req0 in
  let '(r, st') := pushConnection s proxy wrl req0 st in
  if needsPush then
    exists n, attempts (sendable proxy req) (st_results st) (due s proxy wrl) n r /\
      st_sent st' = st_sent st ++
        take n (responses (default ""%string (Push req)) proxy req (st_uuids st) (due s proxy wrl))
  else r = Ret tt /\ st' = st.
Proof.
  unfold pushConnection. destruct (ProxyNeedsPush proxy req0) as [req []]; cbn [negb]; [|done].
  destruct (push_all_sends s proxy wrl req st) as (n & st' & He & Ha & Hs).
  rewrite He. by exists n.
Qed.

(** A push request without a push context panics once a type is due. *)
Lemma push_without_context s proxy w g req st :
  findGenerator TypeDebugPrefix s (TypeUrl w) proxy = Some g -> Push req = None ->
  pushXds s proxy (Some w) req st = (Panic NilDereference, st).
Proof.
  intros Hg Hp. unfold pushXds. rewrite Hg. destruct (Generate g proxy w req). unfold kbind, klift. by rewrite Hp.
Qed.

(** A generator that fails with nothing empties the type at the proxy. *)
Lemma failed_generator_empties s proxy w g req version e st :
  findGenerator TypeDebugPrefix s (TypeUrl w) proxy = Some g -> Push req = Some version ->
  Generate g proxy w req = ([], Some e) ->
  exists res, (pushXds s proxy (Some w) req st).2.(st_sent) = st_sent st ++ [res] /\
    r_TypeUrl res = TypeUrl w /\ r_Resources res = [].
Proof.
  intros Hg Hv He. rewrite (pushXds_due s proxy w g req version st) by (try done; rewrite He; apply not_elem_of_nil).
  cbn. rewrite He. by eexists.
Qed.

End Push.

(** ** The cluster generator (cds.go) *)

Section Cds.
Context {Proxy_ Resource Logs : Type} (DefaultXdsLogDetails : Logs).
Context (cdsNeedsPush : PushRequest -> Proxy_ -> PushRequest * bool).
Context (BuildClusters : Proxy_ -> PushRequest -> list (option Resource) * Logs).

Definition CdsGenerator_Generate (proxy : Proxy_) (w : WatchedResource) (req : PushRequest)
    : list (option Resource) * Logs * option string :=
  let '(req, needsPush) := cdsNeedsPush req proxy in
  if negb needsPush then ([], DefaultXdsLogDetails, None)
  else let '(clusters, logs) := BuildClusters proxy req in (clusters, logs, None).

(** A push the clusters do not need yields no resources, which a push then
    sends as the whole set. *)
Lemma unneeded_push_is_empty proxy w req :
  (cdsNeedsPush req proxy).2 = false -> (CdsGenerator_Generate proxy w req).1.1 = [].
Proof. unfold CdsGenerator_Generate. by destruct (cdsNeedsPush req proxy) as [r []]. Qed.
End Cds.

(** ** On concrete inputs *)

Definition example_limiter : RateLimiter := {| Limiter := unit; unlimited _ := true; Wait _ := None |}.

Definition example_server : DiscoveryServer (RL := example_limiter) (Generator := string) :=
  {| serverReady := true; RequestRateLimit := None; InboundUpdates := 0; CommittedUpdates := 0;
     Generators := {["cds" := Some "c"; "eds" := Some "e"]} |}%string.

Definition example_proxy : Proxy (Generator := string) :=
  {| MetadataGenerator := ""; Type_ := "router"; XdsResourceGenerator := None |}.

Definition example_generate (g : string) (_ : Proxy (Generator := string)) (_ : WatchedResource)
    (_ : PushRequest) : list (option string) * option string := ([Some g], None).

Definition example_watched : list (option WatchedResource) :=
  [Some {| TypeUrl := "cds" |}; None; Some {| TypeUrl := "nds" |}; Some {| TypeUrl := "eds" |}]%string.

Definition example_stream : stream string :=
  {| st_results := [None; Some "broken"]; st_uuids := ["u1"; "u2"]; st_sent := [] |}%string.

(** The second send fails: both responses were handed to the stream. *)
Lemma example_push :
  let '(r, st') := pushConnection (RL := example_limiter) "debug" (fun _ => None) example_generate
      (fun _ r => (r, true)) example_server example_proxy example_watched {| Push := Some "v1" |} example_stream in
  r = Err "broken"%string /\ r_TypeUrl <$> st_sent st' = ["cds"; "eds"]%string /\
  Nonce <$> st_sent st' = ["v1u1"; "v1u2"]%string.
Proof. vm_compute. by repeat split. Qed.
