(* ===== verification/Agent.v ===== *)
(** * Agent: pkg/agent, the mesh defaults and the proxy configuration

    The agent that supervises an Envoy process: the configuration it reads
    (pkg/config, pkg/config/mesh, pkg/util/protomarshal, cmd/envoy-agent/options),
    how it builds Envoy's wrapper (pkg/agent), and the goroutines of pkg/agent/
    envoy as a step relation.  The YAML and protobuf libraries, the file system
    and the operating system's processes are parameters or steps. *)

From S2P Require Import Prelude GoStd.

Local Open Scope Z_scope.

(** ** pkg/config/mesh/mesh.go *)

(** Durations are nanoseconds. *)
Definition seconds (n : Z) : Z := n * 1000000000.

Inductive AuthenticationPolicy := NONE | MUTUAL_TLS.

Record ProxyConfig := {
  ConfigPath : string;
  ServiceCluster : string;
  DrainDuration : option Z;
  TerminationDrainDuration : option Z;
  ProxyAdminPort : Z;
  ControlPlaneAuthPolicy : AuthenticationPolicy;
  DiscoveryAddress : string;
  BinaryPath : string;
  StatNameLength : Z;
  StatusPort : Z;
  Concurrency : option Z
}.

Definition DefaultProxyConfig : ProxyConfig :=
  {| ConfigPath := "/etc/istio/proxy";
     ServiceCluster := "ai-proxy-gateway";
     DrainDuration := Some (seconds 45);
     TerminationDrainDuration := Some (seconds 5);
     ProxyAdminPort := 15000;
     ControlPlaneAuthPolicy := MUTUAL_TLS;
     DiscoveryAddress := "ai-proxy-gateway.ai-gateway-system.svc:15012";
     BinaryPath := "/usr/local/bin/envoy";
     StatNameLength := 189;
     StatusPort := 15020;
     Concurrency := None |}.

Inductive AccessLogEncoding := TEXT | JSON.
Inductive IngressControllerMode := UNSPECIFIED | OFF | DEFAULT | STRICT.
Inductive OutboundMode := REGISTRY_ONLY | ALLOW_ANY.
Inductive InboundMode := PASSTHROUGH | LOCALHOST.
Inductive Provider := Prometheus | Stackdriver | EnvoyFileAccessLog (Path : string).

Record MeshConfig := {
  EnableTracing : bool;
  AccessLogFile : string;
  AccessLogEncoding_ : AccessLogEncoding;
  AccessLogFormat : string;
  EnableEnvoyAccessLogService : bool;
  ProtocolDetectionTimeout : option Z;
  IngressService : string;
  IngressControllerMode_ : IngressControllerMode;
  IngressClass : string;
  TrustDomain : string;
  TrustDomainAliases : list string;
  EnableAutoMtls : option bool;
  OutboundTrafficPolicy : option OutboundMode;
  InboundTrafficPolicy : option InboundMode;
  LocalityLbEnabled : option bool;
  DefaultConfig : option ProxyConfig;
  RootNamespace : string;
  ProxyListenPort : Z;
  ProxyInboundListenPort : Z;
  ConnectTimeout : option Z;
  DefaultServiceExportTo : list string;
  DefaultVirtualServiceExportTo : list string;
  DefaultDestinationRuleExportTo : list string;
  DnsRefreshRate : option Z;
  EnablePrometheusMerge : option bool;
  ExtensionProviders : list (string * Provider)
}.

Definition DefaultMeshConfig : MeshConfig :=
  {| EnableTracing := true;
     AccessLogFile := "";
     AccessLogEncoding_ := TEXT;
     AccessLogFormat := "";
     EnableEnvoyAccessLogService := false;
     ProtocolDetectionTimeout := Some 0;
     IngressService := "ai-proxy-ingressgateway";
     IngressControllerMode_ := STRICT;
     IngressClass := "ai-proxy-gateway";
     TrustDomain := "cluster.local";
     TrustDomainAliases := [];
     EnableAutoMtls := Some true;
     OutboundTrafficPolicy := Some ALLOW_ANY;
     InboundTrafficPolicy := Some PASSTHROUGH;
     LocalityLbEnabled := Some true;
     DefaultConfig := Some DefaultProxyConfig;
     RootNamespace := "ai-gateway-system";
     ProxyListenPort := 15001;
     ProxyInboundListenPort := 15006;
     ConnectTimeout := Some (seconds 10);
     DefaultServiceExportTo := ["*"];
     DefaultVirtualServiceExportTo := ["*"];
     DefaultDestinationRuleExportTo := ["*"];
     DnsRefreshRate := Some (seconds 60);
     EnablePrometheusMerge := Some true;
     ExtensionProviders :=
       [("prometheus", Prometheus); ("stackdriver", Stackdriver); ("envoy", EnvoyFileAccessLog "/dev/stdout")] |}%string.

(** ** pkg/util/protomarshal/protomarshal.go *)

(** sigs.k8s.io/yaml, and protobuf's JSON on mesh configurations: unmarshalling
    merges into the message it is given, ignoring unknown fields when asked, and
    leaves what it stored before an error ([true]). *)
Class ProtoJson := {
  YAMLToJSON : string -> option string;
  JSONToYAML : string -> option string;
  unmarshal_json : bool -> string -> MeshConfig -> MeshConfig * bool;
  marshal_json : string -> bool -> ProxyConfig -> option string
}.

Section Config.
Context {PJ : ProtoJson}.

(** The message after the call, and whether there is an error.  The second
    attempt starts from what the first left. *)
Definition ApplyJSON (js : string) (pb : MeshConfig) : MeshConfig * bool :=
  let '(pb, failed) := unmarshal_json false js pb in
  if failed then unmarshal_json true js pb else (pb, false).

Definition ApplyYAML (yml : string) (pb : MeshConfig) : MeshConfig * bool :=
  match YAMLToJSON yml with
  | None => (pb, true)
  | Some js => ApplyJSON js pb
  end.

(** A nil message is an error. *)
Definition ToJSONWithOptions (msg : option ProxyConfig) (indent : string) (enumsAsInts : bool) : option string :=
  match msg with
  | None => None
  | Some msg => marshal_json indent enumsAsInts msg
  end.

Definition ToJSONWithIndent (msg : option ProxyConfig) (indent : string) : option string :=
  ToJSONWithOptions msg indent false.

Definition ToJSON (msg : option ProxyConfig) : option string := ToJSONWithIndent msg "".

Definition ToYAML (msg : option ProxyConfig) : option string :=
  match ToJSON msg with
  | None => None
  | Some js => JSONToYAML js
  end.

Definition ApplyMeshConfig (yaml : string) (defaultConfig : MeshConfig) : option MeshConfig :=
  let '(defaultConfig, failed) := ApplyYAML yaml defaultConfig in
  if failed then None else Some defaultConfig.

(** *** pkg/config/config.go *)

Inductive config_error := ReadFailed (file : string) | UnmarshalFailed (contents : string).

(** The last two arguments are not used. *)
Definition ConstructProxyConfig (ReadFile : string -> option string)
    (meshConfigFile serviceCluster : string) (concurrency : Z) : outcome config_error (option ProxyConfig) :=
  match ReadFile meshConfigFile with
  | None => Err (ReadFailed meshConfigFile)
  | Some contents =>
      match ApplyMeshConfig contents DefaultMeshConfig with
      | None => Err (UnmarshalFailed contents)
      | Some fileMesh => Ret (DefaultConfig fileMesh)
      end
  end.

End Config.

(** ** pkg/agent/envoy/envoy.go *)

Record EnvoyConfig := {
  envoy_BinaryPath : string;
  AdminPort : Z;
  envoy_DrainDuration : option Z;
  envoy_Concurrency : Z;
  ComponentLogLevel : string;
  SkipDeprecatedLogs : bool
}.

Record Envoy := { cfg : EnvoyConfig; extraArgs : list string }.

Definition NewEnvoy (enableEnvoyCoreDump : bool) (cfg : EnvoyConfig) : Envoy :=
  {| cfg := cfg;
     extraArgs :=
       (if bool_decide (ComponentLogLevel cfg = ""%string) then []
        else ["--component-log-level"; ComponentLogLevel cfg]) ++
       (if SkipDeprecatedLogs cfg then ["--skip-deprecated-logs"] else []) ++
       (if enableEnvoyCoreDump then ["--enable-core-dump"] else []) |}%string.

(** The command line of [Run]: the arguments are commented out. *)
Definition command_line (e : Envoy) : list string := [envoy_BinaryPath (cfg e)].

(** ** pkg/agent/agent.go *)

Record AgentConfig := {
  MinimumDrainDuration : Z;
  EnvoyStatusPort : Z;
  EnvoyPrometheusPort : Z;
  ExitOnZeroActiveConnections : bool
}.

(** cmd/envoy-agent/options: nothing of the arguments is taken over. *)
Definition NewAgentOptions : AgentConfig :=
  {| MinimumDrainDuration := 0; EnvoyStatusPort := 0; EnvoyPrometheusPort := 0; ExitOnZeroActiveConnections := false |}.

(** envoy.Agent: its wrapper, nil in the zero value, and whether its two
    channels were made (they are nil otherwise). *)
Record EnvoyAgent := { a_envoy : option Envoy; a_channels : bool }.

Definition zero_agent : EnvoyAgent := {| a_envoy := None; a_channels := false |}.

Definition envoy_NewAgent (envoy : Envoy) : EnvoyAgent := {| a_envoy := Some envoy; a_channels := true |}.

Record Agent := {
  proxyConfig : option ProxyConfig;
  agentConfig : AgentConfig;
  agent_envoy : EnvoyAgent;
  envoyConfig : EnvoyConfig
}.

Definition NewAgent (proxyConfig : option ProxyConfig) (agentOpts : AgentConfig) (eopts : EnvoyConfig) : Agent :=
  {| proxyConfig := proxyConfig; agentConfig := agentOpts; agent_envoy := zero_agent; envoyConfig := eopts |}.

(** The options of Envoy are filled in from the proxy's; the agent that
    [envoy.NewAgent] returns is dropped. *)
Definition initEnvoy (enableEnvoyCoreDump : bool) (agent : Agent) : outcome Empty_set Agent :=
  let* p := deref (proxyConfig agent) in
  let cfg :=
    {| envoy_BinaryPath := BinaryPath p; AdminPort := ProxyAdminPort p; envoy_DrainDuration := DrainDuration p;
       envoy_Concurrency := default 0 (Concurrency p);
       ComponentLogLevel := ComponentLogLevel (envoyConfig agent);
       SkipDeprecatedLogs := SkipDeprecatedLogs (envoyConfig agent) |} in
  let _ := envoy_NewAgent (NewEnvoy enableEnvoyCoreDump cfg) in
  Ret {| proxyConfig := proxyConfig agent; agentConfig := agentConfig agent; agent_envoy := agent_envoy agent;
         envoyConfig := cfg |}.

(** ** pkg/agent/envoy/agent.go: the goroutines *)

(** How Envoy ended: [None] is a nil error. *)
Definition exit : Type := option string.

(** The process of Envoy; [Killed]: it was sent SIGKILL and has not ended yet. *)
Inductive envoy_process := NotStarted | StartFailed (e : string) | Running | Killed | Exited (e : exit).

(** The goroutine of [envoy.Run] that waits for the process: not started, in
    [cmd.Wait], and done. *)
Inductive reaper := NoReaper | Waiting | Reaped.

(** The goroutine [runWait]: before and in [envoy.Run], with the error it got,
    and done. *)
Inductive waiter := Spawned | InRun | Got (e : exit) | Delivered.

(** [Agent.Run]: in its select, or returned and why. *)
Inductive supervisor := Selecting | ReportedExit (e : exit) | Terminated.

Record system := {
  agent_ : EnvoyAgent;
  proc : envoy_process;
  reap : reaper;
  wait_ : waiter;
  sup : supervisor;
  doneCh : option exit;        (* the value buffered in the channel done *)
  statusCh : option exit;
  abortCh : option exit;
  cancelled : bool;            (* the context is done *)
  crashed : option panic       (* a goroutine panicked: the program ends *)
}.

Definition start_run (a : EnvoyAgent) : system :=
  {| agent_ := a; proc := NotStarted; reap := NoReaper; wait_ := Spawned; sup := Selecting; doneCh := None;
     statusCh := None; abortCh := None; cancelled := false; crashed := None |}.

Definition with_run (p : envoy_process) (r : reaper) (d : option exit) (w : waiter) (a : option exit) (s : system)
    : system :=
  {| agent_ := agent_ s; proc := p; reap := r; wait_ := w; sup := sup s; doneCh := d;
     statusCh := statusCh s; abortCh := a; cancelled := cancelled s; crashed := crashed s |}.

Definition with_status (w : waiter) (u : supervisor) (c : option exit) (s : system) : system :=
  {| agent_ := agent_ s; proc := proc s; reap := reap s; wait_ := w; sup := u; doneCh := doneCh s;
     statusCh := c; abortCh := abortCh s; cancelled := cancelled s; crashed := crashed s |}.

(** [cmd.Process.Kill]: it sends the signal to a process that runs, or fails. *)
Definition kill (p p' : envoy_process) : Prop := p' = p \/ p = Running /\ p' = Killed.

(** One step of the program.  A send on a nil channel and a receive from one
    block; receiving from [abortCh] is the branch that aborts Envoy, and no
    statement of the package sends on it ([terminate] is commented out). *)
Inductive code_step : system -> system -> Prop :=
| StepNil s :
    wait_ s = Spawned -> a_envoy (agent_ s) = None ->
    code_step s {| agent_ := agent_ s; proc := proc s; reap := reap s; wait_ := wait_ s; sup := sup s;
                   doneCh := doneCh s; statusCh := statusCh s; abortCh := abortCh s;
                   cancelled := cancelled s; crashed := Some NilDereference |}
| StepStartFails s e :
    wait_ s = Spawned -> is_Some (a_envoy (agent_ s)) ->
    code_step s (with_run (StartFailed e) (reap s) (doneCh s) (Got (Some e)) (abortCh s) s)
| StepStart s :
    wait_ s = Spawned -> is_Some (a_envoy (agent_ s)) ->
    code_step s (with_run Running Waiting (doneCh s) InRun (abortCh s) s)
| StepReap s e :
    reap s = Waiting -> proc s = Exited e ->
    code_step s (with_run (proc s) Reaped (Some e) (wait_ s) (abortCh s) s)
| StepDone s e :
    wait_ s = InRun -> doneCh s = Some e -> code_step s (with_run (proc s) (reap s) None (Got e) (abortCh s) s)
| StepAbort s e p :
    wait_ s = InRun -> a_channels (agent_ s) = true -> abortCh s = Some e -> kill (proc s) p ->
    code_step s (with_run p (reap s) (doneCh s) (Got e) None s)
| StepSend s e :
    wait_ s = Got e -> a_channels (agent_ s) = true -> statusCh s = None ->
    code_step s (with_status Delivered (sup s) (Some e) s)
| StepReport s e :
    sup s = Selecting -> statusCh s = Some e -> code_step s (with_status (wait_ s) (ReportedExit e) None s)
| StepTerminate s :
    sup s = Selecting -> cancelled s = true -> code_step s (with_status (wait_ s) Terminated (statusCh s) s).

(** One step of the world: the process ends, by itself or from the signal, or
    the context is cancelled. *)
Inductive world_step : system -> system -> Prop :=
| WorldExit s e :
    proc s = Running -> world_step s (with_run (Exited e) (reap s) (doneCh s) (wait_ s) (abortCh s) s)
| WorldDies s :
    proc s = Killed ->
    world_step s (with_run (Exited (Some "signal: killed"%string)) (reap s) (doneCh s) (wait_ s) (abortCh s) s)
| WorldCancel s :
    world_step s {| agent_ := agent_ s; proc := proc s; reap := reap s; wait_ := wait_ s; sup := sup s;
                    doneCh := doneCh s; statusCh := statusCh s; abortCh := abortCh s;
                    cancelled := true; crashed := crashed s |}.

(** A crashed program takes no step. *)
Definition agent_step (s s' : system) : Prop := crashed s = None /\ (code_step s s' \/ world_step s s').

(** ** Proofs *)

(** The error that a process leaves for its waiter. *)
Definition outcome_of (p : envoy_process) : option exit :=
  match p with
  | StartFailed e => Some (Some e)
  | Exited e => Some e
  | _ => None
  end.

(** What holds in every state reached by an agent with a wrapper. *)
Definition supervised (s : system) : Prop :=
  (crashed s = None /\ a_channels (agent_ s) = true /\ is_Some (a_envoy (agent_ s)) /\ abortCh s = None) /\
  match wait_ s with
  | Spawned => proc s = NotStarted /\ reap s = NoReaper /\ doneCh s = None /\ statusCh s = None
  | InRun =>
      statusCh s = None /\
      (reap s = Waiting /\ doneCh s = None /\ (proc s = Running \/ exists e, proc s = Exited e) \/
       reap s = Reaped /\ exists e, doneCh s = Some e /\ proc s = Exited e)
  | Got e => outcome_of (proc s) = Some e /\ reap s <> Waiting /\ doneCh s = None /\ statusCh s = None
  | Delivered =>
      reap s <> Waiting /\ doneCh s = None /\ exists e, outcome_of (proc s) = Some e /\
      (statusCh s = Some e /\ (forall e', sup s <> ReportedExit e') \/ statusCh s = None /\ sup s = ReportedExit e)
  end /\
  (forall e, sup s = ReportedExit e -> wait_ s = Delivered) /\
  (sup s = Terminated -> cancelled s = true).

Lemma supervised_start e : supervised (start_run (envoy_NewAgent e)).
Proof. unfold supervised. cbn. split_and!; done. Qed.

Lemma supervised_code s s' : code_step s s' -> supervised s -> supervised s'.
Proof.
  intros Hstep ((Hc & Hch & He & Ha) & Hw & Hr & Ht).
  destruct Hstep as [s Hs Hn|s e Hs _|s Hs _|s e Hs Hp|s e Hs Hd|s e p Hs _ Habort|s e Hs _ Hst|s e Hs Hst|s Hs Hcan];
    try congruence; [by rewrite Hn in He; destruct He|..]; split; try done; cbn.
  - rewrite Hs in Hw. destruct Hw as (H1 & H2 & H3 & H4). rewrite H2. split; [done|].
    split; [intros x Hx; by rewrite (Hr x Hx) in Hs|done].
  - rewrite Hs in Hw. destruct Hw as (H1 & H2 & H3 & H4). split; [split; [done|by left; auto]|].
    split; [intros x Hx; by rewrite (Hr x Hx) in Hs|done].
  - split; [|done]. destruct (wait_ s); [by destruct Hw as (_ & Hw & _); rewrite Hw in Hs| | |].
    + destruct Hw as (H1 & [(H2 & H3 & H4)|(H2 & _)]); [|congruence]. split; [done|]. right. eauto.
    + by destruct Hw as (_ & Hw & _).
    + by destruct Hw as (Hw & _).
  - rewrite Hs in Hw. destruct Hw as (H1 & [(_ & H2 & _)|(H2 & x & H3 & H4)]); [congruence|].
    rewrite H2, H4. simplify_eq. split; [done|]. split; [intros x' Hx; by rewrite (Hr x' Hx) in Hs|done].
  - rewrite Hs in Hw. destruct Hw as (H1 & H2 & H3 & H4). split; [|done]. split_and!; [done..|].
    exists e. split; [done|]. left. split; [done|]. intros x Hx. by rewrite (Hr x Hx) in Hs.
  - destruct (wait_ s) as [| |y|].
    + destruct Hw as (_ & _ & _ & Hw). congruence.
    + destruct Hw as (Hw & _). congruence.
    + destruct Hw as (_ & _ & _ & Hw). congruence.
    + destruct Hw as (H1 & H2 & x & H3 & [[H4 _]|[H4 _]]); [|congruence].
      assert (x = e) as -> by congruence.
      split; [|done]. split_and!; [done..|]. exists e. split; [done|]. by right.
  - split; [|done]. destruct (wait_ s) as [| |y|]; [done..|].
    destruct Hw as (H1 & H2 & x & H3 & [[H4 _]|[_ H4]]); [|congruence].
    split_and!; [done..|]. exists x. split; [done|]. by left.
Qed.

Lemma supervised_not_killed s : supervised s -> proc s <> Killed.
Proof.
  intros (_ & Hw & _) Hk. rewrite Hk in Hw. destruct (wait_ s); [by destruct Hw| |by destruct Hw|].
  - destruct Hw as (_ & [(_ & _ & [?|[? ?]])|(_ & ? & _ & ?)]); done.
  - by destruct Hw as (_ & _ & ? & ? & _).
Qed.

Lemma supervised_world s s' : world_step s s' -> supervised s -> supervised s'.
Proof.
  intros Hstep Hs. pose proof (supervised_not_killed s Hs) as Hk. destruct Hs as (Hb & Hw & Hr & Ht).
  destruct Hstep as [s e Hp|s Hp|s]; [|by destruct (Hk Hp)|by split].
  split; [done|]. cbn. split; [|done]. rewrite Hp in Hw. destruct (wait_ s).
  - by destruct Hw.
  - destruct Hw as (H1 & [(H2 & H3 & _)|(_ & ? & _ & ?)]); [|done]. split; [done|]. left. eauto.
  - by destruct Hw.
  - by destruct Hw as (_ & _ & ? & ? & _).
Qed.

Lemma supervised_reachable e s : rtc agent_step (start_run (envoy_NewAgent e)) s -> supervised s.
Proof.
  intros H. remember (start_run (envoy_NewAgent e)) as s0 eqn:E0.
  assert (supervised s0) as Hs by (subst; apply supervised_start). clear E0.
  induction H as [|s1 s2 s3 [_ [Hstep|Hstep]] _ IH]; [done|apply IH..];
    [by eapply supervised_code|by eapply supervised_world].
Qed.

(** Steps left for the goroutines once Envoy ended. *)
Definition pending (s : system) : nat :=
  ((if reap s is Waiting then 1 else 0) +
   (match wait_ s with Spawned => 3 | InRun => 2 | Got _ => 1 | Delivered => 0 end) +
   (if sup s is Selecting then 1 else 0))%nat.

(** Envoy ended with [x]. *)
Definition ended (x : exit) (s : system) : Prop := supervised s /\ outcome_of (proc s) = Some x.

Lemma code_step_pending x s s' :
  code_step s s' -> ended x s -> ended x s' /\ pending s = S (pending s') /\ cancelled s' = cancelled s.
Proof.
  intros Hstep [Hs Ho]. pose proof (supervised_code _ _ Hstep Hs) as Hs'.
  destruct Hs as ((Hc & Hch & He & Ha) & Hw & _).
  destruct Hstep as [s H Hn|s e H _|s H _|s e H Hp|s e H Hd|s e p H _ Habort|s e H _ Hst|s e H Hst|s H Hcan];
    try congruence;
    try (rewrite H in Hw; destruct Hw as (Hw & _); by rewrite Hw in Ho); unfold ended, pending; cbn;
    rewrite H; (split; [done|]); (split; [|done]); lia.
Qed.

Lemma code_steps_ended x n s s' :
  nsteps code_step n s s' -> ended x s -> ended x s' /\ pending s = (n + pending s')%nat /\ cancelled s' = cancelled s.
Proof.
  induction 1 as [|n s1 s2 s3 Hstep _ IH]; intros Hs; [done|].
  destruct (code_step_pending x _ _ Hstep Hs) as (H2 & Hn & Hc). destruct (IH H2) as (? & ? & ?).
  split_and!; [done|lia|congruence].
Qed.

(** When no goroutine can go on, the exit has been delivered, and taken unless
    the agent had returned. *)
Lemma ended_stuck x s :
  ended x s -> (forall s', ~ code_step s s') ->
  wait_ s = Delivered /\ (sup s = ReportedExit x \/ sup s = Terminated /\ cancelled s = true).
Proof.
  intros [((Hc & Hch & He & Ha) & Hw & Hr & Ht) Ho] Hstuck. destruct (wait_ s) as [| |e|] eqn:Hwait.
  - destruct Hw as (Hp & _). by rewrite Hp in Ho.
  - exfalso. destruct Hw as (_ & [(H1 & _ & [Hp|[e Hp]])|(H1 & e & H2 & _)]); [by rewrite Hp in Ho|..].
    + by eapply Hstuck, StepReap.
    + by eapply Hstuck, StepDone.
  - exfalso. destruct Hw as (_ & _ & _ & H). by eapply Hstuck, StepSend.
  - split; [done|]. destruct Hw as (_ & _ & e & He' & Hcase). assert (e = x) as -> by congruence.
    destruct (sup s) eqn:Hsup; [|naive_solver|by right; auto].
    exfalso. destruct Hcase as [[H _]|[_ H]]; [|done]. by eapply Hstuck, StepReport.
Qed.

(** An agent without a wrapper starts nothing and can only crash. *)
Definition unwrapped (s : system) : Prop :=
  agent_ s = zero_agent /\ proc s = NotStarted /\ wait_ s = Spawned /\ reap s = NoReaper /\ statusCh s = None /\
  (forall e, sup s <> ReportedExit e) /\ (crashed s = None \/ crashed s = Some NilDereference).

Lemma unwrapped_reachable s : rtc agent_step (start_run zero_agent) s -> unwrapped s.
Proof.
  intros H. remember (start_run zero_agent) as s0 eqn:E0.
  assert (unwrapped s0) as Hs by (subst; split_and!; try done; by left). clear E0.
  induction H as [|s1 s2 s3 [_ Hstep] _ IH]; [done|]. apply IH.
  destruct Hs as (Ha & Hp & Hw & Hre & Hc & Hsup & Hcr).
  destruct Hstep as [Hstep|Hstep]; destruct Hstep; unfold unwrapped; cbn; split_and!;
    try done; try congruence; try (by left); try (by right);
    repeat match goal with
    | H : is_Some (a_envoy (agent_ _)) |- _ => rewrite Ha in H; by destruct H
    end.
Qed.

(** C22: What the agent of [envoy.NewAgent] does over every interleaving of its
    goroutines, its process and the signals.  Nothing panics, an exit is reported
    only after the process ended, with its error, and the agent terminates only
    on a signal.  An exit is not lost: whenever Envoy ended (or did not start),
    the goroutines have at most four steps left in any order, after which its
    error was delivered once, and the agent has reported it, unless it returned
    on the signal.  The process is killed only through the abort channel, on which
    nothing sends, so it never is: the agent can return on a signal while the
    process it started goes on. *)
Theorem agent_supervises (e : Envoy) :
  (forall s, rtc agent_step (start_run (envoy_NewAgent e)) s ->
     crashed s = None /\ abortCh s = None /\ proc s <> Killed /\
     (forall x, sup s = ReportedExit x -> outcome_of (proc s) = Some x /\ statusCh s = None) /\
     (sup s = Terminated -> cancelled s = true) /\
     forall x, outcome_of (proc s) = Some x ->
       (forall n s', nsteps code_step n s s' -> (n <= 4)%nat) /\
       forall s', rtc code_step s s' -> (forall s'', ~ code_step s' s'') ->
         wait_ s' = Delivered /\ (sup s' = ReportedExit x \/ sup s' = Terminated /\ cancelled s = true)) /\
  (forall s x, wait_ s = InRun -> a_channels (agent_ s) = true -> proc s = Running -> abortCh s = Some x ->
     exists s', code_step s s' /\ proc s' = Killed /\ wait_ s' = Got x) /\
  (exists s, rtc agent_step (start_run (envoy_NewAgent e)) s /\ sup s = Terminated /\ proc s = Running).
Proof.
  split; [|split].
  - intros s Hs%supervised_reachable. pose proof (supervised_not_killed s Hs) as Hk. pose proof Hs as Hsup.
    destruct Hs as ((Hc & _ & _ & Ha) & Hw & Hr & Ht). split_and!; try done.
    + intros x Hx. rewrite (Hr x Hx) in Hw. destruct Hw as (_ & _ & y & Hy & [[_ Hn]|[Hnone Hy']]); [by destruct (Hn x)|]. split; [congruence|done].
    + intros x Hx. split.
      * intros n s' (_ & Hn & _)%(code_steps_ended x); [|done].
        unfold pending in Hn. destruct (wait_ s) eqn:Hwait; [by destruct Hw as (Hp & _); rewrite Hp in Hx|..];
          destruct (reap s), (sup s); lia.
      * intros s' [n Hn]%rtc_nsteps Hstuck.
        destruct (code_steps_ended x _ _ _ Hn (conj Hsup Hx)) as (Hend & _ & Hcan).
        rewrite <- Hcan. by apply ended_stuck.
  - intros s x H1 H2 H3 H4. eexists. split; [eapply StepAbort; try done; by right|]. done.
  - eexists. split; [|split].
    + eapply rtc_l; [split; [done|left; apply StepStart; [done|by eexists]]|].
      eapply rtc_l; [split; [done|right; by apply WorldCancel]|].
      eapply rtc_l; [split; [done|left; by apply StepTerminate]|]. apply rtc_refl.
    + done.
    + done.
Qed.

(** ** cmd/envoy-agent/main.go: the command *)

Record ProxyArgs := {
  PodName : string; PodNamespace : string; MeshConfigFile : string; args_ServiceCluster : string;
  ProxyLogLevel : string; ProxyComponentLogLevel : string; args_Concurrency : Z; DNSDomain : string
}.

Definition NewProxyArgs (getenv : string -> string) : ProxyArgs :=
  {| PodName := getenv "POD_NAME"; PodNamespace := getenv "POD_NAMESPACE"; MeshConfigFile := "";
     args_ServiceCluster := ""; ProxyLogLevel := ""; ProxyComponentLogLevel := ""; args_Concurrency := 0;
     DNSDomain := "" |}.

(** The values given on the command line for the five flags. *)
Record Flags := {
  flag_domain : option string; flag_meshConfig : option string; flag_serviceCluster : option string;
  flag_proxyLogLevel : option string; flag_concurrency : option Z
}.

(** [addFlags] and the parsing of the flags: a flag sets its variable to the
    default when it is declared and to its value when it is given. *)
Definition parsed_args (getenv : string -> string) (flags : Flags) : ProxyArgs :=
  let proxyArgs := NewProxyArgs getenv in
  {| PodName := PodName proxyArgs; PodNamespace := PodNamespace proxyArgs;
     MeshConfigFile := default "/etc/istio/config/mesh" (flag_meshConfig flags);
     args_ServiceCluster := default "ai-proxy-gateway" (flag_serviceCluster flags);
     ProxyLogLevel := default "warning" (flag_proxyLogLevel flags);
     ProxyComponentLogLevel := ProxyComponentLogLevel proxyArgs;
     args_Concurrency := default 0 (flag_concurrency flags);
     DNSDomain := default "" (flag_domain flags) |}%string.

(** pkg/agent [Agent.Run]: what it starts. *)
Definition agent_Run (enableEnvoyCoreDump : bool) (agent : Agent) : outcome Empty_set system :=
  let* agent := initEnvoy enableEnvoyCoreDump agent in
  Ret (start_run (agent_envoy agent)).

(** The command up to [wait()]. *)
Definition proxy_RunE {PJ : ProtoJson} (ReadFile : string -> option string) (enableEnvoyCoreDump : bool)
    (proxyArgs : ProxyArgs) : outcome config_error system :=
  let* proxyConfig :=
    ConstructProxyConfig ReadFile (MeshConfigFile proxyArgs) (args_ServiceCluster proxyArgs) (args_Concurrency proxyArgs) in
  let envoyOptions :=
    {| envoy_BinaryPath := ""; AdminPort := 0; envoy_DrainDuration := None; envoy_Concurrency := 0;
       ComponentLogLevel := ProxyComponentLogLevel proxyArgs; SkipDeprecatedLogs := false |} in
  match agent_Run enableEnvoyCoreDump (NewAgent proxyConfig NewAgentOptions envoyOptions) with
  | Ret s => Ret s
  | Err e => match e with end
  | Panic p => Panic p
  end.

Lemma proxy_RunE_starts {PJ : ProtoJson} read coredump args s0 :
  proxy_RunE read coredump args = Ret s0 -> s0 = start_run zero_agent.
Proof.
  unfold proxy_RunE. destruct (ConstructProxyConfig _ _ _ _) as [pc|e|p]; [|done..]. cbn [obind].
  destruct pc as [p|]; [|done]. by intros [= <-].
Qed.

(** The agent that the command runs.  [initEnvoy] drops the agent it makes,
    so, whatever the flags, the environment and the mesh configuration are, what
    [Run] starts has no wrapper and no channels: no process is ever started,
    nothing is ever reported, and the goroutine that would run Envoy crashes the
    program.  Of the flags only --meshConfig has an effect. *)
Theorem program_agent_never_starts {PJ : ProtoJson} read coredump getenv flags s0 :
  proxy_RunE read coredump (parsed_args getenv flags) = Ret s0 ->
  (forall s, rtc agent_step s0 s ->
     proc s = NotStarted /\ (forall x, sup s <> ReportedExit x) /\
     (crashed s = None -> exists s', agent_step s s' /\ crashed s' = Some NilDereference)) /\
  (forall getenv' flags', flag_meshConfig flags' = flag_meshConfig flags ->
     proxy_RunE read coredump (parsed_args getenv' flags') = Ret s0).
Proof.
  intros H. split.
  - apply proxy_RunE_starts in H as ->. intros s Hs.
    destruct (unwrapped_reachable s Hs) as (Ha & Hp & Hw & _ & _ & Hsup & _). split_and!; [done|done|].
    intros Hc. eexists. split; [split; [done|left; apply StepNil; [done|by rewrite Ha]]|done].
  - intros getenv' flags' Hf. rewrite <- H. unfold proxy_RunE, parsed_args. cbn.
    by rewrite Hf.
Qed.

(** The configuration of the proxy ignores the two arguments given with the
    file; without settings in the file it is the default one. *)
Lemma construct_ignores_arguments {PJ : ProtoJson} read file c1 n1 c2 n2 :
  ConstructProxyConfig read file c1 n1 = ConstructProxyConfig read file c2 n2.
Proof. done. Qed.

(** A first attempt that stored something before it failed is kept under the
    second. *)
Lemma partial_merge_kept {PJ : ProtoJson} js pb pb1 pb2 :
  unmarshal_json false js pb = (pb1, true) -> unmarshal_json true js pb1 = (pb2, false) ->
  ApplyJSON js pb = (pb2, false).
Proof. intros H1 H2. unfold ApplyJSON. by rewrite H1. Qed.

(** No argument reaches Envoy. *)
Lemma envoy_runs_without_arguments coredump cfg : command_line (NewEnvoy coredump cfg) = [envoy_BinaryPath cfg].
Proof. done. Qed.


(** ** On a concrete command line *)

#[local] Instance plain_json : ProtoJson := {|
  YAMLToJSON := Some; JSONToYAML := Some;
  unmarshal_json _ _ m := (m, false);
  marshal_json _ _ _ := Some ""%string
|}.

Definition no_flags : Flags :=
  {| flag_domain := None; flag_meshConfig := None; flag_serviceCluster := None; flag_proxyLogLevel := None;
     flag_concurrency := None |}.

Definition some_flags : Flags :=
  {| flag_domain := Some "svc.cluster.local"; flag_meshConfig := None; flag_serviceCluster := Some "gw";
     flag_proxyLogLevel := Some "debug"; flag_concurrency := Some 4 |}%string.

Lemma program_agent_never_starts_witness :
  proxy_RunE (fun _ => Some ""%string) false (parsed_args (fun _ => ""%string) some_flags) =
    Ret (start_run zero_agent) /\
  (forall s, rtc agent_step (start_run zero_agent) s -> proc s = NotStarted).
Proof.
  destruct (program_agent_never_starts (fun _ => Some ""%string) false (fun _ => ""%string) no_flags
              (start_run zero_agent)) as [H1 H2].
  - reflexivity.
  - split; [by apply H2|]. intros s Hs. by apply H1.
Defined.
