(* ===== verification/Pilot.v ===== *)
(** * Pilot: pkg/bootstrap, its options and the CRD client it builds

    The discovery process: its arguments with their defaults (options.go, pkg/
    util, pkg/keepalive, pkg/grpc), the order in which [NewServer] initialises
    the server (server.go, configcontroller.go, servicecontroller.go) and the
    set of resources its CRD client would watch (pkg/config/kube/crdclient,
    with the schemas of Collections).  The xDS server is the one of XdsServer.
    Building Kubernetes clients is a parameter. *)

From S2P Require Import Prelude GoStd Resource Collection Collections XdsServer.

Local Open Scope Z_scope.

(** ** pkg/util/utils.go and pkg/keepalive/options.go *)

Definition LookupEnv (env : string -> option string) (key defaultVal : string) : string :=
  match env key with
  | Some result => result
  | None => defaultVal
  end.

(** A duration counts nanoseconds in an int64. *)
Definition Second : Z := 1000000000.
Definition Infinity : Z := max_int64.

Record KeepaliveOptions := {
  Time : Z;
  Timeout : Z;
  MaxServerConnectionAge : Z;
  MaxServerConnectionAgeGrace : Z
}.

Definition DefaultOption : KeepaliveOptions :=
  {| Time := Second * 30; Timeout := Second * 10;
     MaxServerConnectionAge := Infinity; MaxServerConnectionAgeGrace := 10 * Second |}.

(** ** pkg/grpc/grpc.go *)

(** Go's division of an int64 truncates towards zero. *)
Inductive ServerOption :=
| ChainUnaryInterceptor (interceptors : list string)
| MaxConcurrentStreams (n : Z)
| MaxRecvMsgSize (n : Z)
| KeepaliveEnforcementPolicy (MinTime : Z)
| KeepaliveParams (time timeout maxConnectionAge maxConnectionAgeGrace : Z).

Definition ServerOptions (options : KeepaliveOptions) (interceptors : list string) : list ServerOption :=
  let maxStreams := 100000 in
  let maxRecvMsgSize := 4 * 1024 * 1024 in
  [ChainUnaryInterceptor interceptors;
   MaxConcurrentStreams (wrap_uint32 maxStreams);
   MaxRecvMsgSize maxRecvMsgSize;
   KeepaliveEnforcementPolicy (Z.quot (Time options) 2);
   KeepaliveParams (Time options) (Timeout options) (MaxServerConnectionAge options)
     (MaxServerConnectionAgeGrace options)].

(** ** options.go *)

Record DiscoveryServerOptions := {
  HTTPAddr : string;
  HTTPSAddr : string;
  GRPCAddr : string;
  MonitoringAddr : string;
  EnableProfiling : bool;
  SecureGRPCAddr : string
}.

Record RegistryOptions := {
  FileDir : string;
  Registries : list string;
  ClusterRegistriesNamespace : string;
  KubeConfig : string
}.

Record PilotArgs := {
  PodName : string;
  Namespace : string;
  CniNamespace : string;
  Revision : string;
  MeshConfigFile : string;
  NetworksConfigFile : string;
  ShutdownDuration : Z;
  JwtRule : string;
  args_ServerOptions : DiscoveryServerOptions;
  args_KeepaliveOptions : option KeepaliveOptions;
  args_RegistryOptions : RegistryOptions
}.

Definition zero_args : PilotArgs :=
  {| PodName := ""; Namespace := ""; CniNamespace := ""; Revision := ""; MeshConfigFile := "";
     NetworksConfigFile := ""; ShutdownDuration := 0; JwtRule := "";
     args_ServerOptions := {| HTTPAddr := ""; HTTPSAddr := ""; GRPCAddr := ""; MonitoringAddr := "";
                              EnableProfiling := false; SecureGRPCAddr := "" |};
     args_KeepaliveOptions := None;
     args_RegistryOptions := {| FileDir := ""; Registries := []; ClusterRegistriesNamespace := ""; KubeConfig := "" |} |}.

Definition applyDefaults (env : string -> option string) (p : PilotArgs) : PilotArgs :=
  let namespace := LookupEnv env "PodNamespace" "ai-proxy-gateway-system" in
  {| PodName := LookupEnv env "PodName" ""; Namespace := namespace; CniNamespace := namespace;
     Revision := LookupEnv env "Revision" ""; MeshConfigFile := MeshConfigFile p;
     NetworksConfigFile := NetworksConfigFile p; ShutdownDuration := ShutdownDuration p; JwtRule := JwtRule p;
     args_ServerOptions := args_ServerOptions p;
     args_KeepaliveOptions := Some DefaultOption;
     args_RegistryOptions :=
       {| FileDir := FileDir (args_RegistryOptions p); Registries := Registries (args_RegistryOptions p);
          ClusterRegistriesNamespace := namespace; KubeConfig := KubeConfig (args_RegistryOptions p) |} |}.

Definition NewPilotArgs (env : string -> option string) (initFuncs : list (PilotArgs -> PilotArgs)) : PilotArgs :=
  foldl (fun p fn => fn p) (applyDefaults env zero_args) initFuncs.

(** ** cmd/envoy-controller/main.go: the flags

    The values given on the command line. *)
Record DiscoveryFlags := {
  f_registries : option (list string); f_clusterRegistriesNamespace : option string; f_kubeconfig : option string;
  f_meshConfig : option string; f_networksConfig : option string; f_namespace : option string;
  f_cniNamespace : option string; f_shutdownDuration : option Z; f_httpAddr : option string;
  f_httpsAddr : option string; f_grpcAddr : option string; f_secureGRPCAddr : option string;
  f_monitoringAddr : option string; f_profile : option bool
}.

(** [addFlags] on the arguments of [NewPilotArgs], and parsing: declaring a flag
    sets its variable to the default. *)
Definition discovery_args (env : string -> option string) (f : DiscoveryFlags) : PilotArgs :=
  let p := NewPilotArgs env [id] in
  {| PodName := PodName p;
     Namespace := default "ai-proxy-gateway-system" (f_namespace f);
     CniNamespace := default "ai-proxy-gateway-system" (f_cniNamespace f);
     Revision := Revision p;
     MeshConfigFile := default "./etc/istio/config/mesh" (f_meshConfig f);
     NetworksConfigFile := default "./etc/istio/config/meshNetworks" (f_networksConfig f);
     ShutdownDuration := default (10 * Second) (f_shutdownDuration f);
     JwtRule := JwtRule p;
     args_ServerOptions :=
       {| HTTPAddr := default ":8080" (f_httpAddr f); HTTPSAddr := default ":15017" (f_httpsAddr f);
          GRPCAddr := default ":15010" (f_grpcAddr f); MonitoringAddr := default ":15014" (f_monitoringAddr f);
          EnableProfiling := default true (f_profile f); SecureGRPCAddr := default ":15012" (f_secureGRPCAddr f) |};
     args_KeepaliveOptions := args_KeepaliveOptions p;
     args_RegistryOptions :=
       {| FileDir := FileDir (args_RegistryOptions p);
          Registries := default ["Kubernetes"] (f_registries f);
          ClusterRegistriesNamespace :=
            default (ClusterRegistriesNamespace (args_RegistryOptions p)) (f_clusterRegistriesNamespace f);
          KubeConfig := default "" (f_kubeconfig f) |} |}%string.

(** The flag's default hides the environment: without --namespace the namespace
    is the same whatever PodNamespace is, while the registries' one follows it. *)
Lemma namespace_ignores_environment env env' f :
  Namespace (discovery_args env f) = Namespace (discovery_args env' f) /\
  (f_clusterRegistriesNamespace f = None ->
   ClusterRegistriesNamespace (args_RegistryOptions (discovery_args env f)) =
     LookupEnv env "PodNamespace" "ai-proxy-gateway-system").
Proof. split; [done|]. intros H. cbn. by rewrite H. Qed.

Section Pilot.
Context {GV : GoValues} {PT : ProtoTypes} {RL : RateLimiter}.

(** ** pkg/config/kube/crdclient/client.go *)

(** The client by its schemas, and the names of the CRDs it watches, in the
    order of the schemas. *)
Record Client := { client_schemas : Schemas; crds : list string }.

Definition crd_name (s : schemaImpl) : string := Plural s +:+ "." +:+ Group s.

Definition NewForSchemas (schemas : Schemas) : Client :=
  {| client_schemas := schemas; crds := map crd_name (byAddOrder schemas) |}.

(** The kinds in the order of the range, each with whether its collection has
    synced. *)
Fixpoint informerSynced (kinds : list (GroupVersionKind * bool)) : bool :=
  match kinds with
  | [] => true
  | (_, synced) :: rest => if negb synced then false else informerSynced rest
  end.

(** ** server.go, configcontroller.go and servicecontroller.go *)

Context {Generator : Type} (CdsGenerator : Generator).

Inductive pilot_error := KubeConfigFailed | KubeClientFailed | ListenFailed.

(** The server; [stores_running] counts the stores whose goroutine was started. *)
Record Server := {
  xdsServer : DiscoveryServer (Generator := Generator);
  configController : option Client;
  ConfigStores : list Client;
  stores_running : nat;
  kubeClient : bool;
  clusterID : string;
  grpcServer : option (list ServerOption);
  grpcAddress : string
}.

Definition set_xds (x : DiscoveryServer) (s : Server) : Server :=
  {| xdsServer := x; configController := configController s; ConfigStores := ConfigStores s;
     stores_running := stores_running s; kubeClient := kubeClient s; clusterID := clusterID s;
     grpcServer := grpcServer s; grpcAddress := grpcAddress s |}.

Definition set_grpc (g : option (list ServerOption)) (s : Server) : Server :=
  {| xdsServer := xdsServer s; configController := configController s; ConfigStores := ConfigStores s;
     stores_running := stores_running s; kubeClient := kubeClient s; clusterID := clusterID s;
     grpcServer := g; grpcAddress := grpcAddress s |}.

Definition set_stores (stores : list Client) (running : nat) (s : Server) : Server :=
  {| xdsServer := xdsServer s; configController := configController s; ConfigStores := stores;
     stores_running := running; kubeClient := kubeClient s; clusterID := clusterID s;
     grpcServer := grpcServer s; grpcAddress := grpcAddress s |}.

Definition set_kube (b : bool) (s : Server) : Server :=
  {| xdsServer := xdsServer s; configController := configController s; ConfigStores := ConfigStores s;
     stores_running := stores_running s; kubeClient := b; clusterID := clusterID s;
     grpcServer := grpcServer s; grpcAddress := grpcAddress s |}.

(** Called by nothing. *)
Definition initKubeClient (rest_config_ok kube_client_ok : bool) (s : Server) : outcome pilot_error Server :=
  if kubeClient s then Ret s
  else if negb rest_config_ok then Err KubeConfigFailed
  else if negb kube_client_ok then Err KubeClientFailed
  else Ret (set_kube true s).

Definition initGrpcServer (options : option KeepaliveOptions) (s : Server) : outcome pilot_error Server :=
  let* options := deref options in
  Ret (set_grpc (Some (ServerOptions options ["grpcprom.UnaryServerInterceptor"%string])) s).

Definition initServers (args : PilotArgs) (s : Server) : outcome pilot_error Server :=
  initGrpcServer (args_KeepaliveOptions args) s.

Definition InitDiscoveryServerGenerators (s : Server) : Server :=
  set_xds {| serverReady := serverReady (xdsServer s); RequestRateLimit := RequestRateLimit (xdsServer s);
             InboundUpdates := InboundUpdates (xdsServer s); CommittedUpdates := CommittedUpdates (xdsServer s);
             Generators := {[ "type.googleapis.com/envoy.config.cluster.v3.Cluster"%string := Some CdsGenerator ]} |} s.

(** Package variables that panic while they are initialised panic here. *)
Definition package_var {E A B} (x : outcome E A) (k : A -> outcome B Client) : outcome B Client :=
  match x with
  | Ret a => k a
  | Err _ => Panic ExplicitPanic
  | Panic p => Panic p
  end.

Definition makeKubeConfigController : outcome pilot_error Client :=
  package_var GatewayAPI (fun schemas =>
  package_var InferencePool (fun pool =>
  package_var (Schemas_Add schemas [pool]) (fun schemas => Ret (NewForSchemas schemas)))).

(** Without a client there is no store, and no error. *)
Definition initK8SConfigStore (s : Server) : outcome pilot_error Server :=
  if negb (kubeClient s) then Ret s
  else
    let* configController := makeKubeConfigController in
    Ret (set_stores (ConfigStores s ++ [configController]) (stores_running s) s).

Definition initConfigSources (s : Server) : outcome pilot_error Server := initK8SConfigStore s.

Definition initConfigController (s : Server) : outcome pilot_error Server :=
  let* s := initConfigSources s in
  Ret (set_stores (ConfigStores s) (length (ConfigStores s)) s).

Definition initServiceController (s : Server) : outcome pilot_error Server := Ret s.

Definition initControllers (s : Server) : outcome pilot_error Server :=
  let* s := initConfigController s in
  initServiceController s.

(** [initFuncs] is not called. *)
Definition NewServer (args : PilotArgs) (initFuncs : list (Server -> Server)) : outcome pilot_error Server :=
  let s := {| xdsServer := NewDiscoveryServer; configController := None; ConfigStores := []; stores_running := 0;
              kubeClient := false; clusterID := "Kubernetes"; grpcServer := None;
              grpcAddress := GRPCAddr (args_ServerOptions args) |} in
  let* s := initServers args s in
  let s := InitDiscoveryServerGenerators s in
  initControllers s.

(** [Start] serves as soon as it listens and returns; the process then waits for
    nothing. *)
Definition Start (listen_ok : bool) (s : Server) : outcome pilot_error Server :=
  if negb listen_ok then Err ListenFailed
  else match grpcServer s with None => Panic NilDereference | Some _ => Ret s end.

Definition WaitUntilCompletion (s : Server) : Server := s.

(** The discovery command: it makes the server, starts it and waits. *)
Definition discovery_RunE (args : PilotArgs) (listen_ok : bool) : outcome pilot_error unit :=
  let* discoveryServer := NewServer args [] in
  let* s := Start listen_ok discoveryServer in
  let _ := WaitUntilCompletion s in
  Ret tt.

End Pilot.

(** ** The discovery process serves nobody *)

(** On an address it can listen on, the command ends at once: nothing waits for
    the server. *)
Lemma discovery_command_ends {GV : GoValues} {PT : ProtoTypes} {RL : RateLimiter} {Generator : Type}
    (CdsGenerator : Generator) env f :
  discovery_RunE CdsGenerator (discovery_args env f) true = Ret tt.
Proof. reflexivity. Qed.


Module PilotExample.

Definition values : GoValues := {| Value := string; zero_value _ := ""%string |}.
Definition types : ProtoTypes := {| FindMessageByName _ := None |}.
Definition limiter : RateLimiter := {| Limiter := unit; unlimited _ := true; Wait _ := None |}.

End PilotExample.

(** The server of the command refuses streams. *)
Lemma command_server_refuses :
  exists s, NewServer (GV := PilotExample.values) (PT := PilotExample.types) (RL := PilotExample.limiter) ()
      (NewPilotArgs (fun _ => None) []) [] = Ret s /\
    admit_stream (xdsServer s) = Err Unavailable.
Proof. eexists. split; reflexivity. Qed.

(** The resources that a client would watch: those of the Gateway API
    collection, which holds two of Istio's, and the inference pools, under
    distinct CRD names. *)
Theorem store_watches {GV : GoValues} {PT : ProtoTypes} :
  exists c, makeKubeConfigController = Ret c /\
    crds c =
      ["backendtlspolicies.gateway.networking.k8s.io"; "envoyfilters.networking.istio.io";
       "grpcroutes.gateway.networking.k8s.io"; "gatewayclasses.gateway.networking.k8s.io";
       "httproutes.gateway.networking.k8s.io"; "gateways.gateway.networking.k8s.io";
       "referencegrants.gateway.networking.k8s.io"; "wasmplugins.extensions.istio.io";
       "inferencepools.inference.networking.k8s.io"]%string /\
    NoDup (crds c) /\
    map crd_name (byAddOrder (client_schemas c)) = crds c.
Proof.
  eexists. split; [reflexivity|].
  split; [vm_compute; reflexivity|]. split; [|done].
  apply (bool_decide_unpack _). vm_compute. exact I.
Qed.
