(* ===== verification/CrdClient.v ===== *)
(** * CrdClient: pkg/config/kube/crdclient/types.gen.go

    How a configuration object is written through the typed client of its kind
    and read back from the objects of the API server: the five switches over the
    GroupVersionKind and the translation map, as generated.  The clientsets are
    a parameter ([Clientsets]): a typed client is known by the calls that reach
    it.  The struct types of the API packages are a parameter ([GoObjects]):
    the types of the fields Spec and Status of an object type. *)

From S2P Require Import Prelude Resource Gvk K8s.
Import Resource.

Local Open Scope string_scope.

(** ** Objects *)

(** metav1.ObjectMeta. *)
Record ObjectMeta := {
  om_Name : string; om_Namespace : string;
  om_Labels : gmap string string; om_Annotations : gmap string string;
  om_ResourceVersion : string; om_CreationTimestamp : Z;
  om_OwnerReferences : list OwnerReference; om_UID : string; om_Generation : Z
}.

(** A non-nil pointer to an API object: its type, its metadata and the contents
    of the rest. *)
Record Object `{GoValues} := {
  obj_type : GoType;
  obj_meta : ObjectMeta;
  obj_spec : Value;
  obj_status : Value
}.

(** The types of the fields Spec and Status of an object type, and the contents
    of a whole object. *)
Class GoObjects `{GoValues} := {
  spec_type : GoType -> GoType;
  status_type : GoType -> GoType;
  object_value : Object -> Value
}.

(** A typed client: c.Getter().Group().Resource(namespace), the namespace
    missing for a cluster-scoped resource. *)
Record TypedClient := {
  tc_getter : string; tc_group : string; tc_resource : string; tc_namespace : option string
}.

#[export] Instance TypedClient_eq_dec : EqDecision TypedClient.
Proof. solve_decision. Defined.

Definition client (getter group resource : string) (namespace : option string) : TypedClient :=
  {| tc_getter := getter; tc_group := group; tc_resource := resource; tc_namespace := namespace |}.

Inductive crd_error :=
| UnsupportedType (g : GroupVersionKind)
| GvkMismatch (orig modified : GroupVersionKind)
| PatchBytes (e : api_error)
| Api (e : api_error).

(** The calls on a typed client, and [genPatchBytes], which types.gen.go calls
    and no file of the repository declares. *)
Class Clientsets (W : Type) `{GoValues} := {
  client_create : W -> TypedClient -> Object -> (api_error + Object) * W;
  client_update : W -> TypedClient -> Object -> (api_error + Object) * W;
  client_update_status : W -> TypedClient -> Object -> (api_error + Object) * W;
  client_patch : W -> TypedClient -> string -> string -> string -> string -> (api_error + Object) * W;
  client_delete : W -> TypedClient -> string -> option string -> option api_error * W;
  genPatchBytes : Object -> Object -> string -> api_error + string
}.

(** [import alias "path"] and [alias.name]. *)
Definition named (imports : list (string * string)) (alias name : string) : GoType :=
  {| type_pkg := switch alias imports ""; type_name := name |}.

Definition crdclient_imports : list (string * string) :=
  [("metav1", "k8s.io/apimachinery/pkg/apis/meta/v1");
   ("k8sioapiappsv1", "k8s.io/api/apps/v1");
   ("k8sioapicorev1", "k8s.io/api/core/v1");
   ("k8sioapidiscoveryv1", "k8s.io/api/discovery/v1");
   ("sigsk8siogatewayapiinferenceextensionapiv1", "sigs.k8s.io/gateway-api-inference-extension/api/v1");
   ("sigsk8siogatewayapiapisv1", "sigs.k8s.io/gateway-api/apis/v1");
   ("sigsk8siogatewayapiapisv1alpha2", "sigs.k8s.io/gateway-api/apis/v1alpha2");
   ("sigsk8siogatewayapiapisv1beta1", "sigs.k8s.io/gateway-api/apis/v1beta1");
   ("sigsk8siogatewayapiapisxv1alpha1", "sigs.k8s.io/gateway-api/apisx/v1alpha1");
   ("istioioapiextensionsv1alpha1", "istio.io/api/extensions/v1alpha1");
   ("istioioapimetav1alpha1", "istio.io/api/meta/v1alpha1");
   ("istioioapinetworkingv1alpha3", "istio.io/api/networking/v1alpha3");
   ("apiistioioapiextensionsv1alpha1", "istio.io/client-go/pkg/apis/extensions/v1alpha1");
   ("apiistioioapinetworkingv1alpha3", "istio.io/client-go/pkg/apis/networking/v1alpha3")].

(** A type named through an import alias of the file. *)
Definition crd_type : string -> string -> GoType := named crdclient_imports.

Section CrdClient.
Context {W : Type} {GV : GoValues} {GO : GoObjects} {CS : Clientsets W}.

(** [*(v.( *t))]: panics unless [v] is a pointer to a [t]. *)
Definition assert_deref (t : GoType) (v : any) : outcome crd_error Value :=
  match v with
  | AnyPtr t' x => if bool_decide (t' = t) then Ret x else Panic TypeAssertion
  | AnyNil => Panic TypeAssertion
  end.

(** [r.( *t)]. *)
Definition assert_object (t : GoType) (r : Object) : outcome crd_error Object :=
  if bool_decide (obj_type r = t) then Ret r else Panic TypeAssertion.

(** The object and the error a client call returns. *)
Definition api_result (r : api_error + Object) : kube W crd_error Object :=
  match r with inl e => kerr (Api e) | inr o => kret o end.

(** &T{ObjectMeta: m, Spec: s} and &T{ObjectMeta: m, Status: s}. *)
Definition with_spec (t : GoType) (m : ObjectMeta) (s : Value) : Object :=
  {| obj_type := t; obj_meta := m; obj_spec := s; obj_status := zero_value (status_type t) |}.
Definition with_status (t : GoType) (m : ObjectMeta) (s : Value) : Object :=
  {| obj_type := t; obj_meta := m; obj_spec := zero_value (spec_type t); obj_status := s |}.

(** ** The cases of the switches *)

Definition create_case (c : TypedClient) (t spec : GoType) (cfg : Config) (objMeta : ObjectMeta)
    : kube W crd_error Object :=
  do! s := klift (assert_deref spec (config_Spec cfg)) in
  do! r := kdo (fun w => client_create w c (with_spec t objMeta s)) in
  api_result r.

Definition update_case (c : TypedClient) (t spec : GoType) (cfg : Config) (objMeta : ObjectMeta)
    : kube W crd_error Object :=
  do! s := klift (assert_deref spec (config_Spec cfg)) in
  do! r := kdo (fun w => client_update w c (with_spec t objMeta s)) in
  api_result r.

Definition updateStatus_case (c : TypedClient) (t status : GoType) (cfg : Config) (objMeta : ObjectMeta)
    : kube W crd_error Object :=
  do! s := klift (assert_deref status (config_Status cfg)) in
  do! r := kdo (fun w => client_update_status w c (with_status t objMeta s)) in
  api_result r.

Definition patch_case (c : TypedClient) (t spec : GoType) (orig : Config) (origMeta : ObjectMeta)
    (modified : Config) (modMeta : ObjectMeta) (typ : string) : kube W crd_error Object :=
  do! s := klift (assert_deref spec (config_Spec orig)) in
  let oldRes := with_spec t origMeta s in
  do! s' := klift (assert_deref spec (config_Spec modified)) in
  let modRes := with_spec t modMeta s' in
  match genPatchBytes oldRes modRes typ with
  | inl err => kerr (PatchBytes err)
  | inr patchBytes =>
      do! r := kdo (fun w =>
        client_patch w c (meta_Name (config_Meta orig)) typ patchBytes "pilot-discovery") in
      api_result r
  end.

Definition delete_case (c : TypedClient) (name : string) (deleteOptions : option string)
    : kube W crd_error unit :=
  do! e := kdo (fun w => client_delete w c name deleteOptions) in
  match e with Some e => kerr (Api e) | None => kret tt end.

(** ** The switches *)

Definition create (cfg : Config) (objMeta : ObjectMeta) : kube W crd_error Object :=
  switch (meta_GroupVersionKind (config_Meta cfg))
    [(Gvk.BackendTLSPolicy, create_case (client "GatewayAPI" "GatewayV1" "BackendTLSPolicies" (Some (meta_Namespace (config_Meta cfg))))
        (crd_type "sigsk8siogatewayapiapisv1" "BackendTLSPolicy") (crd_type "sigsk8siogatewayapiapisv1" "BackendTLSPolicySpec") cfg objMeta);
     (Gvk.EnvoyFilter, create_case (client "Istio" "NetworkingV1alpha3" "EnvoyFilters" (Some (meta_Namespace (config_Meta cfg))))
        (crd_type "apiistioioapinetworkingv1alpha3" "EnvoyFilter") (crd_type "istioioapinetworkingv1alpha3" "EnvoyFilter") cfg objMeta);
     (Gvk.GRPCRoute, create_case (client "GatewayAPI" "GatewayV1" "GRPCRoutes" (Some (meta_Namespace (config_Meta cfg))))
        (crd_type "sigsk8siogatewayapiapisv1" "GRPCRoute") (crd_type "sigsk8siogatewayapiapisv1" "GRPCRouteSpec") cfg objMeta);
     (Gvk.GatewayClass, create_case (client "GatewayAPI" "GatewayV1" "GatewayClasses" None)
        (crd_type "sigsk8siogatewayapiapisv1" "GatewayClass") (crd_type "sigsk8siogatewayapiapisv1" "GatewayClassSpec") cfg objMeta);
     (Gvk.HTTPRoute, create_case (client "GatewayAPI" "GatewayV1" "HTTPRoutes" (Some (meta_Namespace (config_Meta cfg))))
        (crd_type "sigsk8siogatewayapiapisv1" "HTTPRoute") (crd_type "sigsk8siogatewayapiapisv1" "HTTPRouteSpec") cfg objMeta);
     (Gvk.InferencePool, create_case (client "GatewayAPIInference" "InferenceV1" "InferencePools" (Some (meta_Namespace (config_Meta cfg))))
        (crd_type "sigsk8siogatewayapiinferenceextensionapiv1" "InferencePool") (crd_type "sigsk8siogatewayapiinferenceextensionapiv1" "InferencePoolSpec") cfg objMeta);
     (Gvk.KubernetesGateway, create_case (client "GatewayAPI" "GatewayV1" "Gateways" (Some (meta_Namespace (config_Meta cfg))))
        (crd_type "sigsk8siogatewayapiapisv1" "Gateway") (crd_type "sigsk8siogatewayapiapisv1" "GatewaySpec") cfg objMeta);
     (Gvk.ReferenceGrant, create_case (client "GatewayAPI" "GatewayV1beta1" "ReferenceGrants" (Some (meta_Namespace (config_Meta cfg))))
        (crd_type "sigsk8siogatewayapiapisv1beta1" "ReferenceGrant") (crd_type "sigsk8siogatewayapiapisv1beta1" "ReferenceGrantSpec") cfg objMeta);
     (Gvk.TCPRoute, create_case (client "GatewayAPI" "GatewayV1alpha2" "TCPRoutes" (Some (meta_Namespace (config_Meta cfg))))
        (crd_type "sigsk8siogatewayapiapisv1alpha2" "TCPRoute") (crd_type "sigsk8siogatewayapiapisv1alpha2" "TCPRouteSpec") cfg objMeta);
     (Gvk.TLSRoute, create_case (client "GatewayAPI" "GatewayV1alpha2" "TLSRoutes" (Some (meta_Namespace (config_Meta cfg))))
        (crd_type "sigsk8siogatewayapiapisv1alpha2" "TLSRoute") (crd_type "sigsk8siogatewayapiapisv1alpha2" "TLSRouteSpec") cfg objMeta);
     (Gvk.UDPRoute, create_case (client "GatewayAPI" "GatewayV1alpha2" "UDPRoutes" (Some (meta_Namespace (config_Meta cfg))))
        (crd_type "sigsk8siogatewayapiapisv1alpha2" "UDPRoute") (crd_type "sigsk8siogatewayapiapisv1alpha2" "UDPRouteSpec") cfg objMeta);
     (Gvk.WasmPlugin, create_case (client "Istio" "ExtensionsV1alpha1" "WasmPlugins" (Some (meta_Namespace (config_Meta cfg))))
        (crd_type "apiistioioapiextensionsv1alpha1" "WasmPlugin") (crd_type "istioioapiextensionsv1alpha1" "WasmPlugin") cfg objMeta);
     (Gvk.XBackendTrafficPolicy, create_case (client "GatewayAPI" "ExperimentalV1alpha1" "XBackendTrafficPolicies" (Some (meta_Namespace (config_Meta cfg))))
        (crd_type "sigsk8siogatewayapiapisxv1alpha1" "XBackendTrafficPolicy") (crd_type "sigsk8siogatewayapiapisxv1alpha1" "BackendTrafficPolicySpec") cfg objMeta)]
    (kerr (UnsupportedType (meta_GroupVersionKind (config_Meta cfg)))).

Definition update (cfg : Config) (objMeta : ObjectMeta) : kube W crd_error Object :=
  switch (meta_GroupVersionKind (config_Meta cfg))
    [(Gvk.BackendTLSPolicy, update_case (client "GatewayAPI" "GatewayV1" "BackendTLSPolicies" (Some (meta_Namespace (config_Meta cfg))))
        (crd_type "sigsk8siogatewayapiapisv1" "BackendTLSPolicy") (crd_type "sigsk8siogatewayapiapisv1" "BackendTLSPolicySpec") cfg objMeta);
     (Gvk.EnvoyFilter, update_case (client "Istio" "NetworkingV1alpha3" "EnvoyFilters" (Some (meta_Namespace (config_Meta cfg))))
        (crd_type "apiistioioapinetworkingv1alpha3" "EnvoyFilter") (crd_type "istioioapinetworkingv1alpha3" "EnvoyFilter") cfg objMeta);
     (Gvk.GRPCRoute, update_case (client "GatewayAPI" "GatewayV1" "GRPCRoutes" (Some (meta_Namespace (config_Meta cfg))))
        (crd_type "sigsk8siogatewayapiapisv1" "GRPCRoute") (crd_type "sigsk8siogatewayapiapisv1" "GRPCRouteSpec") cfg objMeta);
     (Gvk.GatewayClass, update_case (client "GatewayAPI" "GatewayV1" "GatewayClasses" None)
        (crd_type "sigsk8siogatewayapiapisv1" "GatewayClass") (crd_type "sigsk8siogatewayapiapisv1" "GatewayClassSpec") cfg objMeta);
     (Gvk.HTTPRoute, update_case (client "GatewayAPI" "GatewayV1" "HTTPRoutes" (Some (meta_Namespace (config_Meta cfg))))
        (crd_type "sigsk8siogatewayapiapisv1" "HTTPRoute") (crd_type "sigsk8siogatewayapiapisv1" "HTTPRouteSpec") cfg objMeta);
     (Gvk.InferencePool, update_case (client "GatewayAPIInference" "InferenceV1" "InferencePools" (Some (meta_Namespace (config_Meta cfg))))
        (crd_type "sigsk8siogatewayapiinferenceextensionapiv1" "InferencePool") (crd_type "sigsk8siogatewayapiinferenceextensionapiv1" "InferencePoolSpec") cfg objMeta);
     (Gvk.KubernetesGateway, update_case (client "GatewayAPI" "GatewayV1" "Gateways" (Some (meta_Namespace (config_Meta cfg))))
        (crd_type "sigsk8siogatewayapiapisv1" "Gateway") (crd_type "sigsk8siogatewayapiapisv1" "GatewaySpec") cfg objMeta);
     (Gvk.ReferenceGrant, update_case (client "GatewayAPI" "GatewayV1beta1" "ReferenceGrants" (Some (meta_Namespace (config_Meta cfg))))
        (crd_type "sigsk8siogatewayapiapisv1beta1" "ReferenceGrant") (crd_type "sigsk8siogatewayapiapisv1beta1" "ReferenceGrantSpec") cfg objMeta);
     (Gvk.TCPRoute, update_case (client "GatewayAPI" "GatewayV1alpha2" "TCPRoutes" (Some (meta_Namespace (config_Meta cfg))))
        (crd_type "sigsk8siogatewayapiapisv1alpha2" "TCPRoute") (crd_type "sigsk8siogatewayapiapisv1alpha2" "TCPRouteSpec") cfg objMeta);
     (Gvk.TLSRoute, update_case (client "GatewayAPI" "GatewayV1alpha2" "TLSRoutes" (Some (meta_Namespace (config_Meta cfg))))
        (crd_type "sigsk8siogatewayapiapisv1alpha2" "TLSRoute") (crd_type "sigsk8siogatewayapiapisv1alpha2" "TLSRouteSpec") cfg objMeta);
     (Gvk.UDPRoute, update_case (client "GatewayAPI" "GatewayV1alpha2" "UDPRoutes" (Some (meta_Namespace (config_Meta cfg))))
        (crd_type "sigsk8siogatewayapiapisv1alpha2" "UDPRoute") (crd_type "sigsk8siogatewayapiapisv1alpha2" "UDPRouteSpec") cfg objMeta);
     (Gvk.WasmPlugin, update_case (client "Istio" "ExtensionsV1alpha1" "WasmPlugins" (Some (meta_Namespace (config_Meta cfg))))
        (crd_type "apiistioioapiextensionsv1alpha1" "WasmPlugin") (crd_type "istioioapiextensionsv1alpha1" "WasmPlugin") cfg objMeta);
     (Gvk.XBackendTrafficPolicy, update_case (client "GatewayAPI" "ExperimentalV1alpha1" "XBackendTrafficPolicies" (Some (meta_Namespace (config_Meta cfg))))
        (crd_type "sigsk8siogatewayapiapisxv1alpha1" "XBackendTrafficPolicy") (crd_type "sigsk8siogatewayapiapisxv1alpha1" "BackendTrafficPolicySpec") cfg objMeta)]
    (kerr (UnsupportedType (meta_GroupVersionKind (config_Meta cfg)))).

Definition updateStatus (cfg : Config) (objMeta : ObjectMeta) : kube W crd_error Object :=
  switch (meta_GroupVersionKind (config_Meta cfg))
    [(Gvk.BackendTLSPolicy, updateStatus_case (client "GatewayAPI" "GatewayV1" "BackendTLSPolicies" (Some (meta_Namespace (config_Meta cfg))))
        (crd_type "sigsk8siogatewayapiapisv1" "BackendTLSPolicy") (crd_type "sigsk8siogatewayapiapisv1" "PolicyStatus") cfg objMeta);
     (Gvk.EnvoyFilter, updateStatus_case (client "Istio" "NetworkingV1alpha3" "EnvoyFilters" (Some (meta_Namespace (config_Meta cfg))))
        (crd_type "apiistioioapinetworkingv1alpha3" "EnvoyFilter") (crd_type "istioioapimetav1alpha1" "IstioStatus") cfg objMeta);
     (Gvk.GRPCRoute, updateStatus_case (client "GatewayAPI" "GatewayV1" "GRPCRoutes" (Some (meta_Namespace (config_Meta cfg))))
        (crd_type "sigsk8siogatewayapiapisv1" "GRPCRoute") (crd_type "sigsk8siogatewayapiapisv1" "GRPCRouteStatus") cfg objMeta);
     (Gvk.GatewayClass, updateStatus_case (client "GatewayAPI" "GatewayV1" "GatewayClasses" None)
        (crd_type "sigsk8siogatewayapiapisv1" "GatewayClass") (crd_type "sigsk8siogatewayapiapisv1" "GatewayClassStatus") cfg objMeta);
     (Gvk.HTTPRoute, updateStatus_case (client "GatewayAPI" "GatewayV1" "HTTPRoutes" (Some (meta_Namespace (config_Meta cfg))))
        (crd_type "sigsk8siogatewayapiapisv1" "HTTPRoute") (crd_type "sigsk8siogatewayapiapisv1" "HTTPRouteStatus") cfg objMeta);
     (Gvk.InferencePool, updateStatus_case (client "GatewayAPIInference" "InferenceV1" "InferencePools" (Some (meta_Namespace (config_Meta cfg))))
        (crd_type "sigsk8siogatewayapiinferenceextensionapiv1" "InferencePool") (crd_type "sigsk8siogatewayapiinferenceextensionapiv1" "InferencePoolStatus") cfg objMeta);
     (Gvk.KubernetesGateway, updateStatus_case (client "GatewayAPI" "GatewayV1" "Gateways" (Some (meta_Namespace (config_Meta cfg))))
        (crd_type "sigsk8siogatewayapiapisv1" "Gateway") (crd_type "sigsk8siogatewayapiapisv1" "GatewayStatus") cfg objMeta);
     (Gvk.TCPRoute, updateStatus_case (client "GatewayAPI" "GatewayV1alpha2" "TCPRoutes" (Some (meta_Namespace (config_Meta cfg))))
        (crd_type "sigsk8siogatewayapiapisv1alpha2" "TCPRoute") (crd_type "sigsk8siogatewayapiapisv1alpha2" "TCPRouteStatus") cfg objMeta);
     (Gvk.TLSRoute, updateStatus_case (client "GatewayAPI" "GatewayV1alpha2" "TLSRoutes" (Some (meta_Namespace (config_Meta cfg))))
        (crd_type "sigsk8siogatewayapiapisv1alpha2" "TLSRoute") (crd_type "sigsk8siogatewayapiapisv1alpha2" "TLSRouteStatus") cfg objMeta);
     (Gvk.UDPRoute, updateStatus_case (client "GatewayAPI" "GatewayV1alpha2" "UDPRoutes" (Some (meta_Namespace (config_Meta cfg))))
        (crd_type "sigsk8siogatewayapiapisv1alpha2" "UDPRoute") (crd_type "sigsk8siogatewayapiapisv1alpha2" "UDPRouteStatus") cfg objMeta);
     (Gvk.WasmPlugin, updateStatus_case (client "Istio" "ExtensionsV1alpha1" "WasmPlugins" (Some (meta_Namespace (config_Meta cfg))))
        (crd_type "apiistioioapiextensionsv1alpha1" "WasmPlugin") (crd_type "istioioapimetav1alpha1" "IstioStatus") cfg objMeta);
     (Gvk.XBackendTrafficPolicy, updateStatus_case (client "GatewayAPI" "ExperimentalV1alpha1" "XBackendTrafficPolicies" (Some (meta_Namespace (config_Meta cfg))))
        (crd_type "sigsk8siogatewayapiapisxv1alpha1" "XBackendTrafficPolicy") (crd_type "sigsk8siogatewayapiapisxv1alpha1" "PolicyStatus") cfg objMeta)]
    (kerr (UnsupportedType (meta_GroupVersionKind (config_Meta cfg)))).

Definition patch_cases_1 (orig : Config) (origMeta : ObjectMeta) (modified : Config) (modMeta : ObjectMeta)
    (typ : string) : list (GroupVersionKind * kube W crd_error Object) :=
    [(Gvk.BackendTLSPolicy, patch_case (client "GatewayAPI" "GatewayV1" "BackendTLSPolicies" (Some (meta_Namespace (config_Meta orig))))
        (crd_type "sigsk8siogatewayapiapisv1" "BackendTLSPolicy") (crd_type "sigsk8siogatewayapiapisv1" "BackendTLSPolicySpec") orig origMeta modified modMeta typ);
     (Gvk.EnvoyFilter, patch_case (client "Istio" "NetworkingV1alpha3" "EnvoyFilters" (Some (meta_Namespace (config_Meta orig))))
        (crd_type "apiistioioapinetworkingv1alpha3" "EnvoyFilter") (crd_type "istioioapinetworkingv1alpha3" "EnvoyFilter") orig origMeta modified modMeta typ);
     (Gvk.GRPCRoute, patch_case (client "GatewayAPI" "GatewayV1" "GRPCRoutes" (Some (meta_Namespace (config_Meta orig))))
        (crd_type "sigsk8siogatewayapiapisv1" "GRPCRoute") (crd_type "sigsk8siogatewayapiapisv1" "GRPCRouteSpec") orig origMeta modified modMeta typ);
     (Gvk.GatewayClass, patch_case (client "GatewayAPI" "GatewayV1" "GatewayClasses" None)
        (crd_type "sigsk8siogatewayapiapisv1" "GatewayClass") (crd_type "sigsk8siogatewayapiapisv1" "GatewayClassSpec") orig origMeta modified modMeta typ);
     (Gvk.HTTPRoute, patch_case (client "GatewayAPI" "GatewayV1" "HTTPRoutes" (Some (meta_Namespace (config_Meta orig))))
        (crd_type "sigsk8siogatewayapiapisv1" "HTTPRoute") (crd_type "sigsk8siogatewayapiapisv1" "HTTPRouteSpec") orig origMeta modified modMeta typ);
     (Gvk.InferencePool, patch_case (client "GatewayAPIInference" "InferenceV1" "InferencePools" (Some (meta_Namespace (config_Meta orig))))
        (crd_type "sigsk8siogatewayapiinferenceextensionapiv1" "InferencePool") (crd_type "sigsk8siogatewayapiinferenceextensionapiv1" "InferencePoolSpec") orig origMeta modified modMeta typ);
     (Gvk.KubernetesGateway, patch_case (client "GatewayAPI" "GatewayV1" "Gateways" (Some (meta_Namespace (config_Meta orig))))
        (crd_type "sigsk8siogatewayapiapisv1" "Gateway") (crd_type "sigsk8siogatewayapiapisv1" "GatewaySpec") orig origMeta modified modMeta typ)].

Definition patch_cases_2 (orig : Config) (origMeta : ObjectMeta) (modified : Config) (modMeta : ObjectMeta)
    (typ : string) : list (GroupVersionKind * kube W crd_error Object) :=
    [(Gvk.ReferenceGrant, patch_case (client "GatewayAPI" "GatewayV1beta1" "ReferenceGrants" (Some (meta_Namespace (config_Meta orig))))
        (crd_type "sigsk8siogatewayapiapisv1beta1" "ReferenceGrant") (crd_type "sigsk8siogatewayapiapisv1beta1" "ReferenceGrantSpec") orig origMeta modified modMeta typ);
     (Gvk.TCPRoute, patch_case (client "GatewayAPI" "GatewayV1alpha2" "TCPRoutes" (Some (meta_Namespace (config_Meta orig))))
        (crd_type "sigsk8siogatewayapiapisv1alpha2" "TCPRoute") (crd_type "sigsk8siogatewayapiapisv1alpha2" "TCPRouteSpec") orig origMeta modified modMeta typ);
     (Gvk.TLSRoute, patch_case (client "GatewayAPI" "GatewayV1alpha2" "TLSRoutes" (Some (meta_Namespace (config_Meta orig))))
        (crd_type "sigsk8siogatewayapiapisv1alpha2" "TLSRoute") (crd_type "sigsk8siogatewayapiapisv1alpha2" "TLSRouteSpec") orig origMeta modified modMeta typ);
     (Gvk.UDPRoute, patch_case (client "GatewayAPI" "GatewayV1alpha2" "UDPRoutes" (Some (meta_Namespace (config_Meta orig))))
        (crd_type "sigsk8siogatewayapiapisv1alpha2" "UDPRoute") (crd_type "sigsk8siogatewayapiapisv1alpha2" "UDPRouteSpec") orig origMeta modified modMeta typ);
     (Gvk.WasmPlugin, patch_case (client "Istio" "ExtensionsV1alpha1" "WasmPlugins" (Some (meta_Namespace (config_Meta orig))))
        (crd_type "apiistioioapiextensionsv1alpha1" "WasmPlugin") (crd_type "istioioapiextensionsv1alpha1" "WasmPlugin") orig origMeta modified modMeta typ);
     (Gvk.XBackendTrafficPolicy, patch_case (client "GatewayAPI" "ExperimentalV1alpha1" "XBackendTrafficPolicies" (Some (meta_Namespace (config_Meta orig))))
        (crd_type "sigsk8siogatewayapiapisxv1alpha1" "XBackendTrafficPolicy") (crd_type "sigsk8siogatewayapiapisxv1alpha1" "BackendTrafficPolicySpec") orig origMeta modified modMeta typ)].

Definition patch (orig : Config) (origMeta : ObjectMeta) (modified : Config) (modMeta : ObjectMeta)
    (typ : string) : kube W crd_error Object :=
  if negb (bool_decide (meta_GroupVersionKind (config_Meta orig) = meta_GroupVersionKind (config_Meta modified)))
  then kerr (GvkMismatch (meta_GroupVersionKind (config_Meta orig)) (meta_GroupVersionKind (config_Meta modified)))
  else
    switch (meta_GroupVersionKind (config_Meta orig))
      (patch_cases_1 orig origMeta modified modMeta typ ++ patch_cases_2 orig origMeta modified modMeta typ)
      (kerr (UnsupportedType (meta_GroupVersionKind (config_Meta orig)))).

Definition delete (typ : GroupVersionKind) (name namespace : string) (resourceVersion : option string)
    : kube W crd_error unit :=
  let deleteOptions := resourceVersion in
  switch typ
    [(Gvk.BackendTLSPolicy, delete_case (client "GatewayAPI" "GatewayV1" "BackendTLSPolicies" (Some namespace)) name deleteOptions);
     (Gvk.EnvoyFilter, delete_case (client "Istio" "NetworkingV1alpha3" "EnvoyFilters" (Some namespace)) name deleteOptions);
     (Gvk.GRPCRoute, delete_case (client "GatewayAPI" "GatewayV1" "GRPCRoutes" (Some namespace)) name deleteOptions);
     (Gvk.GatewayClass, delete_case (client "GatewayAPI" "GatewayV1" "GatewayClasses" None) name deleteOptions);
     (Gvk.HTTPRoute, delete_case (client "GatewayAPI" "GatewayV1" "HTTPRoutes" (Some namespace)) name deleteOptions);
     (Gvk.InferencePool, delete_case (client "GatewayAPIInference" "InferenceV1" "InferencePools" (Some namespace)) name deleteOptions);
     (Gvk.KubernetesGateway, delete_case (client "GatewayAPI" "GatewayV1" "Gateways" (Some namespace)) name deleteOptions);
     (Gvk.ReferenceGrant, delete_case (client "GatewayAPI" "GatewayV1beta1" "ReferenceGrants" (Some namespace)) name deleteOptions);
     (Gvk.TCPRoute, delete_case (client "GatewayAPI" "GatewayV1alpha2" "TCPRoutes" (Some namespace)) name deleteOptions);
     (Gvk.TLSRoute, delete_case (client "GatewayAPI" "GatewayV1alpha2" "TLSRoutes" (Some namespace)) name deleteOptions);
     (Gvk.UDPRoute, delete_case (client "GatewayAPI" "GatewayV1alpha2" "UDPRoutes" (Some namespace)) name deleteOptions);
     (Gvk.WasmPlugin, delete_case (client "Istio" "ExtensionsV1alpha1" "WasmPlugins" (Some namespace)) name deleteOptions);
     (Gvk.XBackendTrafficPolicy, delete_case (client "GatewayAPI" "ExperimentalV1alpha1" "XBackendTrafficPolicies" (Some namespace)) name deleteOptions)]
    (kerr (UnsupportedType typ)).

(** ** The translation map *)

(** The Meta of a translation; the domain is left empty. *)
Definition meta_of (g : GroupVersionKind) (obj : Object) : Meta :=
  {| meta_GroupVersionKind := g; meta_UID := om_UID (obj_meta obj);
     meta_Name := om_Name (obj_meta obj); meta_Namespace := om_Namespace (obj_meta obj);
     meta_Domain := ""; meta_Labels := om_Labels (obj_meta obj);
     meta_Annotations := om_Annotations (obj_meta obj);
     meta_ResourceVersion := om_ResourceVersion (obj_meta obj);
     meta_CreationTimestamp := om_CreationTimestamp (obj_meta obj);
     meta_OwnerReferences := om_OwnerReferences (obj_meta obj);
     meta_Generation := om_Generation (obj_meta obj) |}.

(** &obj.Spec, &obj.Status and obj, as values of type any. *)
Definition spec_ptr (obj : Object) : any := AnyPtr (spec_type (obj_type obj)) (obj_spec obj).
Definition status_ptr (obj : Object) : any := AnyPtr (status_type (obj_type obj)) (obj_status obj).
Definition object_ptr (obj : Object) : any := AnyPtr (obj_type obj) (object_value obj).

Definition translate_BackendTLSPolicy (r : Object) : outcome crd_error Config :=
  let* obj := assert_object (crd_type "sigsk8siogatewayapiapisv1" "BackendTLSPolicy") r in
  Ret {| config_Meta := meta_of Gvk.BackendTLSPolicy obj;
         config_Spec := spec_ptr obj;
         config_Status := status_ptr obj; config_Extra := ∅ |}.

Definition translate_ConfigMap (r : Object) : outcome crd_error Config :=
  let* obj := assert_object (crd_type "k8sioapicorev1" "ConfigMap") r in
  Ret {| config_Meta := meta_of Gvk.ConfigMap obj;
         config_Spec := object_ptr obj;
         config_Status := AnyNil; config_Extra := ∅ |}.

Definition translate_DaemonSet (r : Object) : outcome crd_error Config :=
  let* obj := assert_object (crd_type "k8sioapiappsv1" "DaemonSet") r in
  Ret {| config_Meta := meta_of Gvk.DaemonSet obj;
         config_Spec := spec_ptr obj;
         config_Status := AnyNil; config_Extra := ∅ |}.

Definition translate_Deployment (r : Object) : outcome crd_error Config :=
  let* obj := assert_object (crd_type "k8sioapiappsv1" "Deployment") r in
  Ret {| config_Meta := meta_of Gvk.Deployment obj;
         config_Spec := spec_ptr obj;
         config_Status := AnyNil; config_Extra := ∅ |}.

Definition translate_EndpointSlice (r : Object) : outcome crd_error Config :=
  let* obj := assert_object (crd_type "k8sioapidiscoveryv1" "EndpointSlice") r in
  Ret {| config_Meta := meta_of Gvk.EndpointSlice obj;
         config_Spec := object_ptr obj;
         config_Status := AnyNil; config_Extra := ∅ |}.

Definition translate_Endpoints (r : Object) : outcome crd_error Config :=
  let* obj := assert_object (crd_type "k8sioapicorev1" "Endpoints") r in
  Ret {| config_Meta := meta_of Gvk.Endpoints obj;
         config_Spec := object_ptr obj;
         config_Status := AnyNil; config_Extra := ∅ |}.

Definition translate_EnvoyFilter (r : Object) : outcome crd_error Config :=
  let* obj := assert_object (crd_type "apiistioioapinetworkingv1alpha3" "EnvoyFilter") r in
  Ret {| config_Meta := meta_of Gvk.EnvoyFilter obj;
         config_Spec := spec_ptr obj;
         config_Status := status_ptr obj; config_Extra := ∅ |}.

Definition translate_GRPCRoute (r : Object) : outcome crd_error Config :=
  let* obj := assert_object (crd_type "sigsk8siogatewayapiapisv1" "GRPCRoute") r in
  Ret {| config_Meta := meta_of Gvk.GRPCRoute obj;
         config_Spec := spec_ptr obj;
         config_Status := status_ptr obj; config_Extra := ∅ |}.

Definition translate_GatewayClass (r : Object) : outcome crd_error Config :=
  let* obj := assert_object (crd_type "sigsk8siogatewayapiapisv1" "GatewayClass") r in
  Ret {| config_Meta := meta_of Gvk.GatewayClass obj;
         config_Spec := spec_ptr obj;
         config_Status := status_ptr obj; config_Extra := ∅ |}.

Definition translate_HTTPRoute (r : Object) : outcome crd_error Config :=
  let* obj := assert_object (crd_type "sigsk8siogatewayapiapisv1" "HTTPRoute") r in
  Ret {| config_Meta := meta_of Gvk.HTTPRoute obj;
         config_Spec := spec_ptr obj;
         config_Status := status_ptr obj; config_Extra := ∅ |}.

Definition translate_InferencePool (r : Object) : outcome crd_error Config :=
  let* obj := assert_object (crd_type "sigsk8siogatewayapiinferenceextensionapiv1" "InferencePool") r in
  Ret {| config_Meta := meta_of Gvk.InferencePool obj;
         config_Spec := spec_ptr obj;
         config_Status := status_ptr obj; config_Extra := ∅ |}.

Definition translate_KubernetesGateway (r : Object) : outcome crd_error Config :=
  let* obj := assert_object (crd_type "sigsk8siogatewayapiapisv1" "Gateway") r in
  Ret {| config_Meta := meta_of Gvk.KubernetesGateway obj;
         config_Spec := spec_ptr obj;
         config_Status := status_ptr obj; config_Extra := ∅ |}.

Definition translate_Namespace (r : Object) : outcome crd_error Config :=
  let* obj := assert_object (crd_type "k8sioapicorev1" "Namespace") r in
  Ret {| config_Meta := meta_of Gvk.Namespace obj;
         config_Spec := spec_ptr obj;
         config_Status := AnyNil; config_Extra := ∅ |}.

Definition translate_Node (r : Object) : outcome crd_error Config :=
  let* obj := assert_object (crd_type "k8sioapicorev1" "Node") r in
  Ret {| config_Meta := meta_of Gvk.Node obj;
         config_Spec := spec_ptr obj;
         config_Status := AnyNil; config_Extra := ∅ |}.

Definition translate_Pod (r : Object) : outcome crd_error Config :=
  let* obj := assert_object (crd_type "k8sioapicorev1" "Pod") r in
  Ret {| config_Meta := meta_of Gvk.Pod obj;
         config_Spec := spec_ptr obj;
         config_Status := AnyNil; config_Extra := ∅ |}.

Definition translate_ReferenceGrant (r : Object) : outcome crd_error Config :=
  let* obj := assert_object (crd_type "sigsk8siogatewayapiapisv1beta1" "ReferenceGrant") r in
  Ret {| config_Meta := meta_of Gvk.ReferenceGrant obj;
         config_Spec := spec_ptr obj;
         config_Status := AnyNil; config_Extra := ∅ |}.

Definition translate_Secret (r : Object) : outcome crd_error Config :=
  let* obj := assert_object (crd_type "k8sioapicorev1" "Secret") r in
  Ret {| config_Meta := meta_of Gvk.Secret obj;
         config_Spec := object_ptr obj;
         config_Status := AnyNil; config_Extra := ∅ |}.

Definition translate_Service (r : Object) : outcome crd_error Config :=
  let* obj := assert_object (crd_type "k8sioapicorev1" "Service") r in
  Ret {| config_Meta := meta_of Gvk.Service obj;
         config_Spec := spec_ptr obj;
         config_Status := status_ptr obj; config_Extra := ∅ |}.

Definition translate_ServiceAccount (r : Object) : outcome crd_error Config :=
  let* obj := assert_object (crd_type "k8sioapicorev1" "ServiceAccount") r in
  Ret {| config_Meta := meta_of Gvk.ServiceAccount obj;
         config_Spec := object_ptr obj;
         config_Status := AnyNil; config_Extra := ∅ |}.

Definition translate_StatefulSet (r : Object) : outcome crd_error Config :=
  let* obj := assert_object (crd_type "k8sioapiappsv1" "StatefulSet") r in
  Ret {| config_Meta := meta_of Gvk.StatefulSet obj;
         config_Spec := spec_ptr obj;
         config_Status := AnyNil; config_Extra := ∅ |}.

Definition translate_TCPRoute (r : Object) : outcome crd_error Config :=
  let* obj := assert_object (crd_type "sigsk8siogatewayapiapisv1alpha2" "TCPRoute") r in
  Ret {| config_Meta := meta_of Gvk.TCPRoute obj;
         config_Spec := spec_ptr obj;
         config_Status := status_ptr obj; config_Extra := ∅ |}.

Definition translate_TLSRoute (r : Object) : outcome crd_error Config :=
  let* obj := assert_object (crd_type "sigsk8siogatewayapiapisv1alpha2" "TLSRoute") r in
  Ret {| config_Meta := meta_of Gvk.TLSRoute obj;
         config_Spec := spec_ptr obj;
         config_Status := status_ptr obj; config_Extra := ∅ |}.

Definition translate_UDPRoute (r : Object) : outcome crd_error Config :=
  let* obj := assert_object (crd_type "sigsk8siogatewayapiapisv1alpha2" "UDPRoute") r in
  Ret {| config_Meta := meta_of Gvk.UDPRoute obj;
         config_Spec := spec_ptr obj;
         config_Status := status_ptr obj; config_Extra := ∅ |}.

Definition translate_WasmPlugin (r : Object) : outcome crd_error Config :=
  let* obj := assert_object (crd_type "apiistioioapiextensionsv1alpha1" "WasmPlugin") r in
  Ret {| config_Meta := meta_of Gvk.WasmPlugin obj;
         config_Spec := spec_ptr obj;
         config_Status := status_ptr obj; config_Extra := ∅ |}.

Definition translate_XBackendTrafficPolicy (r : Object) : outcome crd_error Config :=
  let* obj := assert_object (crd_type "sigsk8siogatewayapiapisxv1alpha1" "XBackendTrafficPolicy") r in
  Ret {| config_Meta := meta_of Gvk.XBackendTrafficPolicy obj;
         config_Spec := spec_ptr obj;
         config_Status := status_ptr obj; config_Extra := ∅ |}.

Definition translationMap : list (GroupVersionKind * (Object -> outcome crd_error Config)) :=
  [(Gvk.BackendTLSPolicy, translate_BackendTLSPolicy);
   (Gvk.ConfigMap, translate_ConfigMap);
   (Gvk.DaemonSet, translate_DaemonSet);
   (Gvk.Deployment, translate_Deployment);
   (Gvk.EndpointSlice, translate_EndpointSlice);
   (Gvk.Endpoints, translate_Endpoints);
   (Gvk.EnvoyFilter, translate_EnvoyFilter);
   (Gvk.GRPCRoute, translate_GRPCRoute);
   (Gvk.GatewayClass, translate_GatewayClass);
   (Gvk.HTTPRoute, translate_HTTPRoute);
   (Gvk.InferencePool, translate_InferencePool);
   (Gvk.KubernetesGateway, translate_KubernetesGateway);
   (Gvk.Namespace, translate_Namespace);
   (Gvk.Node, translate_Node);
   (Gvk.Pod, translate_Pod);
   (Gvk.ReferenceGrant, translate_ReferenceGrant);
   (Gvk.Secret, translate_Secret);
   (Gvk.Service, translate_Service);
   (Gvk.ServiceAccount, translate_ServiceAccount);
   (Gvk.StatefulSet, translate_StatefulSet);
   (Gvk.TCPRoute, translate_TCPRoute);
   (Gvk.TLSRoute, translate_TLSRoute);
   (Gvk.UDPRoute, translate_UDPRoute);
   (Gvk.WasmPlugin, translate_WasmPlugin);
   (Gvk.XBackendTrafficPolicy, translate_XBackendTrafficPolicy)].

(** [translationMap[g](r)]: calling the nil function of a missing key panics. *)
Definition translate (g : GroupVersionKind) (r : Object) : outcome crd_error Config :=
  switch g translationMap (fun _ => Panic NilDereference) r.

End CrdClient.
