(* ===== verification/KubeClient.v ===== *)
(** * KubeClient: pkg/config/schema/kubeclient and kubetypes

    The tables from Go types and GroupVersionResources to the typed clients and
    the objects of the informers ([GetWriteClient], [GetClient], [gvrToObject],
    [getInformerFiltered]) and from Go types to GroupVersionKinds ([getGvk]),
    as generated, with the informer set-up of kubeclient.go and the type map of
    pkg/typemap. *)

From S2P Require Import Prelude Resource Gvr Gvk K8s CrdClient.
Import Resource.

Local Open Scope string_scope.

(** ** pkg/typemap *)

(** A map from types to a value for each; [Get] returns a pointer, nil for a
    type that was not set. *)
Definition TypeMap (A : Type) : Type := list (GoType * A).
Definition NewTypeMap {A} : TypeMap A := [].
Definition Set_ {A} (m : TypeMap A) (t : GoType) (v : A) : TypeMap A := (t, v) :: m.
Definition Get {A} (m : TypeMap A) (t : GoType) : option A :=
  switch t (map (fun p => (p.1, Some p.2)) m) None.

(** ** Clients by type *)

(** What [GetWriteClient] returns: a client of the clientsets, or the writer of a
    registered type. *)
Inductive WriteAPI := ClientsetAPI (c : TypedClient) | RegisteredAPI (name : string).

(** A registration: [Write] of a namespace, nil when the type is not writeable. *)
Record TypeRegistration := { Write : string -> option string }.

(** The object type and the list type of the methods of a typed client. *)
Class ClientTypes := { client_object : TypedClient -> GoType; client_list : TypedClient -> GoType }.

Definition kubeclient_imports : list (string * string) :=
  [("metav1", "k8s.io/apimachinery/pkg/apis/meta/v1");
   ("k8sioapiappsv1", "k8s.io/api/apps/v1");
   ("k8sioapicorev1", "k8s.io/api/core/v1");
   ("k8sioapidiscoveryv1", "k8s.io/api/discovery/v1");
   ("sigsk8siogatewayapiinferenceextensionapiv1", "sigs.k8s.io/gateway-api-inference-extension/api/v1");
   ("sigsk8siogatewayapiapisv1", "sigs.k8s.io/gateway-api/apis/v1");
   ("sigsk8siogatewayapiapisv1alpha2", "sigs.k8s.io/gateway-api/apis/v1alpha2");
   ("sigsk8siogatewayapiapisv1beta1", "sigs.k8s.io/gateway-api/apis/v1beta1");
   ("sigsk8siogatewayapiapisxv1alpha1", "sigs.k8s.io/gateway-api/apisx/v1alpha1");
   ("apiistioioapiextensionsv1alpha1", "istio.io/client-go/pkg/apis/extensions/v1alpha1");
   ("apiistioioapinetworkingv1alpha3", "istio.io/client-go/pkg/apis/networking/v1alpha3")].

(** A type named through an import alias of the file. *)
Definition kc_type : string -> string -> GoType := named kubeclient_imports.

Section KubeClient.
Context {CT : ClientTypes}.

(** [c.(WriteAPI[T])] and [c.(ReadWriteAPI[T, TL])]. *)
Definition as_write (T : GoType) (c : TypedClient) : outcome unit WriteAPI :=
  if bool_decide (client_object c = T) then Ret (ClientsetAPI c) else Panic TypeAssertion.
Definition as_read_write (T TL : GoType) (c : TypedClient) : outcome unit TypedClient :=
  if bool_decide (client_object c = T) && bool_decide (client_list c = TL)
  then Ret c else Panic TypeAssertion.

(** The cases of the type switch of [GetWriteClient]. *)
Definition write_clients (namespace : string) : list (GoType * TypedClient) :=
    [((kc_type "sigsk8siogatewayapiapisv1" "BackendTLSPolicy"), (client "GatewayAPI" "GatewayV1" "BackendTLSPolicies" (Some namespace)));
     ((kc_type "k8sioapicorev1" "ConfigMap"), (client "Kube" "CoreV1" "ConfigMaps" (Some namespace)));
     ((kc_type "k8sioapiappsv1" "DaemonSet"), (client "Kube" "AppsV1" "DaemonSets" (Some namespace)));
     ((kc_type "k8sioapiappsv1" "Deployment"), (client "Kube" "AppsV1" "Deployments" (Some namespace)));
     ((kc_type "k8sioapidiscoveryv1" "EndpointSlice"), (client "Kube" "DiscoveryV1" "EndpointSlices" (Some namespace)));
     ((kc_type "k8sioapicorev1" "Endpoints"), (client "Kube" "CoreV1" "Endpoints" (Some namespace)));
     ((kc_type "apiistioioapinetworkingv1alpha3" "EnvoyFilter"), (client "Istio" "NetworkingV1alpha3" "EnvoyFilters" (Some namespace)));
     ((kc_type "sigsk8siogatewayapiapisv1" "GRPCRoute"), (client "GatewayAPI" "GatewayV1" "GRPCRoutes" (Some namespace)));
     ((kc_type "sigsk8siogatewayapiapisv1" "GatewayClass"), (client "GatewayAPI" "GatewayV1" "GatewayClasses" None));
     ((kc_type "sigsk8siogatewayapiapisv1" "HTTPRoute"), (client "GatewayAPI" "GatewayV1" "HTTPRoutes" (Some namespace)));
     ((kc_type "sigsk8siogatewayapiinferenceextensionapiv1" "InferencePool"), (client "GatewayAPIInference" "InferenceV1" "InferencePools" (Some namespace)));
     ((kc_type "sigsk8siogatewayapiapisv1" "Gateway"), (client "GatewayAPI" "GatewayV1" "Gateways" (Some namespace)));
     ((kc_type "k8sioapicorev1" "Namespace"), (client "Kube" "CoreV1" "Namespaces" None));
     ((kc_type "k8sioapicorev1" "Node"), (client "Kube" "CoreV1" "Nodes" None));
     ((kc_type "k8sioapicorev1" "Pod"), (client "Kube" "CoreV1" "Pods" (Some namespace)));
     ((kc_type "sigsk8siogatewayapiapisv1beta1" "ReferenceGrant"), (client "GatewayAPI" "GatewayV1beta1" "ReferenceGrants" (Some namespace)));
     ((kc_type "k8sioapicorev1" "Secret"), (client "Kube" "CoreV1" "Secrets" (Some namespace)));
     ((kc_type "k8sioapicorev1" "Service"), (client "Kube" "CoreV1" "Services" (Some namespace)));
     ((kc_type "k8sioapicorev1" "ServiceAccount"), (client "Kube" "CoreV1" "ServiceAccounts" (Some namespace)));
     ((kc_type "k8sioapiappsv1" "StatefulSet"), (client "Kube" "AppsV1" "StatefulSets" (Some namespace)));
     ((kc_type "sigsk8siogatewayapiapisv1alpha2" "TCPRoute"), (client "GatewayAPI" "GatewayV1alpha2" "TCPRoutes" (Some namespace)));
     ((kc_type "sigsk8siogatewayapiapisv1alpha2" "TLSRoute"), (client "GatewayAPI" "GatewayV1alpha2" "TLSRoutes" (Some namespace)));
     ((kc_type "sigsk8siogatewayapiapisv1alpha2" "UDPRoute"), (client "GatewayAPI" "GatewayV1alpha2" "UDPRoutes" (Some namespace)));
     ((kc_type "apiistioioapiextensionsv1alpha1" "WasmPlugin"), (client "Istio" "ExtensionsV1alpha1" "WasmPlugins" (Some namespace)));
     ((kc_type "sigsk8siogatewayapiapisxv1alpha1" "XBackendTrafficPolicy"), (client "GatewayAPI" "ExperimentalV1alpha1" "XBackendTrafficPolicies" (Some namespace)))].

Definition GetWriteClient (registerTypes : TypeMap TypeRegistration) (T : GoType) (namespace : string)
    : outcome unit WriteAPI :=
  let typed :=
    switch T (map (fun p => (p.1, as_write T p.2)) (write_clients namespace))
      (Panic ExplicitPanic) in
  match Get registerTypes T with
  | Some reg =>
      match Write reg namespace with
      | Some w => Ret (RegisteredAPI w)
      | None => typed
      end
  | None => typed
  end.

(** The cases of the type switch of [GetClient]. *)
Definition clients (namespace : string) : list (GoType * TypedClient) :=
    [((kc_type "sigsk8siogatewayapiapisv1" "BackendTLSPolicy"), (client "GatewayAPI" "GatewayV1" "BackendTLSPolicies" (Some namespace)));
     ((kc_type "k8sioapicorev1" "ConfigMap"), (client "Kube" "CoreV1" "ConfigMaps" (Some namespace)));
     ((kc_type "k8sioapiappsv1" "DaemonSet"), (client "Kube" "AppsV1" "DaemonSets" (Some namespace)));
     ((kc_type "k8sioapiappsv1" "Deployment"), (client "Kube" "AppsV1" "Deployments" (Some namespace)));
     ((kc_type "k8sioapidiscoveryv1" "EndpointSlice"), (client "Kube" "DiscoveryV1" "EndpointSlices" (Some namespace)));
     ((kc_type "k8sioapicorev1" "Endpoints"), (client "Kube" "CoreV1" "Endpoints" (Some namespace)));
     ((kc_type "apiistioioapinetworkingv1alpha3" "EnvoyFilter"), (client "Istio" "NetworkingV1alpha3" "EnvoyFilters" (Some namespace)));
     ((kc_type "sigsk8siogatewayapiapisv1" "GRPCRoute"), (client "GatewayAPI" "GatewayV1" "GRPCRoutes" (Some namespace)));
     ((kc_type "sigsk8siogatewayapiapisv1" "GatewayClass"), (client "GatewayAPI" "GatewayV1" "GatewayClasses" None));
     ((kc_type "sigsk8siogatewayapiapisv1" "HTTPRoute"), (client "GatewayAPI" "GatewayV1" "HTTPRoutes" (Some namespace)));
     ((kc_type "sigsk8siogatewayapiinferenceextensionapiv1" "InferencePool"), (client "GatewayAPIInference" "InferenceV1" "InferencePools" (Some namespace)));
     ((kc_type "sigsk8siogatewayapiapisv1" "Gateway"), (client "GatewayAPI" "GatewayV1" "Gateways" (Some namespace)));
     ((kc_type "k8sioapicorev1" "Namespace"), (client "Kube" "CoreV1" "Namespaces" None));
     ((kc_type "k8sioapicorev1" "Node"), (client "Kube" "CoreV1" "Nodes" None));
     ((kc_type "k8sioapicorev1" "Pod"), (client "Kube" "CoreV1" "Pods" (Some namespace)));
     ((kc_type "sigsk8siogatewayapiapisv1beta1" "ReferenceGrant"), (client "GatewayAPI" "GatewayV1beta1" "ReferenceGrants" (Some namespace)));
     ((kc_type "k8sioapicorev1" "Secret"), (client "Kube" "CoreV1" "Secrets" (Some namespace)));
     ((kc_type "k8sioapicorev1" "Service"), (client "Kube" "CoreV1" "Services" (Some namespace)));
     ((kc_type "k8sioapicorev1" "ServiceAccount"), (client "Kube" "CoreV1" "ServiceAccounts" (Some namespace)));
     ((kc_type "k8sioapiappsv1" "StatefulSet"), (client "Kube" "AppsV1" "StatefulSets" (Some namespace)));
     ((kc_type "sigsk8siogatewayapiapisv1alpha2" "TCPRoute"), (client "GatewayAPI" "GatewayV1alpha2" "TCPRoutes" (Some namespace)));
     ((kc_type "sigsk8siogatewayapiapisv1alpha2" "TLSRoute"), (client "GatewayAPI" "GatewayV1alpha2" "TLSRoutes" (Some namespace)));
     ((kc_type "sigsk8siogatewayapiapisv1alpha2" "UDPRoute"), (client "GatewayAPI" "GatewayV1alpha2" "UDPRoutes" (Some namespace)));
     ((kc_type "apiistioioapiextensionsv1alpha1" "WasmPlugin"), (client "Istio" "ExtensionsV1alpha1" "WasmPlugins" (Some namespace)));
     ((kc_type "sigsk8siogatewayapiapisxv1alpha1" "XBackendTrafficPolicy"), (client "GatewayAPI" "ExperimentalV1alpha1" "XBackendTrafficPolicies" (Some namespace)))].

Definition GetClient (T TL : GoType) (namespace : string) : outcome unit TypedClient :=
  switch T (map (fun p => (p.1, as_read_write T TL p.2)) (clients namespace)) (Panic ExplicitPanic).

(** ** Objects by resource *)

(** &T{} of the resource's type. *)
Definition gvrToObject (g : GroupVersionResource) : outcome unit GoType :=
  switch g
    [(Gvr.BackendTLSPolicy, Ret (kc_type "sigsk8siogatewayapiapisv1" "BackendTLSPolicy"));
     (Gvr.ConfigMap, Ret (kc_type "k8sioapicorev1" "ConfigMap"));
     (Gvr.DaemonSet, Ret (kc_type "k8sioapiappsv1" "DaemonSet"));
     (Gvr.Deployment, Ret (kc_type "k8sioapiappsv1" "Deployment"));
     (Gvr.EndpointSlice, Ret (kc_type "k8sioapidiscoveryv1" "EndpointSlice"));
     (Gvr.Endpoints, Ret (kc_type "k8sioapicorev1" "Endpoints"));
     (Gvr.EnvoyFilter, Ret (kc_type "apiistioioapinetworkingv1alpha3" "EnvoyFilter"));
     (Gvr.GRPCRoute, Ret (kc_type "sigsk8siogatewayapiapisv1" "GRPCRoute"));
     (Gvr.GatewayClass, Ret (kc_type "sigsk8siogatewayapiapisv1" "GatewayClass"));
     (Gvr.HTTPRoute, Ret (kc_type "sigsk8siogatewayapiapisv1" "HTTPRoute"));
     (Gvr.InferencePool, Ret (kc_type "sigsk8siogatewayapiinferenceextensionapiv1" "InferencePool"));
     (Gvr.KubernetesGateway, Ret (kc_type "sigsk8siogatewayapiapisv1" "Gateway"));
     (Gvr.Namespace, Ret (kc_type "k8sioapicorev1" "Namespace"));
     (Gvr.Node, Ret (kc_type "k8sioapicorev1" "Node"));
     (Gvr.Pod, Ret (kc_type "k8sioapicorev1" "Pod"));
     (Gvr.ReferenceGrant, Ret (kc_type "sigsk8siogatewayapiapisv1beta1" "ReferenceGrant"));
     (Gvr.Secret, Ret (kc_type "k8sioapicorev1" "Secret"));
     (Gvr.Service, Ret (kc_type "k8sioapicorev1" "Service"));
     (Gvr.ServiceAccount, Ret (kc_type "k8sioapicorev1" "ServiceAccount"));
     (Gvr.StatefulSet, Ret (kc_type "k8sioapiappsv1" "StatefulSet"));
     (Gvr.TCPRoute, Ret (kc_type "sigsk8siogatewayapiapisv1alpha2" "TCPRoute"));
     (Gvr.TLSRoute, Ret (kc_type "sigsk8siogatewayapiapisv1alpha2" "TLSRoute"));
     (Gvr.UDPRoute, Ret (kc_type "sigsk8siogatewayapiapisv1alpha2" "UDPRoute"));
     (Gvr.WasmPlugin, Ret (kc_type "apiistioioapiextensionsv1alpha1" "WasmPlugin"));
     (Gvr.XBackendTrafficPolicy, Ret (kc_type "sigsk8siogatewayapiapisxv1alpha1" "XBackendTrafficPolicy"))]
    (Panic ExplicitPanic).

(** ** Informers *)

Record InformerOptions := {
  io_LabelSelector : string; io_FieldSelector : string; io_Namespace : string;
  io_ObjectTransform : option string; io_InformerType : Z
}.

(** metav1.ListOptions, the fields an informer sets. *)
Record ListOptions := { lo_LabelSelector : string; lo_FieldSelector : string; lo_rest : string }.

(** The transform of an informer. *)
Inductive transform := ObjectTransform (name : string) | StripUnusedFields.

(** The calls [l] and [w] make, by case: the first and the second half of the
    switch. *)
Definition list_watch_1 (opts : InformerOptions)
    : list (GroupVersionResource * outcome unit (TypedClient * TypedClient)) :=
    [(Gvr.BackendTLSPolicy, Ret ((client "GatewayAPI" "GatewayV1" "BackendTLSPolicies" (Some (io_Namespace opts))),
        (client "GatewayAPI" "GatewayV1" "BackendTLSPolicies" (Some (io_Namespace opts)))));
     (Gvr.ConfigMap, Ret ((client "Kube" "CoreV1" "ConfigMaps" (Some (io_Namespace opts))),
        (client "Kube" "CoreV1" "ConfigMaps" (Some (io_Namespace opts)))));
     (Gvr.DaemonSet, Ret ((client "Kube" "AppsV1" "DaemonSets" (Some (io_Namespace opts))),
        (client "Kube" "AppsV1" "DaemonSets" (Some (io_Namespace opts)))));
     (Gvr.Deployment, Ret ((client "Kube" "AppsV1" "Deployments" (Some (io_Namespace opts))),
        (client "Kube" "AppsV1" "Deployments" (Some (io_Namespace opts)))));
     (Gvr.EndpointSlice, Ret ((client "Kube" "DiscoveryV1" "EndpointSlices" (Some (io_Namespace opts))),
        (client "Kube" "DiscoveryV1" "EndpointSlices" (Some (io_Namespace opts)))));
     (Gvr.Endpoints, Ret ((client "Kube" "CoreV1" "Endpoints" (Some (io_Namespace opts))),
        (client "Kube" "CoreV1" "Endpoints" (Some (io_Namespace opts)))));
     (Gvr.EnvoyFilter, Ret ((client "Istio" "NetworkingV1alpha3" "EnvoyFilters" (Some (io_Namespace opts))),
        (client "Istio" "NetworkingV1alpha3" "EnvoyFilters" (Some (io_Namespace opts)))));
     (Gvr.GRPCRoute, Ret ((client "GatewayAPI" "GatewayV1" "GRPCRoutes" (Some (io_Namespace opts))),
        (client "GatewayAPI" "GatewayV1" "GRPCRoutes" (Some (io_Namespace opts)))));
     (Gvr.GatewayClass, Ret ((client "GatewayAPI" "GatewayV1" "GatewayClasses" None),
        (client "GatewayAPI" "GatewayV1" "GatewayClasses" None)));
     (Gvr.HTTPRoute, Ret ((client "GatewayAPI" "GatewayV1" "HTTPRoutes" (Some (io_Namespace opts))),
        (client "GatewayAPI" "GatewayV1" "HTTPRoutes" (Some (io_Namespace opts)))));
     (Gvr.InferencePool, Ret ((client "GatewayAPIInference" "InferenceV1" "InferencePools" (Some (io_Namespace opts))),
        (client "GatewayAPIInference" "InferenceV1" "InferencePools" (Some (io_Namespace opts)))));
     (Gvr.KubernetesGateway, Ret ((client "GatewayAPI" "GatewayV1" "Gateways" (Some (io_Namespace opts))),
        (client "GatewayAPI" "GatewayV1" "Gateways" (Some (io_Namespace opts)))));
     (Gvr.Namespace, Ret ((client "Kube" "CoreV1" "Namespaces" None),
        (client "Kube" "CoreV1" "Namespaces" None)))].

Definition list_watch_2 (opts : InformerOptions)
    : list (GroupVersionResource * outcome unit (TypedClient * TypedClient)) :=
    [(Gvr.Node, Ret ((client "Kube" "CoreV1" "Nodes" None),
        (client "Kube" "CoreV1" "Nodes" None)));
     (Gvr.Pod, Ret ((client "Kube" "CoreV1" "Pods" (Some (io_Namespace opts))),
        (client "Kube" "CoreV1" "Pods" (Some (io_Namespace opts)))));
     (Gvr.ReferenceGrant, Ret ((client "GatewayAPI" "GatewayV1beta1" "ReferenceGrants" (Some (io_Namespace opts))),
        (client "GatewayAPI" "GatewayV1beta1" "ReferenceGrants" (Some (io_Namespace opts)))));
     (Gvr.Secret, Ret ((client "Kube" "CoreV1" "Secrets" (Some (io_Namespace opts))),
        (client "Kube" "CoreV1" "Secrets" (Some (io_Namespace opts)))));
     (Gvr.Service, Ret ((client "Kube" "CoreV1" "Services" (Some (io_Namespace opts))),
        (client "Kube" "CoreV1" "Services" (Some (io_Namespace opts)))));
     (Gvr.ServiceAccount, Ret ((client "Kube" "CoreV1" "ServiceAccounts" (Some (io_Namespace opts))),
        (client "Kube" "CoreV1" "ServiceAccounts" (Some (io_Namespace opts)))));
     (Gvr.StatefulSet, Ret ((client "Kube" "AppsV1" "StatefulSets" (Some (io_Namespace opts))),
        (client "Kube" "AppsV1" "StatefulSets" (Some (io_Namespace opts)))));
     (Gvr.TCPRoute, Ret ((client "GatewayAPI" "GatewayV1alpha2" "TCPRoutes" (Some (io_Namespace opts))),
        (client "GatewayAPI" "GatewayV1alpha2" "TCPRoutes" (Some (io_Namespace opts)))));
     (Gvr.TLSRoute, Ret ((client "GatewayAPI" "GatewayV1alpha2" "TLSRoutes" (Some (io_Namespace opts))),
        (client "GatewayAPI" "GatewayV1alpha2" "TLSRoutes" (Some (io_Namespace opts)))));
     (Gvr.UDPRoute, Ret ((client "GatewayAPI" "GatewayV1alpha2" "UDPRoutes" (Some (io_Namespace opts))),
        (client "GatewayAPI" "GatewayV1alpha2" "UDPRoutes" (Some (io_Namespace opts)))));
     (Gvr.WasmPlugin, Ret ((client "Istio" "ExtensionsV1alpha1" "WasmPlugins" (Some (io_Namespace opts))),
        (client "Istio" "ExtensionsV1alpha1" "WasmPlugins" (Some (io_Namespace opts)))));
     (Gvr.XBackendTrafficPolicy, Ret ((client "GatewayAPI" "ExperimentalV1alpha1" "XBackendTrafficPolicies" (Some (io_Namespace opts))),
        (client "GatewayAPI" "ExperimentalV1alpha1" "XBackendTrafficPolicies" (Some (io_Namespace opts)))))].

Definition list_watch (opts : InformerOptions) (g : GroupVersionResource)
    : outcome unit (TypedClient * TypedClient) :=
  switch g (list_watch_1 opts ++ list_watch_2 opts) (Panic ExplicitPanic).

(** The informer [newFunc] builds: the calls of its list and watch functions, the
    type of its objects, its resync period, its indexer and its transform. *)
Record Informer := {
  inf_list : ListOptions -> TypedClient * ListOptions;
  inf_watch : ListOptions -> TypedClient * ListOptions;
  inf_object : GoType;
  inf_resync : Z;
  inf_indexer : string;
  inf_transform : transform
}.

(** An [ObjectTransform] takes the place of [stripUnusedFields]. *)
Definition setupInformer (opts : InformerOptions) : transform :=
  match io_ObjectTransform opts with Some f => ObjectTransform f | None => StripUnusedFields end.

(** options.FieldSelector = opts.FieldSelector; options.LabelSelector = opts.LabelSelector. *)
Definition selected (opts : InformerOptions) (options : ListOptions) : ListOptions :=
  {| lo_LabelSelector := io_LabelSelector opts; lo_FieldSelector := io_FieldSelector opts;
     lo_rest := lo_rest options |}.

(** The switch runs at the call; the outcome of [newFunc] is what the factory
    gets when it asks for a new informer. *)
Definition getInformerFiltered (opts : InformerOptions) (g : GroupVersionResource)
    : outcome unit (outcome unit Informer) :=
  let* ' (l, w) := list_watch opts g in
  Ret (let* t := gvrToObject g in
       Ret {| inf_list := fun options => (l, selected opts options);
              inf_watch := fun options => (w, selected opts options);
              inf_object := t; inf_resync := 0; inf_indexer := "namespace";
              inf_transform := setupInformer opts |}).

End KubeClient.

(** ** pkg/config/schema/kubetypes *)

Definition kubetypes_imports : list (string * string) :=
  [("k8sioapiappsv1", "k8s.io/api/apps/v1");
   ("k8sioapicorev1", "k8s.io/api/core/v1");
   ("k8sioapidiscoveryv1", "k8s.io/api/discovery/v1");
   ("sigsk8siogatewayapiinferenceextensionapiv1", "sigs.k8s.io/gateway-api-inference-extension/api/v1");
   ("sigsk8siogatewayapiapisv1", "sigs.k8s.io/gateway-api/apis/v1");
   ("sigsk8siogatewayapiapisv1alpha2", "sigs.k8s.io/gateway-api/apis/v1alpha2");
   ("sigsk8siogatewayapiapisv1beta1", "sigs.k8s.io/gateway-api/apis/v1beta1");
   ("sigsk8siogatewayapiapisxv1alpha1", "sigs.k8s.io/gateway-api/apisx/v1alpha1");
   ("istioioapiextensionsv1alpha1", "istio.io/api/extensions/v1alpha1");
   ("istioioapinetworkingv1alpha3", "istio.io/api/networking/v1alpha3");
   ("apiistioioapiextensionsv1alpha1", "istio.io/client-go/pkg/apis/extensions/v1alpha1");
   ("apiistioioapinetworkingv1alpha3", "istio.io/client-go/pkg/apis/networking/v1alpha3")].

Definition kt_type : string -> string -> GoType := named kubetypes_imports.

Definition getGvk (obj : GoType) : GroupVersionKind * bool :=
  switch obj
    [((kt_type "sigsk8siogatewayapiapisv1" "BackendTLSPolicy"), (Gvk.BackendTLSPolicy, true));
     ((kt_type "k8sioapicorev1" "ConfigMap"), (Gvk.ConfigMap, true));
     ((kt_type "k8sioapiappsv1" "DaemonSet"), (Gvk.DaemonSet, true));
     ((kt_type "k8sioapiappsv1" "Deployment"), (Gvk.Deployment, true));
     ((kt_type "k8sioapidiscoveryv1" "EndpointSlice"), (Gvk.EndpointSlice, true));
     ((kt_type "k8sioapicorev1" "Endpoints"), (Gvk.Endpoints, true));
     ((kt_type "istioioapinetworkingv1alpha3" "EnvoyFilter"), (Gvk.EnvoyFilter, true));
     ((kt_type "apiistioioapinetworkingv1alpha3" "EnvoyFilter"), (Gvk.EnvoyFilter, true));
     ((kt_type "sigsk8siogatewayapiapisv1" "GRPCRoute"), (Gvk.GRPCRoute, true));
     ((kt_type "sigsk8siogatewayapiapisv1" "GatewayClass"), (Gvk.GatewayClass, true));
     ((kt_type "sigsk8siogatewayapiapisv1" "HTTPRoute"), (Gvk.HTTPRoute, true));
     ((kt_type "sigsk8siogatewayapiinferenceextensionapiv1" "InferencePool"), (Gvk.InferencePool, true));
     ((kt_type "sigsk8siogatewayapiapisv1" "Gateway"), (Gvk.KubernetesGateway, true));
     ((kt_type "k8sioapicorev1" "Namespace"), (Gvk.Namespace, true));
     ((kt_type "k8sioapicorev1" "Node"), (Gvk.Node, true));
     ((kt_type "k8sioapicorev1" "Pod"), (Gvk.Pod, true));
     ((kt_type "sigsk8siogatewayapiapisv1beta1" "ReferenceGrant"), (Gvk.ReferenceGrant, true));
     ((kt_type "k8sioapicorev1" "Secret"), (Gvk.Secret, true));
     ((kt_type "k8sioapicorev1" "Service"), (Gvk.Service, true));
     ((kt_type "k8sioapicorev1" "ServiceAccount"), (Gvk.ServiceAccount, true));
     ((kt_type "k8sioapiappsv1" "StatefulSet"), (Gvk.StatefulSet, true));
     ((kt_type "sigsk8siogatewayapiapisv1alpha2" "TCPRoute"), (Gvk.TCPRoute, true));
     ((kt_type "sigsk8siogatewayapiapisv1alpha2" "TLSRoute"), (Gvk.TLSRoute, true));
     ((kt_type "sigsk8siogatewayapiapisv1alpha2" "UDPRoute"), (Gvk.UDPRoute, true));
     ((kt_type "istioioapiextensionsv1alpha1" "WasmPlugin"), (Gvk.WasmPlugin, true));
     ((kt_type "apiistioioapiextensionsv1alpha1" "WasmPlugin"), (Gvk.WasmPlugin, true));
     ((kt_type "sigsk8siogatewayapiapisxv1alpha1" "XBackendTrafficPolicy"), (Gvk.XBackendTrafficPolicy, true))]
    (zero_gvk, false).
