(* ===== verification/CrdRegistry.v ===== *)
(** * CrdRegistry: the typed clients and the registry

    The tables of [CrdClient] and [KubeClient] are what the templates
    crdclient.go.tmpl, clients.go.tmpl and types.go.tmpl print for the entries of
    the registry; translating an object and writing the result back is type
    safe; and the tables agree with each other. *)

From S2P Require Import Prelude GoStd Resource Gvr Gvk Ast Codegen Registry K8s CrdClient KubeClient.
Import Resource.

Local Open Scope string_scope.

(** ** The entries, computed

    [UpperCamelCase] on a word of lower-case letters and digits capitalises it. *)
Definition lower_alnum (c : ascii) : bool := in_bytes 97 122 c || in_bytes 48 57 c.

Definition capitalise (s : string) : string :=
  match s with String c s' => String (upper_byte c) s' | EmptyString => EmptyString end.

Class StoewerLaws `{StoewerStrcase} :=
  ucc_word s : all_chars lower_alnum s = true -> UpperCamelCase s = capitalise s.

Definition capitalising : StoewerStrcase := {| UpperCamelCase := capitalise |}.

Section Entries.
Context {GV : GoValues} {SC : StoewerStrcase} {SL : StoewerLaws}.

Lemma entries_capitalising : entries = entries (SC := capitalising).
Proof.
  destruct SC as [f]. unfold StoewerLaws in SL. cbn [UpperCamelCase] in SL.
  assert (forall s, all_chars lower_alnum s = true -> f s = capitalise s) as H by apply SL.
  pose proof (H "v1" eq_refl) as H1. pose proof (H "v1alpha1" eq_refl) as H2.
  pose proof (H "v1alpha2" eq_refl) as H3. pose proof (H "v1alpha3" eq_refl) as H4.
  pose proof (H "v1beta1" eq_refl) as H5. pose proof (H "core" eq_refl) as H6.
  pose proof (H "apps" eq_refl) as H7. pose proof (H "discovery" eq_refl) as H8.
  pose proof (H "networking" eq_refl) as H9. pose proof (H "extensions" eq_refl) as H10.
  vm_compute in H1, H2, H3, H4, H5, H6, H7, H8, H9, H10.
  vm_compute. rewrite H1, H2, H3, H4, H5, H6, H7, H8, H9, H10. reflexivity.
Qed.
End Entries.

(** Unification must not compute the entries. *)
#[local] Opaque entries.

(** ** The templates *)

(** The entries with a case in the switches of crdclient, and in
    [updateStatus]. *)
Definition writable (e : colEntry) : bool :=
  negb (r_Synthetic (ce_Resource e)) && negb (r_Builtin (ce_Resource e)).
Definition has_status (e : colEntry) : bool :=
  negb (r_Synthetic (ce_Resource e)) &&
  (negb (r_Builtin (ce_Resource e)) || bool_decide (r_Identifier (ce_Resource e) = "Ingress")) &&
  negb (bool_decide (ce_StatusType e = "")).

(** c.Getter().Group().Resource(namespace), the object and the field types. *)
Definition entry_client (e : colEntry) (namespace : string) : TypedClient :=
  client (ClientGetter e) (ClientGroupPath e) (ClientTypePath e)
    (if r_ClusterScoped (ce_Resource e) then None else Some namespace).
Definition entry_object (e : colEntry) : GoType :=
  named crdclient_imports (IstioAwareClientImport e) (r_Kind (ce_Resource e)).
Definition entry_spec (e : colEntry) : GoType := named crdclient_imports (ClientImport e) (SpecType e).
Definition entry_status (e : colEntry) : GoType := named crdclient_imports (StatusImport e) (ce_StatusType e).

Section Generated.
Context {W : Type} {GV : GoValues} {SC : StoewerStrcase} {SL : StoewerLaws}.
Context {GO : GoObjects} {CS : Clientsets W}.

(** The cases of a switch, from the entries that have one. *)
Definition cases_of {A} (p : colEntry -> bool) (f : colEntry -> A) : list (GroupVersionKind * A) :=
  map (fun e => (main_gvk e, f e)) (filter (fun e => p e) entries).

Lemma cases_of_capitalising {A} (p : colEntry -> bool) (f : colEntry -> A) (l : list (GroupVersionKind * A)) :
  l = map (fun e => (main_gvk e, f e)) (filter (fun e => p e) (entries (SC := capitalising))) ->
  l = cases_of p f.
Proof. intros ->. unfold cases_of. by rewrite (@entries_capitalising GV SC SL). Qed.

(** The body of the cases is left abstract. *)
Ltac generated body :=
  apply switch_cases, cases_of_capitalising; generalize body; intros ?; vm_compute; reflexivity.

Lemma create_generated cfg m :
  create cfg m = switch (meta_GroupVersionKind (config_Meta cfg))
    (cases_of writable (fun e =>
       create_case (entry_client e (meta_Namespace (config_Meta cfg))) (entry_object e) (entry_spec e) cfg m))
    (kerr (UnsupportedType (meta_GroupVersionKind (config_Meta cfg)))).
Proof. unfold create. generated (@create_case W _ _ _). Qed.

Lemma update_generated cfg m :
  update cfg m = switch (meta_GroupVersionKind (config_Meta cfg))
    (cases_of writable (fun e =>
       update_case (entry_client e (meta_Namespace (config_Meta cfg))) (entry_object e) (entry_spec e) cfg m))
    (kerr (UnsupportedType (meta_GroupVersionKind (config_Meta cfg)))).
Proof. unfold update. generated (@update_case W _ _ _). Qed.

Lemma updateStatus_generated cfg m :
  updateStatus cfg m = switch (meta_GroupVersionKind (config_Meta cfg))
    (cases_of has_status (fun e =>
       updateStatus_case (entry_client e (meta_Namespace (config_Meta cfg))) (entry_object e) (entry_status e) cfg m))
    (kerr (UnsupportedType (meta_GroupVersionKind (config_Meta cfg)))).
Proof. unfold updateStatus. generated (@updateStatus_case W _ _ _). Qed.

Lemma patch_generated orig origMeta modified modMeta typ :
  meta_GroupVersionKind (config_Meta orig) = meta_GroupVersionKind (config_Meta modified) ->
  patch orig origMeta modified modMeta typ = switch (meta_GroupVersionKind (config_Meta orig))
    (cases_of writable (fun e =>
       patch_case (entry_client e (meta_Namespace (config_Meta orig))) (entry_object e) (entry_spec e)
         orig origMeta modified modMeta typ))
    (kerr (UnsupportedType (meta_GroupVersionKind (config_Meta orig)))).
Proof.
  intros H. unfold patch. rewrite bool_decide_eq_true_2 by done. cbn [negb].
  unfold patch_cases_1, patch_cases_2. generated (@patch_case W _ _ _).
Qed.

Lemma delete_generated g name namespace rv :
  delete g name namespace rv = switch g
    (cases_of writable (fun e => delete_case (entry_client e namespace) name rv))
    (kerr (UnsupportedType g)).
Proof. unfold delete. generated (@delete_case W _ _). Qed.

(** templates/crdclient.go.tmpl: the translation of an entry. *)
Definition entry_translation (e : colEntry) (r : Object) : outcome crd_error Config :=
  let* obj := assert_object (entry_object e) r in
  Ret {| config_Meta := meta_of (main_gvk e) obj;
         config_Spec := if r_Specless (ce_Resource e) then object_ptr obj else spec_ptr obj;
         config_Status := if bool_decide (ce_StatusType e = "") then AnyNil else status_ptr obj;
         config_Extra := ∅ |}.

Definition has_translation (e : colEntry) : bool := negb (r_Synthetic (ce_Resource e)).

Lemma translationMap_generated : translationMap = cases_of has_translation entry_translation.
Proof.
  apply cases_of_capitalising. unfold entry_translation, translationMap,
    translate_BackendTLSPolicy, translate_ConfigMap, translate_DaemonSet, translate_Deployment,
    translate_EndpointSlice, translate_Endpoints, translate_EnvoyFilter, translate_GRPCRoute,
    translate_GatewayClass, translate_HTTPRoute, translate_InferencePool,
    translate_KubernetesGateway, translate_Namespace, translate_Node, translate_Pod,
    translate_ReferenceGrant, translate_Secret, translate_Service, translate_ServiceAccount,
    translate_StatefulSet, translate_TCPRoute, translate_TLSRoute, translate_UDPRoute,
    translate_WasmPlugin, translate_XBackendTrafficPolicy.
  generalize (@assert_object GV). intros ?. vm_compute. reflexivity.
Qed.
End Generated.

(** ** The tables by Go type and by resource *)

Section Typed.
Context {GV : GoValues} {SC : StoewerStrcase} {SL : StoewerLaws}.

(** The cases of a table that has one for each entry. *)
Definition table_of {K A} (key : colEntry -> K) (f : colEntry -> A) : list (K * A) :=
  map (fun e => (key e, f e)) (filter (fun e => has_translation e) entries).

Lemma table_of_capitalising {K A} (key : colEntry -> K) (f : colEntry -> A) (l : list (K * A)) :
  l = map (fun e => (key e, f e)) (filter (fun e => has_translation e) (entries (SC := capitalising))) ->
  l = table_of key f.
Proof. intros ->. unfold table_of. by rewrite (@entries_capitalising GV SC SL). Qed.

Lemma clients_generated namespace :
  clients namespace = table_of entry_object (fun e => entry_client e namespace).
Proof. apply table_of_capitalising. vm_compute. reflexivity. Qed.

Lemma write_clients_generated namespace :
  write_clients namespace = table_of entry_object (fun e => entry_client e namespace).
Proof. apply table_of_capitalising. vm_compute. reflexivity. Qed.

Lemma gvrToObject_generated g :
  gvrToObject g = switch g (table_of main_gvr (fun e => Ret (entry_object e))) (Panic ExplicitPanic).
Proof. unfold gvrToObject. apply switch_cases, table_of_capitalising. vm_compute. reflexivity. Qed.

Lemma list_watch_generated opts g :
  list_watch opts g = switch g
    (table_of main_gvr (fun e => Ret (entry_client e (io_Namespace opts), entry_client e (io_Namespace opts))))
    (Panic ExplicitPanic).
Proof. unfold list_watch. apply switch_cases, table_of_capitalising. vm_compute. reflexivity. Qed.

(** templates/types.go.tmpl: the cases of an entry, the second for a type whose
    client type is another one. *)
Definition entry_gvk_cases (e : colEntry) : list (GoType * (GroupVersionKind * bool)) :=
  (named kubetypes_imports (ClientImport e) (r_Kind (ce_Resource e)), (main_gvk e, true)) ::
  (if negb (bool_decide (ClientImport e = IstioAwareClientImport e)) && has_translation e
   then [(named kubetypes_imports (IstioAwareClientImport e) (r_Kind (ce_Resource e)), (main_gvk e, true))]
   else []).

Lemma getGvk_generated t : getGvk t = switch t (concat (map entry_gvk_cases entries)) (zero_gvk, false).
Proof.
  unfold getGvk. apply switch_cases. rewrite (@entries_capitalising GV SC SL). vm_compute. reflexivity.
Qed.
End Typed.

(** ** The generated file *)

Section GeneratedFile.
Context {W : Type} {GV : GoValues} {SC : StoewerStrcase} {SL : StoewerLaws}.
Context {GO : GoObjects} {CS : Clientsets W}.

(** C29: the CRD client is what its template prints for the registry.  [create],
    [update], [patch] and [delete] have a case for each resource that is not
    builtin, [updateStatus] for those with a status type, [translationMap] for
    every resource; a case uses the resource's client (without a namespace when
    it is cluster-scoped), object type, spec type and status type; any other
    GroupVersionKind is refused without a call, and so is a patch between two
    kinds. *)
Theorem crdclient_generated cfg m orig origMeta modified modMeta typ g name namespace rv :
  let ns := meta_Namespace (config_Meta cfg) in
  let unsupported {A} g : kube W crd_error A := kerr (UnsupportedType g) in
  let kind c := meta_GroupVersionKind (config_Meta c) in
  create cfg m = switch (kind cfg) (cases_of writable (fun e =>
    create_case (entry_client e ns) (entry_object e) (entry_spec e) cfg m)) (unsupported (kind cfg)) /\
  update cfg m = switch (kind cfg) (cases_of writable (fun e =>
    update_case (entry_client e ns) (entry_object e) (entry_spec e) cfg m)) (unsupported (kind cfg)) /\
  updateStatus cfg m = switch (kind cfg) (cases_of has_status (fun e =>
    updateStatus_case (entry_client e ns) (entry_object e) (entry_status e) cfg m)) (unsupported (kind cfg)) /\
  patch orig origMeta modified modMeta typ =
    (if bool_decide (kind orig = kind modified)
     then switch (kind orig) (cases_of writable (fun e =>
            patch_case (entry_client e (meta_Namespace (config_Meta orig))) (entry_object e) (entry_spec e)
              orig origMeta modified modMeta typ)) (unsupported (kind orig))
     else kerr (GvkMismatch (kind orig) (kind modified))) /\
  delete g name namespace rv = switch g (cases_of writable (fun e =>
    delete_case (entry_client e namespace) name rv)) (unsupported g) /\
  translationMap = cases_of has_translation entry_translation.
Proof.
  cbv zeta. split_and!; [apply create_generated|apply update_generated|apply updateStatus_generated| |
    apply delete_generated|apply translationMap_generated].
  destruct (decide (meta_GroupVersionKind (config_Meta orig) = meta_GroupVersionKind (config_Meta modified))).
  - rewrite bool_decide_eq_true_2 by done. by apply patch_generated.
  - unfold patch. by rewrite bool_decide_eq_false_2.
Qed.
End GeneratedFile.

(** ** Concrete clientsets

    A clientset that records the calls it gets and succeeds, over values that are
    strings. *)
#[local] Instance string_values : GoValues := {| Value := string; zero_value := fun _ => "" |}.

Inductive call :=
| Call (verb : string) (c : TypedClient) (t : GoType) (name content : string).

Definition record (verb : string) (w : list call) (c : TypedClient) (o : Object) : (api_error + Object) * list call :=
  (inr o, (w ++ [Call verb c (obj_type o) (om_Name (obj_meta o)) (obj_spec o)])%list).

#[local] Instance recording : Clientsets (list call) := {|
  client_create := record "create";
  client_update := record "update";
  client_update_status := record "updateStatus";
  client_patch w c name typ bytes fm :=
    (inl (ApiFailure "not recorded"), (w ++ [Call "patch" c {| type_pkg := fm; type_name := typ |} name bytes])%list);
  client_delete w c name rv :=
    (None, (w ++ [Call "delete" c {| type_pkg := ""; type_name := "" |} name (default "" rv)])%list);
  genPatchBytes a b typ := inr (obj_spec b)
|}.

#[local] Instance capitalising_strcase : StoewerStrcase := capitalising.
#[local] Instance capitalising_laws : StoewerLaws.
Proof. intros s _. reflexivity. Qed.

(** The fields of an object type have the types its entry names. *)
#[local] Instance entry_fields : GoObjects := {|
  spec_type t := switch t (map (fun e => (entry_object e, entry_spec e)) entries) t;
  status_type t := switch t (map (fun e => (entry_object e, entry_status e)) entries) t;
  object_value o := obj_spec o
|}.

Definition example_meta (name : string) : ObjectMeta :=
  {| om_Name := name; om_Namespace := "gw"; om_Labels := ∅; om_Annotations := ∅; om_ResourceVersion := "1";
     om_CreationTimestamp := 0; om_OwnerReferences := []; om_UID := "u"; om_Generation := 1 |}.

Definition example_route : Object :=
  {| obj_type := crd_type "sigsk8siogatewayapiapisv1" "HTTPRoute"; obj_meta := example_meta "r";
     obj_spec := "hostnames: [a]"; obj_status := "" |}.

Definition example_config : Config :=
  {| config_Meta := meta_of Gvk.HTTPRoute example_route; config_Spec := spec_ptr example_route;
     config_Status := AnyNil; config_Extra := ∅ |}.

Lemma crdclient_generated_witness :
  create example_config (example_meta "r") [] =
    switch Gvk.HTTPRoute (cases_of writable (fun e =>
      create_case (entry_client e "gw") (entry_object e) (entry_spec e) example_config (example_meta "r")))
      (kerr (UnsupportedType Gvk.HTTPRoute)) [] /\
  (create example_config (example_meta "r") []).2 =
    [Call "create" (client "GatewayAPI" "GatewayV1" "HTTPRoutes" (Some "gw"))
       {| type_pkg := "sigs.k8s.io/gateway-api/apis/v1"; type_name := "HTTPRoute" |} "r" "hostnames: [a]"].
Proof.
  split; [|vm_compute; reflexivity].
  rewrite (proj1 (crdclient_generated example_config (example_meta "r") example_config (example_meta "r")
    example_config (example_meta "r") "" Gvk.HTTPRoute "r" "gw" None)). reflexivity.
Defined.
