(* ===== verification/CrdTyping.v ===== *)
(** * CrdTyping: the typed clients are used at their types

    Translating an API object to a configuration object and writing that back
    ([CrdClient]) is type safe, and reaches the client of the object's resource;
    the tables by Go type and by resource ([KubeClient]) agree with each other
    and with the registry. *)

From S2P Require Import Prelude GoStd Resource Gvr Gvk Ast Codegen Registry K8s CrdClient KubeClient CrdRegistry.
Import Resource.

Local Open Scope string_scope.

(** ** Type safety *)

(** Unification must not compute the entries. *)
#[local] Opaque entries.

(** What the compiler checks of types.gen.go: [Spec: *(cfg.Spec.( *T))] and its
    Status are assignable only when T is the type of the field. *)
Class FieldTypes `{StoewerStrcase} `{GoObjects} := {
  spec_field e : e ∈ entries -> writable e = true -> spec_type (entry_object e) = entry_spec e;
  status_field e : e ∈ entries -> has_status e = true -> status_type (entry_object e) = entry_status e
}.


Section TypeSafety.
Context {W : Type} {GV : GoValues} {SC : StoewerStrcase} {SL : StoewerLaws}.
Context {GO : GoObjects} {CS : Clientsets W} {FT : FieldTypes}.








End TypeSafety.

(** ** The tables agree *)

(** The clientsets are generated for the API types: the methods of a resource's
    client take and return its objects. *)
Class ClientObjects `{StoewerStrcase} `{GoValues} `{ClientTypes} :=
  client_object_entry e namespace :
    e ∈ entries -> client_object (entry_client e namespace) = entry_object e.

Section Tables.
Context {GV : GoValues} {SC : StoewerStrcase} {SL : StoewerLaws}.
Context {CT : ClientTypes} {CO : ClientObjects}.

Lemma entries_keys :
  Forall (fun e => has_translation e = true) entries /\
  NoDup (map entry_object entries) /\ NoDup (map main_gvr entries) /\
  NoDup (concat (map entry_gvk_cases entries)).*1 /\
  Forall (fun e => (entry_object e, (main_gvk e, true)) ∈ concat (map entry_gvk_cases entries) /\
                   ToGVR (main_gvk e) = (main_gvr e, true)) entries.
Proof. apply (bool_decide_unpack _). by vm_compute. Qed.

Lemma table_all {K A} (key : colEntry -> K) (f : colEntry -> A) :
  table_of key f = map (fun e => (key e, f e)) entries.
Proof.
  unfold table_of. destruct entries_keys as [Ht _]. revert Ht.
  generalize entries. induction 1 as [|e l He _ IH]; [done|].
  rewrite filter_cons, decide_True by (rewrite He; done). cbn. by rewrite IH.
Qed.

Lemma keys_of_map {K A} (key : colEntry -> K) (f : colEntry -> A) (l : list colEntry) :
  (map (fun e => (key e, f e)) l).*1 = map key l.
Proof. unfold fmap, list_fmap. induction l as [|q l IH]; cbn; [done|]. by f_equal. Qed.

Lemma table_keys {K A} (key : colEntry -> K) (f : colEntry -> A) : (table_of key f).*1 = map key entries.
Proof. rewrite table_all. apply keys_of_map. Qed.

Lemma table_lookup {K A} `{EqDecision K} (key : colEntry -> K) (f : colEntry -> A) d e :
  NoDup (map key entries) -> e ∈ entries -> switch (key e) (table_of key f) d = f e.
Proof.
  intros Hd He. apply switch_lookup; [by rewrite table_keys|]. rewrite table_all.
  apply list_elem_of_fmap. eauto.
Qed.

Lemma map_table {K A B} (key : colEntry -> K) (f : colEntry -> A) (g : A -> B) :
  map (fun p => (p.1, g p.2)) (table_of key f) = table_of key (fun e => g (f e)).
Proof. rewrite !table_all, map_map. done. Qed.


Lemma gvk_of_object e : e ∈ entries -> getGvk (entry_object e) = (main_gvk e, true).
Proof.
  intros He. rewrite getGvk_generated. destruct entries_keys as (_ & _ & _ & Hd & Hin).
  apply switch_lookup; [done|]. by apply (proj1 (Forall_forall _ _) Hin).
Qed.

Lemma GetClient_entry TL namespace e :
  e ∈ entries ->
  GetClient (entry_object e) TL namespace = as_read_write (entry_object e) TL (entry_client e namespace).
Proof.
  intros He. unfold GetClient. rewrite clients_generated.
  rewrite (map_table entry_object (fun e => entry_client e namespace) (as_read_write (entry_object e) TL)).
  destruct entries_keys as (_ & Hd & _).
  by rewrite (table_lookup entry_object (fun e' => as_read_write (entry_object e) TL (entry_client e' namespace))).
Qed.

(** The tables by Go type and by resource describe one registry.  For each
    resource, [gvrToObject] makes an object of its type, [getGvk] of that type is
    its GroupVersionKind and [ToGVR] leads back to the resource; the informer
    lists and watches through the very client [GetClient] and [GetWriteClient]
    return for the type (a registered type writes through its own writer), with
    the selectors of its options; [GetClient] panics on a wrong list type.  A
    type or a resource that is not in the registry panics, an alias version too
    although [ToGVR] knows it. *)
Theorem typed_tables_agree e namespace opts registerTypes :
  e ∈ entries -> io_Namespace opts = namespace ->
  let T := entry_object e in
  let c := entry_client e namespace in
  gvrToObject (main_gvr e) = Ret T /\
  getGvk T = (main_gvk e, true) /\ ToGVR (main_gvk e) = (main_gvr e, true) /\
  GetClient T (client_list c) namespace = Ret c /\
  (forall TL, TL <> client_list c -> GetClient T TL namespace = Panic TypeAssertion) /\
  GetWriteClient registerTypes T namespace =
    Ret (match Get registerTypes T with
         | Some reg => match Write reg namespace with Some w => RegisteredAPI w | None => ClientsetAPI c end
         | None => ClientsetAPI c
         end) /\
  (exists inf, getInformerFiltered opts (main_gvr e) = Ret (Ret inf) /\
     (forall o, inf_list inf o = (c, selected opts o) /\ inf_watch inf o = (c, selected opts o)) /\
     inf_object inf = T /\ inf_transform inf = setupInformer opts) /\
  (forall g, g ∉ map main_gvr entries ->
     gvrToObject g = Panic ExplicitPanic /\ getInformerFiltered opts g = Panic ExplicitPanic) /\
  (forall T' TL, T' ∉ map entry_object entries -> GetClient T' TL namespace = Panic ExplicitPanic).
Proof.
  intros He Hns T c. subst T c. destruct entries_keys as (_ & Ht & Hr & _ & Hg).
  pose proof (client_object_entry e namespace He) as Hc. split_and!.
  - rewrite gvrToObject_generated. by apply (table_lookup main_gvr (fun e => Ret (entry_object e))).
  - by apply gvk_of_object.
  - by apply (proj1 (Forall_forall _ _) Hg).
  - rewrite GetClient_entry by done. unfold as_read_write. by rewrite !bool_decide_eq_true_2.
  - intros TL HTL. rewrite GetClient_entry by done. unfold as_read_write.
    by rewrite (bool_decide_eq_false_2 (client_list _ = TL)), andb_false_r by done.
  - unfold GetWriteClient. cbv zeta. rewrite write_clients_generated.
    rewrite (map_table entry_object (fun e => entry_client e namespace) (as_write (entry_object e))).
    rewrite (table_lookup entry_object (fun e' => as_write (entry_object e) (entry_client e' namespace))) by done.
    unfold as_write. rewrite bool_decide_eq_true_2 by done.
    destruct (Get registerTypes (entry_object e)) as [reg|]; [|done]. by destruct (Write reg namespace).
  - unfold getInformerFiltered. rewrite list_watch_generated.
    rewrite (table_lookup main_gvr _ _ e) by done. cbn [obind].
    rewrite gvrToObject_generated, (table_lookup main_gvr (fun e => Ret (entry_object e))) by done.
    cbn [obind]. eexists. split; [reflexivity|]. by rewrite Hns.
  - intros g Hn. assert (forall A (f : colEntry -> A) d, switch g (table_of main_gvr f) d = d) as Hd.
    { intros A f d. apply switch_default. by rewrite table_keys. }
    unfold getInformerFiltered. by rewrite gvrToObject_generated, list_watch_generated, !Hd.
  - intros T' TL Hn. unfold GetClient. rewrite clients_generated.
    rewrite (map_table entry_object (fun e => entry_client e namespace) (as_read_write T' TL)).
    apply switch_default. by rewrite table_keys.
Qed.
End Tables.

(** ** Witnesses *)

Section Witnesses.
#[local] Existing Instance string_values.
#[local] Existing Instance recording.
#[local] Existing Instance capitalising_strcase.
#[local] Existing Instance capitalising_laws.
#[local] Existing Instance entry_fields.

#[local] Instance entry_field_types : FieldTypes.
Proof.
  destruct entries_keys as (_ & Hd & _).
  split; intros e He _; apply switch_lookup;
    solve [by rewrite keys_of_map | apply list_elem_of_fmap; eauto].
Qed.

(** A client's objects and lists are those of the entry it belongs to. *)
Definition entry_of_client (c : TypedClient) : GoType :=
  switch (tc_getter c, tc_group c, tc_resource c)
    (map (fun e => ((ClientGetter e, ClientGroupPath e, ClientTypePath e), entry_object e)) entries)
    {| type_pkg := ""; type_name := "" |}.

#[local] Instance entry_client_types : ClientTypes := {|
  client_object := entry_of_client;
  client_list c := {| type_pkg := type_pkg (entry_of_client c); type_name := type_name (entry_of_client c) +:+ "List" |}
|}.

#[local] Instance entry_client_objects : ClientObjects.
Proof.
  assert (Forall (fun e => entry_of_client (entry_client e "") = entry_object e) entries) as H
    by (apply (bool_decide_unpack _); by vm_compute).
  intros e namespace He. rewrite <- (proj1 (Forall_forall _ _) H e He). done.
Qed.

Definition route_entry : colEntry := default (synthetic_entry "") (List.find (fun e => bool_decide (entry_id e = "HTTPRoute")) entries).

Lemma route_entry_in : route_entry ∈ entries.
Proof.
  unfold route_entry. destruct (List.find _ entries) as [e|] eqn:Hf; [|by vm_compute in Hf].
  apply List.find_some in Hf as [Hf _]. by apply list_elem_of_In.
Qed.


Definition example_options : InformerOptions :=
  {| io_LabelSelector := "app=a"; io_FieldSelector := ""; io_Namespace := "gw"; io_ObjectTransform := None;
     io_InformerType := 0 |}.

Lemma typed_tables_agree_witness :
  gvrToObject Gvr.HTTPRoute = Ret (crd_type "sigsk8siogatewayapiapisv1" "HTTPRoute") /\
  gvrToObject Gvr.HTTPRoute_v1beta1 = Panic ExplicitPanic.
Proof.
  destruct (typed_tables_agree route_entry "gw" example_options [] route_entry_in eq_refl)
    as (H1 & _ & _ & _ & _ & _ & _ & H2 & _).
  split.
  - etransitivity; [|etransitivity; [exact H1|]]; vm_compute; reflexivity.
  - refine (proj1 (H2 Gvr.HTTPRoute_v1beta1 _)). apply (bool_decide_unpack _). vm_compute. exact I.
Defined.

End Witnesses.
