(* ===== verification/KubeRest.v ===== *)
(** * KubeRest: pkg/kube

    The REST configuration every Kubernetes client is made from (util.go,
    client_config.go), and the factory and the constructor of the clients
    (client_factory.go, client.go).  A *rest.Config is a location of a heap, so
    that the copies and the in-place defaults of the code are visible.  Loading
    kubeconfig files, and the constructors and constants of the client libraries,
    are parameters ([KubeLibs]). *)

From stdpp Require Import infinite fin_sets.
From S2P Require Import Prelude K8s.

Local Open Scope string_scope.

(** ** rest.Config *)

Record GroupVersion := { gv_Group : string; gv_Version : string }.

(** [GroupVersion.Empty]. *)
Definition gv_Empty (gv : GroupVersion) : bool :=
  bool_decide (gv_Group gv = "") && bool_decide (gv_Version gv = "").

(** The fields that say where to connect and as whom. *)
Record Connection := {
  cn_Host : string; cn_ServerName : string; cn_Insecure : bool; cn_CAFile : string; cn_CAData : string;
  cn_CertFile : string; cn_CertData : string; cn_KeyFile : string; cn_KeyData : string;
  cn_BearerToken : string; cn_BearerTokenFile : string;
  cn_ImpersonateUserName : string; cn_ImpersonateGroups : list string;
  cn_ImpersonateExtra : gmap string (list string);
  cn_Username : string; cn_Password : string;
  cn_AuthProvider : option string; cn_ExecProvider : option string
}.

Record RestConfig := {
  rc_GroupVersion : option GroupVersion; rc_APIPath : string;
  rc_ContentType : string; rc_AcceptContentTypes : string;
  rc_NegotiatedSerializer : option string; rc_UserAgent : string;
  rc_Timeout : Z; rc_connection : Connection
}.

(** [corev1.SchemeGroupVersion], the content types of apimachinery, the codec
    factory of a scheme; the schemes added to [AIProxyGatewayScheme]; the
    constructors of the clients, an error or a client. *)
Class KubeLibs := {
  SchemeGroupVersion : GroupVersion;
  ContentTypeProtobuf : string;
  ContentTypeJSON : string;
  WithoutConversion : list string -> string;
  add_to_scheme : string -> list string -> string + list string;
  new_discovery : RestConfig -> string + string;
  new_kubernetes : RestConfig -> string + string;
  new_metadata : RestConfig -> string + string;
  new_dynamic : RestConfig -> string + string;
  new_istio : RestConfig -> string + string;
  new_gatewayapi : RestConfig -> string + string;
  new_inference : RestConfig -> string + string;
  new_ext : RestConfig -> string + string
}.

Definition AIProxyGatewayUserAgent : string := "ai-proxy-gateway/v1.0".

(** ** The heap *)

(** What a call of clientcmd.ClientConfig.ClientConfig does: an error, or the
    location of a configuration. *)
Definition ClientConfig : Type := kube (gmap positive RestConfig) string positive.

Definition load (l : positive) : kube (gmap positive RestConfig) string RestConfig := fun h => (deref (h !! l), h).
Definition store (l : positive) (c : RestConfig) : kube (gmap positive RestConfig) string unit := fun h => (Ret tt, <[l := c]> h).
Definition alloc (c : RestConfig) : kube (gmap positive RestConfig) string positive :=
  fun h => let l := fresh (dom h : gset positive) in (Ret l, <[l := c]> h).

Section Rest.
Context {KL : KubeLibs}.

(** ** util.go *)

Fixpoint add_all (names : list string) (scheme : list string) : outcome string (list string) :=
  match names with
  | [] => Ret scheme
  | n :: names =>
      match add_to_scheme n scheme with
      | inl _ => Panic ExplicitPanic   (* utilruntime.Must *)
      | inr scheme => add_all names scheme
      end
  end.

Definition aiProxyGatewayScheme : outcome string (list string) :=
  add_all ["kubescheme"; "clientnetworking"; "clientnetworkingbeta"; "clientnetworkingalpha";
           "clientsecurity"; "clientsecuritybeta"; "clienttelemetry"; "clienttelemetryalpha";
           "clientextensions"; "gatewayapi"; "gatewayapialpha3"; "gatewayapibeta"; "gatewayapiv1";
           "gatewayx"; "inferencev1"; "apiextensionsv1"] [].

(** The scheme the package is initialised with. *)
Context (AIProxyGatewayScheme : list string).

(** The assignments of [SetRestDefaults], in order. *)
Definition default_group_version (c : RestConfig) : RestConfig :=
  if match rc_GroupVersion c with None => true | Some gv => gv_Empty gv end
  then {| rc_GroupVersion := Some SchemeGroupVersion; rc_APIPath := rc_APIPath c;
          rc_ContentType := rc_ContentType c; rc_AcceptContentTypes := rc_AcceptContentTypes c;
          rc_NegotiatedSerializer := rc_NegotiatedSerializer c; rc_UserAgent := rc_UserAgent c;
          rc_Timeout := rc_Timeout c; rc_connection := rc_connection c |}
  else c.

(** The group version is not nil here. *)
Definition default_api_path (c : RestConfig) : RestConfig :=
  if bool_decide (rc_APIPath c = "")
  then {| rc_GroupVersion := rc_GroupVersion c;
          rc_APIPath :=
            if bool_decide (default "" (gv_Group <$> rc_GroupVersion c) = "") then "/api" else "/apis";
          rc_ContentType := rc_ContentType c; rc_AcceptContentTypes := rc_AcceptContentTypes c;
          rc_NegotiatedSerializer := rc_NegotiatedSerializer c; rc_UserAgent := rc_UserAgent c;
          rc_Timeout := rc_Timeout c; rc_connection := rc_connection c |}
  else c.

Definition default_content_type (c : RestConfig) : RestConfig :=
  if bool_decide (rc_ContentType c = "")
  then {| rc_GroupVersion := rc_GroupVersion c; rc_APIPath := rc_APIPath c;
          rc_ContentType := ContentTypeJSON;
          rc_AcceptContentTypes := ContentTypeProtobuf +:+ "," +:+ ContentTypeJSON;
          rc_NegotiatedSerializer := rc_NegotiatedSerializer c; rc_UserAgent := rc_UserAgent c;
          rc_Timeout := rc_Timeout c; rc_connection := rc_connection c |}
  else c.

Definition default_serializer (c : RestConfig) : RestConfig :=
  match rc_NegotiatedSerializer c with
  | Some _ => c
  | None =>
      {| rc_GroupVersion := rc_GroupVersion c; rc_APIPath := rc_APIPath c;
         rc_ContentType := rc_ContentType c; rc_AcceptContentTypes := rc_AcceptContentTypes c;
         rc_NegotiatedSerializer := Some (WithoutConversion AIProxyGatewayScheme);
         rc_UserAgent := rc_UserAgent c; rc_Timeout := rc_Timeout c; rc_connection := rc_connection c |}
  end.

Definition default_user_agent (c : RestConfig) : RestConfig :=
  if bool_decide (rc_UserAgent c = "")
  then {| rc_GroupVersion := rc_GroupVersion c; rc_APIPath := rc_APIPath c;
          rc_ContentType := rc_ContentType c; rc_AcceptContentTypes := rc_AcceptContentTypes c;
          rc_NegotiatedSerializer := rc_NegotiatedSerializer c;
          rc_UserAgent := AIProxyGatewayUserAgent; rc_Timeout := rc_Timeout c;
          rc_connection := rc_connection c |}
  else c.

Definition rest_defaults (c : RestConfig) : RestConfig :=
  default_user_agent (default_serializer (default_content_type (default_api_path (default_group_version c)))).

(** In place: the pointer passed is the pointer returned. *)
Definition SetRestDefaults (config : positive) : kube (gmap positive RestConfig) string positive :=
  do! c := load config in
  do! _ := store config (rest_defaults c) in
  kret config.

(** Loading a kubeconfig, by its path and the overrides of the configuration. *)
Record ConfigOverrides := { co_ClusterDefaults : bool; co_CurrentContext : string }.
Record LoadingRules := { lr_DefaultClientConfig : bool; lr_ExplicitPath : string }.

Definition ConfigLoadingRules (kubeconfig : string) : LoadingRules :=
  {| lr_DefaultClientConfig := true; lr_ExplicitPath := kubeconfig |}.

Section Loading.
(** [clientcmd.NewNonInteractiveDeferredLoadingClientConfig]. *)
Context (deferred_loading : LoadingRules -> ConfigOverrides -> ClientConfig).

Definition BuildClientCmd (kubeconfig context : string) (overrides : list (ConfigOverrides -> ConfigOverrides))
    : ClientConfig :=
  let loadingRules := ConfigLoadingRules kubeconfig in
  let configOverrides := {| co_ClusterDefaults := true; co_CurrentContext := context |} in
  deferred_loading loadingRules (foldl (fun o fn => fn o) configOverrides overrides).

Definition BuildClientConfig (kubeconfig context : string) : kube (gmap positive RestConfig) string positive :=
  do! c := BuildClientCmd kubeconfig context [] in
  SetRestDefaults c.

Fixpoint apply_fns (config : positive) (fns : list (RestConfig -> RestConfig)) : kube (gmap positive RestConfig) string unit :=
  match fns with
  | [] => kret tt
  | fn :: fns =>
      do! c := load config in
      do! _ := store config (fn c) in
      apply_fns config fns
  end.

Definition DefaultRestConfig (kubeconfig configContext : string) (fns : list (RestConfig -> RestConfig))
    : kube (gmap positive RestConfig) string positive :=
  fun h =>
    match BuildClientConfig kubeconfig configContext h with
    | (Err e, h') => (Err ("failed to setup client: " +:+ e), h')
    | (Ret config, h') => (do! _ := apply_fns config fns in kret config) h'
    | (Panic p, h') => (Panic p, h')
    end.
End Loading.

(** ** client_config.go *)

Definition contextName : string := "context0".
Definition clusterName : string := "cluster0".
Definition authInfoName : string := "authInfo0".

Record Cluster := {
  cl_Server : string; cl_TLSServerName : string; cl_InsecureSkipTLSVerify : bool;
  cl_CertificateAuthority : string; cl_CertificateAuthorityData : string
}.
Record AuthInfo := {
  ai_ClientCertificate : string; ai_ClientCertificateData : string;
  ai_ClientKey : string; ai_ClientKeyData : string; ai_Token : string; ai_TokenFile : string;
  ai_Impersonate : string; ai_ImpersonateGroups : list string;
  ai_ImpersonateUserExtra : gmap string (list string);
  ai_Username : string; ai_Password : string; ai_AuthProvider : option string; ai_Exec : option string
}.
Record Context_ := { cx_Cluster : string; cx_AuthInfo : string }.
Record ApiConfig := {
  ac_Kind : string; ac_APIVersion : string;
  ac_Clusters : gmap string Cluster; ac_AuthInfos : gmap string AuthInfo;
  ac_Contexts : gmap string Context_; ac_CurrentContext : string
}.

Definition newCluster (c : Connection) : Cluster :=
  {| cl_Server := cn_Host c; cl_TLSServerName := cn_ServerName c;
     cl_InsecureSkipTLSVerify := cn_Insecure c; cl_CertificateAuthority := cn_CAFile c;
     cl_CertificateAuthorityData := cn_CAData c |}.

Definition newAuthInfo (c : Connection) : AuthInfo :=
  {| ai_ClientCertificate := cn_CertFile c; ai_ClientCertificateData := cn_CertData c;
     ai_ClientKey := cn_KeyFile c; ai_ClientKeyData := cn_KeyData c;
     ai_Token := cn_BearerToken c; ai_TokenFile := cn_BearerTokenFile c;
     ai_Impersonate := cn_ImpersonateUserName c; ai_ImpersonateGroups := cn_ImpersonateGroups c;
     ai_ImpersonateUserExtra := cn_ImpersonateExtra c;
     ai_Username := cn_Username c; ai_Password := cn_Password c;
     ai_AuthProvider := cn_AuthProvider c; ai_Exec := cn_ExecProvider c |}.

(** A *clientConfig: the copy of the configuration it was made from, at a
    location of its own. *)
Definition NewClientConfigForRestConfig (restConfig : positive) : kube (gmap positive RestConfig) string positive :=
  do! c := load restConfig in alloc c.

Definition copyRestConfig (self : positive) : kube (gmap positive RestConfig) string positive :=
  do! c := load self in alloc c.

(** The method ClientConfig. *)
Definition clientConfig_ClientConfig (self : positive) : ClientConfig := copyRestConfig self.

Definition RawConfig (self : positive) : kube (gmap positive RestConfig) string ApiConfig :=
  do! c := load self in
  kret {| ac_Kind := "Config"; ac_APIVersion := "v1";
          ac_Clusters := {[clusterName := newCluster (rc_connection c)]};
          ac_AuthInfos := {[authInfoName := newAuthInfo (rc_connection c)]};
          ac_Contexts := {[contextName := {| cx_Cluster := clusterName; cx_AuthInfo := authInfoName |}]};
          ac_CurrentContext := contextName |}.

Definition Namespace_ (self : positive) : string * bool := ("default", false).

(** ** client_factory.go *)

Record clientFactory := { cf_clientConfig : ClientConfig; cf_discovery : string }.

Definition ToRESTConfig (clientConfig : ClientConfig) : kube (gmap positive RestConfig) string positive :=
  do! restConfig := clientConfig in
  SetRestDefaults restConfig.

(** klog.Fatalf ends the process. *)
Definition newClientFactory (clientConfig : ClientConfig) : kube (gmap positive RestConfig) string clientFactory :=
  fun h =>
    match ToRESTConfig clientConfig h with
    | (Err _, h') => (Panic FatalExit, h')
    | (Panic p, h') => (Panic p, h')
    | (Ret restConfig, h') =>
        match load restConfig h' with
        | (Ret c, h') =>
            match new_discovery c with
            | inl _ => (Panic FatalExit, h')
            | inr d => (Ret {| cf_clientConfig := clientConfig; cf_discovery := d |}, h')
            end
        | (Err e, h') => (Err e, h')
        | (Panic p, h') => (Panic p, h')
        end
    end.

(** ** client.go *)

Record client := {
  c_config : positive; c_kube : string; c_metadata : string; c_dynamic : string; c_istio : string;
  c_gatewayapi : string; c_inference : string; c_ext : string;
  c_http_timeout : Z; c_crdWatcher : option string
}.

Definition lift (r : string + string) : kube (gmap positive RestConfig) string string :=
  match r with inl e => kerr e | inr c => kret c end.

Definition newClientInternal (factory : clientFactory) : kube (gmap positive RestConfig) string client :=
  do! config := ToRESTConfig (cf_clientConfig factory) in
  do! cfg := load config in
  do! k := lift (new_kubernetes cfg) in
  do! m := lift (new_metadata cfg) in
  do! d := lift (new_dynamic cfg) in
  do! i := lift (new_istio cfg) in
  do! g := lift (new_gatewayapi cfg) in
  do! p := lift (new_inference cfg) in
  do! x := lift (new_ext cfg) in
  kret {| c_config := config; c_kube := k; c_metadata := m; c_dynamic := d; c_istio := i;
          c_gatewayapi := g; c_inference := p; c_ext := x;
          c_http_timeout := if negb (rc_Timeout cfg =? 0)%Z then rc_Timeout cfg else (15 * second)%Z;
          c_crdWatcher := None |}.

Definition NewClient (clientConfig : ClientConfig) (cluster : string) : kube (gmap positive RestConfig) string client :=
  do! f := newClientFactory clientConfig in
  newClientInternal f.

(** [NewCrdWatcher] is nil until the watcher library sets it. *)
Definition EnableCrdWatcher (NewCrdWatcher : option (client -> string)) (c : client) : outcome string client :=
  match NewCrdWatcher with
  | None => Panic ExplicitPanic
  | Some new =>
      match c_crdWatcher c with
      | Some _ => Panic ExplicitPanic
      | None =>
          Ret {| c_config := c_config c; c_kube := c_kube c; c_metadata := c_metadata c;
                 c_dynamic := c_dynamic c; c_istio := c_istio c; c_gatewayapi := c_gatewayapi c;
                 c_inference := c_inference c; c_ext := c_ext c; c_http_timeout := c_http_timeout c;
                 c_crdWatcher := Some (new c) |}
      end
  end.
End Rest.

(** ** Properties *)

(** The constants of apimachinery. *)
Class KubeLaws `{KubeLibs} := {
  core_group : gv_Group SchemeGroupVersion = "" /\ gv_Version SchemeGroupVersion <> "";
  json_set : ContentTypeJSON <> ""
}.

Section Facts.
Context {KL : KubeLibs} {KLaws : KubeLaws}.
Context (S : list string).

Lemma core_not_empty : gv_Empty SchemeGroupVersion = false.
Proof. destruct core_group as [_ H]. unfold gv_Empty. by rewrite andb_comm, bool_decide_eq_false_2. Qed.

(** Nothing is left to default. *)
Definition complete (c : RestConfig) : Prop :=
  (exists gv, rc_GroupVersion c = Some gv /\ gv_Empty gv = false) /\ rc_APIPath c <> "" /\
  rc_ContentType c <> "" /\ is_Some (rc_NegotiatedSerializer c) /\ rc_UserAgent c <> "".

Lemma complete_fixed c : complete c -> rest_defaults S c = c.
Proof.
  intros ((gv & H1 & H2) & H3 & H4 & [s H5] & H6).
  assert (default_group_version c = c) as E1 by (unfold default_group_version; by rewrite H1, H2).
  assert (default_api_path c = c) as E2 by (unfold default_api_path; by rewrite bool_decide_eq_false_2).
  assert (default_content_type c = c) as E3 by (unfold default_content_type; by rewrite bool_decide_eq_false_2).
  assert (default_serializer S c = c) as E4 by (unfold default_serializer; by rewrite H5).
  assert (default_user_agent c = c) as E5 by (unfold default_user_agent; by rewrite bool_decide_eq_false_2).
  unfold rest_defaults. by rewrite E1, E2, E3, E4, E5.
Qed.

(** The value of each field after the defaults. *)
Lemma rest_defaults_fields c :
  let gv := match rc_GroupVersion c with
            | Some gv => if gv_Empty gv then SchemeGroupVersion else gv
            | None => SchemeGroupVersion
            end in
  let typed := negb (bool_decide (rc_ContentType c = "")) in
  rest_defaults S c =
  {| rc_GroupVersion := Some gv;
     rc_APIPath := if bool_decide (rc_APIPath c = "")
                   then if bool_decide (gv_Group gv = "") then "/api" else "/apis" else rc_APIPath c;
     rc_ContentType := if typed then rc_ContentType c else ContentTypeJSON;
     rc_AcceptContentTypes := if typed then rc_AcceptContentTypes c
                              else ContentTypeProtobuf +:+ "," +:+ ContentTypeJSON;
     rc_NegotiatedSerializer := Some (default (WithoutConversion S) (rc_NegotiatedSerializer c));
     rc_UserAgent := if bool_decide (rc_UserAgent c = "") then AIProxyGatewayUserAgent else rc_UserAgent c;
     rc_Timeout := rc_Timeout c; rc_connection := rc_connection c |}.
Proof.
  destruct c as [gv path ct act ns ua t conn]. cbn [rc_GroupVersion rc_APIPath rc_ContentType
    rc_AcceptContentTypes rc_NegotiatedSerializer rc_UserAgent rc_Timeout rc_connection]. cbv zeta.
  unfold rest_defaults, default_group_version, default_api_path, default_content_type, default_serializer,
    default_user_agent. cbn [rc_GroupVersion].
  destruct gv as [gv|]; [destruct (gv_Empty gv)|]; cbn;
    repeat (case_bool_decide || case_match); cbn in *; simplify_eq; done.
Qed.

(** [SetRestDefaults] is idempotent, as its comment says: it leaves no field
    to default, so a second run changes nothing.  A set field is kept, with one
    exception: the accepted content types are replaced when the content type is
    empty.  The API path follows the group version, and where to connect, as
    whom and the timeout never change. *)
Theorem SetRestDefaults_idempotent h l c :
  h !! l = Some c ->
  exists d, SetRestDefaults S l h = (Ret l, <[l := d]> h) /\ complete d /\
    SetRestDefaults S l (<[l := d]> h) = (Ret l, <[l := d]> h) /\
    (rc_APIPath c <> "" -> rc_APIPath d = rc_APIPath c) /\
    (rc_APIPath c = "" -> rc_GroupVersion c = None -> rc_APIPath d = "/api") /\
    (rc_ContentType c <> "" ->
       rc_ContentType d = rc_ContentType c /\ rc_AcceptContentTypes d = rc_AcceptContentTypes c) /\
    (rc_ContentType c = "" -> rc_AcceptContentTypes d = ContentTypeProtobuf +:+ "," +:+ ContentTypeJSON) /\
    (forall s, rc_NegotiatedSerializer c = Some s -> rc_NegotiatedSerializer d = Some s) /\
    (rc_UserAgent c <> "" -> rc_UserAgent d = rc_UserAgent c) /\
    rc_Timeout d = rc_Timeout c /\ rc_connection d = rc_connection c.
Proof.
  intros Hl. exists (rest_defaults S c).
  pose proof (rest_defaults_fields c) as F. cbv zeta in F.
  assert (complete (rest_defaults S c)) as Hc.
  { rewrite F. clear F. unfold complete. cbn. split_and!.
    - eexists. split; [done|]. destruct (rc_GroupVersion c) as [gv|]; [|apply core_not_empty].
      destruct (gv_Empty gv) eqn:E; [apply core_not_empty|done].
    - repeat case_bool_decide; done.
    - case_bool_decide; [apply json_set|done].
    - by eexists.
    - case_bool_decide; done. }
  assert (forall h d, h !! l = Some d -> SetRestDefaults S l h = (Ret l, <[l := rest_defaults S d]> h)) as Hs.
  { intros h' d Hd. unfold SetRestDefaults, kbind, load. by rewrite Hd. }
  split_and!; [by apply Hs|done| | |..].
  - rewrite (Hs _ (rest_defaults S c)) by apply lookup_insert_eq.
    rewrite (complete_fixed _ Hc). by rewrite insert_insert_eq.
  - intros H. rewrite F. cbn. by rewrite bool_decide_eq_false_2.
  - intros H H'. rewrite F. cbn. rewrite H', (bool_decide_eq_true_2 _ H).
    destruct core_group as [-> _]. done.
  - intros H. rewrite F. cbn. by rewrite bool_decide_eq_false_2.
  - intros H. rewrite F. cbn. by rewrite bool_decide_eq_true_2.
  - intros s H. rewrite F. cbn. by rewrite H.
  - intros H. rewrite F. cbn. by rewrite bool_decide_eq_false_2.
  - by rewrite F.
  - by rewrite F.
Qed.

(** A location that is not in use. *)
Definition unused (h : gmap positive RestConfig) : positive := fresh (dom h : gset positive).

Lemma unused_None h : h !! unused h = None.
Proof. apply (not_elem_of_dom (D := gset positive)). exact (is_fresh (dom h)). Qed.

Lemma ToRESTConfig_copy self h c :
  h !! self = Some c ->
  ToRESTConfig S (clientConfig_ClientConfig self) h
    = (Ret (unused h), <[unused h := rest_defaults S c]> h).
Proof.
  intros Hc. unfold ToRESTConfig, clientConfig_ClientConfig, copyRestConfig, SetRestDefaults, kbind, load, alloc.
  rewrite Hc. cbn. fold (unused h). rewrite lookup_insert_eq. cbn. unfold store.
  by rewrite insert_insert_eq.
Qed.

(** The constructors, in the order of the calls, and the first error of them. *)
Definition constructors (d : RestConfig) : list (string + string) :=
  [new_kubernetes d; new_metadata d; new_dynamic d; new_istio d; new_gatewayapi d; new_inference d; new_ext d].

Fixpoint first_error (rs : list (string + string)) : option string :=
  match rs with
  | [] => None
  | inl e :: _ => Some e
  | inr _ :: rs => first_error rs
  end.

Lemma newClientFactory_copy self h c :
  h !! self = Some c ->
  newClientFactory S (clientConfig_ClientConfig self) h =
    (match new_discovery (rest_defaults S c) with
     | inl _ => Panic FatalExit
     | inr d => Ret {| cf_clientConfig := clientConfig_ClientConfig self; cf_discovery := d |}
     end, <[unused h := rest_defaults S c]> h).
Proof.
  intros Hc. unfold newClientFactory. rewrite (ToRESTConfig_copy self h c) by done.
  unfold load. rewrite lookup_insert_eq. cbn [deref]. by destruct (new_discovery _).
Qed.

(** The client of successful constructors. *)
Definition made (l : positive) (d : RestConfig) : client :=
  let get r := match r with inr x => x | inl _ => "" end in
  {| c_config := l; c_kube := get (new_kubernetes d); c_metadata := get (new_metadata d);
     c_dynamic := get (new_dynamic d); c_istio := get (new_istio d);
     c_gatewayapi := get (new_gatewayapi d); c_inference := get (new_inference d);
     c_ext := get (new_ext d);
     c_http_timeout := if negb (rc_Timeout d =? 0)%Z then rc_Timeout d else (15 * second)%Z;
     c_crdWatcher := None |}.

Lemma newClientInternal_copy f self h c :
  cf_clientConfig f = clientConfig_ClientConfig self -> h !! self = Some c ->
  newClientInternal S f h =
    (match first_error (constructors (rest_defaults S c)) with
     | Some e => Err e
     | None => Ret (made (unused h) (rest_defaults S c))
     end, <[unused h := rest_defaults S c]> h).
Proof.
  intros Hf Hc. unfold newClientInternal, kbind. rewrite Hf, (ToRESTConfig_copy self h c) by done.
  unfold load. rewrite lookup_insert_eq. cbn [deref]. unfold made, constructors.
  set (d := rest_defaults S c).
  destruct (new_kubernetes d); cbn; [done|]. destruct (new_metadata d); cbn; [done|].
  destruct (new_dynamic d); cbn; [done|]. destruct (new_istio d); cbn; [done|].
  destruct (new_gatewayapi d); cbn; [done|]. destruct (new_inference d); cbn; [done|].
  by destruct (new_ext d).
Qed.

(** Making the clients from a wrapped configuration.  The factory and the
    clients each work on a copy of their own with the defaults applied, so the
    wrapped configuration is what it was, and its raw form still shows its server
    and credentials.  A discovery error ends the process; otherwise the first
    failing constructor, in order, gives the error; otherwise there is a client
    whose HTTP timeout is the configured one, or 15 seconds for none. *)
Theorem NewClient_isolated self h c cluster :
  h !! self = Some c ->
  let d := rest_defaults S c in
  exists h',
    (NewClient S (clientConfig_ClientConfig self) cluster h).2 = h' /\
    h ⊆ h' /\
    (exists raw, RawConfig self h' = (Ret raw, h') /\
       ac_Clusters raw !! clusterName = Some (newCluster (rc_connection c)) /\
       ac_AuthInfos raw !! authInfoName = Some (newAuthInfo (rc_connection c)) /\
       (exists cx, ac_Contexts raw !! ac_CurrentContext raw = Some cx /\
          cx_Cluster cx = clusterName /\ cx_AuthInfo cx = authInfoName)) /\
    match (NewClient S (clientConfig_ClientConfig self) cluster h).1, new_discovery d with
    | Panic p, inl _ => p = FatalExit
    | Err e, inr _ => first_error (constructors d) = Some e
    | Ret cl, inr _ =>
        first_error (constructors d) = None /\ h !! c_config cl = None /\ h' !! c_config cl = Some d /\
        c_http_timeout cl = (if (rc_Timeout c =? 0)%Z then 15 * second else rc_Timeout c)%Z /\
        c_crdWatcher cl = None
    | _, _ => False
    end.
Proof.
  intros Hc d. set (h1 := <[unused h := d]> h).
  assert (h ⊆ h1) as Hs1 by (apply insert_subseteq, unused_None).
  assert (h1 !! self = Some c) as Hc1 by (eapply lookup_weaken; eauto).
  set (h2 := <[unused h1 := d]> h1).
  assert (h ⊆ h2) as Hs2 by (etransitivity; [exact Hs1|]; apply insert_subseteq, unused_None).
  assert (forall h', h ⊆ h' -> exists raw, RawConfig self h' = (Ret raw, h') /\
       ac_Clusters raw !! clusterName = Some (newCluster (rc_connection c)) /\
       ac_AuthInfos raw !! authInfoName = Some (newAuthInfo (rc_connection c)) /\
       (exists cx, ac_Contexts raw !! ac_CurrentContext raw = Some cx /\
          cx_Cluster cx = clusterName /\ cx_AuthInfo cx = authInfoName)) as Hraw.
  { intros h' Hs. unfold RawConfig, kbind, load. rewrite (lookup_weaken _ _ _ _ Hc Hs). cbn.
    eexists. split; [reflexivity|]. cbn. split_and!; [done|done|]. eexists. done. }
  assert (rc_Timeout d = rc_Timeout c) as Ht by (unfold d; by rewrite rest_defaults_fields).
  unfold NewClient, kbind. rewrite (newClientFactory_copy self h c) by done. fold d. fold h1.
  destruct (new_discovery d) as [e|dc].
  { exists h1. cbn. split_and!; [done|done|by apply Hraw|done]. }
  rewrite (newClientInternal_copy _ self h1 c) by done. fold d. fold h2.
  exists h2. destruct (first_error (constructors d)) as [e|] eqn:Hf; cbn.
  { split_and!; [done|done|by apply Hraw|done]. }
  split_and!; [done|done|by apply Hraw|done| | | |done].
  - destruct (h !! unused h1) eqn:E; [|done].
    pose proof (lookup_weaken _ _ _ _ E Hs1) as E'. by rewrite unused_None in E'.
  - apply lookup_insert_eq.
  - rewrite Ht. by destruct (rc_Timeout c =? 0)%Z.
Qed.
End Facts.

(** A watcher is enabled once: a second call panics. *)
Lemma EnableCrdWatcher_once new cl cl' :
  EnableCrdWatcher (Some new) cl = Ret cl' ->
  c_crdWatcher cl' = Some (new cl) /\ EnableCrdWatcher (Some new) cl' = Panic ExplicitPanic.
Proof. unfold EnableCrdWatcher. destruct (c_crdWatcher cl); [done|]. by intros [= <-]. Qed.

(** ** Witnesses *)

#[local] Instance example_libs : KubeLibs := {|
  SchemeGroupVersion := {| gv_Group := ""; gv_Version := "v1" |};
  ContentTypeProtobuf := "application/vnd.kubernetes.protobuf";
  ContentTypeJSON := "application/json";
  WithoutConversion := String.concat ",";
  add_to_scheme n s := inr (n :: s);
  new_discovery _ := inr "discovery"; new_kubernetes _ := inr "kubernetes"; new_metadata _ := inr "metadata";
  new_dynamic _ := inr "dynamic"; new_istio _ := inl "no such host"; new_gatewayapi _ := inr "gatewayapi";
  new_inference _ := inl "later"; new_ext _ := inr "ext"
|}.

#[local] Instance example_laws : KubeLaws.
Proof. split; [by split|done]. Qed.

Definition example_rest : RestConfig :=
  {| rc_GroupVersion := None; rc_APIPath := ""; rc_ContentType := ""; rc_AcceptContentTypes := "text/plain";
     rc_NegotiatedSerializer := None; rc_UserAgent := ""; rc_Timeout := 0;
     rc_connection :=
       {| cn_Host := "https://k"; cn_ServerName := ""; cn_Insecure := false; cn_CAFile := ""; cn_CAData := "";
          cn_CertFile := ""; cn_CertData := ""; cn_KeyFile := ""; cn_KeyData := ""; cn_BearerToken := "t";
          cn_BearerTokenFile := ""; cn_ImpersonateUserName := ""; cn_ImpersonateGroups := [];
          cn_ImpersonateExtra := ∅; cn_Username := ""; cn_Password := ""; cn_AuthProvider := None;
          cn_ExecProvider := None |} |}.

Definition example_heap : gmap positive RestConfig := {[1%positive := example_rest]}.

Lemma SetRestDefaults_idempotent_witness :
  exists d, SetRestDefaults [] 1%positive example_heap = (Ret 1%positive, <[1%positive := d]> example_heap) /\
    rc_APIPath d = "/api".
Proof.
  destruct (SetRestDefaults_idempotent [] example_heap 1%positive example_rest eq_refl)
    as (d & H1 & _ & _ & _ & H2 & _).
  exists d. split; [exact H1|exact (H2 eq_refl eq_refl)].
Defined.

Lemma NewClient_isolated_witness :
  (NewClient [] (clientConfig_ClientConfig 1%positive) "Kubernetes" example_heap).1 = Err "no such host" /\
  example_heap ⊆ (NewClient [] (clientConfig_ClientConfig 1%positive) "Kubernetes" example_heap).2.
Proof.
  destruct (NewClient_isolated [] 1%positive example_heap example_rest "Kubernetes" eq_refl)
    as (h' & H1 & H2 & _).
  rewrite H1. split; [vm_compute; reflexivity|exact H2].
Defined.
