(* ===== verification/EppDatastore.v ===== *)
(** * EppDatastore: the endpoints of an inference pool

    src/pkg/epp/datastore/datastore.go and the reconcilers that drive it
    (src/pkg/controllers/networking/inferencepool): a pod of the pool has one
    endpoint for each target port, with a refresh loop of [EppMetrics].  The
    label library and the client's list call are parameters ([LabelLib] and an
    argument); the order of [sync.Map.Range] is one too ([SyncRange]).  The
    methods use a field [pool] the struct does not declare; here it is a field. *)

From S2P Require Import Prelude GoStd Float64 EppMetrics K8s.

Local Open Scope Z_scope.

(** ** Data *)

Record EndpointPool := {
  ep_Namespace : string; ep_Name : string;
  ep_Selector : gmap string string; ep_TargetPorts : list Z
}.

(** v1.InferencePool, the fields the code reads. *)
Record InferencePool := {
  ip_Namespace : string; ip_Name : string; ip_deleting : bool;
  ip_MatchLabels : gmap string string; ip_TargetPorts : list Z
}.

(** corev1.Pod, the fields the code reads. *)
Record Pod := {
  p_Namespace : string; p_Name : string; p_Labels : option (gmap string string);
  p_PodIP : string; p_deleting : bool; p_conditions : list PodCondition
}.

Definition NamespacedName : Type := string * string.

(** [SelectorFromSet(s).Matches(l)] and [labels.Equals] of apimachinery. *)
Class LabelLib := {
  SelectorMatches : gmap string string -> gmap string string -> bool;
  LabelsEquals : gmap string string -> gmap string string -> bool
}.

(** [ds_pods] is the map of the endpoints, [ds_released] the endpoints given to
    [ReleaseEndpoint]. *)
Record Datastore := {
  ds_pools : gmap string EndpointPool;
  ds_pool : option EndpointPool;
  ds_pods : gmap NamespacedName PodMetrics;
  ds_released : list PodMetrics
}.

(** The order [Range] visits the entries in. *)
Class SyncRange := {
  sync_range : gmap NamespacedName PodMetrics -> list (NamespacedName * PodMetrics);
  sync_range_perm m : sync_range m ≡ₚ map_to_list m
}.

Inductive ds_error := ListFailed | GetFailed.

Definition NewDatastore : Datastore :=
  {| ds_pools := ∅; ds_pool := None; ds_pods := ∅; ds_released := [] |}.

Definition with_pods (pods : gmap NamespacedName PodMetrics) (s : Datastore) : Datastore :=
  {| ds_pools := ds_pools s; ds_pool := ds_pool s; ds_pods := pods; ds_released := ds_released s |}.
Definition with_pool (p : option EndpointPool) (s : Datastore) : Datastore :=
  {| ds_pools := ds_pools s; ds_pool := p; ds_pods := ds_pods s; ds_released := ds_released s |}.
Definition with_pools (p : gmap string EndpointPool) (s : Datastore) : Datastore :=
  {| ds_pools := p; ds_pool := ds_pool s; ds_pods := ds_pods s; ds_released := ds_released s |}.

Definition InferencePoolToEndpointPool (p : InferencePool) : EndpointPool :=
  {| ep_Namespace := ip_Namespace p; ep_Name := ip_Name p; ep_Selector := ip_MatchLabels p;
     ep_TargetPorts := ip_TargetPorts p |}.

Section Datastore.
Context {LL : LabelLib} {SR : SyncRange}.

Definition HasPool (poolName : string) (s : Datastore) : bool := bool_decide (is_Some (ds_pools s !! poolName)).

Definition PoolLabelsMatch (poolName : string) (label : gmap string string) (s : Datastore) : bool :=
  match ds_pools s !! poolName with
  | None => false
  | Some endpointPool => SelectorMatches (ep_Selector endpointPool) label
  end.

(** ** Endpoints of a pod *)

Definition rank_name (pod : string) (idx : nat) : string := pod +:+ "-rank-" +:+ itoa (Z.of_nat idx).

Definition endpoint_metadata (pod : Pod) (idx : nat) (port : Z) : EndpointMetadata :=
  {| em_namespace := p_Namespace pod; em_name := rank_name (p_Name pod) idx; em_pod_name := p_Name pod;
     em_address := p_PodIP pod; em_port := itoa port;
     em_metrics_host := JoinHostPort (p_PodIP pod) (itoa port);
     em_labels := default ∅ (p_Labels pod) |}.

Definition em_key (md : EndpointMetadata) : NamespacedName := (em_namespace md, em_name md).

(** The loop over the endpoints of the pod. *)
Fixpoint store_endpoints (metadatas : list EndpointMetadata) (existed : bool) (s : Datastore) : bool * Datastore :=
  match metadatas with
  | [] => (existed, s)
  | md :: rest =>
      match ds_pods s !! em_key md with
      | None => store_endpoints rest false (with_pods (<[em_key md := NewEndpoint md]> (ds_pods s)) s)
      | Some podMetrics =>
          store_endpoints rest existed (with_pods (<[em_key md := UpdateMetadata md podMetrics]> (ds_pods s)) s)
      end
  end.

Definition PodUpdateOrAddIfNotExist (pod : Pod) : kube Datastore ds_error bool :=
  fun s =>
    match ds_pool s with
    | None => (Panic NilDereference, s)
    | Some pool =>
        let metadatas := imap (endpoint_metadata pod) (ep_TargetPorts pool) in
        let '(existed, s') := store_endpoints metadatas true s in (Ret existed, s')
    end.

(** One visit of [Range] in [PodDelete]. *)
Definition delete_endpoint (podName : string) (s : Datastore) (kv : NamespacedName * PodMetrics) : Datastore :=
  if bool_decide (em_pod_name (pm_metadata kv.2) = podName)
  then {| ds_pools := ds_pools s; ds_pool := ds_pool s; ds_pods := delete kv.1 (ds_pods s);
          ds_released := ds_released s ++ [StopRefreshLoop kv.2] |}
  else s.

Definition PodDelete (podName : string) (s : Datastore) : Datastore :=
  foldl (delete_endpoint podName) s (sync_range (ds_pods s)).

(** ** Synchronising with the pool *)

(** The loop over the listed pods: the names of the ready ones are collected. *)
Fixpoint start_ready (pods : list Pod) (activePods : gset string) : kube Datastore ds_error (gset string) :=
  match pods with
  | [] => kret activePods
  | pod :: rest =>
      if negb (IsPodReady (p_deleting pod) (p_conditions pod)) then start_ready rest activePods
      else
        do! _ := PodUpdateOrAddIfNotExist pod in
        start_ready rest ({[p_Name pod]} ∪ activePods)
  end.

(** One visit of the second [Range]: [PodDelete] of a pod that is not active. *)
Definition release_inactive (activePods : gset string) (s : Datastore) (kv : NamespacedName * PodMetrics) : Datastore :=
  if bool_decide (em_pod_name (pm_metadata kv.2) ∈ activePods) then s
  else PodDelete (em_pod_name (pm_metadata kv.2)) s.

(** [list] is the client's list of the pods with the labels in the namespace.
    The function uses a variable [endpointPool] it does not declare: an argument
    here. *)
Definition StartPodMetricsLoop (list : gmap string string -> string -> api_error + list Pod)
    (pool : InferencePool) (endpointPool : EndpointPool) : kube Datastore ds_error unit :=
  fun s =>
    let latestEndpointPool := InferencePoolToEndpointPool pool in
    let s :=
      with_pools
        match ds_pools s !! ip_Name pool with
        | None => <[ip_Name pool := latestEndpointPool]> (ds_pools s)
        | Some _ => ds_pools s
        end s in
    let oldEndpointPool := ds_pool s in
    let s := with_pool (Some endpointPool) s in
    let changed :=
      match oldEndpointPool with
      | None => true
      | Some old => negb (LabelsEquals (ep_Selector old) (ep_Selector endpointPool))
      end in
    if changed then
      match list (ep_Selector endpointPool) (ep_Namespace endpointPool) with
      | inl _ => (Err ListFailed, s)
      | inr pods =>
          (do! activePods := start_ready pods ∅ in
           fun s => (Ret tt, foldl (release_inactive activePods) s (sync_range (ds_pods s)))) s
      end
    else (Ret tt, s).

Definition release_visited (s : Datastore) (kv : NamespacedName * PodMetrics) : Datastore :=
  PodDelete (em_pod_name (pm_metadata kv.2)) s.

Definition Clear (s : Datastore) : Datastore :=
  let s := with_pool None s in
  let s := foldl release_visited s (sync_range (ds_pods s)) in
  with_pods ∅ s.

(** ** The reconcilers *)

(** The event filter of the pod controller. *)
Definition PoolLabelKey : string := "networking.lx1036.ai".

Definition pod_event_filter (s : Datastore) (pod : Pod) : bool :=
  match p_Labels pod with
  | None => false
  | Some labels =>
      match labels !! PoolLabelKey with
      | None => false
      | Some poolName => if negb (HasPool poolName s) then false else PoolLabelsMatch poolName labels s
      end
  end.

(** [get] is the answer of the client.  The reconciler calls PoolLabelsMatch with
    the labels only; the test they stand for is an argument. *)
Definition PodReconcile (labels_match : gmap string string -> Datastore -> bool)
    (get : api_error + Pod) (namespace name : string) : kube Datastore ds_error Result :=
  fun s =>
    match get with
    | inl NotFound => (Ret done_result, PodDelete name s)
    | inl (ApiFailure _) => (Err GetFailed, s)
    | inr pod =>
        if negb (IsPodReady (p_deleting pod) (p_conditions pod)) ||
           negb (labels_match (default ∅ (p_Labels pod)) s)
        then (Ret done_result, PodDelete (p_Name pod) s)
        else (do! _ := PodUpdateOrAddIfNotExist pod in kret done_result) s
    end.

(** The pool it passes to Clear, which takes none, is dropped. *)
Definition PoolReconcile (list : gmap string string -> string -> api_error + list Pod)
    (get : api_error + InferencePool) (endpointPool : EndpointPool) : kube Datastore ds_error Result :=
  fun s =>
    match get with
    | inl NotFound => (Ret done_result, Clear s)
    | inl (ApiFailure _) => (Err GetFailed, s)
    | inr pool =>
        if ip_deleting pool then (Ret done_result, Clear s)
        else (do! _ := StartPodMetricsLoop list pool endpointPool in kret done_result) s
    end.

End Datastore.
