(* ===== verification/EppDatastoreSpec.v ===== *)
(** * EppDatastoreSpec: the datastore implements a map of pods

    The specification of [EppDatastore]: a map from the pods of the pool to the
    pod as it was last seen.  Each operation of the datastore simulates an
    operation of the map: the endpoints it keeps are, for fixed target ports,
    the pods of the map times the ports, their refresh loops run, and the loops
    of all others are stopped. *)

From S2P Require Import Prelude GoStd Float64 EppMetrics K8s EppDatastore.
Import EppDatastore.

Local Open Scope Z_scope.

(** ** Endpoint names *)

Lemma rank_name_inj n m i j :
  Z.of_nat i <= max_int64 -> Z.of_nat j <= max_int64 ->
  rank_name n i = rank_name m j -> n = m /\ i = j.
Proof.
  unfold rank_name. intros Hi Hj H.
  assert (forall s k, s +:+ "-rank-" +:+ itoa (Z.of_nat k) = (s +:+ "-rank") +:+ String "-" (itoa (Z.of_nat k))) as E
    by (intros; by rewrite str_app_assoc).
  rewrite !E in H. apply str_last_sep_inj in H as [H1 H2].
  - split; [by eapply str_app_inv_tail|by apply itoa_nat_inj].
  - by apply itoa_nat_no_char.
  - by apply itoa_nat_no_char.
Qed.

Section Spec.
Context {LL : LabelLib} {SR : SyncRange}.

(** ** What the loops do *)

Lemma store_endpoints_spec mds existed s :
  NoDup (em_key <$> mds) ->
  let '(existed', s') := store_endpoints mds existed s in
  existed' = existed && forallb (fun md => bool_decide (is_Some (ds_pods s !! em_key md))) mds /\
  s' = with_pods (ds_pods s') s /\
  (forall md, md ∈ mds -> ds_pods s' !! em_key md =
     Some (match ds_pods s !! em_key md with None => NewEndpoint md | Some pm => UpdateMetadata md pm end)) /\
  (forall key, key ∉ em_key <$> mds -> ds_pods s' !! key = ds_pods s !! key).
Proof.
  revert existed s. induction mds as [|md mds IH]; intros existed s Hd; cbn [store_endpoints].
  { split_and!; [by rewrite andb_true_r|by destruct s|by intros md H%elem_of_nil|done]. }
  apply NoDup_cons in Hd as [Hmd Hd]. fold (em_key <$> mds) in Hmd, Hd.
  set (x := match ds_pods s !! em_key md with None => NewEndpoint md | Some pm => UpdateMetadata md pm end).
  set (ex := existed && bool_decide (is_Some (ds_pods s !! em_key md))).
  assert (store_endpoints (md :: mds) existed s
          = store_endpoints mds ex (with_pods (<[em_key md := x]> (ds_pods s)) s)) as E.
  { cbn [store_endpoints]. unfold x, ex. destruct (ds_pods s !! em_key md).
    - by rewrite bool_decide_eq_true_2, andb_true_r by by eexists.
    - by rewrite bool_decide_eq_false_2, andb_false_r by by intros [? ?]. }
  cbn [store_endpoints] in E. rewrite E. clear E.
  specialize (IH ex (with_pods (<[em_key md := x]> (ds_pods s)) s) Hd).
  destruct (store_endpoints mds ex _) as [existed' s'].
  destruct IH as (H1 & H2 & H3 & H4). cbn [ds_pods with_pods] in *. split_and!.
  - rewrite H1. unfold ex. cbn [forallb]. rewrite <- andb_assoc. f_equal. f_equal.
    assert (forall md', md' ∈ mds -> em_key md' <> em_key md) as Hne.
    { intros md' Hin Heq. apply Hmd. rewrite <- Heq. by apply list_elem_of_fmap_2. }
    clear - Hne. induction mds as [|md' mds IH]; [done|]. cbn [forallb]. f_equal.
    + rewrite lookup_insert_ne; [done|]. apply not_eq_sym, Hne. by left.
    + apply IH. intros md'' Hin. apply Hne. by right.
  - rewrite H2. by destruct s.
  - intros md' [->|Hin]%elem_of_cons; [|rewrite H3 by done; f_equal; rewrite lookup_insert_ne; [done|]].
    + rewrite H4 by done. apply lookup_insert_eq.
    + intros Heq. apply Hmd. rewrite Heq. by apply list_elem_of_fmap_2.
  - intros key Hk. rewrite fmap_cons in Hk. apply not_elem_of_cons in Hk as [Hk1 Hk2].
    rewrite H4 by done. by apply lookup_insert_ne.
Qed.

Definition named_pod (name : string) (pm : PodMetrics) : bool :=
  bool_decide (em_pod_name (pm_metadata pm) = name).

(** Removing endpoints: what is left, and what is released. *)
Definition removes (drop : PodMetrics -> Prop) (s s' : Datastore) : Prop :=
  ds_pools s' = ds_pools s /\ ds_pool s' = ds_pool s /\
  (forall key pm, ds_pods s' !! key = Some pm <-> ds_pods s !! key = Some pm /\ ~ drop pm) /\
  (exists r, ds_released s' = ds_released s ++ r /\ Forall (fun pm => pm_stopped pm = true) r /\
     forall key pm, ds_pods s !! key = Some pm -> drop pm -> StopRefreshLoop pm ∈ r).

Lemma removes_refl s : removes (fun _ => False) s s.
Proof.
  split_and!; [done|done|naive_solver|]. exists []. rewrite app_nil_r. split_and!; [done|by constructor|done].
Qed.

Lemma removes_trans P Q s1 s2 s3 :
  removes P s1 s2 -> removes Q s2 s3 -> (forall pm, Decision (P pm)) -> removes (fun pm => P pm \/ Q pm) s1 s3.
Proof.
  intros (A1 & A2 & A3 & r & A4 & A5 & A6) (B1 & B2 & B3 & r' & B4 & B5 & B6) Hdec.
  split_and!; [congruence|congruence| |].
  - intros key pm. rewrite B3, A3. tauto.
  - exists (r ++ r'). split_and!; [by rewrite B4, A4, app_assoc|by apply Forall_app|].
    intros key pm Hk HPQ. apply elem_of_app. destruct (decide (P pm)) as [HP|HP]; [left; eauto|right].
    apply (B6 key); [|naive_solver]. apply A3. done.
Qed.

Lemma removes_ext P Q s s' : (forall pm, P pm <-> Q pm) -> removes P s s' -> removes Q s s'.
Proof.
  intros HPQ (A1 & A2 & A3 & r & A4 & A5 & A6). split_and!; [done|done| |].
  - intros key pm. by rewrite A3, HPQ.
  - exists r. split_and!; [done|done|]. intros key pm ? ?%HPQ. eauto.
Qed.

Lemma StopRefreshLoop_stopped pm : pm_stopped (StopRefreshLoop pm) = true.
Proof. unfold StopRefreshLoop. by destruct (pm_stopped pm) eqn:E. Qed.

Lemma delete_fold name l s :
  NoDup l.*1 -> (forall kv, kv ∈ l -> ds_pods s !! kv.1 = Some kv.2) ->
  let s' := foldl (delete_endpoint name) s l in
  ds_pools s' = ds_pools s /\ ds_pool s' = ds_pool s /\
  (forall key pm, ds_pods s' !! key = Some pm <->
     ds_pods s !! key = Some pm /\ ~ ((key, pm) ∈ l /\ em_pod_name (pm_metadata pm) = name)) /\
  (exists r, ds_released s' = ds_released s ++ r /\ Forall (fun pm => pm_stopped pm = true) r /\
     forall key pm, (key, pm) ∈ l -> em_pod_name (pm_metadata pm) = name -> StopRefreshLoop pm ∈ r).
Proof.
  revert s. induction l as [|[k pm0] l IH]; intros s Hd Hin; cbn [foldl].
  { cbv zeta. split_and!; [done|done| |].
    - intros key pm. split; [|tauto]. intros H. split; [done|]. by intros [H'%elem_of_nil _].
    - exists []. rewrite app_nil_r. split_and!; [done|by constructor|]. by intros ?? H%elem_of_nil. }
  rewrite fmap_cons in Hd. apply NoDup_cons in Hd as [Hk Hd]. cbn [fst] in Hk.
  assert (ds_pods s !! k = Some pm0) as H0 by (apply (Hin (k, pm0)); by left).
  assert (forall kv, kv ∈ l -> kv.1 <> k) as Hne.
  { intros kv Hkv Heq. apply Hk. rewrite <- Heq. by apply list_elem_of_fmap_2. }
  unfold delete_endpoint at 2 4 6 8. cbn [fst snd].
  case_bool_decide as Hname; [set (s1 := Build_Datastore _ _ _ _)|set (s1 := s)].
  - destruct (IH s1) as (I1 & I2 & I3 & r & I4 & I5 & I6); [done| |].
    { intros kv Hkv. cbn. rewrite lookup_delete_ne by (apply not_eq_sym; auto). apply Hin. by right. }
    cbv zeta. split_and!; [done|done| |].
    + intros key pm. rewrite I3. cbn [ds_pods s1]. destruct (decide (key = k)) as [->|Hkk].
      * rewrite lookup_delete_eq. split; [by intros [? _]|]. intros [Hpm Hn]. exfalso. apply Hn.
        assert (pm = pm0) as -> by congruence. split; [by left|done].
      * rewrite lookup_delete_ne by done. rewrite elem_of_cons. naive_solver.
    + exists (StopRefreshLoop pm0 :: r). split_and!.
      * rewrite I4. cbn [ds_released s1]. by rewrite <- app_assoc.
      * constructor; [apply StopRefreshLoop_stopped|done].
      * intros key pm [?|Hl]%elem_of_cons Hn; simplify_eq; [by left|right; eauto].
  - destruct (IH s1) as (I1 & I2 & I3 & r & I4 & I5 & I6); [done|intros kv ?; apply Hin; by right|].
    cbv zeta. split_and!; [done|done| |].
    + intros key pm. rewrite I3, elem_of_cons. naive_solver.
    + exists r. split_and!; [done|done|]. intros key pm [?|Hl]%elem_of_cons Hn; simplify_eq; eauto.
Qed.

Lemma sync_range_elem m key pm : (key, pm) ∈ sync_range m <-> m !! key = Some pm.
Proof. rewrite (sync_range_perm m). apply elem_of_map_to_list. Qed.

Lemma sync_range_keys m : NoDup (sync_range m).*1.
Proof. rewrite (sync_range_perm m). apply NoDup_fst_map_to_list. Qed.

Lemma PodDelete_removes name s :
  removes (fun pm => em_pod_name (pm_metadata pm) = name) s (PodDelete name s).
Proof.
  unfold PodDelete. destruct (delete_fold name (sync_range (ds_pods s)) s) as (I1 & I2 & I3 & r & I4 & I5 & I6).
  - apply sync_range_keys.
  - intros [key pm] H. by apply sync_range_elem.
  - split_and!; [done|done| |].
    + intros key pm. rewrite I3, sync_range_elem. tauto.
    + exists r. split_and!; [done|done|]. intros key pm Hk. apply (I6 key). by apply sync_range_elem.
Qed.

(** A sequence of [PodDelete]s, one for each visit that calls it. *)
Lemma fold_removes (f : Datastore -> NamespacedName * PodMetrics -> Datastore) (P : string -> Prop)
    `{forall n, Decision (P n)} l s :
  (forall s kv, f s kv = if decide (P (em_pod_name (pm_metadata kv.2)))
                         then PodDelete (em_pod_name (pm_metadata kv.2)) s else s) ->
  removes (fun pm => P (em_pod_name (pm_metadata pm)) /\
             em_pod_name (pm_metadata pm) ∈ map (fun kv => em_pod_name (pm_metadata kv.2)) l) s (foldl f s l).
Proof.
  intros Hf. revert s. induction l as [|kv l IH]; intros s; cbn [foldl map].
  { eapply removes_ext; [|apply removes_refl]. intros pm. split; [done|]. by intros [_ ?%elem_of_nil]. }
  rewrite Hf. set (n := em_pod_name (pm_metadata kv.2)). destruct (decide (P n)) as [HP|HP].
  - eapply removes_ext; [|eapply removes_trans; [apply PodDelete_removes|apply IH|intros pm; apply _]].
    intros pm. cbn. rewrite elem_of_cons. fold n. split; [intros [->|[? ?]]; auto|].
    intros [? [->|?]]; auto.
  - eapply removes_ext; [|apply IH]. intros pm. cbn. rewrite elem_of_cons. fold n.
    split; [naive_solver|]. intros [? [Heq|?]]; [congruence|auto].
Qed.

Lemma release_inactive_removes active s :
  removes (fun pm => em_pod_name (pm_metadata pm) ∉ active) s
    (foldl (release_inactive active) s (sync_range (ds_pods s))).
Proof.
  pose proof (fold_removes (release_inactive active) (fun n => n ∉ active) (sync_range (ds_pods s)) s) as H.
  destruct H as (A1 & A2 & A3 & r & A4 & A5 & A6).
  { intros s' kv. unfold release_inactive. by repeat case_bool_decide || case_decide. }
  assert (forall key pm, ds_pods s !! key = Some pm ->
    em_pod_name (pm_metadata pm) ∈ map (fun kv : NamespacedName * PodMetrics => em_pod_name (pm_metadata kv.2)) (sync_range (ds_pods s))) as Hl.
  { intros key pm Hk%sync_range_elem. by apply (list_elem_of_fmap_2 (fun kv => em_pod_name (pm_metadata kv.2))) in Hk. }
  split_and!; [done|done| |].
  - intros key pm. rewrite A3. naive_solver.
  - exists r. split_and!; [done|done|]. intros key pm Hk Hn. apply (A6 key); [done|]. split; [done|eauto].
Qed.

Lemma release_visited_removes s :
  removes (fun _ => True) s (foldl release_visited s (sync_range (ds_pods s))).
Proof.
  pose proof (fold_removes release_visited (fun _ => True) (sync_range (ds_pods s)) s) as H.
  destruct H as (A1 & A2 & A3 & r & A4 & A5 & A6).
  { intros s' kv. unfold release_visited. by rewrite decide_True. }
  assert (forall key pm, ds_pods s !! key = Some pm ->
    em_pod_name (pm_metadata pm) ∈ map (fun kv : NamespacedName * PodMetrics => em_pod_name (pm_metadata kv.2)) (sync_range (ds_pods s))) as Hl.
  { intros key pm Hk%sync_range_elem. by apply (list_elem_of_fmap_2 (fun kv => em_pod_name (pm_metadata kv.2))) in Hk. }
  split_and!; [done|done| |].
  - intros key pm. rewrite A3. naive_solver.
  - exists r. split_and!; [done|done|]. intros key pm Hk _. apply (A6 key); [done|]. split; [done|eauto].
Qed.

(** ** Endpoints that leave *)

(** Every endpoint stored in [s] whose key is gone in [s'] was handed to
    ReleaseEndpoint in between, with its refresh loop stopped. *)
Definition left_stopped (s s' : Datastore) : Prop :=
  exists r, ds_released s' = ds_released s ++ r /\
    forall key pm, ds_pods s !! key = Some pm -> ds_pods s' !! key = None ->
      exists pm', pm' ∈ r /\ em_key (pm_metadata pm') = key /\ pm_stopped pm' = true.

#[local] Instance left_stopped_preorder : PreOrder left_stopped.
Proof.
  split.
  - intros s. exists []. rewrite app_nil_r. split; [done|]. intros ?? -> [=].
  - intros s1 s2 s3 (r & A1 & A2) (r' & B1 & B2). exists (r ++ r').
    split; [by rewrite B1, A1, app_assoc|]. intros key pm H1 H3.
    destruct (ds_pods s2 !! key) as [pm2|] eqn:H2.
    + destruct (B2 _ _ H2 H3) as (pm' & ? & ?). exists pm'. split; [|done]. apply elem_of_app. by right.
    + destruct (A2 _ _ H1 H2) as (pm' & ? & ?). exists pm'. split; [|done]. apply elem_of_app. by left.
Qed.

(** An operation that releases nothing and keeps every key. *)
Lemma left_stopped_grows s s' :
  ds_released s' = ds_released s -> (forall key, is_Some (ds_pods s !! key) -> is_Some (ds_pods s' !! key)) ->
  left_stopped s s'.
Proof.
  intros Hr Hk. exists []. rewrite app_nil_r. split; [done|]. intros key pm H H'.
  destruct (Hk key) as [? E]; [eauto|congruence].
Qed.

Lemma removes_left drop s s' :
  (forall key pm, ds_pods s !! key = Some pm -> key = em_key (pm_metadata pm)) ->
  removes drop s s' -> (forall pm, Decision (drop pm)) -> left_stopped s s'.
Proof.
  intros Hkey (_ & _ & A3 & r & A4 & _ & A6) Hdec. exists r. split; [done|]. intros key pm H H'.
  destruct (decide (drop pm)) as [Hd|Hd]; [|by rewrite (proj2 (A3 key pm)) in H'].
  exists (StopRefreshLoop pm). split; [eauto|]. split; [|apply StopRefreshLoop_stopped].
  rewrite (Hkey _ _ H). unfold StopRefreshLoop. by destruct (pm_stopped pm).
Qed.

Lemma store_endpoints_left mds existed s : left_stopped s (store_endpoints mds existed s).2.
Proof.
  revert existed s. induction mds as [|md mds IH]; intros existed s; cbn [store_endpoints]; [reflexivity|].
  destruct (ds_pods s !! em_key md) eqn:E; (etrans; [|apply IH]); apply left_stopped_grows; try done;
    intros key Hk; cbn; apply lookup_insert_is_Some'; by right.
Qed.

Lemma PodUpdate_left pod s : left_stopped s (PodUpdateOrAddIfNotExist pod s).2.
Proof.
  unfold PodUpdateOrAddIfNotExist. destruct (ds_pool s) as [pool|]; [|reflexivity].
  pose proof (store_endpoints_left (imap (endpoint_metadata pod) (ep_TargetPorts pool)) true s) as H.
  by destruct (store_endpoints _ _ _).
Qed.

Lemma start_ready_left pods active s : left_stopped s (start_ready pods active s).2.
Proof.
  revert active s. induction pods as [|pod pods IH]; intros active s; cbn [start_ready]; [reflexivity|].
  case_match; [apply IH|]. unfold kbind. pose proof (PodUpdate_left pod s) as HL.
  destruct (PodUpdateOrAddIfNotExist pod s) as [[?|?|?] s1]; [|done..]. etrans; [exact HL|apply IH].
Qed.

(** ** The specification *)

Record Abstract := {
  a_pools : gmap string EndpointPool;
  a_pool : option EndpointPool;
  a_pods : gmap NamespacedName Pod
}.

Definition pod_key (pod : Pod) : NamespacedName := (p_Namespace pod, p_Name pod).

Definition set_pods (pods : gmap NamespacedName Pod) (a : Abstract) : Abstract :=
  {| a_pools := a_pools a; a_pool := a_pool a; a_pods := pods |}.

Definition spec_update (a : Abstract) (pod : Pod) : Abstract := set_pods (<[pod_key pod := pod]> (a_pods a)) a.

(** The pods whose name satisfies [P] stay. *)
Definition spec_keep (P : string -> Prop) `{forall n, Decision (P n)} (a : Abstract) : Abstract :=
  set_pods (filter (fun kv => P (p_Name kv.2)) (a_pods a)) a.

Definition ready (pod : Pod) : bool := IsPodReady (p_deleting pod) (p_conditions pod).

(** ** Endpoints of a map of pods *)

Context (ports : list Z).
Hypothesis ports_bounded : Z.of_nat (length ports) <= max_int64.

(** The endpoints of the datastore are the pods times the ports; they run, and
    what was released is stopped. *)
Record implements (s : Datastore) (a : Abstract) : Prop := {
  im_pools : ds_pools s = a_pools a;
  im_pool : ds_pool s = a_pool a;
  im_ports p : a_pool a = Some p -> ep_TargetPorts p = ports;
  im_keys k pod : a_pods a !! k = Some pod -> pod_key pod = k;
  im_sound key pm : ds_pods s !! key = Some pm ->
    key = em_key (pm_metadata pm) /\ pm_loop pm = Running /\ pm_stopped pm = false /\
    exists pod i port, a_pods a !! pod_key pod = Some pod /\ ports !! i = Some port /\
      pm_metadata pm = endpoint_metadata pod i port;
  im_complete pod i port : a_pods a !! pod_key pod = Some pod -> ports !! i = Some port ->
    exists pm, ds_pods s !! (p_Namespace pod, rank_name (p_Name pod) i) = Some pm /\
      pm_metadata pm = endpoint_metadata pod i port;
  im_released : Forall (fun pm => pm_stopped pm = true) (ds_released s)
}.

Lemma index_bounded i (port : Z) : ports !! i = Some port -> Z.of_nat i <= max_int64.
Proof. intros H%lookup_lt_Some. lia. Qed.

Lemma endpoint_key_inj pod pod' i j port port' :
  ports !! i = Some port -> ports !! j = Some port' ->
  em_key (endpoint_metadata pod i port) = em_key (endpoint_metadata pod' j port') ->
  pod_key pod = pod_key pod' /\ i = j.
Proof.
  intros Hi%index_bounded Hj%index_bounded H. unfold em_key, endpoint_metadata, pod_key in *. cbn in *.
  injection H as H1 H2. apply rank_name_inj in H2 as [-> ->]; [|done..]. by rewrite H1.
Qed.

Lemma endpoint_keys_distinct pod : NoDup (em_key <$> imap (endpoint_metadata pod) ports).
Proof.
  apply NoDup_alt. intros i j x Hi Hj. rewrite list_lookup_fmap, list_lookup_imap in Hi, Hj.
  destruct (ports !! i) as [p|] eqn:Ei; [|done]. destruct (ports !! j) as [q|] eqn:Ej; [|done].
  cbn in Hi, Hj. assert (em_key (endpoint_metadata pod i p) = em_key (endpoint_metadata pod j q)) as H by congruence.
  by destruct (endpoint_key_inj _ _ _ _ _ _ Ei Ej H).
Qed.

(** Removing the endpoints of the pods that [P] does not keep. *)
Lemma implements_keep (P : string -> Prop) `{forall n, Decision (P n)} drop s s' a :
  implements s a -> removes drop s s' ->
  (forall pm, drop pm <-> ~ P (em_pod_name (pm_metadata pm))) -> implements s' (spec_keep P a).
Proof.
  intros I (A1 & A2 & A3 & r & A4 & A5 & A6) Hd. split; cbn.
  - rewrite A1. apply I.
  - rewrite A2. apply I.
  - intros p. apply (im_ports _ _ I).
  - intros k pod Hk. apply map_lookup_filter_Some in Hk as [Hk _]. by apply (im_keys _ _ I).
  - intros key pm [Hk Hn]%A3. destruct (im_sound _ _ I key pm Hk) as (S1 & S2 & S3 & pod & i & port & S4 & S5 & S6).
    split_and!; [done..|]. exists pod, i, port. split_and!; [|done..].
    apply map_lookup_filter_Some. split; [done|]. cbn. rewrite Hd, S6 in Hn. cbn in Hn.
    destruct (decide (P (p_Name pod))) as [HP|HP]; [exact HP|by destruct (Hn HP)].
  - intros pod i port [Hk HP]%map_lookup_filter_Some Hi. cbn in HP.
    destruct (im_complete _ _ I pod i port Hk Hi) as (pm & C1 & C2). exists pm. split; [|done].
    apply A3. split; [done|]. rewrite Hd, C2. cbn. tauto.
  - rewrite A4. apply Forall_app. split; [apply I|done].
Qed.

Lemma implements_pool p s a :
  implements s a -> (forall q, p = Some q -> ep_TargetPorts q = ports) ->
  implements (with_pool p s) {| a_pools := a_pools a; a_pool := p; a_pods := a_pods a |}.
Proof. intros I Hp. split; cbn; try apply I; done. Qed.

Lemma endpoint_elem pod md :
  md ∈ imap (endpoint_metadata pod) ports <-> exists i port, ports !! i = Some port /\ md = endpoint_metadata pod i port.
Proof. rewrite elem_of_lookup_imap. naive_solver. Qed.

(** Either all the endpoints of a pod are there, or none. *)
Lemma existed_spec s a pod :
  implements s a ->
  forallb (fun md => bool_decide (is_Some (ds_pods s !! em_key md))) (imap (endpoint_metadata pod) ports)
    = bool_decide (ports = []) || bool_decide (is_Some (a_pods a !! pod_key pod)).
Proof.
  intros I. destruct (a_pods a !! pod_key pod) as [pod0|] eqn:Ha.
  - rewrite (bool_decide_eq_true_2 (is_Some (Some pod0))), orb_true_r by by eexists.
    apply forallb_forall. intros md Hmd%list_elem_of_In. apply endpoint_elem in Hmd as (i & port & Hi & ->).
    pose proof (im_keys _ _ I _ _ Ha) as Hk. rewrite <- Hk in Ha.
    destruct (im_complete _ _ I pod0 i port Ha Hi) as (pm & C1 & C2).
    apply bool_decide_eq_true. exists pm. rewrite <- C1. unfold em_key, endpoint_metadata, pod_key in *. cbn.
    by injection Hk as -> ->.
  - rewrite (bool_decide_eq_false_2 (is_Some None)), orb_false_r by by intros [? ?].
    destruct (ports !! 0%nat) as [port|] eqn:Hi.
    + rewrite (bool_decide_eq_false_2 (ports = [])) by (intros ->; done).
      apply not_true_iff_false. intros Hall. eapply forallb_forall in Hall; cycle 1.
      { apply list_elem_of_In, endpoint_elem. exists 0%nat, port. done. }
      apply bool_decide_eq_true in Hall as [pm Hpm].
      destruct (im_sound _ _ I _ _ Hpm) as (S1 & _ & _ & pod' & j & port' & S2 & S3 & S4).
      rewrite S4 in S1. apply endpoint_key_inj in S1 as [S1 _]; [|done..]. congruence.
    + destruct ports as [|q ps]; [done|]. by cbn in Hi.
Qed.

Lemma implements_update s a pod pool :
  implements s a -> a_pool a = Some pool ->
  exists s', PodUpdateOrAddIfNotExist pod s =
    (Ret (bool_decide (ports = []) || bool_decide (is_Some (a_pods a !! pod_key pod))), s') /\
    implements s' (spec_update a pod).
Proof.
  intros I Hp. unfold PodUpdateOrAddIfNotExist. rewrite (im_pool _ _ I), Hp, (im_ports _ _ I _ Hp).
  pose proof (store_endpoints_spec _ true s (endpoint_keys_distinct pod)) as H.
  destruct (store_endpoints _ _ _) as [existed s'] eqn:E. destruct H as (H1 & H2 & H3 & H4).
  exists s'. split.
  - do 2 f_equal. rewrite H1, andb_true_l. by apply existed_spec.
  - rewrite H2. assert (forall i port, ports !! i = Some port -> exists pm,
      ds_pods s' !! em_key (endpoint_metadata pod i port) = Some pm /\
      pm_metadata pm = endpoint_metadata pod i port /\ pm_loop pm = Running /\ pm_stopped pm = false) as Hnew.
    { intros i port Hi. rewrite H3 by (apply endpoint_elem; eauto). eexists. split; [reflexivity|].
      destruct (ds_pods s !! em_key (endpoint_metadata pod i port)) as [pm|] eqn:Epm; [|done].
      destruct (im_sound _ _ I _ _ Epm) as (_ & S2 & S3 & _). done. }
    assert (forall i port, ports !! i = Some port ->
      em_key (endpoint_metadata pod i port) ∈ em_key <$> imap (endpoint_metadata pod) ports) as Hin.
    { intros i port Hi. apply list_elem_of_fmap_2, endpoint_elem. eauto. }
    split; cbn; try apply I.
    + intros k pod'. destruct (decide (k = pod_key pod)) as [->|Hne].
      * rewrite lookup_insert_eq. by intros [= <-].
      * rewrite lookup_insert_ne by done. apply I.
    + intros key pm Hk.
      destruct (decide (key ∈ em_key <$> imap (endpoint_metadata pod) ports)) as [Hkey|Hkey].
      * apply list_elem_of_fmap in Hkey as (md & -> & (i & port & Hi & ->)%endpoint_elem).
        destruct (Hnew i port Hi) as (pm' & N1 & N2 & N3 & N4). assert (pm = pm') as -> by congruence.
        rewrite N2. split_and!; [done..|]. exists pod, i, port. by rewrite lookup_insert_eq.
      * rewrite H4 in Hk by done. destruct (im_sound _ _ I _ _ Hk) as (-> & S2 & S3 & pod' & i & port & S4 & S5 & S6).
        split_and!; [done..|]. exists pod', i, port. split_and!; [|done..].
        rewrite lookup_insert_ne; [done|]. intros Heq. apply Hkey. rewrite S6.
        unfold pod_key in Heq. injection Heq as Hns Hn. unfold em_key, endpoint_metadata. cbn.
        rewrite <- Hns, <- Hn. by apply (Hin i port).
    + intros pod' i port Hk Hi. destruct (decide (pod_key pod = pod_key pod')) as [Heq|Hne].
      * rewrite Heq, lookup_insert_eq in Hk. injection Hk as ->.
        destruct (Hnew i port Hi) as (pm & N1 & N2 & _). by exists pm.
      * rewrite lookup_insert_ne in Hk by done.
        destruct (im_complete _ _ I _ _ _ Hk Hi) as (pm & C1 & C2). exists pm. split; [|done].
        rewrite H4; [done|]. intros (md & Hmd & (j & port' & Hj & ->)%endpoint_elem)%list_elem_of_fmap.
        apply (endpoint_key_inj pod' pod i j port port') in Hmd as [? _]; congruence.
Qed.

(** The loop over the listed pods. *)
Lemma implements_start_ready s a pool pods active :
  implements s a -> a_pool a = Some pool ->
  exists s', start_ready pods active s = (Ret (list_to_set (p_Name <$> filter (fun p => ready p = true) pods) ∪ active), s') /\
    implements s' (foldl spec_update a (filter (fun p => ready p = true) pods)).
Proof.
  revert s a active. induction pods as [|pod pods IH]; intros s a active I Hp; cbn [start_ready].
  { exists s. cbn. unfold kret. by rewrite union_empty_l_L. }
  rewrite filter_cons. fold (ready pod). destruct (ready pod) eqn:Hr; cbn [negb].
  - rewrite decide_True by done. destruct (implements_update s a pod pool I Hp) as (s1 & E1 & I1).
    unfold kbind. rewrite E1. destruct (IH s1 _ ({[p_Name pod]} ∪ active) I1 Hp) as (s2 & E2 & I2).
    exists s2. split; [|done]. rewrite E2. cbn. do 2 f_equal. set_solver.
  - rewrite decide_False by done. by apply IH.
Qed.

(** ** The operations, and what they mean *)

Inductive op :=
| UpdatePod (pod : Pod)
| DeletePod (name : string)
| Start (list : gmap string string -> string -> api_error + list Pod) (pool : InferencePool) (ep : EndpointPool)
| ClearAll.

Definition run (o : op) : kube Datastore ds_error bool :=
  match o with
  | UpdatePod pod => PodUpdateOrAddIfNotExist pod
  | DeletePod name => fun s => (Ret true, PodDelete name s)
  | Start list pool ep => do! _ := StartPodMetricsLoop list pool ep in kret true
  | ClearAll => fun s => (Ret true, Clear s)
  end.

(** The specification on the map of pods.  [Start] keeps the first version of a
    pool, always takes the new endpoint pool, and when the selector changed (or
    there was none) makes the map the ready pods of the list, with the entries
    that share a name with one of them. *)
Definition spec_start (list : gmap string string -> string -> api_error + list Pod)
    (pool : InferencePool) (ep : EndpointPool) (a : Abstract) : outcome ds_error bool * Abstract :=
  let pools := match a_pools a !! ip_Name pool with
               | None => <[ip_Name pool := InferencePoolToEndpointPool pool]> (a_pools a)
               | Some _ => a_pools a
               end in
  let a' := {| a_pools := pools; a_pool := Some ep; a_pods := a_pods a |} in
  let changed := match a_pool a with
                 | None => true
                 | Some old => negb (LabelsEquals (ep_Selector old) (ep_Selector ep))
                 end in
  if changed then
    match list (ep_Selector ep) (ep_Namespace ep) with
    | inl _ => (Err ListFailed, a')
    | inr pods =>
        let pods := filter (fun p => ready p = true) pods in
        let active : gset string := list_to_set (p_Name <$> pods) in
        (Ret true, spec_keep (fun n => n ∈ active) (foldl spec_update a' pods))
    end
  else (Ret true, a').

Definition spec (o : op) (a : Abstract) : outcome ds_error bool * Abstract :=
  match o with
  | UpdatePod pod =>
      match a_pool a with
      | None => (Panic NilDereference, a)
      | Some _ => (Ret (bool_decide (ports = []) || bool_decide (is_Some (a_pods a !! pod_key pod))),
                   spec_update a pod)
      end
  | DeletePod name => (Ret true, spec_keep (fun n => n <> name) a)
  | Start list pool ep => spec_start list pool ep a
  | ClearAll => (Ret true, {| a_pools := a_pools a; a_pool := None; a_pods := ∅ |})
  end.

(** The target ports stay the same. *)
Definition same_ports (o : op) : Prop :=
  match o with Start _ _ ep => ep_TargetPorts ep = ports | _ => True end.

Lemma implements_start list pool ep s a :
  implements s a -> ep_TargetPorts ep = ports ->
  exists s', run (Start list pool ep) s = ((spec_start list pool ep a).1, s') /\
             implements s' (spec_start list pool ep a).2 /\ left_stopped s s'.
Proof.
  intros I Hports. unfold run, StartPodMetricsLoop, spec_start, kbind. cbv zeta.
  rewrite <- (im_pools _ _ I), <- (im_pool _ _ I).
  cbn [ds_pool ds_pools with_pools].
  set (pools := match ds_pools s !! ip_Name pool with Some _ => _ | None => _ end).
  set (s1 := with_pool (Some ep) (with_pools pools s)).
  assert (implements s1 {| a_pools := pools; a_pool := Some ep; a_pods := a_pods a |}) as I1.
  { split; cbn; try apply I; try done. by intros p [= <-]. }
  assert (left_stopped s s1) as L1 by by apply left_stopped_grows.
  destruct (match ds_pool s with Some old => _ | None => true end); [|by exists s1].
  destruct (list (ep_Selector ep) (ep_Namespace ep)) as [e|pods]; [by exists s1|].
  destruct (implements_start_ready s1 _ ep pods ∅ I1 eq_refl) as (s2 & E2 & I2).
  pose proof (start_ready_left pods ∅ s1) as L2. rewrite E2 in L2 |- *. cbn in L2 |- *.
  eexists. split; [reflexivity|]. split.
  - eapply implements_keep; [exact I2|apply release_inactive_removes|].
    intros pm. by rewrite union_empty_r_L.
  - etrans; [exact L1|]. etrans; [exact L2|].
    eapply removes_left; [|apply release_inactive_removes|intros pm; apply _].
    intros key pm H. by apply (im_sound _ _ I2).
Qed.

(** One operation: the datastore does what the specification says. *)
Lemma run_refines o s a :
  implements s a -> same_ports o ->
  exists s', run o s = ((spec o a).1, s') /\ implements s' (spec o a).2 /\ left_stopped s s'.
Proof.
  intros I Ho. destruct o as [pod|name|list pool ep|]; cbn [spec].
  - pose proof (PodUpdate_left pod s) as L. cbn [run]. destruct (a_pool a) as [pool|] eqn:Hp.
    + destruct (implements_update s a pod pool I Hp) as (s' & E & I'). rewrite E in L. by exists s'.
    + exists s. unfold PodUpdateOrAddIfNotExist. by rewrite (im_pool _ _ I), Hp.
  - eexists. split; [reflexivity|]. cbn. split.
    + eapply implements_keep; [exact I|apply PodDelete_removes|].
      intros pm. cbn. split; [auto|]. intros Hn. destruct (decide (em_pod_name (pm_metadata pm) = name)); tauto.
    + eapply removes_left; [|apply PodDelete_removes|intros pm; apply _].
      intros key pm H. by apply (im_sound _ _ I).
  - by apply implements_start.
  - eexists. split; [reflexivity|]. cbn. unfold Clear.
    pose proof (implements_pool None s a I ltac:(done)) as I1.
    pose proof (release_visited_removes (with_pool None s)) as R.
    assert (left_stopped s (foldl release_visited (with_pool None s) (sync_range (ds_pods s)))) as L.
    { etrans; [apply (left_stopped_grows s (with_pool None s)); done|].
      eapply removes_left; [|exact R|intros pm; apply _]. intros key pm H. by apply (im_sound _ _ I). }
    destruct R as (A1 & A2 & A3 & r & A4 & A5 & A6). cbn in A1, A2, A3, A4.
    split; [|destruct L as (r' & L1 & L2); exists r'; split; [done|]; intros key pm H _;
             apply (L2 key pm H), eq_None_not_Some; intros [pm' H']; apply A3 in H'; tauto].
    split; cbn; [by rewrite A1; apply I|by rewrite A2|done|by intros ?? H%lookup_empty_Some| | |].
    + by intros ?? H%lookup_empty_Some.
    + by intros ??? H%lookup_empty_Some.
    + rewrite A4. cbn. apply Forall_app. split; [apply I|done].
Qed.

(** ** Properties *)

Definition initial : Abstract := {| a_pools := ∅; a_pool := None; a_pods := ∅ |}.

Lemma implements_initial : implements NewDatastore initial.
Proof. by split. Qed.

(** A sequence of calls, with the answers. *)
Fixpoint run_all (ops : list op) (s : Datastore) : list (outcome ds_error bool) * Datastore :=
  match ops with
  | [] => ([], s)
  | o :: ops => let '(r, s) := run o s in let '(rs, s) := run_all ops s in (r :: rs, s)
  end.
Fixpoint spec_all (ops : list op) (a : Abstract) : list (outcome ds_error bool) * Abstract :=
  match ops with
  | [] => ([], a)
  | o :: ops => let '(r, a) := spec o a in let '(rs, a) := spec_all ops a in (r :: rs, a)
  end.

Lemma run_all_refines ops s a :
  implements s a -> Forall same_ports ops ->
  exists s', run_all ops s = ((spec_all ops a).1, s') /\ implements s' (spec_all ops a).2 /\
    left_stopped s s'.
Proof.
  intros I Hops. revert s a I. induction Hops as [|o ops Ho _ IH]; intros s a I; [by exists s|].
  cbn. destruct (run_refines o s a I Ho) as (s1 & -> & I1 & L1). destruct (spec o a) as [r a1].
  destruct (IH s1 a1 I1) as (s2 & -> & I2 & L2). destruct (spec_all ops a1) as [rs a2].
  exists s2. split; [done|]. split; [done|]. by etrans.
Qed.

Lemma run_all_app ops1 ops2 s :
  (run_all (ops1 ++ ops2) s).2 = (run_all ops2 (run_all ops1 s).2).2.
Proof.
  revert s. induction ops1 as [|o ops1 IH]; intros s; [done|]. cbn.
  destruct (run o s) as [r s1]. specialize (IH s1).
  destruct (run_all (ops1 ++ ops2) s1), (run_all ops1 s1). exact IH.
Qed.

(** C3: the datastore implements a map of pods.  Any sequence of its operations,
    from the empty datastore, whose synchronisations all carry the same target
    ports (at most [max_int64] of them), answers what the map answers;
    afterwards the endpoints are exactly the pods of the map times the ports,
    under distinct names, each with the address of the pod it was last updated
    with, and their refresh loops run.  No operation drops an endpoint without
    stopping it: whenever the key of an endpoint is gone after a further
    operation, that operation released an endpoint of this key with its loop
    stopped, and it is still among the released ones at the end. *)
Theorem datastore_refines_pods ops :
  Forall same_ports ops ->
  let '(answers, s) := run_all ops NewDatastore in
  let '(answers', a) := spec_all ops initial in
  answers = answers' /\ implements s a /\
  (forall key pm, ds_pods s !! key = Some pm ->
     exists pod i port, a_pods a !! pod_key pod = Some pod /\ ports !! i = Some port /\
       key = (p_Namespace pod, rank_name (p_Name pod) i) /\
       pm_metadata pm = endpoint_metadata pod i port /\ pm_loop pm = Running /\ pm_stopped pm = false) /\
  (forall pod i port, a_pods a !! pod_key pod = Some pod -> ports !! i = Some port ->
     exists pm, ds_pods s !! (p_Namespace pod, rank_name (p_Name pod) i) = Some pm /\
       pm_metadata pm = endpoint_metadata pod i port) /\
  (forall ops1 o ops2, ops = ops1 ++ o :: ops2 ->
     let s1 := (run_all ops1 NewDatastore).2 in
     let s2 := (run o s1).2 in
     exists released later,
       ds_released s2 = ds_released s1 ++ released /\ ds_released s = ds_released s2 ++ later /\
       forall key pm, ds_pods s1 !! key = Some pm -> ds_pods s2 !! key = None ->
         exists pm', pm' ∈ released /\ em_key (pm_metadata pm') = key /\ pm_stopped pm' = true).
Proof.
  intros Hops. destruct (run_all_refines ops _ _ implements_initial Hops) as (s & E & I & _).
  assert (s = (run_all ops NewDatastore).2) as Es by by rewrite E.
  rewrite E. destruct (spec_all ops initial) as [rs a]. cbn in I. split_and!; [done|done|..].
  - intros key pm H. destruct (im_sound _ _ I _ _ H) as (S1 & S2 & S3 & pod & i & port & S4 & S5 & S6).
    exists pod, i, port. split_and!; try done. by rewrite S1, S6.
  - apply I.
  - intros ops1 o ops2 ->. apply Forall_app in Hops as [H1 H2].
    inversion H2 as [|?? Ho H3]; subst.
    destruct (run_all_refines ops1 _ _ implements_initial H1) as (s1 & E1 & I1 & _).
    rewrite run_all_app, E1. cbn zeta. cbn [snd run_all].
    destruct (run_refines o s1 _ I1 Ho) as (s2 & E2 & I2 & r & R1 & R2). rewrite E2.
    destruct (run_all_refines ops2 _ _ I2 H3) as (s3 & E3 & _ & r' & R3 & _). rewrite E3.
    by exists r, r'.
Qed.

(** A failed list is lost.  The pool is replaced before the pods are listed,
    so when the list fails the next synchronisation of the same pool finds the
    selector unchanged and succeeds without listing: the pods of the pool have
    no endpoint until their own events. *)
Theorem failed_list_not_retried list list' pool ep s :
  (forall sel, LabelsEquals sel sel = true) ->
  (StartPodMetricsLoop list pool ep s).1 = Err ListFailed ->
  let s' := (StartPodMetricsLoop list pool ep s).2 in
  ds_pods s' = ds_pods s /\ StartPodMetricsLoop list' pool ep s' = (Ret tt, s').
Proof.
  intros Heq. unfold StartPodMetricsLoop. cbv zeta. cbn [ds_pool with_pools].
  destruct (match ds_pool s with Some old => _ | None => true end); [|done].
  destruct (list (ep_Selector ep) (ep_Namespace ep)) as [e|pods].
  - intros _. cbn. split; [done|]. rewrite Heq. cbn. f_equal. unfold with_pool, with_pools. cbn. f_equal.
    destruct (ds_pools s !! ip_Name pool) as [q|] eqn:E; [by rewrite E|]. by rewrite lookup_insert_eq.
  - unfold kbind. destruct (start_ready pods ∅ _) as [[act|e|p] s1] eqn:E; cbn; try done.
    intros [= ->]. exfalso. revert E. clear. generalize (∅ : gset string).
    generalize (with_pool (Some ep) (with_pools match ds_pools s !! ip_Name pool with
      | Some _ => ds_pools s | None => <[ip_Name pool:=InferencePoolToEndpointPool pool]> (ds_pools s) end s)).
    induction pods as [|pod pods IH]; intros s0 act; cbn; [done|].
    destruct (negb _); [apply IH|]. unfold kbind, PodUpdateOrAddIfNotExist.
    destruct (ds_pool s0); [|done]. destruct (store_endpoints _ _ _). apply IH.
Qed.

(** A pool once stored keeps its first version: later versions do not replace
    it, and clearing the datastore does not remove it. *)
Lemma pools_are_kept o s a name p :
  implements s a -> same_ports o -> ds_pools s !! name = Some p -> ds_pools (run o s).2 !! name = Some p.
Proof.
  intros I Ho Hp. destruct (run_refines o s a I Ho) as (s' & -> & I' & _). cbn.
  rewrite (im_pools _ _ I'). rewrite (im_pools _ _ I) in Hp.
  destruct o as [pod|n|list pool ep|]; cbn.
  - by destruct (a_pool a).
  - done.
  - unfold spec_start. cbv zeta. destruct (match a_pool a with Some old => _ | None => true end).
    + destruct (list _ _); cbn; [|unfold spec_keep, set_pods; cbn; rewrite foldl_keeps by done; cbn];
        (destruct (a_pools a !! ip_Name pool) eqn:E; [done|];
         rewrite lookup_insert_ne; [done|congruence]).
    + cbn. destruct (a_pools a !! ip_Name pool) eqn:E; [done|].
      rewrite lookup_insert_ne; [done|congruence].
  - done.
Qed.
End Spec.

(** ** Witnesses *)

#[local] Instance subset_labels : LabelLib := {|
  SelectorMatches s l := bool_decide (s ⊆ l);
  LabelsEquals s l := bool_decide (s = l)
|}.

#[local, refine] Instance list_range : SyncRange := {| sync_range m := map_to_list m |}.
Proof. done. Defined.

Definition example_pod (ns name : string) : Pod :=
  {| p_Namespace := ns; p_Name := name; p_Labels := Some {["app" := "sim"]}; p_PodIP := "10.0.0.7";
     p_deleting := false; p_conditions := [{| cond_type := "Ready"; cond_status := "True" |}] |}.

Definition example_pool : InferencePool :=
  {| ip_Namespace := "gw"; ip_Name := "pool"; ip_deleting := false; ip_MatchLabels := {["app" := "sim"]};
     ip_TargetPorts := [8000; 8001] |}.

Definition example_ep : EndpointPool := InferencePoolToEndpointPool example_pool.

Definition example_ops : list op :=
  [Start (fun _ _ => inr [example_pod "gw" "web-0"; example_pod "gw" "web-1"]) example_pool example_ep;
   UpdatePod (example_pod "other" "web-0"); DeletePod "web-0"].

Lemma datastore_refines_pods_witness :
  let s := (run_all example_ops NewDatastore).2 in
  exists a, implements [8000; 8001] s a /\
    elements (dom (ds_pods s)) = [("gw", "web-1-rank-1"); ("gw", "web-1-rank-0")] /\
    length (ds_released s) = 4%nat.
Proof.
  pose proof (datastore_refines_pods [8000; 8001] ltac:(unfold max_int64; cbn; lia) example_ops
    ltac:(repeat constructor)) as H.
  destruct (run_all example_ops NewDatastore) as [rs s] eqn:E.
  destruct (spec_all [8000; 8001] example_ops initial) as [rs' a]. destruct H as (_ & I & _).
  exists a. split; [exact I|]. vm_compute in E. injection E as _ <-. split; vm_compute; reflexivity.
Defined.

Definition failing_start := StartPodMetricsLoop (fun _ _ => inl (ApiFailure "timeout")) example_pool example_ep NewDatastore.

Lemma failed_list_not_retried_witness :
  StartPodMetricsLoop (fun _ _ => inr [example_pod "gw" "web-0"]) example_pool example_ep failing_start.2
    = (Ret tt, failing_start.2) /\ ds_pods failing_start.2 = ∅.
Proof.
  destruct (failed_list_not_retried (fun _ _ => inl (ApiFailure "timeout"))
    (fun _ _ => inr [example_pod "gw" "web-0"]) example_pool example_ep NewDatastore) as [H1 H2].
  - intros sel. by apply bool_decide_eq_true.
  - reflexivity.
  - split; [exact H2|exact H1].
Defined.

(** Deleting the pod of one namespace removes the endpoints of the pods of that
    name in all of them. *)
Lemma delete_ignores_namespace :
  let s := (run_all [Start (fun _ _ => inr [example_pod "gw" "web-0"]) example_pool example_ep;
                     UpdatePod (example_pod "other" "web-0")] NewDatastore).2 in
  size (ds_pods s) = 4%nat /\
  ds_pods (PodReconcile (fun _ _ => true) (inl NotFound) "other" "web-0" s).2 = ∅.
Proof. split; vm_compute; reflexivity. Qed.
