(* ===== verification/LlmPods.v ===== *)
(** * LlmPods: the pod controller of the LLM router

    pkg/llmrouter/datastore/controllers/pod_reconciler.go, a copy of the endpoint
    picker's controller over another store.  The router's [Store] is an empty
    interface, so the four methods the controller calls on it are the class
    [PodStore]; with the picker's datastore for it the controller is the
    picker's. *)

From S2P Require Import Prelude GoStd K8s EppMetrics EppDatastore.

(** The methods, by the name of the pool or of the pod.  The reconciler calls
    PoolLabelsMatch once more with the labels alone: [LabelsMatch]. *)
Class PodStore := {
  Store : Type;
  store_error : Type;
  HasPool : string -> Store -> bool;
  PoolLabelsMatch : string -> gmap string string -> Store -> bool;
  LabelsMatch : gmap string string -> Store -> bool;
  PodDelete : string -> Store -> Store;
  PodUpdateOrAddIfNotExist : Pod -> kube Store store_error bool
}.

Section Controller.
Context {PS : PodStore}.

Definition PoolLabelKey : string := "networking.lx1036.ai".

(** What the manager watches; other objects than pods do not pass. *)
Inductive object := PodObject (p : Pod) | OtherObject.

Definition event_filter (s : Store) (o : object) : bool :=
  match o with
  | OtherObject => false
  | PodObject pod =>
      match p_Labels pod with
      | None => false
      | Some labels =>
          match labels !! PoolLabelKey with
          | None => false
          | Some poolName => if negb (HasPool poolName s) then false else PoolLabelsMatch poolName labels s
          end
      end
  end.

Inductive reconcile_error := UnableToGet | StoreError (e : store_error).

(** The result and the error of the update are dropped, a panic is not. *)
Definition Reconcile (get : api_error + Pod) (name : string) : kube Store reconcile_error Result :=
  fun s =>
    match get with
    | inl NotFound => (Ret done_result, PodDelete name s)
    | inl (ApiFailure _) => (Err UnableToGet, s)
    | inr pod =>
        if negb (IsPodReady (p_deleting pod) (p_conditions pod)) || negb (LabelsMatch (default ∅ (p_Labels pod)) s)
        then (Ret done_result, PodDelete (p_Name pod) s)
        else
          match PodUpdateOrAddIfNotExist pod s with
          | (Panic p, s') => (Panic p, s')
          | (_, s') => (Ret done_result, s')
          end
    end.

(** The store changes by deleting the pod or by updating it, and only a failed
    read leaves an error. *)
Lemma reconcile_branches get name s :
  let '(r, s') := Reconcile get name s in
  (r = Err UnableToGet /\ s' = s /\ exists m, get = inl (ApiFailure m)) \/
  (r = Ret done_result /\ (s' = PodDelete name s /\ get = inl NotFound \/
     exists pod, get = inr pod /\ s' = PodDelete (p_Name pod) s)) \/
  (exists pod, get = inr pod /\ IsPodReady (p_deleting pod) (p_conditions pod) = true /\
     s' = (PodUpdateOrAddIfNotExist pod s).2).
Proof.
  unfold Reconcile. destruct get as [[|m]|pod]; [naive_solver..|].
  destruct (IsPodReady _ _) eqn:Hr; cbn; [|naive_solver]. destruct (LabelsMatch _ s); cbn; [|naive_solver].
  destruct (PodUpdateOrAddIfNotExist pod s) as [[?|?|?] s'] eqn:Hu; right; right; exists pod; by rewrite Hu.
Qed.
End Controller.

(** The picker's datastore; the test of the labels alone is an argument there
    too. *)
Definition picker_store `{LabelLib, SyncRange} (labels_match : gmap string string -> Datastore -> bool) : PodStore := {|
  Store := Datastore;
  store_error := ds_error;
  HasPool := EppDatastore.HasPool;
  PoolLabelsMatch := EppDatastore.PoolLabelsMatch;
  LabelsMatch := labels_match;
  PodDelete := EppDatastore.PodDelete;
  PodUpdateOrAddIfNotExist := EppDatastore.PodUpdateOrAddIfNotExist
|}.

(** Over the picker's datastore the two controllers pass the same events and
    leave the same store with the same result. *)
Theorem llm_controller_is_pickers `{LabelLib, SyncRange} labels_match get namespace name (s : Datastore) :
  (forall pod, event_filter (PS := picker_store labels_match) s (PodObject pod) = pod_event_filter s pod) /\
  let '(r, s') := Reconcile (PS := picker_store labels_match) get name s in
  let '(r', s'') := PodReconcile labels_match get namespace name s in
  s' = s'' /\
  match r, r' with
  | Ret a, Ret b => a = b
  | Err UnableToGet, Err GetFailed => True
  | Panic p, Panic q => p = q
  | _, _ => False
  end.
Proof.
  split; [done|]. unfold Reconcile, PodReconcile. destruct get as [[|]|pod]; [done..|]. cbn [LabelsMatch picker_store].
  destruct (negb _ || _); [done|]. unfold kbind, kret. cbn [PodUpdateOrAddIfNotExist picker_store].
  unfold EppDatastore.PodUpdateOrAddIfNotExist. destruct (ds_pool s) as [pool|]; [|done].
  by destruct (store_endpoints _ true s).
Qed.
