(* ===== verification/WorkloadGroups.v ===== *)
(** * WorkloadGroups: the RoleBasedGroup and StormService controllers

    pkg/controllers/workloads/rolebasedgroup and pkg/controllers/workloads/
    stormservice, as far as they are written: the pod template and the
    StatefulSet of a role, and what the three Reconcile functions do before they
    end.  The API types come from libraries (sigs.k8s.io/rbgs,
    vllm-project/aibrix): their methods are parameters ([RbgLib]).  Some
    functions lack their final return; here they return what their last
    statement leaves.  service_reconciler.go, the headless service of a role, is
    not modelled: it does not parse. *)

From S2P Require Import Prelude GoStd K8s.

Local Open Scope Z_scope.

(** ** Data *)

Record RoleSpec := {
  role_name : string; role_replicas : option Z;
  role_labels : option (gmap string string); role_annotations : option (gmap string string);
  role_pod_management : string; role_min_ready : Z;
  role_template : option PodTemplateSpec
}.

Record RoleBasedGroup := { rbg_api_version : string; rbg_kind : string; rbg_meta : ObjectMeta }.

(** The apply configuration of a role's StatefulSet. *)
Record RoleStatefulSet := { rs_apply : StatefulSetApply; rs_min_ready_seconds : Z }.

(** The methods of the API types, the conversion of a pod template to its apply
    configuration and back, and the conversion to a StatefulSet. *)
Class RbgLib := {
  GetServiceName : RoleBasedGroup -> RoleSpec -> string;
  GetWorkloadName : RoleBasedGroup -> RoleSpec -> string;
  GetCommonLabelsFromRole : RoleBasedGroup -> RoleSpec -> gmap string string;
  GetCommonAnnotationsFromRole : RoleBasedGroup -> RoleSpec -> gmap string string;
  template_to_apply : PodTemplateSpec -> option PodTemplateSpec;
  apply_to_sts : RoleStatefulSet -> option StatefulSet
}.

Class RbgApi (W : Type) := {
  get_rbg : W -> string -> string -> api_error + RoleBasedGroup;
  get_statefulset : W -> string -> string -> api_error + StatefulSet
}.

Inductive rbg_error := RbgClient (e : api_error) | RbgConversion | StsConversion.

#[export] Instance rbg_error_eq_dec : EqDecision rbg_error.
Proof. solve_decision. Defined.

Definition zero_template : PodTemplateSpec := {| pt_labels := None; pt_annotations := None; pt_spec := "" |}.

Section Rbg.
Context {RL : RbgLib}.

(** ** pod_reconciler.go *)

(** [WithLabels] and [WithAnnotations] put their entries over those that are
    there. *)
Definition ConstructPodTemplateSpecApplyConfiguration (role : RoleSpec) (matchLabels : gmap string string)
    : outcome rbg_error PodTemplateSpec :=
  let podTemplateSpec := default zero_template (role_template role) in
  let podAnnotations := default ∅ (pt_annotations podTemplateSpec) in
  match template_to_apply podTemplateSpec with
  | None => Err RbgConversion
  | Some c =>
      Ret {| pt_labels := Some (matchLabels ∪ default ∅ (pt_labels c));
             pt_annotations := Some (podAnnotations ∪ default ∅ (pt_annotations c));
             pt_spec := pt_spec c |}
  end.

(** ** statefulset_reconciler.go *)

(** [labels.Merge]: the second map wins. *)
Definition labels_Merge (a b : gmap string string) : gmap string string := b ∪ a.

Definition rbg_owner (rbg : RoleBasedGroup) : OwnerReference :=
  {| owner_api_version := rbg_api_version rbg; owner_kind := rbg_kind rbg;
     owner_name := o_name (rbg_meta rbg); owner_uid := o_uid (rbg_meta rbg);
     owner_block_deletion := true; owner_controller := true |}.

(** An error of the pod template is not looked at: the configuration is then
    nil, and the template is not set. *)
Definition constructStatefulSetApplyConfiguration (rbg : RoleBasedGroup) (role : RoleSpec)
    : outcome rbg_error RoleStatefulSet :=
  let matchLabels := GetCommonLabelsFromRole rbg role in
  let* podTemplate :=
    match ConstructPodTemplateSpecApplyConfiguration role matchLabels with
    | Ret t => Ret (Some t)
    | Err _ => Ret None
    | Panic p => Panic p
    end in
  let* replicas := deref (role_replicas role) in
  Ret {| rs_apply :=
           {| sa_name := GetWorkloadName rbg role; sa_namespace := o_namespace (rbg_meta rbg);
              sa_labels := labels_Merge matchLabels (default ∅ (role_labels role));
              sa_annotations :=
                labels_Merge (GetCommonAnnotationsFromRole rbg role) (default ∅ (role_annotations role));
              sa_owners := [rbg_owner rbg];
              sa_service_name := GetServiceName rbg role;
              sa_replicas := replicas;
              sa_match_labels := matchLabels;
              sa_template_labels := default ∅ (podTemplate ≫= pt_labels);
              sa_template_annotations := default ∅ (podTemplate ≫= pt_annotations);
              sa_template_spec := default "" (pt_spec <$> podTemplate);
              sa_pod_management := role_pod_management role;
              sa_update_strategy := None;
              sa_ordinals_start := None |};
         rs_min_ready_seconds := role_min_ready role |}.

Context {W : Type} {API : RbgApi W}.

(** The object it builds is dropped. *)
Definition reconcileStatefulSet (rbg : RoleBasedGroup) (role : RoleSpec) : kube W rbg_error unit :=
  do! found := kget (fun w => get_statefulset w (o_namespace (rbg_meta rbg)) (GetWorkloadName rbg role)) in
  match found with
  | inl (ApiFailure r) => kerr (RbgClient (ApiFailure r))
  | _ =>
      do! c := klift (constructStatefulSetApplyConfiguration rbg role) in
      match apply_to_sts c with
      | None => kerr StsConversion
      | Some _ => kret tt
      end
  end.

End Rbg.

(** ** The Reconcile functions

    [RoleBasedGroupReconciler.Reconcile], [RoleSetReconciler.Reconcile] and
    [StormServiceReconciler.Reconcile] read their object, stop when it is being
    deleted, and end; the last two test a finalizer first and do nothing with
    the answer. *)
Section Reconcile.
Context {W A : Type}.

(** What they share: the read, and its errors but not found. *)
Definition reconcile_object (get : W -> api_error + A) (body : A -> kube W api_error Result) : kube W api_error Result :=
  do! r := kget get in
  match r with
  | inl e => match IgnoreNotFound e with Some e => kerr e | None => kret done_result end
  | inr obj => body obj
  end.

(** An object of a library's API type: its metadata and its finalizers. *)
Record finalized := { fz_meta : ObjectMeta; fz_finalizers : list string }.

(** controller-runtime: [controllerutil.ContainsFinalizer]. *)
Definition ContainsFinalizer (o : finalized) (finalizer : string) : bool := bool_decide (finalizer ∈ fz_finalizers o).

End Reconcile.

Definition Reconcile {W} (get : string -> string -> W -> api_error + RoleBasedGroup) (namespace name : string)
    : kube W api_error Result :=
  reconcile_object (get namespace name) (fun rbg =>
    if o_deleting (rbg_meta rbg) then kret done_result else kret done_result).

Definition RoleSet_Reconcile {W} (get : string -> string -> W -> api_error + finalized) (namespace name : string)
    : kube W api_error Result :=
  reconcile_object (get namespace name) (fun roleSet =>
    if o_deleting (fz_meta roleSet) then kret done_result
    else if negb (ContainsFinalizer roleSet "roleSet.finalizers.vllm.io") then kret done_result
    else kret done_result).

Definition StormService_Reconcile {W} (get : string -> string -> W -> api_error + finalized) (namespace name : string)
    : kube W api_error Result :=
  reconcile_object (get namespace name) (fun stormService =>
    if o_deleting (fz_meta stormService) then kret done_result
    else if negb (ContainsFinalizer stormService "stormservice.finalizers.vllm.io") then kret done_result
    else kret done_result).

(** [StatefulRoleSyncer.Scale] has an empty body. *)
Definition Scale {W} (roleSet : finalized) : W -> W := fun w => w.

(** ** The objects of a role *)

Section Objects.
Context {RL : RbgLib}.

(** The StatefulSet of a role is controlled by its group and selects the pods of
    its template. *)
Lemma role_statefulset_selects rbg role c t :
  constructStatefulSetApplyConfiguration rbg role = Ret c ->
  ConstructPodTemplateSpecApplyConfiguration role (GetCommonLabelsFromRole rbg role) = Ret t ->
  sa_owners (rs_apply c) = [rbg_owner rbg] /\
  sa_match_labels (rs_apply c) ⊆ sa_template_labels (rs_apply c) /\
  role_replicas role = Some (sa_replicas (rs_apply c)).
Proof.
  intros Hc Ht. unfold constructStatefulSetApplyConfiguration in Hc. rewrite Ht in Hc. cbn [obind] in Hc.
  destruct (role_replicas role) as [n|]; [|done]. injection Hc as <-.
  unfold ConstructPodTemplateSpecApplyConfiguration in Ht.
  destruct (template_to_apply _) as [a|]; [|done]. injection Ht as <-. cbn.
  split_and!; try done. apply map_union_subseteq_l.
Qed.

(** A role without replicas panics; nothing else does. *)
Lemma replicas_panic rbg role :
  constructStatefulSetApplyConfiguration rbg role = Panic NilDereference <-> role_replicas role = None.
Proof.
  unfold constructStatefulSetApplyConfiguration, ConstructPodTemplateSpecApplyConfiguration.
  destruct (template_to_apply _), (role_replicas role); cbn; split; congruence.
Qed.

(** Reconciling the StatefulSet of a role writes nothing. *)
Lemma reconcileStatefulSet_reads {W : Type} {API : RbgApi W} rbg role :
  read_only (reconcileStatefulSet (W := W) rbg role).
Proof. unfold reconcileStatefulSet. read_only_tac. Qed.

End Objects.

(** Whatever is there, the three Reconcile functions write nothing, and fail
    exactly on an error of the read other than not found. *)
Lemma reconcile_object_reads {W A} (get : W -> api_error + A) body (w : W) :
  (forall obj w, body obj w = (Ret done_result, w)) ->
  (reconcile_object get body w).2 = w /\
  (forall e, (reconcile_object get body w).1 = Err e <-> get w = inl e /\ e <> NotFound).
Proof.
  intros Hb. unfold reconcile_object, kbind, kget. destruct (get w) as [[|r]|obj]; cbn.
  - split; [done|]. intros e. split; [done|intros [[= <-] ?]; done].
  - split; [done|]. intros e. split; [by intros [= <-]|by intros [[= <-] ?]].
  - rewrite Hb. split; [done|by intros e; split; [|intros []]].
Qed.

Lemma Reconciles_read {W} (get_rbg : string -> string -> W -> api_error + RoleBasedGroup) get ns name (w : W) :
  (Reconcile get_rbg ns name w).2 = w /\ (RoleSet_Reconcile get ns name w).2 = w /\
  (StormService_Reconcile get ns name w).2 = w /\
  (forall e, (Reconcile get_rbg ns name w).1 = Err e <-> get_rbg ns name w = inl e /\ e <> NotFound) /\
  (forall e, (RoleSet_Reconcile get ns name w).1 = Err e <-> get ns name w = inl e /\ e <> NotFound) /\
  (forall e, (StormService_Reconcile get ns name w).1 = Err e <-> get ns name w = inl e /\ e <> NotFound).
Proof.
  split_and!; apply reconcile_object_reads; intros; repeat case_match; reflexivity.
Qed.
