(* ===== verification/JobSet.v ===== *)
(** * JobSet: src/pkg/controllers/workloads/jobset

    The reconciler of JobSets: which of its jobs are active, failed, succeeded or
    from a previous attempt, the parallel deletion of jobs and the jobs it would
    create.  The client is a parameter ([JobApi]); [createJobs], which the
    reconciler calls and no file declares, is part of it.  The reconciler calls
    shouldCreateJob with the name only; here it gets the lists too. *)

From S2P Require Import Prelude GoStd K8s.

Local Open Scope Z_scope.

(** ** Objects *)

Record Condition := { c_type : string; c_status : string }.

Record Job := {
  j_name : string; j_namespace : string;
  j_labels : option (gmap string string); j_annotations : option (gmap string string);
  j_deleting : bool; j_spec : string; j_conditions : list Condition
}.

Record ReplicatedJob := {
  rj_name : string; rj_replicas : Z;
  rj_labels : option (gmap string string); rj_annotations : option (gmap string string);
  rj_spec : string
}.

Record JobSet_ := {
  js_name : string; js_namespace : string; js_uid : string; js_deleting : bool;
  js_managed_by : option string;
  js_replicated : list ReplicatedJob;
  js_restarts : Z;
  js_conditions : list Condition
}.

(** The client; [delete_job] deletes with foreground propagation.
    [par_order n] is the order in which [workqueue.ParallelizeUntil], whose
    context is not cancelled, runs the [n] pieces. *)
Class JobApi (W : Type) := {
  JobSetControllerName : string;
  get_jobset : W -> string -> string -> api_error + JobSet_;
  list_jobs : W -> string -> string -> api_error + list Job;
  delete_job : W -> Job -> option api_error * W;
  createJobs : W -> list Job -> W;
  par_order : nat -> list nat;
  par_order_perm n : par_order n ≡ₚ seq 0 n
}.

Inductive job_error :=
| Client (e : api_error)
| Joined (es : list (string * string * api_error)).   (* errors.Join *)

Section JobSet.
Context {W : Type} {JA : JobApi W}.

(** ** Jobs of a set *)

Definition restart_attempt : string := "jobset.sigs.k8s.io/restart-attempt".

(** A job of a previous attempt: its label does not parse, or is below the
    restarts of the set. *)
Definition is_previous (restarts : Z) (item : Job) : bool :=
  match atoi (label (j_labels item) restart_attempt) with
  | (_, Some _) => true
  | (n, None) => wrap_int32 n <? restarts
  end.

Record Lists := {
  activeJobs : list Job; failedJobs : list Job; succeededJobs : list Job; previousJobs : list Job
}.

(** One condition of a job. *)
Definition add_condition (item : Job) (l : Lists) (c : Condition) : Lists :=
  let true_ ty := bool_decide (c_type c = ty) && bool_decide (c_status c = "True"%string) in
  if true_ "Complete"%string
  then {| activeJobs := activeJobs l; failedJobs := failedJobs l;
          succeededJobs := succeededJobs l ++ [item]; previousJobs := previousJobs l |}
  else if true_ "Failed"%string
  then {| activeJobs := activeJobs l; failedJobs := failedJobs l ++ [item];
          succeededJobs := succeededJobs l; previousJobs := previousJobs l |}
  else {| activeJobs := activeJobs l ++ [item]; failedJobs := failedJobs l;
          succeededJobs := succeededJobs l; previousJobs := previousJobs l |}.

Definition classify_job (restarts : Z) (l : Lists) (item : Job) : Lists :=
  if is_previous restarts item
  then {| activeJobs := activeJobs l; failedJobs := failedJobs l; succeededJobs := succeededJobs l;
          previousJobs := previousJobs l ++ [item] |}
  else foldl (add_condition item) l (j_conditions item).

Definition no_jobs : Lists :=
  {| activeJobs := []; failedJobs := []; succeededJobs := []; previousJobs := [] |}.

Definition classify (restarts : Z) (items : list Job) : Lists := foldl (classify_job restarts) no_jobs items.

Definition IsJobSetFinished (jobSet : JobSet_) : bool :=
  existsb (fun c => (bool_decide (c_type c = "Completed"%string) || bool_decide (c_type c = "Failed"%string)) &&
                    bool_decide (c_status c = "True"%string)) (js_conditions jobSet).

(** ** Deleting *)

(** The piece [i] of the parallel deletion. *)
Definition delete_piece (jobs : list Job) (st : list (string * string * api_error) * W) (i : nat)
    : list (string * string * api_error) * W :=
  match jobs !! i with
  | None => st
  | Some deletedJob =>
      if j_deleting deletedJob then st
      else
        let '(err, w) := delete_job st.2 deletedJob in
        match err ≫= IgnoreNotFound with
        | Some e => (st.1 ++ [(j_namespace deletedJob, j_name deletedJob, e)], w)
        | None => (st.1, w)
        end
  end.

Definition deleteJobs (jobs : list Job) : kube W job_error unit :=
  fun w =>
    let '(errs, w) := foldl (delete_piece jobs) ([], w) (par_order (length jobs)) in
    match errs with [] => (Ret tt, w) | _ => (Err (Joined errs), w) end.

(** ** Creating *)

Definition constructJobName (jobSet : JobSet_) (replicatedJob : ReplicatedJob) (jobIndex : nat) : string :=
  js_name jobSet +:+ "-" +:+ rj_name replicatedJob +:+ "-" +:+ itoa (Z.of_nat jobIndex).

Definition constructJob (jobSet : JobSet_) (replicatedJob : ReplicatedJob) (jobIndex : nat) : Job :=
  {| j_name := constructJobName jobSet replicatedJob jobIndex; j_namespace := js_namespace jobSet;
     j_labels := rj_labels replicatedJob; j_annotations := rj_annotations replicatedJob;
     j_deleting := false; j_spec := rj_spec replicatedJob; j_conditions := [] |}.

Definition shouldCreateJob (l : Lists) (jobName : string) : bool :=
  forallb (fun job => negb (bool_decide (j_name job = jobName)))
    (activeJobs l ++ failedJobs l ++ succeededJobs l ++ previousJobs l).

(** The loop from [0] below the number of replicas. *)
Definition constructJobsFromReplicatedJob (l : Lists) (jobSet : JobSet_) (replicatedJob : ReplicatedJob) : list Job :=
  omap (fun jobIndex =>
    if negb (shouldCreateJob l (constructJobName jobSet replicatedJob jobIndex)) then None
    else Some (constructJob jobSet replicatedJob jobIndex))
  (seq 0 (Z.to_nat (rj_replicas replicatedJob))).

Definition create_all (l : Lists) (jobSet : JobSet_) (w : W) : W :=
  foldl (fun w replicatedJob => createJobs w (constructJobsFromReplicatedJob l jobSet replicatedJob)) w
    (js_replicated jobSet).

(** ** Reconcile *)

Definition Reconcile (namespace name : string) : kube W job_error Result :=
  fun w =>
    match get_jobset w namespace name with
    | inl err => match IgnoreNotFound err with
                 | None => (Ret done_result, w)
                 | Some e => (Err (Client e), w)
                 end
    | inr jobSet =>
        if js_deleting jobSet then (Ret done_result, w)
        else if match js_managed_by jobSet with
                | Some controllerName => negb (bool_decide (controllerName = JobSetControllerName))
                | None => false
                end then (Ret done_result, w)
        else
          match list_jobs w (js_namespace jobSet) (js_uid jobSet) with
          | inl err => (Err (Client err), w)
          | inr items =>
              let l := classify (js_restarts jobSet) items in
              if IsJobSetFinished jobSet then
                (do! _ := deleteJobs (activeJobs l) in kret done_result) w
              else
                (do! _ := deleteJobs (previousJobs l) in
                 do! _ := kdo (fun w => (tt, create_all l jobSet w)) in
                 kret done_result) w
          end
    end.

End JobSet.

(** ** Classification *)

Section Facts.
Context {W : Type} {JA : JobApi W}.

Definition is_true_condition (ty : string) (c : Condition) : bool :=
  bool_decide (c_type c = ty) && bool_decide (c_status c = "True"%string).
Definition is_complete (c : Condition) : bool := is_true_condition "Complete" c.
Definition is_failed (c : Condition) : bool := negb (is_complete c) && is_true_condition "Failed" c.
Definition is_active (c : Condition) : bool := negb (is_complete c) && negb (is_true_condition "Failed" c).

(** A job once for each of its conditions that satisfies [p]. *)
Definition occurrences (p : Condition -> bool) (jobs : list Job) : list Job :=
  concat (map (fun j => map (fun _ => j) (filter (fun c => p c = true) (j_conditions j))) jobs).

Lemma add_conditions item cs l :
  foldl (add_condition item) l cs =
  let n p := map (fun _ : Condition => item) (filter (fun c => p c = true) cs) in
  {| activeJobs := activeJobs l ++ n is_active; failedJobs := failedJobs l ++ n is_failed;
     succeededJobs := succeededJobs l ++ n is_complete; previousJobs := previousJobs l |}.
Proof.
  revert l. induction cs as [|c cs IH]; intros l; cbn [foldl].
  { cbn. destruct l. by rewrite !app_nil_r. }
  rewrite IH. cbv zeta. rewrite !filter_cons. unfold add_condition, is_active, is_failed, is_complete, is_true_condition.
  destruct (bool_decide (c_type c = "Complete"%string) && bool_decide (c_status c = "True"%string)); cbn;
    [by rewrite <- app_assoc|].
  destruct (bool_decide (c_type c = "Failed"%string) && bool_decide (c_status c = "True"%string)); cbn;
    by rewrite <- app_assoc.
Qed.

Lemma classify_fold restarts items l :
  foldl (classify_job restarts) l items =
  let current := filter (fun j => is_previous restarts j = false) items in
  {| activeJobs := activeJobs l ++ occurrences is_active current;
     failedJobs := failedJobs l ++ occurrences is_failed current;
     succeededJobs := succeededJobs l ++ occurrences is_complete current;
     previousJobs := previousJobs l ++ filter (fun j => is_previous restarts j = true) items |}.
Proof.
  revert l. induction items as [|j items IH]; intros l; cbn [foldl].
  { cbn. destruct l. by rewrite !app_nil_r. }
  rewrite IH. cbv zeta. rewrite !filter_cons. unfold classify_job.
  destruct (is_previous restarts j).
  - rewrite decide_False, decide_True by done. cbn. by rewrite <- app_assoc.
  - rewrite decide_True, decide_False by done. rewrite add_conditions. cbn.
    by rewrite <- !app_assoc.
Qed.

Lemma occurrences_elem p jobs j :
  j ∈ occurrences p jobs <-> j ∈ jobs /\ exists c, c ∈ j_conditions j /\ p c = true.
Proof.
  unfold occurrences. rewrite list_elem_of_In, in_concat. split.
  - intros (l & (j' & <- & Hj)%in_map_iff & (c & <- & Hc%list_elem_of_In)%in_map_iff).
    apply list_elem_of_filter in Hc as [? ?]. split; [by apply list_elem_of_In|eauto].
  - intros [Hj (c & Hc & Hp)]. eexists. split; [apply in_map_iff; exists j; split; [done|by apply list_elem_of_In]|].
    apply in_map_iff. exists c. split; [done|]. apply list_elem_of_In, list_elem_of_filter. done.
Qed.

(** The four lists.  The previous jobs are those whose restart-attempt label
    is not a number or is, as a 32-bit integer, below the restarts of the set.
    Any other job is listed once for every condition it has: as succeeded for a
    true Complete, as failed for a true Failed, as active for anything else; so a
    job without conditions, as every job is when it is created, is in no list,
    and a job may be in several. *)
Theorem classification restarts items :
  let l := classify restarts items in
  let current := filter (fun j => is_previous restarts j = false) items in
  previousJobs l = filter (fun j => is_previous restarts j = true) items /\
  activeJobs l = occurrences is_active current /\
  failedJobs l = occurrences is_failed current /\
  succeededJobs l = occurrences is_complete current /\
  (forall j, is_previous restarts j = false -> j_conditions j = [] ->
     j ∉ activeJobs l ++ failedJobs l ++ succeededJobs l ++ previousJobs l) /\
  (forall j, is_previous restarts j = true <->
     match atoi (label (j_labels j) restart_attempt) with
     | (n, None) => wrap_int32 n < restarts
     | (_, Some _) => True
     end).
Proof.
  cbv zeta. unfold classify. rewrite classify_fold. cbv zeta. cbn. split_and!; [done..| |].
  - intros j Hp Hc. rewrite !elem_of_app, !occurrences_elem, !list_elem_of_filter, Hc.
    intros [[_ (c & H & _)]|[[_ (c & H & _)]|[[_ (c & H & _)]|[H _]]]]; [by apply elem_of_nil in H..|congruence].
  - intros j. unfold is_previous. destruct (atoi _) as [n [e|]]; [done|]. apply Z.ltb_lt.
Qed.

(** ** Deleting *)

(** One after the other: every job that is not being deleted is deleted, the
    errors other than NotFound are collected. *)
Fixpoint delete_each (jobs : list Job) (w : W) : list (string * string * api_error) * W :=
  match jobs with
  | [] => ([], w)
  | j :: rest =>
      if j_deleting j then delete_each rest w
      else
        let '(err, w) := delete_job w j in
        let '(errs, w) := delete_each rest w in
        (match err with
         | Some (ApiFailure r) => [(j_namespace j, j_name j, ApiFailure r)]
         | _ => []
         end ++ errs, w)
  end.

Lemma delete_pieces jobs order st :
  foldl (delete_piece jobs) st order =
  let '(errs, w) := delete_each (omap (fun i => jobs !! i) order) st.2 in (st.1 ++ errs, w).
Proof.
  revert st. induction order as [|i order IH]; intros [errs w]; cbn [foldl].
  { cbn. by rewrite app_nil_r. }
  rewrite IH. unfold delete_piece. cbn [omap list_omap fst snd]. destruct (jobs !! i) as [j|]; [|done].
  cbn. destruct (j_deleting j); [done|]. cbn. destruct (delete_job w j) as [[[|r]|] w'];
    cbn; destruct (delete_each _ w') as [errs' w'']; by rewrite <- ?app_assoc.
Qed.

Lemma omap_order (jobs : list Job) order :
  order ≡ₚ seq 0 (length jobs) -> omap (fun i => jobs !! i) order ≡ₚ jobs.
Proof.
  intros H. rewrite H. clear H order. induction jobs as [|j jobs IH] using rev_ind; [done|].
  rewrite length_app, Nat.add_comm. cbn [length]. rewrite Nat.add_comm, seq_app, omap_app. cbn.
  rewrite lookup_app_r, Nat.sub_diag by lia. cbn. f_equiv.
  assert (omap (fun i => (jobs ++ [j]) !! i) (seq 0 (length jobs)) = omap (fun i => jobs !! i) (seq 0 (length jobs))) as ->;
    [|exact IH].
  apply list_omap_ext, Forall_Forall2_diag, Forall_forall. intros i Hi%elem_of_seq. by rewrite lookup_app_l by lia.
Qed.

(** In some order of the jobs. *)
Lemma deleteJobs_spec jobs w :
  exists order, order ≡ₚ jobs /\
    deleteJobs jobs w = let '(errs, w') := delete_each order w in
                        (match errs with [] => Ret tt | _ => Err (Joined errs) end, w').
Proof.
  exists (omap (fun i => jobs !! i) (par_order (length jobs))). split.
  - apply omap_order, par_order_perm.
  - unfold deleteJobs. rewrite delete_pieces. cbn. destruct (delete_each _ w) as [errs w']. by destruct errs.
Qed.

(** ** Creating *)

Lemma constructJobName_inj js rj rj' i i' :
  Z.of_nat i <= max_int64 -> Z.of_nat i' <= max_int64 ->
  constructJobName js rj i = constructJobName js rj' i' -> rj_name rj = rj_name rj' /\ i = i'.
Proof.
  intros Hi Hi' H. unfold constructJobName in H.
  assert (forall n k, js_name js +:+ "-" +:+ n +:+ "-" +:+ itoa (Z.of_nat k)
                      = ((js_name js +:+ "-") +:+ n) +:+ String "-" (itoa (Z.of_nat k))) as E
    by (intros; by rewrite !str_app_assoc).
  rewrite !E in H. apply str_last_sep_inj in H as [H1 H2]; [|by apply itoa_nat_no_char..].
  split; [|by apply itoa_nat_inj]. by apply (inj (String.append (js_name js +:+ "-"))) in H1.
Qed.

Definition created (l : Lists) (js : JobSet_) : list Job :=
  concat (map (constructJobsFromReplicatedJob l js) (js_replicated js)).

Lemma constructJobs_elem l js rj j :
  j ∈ constructJobsFromReplicatedJob l js rj <->
  exists i, Z.of_nat i < rj_replicas rj /\ j = constructJob js rj i /\ shouldCreateJob l (j_name j) = true.
Proof.
  unfold constructJobsFromReplicatedJob. rewrite list_elem_of_omap. split.
  - intros (i & Hi%elem_of_seq & H). destruct (shouldCreateJob l _) eqn:E; cbn in H; simplify_eq.
    exists i. split_and!; [lia|done|done].
  - intros (i & Hi & -> & H). exists i. split; [apply elem_of_seq; lia|]. cbn in H. by rewrite H.
Qed.

Lemma shouldCreateJob_spec l name :
  shouldCreateJob l name = true <->
  forall j, j ∈ activeJobs l ++ failedJobs l ++ succeededJobs l ++ previousJobs l -> j_name j <> name.
Proof.
  unfold shouldCreateJob. rewrite forallb_forall. split.
  - intros H j Hj%list_elem_of_In. apply H in Hj. by bool_hyps.
  - intros H j Hj%list_elem_of_In. by apply negb_true_iff, bool_decide_eq_false, H.
Qed.

Lemma constructJobs_names l js rj :
  rj_replicas rj < 2 ^ 31 -> NoDup (j_name <$> constructJobsFromReplicatedJob l js rj).
Proof.
  intros Hr. unfold constructJobsFromReplicatedJob.
  assert (forall k, Forall (fun i => Z.of_nat i < 2 ^ 31) (seq k (Z.to_nat (rj_replicas rj) - k))) as Hb.
  { intros k. apply Forall_forall. intros i Hi%elem_of_seq. lia. }
  specialize (Hb 0%nat). rewrite Nat.sub_0_r in Hb. revert Hb. generalize (NoDup_seq 0 (Z.to_nat (rj_replicas rj))).
  induction 1 as [|i rest Hi Hd IH]; intros Hb; [constructor|]. apply Forall_cons in Hb as [Hbi Hb].
  cbn. destruct (shouldCreateJob l _); cbn; [|by apply IH]. apply NoDup_cons. split; [|by apply IH].
  intros (j & Hn & (k & Hk & Hj)%list_elem_of_omap)%list_elem_of_fmap.
  destruct (negb _); [done|]. injection Hj as <-. cbn in Hn.
  apply (proj1 (Forall_forall _ _) Hb) in Hk as Hkb.
  apply constructJobName_inj in Hn as [_ ->]; [|unfold max_int64; lia..]. done.
Qed.

(** The jobs a reconciliation creates.  For distinct names of the replicated
    jobs and a replica count of 32 bits, all the created names are different,
    across the replicated jobs too; a job is created for exactly the indices
    below the replica count whose name is in none of the four lists. *)
Theorem created_jobs l js :
  NoDup (rj_name <$> js_replicated js) -> Forall (fun rj => rj_replicas rj < 2 ^ 31) (js_replicated js) ->
  NoDup (j_name <$> created l js) /\
  (forall j, j ∈ created l js <->
     exists rj i, rj ∈ js_replicated js /\ Z.of_nat i < rj_replicas rj /\ j = constructJob js rj i /\
       forall j', j' ∈ activeJobs l ++ failedJobs l ++ succeededJobs l ++ previousJobs l -> j_name j' <> j_name j).
Proof.
  intros Hn Hr.
  assert (forall rjs j, j ∈ concat (map (constructJobsFromReplicatedJob l js) rjs) <->
    exists rj i, rj ∈ rjs /\ Z.of_nat i < rj_replicas rj /\ j = constructJob js rj i /\
      shouldCreateJob l (j_name j) = true) as Helem.
  { intros rjs j. rewrite list_elem_of_In, in_concat. split.
    - intros (x & (rj & <- & Hrj)%in_map_iff & (i & Hi)%list_elem_of_In%constructJobs_elem).
      exists rj, i. by rewrite list_elem_of_In.
    - intros (rj & i & Hrj%list_elem_of_In & Hi). eexists. split; [by apply in_map_iff; exists rj|].
      apply list_elem_of_In, constructJobs_elem. eauto. }
  split.
  - unfold created. revert Hn Hr. induction (js_replicated js) as [|rj rjs IH]; intros Hn Hr; [constructor|].
    apply Forall_cons in Hr as [Hr Hrs]. rewrite fmap_cons in Hn. apply NoDup_cons in Hn as [Hn Hns].
    cbn [map concat]. rewrite fmap_app. apply NoDup_app. split_and!; [by apply constructJobs_names| |by apply IH].
    intros name (j & -> & (i & Hi & -> & _)%constructJobs_elem)%list_elem_of_fmap
      (j' & Heq & (rj' & i' & Hrj' & Hi' & -> & _)%Helem)%list_elem_of_fmap.
    apply (proj1 (Forall_forall _ _) Hrs) in Hrj' as Hb. cbn in Heq.
    apply constructJobName_inj in Heq as [Heq _]; [|unfold max_int64; lia..].
    apply Hn. rewrite Heq. by apply list_elem_of_fmap_2.
  - intros j. unfold created. rewrite Helem. by setoid_rewrite shouldCreateJob_spec.
Qed.

(** ** What a reconciliation does *)

(** The set has a true condition Completed or Failed. *)
Definition finished (js : JobSet_) : Prop :=
  Exists (fun c => (c_type c = "Completed" \/ c_type c = "Failed") /\ c_status c = "True")%string (js_conditions js).

(** The job is of a previous attempt: its label is no number, or as a 32-bit
    integer below the restarts of the set. *)
Definition previous (js : JobSet_) (j : Job) : Prop :=
  match atoi (label (j_labels j) "jobset.sigs.k8s.io/restart-attempt") with
  | (n, None) => wrap_int32 n < js_restarts js
  | (_, Some _) => True
  end.

#[local] Instance previous_dec js j : Decision (previous js j).
Proof. unfold previous. destruct (atoi _) as [n [e|]]; apply _. Defined.

(** A name that one of the four lists has: of a previous job, or of a job with a
    condition. *)
Definition listed (js : JobSet_) (items : list Job) (name : string) : Prop :=
  Exists (fun j => j_name j = name /\ (previous js j \/ j_conditions j <> [])) items.

(** The jobs of a replicated job: one for each index below the number of replicas
    whose name is not listed, with the labels, annotations and spec of the
    template. *)
Definition wanted (js : JobSet_) (items : list Job) (rj : ReplicatedJob) : list Job :=
  filter (fun j => ~ listed js items (j_name j))
    (map (fun i => {| j_name := js_name js +:+ "-" +:+ rj_name rj +:+ "-" +:+ itoa (Z.of_nat i);
                      j_namespace := js_namespace js; j_labels := rj_labels rj; j_annotations := rj_annotations rj;
                      j_deleting := false; j_spec := rj_spec rj; j_conditions := [] |})
       (seq 0 (Z.to_nat (rj_replicas rj)))).

Lemma IsJobSetFinished_spec js : IsJobSetFinished js = bool_decide (finished js).
Proof.
  apply eq_true_iff_eq. rewrite bool_decide_eq_true. unfold IsJobSetFinished, finished.
  rewrite existsb_exists, Exists_exists. setoid_rewrite <- list_elem_of_In.
  setoid_rewrite andb_true_iff. setoid_rewrite orb_true_iff. by setoid_rewrite bool_decide_eq_true.
Qed.

Lemma is_previous_spec js j : is_previous (js_restarts js) j = bool_decide (previous js j).
Proof.
  apply eq_true_iff_eq. rewrite bool_decide_eq_true. unfold is_previous, previous.
  fold restart_attempt. destruct (atoi _) as [n [e|]]; [done|]. apply Z.ltb_lt.
Qed.

Lemma filter_previous js (items : list Job) :
  filter (fun j => is_previous (js_restarts js) j = true) items = filter (previous js) items /\
  filter (fun j => is_previous (js_restarts js) j = false) items = filter (fun j => ~ previous js j) items.
Proof.
  split; apply list_filter_iff; intros j; rewrite is_previous_spec;
    [by rewrite bool_decide_eq_true|by rewrite bool_decide_eq_false].
Qed.

(** Being in one of the four lists. *)
Lemma classify_elem js (items : list Job) j :
  let l := classify (js_restarts js) items in
  j ∈ activeJobs l ++ failedJobs l ++ succeededJobs l ++ previousJobs l <->
  j ∈ items /\ (previous js j \/ j_conditions j <> []).
Proof.
  cbv zeta. destruct (classification (js_restarts js) items) as (-> & -> & -> & -> & _).
  destruct (filter_previous js items) as [-> ->].
  rewrite !elem_of_app, !occurrences_elem, !list_elem_of_filter. split.
  - intros [([_ H] & c & Hc & _)|[([_ H] & c & Hc & _)|[([_ H] & c & Hc & _)|[? H]]]];
      (split; [done|]); try (by left); right; intros E; rewrite E in Hc; by apply elem_of_nil in Hc.
  - intros [Hj Hp]. destruct (decide (previous js j)) as [|Hn]; [by auto|].
    destruct Hp as [|Hc]; [done|]. destruct (j_conditions j) as [|c cs]; [done|].
    destruct (is_complete c) eqn:E1; [do 2 right; left; split; [done|]; exists c; split; [by left|done]|].
    destruct (is_true_condition "Failed" c) eqn:E2.
    + right. left. split; [done|]. exists c. split; [by left|]. unfold is_failed. by rewrite E1, E2.
    + left. split; [done|]. exists c. split; [by left|]. unfold is_active. by rewrite E1, E2.
Qed.

Lemma shouldCreateJob_listed js items name :
  shouldCreateJob (classify (js_restarts js) items) name = bool_decide (~ listed js items name).
Proof.
  apply eq_true_iff_eq. rewrite bool_decide_eq_true, shouldCreateJob_spec. unfold listed.
  rewrite Exists_exists. setoid_rewrite (classify_elem js items). naive_solver.
Qed.

Lemma constructJobs_wanted js items rj :
  constructJobsFromReplicatedJob (classify (js_restarts js) items) js rj = wanted js items rj.
Proof.
  unfold constructJobsFromReplicatedJob, wanted. generalize (seq 0 (Z.to_nat (rj_replicas rj))) as idx.
  induction idx as [|i idx IH]; [done|]. cbn [map]. rewrite filter_cons.
  cbn [j_name]. rewrite <- IH. cbn [omap list_omap]. rewrite shouldCreateJob_listed.
  unfold constructJobName, constructJob. case_bool_decide; by case_decide.
Qed.

Lemma create_all_wanted js items w :
  create_all (classify (js_restarts js) items) js w = foldl createJobs w (map (wanted js items) (js_replicated js)).
Proof.
  unfold create_all. revert w. induction (js_replicated js) as [|rj rjs IH]; intros w; [done|].
  cbn. by rewrite IH, constructJobs_wanted.
Qed.

(** C23: what a reconciliation does to the API server.  Nothing when the set is
    gone, is being deleted or belongs to another controller.  When the set has a
    true condition Completed or Failed, the jobs of the current attempt are
    deleted, once for each condition that is neither a true Complete nor a true
    Failed (so a job without conditions is not); otherwise the jobs of a previous
    attempt are: those whose restart-attempt label is no number or below the
    restarts of the set (a comment calls them the jobs that exceed the restarts).
    A deletion tries every such job that is not being deleted already, in some
    order, whatever fails before, and all the errors are returned.  Only for a
    set that is not finished, and when every deletion succeeded (or found no job),
    are jobs created: for each replicated job in turn, those of the indices below
    its replicas whose name no previous job and no job with a condition has. *)
Theorem reconcile_effects w namespace name :
  match get_jobset w namespace name with
  | inl NotFound => Reconcile namespace name w = (Ret done_result, w)
  | inl (ApiFailure r) => Reconcile namespace name w = (Err (Client (ApiFailure r)), w)
  | inr js =>
      if js_deleting js || match js_managed_by js with
                           | Some c => negb (bool_decide (c = JobSetControllerName))
                           | None => false
                           end
      then Reconcile namespace name w = (Ret done_result, w)
      else
        match list_jobs w (js_namespace js) (js_uid js) with
        | inl e => Reconcile namespace name w = (Err (Client e), w)
        | inr items =>
            exists order,
              order ≡ₚ (if decide (finished js) then occurrences is_active (filter (fun j => ~ previous js j) items)
                        else filter (previous js) items) /\
              let '(errs, w') := delete_each order w in
              Reconcile namespace name w =
                match errs with
                | [] => (Ret done_result,
                         if decide (finished js) then w'
                         else foldl createJobs w' (map (wanted js items) (js_replicated js)))
                | _ => (Err (Joined errs), w')
                end
        end
  end.
Proof.
  unfold Reconcile. destruct (get_jobset w namespace name) as [[|r]|js]; [done..|].
  destruct (js_deleting js); [done|]. cbn [orb].
  destruct (match js_managed_by js with Some c => _ | None => false end); [done|].
  destruct (list_jobs w (js_namespace js) (js_uid js)) as [e|items]; [done|]. cbv zeta.
  destruct (classification (js_restarts js) items) as (Hp & Ha & _).
  destruct (filter_previous js items) as [Ep Ec]. rewrite Ep in Hp. rewrite Ec in Ha. rewrite <- Hp, <- Ha.
  rewrite IsJobSetFinished_spec.
  set (l := classify (js_restarts js) items).
  destruct (decide (finished js)) as [Hf|Hf];
    [rewrite bool_decide_eq_true_2 by done|rewrite bool_decide_eq_false_2 by done].
  - destruct (deleteJobs_spec (activeJobs l) w) as (order & Ho & Hd).
    exists order. split; [exact Ho|]. revert Hd. destruct (delete_each order w) as [errs w'].
    intros Hd. unfold kbind. rewrite Hd. by destruct errs.
  - destruct (deleteJobs_spec (previousJobs l) w) as (order & Ho & Hd).
    exists order. split; [exact Ho|]. revert Hd. destruct (delete_each order w) as [errs w'].
    intros Hd. unfold kbind. rewrite Hd. destruct errs; [by rewrite <- create_all_wanted|done].
Qed.

(** The jobs the reconciler makes carry only the labels of their template: unless
    that has a restart-attempt label, the next reconciliation takes them for jobs
    of a previous attempt, and deletes them. *)
Lemma own_jobs_are_previous restarts js rj i :
  label (rj_labels rj) restart_attempt = ""%string -> is_previous restarts (constructJob js rj i) = true.
Proof. intros H. unfold is_previous, constructJob. cbn [j_labels]. by rewrite H. Qed.
End Facts.

(** ** A server to compute with *)

Record jobs_server := { sv_sets : list JobSet_; sv_jobs : list Job; sv_log : list string }.

#[local] Instance example_jobs : JobApi jobs_server := {|
  JobSetControllerName := "jobset.sigs.k8s.io/jobset-controller";
  get_jobset s ns n :=
    match List.find (fun j => bool_decide (js_namespace j = ns) && bool_decide (js_name j = n)) (sv_sets s) with
    | Some j => inr j
    | None => inl NotFound
    end;
  list_jobs s ns uid := inr (filter (fun j => j_namespace j = ns) (sv_jobs s));
  delete_job s j :=
    (None, {| sv_sets := sv_sets s; sv_jobs := filter (fun k => j_name k <> j_name j) (sv_jobs s);
              sv_log := sv_log s ++ ["delete " +:+ j_name j] |});
  createJobs s js :=
    {| sv_sets := sv_sets s; sv_jobs := sv_jobs s ++ js;
       sv_log := sv_log s ++ map (fun j => "create " +:+ j_name j) js |};
  par_order n := rev (seq 0 n);
  par_order_perm n := symmetry (Permutation_rev (seq 0 n))
|}.

Definition example_set : JobSet_ :=
  {| js_name := "train"; js_namespace := "ml"; js_uid := "u"; js_deleting := false; js_managed_by := None;
     js_replicated := [{| rj_name := "worker"; rj_replicas := 2; rj_labels := None; rj_annotations := None; rj_spec := "" |};
                       {| rj_name := "worker-0"; rj_replicas := 1; rj_labels := None; rj_annotations := None; rj_spec := "" |}];
     js_restarts := 0; js_conditions := [] |}.

Definition server_with (jobs : list Job) : jobs_server := {| sv_sets := [example_set]; sv_jobs := jobs; sv_log := [] |}.

(** Each reconciliation deletes the jobs the one before created, and creates
    them again only in the next. *)
Lemma jobs_are_recreated :
  let w1 := (Reconcile "ml" "train" (server_with [])).2 in
  sv_log w1 = ["create train-worker-0"; "create train-worker-1"; "create train-worker-0-0"]%string /\
  let w2 := (Reconcile "ml" "train" w1).2 in
  drop 3 (sv_log w2) = ["delete train-worker-0-0"; "delete train-worker-1"; "delete train-worker-0"]%string /\
  sv_jobs w2 = [].
Proof. vm_compute. done. Qed.

(** A new job of the current attempt has no condition yet: it is created again. *)
Lemma new_job_created_again :
  let job := {| j_name := "train-worker-0"; j_namespace := "ml"; j_labels := Some {[restart_attempt := "0"%string]};
                j_annotations := None; j_deleting := false; j_spec := ""; j_conditions := [] |} in
  sv_log (Reconcile "ml" "train" (server_with [job])).2 =
    ["create train-worker-0"; "create train-worker-1"; "create train-worker-0-0"]%string.
Proof. vm_compute. done. Qed.

Lemma created_jobs_witness :
  j_name <$> created no_jobs example_set = ["train-worker-0"; "train-worker-1"; "train-worker-0-0"]%string /\
  NoDup (j_name <$> created no_jobs example_set).
Proof.
  split; [reflexivity|].
  refine (proj1 (created_jobs no_jobs example_set _ _)).
  - apply (bool_decide_unpack _). vm_compute. exact I.
  - repeat constructor.
Defined.
