(* ===== verification/Watches.v ===== *)
(** * Watches: what wakes the controllers

    The SetupWithManager functions of the controllers under src/pkg/controllers
    and the command cmd/prefill-decode-deploy/leader-worker-set, with the objects
    that the reconcilers write: which event of which object asks which controller
    to reconcile what.  controller-runtime's handlers are a parameter
    ([Handlers]) with their documented meaning; NewPredicateFuncs gives every kind
    of event the same filter on the (new) object. *)

From S2P Require Import Prelude GoStd K8s LwsRevision LwsReconcile.
From S2P Require JobSet WorkloadGroups.

Local Open Scope Z_scope.

(** ** controller-runtime *)

(** An object of a Go type. *)
Record object := { ob_type : string; ob_meta : ObjectMeta }.

Notation request := (string * string)%type.
Definition request_of (m : ObjectMeta) : request := (o_namespace m, o_name m).

(** A type's group version and kind in a scheme. *)
Notation scheme := (string -> option (string * string)).

(** The handler of Owns enqueues the controller reference of an object when it
    is of the owner's group and kind, whatever its version. *)
Class Handlers := {
  gv_group : string -> string;
  EnqueueRequestForOwner : string * string -> ObjectMeta -> list request;
  EnqueueRequestForOwner_spec owner m :
    EnqueueRequestForOwner owner m =
      match List.find owner_controller (o_owners m) with
      | Some r =>
          if bool_decide (gv_group (owner_api_version r) = gv_group owner.1) && bool_decide (owner_kind r = owner.2)
          then [(o_namespace m, owner_name r)] else []
      | None => []
      end
}.

(** What a builder is given: For, Owns, and the event filter. *)
Record controller := { c_for : string; c_owns : list string; c_filter : object -> bool }.

Section Watches.
Context {HL : Handlers}.

(** The requests that an event of an object asks of a controller. *)
Definition wakes (sch : scheme) (c : controller) (o : object) : list request :=
  if negb (c_filter c o) then []
  else
    (if bool_decide (ob_type o = c_for c) then [request_of (ob_meta o)] else []) ++
    (if bool_decide (ob_type o ∈ c_owns c) then
       match sch (c_for c) with Some owner => EnqueueRequestForOwner owner (ob_meta o) | None => [] end
     else []).

(** ** The controllers *)

(** The Go type that the filters' type assertions find. *)
Definition as_watched (o : object) : watched :=
  if bool_decide (ob_type o = "LeaderWorkerSet"%string) then WatchedLws (ob_meta o)
  else if bool_decide (ob_type o = "StatefulSet"%string) then WatchedSts (ob_meta o)
  else if bool_decide (ob_type o = "Pod"%string) then WatchedPod (ob_meta o)
  else if bool_decide (ob_type o = "Service"%string) then WatchedService (ob_meta o)
  else WatchedOther.

Definition lws_controller {LL : LwsLib} : controller :=
  {| c_for := "LeaderWorkerSet"; c_owns := ["StatefulSet"; "Service"]; c_filter o := lwsEventFilter (as_watched o) |}%string.

Definition worker_controller {LL : LwsLib} : controller :=
  {| c_for := "Pod"; c_owns := ["StatefulSet"]; c_filter o := workerEventFilter (as_watched o) |}%string.

Definition jobset_controller : controller :=
  {| c_for := "JobSet"; c_owns := ["Job"; "Service"]; c_filter _ := true |}%string.

(** Both of its predicates accept everything. *)
Definition rolebasedgroup_controller : controller :=
  {| c_for := "RoleBasedGroup"; c_owns := ["StatefulSet"]; c_filter _ := true |}%string.

Definition roleset_controller : controller :=
  {| c_for := "RoleSet"; c_owns := ["Pod"]; c_filter _ := true |}%string.

Definition stormservice_controller : controller :=
  {| c_for := "StormService"; c_owns := ["RoleSet"; "PodSet"]; c_filter _ := true |}%string.

Definition inferencepool_controller : controller :=
  {| c_for := "InferencePool"; c_owns := []; c_filter _ := true |}%string.

(** The field indexes that SetupWithManager of the two registers: none. *)
Definition lws_indexes : list (string * string) := [].
Definition jobset_indexes : list (string * string) := [].

(** cmd/prefill-decode-deploy/leader-worker-set: the controllers it starts. *)
Definition startControllers {LL : LwsLib} : list controller := [lws_controller].

(** ** The objects that are written *)

(** A StatefulSet as the API server keeps it. *)
Definition sts_object (s : StatefulSetApply) : object :=
  {| ob_type := "StatefulSet";
     ob_meta := {| o_name := sa_name s; o_namespace := sa_namespace s; o_uid := "";
                   o_labels := Some (sa_labels s); o_annotations := Some (sa_annotations s);
                   o_owners := sa_owners s; o_deleting := false |} |}.

(** A job of a JobSet: constructJob gives it no owner. *)
Definition job_object (j : JobSet.Job) : object :=
  {| ob_type := "Job";
     ob_meta := {| o_name := JobSet.j_name j; o_namespace := JobSet.j_namespace j; o_uid := "";
                   o_labels := JobSet.j_labels j; o_annotations := JobSet.j_annotations j;
                   o_owners := []; o_deleting := JobSet.j_deleting j |} |}.

(** ** Owners *)

Lemma wakes_owner sch c owner o r rest :
  c_filter c o = true -> ob_type o <> c_for c -> ob_type o ∈ c_owns c -> sch (c_for c) = Some owner ->
  o_owners (ob_meta o) = r :: rest -> owner_controller r = true ->
  wakes sch c o =
    if bool_decide (gv_group (owner_api_version r) = gv_group owner.1) && bool_decide (owner_kind r = owner.2)
    then [(o_namespace (ob_meta o), owner_name r)] else [].
Proof.
  intros Hf Hne Hin Hs Ho Hr. unfold wakes. rewrite Hf, (bool_decide_eq_false_2 _ Hne), (bool_decide_eq_true_2 _ Hin), Hs.
  cbn [negb app]. rewrite EnqueueRequestForOwner_spec, Ho. cbn [List.find]. by rewrite Hr.
Qed.

Section Lws.
Context {LL : LwsLib} {LS : LwsScheme}.

(** The owner that a StatefulSet is given, which was built without one. *)
Lemma owned_by ty owner s0 s gv kind :
  sa_owners s0 = [] -> gvk_for ty = Some (gv, kind) ->
  setControllerReferenceWithStatefulSet ty owner (Some s0) = Ret s ->
  sa_name s = sa_name s0 /\ sa_namespace s = sa_namespace s0 /\ sa_labels s = sa_labels s0 /\
  exists r, sa_owners s = [r] /\ owner_controller r = true /\ owner_name r = o_name owner /\
    owner_api_version r = gv /\ owner_kind r = kind.
Proof.
  intros H0 Hk. unfold setControllerReferenceWithStatefulSet. rewrite Hk. cbn. intros [= <-]. cbn. rewrite H0.
  split_and!; try done. by eexists.
Qed.

Lemma worker_statefulset_labelled pod lws rev s :
  constructWorkerStatefulSetApplyConfiguration pod lws rev = Ret s ->
  has_label (Some (sa_labels s)) SetNameLabelKey = true /\ sa_owners s = [] /\
  sa_name s = o_name (pod_meta pod) /\ sa_namespace s = o_namespace (pod_meta pod).
Proof.
  unfold constructWorkerStatefulSetApplyConfiguration. pose proof keys_ne as Hk. intros H.
  apply obind_ret_inv in H as (current & _ & H). destruct (pod_template_apply _); [|done].
  apply obind_ret_inv in H as (svc & _ & H). apply obind_ret_inv in H as (size & _ & H). simplify_eq. cbn.
  split_and!; try done. unfold has_label. apply bool_decide_eq_true_2. cbn.
  rewrite lookup_insert_ne, lookup_insert_ne, lookup_insert_eq by naive_solver. by eexists.
Qed.

Lemma leader_statefulset_labelled lws rev s :
  constructLeaderStatefulSetApplyConfiguration lws rev = Ret s ->
  has_label (Some (sa_labels s)) SetNameLabelKey = true /\ sa_owners s = [] /\
  sa_name s = o_name (lws_meta lws) /\ sa_namespace s = o_namespace (lws_meta lws).
Proof.
  unfold constructLeaderStatefulSetApplyConfiguration. pose proof keys_ne as Hk. intros H.
  destruct (pod_template_apply _); [|done].
  apply obind_ret_inv in H as (replicas & _ & H). apply obind_ret_inv in H as (size & _ & H).
  apply obind_ret_inv in H as (rolling & _ & H). apply obind_ret_inv in H as (part & _ & H). simplify_eq. cbn.
  split_and!; try done. unfold has_label. apply bool_decide_eq_true_2. cbn. rewrite lookup_insert_eq. by eexists.
Qed.

(** A StatefulSet of the two controllers: labelled, owned by one controller
    reference of the kind of [ty]. *)
Lemma wakes_statefulset c ty owner s0 s gv kind for_gv for_kind :
  c_filter c (sts_object s) = has_label (Some (sa_labels s)) SetNameLabelKey ->
  c_for c <> "StatefulSet"%string -> "StatefulSet"%string ∈ c_owns c ->
  gvk_for ty = Some (gv, kind) -> gvk_for (c_for c) = Some (for_gv, for_kind) ->
  has_label (Some (sa_labels s0)) SetNameLabelKey = true -> sa_owners s0 = [] ->
  sa_namespace s0 = o_namespace owner ->
  setControllerReferenceWithStatefulSet ty owner (Some s0) = Ret s ->
  wakes gvk_for c (sts_object s) =
    if bool_decide (gv_group gv = gv_group for_gv) && bool_decide (kind = for_kind) then [request_of owner] else [].
Proof.
  intros Hf Hne Hin Hk Hc Hl Ho Hns Hs.
  destruct (owned_by _ _ _ _ _ _ Ho Hk Hs) as (Hn & Hns' & Hl' & r & Hr & Hcr & Hrn & Hrv & Hrk).
  rewrite (wakes_owner gvk_for c (for_gv, for_kind) (sts_object s) r []); [|by rewrite Hf, Hl', Hl|cbn; congruence|done..].
  cbn [fst snd]. rewrite Hrv, Hrk, Hrn. cbn [sts_object ob_meta o_namespace]. by rewrite Hns', Hns.
Qed.

(** C24: The StatefulSet that the worker reconciler creates for a leader pod wakes
    that controller with exactly that pod, and never the controller of the set;
    the one that is applied for a set wakes the controller of the set with it,
    and never the worker controller: each reconciler is called again for what it
    wrote, with the request that made it write it. *)
Theorem statefulsets_wake_their_reconciler pod lws rev ws0 ws ls0 ls pod_gvk lws_gvk
    (Hp : gvk_for "Pod" = Some pod_gvk) (Hl : gvk_for "LeaderWorkerSet" = Some lws_gvk) (Hne : pod_gvk.2 <> lws_gvk.2)
    (Hw0 : constructWorkerStatefulSetApplyConfiguration pod lws rev = Ret ws0)
    (Hw : setControllerReferenceWithStatefulSet "Pod" (pod_meta pod) (Some ws0) = Ret ws)
    (Hs0 : constructLeaderStatefulSetApplyConfiguration lws rev = Ret ls0)
    (Hs : setControllerReferenceWithStatefulSet "LeaderWorkerSet" (lws_meta lws) (Some ls0) = Ret ls) :
  wakes gvk_for worker_controller (sts_object ws) = [request_of (pod_meta pod)] /\
  wakes gvk_for lws_controller (sts_object ws) = [] /\
  wakes gvk_for lws_controller (sts_object ls) = [request_of (lws_meta lws)] /\
  wakes gvk_for worker_controller (sts_object ls) = [].
Proof.
  destruct pod_gvk as [pgv pk], lws_gvk as [lgv lk]. cbn [snd] in Hne.
  destruct (worker_statefulset_labelled _ _ _ _ Hw0) as (Wl & Wo & _ & Wn).
  destruct (leader_statefulset_labelled _ _ _ Hs0) as (Ll & Lo & _ & Ln).
  assert ("StatefulSet"%string ∈ ["StatefulSet"; "Service"]%string /\ "StatefulSet"%string ∈ ["StatefulSet"%string])
    as [I1 I2] by (split; left).
  split_and!.
  - rewrite (wakes_statefulset worker_controller "Pod" (pod_meta pod) ws0 ws pgv pk pgv pk) by done.
    by rewrite !bool_decide_eq_true_2.
  - rewrite (wakes_statefulset lws_controller "Pod" (pod_meta pod) ws0 ws pgv pk lgv lk) by done.
    by rewrite (bool_decide_eq_false_2 (pk = lk)), andb_false_r.
  - rewrite (wakes_statefulset lws_controller "LeaderWorkerSet" (lws_meta lws) ls0 ls lgv lk lgv lk) by done.
    by rewrite !bool_decide_eq_true_2.
  - rewrite (wakes_statefulset worker_controller "LeaderWorkerSet" (lws_meta lws) ls0 ls lgv lk pgv pk) by done.
    by rewrite (bool_decide_eq_false_2 (lk = pk)), andb_false_r.
Qed.

(** A set is reconciled on its own events only when it has the label lx1036. *)
Lemma set_needs_label m :
  wakes gvk_for lws_controller {| ob_type := "LeaderWorkerSet"; ob_meta := m |} =
    if has_label (o_labels m) "lx1036" then [request_of m] else [].
Proof.
  unfold wakes. change (c_filter lws_controller _) with (has_label (o_labels m) "lx1036").
  destruct (has_label _ _); [|done]. cbn [negb c_for c_owns ob_type ob_meta lws_controller].
  rewrite bool_decide_eq_true_2, bool_decide_eq_false_2; [done| |done].
  by intros [?|[?|?%elem_of_nil]%elem_of_cons]%elem_of_cons.
Qed.

(** The command starts the controller of the sets alone, so no event of a pod
    wakes anything: no worker StatefulSet is ever created. *)
Lemma command_ignores_pods m c :
  c ∈ startControllers -> wakes gvk_for c {| ob_type := "Pod"; ob_meta := m |} = [].
Proof. by intros ->%list_elem_of_singleton. Qed.

(** ** Lists by a field

    The cached client answers a list by a field with an error unless an index of
    that field was registered for the type. *)
Lemma leader_list_unindexed {W} {API : LwsApi W} ns name (w : W)
    (Hcache : ("StatefulSet", ".metadata.controller")%string ∉ lws_indexes ->
       forall ns uid, exists e, list_sts_controlled_by w ns uid = inl e) :
  (LeaderReconcile ns name w).2 = w /\
  (forall lws, get_lws w ns name = inr lws -> o_deleting (lws_meta lws) = false ->
     exists e, (LeaderReconcile ns name w).1 = Err (ApiError e)).
Proof.
  assert (forall ns uid, exists e, list_sts_controlled_by w ns uid = inl e) as Hl
    by (apply Hcache; apply not_elem_of_nil).
  unfold LeaderReconcile, ignoreNotFound, kbind, kget. destruct (get_lws w ns name) as [e|lws].
  { split; [by destruct e|done]. }
  destruct (Hl (o_namespace (lws_meta lws)) (o_uid (lws_meta lws))) as [e He].
  destruct (o_deleting (lws_meta lws)) eqn:Hd.
  - split; [done|]. intros lws' [= <-]. congruence.
  - rewrite He. split; [done|]. intros _ _ _. by exists e.
Qed.

End Lws.

(** ** Other controllers *)

Lemma jobset_list_unindexed {W} {JA : JobSet.JobApi W} ns name (w : W)
    (Hcache : ("Job", ".metadata.controller")%string ∉ jobset_indexes ->
       forall ns uid, exists e, JobSet.list_jobs w ns uid = inl e) :
  (JobSet.Reconcile ns name w).2 = w.
Proof.
  assert (forall ns uid, exists e, JobSet.list_jobs w ns uid = inl e) as Hl
    by (apply Hcache; apply not_elem_of_nil).
  unfold JobSet.Reconcile. destruct (JobSet.get_jobset w ns name) as [[|r]|js]; [done..|].
  destruct (JobSet.js_deleting js); [done|]. destruct (match JobSet.js_managed_by js with Some c => _ | None => false end); [done|].
  destruct (Hl (JobSet.js_namespace js) (JobSet.js_uid js)) as [e ->]. done.
Qed.

(** The jobs of a JobSet wake nothing: they have no owner. *)
Lemma jobs_wake_nothing sch l js rj j :
  j ∈ JobSet.constructJobsFromReplicatedJob l js rj -> wakes sch jobset_controller (job_object j) = [].
Proof.
  intros _. unfold wakes. cbn. destruct (sch _) as [owner|]; [|done]. by rewrite EnqueueRequestForOwner_spec.
Qed.

(** The StatefulSet of a role would wake its group; a service wakes nothing. *)
Lemma role_objects_wake {RL : WorkloadGroups.RbgLib} sch rbg role c :
  WorkloadGroups.constructStatefulSetApplyConfiguration rbg role = Ret c ->
  sch "RoleBasedGroup"%string = Some (WorkloadGroups.rbg_api_version rbg, WorkloadGroups.rbg_kind rbg) ->
  wakes sch rolebasedgroup_controller (sts_object (WorkloadGroups.rs_apply c)) =
    [request_of (WorkloadGroups.rbg_meta rbg)] /\
  forall o, ob_type o = "Service"%string -> wakes sch rolebasedgroup_controller o = [].
Proof.
  intros Hc Hs. split; [|intros [ty m] Ho; cbn in Ho; by subst ty].
  assert (sa_owners (WorkloadGroups.rs_apply c) = [WorkloadGroups.rbg_owner rbg] /\
    sa_namespace (WorkloadGroups.rs_apply c) = o_namespace (WorkloadGroups.rbg_meta rbg)) as [Ho Hn].
  { unfold WorkloadGroups.constructStatefulSetApplyConfiguration in Hc.
    apply obind_ret_inv in Hc as (t & _ & Hc). apply obind_ret_inv in Hc as (n & _ & Hc). by simplify_eq. }
  erewrite wakes_owner; try done; [|by left].
  cbn [fst snd WorkloadGroups.rbg_owner owner_api_version owner_kind owner_name].
  rewrite !bool_decide_eq_true_2 by done. cbn [andb sts_object ob_meta o_namespace]. by rewrite Hn.
Qed.

End Watches.

(** ** The reconcilers that a manager is asked for

    A manager of controller-runtime hands out its client, its scheme and recorders
    of events by the name of their source. *)
Section Managers.
Context {Client Scheme Recorder : Type}.

Record manager := { GetClient : Client; GetScheme : Scheme; GetEventRecorderFor : string -> Recorder }.

(** LeaderWorkerSetReconciler, WorkerStatefulSetReconciler, JobSetReconciler,
    RoleBasedGroupReconciler, RoleSetReconciler and StormServiceReconciler. *)
Record reconciler := { rc_client : Client; rc_scheme : Scheme; rc_record : Recorder }.

Definition NewLeaderWorkerSetReconciler (mgr : manager) : reconciler :=
  {| rc_client := GetClient mgr; rc_scheme := GetScheme mgr; rc_record := GetEventRecorderFor mgr "lws-controller" |}.

Definition NewWorkerStatefulSetReconciler (mgr : manager) : reconciler :=
  {| rc_client := GetClient mgr; rc_scheme := GetScheme mgr;
     rc_record := GetEventRecorderFor mgr "statefulset-controller" |}.

Definition NewJobSetReconciler (mgr : manager) : reconciler :=
  {| rc_client := GetClient mgr; rc_scheme := GetScheme mgr; rc_record := GetEventRecorderFor mgr "jobset-controller" |}.

Definition NewRoleBasedGroupReconciler (mgr : manager) : reconciler :=
  {| rc_client := GetClient mgr; rc_scheme := GetScheme mgr; rc_record := GetEventRecorderFor mgr "rbg-controller" |}.

Definition NewRoleSetReconciler (mgr : manager) : reconciler :=
  {| rc_client := GetClient mgr; rc_scheme := GetScheme mgr; rc_record := GetEventRecorderFor mgr "roleset-controller" |}.

Definition NewStormServiceReconciler (mgr : manager) : reconciler :=
  {| rc_client := GetClient mgr; rc_scheme := GetScheme mgr;
     rc_record := GetEventRecorderFor mgr "stormservice-controller" |}.

(** The parts of a RoleBasedGroup's reconciler. *)
Record ServiceReconciler := { sr_client : Client; sr_record : Recorder }.
Record PodReconciler := { pr_scheme : Scheme; pr_client : Client }.
Record StatefulSetReconciler := { ssr_scheme : Scheme; ssr_client : Client }.

Definition NewServiceReconciler (mgr : manager) : ServiceReconciler :=
  {| sr_client := GetClient mgr; sr_record := GetEventRecorderFor mgr "rbg-controller" |}.

Definition NewPodReconciler (scheme : Scheme) (client : Client) : PodReconciler :=
  {| pr_scheme := scheme; pr_client := client |}.

(** The events of a group and of its services have one source; every other
    controller has its own. *)
Lemma event_sources (mgr : manager) :
  sr_record (NewServiceReconciler mgr) = rc_record (NewRoleBasedGroupReconciler mgr) /\
  ((forall n m, GetEventRecorderFor mgr n = GetEventRecorderFor mgr m -> n = m) ->
   NoDup (rc_record <$> [NewLeaderWorkerSetReconciler mgr; NewWorkerStatefulSetReconciler mgr; NewJobSetReconciler mgr;
                         NewRoleBasedGroupReconciler mgr; NewRoleSetReconciler mgr; NewStormServiceReconciler mgr])).
Proof.
  split; [done|]. intros Hinj.
  change (NoDup (GetEventRecorderFor mgr <$> ["lws-controller"; "statefulset-controller"; "jobset-controller";
    "rbg-controller"; "roleset-controller"; "stormservice-controller"]%string)).
  apply (NoDup_fmap_2 (Inj0 := Hinj) (GetEventRecorderFor mgr)). by apply (bool_decide_unpack _).
Qed.

End Managers.

(** ** Witness *)

Definition group_of (gv : string) : string :=
  match String.index 0 "/" gv with Some i => String.substring 0 i gv | None => "" end.

#[export] Instance handlers_example : Handlers | 100 := {|
  gv_group := group_of;
  EnqueueRequestForOwner owner m :=
    match List.find owner_controller (o_owners m) with
    | Some r =>
        if bool_decide (group_of (owner_api_version r) = group_of owner.1) && bool_decide (owner_kind r = owner.2)
        then [(o_namespace m, owner_name r)] else []
    | None => []
    end;
  EnqueueRequestForOwner_spec _ _ := eq_refl
|}.

Definition example_worker_set : StatefulSetApply :=
  sts_or (setControllerReferenceWithStatefulSet "Pod" (pod_meta example_pod) (Some example_worker_sts)).

Lemma statefulsets_wake_their_reconciler_witness :
  wakes gvk_for worker_controller (sts_object example_worker_set) = [request_of (pod_meta example_pod)] /\
  wakes gvk_for lws_controller (sts_object example_owned_sts) = [request_of (lws_meta example_lws)].
Proof.
  pose proof (statefulsets_wake_their_reconciler example_pod example_lws example_revision
    example_worker_sts example_worker_set example_leader_sts example_owned_sts
    ("v1", "Pod")%string ("v1", "LeaderWorkerSet")%string eq_refl eq_refl ltac:(discriminate)
    eq_refl eq_refl eq_refl eq_refl) as (Hw & _ & Hl & _).
  split; [exact Hw|exact Hl].
Defined.
