(* ===== verification/EgMessage.v ===== *)
(** * EgMessage: the Gateway API objects and the message bus between the parts

    pkg/envoygateway/message and pkg/envoygateway/scheme: the objects the
    provider collects, with the fields its code and the translators read; the
    aggregate of one GatewayClass ([GatewayAPIResource]); and the subscription to
    a watchable map ([HandleSubscription]), through which the provider feeds the
    Gateway API translator and the translator the xDS server. *)

From S2P Require Import Prelude GoStd.

Local Open Scope Z_scope.

(** ** Kinds (scheme/resource.go) *)

Definition KindGatewayClass : string := "GatewayClass".
Definition KindGateway : string := "Gateway".
Definition KindHTTPRoute : string := "HTTPRoute".
Definition KindEnvoyProxy : string := "EnvoyProxy".
Definition KindService : string := "Service".
Definition KindServiceImport : string := "ServiceImport".

(** [EnvoyAppLabel]. *)
Definition EnvoyAppLabel : gmap string string :=
  {["app.kubernetes.io/name" := "envoy"; "app.kubernetes.io/component" := "proxy";
    "app.kubernetes.io/managed-by" := "envoy-gateway"]}.

(** ** Objects *)

Record GatewayClass := {
  gc_Name : string; gc_ControllerName : string; gc_deleting : bool; gc_Finalizers : list string
}.

(** A condition: its type and its status. *)
Record Condition := { c_Type : string; c_Status : string }.

(** [None] is a nil Spec.Infrastructure; otherwise its labels. *)
Record Gateway := {
  gw_Namespace : string; gw_Name : string; gw_GatewayClassName : string;
  gw_Infrastructure : option (gmap string string); gw_Conditions : list Condition
}.

Record ParentReference := {
  pr_Kind : option string; pr_Namespace : option string; pr_Name : string
}.

(** A filter is its type; a back end its name and its filters. *)
Record BackendRef := { br_Name : string; br_Filters : list string }.
Record HTTPRouteRule := { rule_BackendRefs : list BackendRef; rule_Filters : list string }.

Record HTTPRoute := {
  hr_Namespace : string; hr_Name : string; hr_ParentRefs : list ParentReference;
  hr_Rules : list HTTPRouteRule; hr_Status : list string
}.

Record TargetRef := { tr_Kind : string; tr_Name : string }.

Record EnvoyExtensionPolicy := {
  eep_Namespace : string; eep_Name : string; eep_TargetRefs : list TargetRef;
  eep_ExtProc : list (list BackendRef)
}.

Record JSONPatchOperation := {
  op_Op : string; op_Path : option string; op_JSONPath : option string;
  op_From : option string; op_Value : option string
}.
Record EnvoyJSONPatchConfig := { jp_Type : string; jp_Name : string; jp_Operation : JSONPatchOperation }.

Record EnvoyPatchPolicy := {
  epp_Namespace : string; epp_Name : string; epp_Generation : Z; epp_Status : string;
  epp_TargetRef : TargetRef; epp_JSONPatches : list EnvoyJSONPatchConfig
}.

#[export] Instance GatewayClass_eq_dec : EqDecision GatewayClass.
Proof. solve_decision. Defined.
#[export] Instance Condition_eq_dec : EqDecision Condition.
Proof. solve_decision. Defined.
#[export] Instance Gateway_eq_dec : EqDecision Gateway.
Proof. solve_decision. Defined.
#[export] Instance ParentReference_eq_dec : EqDecision ParentReference.
Proof. solve_decision. Defined.
#[export] Instance BackendRef_eq_dec : EqDecision BackendRef.
Proof. solve_decision. Defined.
#[export] Instance HTTPRouteRule_eq_dec : EqDecision HTTPRouteRule.
Proof. solve_decision. Defined.
#[export] Instance HTTPRoute_eq_dec : EqDecision HTTPRoute.
Proof. solve_decision. Defined.
#[export] Instance TargetRef_eq_dec : EqDecision TargetRef.
Proof. solve_decision. Defined.
#[export] Instance EnvoyExtensionPolicy_eq_dec : EqDecision EnvoyExtensionPolicy.
Proof. solve_decision. Defined.
#[export] Instance JSONPatchOperation_eq_dec : EqDecision JSONPatchOperation.
Proof. solve_decision. Defined.
#[export] Instance EnvoyJSONPatchConfig_eq_dec : EqDecision EnvoyJSONPatchConfig.
Proof. solve_decision. Defined.
#[export] Instance EnvoyPatchPolicy_eq_dec : EqDecision EnvoyPatchPolicy.
Proof. solve_decision. Defined.

(** [types.NamespacedName.String]. *)
Definition namespaced (namespace name : string) : string := namespace +:+ "/" +:+ name.
Definition gw_key (g : Gateway) : string := namespaced (gw_Namespace g) (gw_Name g).
Definition hr_key (r : HTTPRoute) : string := namespaced (hr_Namespace r) (hr_Name r).

Record GatewayAPIResource := {
  res_GatewayClass : option GatewayClass;
  res_Gateways : list Gateway;
  res_HTTPRoutes : list HTTPRoute;
  res_EndpointSlices : list string;
  res_EnvoyExtensionPolicies : list EnvoyExtensionPolicy;
  res_EnvoyPatchPolicies : list EnvoyPatchPolicy
}.

Definition NewGatewayAPIResource : GatewayAPIResource :=
  {| res_GatewayClass := None; res_Gateways := []; res_HTTPRoutes := []; res_EndpointSlices := [];
     res_EnvoyExtensionPolicies := []; res_EnvoyPatchPolicies := [] |}.

(** ** Subscriptions (watchable.go)

    An update sets a key or deletes it; a snapshot is a state of the map with the
    updates that led to it from the snapshot before. *)
Record Update (V : Type) := { u_Key : string; u_Delete : bool; u_Value : V }.
Arguments u_Key {V} _.
Arguments u_Delete {V} _.
Arguments u_Value {V} _.
Record Snapshot (V : Type) := { s_State : gmap string V; s_Updates : list (Update V) }.
Arguments s_State {V} _.
Arguments s_Updates {V} _.

Section HandleSubscription.
Context {MI : MapIter} {V : Type}.

Definition set_update (kv : string * V) : Update V := {| u_Key := kv.1; u_Delete := false; u_Value := kv.2 |}.

(** The calls of [handle], in order: the entries of the first snapshot's state
    as updates, then the updates of the later snapshots, until the channel is
    closed.  The updates of the first snapshot are not handled. *)
Definition handled (subscription : list (Snapshot V)) : list (Update V) :=
  match subscription with
  | [] => []
  | snapshot :: rest => map set_update (map_range ["HandleSubscription"] (s_State snapshot)) ++ concat (map s_Updates rest)
  end.

Definition HandleSubscription {S : Type} (handle : S -> Update V -> S) (subscription : list (Snapshot V)) (s : S) : S :=
  foldl handle s (handled subscription).

(** ** A subscriber sees the map

    watchable's contract: the updates of a snapshot lead from the state before
    it to its own. *)
Definition apply_update (m : gmap string V) (u : Update V) : gmap string V :=
  if u_Delete u then delete (u_Key u) m else <[u_Key u := u_Value u]> m.

Fixpoint follows (m : gmap string V) (subscription : list (Snapshot V)) : Prop :=
  match subscription with
  | [] => True
  | s :: rest => s_State s = foldl apply_update m (s_Updates s) /\ follows (s_State s) rest
  end.

Definition last_state (subscription : list (Snapshot V)) : gmap string V :=
  foldl (fun _ s => s_State s) ∅ subscription.

Lemma apply_entries (l : list (string * V)) m :
  NoDup l.*1 -> foldl apply_update m (map set_update l) = list_to_map l ∪ m.
Proof.
  revert m. induction l as [|[k v] l IH]; intros m Hd; [cbn; by rewrite map_empty_union|].
  apply NoDup_cons in Hd as [Hk Hd]. cbn [map foldl]. rewrite IH by done.
  unfold apply_update, set_update. cbn [u_Delete u_Key u_Value fst snd list_to_map foldr].
  rewrite <- insert_union_l. rewrite insert_union_r; [done|]. by apply not_elem_of_list_to_map_1.
Qed.

Lemma apply_state tag (m m0 : gmap string V) :
  foldl apply_update m0 (map set_update (map_range tag m)) = m ∪ m0.
Proof.
  pose proof (map_range_perm V tag m) as Hp. rewrite apply_entries.
  - f_equal. transitivity (list_to_map (map_to_list m) : gmap string V); [|apply list_to_map_to_list].
    apply list_to_map_proper; [|done]. rewrite Hp. apply NoDup_fst_map_to_list.
  - rewrite Hp. apply NoDup_fst_map_to_list.
Qed.

Lemma follows_replay m subscription :
  follows m subscription ->
  foldl apply_update m (concat (map s_Updates subscription)) = foldl (fun _ s => s_State s) m subscription.
Proof.
  revert m. induction subscription as [|s rest IH]; intros m; [done|]. cbn. intros [Hs Hr].
  rewrite foldl_app, <- Hs. by apply IH.
Qed.

(** Replaying what is handled gives the last state. *)
Lemma handled_replay first rest :
  follows (s_State first) rest ->
  foldl apply_update ∅ (handled (first :: rest)) = last_state (first :: rest).
Proof.
  intros Hf. cbn [handled]. rewrite foldl_app, apply_state, map_union_empty. by apply follows_replay.
Qed.

End HandleSubscription.
