(* ===== verification/EgProvider.v ===== *)
(** * EgProvider: the Kubernetes provider of the Envoy gateway

    pkg/envoygateway/provider/kubernetes: the reconciler that turns every event
    into one global view of the Gateway API resources and publishes it
    (controller.go, gateway.go, httproute.go, envoyextensionpolicy.go,
    envoypatchpolicy.go, indexers.go, resource.go), and the watches that trigger
    it.  The client, discovery and the controller-runtime are parameters. *)

From S2P Require Import Prelude GoStd K8s EgMessage.

Local Open Scope Z_scope.

(** ** What the provider calls *)

(** Names of the Gateway API and of Envoy Gateway's API: the group versions, two
    kinds, and the finalizer of a class in use. *)
Class GatewayNames := {
  GatewayGroupVersion : string; EnvoyGroupVersion : string;
  KindEnvoyExtensionPolicy : string; KindEnvoyPatchPolicy : string;
  GatewayClassFinalizerGatewaysExist : string
}.

(** The reads of the client: a [List], by index and value where it selects, is
    an error or none, and the items left in the list; [get_class] is a [Get]. *)
Class GatewayReads := {
  list_classes : option string * list GatewayClass;
  list_gateways : string -> string -> option string * list Gateway;
  list_routes : string -> string -> option string * list HTTPRoute;
  list_extension_policies : option string * list EnvoyExtensionPolicy;
  list_patch_policies : option string * list EnvoyPatchPolicy;
  get_class : string -> string + GatewayClass
}.

Definition GatewayClassController : string := "gateway.envoyproxy.io/gatewayclass-controller".

(** ** Indexers *)

Definition gatewayHTTPRouteIndex : string := "gatewayHTTPRouteIndex".
Definition gatewayClassIndex : string := "spec.gatewayClassName".

(** The gateways a route names as its parents; a parent of another kind is not
    indexed, a parent without a namespace is in the route's. *)
Definition parent_key (httpRoute : HTTPRoute) (parentRef : ParentReference) : option string :=
  if match pr_Kind parentRef with None => true | Some kind => bool_decide (kind = KindGateway) end
  then Some (namespaced (default (hr_Namespace httpRoute) (pr_Namespace parentRef)) (pr_Name parentRef))
  else None.

Definition index_HTTPRoute (httpRoute : HTTPRoute) : list string := omap (parent_key httpRoute) (hr_ParentRefs httpRoute).
Definition index_Gateway (gateway : Gateway) : list string := [gw_GatewayClassName gateway].

(** ** Collecting the resources of a class *)

Record resourceMappings := {
  allAssociatedNamespaces : gset string;
  allAssociatedGateways : gset string;
  allAssociatedHTTPRoutes : gset string
}.

Definition newResourceMapping : resourceMappings :=
  {| allAssociatedNamespaces := ∅; allAssociatedGateways := ∅; allAssociatedHTTPRoutes := ∅ |}.

Section Collect.
Context {NM : GatewayNames} {GR : GatewayReads}.

(** The visits of back ends and filters are still empty in the code. *)
Definition processBackendRef (rm : resourceMappings) (backendRef : BackendRef) : resourceMappings := rm.

Definition processHTTPRouteFilter (rm : resourceMappings) (filter : string) : resourceMappings :=
  switch filter [("RequestMirror", rm); ("RequestRedirect", rm); ("URLRewrite", rm)] rm.

Definition process_rule (rm : resourceMappings) (rule : HTTPRouteRule) : resourceMappings :=
  foldl processHTTPRouteFilter
    (foldl (fun rm backendRef => foldl processHTTPRouteFilter (processBackendRef rm backendRef) (br_Filters backendRef))
       rm (rule_BackendRefs rule))
    (rule_Filters rule).

(** [httpRoute.Status = HTTPRouteStatus{}]. *)
Definition discard_status (r : HTTPRoute) : HTTPRoute :=
  {| hr_Namespace := hr_Namespace r; hr_Name := hr_Name r; hr_ParentRefs := hr_ParentRefs r;
     hr_Rules := hr_Rules r; hr_Status := [] |}.

Definition add_route (r : HTTPRoute) (res : GatewayAPIResource) : GatewayAPIResource :=
  {| res_GatewayClass := res_GatewayClass res; res_Gateways := res_Gateways res;
     res_HTTPRoutes := res_HTTPRoutes res ++ [r]; res_EndpointSlices := res_EndpointSlices res;
     res_EnvoyExtensionPolicies := res_EnvoyExtensionPolicies res;
     res_EnvoyPatchPolicies := res_EnvoyPatchPolicies res |}.

Definition add_gateway (g : Gateway) (res : GatewayAPIResource) : GatewayAPIResource :=
  {| res_GatewayClass := res_GatewayClass res; res_Gateways := res_Gateways res ++ [g];
     res_HTTPRoutes := res_HTTPRoutes res; res_EndpointSlices := res_EndpointSlices res;
     res_EnvoyExtensionPolicies := res_EnvoyExtensionPolicies res;
     res_EnvoyPatchPolicies := res_EnvoyPatchPolicies res |}.

Definition processHTTPRoute (st : resourceMappings * GatewayAPIResource) (httpRoute : HTTPRoute)
    : resourceMappings * GatewayAPIResource :=
  let '(rm, res) := st in
  let key := hr_key httpRoute in
  if bool_decide (key ∈ allAssociatedHTTPRoutes rm) then (rm, res)
  else
    let rm := foldl process_rule rm (hr_Rules httpRoute) in
    ({| allAssociatedNamespaces := {[hr_Namespace httpRoute]} ∪ allAssociatedNamespaces rm;
        allAssociatedGateways := allAssociatedGateways rm;
        allAssociatedHTTPRoutes := {[key]} ∪ allAssociatedHTTPRoutes rm |},
     add_route (discard_status httpRoute) res).

Definition processHTTPRoutes (gateway : Gateway) (st : resourceMappings * GatewayAPIResource)
    : option string * (resourceMappings * GatewayAPIResource) :=
  match list_routes gatewayHTTPRouteIndex (gw_key gateway) with
  | (Some err, _) => (Some ("list httproute error: " +:+ err), st)
  | (None, items) => (None, foldl processHTTPRoute st items)
  end.

(** One gateway of the list; the error of its routes is dropped. *)
Definition process_gateway (st : resourceMappings * GatewayAPIResource) (gateway : Gateway)
    : resourceMappings * GatewayAPIResource :=
  let '(rm, res) := st in
  let rm := {| allAssociatedNamespaces := {[gw_Namespace gateway]} ∪ allAssociatedNamespaces rm;
               allAssociatedGateways := allAssociatedGateways rm;
               allAssociatedHTTPRoutes := allAssociatedHTTPRoutes rm |} in
  let '(_, (rm, res)) := processHTTPRoutes gateway (rm, res) in
  let key := gw_key gateway in
  if bool_decide (key ∈ allAssociatedGateways rm) then (rm, res)
  else ({| allAssociatedNamespaces := allAssociatedNamespaces rm;
           allAssociatedGateways := {[key]} ∪ allAssociatedGateways rm;
           allAssociatedHTTPRoutes := allAssociatedHTTPRoutes rm |}, add_gateway gateway res).

Definition processGateways (gatewayClass : GatewayClass) (st : resourceMappings * GatewayAPIResource)
    : option string * (resourceMappings * GatewayAPIResource) :=
  match list_gateways gatewayClassIndex (gc_Name gatewayClass) with
  | (Some err, _) => (Some ("list gateway error: " +:+ err), st)
  | (None, items) => (None, foldl process_gateway st items)
  end.

(** The errors of both lists are dropped; what they left in the list is used. *)
Definition processEnvoyExtensionPolicy (res : GatewayAPIResource) : GatewayAPIResource :=
  {| res_GatewayClass := res_GatewayClass res; res_Gateways := res_Gateways res;
     res_HTTPRoutes := res_HTTPRoutes res; res_EndpointSlices := res_EndpointSlices res;
     res_EnvoyExtensionPolicies := res_EnvoyExtensionPolicies res ++ list_extension_policies.2;
     res_EnvoyPatchPolicies := res_EnvoyPatchPolicies res |}.

Definition processEnvoyPatchPolicy (res : GatewayAPIResource) : GatewayAPIResource :=
  {| res_GatewayClass := res_GatewayClass res; res_Gateways := res_Gateways res;
     res_HTTPRoutes := res_HTTPRoutes res; res_EndpointSlices := res_EndpointSlices res;
     res_EnvoyExtensionPolicies := res_EnvoyExtensionPolicies res;
     res_EnvoyPatchPolicies := res_EnvoyPatchPolicies res ++ list_patch_policies.2 |}.

(** ** Reconcile *)

Record GatewayAPIReconciler := {
  envoyExtensionPolicyCRDExists : bool;
  envoyPatchPolicyCRDExists : bool
}.

(** A class of this controller that is not going away. *)
Definition accepted_class (item : GatewayClass) : bool :=
  bool_decide (gc_ControllerName item = GatewayClassController) &&
  negb (gc_deleting item && negb (bool_decide (GatewayClassFinalizerGatewaysExist ∈ gc_Finalizers item))).

Definition ListGatewayClass : string + list GatewayClass :=
  match list_classes with
  | (Some err, _) => inl ("list gatewayclass error: " +:+ err)
  | (None, items) => inr (filter (fun item => accepted_class item = true) items)
  end.

(** The resources of one class; the error of [processGateways] is dropped. *)
Definition class_resources (r : GatewayAPIReconciler) (gatewayClass : GatewayClass) : GatewayAPIResource :=
  let res := {| res_GatewayClass := Some gatewayClass; res_Gateways := []; res_HTTPRoutes := [];
                res_EndpointSlices := []; res_EnvoyExtensionPolicies := []; res_EnvoyPatchPolicies := [] |} in
  let '(_, (_, res)) := processGateways gatewayClass (newResourceMapping, res) in
  let res := if envoyExtensionPolicyCRDExists r then processEnvoyExtensionPolicy res else res in
  if envoyPatchPolicyCRDExists r then processEnvoyPatchPolicy res else res.

(** The state is the watchable map GatewayAPIResources. *)
Definition Reconcile (r : GatewayAPIReconciler) : kube (gmap string (list GatewayAPIResource)) string unit :=
  match ListGatewayClass with
  | inl err => kerr ("list gatewayclass error: " +:+ err)
  | inr [] => kret tt
  | inr gatewayClasses =>
      kdo (fun m => (tt, <[GatewayClassController := map (class_resources r) gatewayClasses]> m))
  end.

End Collect.

(** ** Watching

    Discovery either knows no such group version, fails, or lists the kinds of
    the group version; predicates filter the events of a watch. *)
Inductive discovery_error := NoGroupVersion | DiscoveryFailed (reason : string).

Inductive predicate :=
| GenerationChanged | LabelChanged | AnnotationChanged
| ClassPredicate (p : GatewayClass -> bool)
| GatewayPredicate (p : Gateway -> bool).

(** The manager, the controller and discovery, over a state [W] of theirs.
    [watch kind object request] enqueues [request] for every event that passes;
    [extension_policy_indexers] is a function the repository calls and does not
    declare. *)
Class ControllerRuntime (W : Type) := {
  new_discovery_client : W -> option string * W;
  new_controller : W -> (string + string) * W;
  discover : W -> string -> (discovery_error + list string) * W;
  watch : W -> string -> string -> string -> list predicate -> option string * W;
  index_gateways : W -> string -> (Gateway -> list string) -> option string * W;
  index_routes : W -> string -> (HTTPRoute -> list string) -> option string * W;
  extension_policy_indexers : W -> option string * W
}.

(** retry.OnError of client-go: at most [steps] calls, as long as the error is
    retriable. *)
Class Retry := {
  on_error : forall {T : Type}, nat -> (string -> bool) -> (T -> option string * T) -> T -> option string * T;
  on_error_done : forall T n retriable (fn : T -> option string * T) s s',
    fn s = (None, s') -> on_error (S n) retriable fn s = (None, s');
  on_error_again : forall T n retriable (fn : T -> option string * T) s e s',
    fn s = (Some e, s') -> retriable e = true ->
    on_error (S (S n)) retriable fn s = on_error (S n) retriable fn s';
  on_error_last : forall T retriable (fn : T -> option string * T) s e s',
    fn s = (Some e, s') -> on_error 1 retriable fn s = (Some e, s')
}.

Section Watch.
Context {NM : GatewayNames} {GR : GatewayReads} {W : Type} {CR : ControllerRuntime W} {RT : Retry}.

(** One attempt, with the captured variable [exists_]. *)
Definition check_attempt (kind groupVersion : string) (s : bool * W) : option string * (bool * W) :=
  let '(exists_, w) := s in
  match discover w groupVersion with
  | (inl NoGroupVersion, w) => (None, (exists_, w))
  | (inl (DiscoveryFailed err), w) => (Some err, (exists_, w))
  | (inr kinds, w) => (None, (foldl (fun e k => if bool_decide (k = kind) then true else e) exists_ kinds, w))
  end.

Definition CheckCRDExists (kind groupVersion : string) (w : W) : (string + bool) * W :=
  match on_error 5 (fun _ => true) (check_attempt kind groupVersion) (false, w) with
  | (Some err, (_, w)) => (inl ("discover resources for " +:+ groupVersion +:+ ": " +:+ err), w)
  | (None, (exists_, w)) => (inr exists_, w)
  end.

(** The check of a CRD: an error ends the process, and so does a missing CRD that
    is required. *)
Definition check_or_die (required : bool) (kind groupVersion : string) : kube W string bool :=
  fun w => match CheckCRDExists kind groupVersion w with
           | (inl _, w) => (Panic FatalExit, w)
           | (inr false, w) => if required then (Panic FatalExit, w) else (Ret false, w)
           | (inr true, w) => (Ret true, w)
           end.

Definition failing (what : string) (r : option string * W) : outcome string unit * W :=
  match r with
  | (Some err, w) => (Err (what +:+ err), w)
  | (None, w) => (Ret tt, w)
  end.

(** [c.Watch] of a possibly nil controller: every event asks for the whole view. *)
Definition watch_kind (c : option string) (kind : string) (predicates : list predicate) : kube W string unit :=
  fun w => match c with
           | None => (Panic NilDereference, w)
           | Some name => failing ("failed to watch " +:+ kind +:+ ": ") (watch w name kind GatewayClassController predicates)
           end.

Definition class_predicate (gc : GatewayClass) : bool := bool_decide (gc_ControllerName gc = GatewayClassController).
Definition gateway_predicate (gateway : Gateway) : bool :=
  match get_class (gw_GatewayClassName gateway) with
  | inl _ => false
  | inr gatewayClass => class_predicate gatewayClass
  end.

Fixpoint watch_backends (c : option string) (extBackendGVKs : list string) : kube W string unit :=
  match extBackendGVKs with
  | [] => kret tt
  | gvk :: rest => do! _ := watch_kind c gvk [GenerationChanged] in watch_backends c rest
  end.

(** The Gateway API resources and EnvoyProxy. *)
Definition watch_gateway_api (c : option string) : kube W string unit :=
  do! _ := check_or_die true KindGatewayClass GatewayGroupVersion in
  do! _ := watch_kind c KindGatewayClass [GenerationChanged; ClassPredicate class_predicate] in
  do! ok := check_or_die false KindEnvoyProxy EnvoyGroupVersion in
  do! _ := (if ok then watch_kind c KindEnvoyProxy [GenerationChanged] else kret tt) in
  do! _ := check_or_die true KindGateway GatewayGroupVersion in
  do! _ := watch_kind c KindGateway [GenerationChanged; GatewayPredicate gateway_predicate] in
  do! _ := (fun w => failing "failed to index gateway: " (index_gateways w gatewayClassIndex index_Gateway)) in
  do! _ := check_or_die true KindHTTPRoute GatewayGroupVersion in
  do! _ := watch_kind c KindHTTPRoute [GenerationChanged; LabelChanged; AnnotationChanged] in
  fun w => failing ("failed to add Indexer for " +:+ KindHTTPRoute +:+ ": ")
             (index_routes w gatewayHTTPRouteIndex index_HTTPRoute).

(** The policies of Envoy Gateway, looked up under the Gateway API version. *)
Definition watch_policies (c : option string) : kube W string GatewayAPIReconciler :=
  do! extension := check_or_die false KindEnvoyExtensionPolicy GatewayGroupVersion in
  do! _ := (if extension then
              do! _ := watch_kind c KindEnvoyExtensionPolicy [GenerationChanged] in
              fun w => failing ("failed to add Indexer for " +:+ KindEnvoyExtensionPolicy +:+ ": ")
                         (extension_policy_indexers w)
            else kret tt) in
  do! patch := check_or_die false KindEnvoyPatchPolicy GatewayGroupVersion in
  do! _ := (if patch then watch_kind c KindEnvoyPatchPolicy [GenerationChanged] else kret tt) in
  kret {| envoyExtensionPolicyCRDExists := extension; envoyPatchPolicyCRDExists := patch |}.

Definition WatchResources (c : option string) (extBackendGVKs : list string) : kube W string GatewayAPIReconciler :=
  do! _ := watch_gateway_api c in
  do! r := watch_policies c in
  do! _ := watch_backends c extBackendGVKs in
  kret r.

(** The error of controller.New is overwritten, and the controller is then nil. *)
Definition NewGatewayAPIReconciler : kube W string GatewayAPIReconciler :=
  do! _ := (fun w => failing "create discovery client: " (new_discovery_client w)) in
  do! c := kdo new_controller in
  fun w => match WatchResources (match c with inl _ => None | inr name => Some name end) [] w with
           | (Err err, w) => (Err ("failed to watch resource error: " +:+ err), w)
           | r => r
           end.

End Watch.
