(* ===== verification/EgProviderSpec.v ===== *)
(** * EgProviderSpec: what the provider publishes

    Proofs about EgProvider: the published view against the objects of the
    cluster ([reconcile_view]), what errors do to it ([reconcile_errors]), the
    retries of the CRD checks, and that the policies of Envoy Gateway are never
    part of the view ([policies_never_collected]). *)

From S2P Require Import Prelude GoStd K8s EgMessage EgProvider.

Local Open Scope Z_scope.

(** A client whose field selectors are the registered indexers, over objects with
    distinct namespaced names. *)
Class IndexedReads `{GatewayReads} := {
  all_gateways : list Gateway;
  all_routes : list HTTPRoute;
  gateways_indexed : forall v,
    list_gateways gatewayClassIndex v = (None, filter (fun g => v ∈ index_Gateway g) all_gateways);
  routes_indexed : forall v,
    list_routes gatewayHTTPRouteIndex v = (None, filter (fun r => v ∈ index_HTTPRoute r) all_routes);
  gateways_unique : NoDup (gw_key <$> all_gateways);
  routes_unique : NoDup (hr_key <$> all_routes)
}.

(** ** One class *)

Lemma filters_keep rm l : foldl processHTTPRouteFilter rm l = rm.
Proof.
  induction l as [|f l IH]; [done|]. cbn [foldl].
  assert (processHTTPRouteFilter rm f = rm) as -> by (unfold processHTTPRouteFilter; cbn; by repeat case_decide).
  done.
Qed.

Lemma rules_keep rm rules : foldl process_rule rm rules = rm.
Proof.
  induction rules as [|rule rules IH]; [done|]. cbn [foldl]. unfold process_rule at 2. rewrite filters_keep.
  assert (foldl (fun rm b => foldl processHTTPRouteFilter (processBackendRef rm b) (br_Filters b)) rm
    (rule_BackendRefs rule) = rm) as ->; [|done].
  clear. induction (rule_BackendRefs rule) as [|b l IH]; [done|]. cbn [foldl]. by rewrite filters_keep.
Qed.

(** The fields the collection of gateways and routes leaves alone. *)
Definition rest_of (res : GatewayAPIResource) :=
  (res_GatewayClass res, res_EndpointSlices res, res_EnvoyExtensionPolicies res, res_EnvoyPatchPolicies res).

Record collected (gs : list Gateway) (visited : list HTTPRoute) (st : resourceMappings * GatewayAPIResource) : Prop := {
  cl_gateways : res_Gateways st.2 = gs;
  cl_gateway_keys : forall k, k ∈ allAssociatedGateways st.1 <-> k ∈ gw_key <$> gs;
  cl_route_keys : forall k, k ∈ allAssociatedHTTPRoutes st.1 <-> k ∈ hr_key <$> res_HTTPRoutes st.2;
  cl_nodup : NoDup (hr_key <$> res_HTTPRoutes st.2);
  cl_routes : forall r, r ∈ res_HTTPRoutes st.2 <-> exists r0, r0 ∈ visited /\ r = discard_status r0
}.

Lemma collected_nil class :
  collected [] [] (newResourceMapping,
    {| res_GatewayClass := class; res_Gateways := []; res_HTTPRoutes := []; res_EndpointSlices := [];
       res_EnvoyExtensionPolicies := []; res_EnvoyPatchPolicies := [] |}).
Proof. split; cbn; [done|set_solver|set_solver|constructor|set_solver]. Qed.

Lemma nodup_filter_keys {A} (key : A -> string) (P : A -> Prop) `{forall x, Decision (P x)} l :
  NoDup (key <$> l) -> NoDup (key <$> filter P l).
Proof.
  induction l as [|x l IH]; [done|]. rewrite fmap_cons. intros [Hx Hd]%NoDup_cons. rewrite filter_cons.
  case_decide; [|by apply IH]. rewrite fmap_cons. apply NoDup_cons. split; [|by apply IH].
  intros (y & Hy & [_ Hin]%list_elem_of_filter)%list_elem_of_fmap. apply Hx. rewrite Hy. by apply list_elem_of_fmap_2.
Qed.

Lemma key_inj {A} (key : A -> string) (all : list A) x y :
  NoDup (key <$> all) -> x ∈ all -> y ∈ all -> key x = key y -> x = y.
Proof.
  intros Hd [i Hi]%list_elem_of_lookup [j Hj]%list_elem_of_lookup Hk.
  assert (i = j) as ->; [|congruence].
  eapply NoDup_lookup; [done| |]; rewrite list_lookup_fmap; [by rewrite Hi|by rewrite Hj, Hk].
Qed.

Lemma routes_snoc visited r r' :
  (exists r0, r0 ∈ visited /\ r' = discard_status r0) \/ r' = discard_status r <->
  exists r0, r0 ∈ visited ++ [r] /\ r' = discard_status r0.
Proof. setoid_rewrite elem_of_app. setoid_rewrite list_elem_of_singleton. naive_solver. Qed.

Section View.
Context {NM : GatewayNames} {GR : GatewayReads} {IX : IndexedReads}.

Lemma collect_route gs visited r st :
  r ∈ all_routes -> visited ⊆ all_routes -> collected gs visited st ->
  collected gs (visited ++ [r]) (processHTTPRoute st r) /\ rest_of (processHTTPRoute st r).2 = rest_of st.2.
Proof.
  intros Hr Hv [C1 C2 C3 C4 C5]. destruct st as [rm res]. unfold processHTTPRoute. cbn [fst snd] in *.
  destruct (decide (hr_key r ∈ allAssociatedHTTPRoutes rm)) as [Hk|Hk].
  - rewrite bool_decide_eq_true_2 by done. split; [|done]. split; try done. cbn. intros r'. rewrite C5.
    apply C3, list_elem_of_fmap in Hk as (r1 & Hk & (r0 & H0 & ->)%C5).
    assert (r0 = r) as -> by (apply (key_inj hr_key all_routes); [apply routes_unique|by apply Hv|done|done]).
    rewrite <- routes_snoc. naive_solver.
  - rewrite bool_decide_eq_false_2 by done. split; [|done].
    rewrite rules_keep. rewrite C3 in Hk. split; cbn; try done.
    + intros k. rewrite elem_of_union, elem_of_singleton, C3, fmap_app, elem_of_app. cbn.
      rewrite list_elem_of_singleton. tauto.
    + rewrite fmap_app. apply NoDup_app. split_and!; [done| |apply NoDup_singleton].
      intros k Hin ->%list_elem_of_singleton. done.
    + intros r'. rewrite elem_of_app, list_elem_of_singleton, C5. apply routes_snoc.
Qed.

Lemma collect_routes gs visited items st :
  items ⊆ all_routes -> visited ⊆ all_routes -> collected gs visited st ->
  collected gs (visited ++ items) (foldl processHTTPRoute st items) /\
  rest_of (foldl processHTTPRoute st items).2 = rest_of st.2.
Proof.
  revert visited st. induction items as [|r items IH]; intros visited st Hi Hv Hc; [by rewrite app_nil_r|].
  destruct (collect_route gs visited r st) as [Hc' Hr]; [apply Hi; by left|done|done|].
  destruct (IH (visited ++ [r]) (processHTTPRoute st r)) as [H1 H2]; [| |done|].
  { intros x Hx. apply Hi. by right. }
  { intros x [Hx| ->%list_elem_of_singleton]%elem_of_app; [by apply Hv|]. apply Hi. by left. }
  rewrite <- app_assoc in H1. cbn [foldl]. split; [done|]. by rewrite H2.
Qed.

Definition routes_of (g : Gateway) : list HTTPRoute := filter (fun r => gw_key g ∈ index_HTTPRoute r) all_routes.

Lemma routes_of_all g : routes_of g ⊆ all_routes.
Proof. intros r. unfold routes_of. by intros [_ ?]%list_elem_of_filter. Qed.

Lemma collect_gateway gs visited g st :
  gw_key g ∉ gw_key <$> gs -> visited ⊆ all_routes -> collected gs visited st ->
  collected (gs ++ [g]) (visited ++ routes_of g) (process_gateway st g) /\
  rest_of (process_gateway st g).2 = rest_of st.2.
Proof.
  intros Hg Hv Hc. destruct st as [rm res]. unfold process_gateway, processHTTPRoutes.
  rewrite routes_indexed. fold (routes_of g).
  destruct (collect_routes gs visited (routes_of g)
    ({| allAssociatedNamespaces := {[gw_Namespace g]} ∪ allAssociatedNamespaces rm;
        allAssociatedGateways := allAssociatedGateways rm;
        allAssociatedHTTPRoutes := allAssociatedHTTPRoutes rm |}, res)) as [[D1 D2 D3 D4 D5] Hr];
    [apply routes_of_all|done|by destruct Hc|].
  destruct (foldl processHTTPRoute _ (routes_of g)) as [rm' res']. cbn [fst snd] in *.
  rewrite bool_decide_eq_false_2 by (by rewrite D2). split; [|done]. split; cbn; try done.
  - by rewrite D1.
  - intros k. rewrite elem_of_union, elem_of_singleton, D2, fmap_app, elem_of_app. cbn.
    rewrite list_elem_of_singleton. tauto.
Qed.

Lemma collect_gateways gs visited items st :
  NoDup (gw_key <$> gs ++ items) -> visited ⊆ all_routes -> collected gs visited st ->
  exists visited', (forall r, r ∈ visited' <-> r ∈ visited \/ exists g, g ∈ items /\ r ∈ routes_of g) /\
    collected (gs ++ items) visited' (foldl process_gateway st items) /\
    rest_of (foldl process_gateway st items).2 = rest_of st.2.
Proof.
  revert gs visited st. induction items as [|g items IH]; intros gs visited st Hd Hv Hc.
  { exists visited. rewrite app_nil_r. split_and!; [|done|done]. intros r. split; [by left|].
    intros [?|(? & []%not_elem_of_nil & _)]. done. }
  destruct (collect_gateway gs visited g st) as [Hc' Hr]; [|done|done|].
  { rewrite fmap_app in Hd. apply NoDup_app in Hd as (_ & Hd & _). intros H. apply (Hd _ H). cbn. by left. }
  destruct (IH (gs ++ [g]) (visited ++ routes_of g) (process_gateway st g)) as (v' & H1 & H2 & H3); [..|done|].
  { by rewrite <- app_assoc. }
  { intros x [Hx|Hx]%elem_of_app; [by apply Hv|by apply (routes_of_all g)]. }
  exists v'. rewrite <- app_assoc in H2. cbn [foldl]. split_and!; [|done|by rewrite H3].
  intros r. rewrite H1, elem_of_app. setoid_rewrite elem_of_cons. naive_solver.
Qed.


Lemma class_view r class :
  let res := class_resources r class in
  res_GatewayClass res = Some class /\
  res_Gateways res = filter (fun g => gw_GatewayClassName g = gc_Name class) all_gateways /\
  NoDup (hr_key <$> res_HTTPRoutes res) /\
  (forall r', r' ∈ res_HTTPRoutes res <->
     exists r0 g, r0 ∈ all_routes /\ g ∈ res_Gateways res /\ gw_key g ∈ index_HTTPRoute r0 /\ r' = discard_status r0) /\
  res_EnvoyExtensionPolicies res = (if envoyExtensionPolicyCRDExists r then list_extension_policies.2 else []) /\
  res_EnvoyPatchPolicies res = (if envoyPatchPolicyCRDExists r then list_patch_policies.2 else []).
Proof.
  cbv zeta. unfold class_resources, processGateways. rewrite gateways_indexed.
  set (gws := filter (fun g => gc_Name class ∈ index_Gateway g) all_gateways).
  assert (gws = filter (fun g => gw_GatewayClassName g = gc_Name class) all_gateways) as Egws.
  { subst gws. apply list_filter_iff. intros g. unfold index_Gateway. rewrite list_elem_of_singleton. done. }
  destruct (collect_gateways [] [] gws
    (newResourceMapping, {| res_GatewayClass := Some class; res_Gateways := []; res_HTTPRoutes := [];
       res_EndpointSlices := []; res_EnvoyExtensionPolicies := []; res_EnvoyPatchPolicies := [] |}))
    as (visited & Hv & [D1 D2 D3 D4 D5] & Hr); [|intros ? []%not_elem_of_nil|apply collected_nil|].
  { apply nodup_filter_keys, gateways_unique. }
  destruct (foldl process_gateway _ gws) as [rm res]. cbn [fst snd] in *.
  injection Hr as R1 _ R3 R4. cbn in D1.
  assert (forall r', r' ∈ res_HTTPRoutes res <-> exists r0 g, r0 ∈ all_routes /\ g ∈ res_Gateways res /\
    gw_key g ∈ index_HTTPRoute r0 /\ r' = discard_status r0) as Hroutes.
  { intros r'. rewrite D5, D1. split.
    - intros (r0 & [[]%not_elem_of_nil|(g & Hg & [H1 H2]%list_elem_of_filter)]%Hv & ->). by exists r0, g.
    - intros (r0 & g & H1 & H2 & H3 & ->). exists r0. split; [|done]. apply Hv. right. exists g. split; [done|].
      by apply list_elem_of_filter. }
  destruct (envoyExtensionPolicyCRDExists r), (envoyPatchPolicyCRDExists r); cbn;
    rewrite ?R1, ?R3, ?R4, ?D1, <- ?Egws, ?app_nil_l; rewrite D1 in Hroutes; split_and!; done.
Qed.

(** C5: the published view.  When the class list succeeds and field selectors
    select by the registered indexers, [Reconcile] publishes, under the name of
    the controller, one entry for each class of this controller that is not
    going away, in the order of the list: the class, exactly its gateways in
    order, and every route with one of these gateways among its parents, once,
    without its status, although it is found again through every further parent;
    and the Envoy policies if their CRDs were found.  Without such a class
    nothing is published and the view of before stays. *)
Theorem reconcile_view r classes m :
  list_classes = (None, classes) ->
  let accepted := filter (fun c => accepted_class c = true) classes in
  Reconcile r m = (Ret tt, match accepted with
                           | [] => m
                           | _ => <[GatewayClassController := map (class_resources r) accepted]> m
                           end) /\
  (forall class, class ∈ accepted ->
     let res := class_resources r class in
     res_GatewayClass res = Some class /\
     res_Gateways res = filter (fun g => gw_GatewayClassName g = gc_Name class) all_gateways /\
     NoDup (hr_key <$> res_HTTPRoutes res) /\
     (forall r', r' ∈ res_HTTPRoutes res <->
        exists r0 g, r0 ∈ all_routes /\ g ∈ res_Gateways res /\ gw_key g ∈ index_HTTPRoute r0 /\ r' = discard_status r0) /\
     res_EnvoyExtensionPolicies res = (if envoyExtensionPolicyCRDExists r then list_extension_policies.2 else []) /\
     res_EnvoyPatchPolicies res = (if envoyPatchPolicyCRDExists r then list_patch_policies.2 else [])).
Proof.
  intros Hc accepted. split; [|intros class _; apply class_view].
  unfold Reconcile, ListGatewayClass. rewrite Hc. subst accepted. by destruct (filter _ classes).
Qed.
End View.

(** Collecting gateways and routes leaves the policies alone. *)
Section Policies.
Context {NM : GatewayNames} {GR : GatewayReads}.

Lemma route_rest st r : rest_of (processHTTPRoute st r).2 = rest_of st.2.
Proof. destruct st as [rm res]. unfold processHTTPRoute. by destruct (bool_decide _). Qed.

Lemma gateway_rest st g : rest_of (process_gateway st g).2 = rest_of st.2.
Proof.
  destruct st as [rm res]. unfold process_gateway, processHTTPRoutes.
  destruct (list_routes gatewayHTTPRouteIndex (gw_key g)) as [[e|] items]; [by destruct (bool_decide _)|].
  match goal with |- context [foldl processHTTPRoute ?s items] =>
    pose proof (foldl_keeps (fun st => rest_of st.2) processHTTPRoute items s route_rest) as H end.
  destruct (foldl processHTTPRoute _ items) as [rm' res']. cbn [fst snd] in *. rewrite <- H. by destruct (bool_decide _).
Qed.

Lemma class_policies class :
  let r := {| envoyExtensionPolicyCRDExists := false; envoyPatchPolicyCRDExists := false |} in
  res_EnvoyExtensionPolicies (class_resources r class) = [] /\ res_EnvoyPatchPolicies (class_resources r class) = [].
Proof.
  cbv zeta. unfold class_resources, processGateways.
  destruct (list_gateways gatewayClassIndex (gc_Name class)) as [[e|] items]; [done|].
  match goal with |- context [foldl process_gateway ?s items] =>
    pose proof (foldl_keeps (fun st => rest_of st.2) process_gateway items s gateway_rest) as H end.
  destruct (foldl process_gateway _ items) as [rm' res']. cbn in *. by injection H as _ _ -> ->.
Qed.
End Policies.

(** ** Errors *)

Section Errors.
Context {NM : GatewayNames} {GR : GatewayReads}.

(** Errors of a reconciliation.  A failed class list is returned and leaves
    the published view alone.  Every later error is swallowed: when the gateways
    of a class cannot be listed, or the routes of a gateway, the reconciliation
    succeeds and publishes the class without any gateway, or the gateway without
    its routes, in place of the view of before. *)
Theorem reconcile_errors r m :
  match list_classes with
  | (Some e, _) => exists e', Reconcile r m = (Err e', m)
  | (None, classes) => (Reconcile r m).1 = Ret tt
  end /\
  (forall class e items, list_gateways gatewayClassIndex (gc_Name class) = (Some e, items) ->
     let res := class_resources r class in
     res_GatewayClass res = Some class /\ res_Gateways res = [] /\ res_HTTPRoutes res = []) /\
  (forall g st e items, list_routes gatewayHTTPRouteIndex (gw_key g) = (Some e, items) ->
     gw_key g ∉ allAssociatedGateways st.1 ->
     let res := (process_gateway st g).2 in
     res_Gateways res = res_Gateways st.2 ++ [g] /\ res_HTTPRoutes res = res_HTTPRoutes st.2).
Proof.
  split_and!.
  - unfold Reconcile, ListGatewayClass. destruct list_classes as [[e|] classes]; [by eexists|].
    by destruct (filter _ classes).
  - intros class e items He. cbv zeta. unfold class_resources, processGateways. rewrite He.
    by destruct (envoyExtensionPolicyCRDExists r), (envoyPatchPolicyCRDExists r).
  - intros g [rm res] e items He Hk. unfold process_gateway, processHTTPRoutes. rewrite He. cbn [fst snd] in *.
    cbn [allAssociatedGateways]. by rewrite bool_decide_eq_false_2.
Qed.
End Errors.

(** ** The CRD checks *)

Section Checks.
Context {NM : GatewayNames} {GR : GatewayReads} {W : Type} {CR : ControllerRuntime W} {RT : Retry}.

(** Discovery, asked again after a failure, at most [S n] times: [None] is a
    missing group version. *)
Fixpoint first_answer (n : nat) (groupVersion : string) (w : W) : (string + option (list string)) * W :=
  match discover w groupVersion with
  | (inl (DiscoveryFailed e), w) => match n with O => (inl e, w) | S n => first_answer n groupVersion w end
  | (inl NoGroupVersion, w) => (inr None, w)
  | (inr kinds, w) => (inr (Some kinds), w)
  end.

Lemma found_kind (kind : string) (kinds : list string) (e : bool) :
  foldl (fun e k => if bool_decide (k = kind) then true else e) e kinds = e || bool_decide (kind ∈ kinds).
Proof.
  revert e. induction kinds as [|k kinds IH]; intros e.
  { rewrite bool_decide_eq_false_2 by apply not_elem_of_nil. by rewrite orb_false_r. }
  cbn [foldl]. rewrite IH. destruct (decide (k = kind)) as [->|Hk].
  - rewrite (bool_decide_eq_true_2 (kind = kind)) by done. rewrite (bool_decide_eq_true_2 (_ ∈ _ :: _)) by by left.
    by rewrite orb_true_r.
  - rewrite (bool_decide_eq_false_2 (k = kind)) by done. f_equal. apply bool_decide_ext. rewrite elem_of_cons.
    naive_solver.
Qed.

Lemma on_error_first n kind gv w :
  on_error (S n) (fun _ => true) (check_attempt kind gv) (false, w) =
  match first_answer n gv w with
  | (inl e, w) => (Some e, (false, w))
  | (inr None, w) => (None, (false, w))
  | (inr (Some kinds), w) => (None, (bool_decide (kind ∈ kinds), w))
  end.
Proof.
  revert w. induction n as [|n IH]; intros w; cbn [first_answer]; destruct (discover w gv) as [[[|e]|kinds] w'] eqn:Hd.
  all: try (apply on_error_done; unfold check_attempt; rewrite Hd; by rewrite ?found_kind).
  - apply on_error_last. unfold check_attempt. by rewrite Hd.
  - rewrite <- IH. eapply on_error_again; [|done]. unfold check_attempt. by rewrite Hd.
Qed.

(** The check asks at most five times and answers from the first answer. *)
Lemma CheckCRDExists_first kind gv w :
  CheckCRDExists kind gv w =
  match first_answer 4 gv w with
  | (inl e, w) => (inl ("discover resources for " +:+ gv +:+ ": " +:+ e), w)
  | (inr None, w) => (inr false, w)
  | (inr (Some kinds), w) => (inr (bool_decide (kind ∈ kinds)), w)
  end.
Proof.
  unfold CheckCRDExists. rewrite on_error_first. by destruct (first_answer 4 gv w) as [[e|[kinds|]] w'].
Qed.

Lemma check_absent required kind gv w b w' :
  (forall w kinds w', discover w gv = (inr kinds, w') -> kind ∉ kinds) ->
  check_or_die required kind gv w = (Ret b, w') -> b = false.
Proof.
  intros Hd. unfold check_or_die. rewrite CheckCRDExists_first. generalize 4%nat. intros n.
  assert (forall n w kinds w', first_answer n gv w = (inr (Some kinds), w') -> kind ∉ kinds) as Hf.
  { clear w w' n. intros n. induction n as [|n IH]; intros w kinds w'; cbn;
      destruct (discover w gv) as [[[|e]|ks] w1] eqn:Hw; intros H; simplify_eq; eauto. }
  destruct (first_answer n gv w) as [[e|[kinds|]] w1] eqn:Hw; [done| |].
  - rewrite bool_decide_eq_false_2 by eauto. by destruct required; intros [= <- _].
  - by destruct required; intros [= <- _].
Qed.

(** C30: the policies of Envoy Gateway never reach the view.  Their CRDs are
    looked up under the Gateway API group version, which does not list them, so
    whenever the reconciler starts it believes they are not installed, and no
    view it builds, whatever the cluster holds, contains an EnvoyExtensionPolicy
    or an EnvoyPatchPolicy. *)
Theorem policies_never_collected w r w' :
  (forall w kinds w', discover w GatewayGroupVersion = (inr kinds, w') ->
     KindEnvoyExtensionPolicy ∉ kinds /\ KindEnvoyPatchPolicy ∉ kinds) ->
  NewGatewayAPIReconciler w = (Ret r, w') ->
  r = {| envoyExtensionPolicyCRDExists := false; envoyPatchPolicyCRDExists := false |} /\
  (forall class, res_EnvoyExtensionPolicies (class_resources r class) = [] /\
                 res_EnvoyPatchPolicies (class_resources r class) = []).
Proof.
  intros Hd Hn.
  assert (r = {| envoyExtensionPolicyCRDExists := false; envoyPatchPolicyCRDExists := false |}) as ->.
  { unfold NewGatewayAPIReconciler in Hn. apply kbind_inv in Hn as (? & w1 & _ & Hn).
    apply kbind_inv in Hn as (c & w2 & _ & Hn).
    destruct (WatchResources _ [] w2) as [[r'|e|p] w3] eqn:Hw; [|done..]. injection Hn as -> ->.
    unfold WatchResources in Hw.
    apply kbind_inv in Hw as (? & ? & _ & Hw). apply kbind_inv in Hw as (r0 & ? & Hp & Hw).
    apply kbind_inv in Hw as (? & ? & _ & Hw). injection Hw as <- _. unfold watch_policies in Hp.
    apply kbind_inv in Hp as (b1 & ? & H1 & Hp). apply kbind_inv in Hp as (? & ? & _ & Hp).
    apply kbind_inv in Hp as (b2 & ? & H2 & Hp). apply kbind_inv in Hp as (? & ? & _ & Hp).
    injection Hp as <- _.
    apply check_absent in H1 as ->; [|intros; by eapply Hd]. apply check_absent in H2 as ->; [done|].
    intros; by eapply Hd. }
  split; [done|]. intros class. apply class_policies.
Qed.
End Checks.

(** ** A cluster to compute with *)

Definition example_class (name controller : string) : GatewayClass :=
  {| gc_Name := name; gc_ControllerName := controller; gc_deleting := false; gc_Finalizers := [] |}.
Definition example_gateway (name class : string) : Gateway :=
  {| gw_Namespace := "infra"; gw_Name := name; gw_GatewayClassName := class;
     gw_Infrastructure := None; gw_Conditions := [] |}.
Definition example_parent (name : string) : ParentReference :=
  {| pr_Kind := Some KindGateway; pr_Namespace := Some "infra"%string; pr_Name := name |}.
Definition example_route (name : string) (parents : list string) : HTTPRoute :=
  {| hr_Namespace := "apps"; hr_Name := name; hr_ParentRefs := map example_parent parents; hr_Rules := [];
     hr_Status := ["Accepted"%string] |}.

Definition example_classes : list GatewayClass :=
  [example_class "other" "example.com/other"; example_class "eg" GatewayClassController].
Definition example_gateways : list Gateway :=
  [example_gateway "a" "eg"; example_gateway "b" "other"; example_gateway "c" "eg"].
Definition example_routes : list HTTPRoute :=
  [example_route "both" ["c"; "a"]; example_route "foreign" ["b"]; example_route "one" ["c"]].

#[local] Instance example_names : GatewayNames := {|
  GatewayGroupVersion := "gateway.networking.k8s.io/v1"; EnvoyGroupVersion := "gateway.envoyproxy.io/v1alpha1";
  KindEnvoyExtensionPolicy := "EnvoyExtensionPolicy"; KindEnvoyPatchPolicy := "EnvoyPatchPolicy";
  GatewayClassFinalizerGatewaysExist := "gateway-exists-finalizer.gateway.networking.k8s.io"
|}.

#[local] Instance example_reads : GatewayReads := {|
  list_classes := (None, example_classes);
  list_gateways _ v := (None, filter (fun g => v ∈ index_Gateway g) example_gateways);
  list_routes _ v := (None, filter (fun r => v ∈ index_HTTPRoute r) example_routes);
  list_extension_policies := (None, [{| eep_Namespace := "infra"; eep_Name := "p"; eep_TargetRefs := []; eep_ExtProc := [] |}]);
  list_patch_policies := (None, []);
  get_class name := match List.find (fun c => bool_decide (gc_Name c = name)) example_classes with
                    | Some c => inr c | None => inl "not found"%string end
|}.

#[local, refine] Instance example_indexed : IndexedReads :=
  {| all_gateways := example_gateways; all_routes := example_routes |}.
Proof.
  - reflexivity.
  - reflexivity.
  - by apply (bool_decide_unpack _); vm_compute.
  - by apply (bool_decide_unpack _); vm_compute.
Defined.

Lemma reconcile_view_witness :
  exists view, (Reconcile {| envoyExtensionPolicyCRDExists := true; envoyPatchPolicyCRDExists := false |} ∅).2
                 !! GatewayClassController = Some [view] /\
    map gw_Name (res_Gateways view) = ["a"; "c"]%string /\
    map hr_Name (res_HTTPRoutes view) = ["both"; "one"]%string /\
    NoDup (hr_key <$> res_HTTPRoutes view).
Proof.
  destruct (reconcile_view (GR := example_reads) (IX := example_indexed) {| envoyExtensionPolicyCRDExists := true; envoyPatchPolicyCRDExists := false |}
    example_classes ∅ eq_refl) as [H1 H2].
  eexists. split; [by rewrite H1|]. split; [by vm_compute|]. split; [by vm_compute|].
  apply (H2 (example_class "eg" GatewayClassController)). by apply (bool_decide_unpack _); vm_compute.
Defined.

(** Discovery that fails twice before it answers; the rest succeeds. *)
#[local] Instance example_runtime : ControllerRuntime nat := {|
  new_discovery_client w := (None, w);
  new_controller w := (inr "gatewayapi"%string, w);
  discover w gv :=
    match w with
    | S w => (inl (DiscoveryFailed "timeout"), w)
    | O => (if bool_decide (gv = "gateway.networking.k8s.io/v1"%string)
            then inr ["GatewayClass"; "Gateway"; "HTTPRoute"]%string else inr ["EnvoyProxy"; "EnvoyPatchPolicy"]%string, O)
    end;
  watch w _ _ _ _ := (None, w); index_gateways w _ _ := (None, w); index_routes w _ _ := (None, w);
  extension_policy_indexers w := (None, w)
|}.

Fixpoint retry {T : Type} (steps : nat) (retriable : string -> bool) (fn : T -> option string * T) (s : T)
    : option string * T :=
  match steps with
  | O => (Some "timed out waiting for the condition"%string, s)
  | S n =>
      match fn s with
      | (None, s') => (None, s')
      | (Some e, s') => if retriable e then match n with O => (Some e, s') | S _ => retry n retriable fn s' end
                        else (Some e, s')
      end
  end.

#[local, refine] Instance example_retry : Retry := {| on_error T := retry |}.
Proof.
  - intros T n retriable fn s s' H. cbn. by rewrite H.
  - intros T n retriable fn s e s' H Hr. cbn. by rewrite H, Hr.
  - intros T retriable fn s e s' H. cbn. rewrite H. by destruct (retriable e).
Defined.

Lemma policies_never_collected_witness :
  NewGatewayAPIReconciler 2%nat =
    (Ret {| envoyExtensionPolicyCRDExists := false; envoyPatchPolicyCRDExists := false |}, 0%nat) /\
  res_EnvoyExtensionPolicies (class_resources {| envoyExtensionPolicyCRDExists := false;
    envoyPatchPolicyCRDExists := false |} (example_class "eg" GatewayClassController)) = [].
Proof.
  split; [by vm_compute|].
  refine (proj1 (proj2 (policies_never_collected 2%nat _ 0%nat _ _) (example_class "eg" GatewayClassController))).
  - intros [|w] kinds w'; cbn; intros H; [|done]. injection H as <- _. split; by apply (bool_decide_unpack _); vm_compute.
  - by vm_compute.
Defined.
