(* ===== verification/EgCache.v ===== *)
(** * EgCache: the xDS snapshots of the Envoy gateway

    pkg/envoygateway/xds/cache, xds/resource and xds/server: the versions of the
    snapshots ([newSnapshotVersion]), the table of translated resources, and the
    handler that turns an update of the xDS IR into a snapshot of its node.  The
    snapshot cache itself is go-control-plane's and a parameter, and so is the
    translation, which is a draft. *)

From S2P Require Import Prelude GoStd EgMessage.

Local Open Scope Z_scope.

(** ** Resources by type (xds/resource/resource.go) *)

Section Table.
Context {R : Type}.

(** [None] is the nil map. *)
Definition XdsResources : Type := option (gmap string (list R)).

Record ResourceVersionTable := { rvt_XdsResources : XdsResources }.

Definition GetXdsResources (t : ResourceVersionTable) : XdsResources := rvt_XdsResources t.

(** A nil resource is refused. *)
Definition AddXdsResource (rType : string) (xdsResource : option R) (t : ResourceVersionTable)
    : option string * ResourceVersionTable :=
  match xdsResource with
  | None => (Some "xds resource is nil"%string, t)
  | Some r =>
      let m := default ∅ (rvt_XdsResources t) in
      (None, {| rvt_XdsResources := Some (<[rType := default [] (m !! rType) ++ [r]]> m) |})
  end.

Lemma AddXdsResource_lookup rType r t ty :
  let t' := (AddXdsResource rType (Some r) t).2 in
  default [] (default ∅ (GetXdsResources t') !! ty) =
  default [] (default ∅ (GetXdsResources t) !! ty) ++ (if decide (ty = rType) then [r] else []).
Proof.
  cbn. unfold GetXdsResources. case_decide as Ht; [subst; by rewrite lookup_insert_eq|].
  by rewrite lookup_insert_ne, app_nil_r.
Qed.

End Table.
Arguments XdsResources R : clear implicits.

(** ** The cache (xds/cache/cache.go) *)

(** go-control-plane: a snapshot of resources under a version, and the cache
    that holds one per node. *)
Class SnapshotLib (R : Type) := {
  Snap : Type; Cache : Type;
  NewSnapshot : string -> XdsResources R -> string + Snap;
  EmptyCache : Cache;
  SetSnapshot : Cache -> string -> Snap -> option string * Cache
}.

Record SnapshotCache {R : Type} `{SnapshotLib R} := { snapshotVersion : Z; sc_cache : Cache }.

Section Cache.
Context {R : Type} {SL : SnapshotLib R}.

Definition NewSnapshotCache : SnapshotCache := {| snapshotVersion := 0; sc_cache := EmptyCache |}.

Definition newSnapshotVersion (c : SnapshotCache) : string * SnapshotCache :=
  let v := if bool_decide (snapshotVersion c = max_int64) then 0 else snapshotVersion c in
  let v := wrap_int64 (v + 1) in
  (itoa v, {| snapshotVersion := v; sc_cache := sc_cache c |}).

Definition SetSnapshotCache (node : string) (resources : XdsResources R) (c : SnapshotCache)
    : option string * SnapshotCache :=
  let '(version, c) := newSnapshotVersion c in
  match NewSnapshot version resources with
  | inl err => (Some err, c)
  | inr snapshot =>
      let '(err, cache) := SetSnapshot (sc_cache c) node snapshot in
      (err, {| snapshotVersion := snapshotVersion c; sc_cache := cache |})
  end.

(** The callbacks of the server are all unimplemented: they panic. *)
Inductive callback :=
| OnFetchRequest | OnFetchResponse | OnStreamOpen | OnStreamClosed | OnStreamRequest | OnStreamResponse
| OnDeltaStreamOpen | OnDeltaStreamClosed | OnStreamDeltaRequest | OnStreamDeltaResponse.

Definition run_callback (c : callback) : outcome string unit := Panic ExplicitPanic.

(** ** The subscriber (xds/server/xds_server.go) *)

Section Server.
Context {Xds : Type}.
(** The translator: an error, or the resources of the table. *)
Variable Translate : Xds -> string + ResourceVersionTable (R := R).

Definition handle_xds (c : SnapshotCache) (update : Update Xds) : SnapshotCache :=
  if u_Delete update then (SetSnapshotCache (u_Key update) None c).2
  else
    match Translate (u_Value update) with
    | inl _ => c
    | inr result =>
        match rvt_XdsResources result with
        | None => c
        | Some resources => (SetSnapshotCache (u_Key update) (Some resources) c).2
        end
    end.

Definition StartXdsServer `{MapIter} (subscription : list (Snapshot Xds)) : SnapshotCache :=
  HandleSubscription handle_xds subscription NewSnapshotCache.
End Server.

(** ** Versions *)

Definition set_all (calls : list (string * XdsResources R)) (c : SnapshotCache) : SnapshotCache :=
  foldl (fun c call => (SetSnapshotCache call.1 call.2 c).2) c calls.

(** The number of the version after [v], within its range. *)
Definition next_version (v : Z) : Z := if bool_decide (v = max_int64) then 1 else v + 1.

Lemma newSnapshotVersion_next c :
  0 <= snapshotVersion c <= max_int64 ->
  newSnapshotVersion c = (itoa (next_version (snapshotVersion c)),
    {| snapshotVersion := next_version (snapshotVersion c); sc_cache := sc_cache c |}) /\
  1 <= next_version (snapshotVersion c) <= max_int64.
Proof.
  intros Hv. unfold newSnapshotVersion, next_version, max_int64, wrap_int64 in *.
  case_bool_decide as H; split; try lia; cbn [snapshotVersion].
  - done.
  - assert ((snapshotVersion c + 1 + 2 ^ 63) mod 2 ^ 64 - 2 ^ 63 = snapshotVersion c + 1) as ->; [|done].
    rewrite Z.mod_small; lia.
Qed.

Lemma SetSnapshotCache_version node r c :
  0 <= snapshotVersion c <= max_int64 ->
  snapshotVersion (SetSnapshotCache node r c).2 = next_version (snapshotVersion c).
Proof.
  intros Hv. unfold SetSnapshotCache. destruct (newSnapshotVersion_next c Hv) as [-> _].
  destruct (NewSnapshot _ r); [done|]. cbn. by destruct (SetSnapshot _ _ _).
Qed.

Lemma next_version_mod v k :
  0 <= k -> (v = 0 /\ k = 0) \/ (0 < k /\ v = (k - 1) mod max_int64 + 1) -> next_version v = k mod max_int64 + 1.
Proof.
  intros Hk Hv. unfold next_version, max_int64 in *.
  assert (0 < 2 ^ 63 - 1) by lia. set (M := 2 ^ 63 - 1) in *. clearbody M.
  destruct Hv as [[-> ->]|[Hk' ->]].
  - rewrite bool_decide_eq_false_2 by lia. rewrite Z.mod_0_l by lia. lia.
  - pose proof (Z.mod_pos_bound (k - 1) M). pose proof (Z.mod_pos_bound k M).
    pose proof (Z.div_mod (k - 1) M). pose proof (Z.div_mod k M).
    case_bool_decide as He.
    + assert (k mod M = 0) as ->; [|lia]. apply Z.mod_divide; [lia|].
      exists ((k - 1) / M + 1). nia.
    + assert (k mod M = (k - 1) mod M + 1) as ->; [|lia].
      symmetry. apply (Z.mod_unique _ _ ((k - 1) / M)); [lia|]. nia.
Qed.

Lemma set_all_version calls c :
  0 <= snapshotVersion c <= max_int64 -> 0 <= snapshotVersion (set_all calls c) <= max_int64.
Proof.
  revert c. induction calls as [|[node r] calls IH]; intros c Hc; [done|]. apply (IH (SetSnapshotCache node r c).2).
  rewrite SetSnapshotCache_version by done. pose proof (newSnapshotVersion_next c Hc). lia.
Qed.

Lemma set_all_count calls :
  let v := snapshotVersion (set_all calls NewSnapshotCache) in
  let k := Z.of_nat (length calls) in
  (v = 0 /\ k = 0) \/ (0 < k /\ v = (k - 1) mod max_int64 + 1).
Proof.
  cbv zeta. induction calls as [|[node r] calls IH] using rev_ind; [by left|]. right.
  rewrite length_app. cbn [length]. split; [lia|]. unfold set_all in *. rewrite foldl_app. cbn [foldl fst snd].
  rewrite SetSnapshotCache_version.
  - rewrite (next_version_mod _ (Z.of_nat (length calls))) by (done || lia). do 2 f_equal. lia.
  - apply set_all_version. cbn. unfold max_int64. lia.
Qed.

(** C18: the versions of the snapshots.  Whatever snapshots were set before, and
    whether that succeeded, the next version is the decimal form of a positive
    number that fits in an int64, without any overflow: the number of calls, with
    a return to 1 after 2^63-1 of them; so the version reads back, and two
    snapshots have the same version only when a multiple of 2^63-1 calls lies
    between them. *)
Theorem snapshot_versions_bounded calls more :
  let c := set_all calls NewSnapshotCache in
  let c' := set_all more c in
  let version := Z.of_nat (length calls) mod max_int64 + 1 in
  (newSnapshotVersion c).1 = itoa version /\ snapshotVersion (newSnapshotVersion c).2 = version /\
  1 <= version <= max_int64 /\ atoi (itoa version) = (version, None) /\
  ((newSnapshotVersion c').1 = (newSnapshotVersion c).1 <->
   Z.of_nat (length more) mod max_int64 = 0).
Proof.
  cbv zeta.
  assert (forall calls, let v := Z.of_nat (length calls) mod max_int64 + 1 in
    newSnapshotVersion (set_all calls NewSnapshotCache) =
      (itoa v, {| snapshotVersion := v; sc_cache := sc_cache (set_all calls NewSnapshotCache) |}) /\
    1 <= v <= max_int64 /\ atoi (itoa v) = (v, None)) as H.
  { intros cs. cbv zeta. pose proof (set_all_count cs) as Hc. cbv zeta in Hc.
    apply next_version_mod in Hc; [|lia].
    destruct (newSnapshotVersion_next (set_all cs NewSnapshotCache)) as [Hn Hb].
    { apply set_all_version. cbn. unfold max_int64. lia. }
    rewrite Hc in Hn, Hb. revert Hn Hb. generalize (Z.of_nat (length cs) mod max_int64 + 1). intros v Hn Hb.
    split_and!; [done|lia..|]. apply parse_int_itoa; unfold max_int64 in Hb; lia. }
  pose proof (H calls) as (Hc & Hb & Hr). rewrite Hc. cbn [fst snd snapshotVersion]. split_and!; [done|done|apply Hb|apply Hb|done|].
  assert (set_all more (set_all calls NewSnapshotCache) = set_all (calls ++ more) NewSnapshotCache) as ->
    by (unfold set_all; by rewrite foldl_app).
  destruct (H (calls ++ more)) as (-> & Hb' & Hr'). cbn [fst]. rewrite length_app, Nat2Z.inj_add in *.
  split.
  - intros Heq. rewrite Heq, Hr in Hr'. injection Hr' as Hr'.
    apply Z.mod_divide; [unfold max_int64; lia|]. clear -Hr'. assert (0 < max_int64) by (unfold max_int64; lia).
    generalize dependent max_int64. intros M Hr HM. exists ((Z.of_nat (length calls) + Z.of_nat (length more)) / M - Z.of_nat (length calls) / M).
    pose proof (Z.div_mod (Z.of_nat (length calls)) M ltac:(lia)).
    pose proof (Z.div_mod (Z.of_nat (length calls) + Z.of_nat (length more)) M ltac:(lia)).
    rewrite Z.mul_sub_distr_r. lia.
  - intros Hm. rewrite Z.add_mod, Hm, Z.add_0_r, Z.mod_mod by (unfold max_int64; lia). done.
Qed.

End Cache.

(** ** The cache follows the IR

    What go-control-plane promises.  NewSnapshot keys the resources of each type
    by name and refuses, with an error, a map with a type it does not know; the
    cache holds the last snapshot set for a node, even when responding to its
    watches fails. *)
Class SnapshotLaws {R : Type} (SL : SnapshotLib R) := {
  known : string -> bool;
  resource_name : R -> string;
  snap_resources : Snap -> string -> gmap string R;
  contents : Cache -> gmap string Snap;
  NewSnapshot_known : forall v r, map_Forall (fun ty _ => known ty = true) (default ∅ r) ->
    exists s, NewSnapshot v r = inr s /\
      forall ty, snap_resources s ty =
        foldl (fun m x => <[resource_name x := x]> m) ∅ (default [] (default ∅ r !! ty));
  NewSnapshot_unknown : forall v r, ~ map_Forall (fun ty _ => known ty = true) (default ∅ r) ->
    exists e, NewSnapshot v r = inl e;
  EmptyCache_contents : contents EmptyCache = ∅;
  SetSnapshot_contents : forall c node s, contents (SetSnapshot c node s).2 = <[node := s]> (contents c)
}.

Section Follows.
Context {R : Type} {SL : SnapshotLib R} {LL : SnapshotLaws SL} {MI : MapIter} {Xds : Type}.
Variable Translate : Xds -> string + ResourceVersionTable (R := R).

(** A snapshot with the resources of a table, by type and name. *)
Definition holds (table : gmap string (list R)) (s : Snap) : Prop :=
  forall ty, snap_resources s ty =
    foldl (fun m x => <[resource_name x := x]> m) ∅ (default [] (table !! ty)).

Definition all_known (table : gmap string (list R)) : bool :=
  bool_decide (map_Forall (fun ty _ => known ty = true) table).

Lemma SetSnapshotCache_contents node r c :
  if all_known (default ∅ r)
  then exists s, contents (sc_cache (SetSnapshotCache node r c).2) = <[node := s]> (contents (sc_cache c)) /\
         holds (default ∅ r) s
  else exists e, (SetSnapshotCache node r c).1 = Some e /\
         contents (sc_cache (SetSnapshotCache node r c).2) = contents (sc_cache c).
Proof.
  unfold SetSnapshotCache. destruct (newSnapshotVersion c) as [version c'] eqn:Hv.
  assert (sc_cache c' = sc_cache c) as Hc by (unfold newSnapshotVersion in Hv; by injection Hv as _ <-).
  unfold all_known. case_bool_decide as Hk.
  - destruct (NewSnapshot_known version r Hk) as (s & -> & Hs). exists s. split; [|done].
    pose proof (SetSnapshot_contents (sc_cache c') node s) as H. rewrite Hc in *.
    by destruct (SetSnapshot _ node s).
  - destruct (NewSnapshot_unknown version r Hk) as (e & ->). exists e. cbn. by rewrite Hc.
Qed.

(** The resources an IR is served with: none when its translation fails, gives
    the nil map, or has a type that NewSnapshot refuses. *)
Definition served (x : Xds) : option (gmap string (list R)) :=
  match Translate x with
  | inl _ => None
  | inr result => table ← rvt_XdsResources result; if all_known table then Some table else None
  end.

(** The snapshot of a node. *)
Definition snapshot_of (c : SnapshotCache) (node : string) : option Snap := contents (sc_cache c) !! node.

Lemma handle_xds_spec c u node :
  if decide (node = u_Key u) then
    if u_Delete u then exists s, snapshot_of (handle_xds Translate c u) node = Some s /\ holds ∅ s
    else match served (u_Value u) with
         | Some table => exists s, snapshot_of (handle_xds Translate c u) node = Some s /\ holds table s
         | None => snapshot_of (handle_xds Translate c u) node = snapshot_of c node
         end
  else snapshot_of (handle_xds Translate c u) node = snapshot_of c node.
Proof.
  unfold handle_xds, snapshot_of, served.
  assert (forall r, if decide (node = u_Key u)
    then if all_known (default ∅ r)
         then exists s, contents (sc_cache (SetSnapshotCache (u_Key u) r c).2) !! node = Some s /\ holds (default ∅ r) s
         else contents (sc_cache (SetSnapshotCache (u_Key u) r c).2) !! node = contents (sc_cache c) !! node
    else contents (sc_cache (SetSnapshotCache (u_Key u) r c).2) !! node = contents (sc_cache c) !! node) as H.
  { intros r. pose proof (SetSnapshotCache_contents (u_Key u) r c) as H.
    destruct (all_known (default ∅ r)).
    - destruct H as (s & -> & Hs). case_decide as Hn.
      + subst node. rewrite lookup_insert_eq. by exists s.
      + by rewrite lookup_insert_ne.
    - destruct H as (e & _ & ->). by case_decide. }
  destruct (u_Delete u).
  - specialize (H None). change (default ∅ None) with (∅ : gmap string (list R)) in H. case_decide; [|done].
    by unfold all_known in H; rewrite bool_decide_eq_true_2 in H by apply map_Forall_empty.
  - destruct (Translate (u_Value u)) as [e|[[table|]]]; [by case_decide| |by case_decide].
    specialize (H (Some table)). change (default ∅ (Some table)) with table in H.
    cbn [rvt_XdsResources option_bind mbind]. case_decide; [|done]. by destruct (all_known table).
Qed.

(** The cache once updates are handled. *)
Definition handle_all (us : list (Update Xds)) : SnapshotCache := foldl (handle_xds Translate) NewSnapshotCache us.

Lemma handle_all_snoc us u : handle_all (us ++ [u]) = handle_xds Translate (handle_all us) u.
Proof. unfold handle_all. by rewrite foldl_app. Qed.

(** What a cache shows of a node that has the IR [x], after [us]: the resources
    of its translation if it is served, and what it showed before the last
    update of the node otherwise.  A node without IR has at most an empty
    snapshot. *)
Definition shows (us : list (Update Xds)) (node : string) (x : option Xds) : Prop :=
  match x with
  | None => forall s, snapshot_of (handle_all us) node = Some s -> holds ∅ s
  | Some x =>
      exists before u after, us = before ++ u :: after /\ u_Key u = node /\ u_Delete u = false /\ u_Value u = x /\
        Forall (fun u' => u_Key u' <> node) after /\
        match served x with
        | Some table => exists s, snapshot_of (handle_all us) node = Some s /\ holds table s
        | None => snapshot_of (handle_all us) node = snapshot_of (handle_all before) node
        end
  end.

Lemma handle_all_shows us node : shows us node (foldl apply_update ∅ us !! node).
Proof.
  induction us as [|u us IH] using rev_ind.
  { cbn [foldl]. rewrite lookup_empty. intros s. unfold snapshot_of. cbn.
    by rewrite EmptyCache_contents, lookup_empty. }
  rewrite foldl_app. cbn [foldl]. set (m := foldl apply_update ∅ us) in *.
  pose proof (handle_xds_spec (handle_all us) u node) as Hu. rewrite <- handle_all_snoc in Hu.
  unfold apply_update. destruct (decide (node = u_Key u)) as [->|Hne].
  - destruct (u_Delete u) eqn:Hd.
    + rewrite lookup_delete_eq. intros s Hs. destruct Hu as (s' & Hs' & Hh). congruence.
    + rewrite lookup_insert_eq. exists us, u, []. split_and!; [done..|by constructor|].
      by destruct (served (u_Value u)).
  - assert ((if u_Delete u then delete (u_Key u) m else <[u_Key u:=u_Value u]> m) !! node = m !! node) as ->.
    { destruct (u_Delete u); [by rewrite lookup_delete_ne|by rewrite lookup_insert_ne]. }
    destruct (m !! node) as [x|]; cbn [shows] in *; [|by rewrite Hu].
    destruct IH as (before & u0 & after & -> & H1 & H2 & H3 & H4 & H5).
    exists before, u0, (after ++ [u]). rewrite Hu. split_and!; try done.
    + by rewrite <- app_assoc.
    + apply Forall_app. split; [done|]. by repeat constructor.
Qed.

(** C19: the snapshots follow the intermediate representation.  For a subscription
    in which every snapshot's updates lead to its state, once all updates are
    handled, a node that is in the last IR has a snapshot with the resources of
    the translation of its IR, provided that this translation succeeds, gives a
    map, and has only resource types that go-control-plane knows; otherwise the
    refused IR is not seen, and the node has the snapshot, if any, that it had
    just before its last update.  A node no longer in the IR has at most an empty
    snapshot. *)
Theorem cache_follows_ir first rest node :
  follows (s_State first) rest ->
  StartXdsServer Translate (first :: rest) = handle_all (handled (first :: rest)) /\
  shows (handled (first :: rest)) node (last_state (first :: rest) !! node).
Proof.
  intros Hf. split; [done|]. rewrite <- (handled_replay first rest) by done. apply handle_all_shows.
Qed.

End Follows.

(** ** A cache to compute with *)

#[local] Instance map_cache : SnapshotLib string := {|
  Snap := string * gmap string (list string); Cache := gmap string (string * gmap string (list string));
  NewSnapshot v r :=
    if bool_decide (map_Forall (fun ty _ => ty <> "unknown"%string) (default ∅ r)) then inr (v, default ∅ r)
    else inl "unknown resource type"%string;
  EmptyCache := ∅;
  SetSnapshot c node s := (None, <[node := s]> c)
|}.

#[local, refine] Instance map_cache_laws : SnapshotLaws map_cache :=
  {| known ty := bool_decide (ty <> "unknown"%string); resource_name x := x;
     snap_resources s ty := foldl (fun m x => <[x := x]> m) ∅ (default [] (s.2 !! ty)); contents c := c |}.
Proof.
  - intros v r H. eexists. cbn. rewrite bool_decide_eq_true_2; [done|].
    intros ty l Hl. apply H in Hl. by apply bool_decide_eq_true in Hl.
  - intros v r H. eexists. cbn. rewrite bool_decide_eq_false_2; [done|].
    intros H'. apply H. intros ty l Hl. apply bool_decide_eq_true. by apply (H' ty l).
  - done.
  - done.
Defined.

Definition example_table (x : string) : gmap string (list string) := {["listener"%string := [x]]}.
Definition example_translate (x : string) : string + ResourceVersionTable (R := string) :=
  if bool_decide (x = "bad"%string) then inr {| rvt_XdsResources := Some {["unknown"%string := [x]]} |}
  else inr {| rvt_XdsResources := Some (example_table x) |}.
Definition example_first : Snapshot string := {| s_State := {["a" := "1"; "b" := "2"; "c" := "5"]}; s_Updates := [] |}.
Definition example_rest : list (Snapshot string) :=
  [{| s_State := {["a" := "3"; "c" := "bad"]};
      s_Updates := [{| u_Key := "b"; u_Delete := true; u_Value := "2" |};
                    {| u_Key := "a"; u_Delete := false; u_Value := "3" |};
                    {| u_Key := "c"; u_Delete := false; u_Value := "bad" |}] |}]%string.

(** One node is served, one was deleted, and the last IR of one was refused. *)
Lemma cache_follows_ir_witness :
  shows example_translate (handled (example_first :: example_rest)) "a" (Some "3"%string) /\
  shows example_translate (handled (example_first :: example_rest)) "b" None /\
  shows example_translate (handled (example_first :: example_rest)) "c" (Some "bad"%string) /\
  map (fun n => snd <$> snapshot_of (StartXdsServer example_translate (example_first :: example_rest)) n) ["a"; "b"; "c"]%string
    = [Some (example_table "3"); Some ∅; Some (example_table "5")].
Proof.
  assert (follows (s_State example_first) example_rest) as Hf by (split; [by vm_compute|done]).
  destruct (cache_follows_ir example_translate example_first example_rest "a" Hf) as [_ Ha].
  destruct (cache_follows_ir example_translate example_first example_rest "b" Hf) as [_ Hb].
  destruct (cache_follows_ir example_translate example_first example_rest "c" Hf) as [_ Hc].
  split; [exact Ha|]. split; [exact Hb|]. split; [exact Hc|]. vm_compute. reflexivity.
Defined.
