(* ===== verification/XdsExample.v ===== *)
(** * XdsExample: the example xDS server

    pkg/envoygateway/xds/examples/xdsserver/main.go: the listener, the route and
    the cluster it serves, the generator that publishes two snapshots of them,
    and what its node sees as the seconds pass.  protobuf's Any, the snapshots
    and the cache are go-control-plane's: [SnapshotLib] of EgCache and [Delivery]
    here, with what their documentation promises. *)

From S2P Require Import Prelude GoStd EgCache.

Local Open Scope Z_scope.

(** ** Messages, with the fields the program sets *)

Inductive Protocol := TCP | UDP.
Record Address := { addr_protocol : Protocol; addr_address : string; addr_port : Z }.

Section Messages.
Context {any ApiVersion : Type}.

(** An API config source of gRPC services, each the cluster it calls. *)
Record ConfigSource := {
  TransportApiVersion : ApiVersion;
  ClusterNames : list string;
  GrpcServices : list string;
  SetNodeOnFirstMessageOnly : bool;
  ResourceApiVersion : ApiVersion
}.

(** A filter, of HTTP or of the network. *)
Record Filter := { f_name : string; f_typed_config : any }.

(** Codec AUTO, with its routes from RDS. *)
Record HttpConnectionManager := {
  StatPrefix : string;
  rds_config_source : ConfigSource;
  rds_route_config_name : string;
  HttpFilters : list Filter
}.

Record Listener := { l_name : string; l_address : Address; FilterChains : list (list Filter) }.
End Messages.
Arguments ConfigSource : clear implicits.
Arguments Filter : clear implicits.
Arguments HttpConnectionManager : clear implicits.
Arguments Listener : clear implicits.

(** A route of a prefix to a cluster, with the host literal it sets. *)
Record Route := { r_prefix : string; r_cluster : string; HostRewriteLiteral : string }.
Record VirtualHost := { vh_name : string; Domains : list string; Routes : list Route }.
Record RouteConfiguration := { rc_name : string; VirtualHosts : list VirtualHost }.

Inductive DiscoveryType := STATIC | STRICT_DNS | LOGICAL_DNS | EDS.
Inductive LbPolicy := ROUND_ROBIN | LEAST_REQUEST.
Inductive DnsLookupFamily := AUTO | V4_ONLY | V6_ONLY.
Record Cluster := {
  c_name : string;
  ConnectTimeout : Z;
  c_type : DiscoveryType;
  c_lb : LbPolicy;
  c_family : DnsLookupFamily;
  la_cluster : string;
  la_endpoints : list (list Address)
}.

#[export] Instance ConfigSource_eq_dec {V : Type} `{EqDecision V} : EqDecision (ConfigSource V).
Proof. solve_decision. Defined.
#[export] Instance Filter_eq_dec {A : Type} `{EqDecision A} : EqDecision (Filter A).
Proof. solve_decision. Defined.
#[export] Instance HttpConnectionManager_eq_dec {A V : Type} `{EqDecision A, EqDecision V} :
  EqDecision (HttpConnectionManager A V).
Proof. solve_decision. Defined.

(** ** The libraries *)

(** anypb's New and its inverse, the resource types of go-control-plane. *)
Class XdsTypes := {
  any : Type;
  ApiVersion : Type;
  DefaultAPIVersion : ApiVersion;
  New_router : any;
  New_hcm : HttpConnectionManager any ApiVersion -> option any;
  hcm_of : any -> option (HttpConnectionManager any ApiVersion);
  hcm_of_New h a : New_hcm h = Some a -> hcm_of a = Some h;
  ListenerType : string;
  RouteType : string;
  ClusterType : string;
  EndpointType : string;
  types_distinct : NoDup [ListenerType; RouteType; ClusterType; EndpointType]
}.

Section Example.
Context {XT : XdsTypes}.

Inductive Resource :=
| RListener (l : Listener any)
| RRoute (r : RouteConfiguration)
| RCluster (c : Cluster)
| ROther (name : string).

(** ** The resources *)

Definition ClusterName : string := "dynamic_cluster_example1".
Definition UpstreamAddr1 : string := "180.101.49.44".
Definition UpstreamAddr2 : string := "106.63.15.112".

Definition configSource : ConfigSource ApiVersion :=
  {| TransportApiVersion := DefaultAPIVersion;
     ClusterNames := [];
     GrpcServices := ["xds_cluster"%string];
     SetNodeOnFirstMessageOnly := true;
     ResourceApiVersion := DefaultAPIVersion |}.

Definition httpConnectionManager : HttpConnectionManager any ApiVersion :=
  {| StatPrefix := "http";
     rds_config_source := configSource;
     rds_route_config_name := "local_route";
     HttpFilters := [{| f_name := "http-router"; f_typed_config := New_router |}] |}.

(** The error of the connection manager is a panic. *)
Definition makeListener : outcome Empty_set (Listener any) :=
  match New_hcm httpConnectionManager with
  | None => Panic ExplicitPanic
  | Some pbHttpConnectionManager =>
      Ret {| l_name := "listener_0";
             l_address := {| addr_protocol := TCP; addr_address := "0.0.0.0"; addr_port := 10000 |};
             FilterChains :=
               [[{| f_name := "http-connection-manager"; f_typed_config := pbHttpConnectionManager |}]] |}
  end.

Definition makeRoute (upstreamAddr : string) : RouteConfiguration :=
  {| rc_name := "local_route";
     VirtualHosts :=
       [{| vh_name := "local_service";
           Domains := ["*"%string];
           Routes := [{| r_prefix := "/"; r_cluster := ClusterName; HostRewriteLiteral := upstreamAddr |}] |}] |}.

Definition makeCluster (upstreamAddr : string) : Cluster :=
  {| c_name := ClusterName;
     ConnectTimeout := 5;
     c_type := LOGICAL_DNS;
     c_lb := ROUND_ROBIN;
     c_family := V4_ONLY;
     la_cluster := ClusterName;
     la_endpoints := [[{| addr_protocol := TCP; addr_address := upstreamAddr; addr_port := 80 |}]] |}.

(** The map that is given to NewSnapshot. *)
Definition resources (l : Listener any) (upstreamAddr : string) : gmap string (list Resource) :=
  <[ListenerType := [RListener l]]> (<[RouteType := [RRoute (makeRoute upstreamAddr)]]>
    {[ClusterType := [RCluster (makeCluster upstreamAddr)]]}).

(** ** What a set of resources refers to *)

(** The route configurations a listener's connection managers ask RDS for. *)
Definition rds_of (r : Resource) : list string :=
  match r with
  | RListener l => omap (fun f => option_map rds_route_config_name (hcm_of (f_typed_config f))) (concat (FilterChains l))
  | _ => []
  end.

(** An EDS cluster asks for the endpoints of its name. *)
Definition eds_of (r : Resource) : list string :=
  match r with RCluster c => match c_type c with EDS => [c_name c] | _ => [] end | _ => [] end.

Definition name_of (r : Resource) : string :=
  match r with RListener l => l_name l | RRoute r => rc_name r | RCluster c => c_name c | ROther n => n end.

Definition of_type (t : string) (m : gmap string (list Resource)) : list Resource := default [] (m !! t).

(** "Consistent check verifies that the dependent resources are exactly listed". *)
Definition closed (m : gmap string (list Resource)) : Prop :=
  map name_of (of_type RouteType m) = concat (map rds_of (of_type ListenerType m)) /\
  map name_of (of_type EndpointType m) = concat (map eds_of (of_type ClusterType m)).

Lemma type_ne t1 t2 : [t1; t2] `sublist_of` [ListenerType; RouteType; ClusterType; EndpointType] -> t1 <> t2.
Proof.
  intros Hs. pose proof (sublist_NoDup _ _ types_distinct Hs) as Hn.
  apply NoDup_cons in Hn as [Hn _]. intros ->. apply Hn. by left.
Qed.

Lemma of_type_resources l a :
  of_type ListenerType (resources l a) = [RListener l] /\
  of_type RouteType (resources l a) = [RRoute (makeRoute a)] /\
  of_type ClusterType (resources l a) = [RCluster (makeCluster a)] /\
  of_type EndpointType (resources l a) = [].
Proof.
  assert (ListenerType <> RouteType) by (apply type_ne; repeat constructor).
  assert (ListenerType <> ClusterType) by (apply type_ne; repeat constructor).
  assert (ListenerType <> EndpointType) by (apply type_ne; repeat constructor).
  assert (RouteType <> ClusterType) by (apply type_ne; repeat constructor).
  assert (RouteType <> EndpointType) by (apply type_ne; repeat constructor).
  assert (ClusterType <> EndpointType) by (apply type_ne; repeat constructor).
  unfold of_type, resources. split_and!.
  - by rewrite lookup_insert_eq.
  - by rewrite lookup_insert_ne, lookup_insert_eq by congruence.
  - by rewrite !lookup_insert_ne, lookup_singleton_eq by congruence.
  - by rewrite !lookup_insert_ne, lookup_singleton_ne by congruence.
Qed.

(** The listener asks for the very route configuration that is published, every
    request is routed to the published cluster, and that cluster is the address
    whose literal the route sets as host. *)
Lemma resources_closed l a : makeListener = Ret l ->
  closed (resources l a) /\
  rds_of (RListener l) = [rc_name (makeRoute a)] /\
  (forall vh r, vh ∈ VirtualHosts (makeRoute a) -> r ∈ Routes vh ->
    r_cluster r = c_name (makeCluster a) /\
    forall loc e, loc ∈ la_endpoints (makeCluster a) -> e ∈ loc -> addr_address e = HostRewriteLiteral r).
Proof.
  unfold makeListener. destruct (New_hcm _) as [pb|] eqn:Hpb; intros [= <-].
  assert (rds_of (RListener {| l_name := "listener_0";
      l_address := {| addr_protocol := TCP; addr_address := "0.0.0.0"; addr_port := 10000 |};
      FilterChains := [[{| f_name := "http-connection-manager"; f_typed_config := pb |}]] |}) =
    [rc_name (makeRoute a)]) as Hrds.
  { cbn. by rewrite (hcm_of_New _ _ Hpb). }
  split; [split|split; [done|]].
  - edestruct (of_type_resources) as (-> & -> & _). cbn [map concat]. by rewrite Hrds, app_nil_r.
  - edestruct (of_type_resources) as (_ & _ & -> & ->). done.
  - intros vh r ->%list_elem_of_singleton ->%list_elem_of_singleton. split; [done|].
    by intros loc e ->%list_elem_of_singleton ->%list_elem_of_singleton.
Qed.

(** ** The generator *)

Class Delivery (SL : SnapshotLib Resource) := {
  GetSnapshot : Cache -> string -> option Snap;
  ClearSnapshot : Cache -> string -> Cache;
  Consistent : Snap -> option string;
  snap_version : Snap -> string;
  snap_resources : Snap -> gmap string (list Resource);
  (** A snapshot of resources under known types. *)
  NewSnapshot_spec v m :
    (forall t, is_Some (m !! t) -> t ∈ [ListenerType; RouteType; ClusterType; EndpointType]) ->
    exists s, NewSnapshot v (Some m) = inr s /\ snap_version s = v /\ snap_resources s = m;
  Consistent_spec s : closed (snap_resources s) -> Consistent s = None;
  GetSnapshot_empty node : GetSnapshot EmptyCache node = None;
  GetSnapshot_set c node s node' :
    GetSnapshot (SetSnapshot c node s).2 node' = if decide (node' = node) then Some s else GetSnapshot c node';
  GetSnapshot_clear c node : GetSnapshot (ClearSnapshot c node) node = None
}.

Context {SL : SnapshotLib Resource} {DL : Delivery SL}.

(** One turn between the sleeps; [klog.Fatalf] ends the process. *)
Definition generate_turn (nodeID : string) (i : Z) (upstreamAddr : string) (cache : Cache) : outcome Empty_set Cache :=
  let version := itoa (i + 1) in
  let* l := makeListener in
  match NewSnapshot version (Some (resources l upstreamAddr)) with
  | inl _ => Panic FatalExit
  | inr snapshot =>
      match Consistent snapshot with
      | Some _ => Panic FatalExit
      | None =>
          match SetSnapshot cache nodeID snapshot with
          | (Some _, _) => Panic FatalExit
          | (None, cache) => Ret cache
          end
      end
  end.

(** The loop: the contents of the cache with the second they are set, and the
    second the loop ends. *)
Fixpoint generate (nodeID : string) (upstreamAddrs : list string) (i now : Z) (cache : Cache) :
    list (Z * Cache) * outcome Empty_set Z :=
  match upstreamAddrs with
  | [] => ([], Ret now)
  | upstreamAddr :: rest =>
      let now := now + 10 in
      match generate_turn nodeID i upstreamAddr cache with
      | Panic p => ([], Panic p)
      | Err e => match e with end
      | Ret cache =>
          let '(history, e) := generate nodeID rest (i + 1) (now + 60) cache in ((now, cache) :: history, e)
      end
  end.

Definition GenerateNewSnapshot (nodeID : string) (cache : Cache) : list (Z * Cache) * outcome Empty_set Z :=
  generate nodeID [UpstreamAddr1; UpstreamAddr2] 0 0 cache.

(** The cache at a second. *)
Fixpoint cache_at (history : list (Z * Cache)) (t : Z) (cache : Cache) : Cache :=
  match history with
  | [] => cache
  | (at_, cache') :: rest => if at_ <=? t then cache_at rest t cache' else cache
  end.

(** [main], stopped at a second: the snapshot of the node is cleared then. *)
Definition main_cache (nodeID : string) (stop t : Z) : Cache :=
  let history := (GenerateNewSnapshot nodeID EmptyCache).1 in
  if t <? stop then cache_at history t EmptyCache
  else ClearSnapshot (cache_at history stop EmptyCache) nodeID.

Lemma resources_types l a t :
  is_Some (resources l a !! t) -> t ∈ [ListenerType; RouteType; ClusterType; EndpointType].
Proof.
  unfold resources. rewrite !lookup_insert_is_Some.
  intros [->|[_ [->|[_ Hs]]]]; [set_solver..|].
  destruct (decide (t = ClusterType)) as [->|Hne]; [set_solver|].
  rewrite lookup_singleton_ne in Hs by done. by apply is_Some_None in Hs.
Qed.

(** A turn publishes its snapshot to the node and changes no other node. *)
Lemma generate_turn_publishes nodeID i a c l :
  makeListener = Ret l -> (forall c s, (SetSnapshot c nodeID s).1 = None) ->
  exists s c', generate_turn nodeID i a c = Ret c' /\ snap_version s = itoa (i + 1) /\
    snap_resources s = resources l a /\
    forall node, GetSnapshot c' node = if decide (node = nodeID) then Some s else GetSnapshot c node.
Proof.
  intros Hl Hset. destruct (NewSnapshot_spec (itoa (i + 1)) _ (resources_types l a)) as (s & Hs & Hv & Hr).
  exists s, (SetSnapshot c nodeID s).2. unfold generate_turn. rewrite Hl. cbn. rewrite Hs, Consistent_spec.
  - specialize (Hset c s). pose proof (GetSnapshot_set c nodeID s) as Hget.
    destruct (SetSnapshot c nodeID s) as [err c']. cbn in *. subst. auto.
  - rewrite Hr. by apply resources_closed.
Qed.

(** What the node sees: nothing for ten seconds, then version 1 with the first
    address, from the eightieth second version 2 with the second, and nothing
    once the server is stopped; other nodes see nothing ever. *)
Theorem example_serves (nodeID : string) (stop t : Z) l
    (Hl : makeListener = Ret l) (Hset : forall c s, (SetSnapshot c nodeID s).1 = None) :
  (GenerateNewSnapshot nodeID EmptyCache).2 = Ret 140 /\
  option_map (fun s => (snap_version s, snap_resources s)) (GetSnapshot (main_cache nodeID stop t) nodeID) =
    (if (t <? 10) || (stop <=? t) then None
     else if t <? 80 then Some ("1"%string, resources l UpstreamAddr1)
     else Some ("2"%string, resources l UpstreamAddr2)) /\
  forall node, node <> nodeID -> t < stop -> GetSnapshot (main_cache nodeID stop t) node = None.
Proof.
  unfold main_cache, GenerateNewSnapshot. cbn [generate].
  destruct (generate_turn_publishes nodeID 0 UpstreamAddr1 EmptyCache l Hl Hset) as (s1 & c1 & -> & V1 & R1 & G1).
  destruct (generate_turn_publishes nodeID (0 + 1) UpstreamAddr2 c1 l Hl Hset) as (s2 & c2 & -> & V2 & R2 & G2).
  cbn [fst snd cache_at]. split; [done|]. split.
  - destruct (Z.ltb_spec t stop), (Z.leb_spec stop t); try lia.
    2: { by rewrite GetSnapshot_clear, orb_true_r. }
    rewrite orb_false_r. replace (0 + 10) with 10 by lia. replace (10 + 60 + 10) with 80 by lia.
    destruct (Z.leb_spec 10 t), (Z.ltb_spec t 10); try lia; [|by rewrite GetSnapshot_empty].
    destruct (Z.leb_spec 80 t), (Z.ltb_spec t 80); try lia.
    + rewrite G2, decide_True by done. cbn. by rewrite V2, R2.
    + rewrite G1, decide_True by done. cbn. by rewrite V1, R1.
  - intros node Hne Ht. rewrite (proj2 (Z.ltb_lt t stop) Ht).
    destruct (_ <=? t); [destruct (_ <=? t)|]; rewrite ?G2, ?decide_False, ?G1, ?decide_False by done;
      apply GetSnapshot_empty.
Qed.

End Example.

(** A cache in which it holds. *)

Definition the_hcm : HttpConnectionManager string unit :=
  {| StatPrefix := "http";
     rds_config_source :=
       {| TransportApiVersion := tt; ClusterNames := []; GrpcServices := ["xds_cluster"%string];
          SetNodeOnFirstMessageOnly := true; ResourceApiVersion := tt |};
     rds_route_config_name := "local_route";
     HttpFilters := [{| f_name := "http-router"; f_typed_config := "router"%string |}] |}.

Definition types : XdsTypes.
Proof.
  refine {| any := string; ApiVersion := unit; DefaultAPIVersion := tt; New_router := "router"%string;
            New_hcm h := if decide (h = the_hcm) then Some "hcm"%string else None;
            hcm_of a := if decide (a = "hcm"%string) then Some the_hcm else None;
            ListenerType := "lds"; RouteType := "rds"; ClusterType := "cds"; EndpointType := "eds" |}%string.
  - intros h a. case_decide; [|done]. by intros [= <-]; subst.
  - by apply (bool_decide_unpack _).
Defined.

Definition snapshots : SnapshotLib (Resource (XT := types)) := {|
  Snap := string * gmap string (list (Resource (XT := types)));
  Cache := gmap string (string * gmap string (list (Resource (XT := types))));
  NewSnapshot v m := inr (v, default ∅ m);
  EmptyCache := ∅;
  SetSnapshot c node s := (None, <[node := s]> c)
|}.

#[export] Instance closed_dec {XT : XdsTypes} m : Decision (closed (XT := XT) m).
Proof. unfold closed. apply _. Defined.

Definition delivery : Delivery (XT := types) snapshots.
Proof.
  refine {| GetSnapshot (c : Cache (SnapshotLib := snapshots)) node := c !! node;
            ClearSnapshot (c : Cache (SnapshotLib := snapshots)) node := delete node c;
            Consistent (s : Snap (SnapshotLib := snapshots)) :=
              if decide (closed (XT := types) s.2) then None else Some "inconsistent"%string;
            snap_version s := s.1; snap_resources s := s.2 |}.
  - intros v m _. by exists (v, m).
  - intros s Hs. by rewrite decide_True.
  - done.
  - intros c node s node'. cbn. destruct (decide (node' = node)) as [->|Hne].
    + exact (lookup_insert_eq (M := gmap string) c node s).
    + exact (lookup_insert_ne (M := gmap string) c node node' s (not_eq_sym Hne)).
  - intros c node. exact (lookup_delete_eq (M := gmap string) c node).
Defined.

(** At the fifteenth second of a server that is stopped at the hundredth. *)
Lemma example_serves_witness :
  exists l : Listener (any (XdsTypes := types)),
    option_map (fun s => (snap_version (Delivery := delivery) s, snap_resources (Delivery := delivery) s))
      (GetSnapshot (Delivery := delivery) (main_cache (DL := delivery) "test-id" 100 15) "test-id") =
    Some ("1"%string, resources l UpstreamAddr1).
Proof.
  eexists. refine (proj1 (proj2 (example_serves (DL := delivery) "test-id" 100 15 _ _ _))).
  - reflexivity.
  - reflexivity.
Defined.
