(* ===== verification/EgTranslate.v ===== *)
(** * EgTranslate: from the Gateway API resources to the intermediate representations

    pkg/envoygateway/gatewayapi and pkg/envoygateway/ir: the translator that
    subscribes to the provider's view, builds for every gateway the IR of its
    infrastructure and of its xDS, adds the patches of the EnvoyPatchPolicies and
    publishes both.  Parameters: [NewXds], whose body is empty, and
    [ProcessEnvoyExtensionPolicies], which is called without its arguments and
    returns nothing. *)

From S2P Require Import Prelude GoStd K8s EgMessage EgProvider EgProviderSpec.

Local Open Scope Z_scope.

(** ** The intermediate representations (ir/) *)

Record ResourceMetadata := { rm_Kind : string; rm_Name : string; rm_Namespace : string }.
Record InfraMetadata := {
  im_Labels : gmap string string; im_Annotations : gmap string string; im_OwnerReferences : option ResourceMetadata
}.
Record ProxyInfra := {
  pi_Name : string; pi_Namespace : string; pi_Metadata : option InfraMetadata; pi_EnvoyProxy : option string
}.
Record Infra := { Proxy : option ProxyInfra }.

Definition NewInfraMetadata : InfraMetadata := {| im_Labels := ∅; im_Annotations := ∅; im_OwnerReferences := None |}.
Definition NewProxyInfra : ProxyInfra :=
  {| pi_Name := "default"; pi_Namespace := ""; pi_Metadata := Some NewInfraMetadata; pi_EnvoyProxy := None |}.
Definition NewInfra : Infra := {| Proxy := Some NewProxyInfra |}.

(** The zero EnvoyProxy is created on first use; [zero] stands for it. *)
Definition GetEnvoyProxy (zero : string) (p : ProxyInfra) : string * ProxyInfra :=
  let e := default zero (pi_EnvoyProxy p) in
  (e, {| pi_Name := pi_Name p; pi_Namespace := pi_Namespace p; pi_Metadata := pi_Metadata p; pi_EnvoyProxy := Some e |}).

Record JSONPatchConfig := { jpc_Type : string; jpc_Name : string; jpc_Operation : JSONPatchOperation }.

(** With the fields the translator assigns. *)
Record IrPatchPolicy := {
  ipp_Name : string; ipp_Namespace : string; ipp_Generation : Z; ipp_Status : string;
  ipp_JSONPatches : list JSONPatchConfig
}.

Record Xds := { xds_HTTP : list string; xds_EnvoyPatchPolicies : list IrPatchPolicy }.

(** ** Gateways *)

Definition OwningGatewayNamespaceLabel : string := "gateway.envoyproxy.io/owning-gateway-namespace".
Definition OwningGatewayNameLabel : string := "gateway.envoyproxy.io/owning-gateway-name".

Definition GatewayNotAccepted (gw : Gateway) : bool :=
  existsb (fun c => bool_decide (c_Type c = "Accepted"%string) && bool_decide (c_Status c = "False"%string))
    (gw_Conditions gw).

(** The accepted and the failed gateways. *)
Definition GetRelevantGateways (resources : GatewayAPIResource) : list Gateway * list Gateway :=
  foldl (fun '(acceptedGateways, failedGateways) gateway =>
    if GatewayNotAccepted gateway then (acceptedGateways, failedGateways ++ [gateway])
    else (acceptedGateways ++ [gateway], failedGateways)) ([], []) (res_Gateways resources).

Definition owning_labels (gateway : Gateway) : gmap string string :=
  {[OwningGatewayNamespaceLabel := gw_Namespace gateway; OwningGatewayNameLabel := gw_Name gateway]}.

Definition ProcessHTTPRoutes (resources : GatewayAPIResource) : list HTTPRoute := res_HTTPRoutes resources.

Definition to_ir_patch (patch : EnvoyJSONPatchConfig) : JSONPatchConfig :=
  {| jpc_Type := jp_Type patch; jpc_Name := jp_Name patch; jpc_Operation := jp_Operation patch |}.

Definition to_ir_policy (p : EnvoyPatchPolicy) : IrPatchPolicy :=
  {| ipp_Name := epp_Name p; ipp_Namespace := epp_Namespace p; ipp_Generation := epp_Generation p;
     ipp_Status := epp_Status p; ipp_JSONPatches := map to_ir_patch (epp_JSONPatches p) |}.

(** The gateway a policy targets, in the policy's namespace. *)
Definition policy_key (p : EnvoyPatchPolicy) : string := namespaced (epp_Namespace p) (tr_Name (epp_TargetRef p)).

Definition append_policy (p : EnvoyPatchPolicy) (x : Xds) : Xds :=
  {| xds_HTTP := xds_HTTP x; xds_EnvoyPatchPolicies := xds_EnvoyPatchPolicies x ++ [to_ir_policy p] |}.

(** Every gateway has an IR of its own, so an update through its pointer is an
    update of its entry. *)
Definition ProcessEnvoyPatchPolicies (policies : list EnvoyPatchPolicy) (xdsIR : gmap string Xds) : gmap string Xds :=
  foldl (fun xdsIR p =>
    match xdsIR !! policy_key p with
    | None => xdsIR
    | Some gwXdsIR => <[policy_key p := append_policy p gwXdsIR]> xdsIR
    end) xdsIR policies.

Section Translate.
Variable NewXds : Xds.
Variable ProcessEnvoyExtensionPolicies : list EnvoyExtensionPolicy.

(** The owning labels replace labels of the gateway of the same name. *)
Definition proxy_of (gateway : Gateway) (proxy : ProxyInfra) : ProxyInfra :=
  {| pi_Name := namespaced (gw_Namespace gateway) (gw_Name gateway); pi_Namespace := "";
     pi_Metadata := option_map (fun md =>
       {| im_Labels := owning_labels gateway ∪ default ∅ (gw_Infrastructure gateway);
          im_Annotations := im_Annotations md; im_OwnerReferences := im_OwnerReferences md |}) (pi_Metadata proxy);
     pi_EnvoyProxy := pi_EnvoyProxy proxy |}.

Definition buildIR (gateway : Gateway) : string * Xds * Infra :=
  (namespaced (gw_Namespace gateway) (gw_Name gateway), NewXds,
   {| Proxy := option_map (proxy_of gateway) (Proxy NewInfra) |}).

Definition init_ir (st : gmap string Xds * gmap string Infra) (gateway : Gateway) : gmap string Xds * gmap string Infra :=
  let '(irKey, gwXdsIR, gwInfraIR) := buildIR gateway in
  (<[irKey := gwXdsIR]> st.1, <[irKey := gwInfraIR]> st.2).

Definition InitIRs (acceptedGateways failedGateways : list Gateway) : gmap string Xds * gmap string Infra :=
  foldl init_ir (foldl init_ir (∅, ∅) acceptedGateways) failedGateways.

Record TranslateResult := {
  tr_Gateways : list Gateway; tr_HTTPRoutes : list HTTPRoute;
  tr_EnvoyExtensionPolicies : list EnvoyExtensionPolicy;
  XdsIR : gmap string Xds; InfraIR : gmap string Infra
}.

Definition NewTranslateResult (gateways : list Gateway) (httpRoutes : list HTTPRoute)
    (policies : list EnvoyExtensionPolicy) (xdsIR : gmap string Xds) (infraIR : gmap string Infra) : TranslateResult :=
  {| tr_Gateways := gateways; tr_HTTPRoutes := httpRoutes; tr_EnvoyExtensionPolicies := policies;
     XdsIR := xdsIR; InfraIR := infraIR |}.

Definition Translate (res : GatewayAPIResource) : TranslateResult :=
  let '(acceptedGateways, failedGateways) := GetRelevantGateways res in
  let '(xdsIR, infraIR) := InitIRs acceptedGateways failedGateways in
  let httpRoutes := ProcessHTTPRoutes res in
  let allGateways := acceptedGateways ++ failedGateways in
  let xdsIR := ProcessEnvoyPatchPolicies (res_EnvoyPatchPolicies res) xdsIR in
  NewTranslateResult allGateways httpRoutes ProcessEnvoyExtensionPolicies xdsIR infraIR.

(** ** The subscriber *)

(** The maps the translator publishes to. *)
Record published := { pub_InfraIR : gmap string Infra; pub_XdsIR : gmap string Xds }.

Section Subscriber.
Context {MI : MapIter}.

Definition store_all {V} (m : gmap string V) (l : list (string * V)) : gmap string V :=
  foldl (fun m kv => <[kv.1 := kv.2]> m) m l.

Definition publish_result (p : published) (res : GatewayAPIResource) : published :=
  let result := Translate res in
  {| pub_InfraIR := store_all (pub_InfraIR p) (map_range ["infra"] (InfraIR result));
     pub_XdsIR := store_all (pub_XdsIR p) (map_range ["xds"] (XdsIR result)) |}.

(** [*update.Value], whether the update deletes or not. *)
Definition handle_resources (p : published) (update : Update (option (list GatewayAPIResource))) : outcome string published :=
  match u_Value update with
  | None => Panic NilDereference
  | Some resources => Ret (foldl publish_result p resources)
  end.
End Subscriber.
End Translate.

(** ** Gateways and their entries *)

Lemma relevant_gateways res :
  GetRelevantGateways res =
  (filter (fun g => GatewayNotAccepted g = false) (res_Gateways res),
   filter (fun g => GatewayNotAccepted g = true) (res_Gateways res)).
Proof.
  unfold GetRelevantGateways.
  assert (forall l a f, foldl (fun '(a, f) g => if GatewayNotAccepted g then (a, f ++ [g]) else (a ++ [g], f)) (a, f) l =
    (a ++ filter (fun g => GatewayNotAccepted g = false) l, f ++ filter (fun g => GatewayNotAccepted g = true) l)) as H;
    [|by rewrite H].
  induction l as [|g l IH]; intros a f; [by rewrite !app_nil_r|]. cbn [foldl]. rewrite !filter_cons.
  destruct (GatewayNotAccepted g) eqn:Hg; rewrite IH.
  - by rewrite decide_False, decide_True, <- app_assoc by done.
  - by rewrite decide_True, decide_False, <- app_assoc by done.
Qed.

Definition all_relevant (res : GatewayAPIResource) : list Gateway :=
  (GetRelevantGateways res).1 ++ (GetRelevantGateways res).2.

Lemma all_relevant_perm res : all_relevant res ≡ₚ res_Gateways res.
Proof.
  unfold all_relevant. rewrite relevant_gateways. cbn [fst snd].
  induction (res_Gateways res) as [|g l IH]; [done|]. rewrite !filter_cons. destruct (GatewayNotAccepted g).
  - rewrite decide_False, decide_True by done. by rewrite <- Permutation_middle, IH.
  - rewrite decide_True, decide_False by done. cbn. by rewrite IH.
Qed.

Section Facts.
Variable NewXds : Xds.
Variable ProcessEnvoyExtensionPolicies : list EnvoyExtensionPolicy.
Context {MI : MapIter}.

Lemma init_ir_lookup l st k :
  (k ∉ gw_key <$> l -> (foldl (init_ir NewXds) st l).1 !! k = st.1 !! k /\ (foldl (init_ir NewXds) st l).2 !! k = st.2 !! k).
Proof.
  revert st. induction l as [|g l IH]; intros st; [done|]. rewrite fmap_cons. intros [Hk Hl]%not_elem_of_cons.
  cbn [foldl]. destruct (IH (init_ir NewXds st g) Hl) as [-> ->]. unfold init_ir, buildIR. cbn [fst snd].
  by rewrite !lookup_insert_ne.
Qed.

Lemma init_ir_gateway l st g :
  NoDup (gw_key <$> l) -> g ∈ l ->
  (foldl (init_ir NewXds) st l).1 !! gw_key g = Some NewXds /\
  (foldl (init_ir NewXds) st l).2 !! gw_key g = Some (buildIR NewXds g).2.
Proof.
  revert st. induction l as [|g' l IH]; intros st Hd; [by intros ?%not_elem_of_nil|].
  rewrite fmap_cons in Hd. apply NoDup_cons in Hd as [Hg Hd]. intros [->|Hin]%elem_of_cons; [|by apply IH].
  cbn [foldl]. destruct (init_ir_lookup l (init_ir NewXds st g') (gw_key g') Hg) as [-> ->].
  unfold init_ir, buildIR. cbn [fst snd]. by rewrite !lookup_insert_eq.
Qed.

Lemma patch_policies_lookup policies m k :
  ProcessEnvoyPatchPolicies policies m !! k =
  (fun x => {| xds_HTTP := xds_HTTP x;
               xds_EnvoyPatchPolicies := xds_EnvoyPatchPolicies x ++
                 map to_ir_policy (filter (fun p => policy_key p = k) policies) |}) <$> m !! k.
Proof.
  unfold ProcessEnvoyPatchPolicies. revert m. induction policies as [|p policies IH]; intros m.
  { cbn. destruct (m !! k) as [[h ps]|]; [|done]. cbn. by rewrite app_nil_r. }
  cbn [foldl]. rewrite IH. clear IH. rewrite filter_cons. case_decide as Hk.
  - subst k. destruct (m !! policy_key p) as [[h ps]|] eqn:Hm; [|by rewrite Hm].
    rewrite lookup_insert_eq. cbn. by rewrite <- app_assoc.
  - destruct (m !! policy_key p) as [x|] eqn:Hm; [by rewrite lookup_insert_ne|done].
Qed.

Lemma store_all_union {V} tag (m m0 : gmap string V) : store_all m0 (map_range tag m) = m ∪ m0.
Proof.
  rewrite <- (apply_state tag m m0). unfold store_all. generalize (map_range tag m). intros l. revert m0.
  induction l as [|kv l IH]; intros m0; [done|]. apply IH.
Qed.

(** What is published for a gateway and the patch policies of its resources. *)
Definition xds_with (policies : list EnvoyPatchPolicy) (g : Gateway) : Xds :=
  {| xds_HTTP := xds_HTTP NewXds;
     xds_EnvoyPatchPolicies := xds_EnvoyPatchPolicies NewXds ++
       map to_ir_policy (filter (fun p => policy_key p = gw_key g) policies) |}.

Definition published_for (p : published) (policies : list EnvoyPatchPolicy) (g : Gateway) : Prop :=
  pub_InfraIR p !! gw_key g = Some (buildIR NewXds g).2 /\ pub_XdsIR p !! gw_key g = Some (xds_with policies g).

Lemma translate_lookup res g :
  NoDup (gw_key <$> res_Gateways res) -> g ∈ res_Gateways res ->
  InfraIR (Translate NewXds ProcessEnvoyExtensionPolicies res) !! gw_key g = Some (buildIR NewXds g).2 /\
  XdsIR (Translate NewXds ProcessEnvoyExtensionPolicies res) !! gw_key g = Some (xds_with (res_EnvoyPatchPolicies res) g).
Proof.
  intros Hd Hg. pose proof (all_relevant_perm res) as Hp. unfold Translate. unfold all_relevant in Hp.
  destruct (GetRelevantGateways res) as [a f]. cbn [fst snd] in Hp. unfold InitIRs. rewrite <- foldl_app.
  destruct (init_ir_gateway (a ++ f) (∅, ∅) g) as [H1 H2]; [by rewrite Hp|by rewrite Hp|].
  destruct (foldl _ (∅, ∅) (a ++ f)) as [xdsIR infraIR]. cbn in *. split; [done|].
  by rewrite patch_policies_lookup, H1.
Qed.

Lemma translate_lookup_ne res k :
  k ∉ gw_key <$> res_Gateways res ->
  InfraIR (Translate NewXds ProcessEnvoyExtensionPolicies res) !! k = None /\
  XdsIR (Translate NewXds ProcessEnvoyExtensionPolicies res) !! k = None.
Proof.
  intros Hk. pose proof (all_relevant_perm res) as Hp. unfold Translate. unfold all_relevant in Hp.
  destruct (GetRelevantGateways res) as [a f]. cbn [fst snd] in Hp. unfold InitIRs. rewrite <- foldl_app.
  destruct (init_ir_lookup (a ++ f) (∅, ∅) k) as [H1 H2]; [by rewrite Hp|].
  destruct (foldl _ (∅, ∅) (a ++ f)) as [xdsIR infraIR]. cbn in *. split; [done|].
  by rewrite patch_policies_lookup, H1.
Qed.

Lemma publish_result_lookup p res g :
  NoDup (gw_key <$> res_Gateways res) -> g ∈ res_Gateways res ->
  published_for (publish_result NewXds ProcessEnvoyExtensionPolicies p res) (res_EnvoyPatchPolicies res) g.
Proof.
  intros Hd Hg. destruct (translate_lookup res g Hd Hg) as [H1 H2]. unfold published_for, publish_result.
  cbn [pub_InfraIR pub_XdsIR]. rewrite !store_all_union. split; by apply lookup_union_Some_l.
Qed.

Lemma publish_result_lookup_ne p res k :
  k ∉ gw_key <$> res_Gateways res ->
  let p' := publish_result NewXds ProcessEnvoyExtensionPolicies p res in
  pub_InfraIR p' !! k = pub_InfraIR p !! k /\ pub_XdsIR p' !! k = pub_XdsIR p !! k.
Proof.
  intros Hk. destruct (translate_lookup_ne res k Hk) as [H1 H2]. unfold publish_result.
  cbn [pub_InfraIR pub_XdsIR]. rewrite !store_all_union. split; by apply lookup_union_r.
Qed.

(** Handling a list of resources: each gateway has its entries, every other entry
    is what it was. *)
Lemma publish_all resources p :
  NoDup (gw_key <$> concat (map res_Gateways resources)) ->
  let p' := foldl (publish_result NewXds ProcessEnvoyExtensionPolicies) p resources in
  (forall res g, res ∈ resources -> g ∈ res_Gateways res -> published_for p' (res_EnvoyPatchPolicies res) g) /\
  (forall k, k ∉ gw_key <$> concat (map res_Gateways resources) ->
     pub_InfraIR p' !! k = pub_InfraIR p !! k /\ pub_XdsIR p' !! k = pub_XdsIR p !! k).
Proof.
  cbv zeta. revert p. induction resources as [|res resources IH]; intros p Hd.
  { split; [by intros ?? ?%not_elem_of_nil|done]. }
  cbn [map concat foldl] in *. rewrite fmap_app in *. apply NoDup_app in Hd as (Hd1 & Hdis & Hd2).
  destruct (IH (publish_result NewXds ProcessEnvoyExtensionPolicies p res) Hd2) as [H1 H2]. split.
  - intros r g [->|Hr]%elem_of_cons Hg; [|by apply H1].
    destruct (publish_result_lookup p res g Hd1 Hg) as [P1 P2]. unfold published_for.
    destruct (H2 (gw_key g)) as [-> ->]; [|done]. apply Hdis. by apply list_elem_of_fmap_2.
  - intros k [Hk1 Hk2]%not_elem_of_app. destruct (H2 k Hk2) as [-> ->]. by apply publish_result_lookup_ne.
Qed.

End Facts.

(** ** From the cluster to the representations *)

Section Pipeline.
Variable NewXds : Xds.
Variable ProcessEnvoyExtensionPolicies : list EnvoyExtensionPolicy.
Context {MI : MapIter} {NM : GatewayNames} {GR : GatewayReads} {IX : IndexedReads}.

Lemma class_gateways_unique r classes :
  NoDup (gc_Name <$> classes) -> NoDup (gw_key <$> concat (map res_Gateways (map (class_resources r) classes))).
Proof.
  induction classes as [|c classes IH]; [constructor|]. rewrite fmap_cons. intros [Hc Hd]%NoDup_cons.
  cbn [map concat]. rewrite fmap_app. apply NoDup_app. split_and!; [| |by apply IH].
  - destruct (class_view r c) as (_ & -> & _). apply nodup_filter_keys, gateways_unique.
  - destruct (class_view r c) as (_ & -> & _).
    intros k (g & -> & [Hg1 Hg2]%list_elem_of_filter)%list_elem_of_fmap (g' & Hk & Hg')%list_elem_of_fmap.
    apply list_elem_of_In, in_concat in Hg' as (gs & Hgs & Hin). rewrite map_map in Hgs.
    apply in_map_iff in Hgs as (c' & <- & Hc'). destruct (class_view r c') as (_ & Hv & _). rewrite Hv in Hin.
    apply list_elem_of_In, list_elem_of_filter in Hin as [Hn Ha].
    assert (g' = g) as -> by (apply (key_inj gw_key all_gateways); [apply gateways_unique|done..]).
    apply Hc. rewrite <- Hg1, Hn. apply list_elem_of_fmap_2, list_elem_of_In, Hc'.
Qed.

(** C13: from the cluster to the published representations.  When the view of the
    provider reaches the translator, every gateway of an accepted class has an
    infrastructure IR and an xDS IR under its namespaced name, rejected gateways
    too: the infrastructure carries the labels of the gateway with the owning
    labels over them, the xDS the patches of exactly the collected policies that
    target the gateway, in order, although a comment in the code says that the
    policies of a gateway that is not accepted are skipped.  No entry of any other name changes, so a
    gateway that is gone keeps both. *)
Theorem gateways_get_irs r classes m p :
  list_classes = (None, classes) -> NoDup (gc_Name <$> classes) ->
  let accepted := filter (fun c => accepted_class c = true) classes in
  let policies := if envoyPatchPolicyCRDExists r then list_patch_policies.2 else [] in
  accepted <> [] ->
  exists view p',
    (Reconcile r m).2 !! GatewayClassController = Some view /\
    handle_resources NewXds ProcessEnvoyExtensionPolicies p
      {| u_Key := GatewayClassController; u_Delete := false; u_Value := Some view |} = Ret p' /\
    (forall g class, g ∈ all_gateways -> class ∈ accepted -> gw_GatewayClassName g = gc_Name class ->
       pub_XdsIR p' !! gw_key g = Some (xds_with NewXds policies g) /\
       exists proxy md, pub_InfraIR p' !! gw_key g = Some {| Proxy := Some proxy |} /\
         pi_Name proxy = gw_key g /\ pi_Metadata proxy = Some md /\
         forall k, im_Labels md !! k =
           (if decide (k = OwningGatewayNamespaceLabel) then Some (gw_Namespace g)
            else if decide (k = OwningGatewayNameLabel) then Some (gw_Name g)
            else default ∅ (gw_Infrastructure g) !! k)) /\
    (forall k, (forall g class, g ∈ all_gateways -> class ∈ accepted -> gw_GatewayClassName g = gc_Name class ->
                  gw_key g <> k) ->
       pub_InfraIR p' !! k = pub_InfraIR p !! k /\ pub_XdsIR p' !! k = pub_XdsIR p !! k).
Proof.
  intros Hc Hd accepted policies Ha. exists (map (class_resources r) accepted).
  eexists. split; [|split; [done|]].
  { unfold Reconcile, ListGatewayClass. rewrite Hc. fold accepted. destruct accepted; [done|].
    cbn [kdo snd]. by rewrite lookup_insert_eq. }
  assert (NoDup (gc_Name <$> accepted)) as Hda by by apply nodup_filter_keys.
  destruct (publish_all NewXds ProcessEnvoyExtensionPolicies _ p (class_gateways_unique r accepted Hda)) as [H1 H2].
  split.
  - intros g class Hg Hcl Hn. destruct (class_view r class) as (_ & Hv & _ & _ & _ & Hp).
    destruct (H1 (class_resources r class) g) as [P1 P2].
    { by apply list_elem_of_fmap_2. }
    { rewrite Hv. by apply list_elem_of_filter. }
    rewrite Hp in P2. split; [done|]. eexists _, _. split_and!; [exact P1|done|done|].
    intros k. cbn [im_Labels]. unfold owning_labels.
    destruct (decide (k = OwningGatewayNamespaceLabel)) as [->|Hk1].
    { apply lookup_union_Some_l. by rewrite lookup_insert_eq. }
    destruct (decide (k = OwningGatewayNameLabel)) as [->|Hk2].
    { apply lookup_union_Some_l. rewrite lookup_insert_ne by done. by rewrite lookup_singleton_eq. }
    apply lookup_union_r. rewrite lookup_insert_ne by done. by rewrite lookup_singleton_ne.
  - intros k Hk. apply H2. intros (g & -> & Hin)%list_elem_of_fmap.
    apply list_elem_of_In, in_concat in Hin as (gs & Hgs & Hin). rewrite map_map in Hgs.
    apply in_map_iff in Hgs as (c & <- & Hcin). destruct (class_view r c) as (_ & Hv & _). rewrite Hv in Hin.
    apply list_elem_of_In, list_elem_of_filter in Hin as [Hn Hin]. by apply (Hk g c); [|apply list_elem_of_In|..].
Qed.

(** A delete is handled like an update, or panics when it carries no value. *)
Lemma delete_not_seen p key v :
  handle_resources NewXds ProcessEnvoyExtensionPolicies p {| u_Key := key; u_Delete := true; u_Value := v |} =
  match v with
  | Some _ => handle_resources NewXds ProcessEnvoyExtensionPolicies p {| u_Key := key; u_Delete := false; u_Value := v |}
  | None => Panic NilDereference
  end.
Proof. by destruct v. Qed.

End Pipeline.

(** ** The cluster of EgProviderSpec, translated *)

#[local] Existing Instances example_names example_reads example_indexed.

Definition example_new_xds : Xds := {| xds_HTTP := []; xds_EnvoyPatchPolicies := [] |}.
Definition stale : published := {| pub_InfraIR := {["infra/gone"%string := NewInfra]}; pub_XdsIR := ∅ |}.

Lemma gateways_get_irs_witness :
  exists p', handle_resources example_new_xds [] stale
    {| u_Key := GatewayClassController; u_Delete := false;
       u_Value := Some [class_resources {| envoyExtensionPolicyCRDExists := false; envoyPatchPolicyCRDExists := true |}
                          (example_class "eg" GatewayClassController)] |} = Ret p' /\
    is_Some (pub_XdsIR p' !! "infra/a"%string) /\ pub_InfraIR p' !! "infra/gone"%string = Some NewInfra.
Proof.
  destruct (gateways_get_irs example_new_xds [] (GR := example_reads) (IX := example_indexed)
    {| envoyExtensionPolicyCRDExists := false; envoyPatchPolicyCRDExists := true |} example_classes ∅ stale
    eq_refl) as (view & p' & H1 & H2 & H3 & H4).
  { by apply (bool_decide_unpack _); vm_compute. }
  { by vm_compute. }
  assert (view = [class_resources {| envoyExtensionPolicyCRDExists := false; envoyPatchPolicyCRDExists := true |}
                    (example_class "eg" GatewayClassController)]) as ->.
  { vm_compute in H1. injection H1 as <-. by vm_compute. }
  exists p'. split; [done|]. split.
  - destruct (H3 (example_gateway "a" "eg") (example_class "eg" GatewayClassController)) as [Hx _]; [..|done|].
    + by apply (bool_decide_unpack _); vm_compute.
    + by apply (bool_decide_unpack _); vm_compute.
    + eexists. exact Hx.
  - destruct (H4 "infra/gone"%string) as [-> _]; [|by vm_compute].
    intros g class Hg _ _. assert (Forall (fun g => gw_key g <> "infra/gone"%string) example_gateways) as HF.
    { by apply (bool_decide_unpack _); vm_compute. }
    rewrite Forall_forall in HF. by apply HF.
Defined.
