(* ===== verification/EgDeepCopy.v ===== *)
(** * EgDeepCopy: what the deep copies of the Envoy gateway share

    pkg/envoygateway/message/resource.go and pkg/envoygateway/ir/
    zz_generated.deepcopy.go: the watchable maps compare and hand out deep copies
    of what is stored in them.  Objects live on a heap of typed cells, so that
    sharing is visible: proved is which cells of a copy are new and equal to the
    old, and which it shares with the original ([resources_copy_isolated],
    [infra_copy_isolated]). *)

From S2P Require Import Prelude GoStd K8s EgMessage EgTranslate.

(** ** The heap

    Pointers, slices and maps are locations, [None] is nil.  A cell holds a
    struct, the array of a slice of pointers, or a map; the Kubernetes objects,
    whose own DeepCopyInto copies all they hold, are one cell each. *)
Record ResourceCell := {
  rs_GatewayClass : option positive; rs_Gateways : option positive; rs_HTTPRoutes : option positive;
  rs_EndpointSlices : option positive; rs_EnvoyExtensionPolicies : option positive;
  rs_EnvoyPatchPolicies : option positive
}.
Record ProxyCell := {
  px_Name : string; px_Namespace : string; px_Metadata : option positive; px_EnvoyProxy : option positive
}.
Record MetadataCell := {
  mt_Labels : option positive; mt_Annotations : option positive; mt_OwnerReferences : option positive
}.

Inductive cell :=
| CResource (r : ResourceCell)
| CArray (elements : list (option positive))
| CGatewayClass (c : GatewayClass) | CGateway (g : Gateway) | CHTTPRoute (r : HTTPRoute)
| CEndpointSlice (s : string) | CExtensionPolicy (p : EnvoyExtensionPolicy) | CPatchPolicy (p : EnvoyPatchPolicy)
| CInfra (proxy : option positive) | CProxy (p : ProxyCell) | CMetadata (m : MetadataCell)
| CMap (m : gmap string string) | COwner (o : ResourceMetadata) | CEnvoyProxy (e : string).

Definition M (A : Type) : Type := kube (gmap positive cell) string A.

Definition load (l : positive) : M cell :=
  fun h => match h !! l with Some c => (Ret c, h) | None => (Panic NilDereference, h) end.
Definition alloc (c : cell) : M positive :=
  fun h => let l := fresh (dom h : gset positive) in (Ret l, <[l := c]> h).

(** ** Copies *)

(** [if *in != nil { *out = new(T); copy **in to **out }] of a cell without
    pointers: an object, a map, the owner reference. *)
Definition copy_object (p : option positive) : M (option positive) :=
  match p with
  | None => kret None
  | Some l => do! c := load l in do! l' := alloc c in kret (Some l')
  end.

Fixpoint copy_elements (ps : list (option positive)) : M (list (option positive)) :=
  match ps with
  | [] => kret []
  | p :: ps => do! p' := copy_object p in do! ps' := copy_elements ps in kret (p' :: ps')
  end.

(** A slice of pointers to objects: a new array, and a new object for every
    element that is not nil. *)
Definition copy_slice (p : option positive) : M (option positive) :=
  match p with
  | None => kret None
  | Some l =>
      do! c := load l in
      match c with
      | CArray ps => do! ps' := copy_elements ps in do! l' := alloc (CArray ps') in kret (Some l')
      | _ => klift (Panic TypeAssertion)
      end
  end.

(** [*out = *in], then new class, gateways and routes; the other slices stay. *)
Definition GatewayAPIResource_DeepCopyInto (r : ResourceCell) : M ResourceCell :=
  do! gatewayClass := copy_object (rs_GatewayClass r) in
  do! gateways := copy_slice (rs_Gateways r) in
  do! httpRoutes := copy_slice (rs_HTTPRoutes r) in
  kret {| rs_GatewayClass := gatewayClass; rs_Gateways := gateways; rs_HTTPRoutes := httpRoutes;
          rs_EndpointSlices := rs_EndpointSlices r;
          rs_EnvoyExtensionPolicies := rs_EnvoyExtensionPolicies r;
          rs_EnvoyPatchPolicies := rs_EnvoyPatchPolicies r |}.

Definition GatewayAPIResource_DeepCopy (p : option positive) : M (option positive) :=
  match p with
  | None => kret None
  | Some l =>
      do! c := load l in
      match c with
      | CResource r =>
          do! r' := GatewayAPIResource_DeepCopyInto r in
          do! out := alloc (CResource r') in kret (Some out)
      | _ => klift (Panic TypeAssertion)
      end
  end.

Fixpoint copy_resources (ps : list (option positive)) : M (list (option positive)) :=
  match ps with
  | [] => kret []
  | p :: ps => do! p' := GatewayAPIResource_DeepCopy p in do! ps' := copy_resources ps in kret (p' :: ps')
  end.

Definition GatewayAPIResources_DeepCopy (p : option positive) : M (option positive) :=
  match p with
  | None => kret None
  | Some l =>
      do! c := load l in
      match c with
      | CArray ps => do! ps' := copy_resources ps in do! out := alloc (CArray ps') in kret (Some out)
      | _ => klift (Panic TypeAssertion)
      end
  end.

(** The generated copies of the infrastructure IR. *)
Definition InfraMetadata_DeepCopyInto (m : MetadataCell) : M MetadataCell :=
  do! labels := copy_object (mt_Labels m) in
  do! annotations := copy_object (mt_Annotations m) in
  do! owner := copy_object (mt_OwnerReferences m) in
  kret {| mt_Labels := labels; mt_Annotations := annotations; mt_OwnerReferences := owner |}.

Definition InfraMetadata_DeepCopy (p : option positive) : M (option positive) :=
  match p with
  | None => kret None
  | Some l =>
      do! c := load l in
      match c with
      | CMetadata m => do! m' := InfraMetadata_DeepCopyInto m in do! out := alloc (CMetadata m') in kret (Some out)
      | _ => klift (Panic TypeAssertion)
      end
  end.

(** The field EnvoyProxy is copied by the assignment alone. *)
Definition ProxyInfra_DeepCopyInto (p : ProxyCell) : M ProxyCell :=
  do! metadata := InfraMetadata_DeepCopy (px_Metadata p) in
  kret {| px_Name := px_Name p; px_Namespace := px_Namespace p; px_Metadata := metadata;
          px_EnvoyProxy := px_EnvoyProxy p |}.

Definition ProxyInfra_DeepCopy (p : option positive) : M (option positive) :=
  match p with
  | None => kret None
  | Some l =>
      do! c := load l in
      match c with
      | CProxy x => do! x' := ProxyInfra_DeepCopyInto x in do! out := alloc (CProxy x') in kret (Some out)
      | _ => klift (Panic TypeAssertion)
      end
  end.

Definition Infra_DeepCopy (p : option positive) : M (option positive) :=
  match p with
  | None => kret None
  | Some l =>
      do! c := load l in
      match c with
      | CInfra proxy => do! proxy' := ProxyInfra_DeepCopy proxy in do! out := alloc (CInfra proxy') in kret (Some out)
      | _ => klift (Panic TypeAssertion)
      end
  end.

Definition ResourceMetadata_DeepCopy : option positive -> M (option positive) := copy_object.

(** ** New cells *)

(** A pointer into the heap [h]. *)
Definition valid (h : gmap positive cell) (p : option positive) : Prop :=
  match p with None => True | Some l => is_Some (h !! l) end.

(** [p'] is nil with [p], or a cell that [h] did not have, in [h'] equal to the
    cell of [p]. *)
Definition copied (h h' : gmap positive cell) (p p' : option positive) : Prop :=
  match p, p' with
  | None, None => True
  | Some l, Some l' => h !! l' = None /\ exists c, h !! l = Some c /\ h' !! l' = Some c
  | _, _ => False
  end.

Definition valid_slice (h : gmap positive cell) (p : option positive) : Prop :=
  match p with
  | None => True
  | Some l => exists ps, h !! l = Some (CArray ps) /\ Forall (valid h) ps
  end.

Definition copied_slice (h h' : gmap positive cell) (p p' : option positive) : Prop :=
  match p, p' with
  | None, None => True
  | Some l, Some l' => h !! l' = None /\ exists ps ps', h !! l = Some (CArray ps) /\
      h' !! l' = Some (CArray ps') /\ Forall2 (copied h h') ps ps'
  | _, _ => False
  end.

Lemma copied_mono h h' h'' p p' : h' ⊆ h'' -> copied h h' p p' -> copied h h'' p p'.
Proof. destruct p, p'; [|done..]. intros Hs (H1 & c & H2 & H3). split; [done|]. exists c. by eauto using lookup_weaken. Qed.

Lemma copied_slice_mono h h' h'' p p' : h' ⊆ h'' -> copied_slice h h' p p' -> copied_slice h h'' p p'.
Proof.
  destruct p, p'; [|done..]. intros Hs (H1 & ps & ps' & H2 & H3 & H4). split; [done|]. exists ps, ps'.
  split_and!; [done|by eapply lookup_weaken|]. eapply Forall2_impl; [done|]. intros. by eapply copied_mono.
Qed.

(** A computation that only allocates, with a result that stays right. *)
Definition allocates {A} (h0 : gmap positive cell) (m : M A) (post : gmap positive cell -> A -> Prop) : Prop :=
  (forall h h' a, h ⊆ h' -> post h a -> post h' a) /\
  forall h, h0 ⊆ h -> exists a h', m h = (Ret a, h') /\ h ⊆ h' /\ post h' a.

Lemma allocates_ret {A} h0 (a : A) (post : gmap positive cell -> A -> Prop) :
  (forall h h' a, h ⊆ h' -> post h a -> post h' a) -> (forall h, h0 ⊆ h -> post h a) -> allocates h0 (kret a) post.
Proof. intros Hm Hp. split; [done|]. intros h Hh. exists a, h. split_and!; [done|done|by apply Hp]. Qed.

Lemma allocates_bind {A B} h0 (m : M A) (k : A -> M B) (P : gmap positive cell -> A -> Prop)
    (Q : gmap positive cell -> B -> Prop) :
  allocates h0 m P ->
  (forall h h' b, h ⊆ h' -> Q h b -> Q h' b) ->
  (forall h1 a, h0 ⊆ h1 -> P h1 a -> exists b h', k a h1 = (Ret b, h') /\ h1 ⊆ h' /\ Q h' b) ->
  allocates h0 (do! a := m in k a) Q.
Proof.
  intros [HP Hm] HQ Hk. split; [done|]. intros h Hh. destruct (Hm h Hh) as (a & h1 & E & Hs & Ha).
  destruct (Hk h1 a) as (b & h2 & E2 & Hs2 & Hb); [by etrans|done|].
  exists b, h2. rewrite (kbind_ret _ _ _ _ _ E). split_and!; [done|by etrans|done].
Qed.

(** A new cell at the end of a copy. *)
Lemma alloc_new (h0 h : gmap positive cell) c :
  h0 ⊆ h -> exists l', (do! l := alloc c in kret (Some l)) h = (Ret (Some l'), <[l' := c]> h) /\
    h ⊆ <[l' := c]> h /\ h0 !! l' = None /\ <[l' := c]> h !! l' = Some c.
Proof.
  intros Hs. exists (fresh (dom h)). assert (h !! fresh (dom h) = None) as Hf by apply not_elem_of_dom, is_fresh.
  split_and!; [done|by apply insert_subseteq|by eapply lookup_weaken_None|apply lookup_insert_eq].
Qed.

Lemma load_old (h0 h : gmap positive cell) l c : h0 ⊆ h -> h0 !! l = Some c -> load l h = (Ret c, h).
Proof. intros Hs Hl. unfold load. by rewrite (lookup_weaken _ _ _ _ Hl Hs). Qed.

Lemma copy_object_spec h0 p : valid h0 p -> allocates h0 (copy_object p) (fun h' p' => copied h0 h' p p').
Proof.
  intros Hv. split; [by intros; eapply copied_mono|]. intros h Hs. destruct p as [l|]; [|by exists None, h].
  destruct Hv as [c Hc]. unfold copy_object. rewrite (kbind_ret _ _ _ _ _ (load_old h0 h l c Hs Hc)).
  destruct (alloc_new h0 h c Hs) as (l' & E & Hs' & Hn & Hl). exists (Some l'), (<[l' := c]> h).
  split_and!; [done|done|]. split; [done|]. by exists c.
Qed.

Lemma copy_elements_spec h0 ps :
  Forall (valid h0) ps -> allocates h0 (copy_elements ps) (fun h' ps' => Forall2 (copied h0 h') ps ps').
Proof.
  assert (forall ps (h h' : gmap positive cell) ps', h ⊆ h' -> Forall2 (copied h0 h) ps ps' -> Forall2 (copied h0 h') ps ps')
    as Hmono. { intros ???? Hs H. eapply Forall2_impl; [done|]. intros. by eapply copied_mono. }
  induction 1 as [|p ps Hp _ [_ IH]]; [by apply allocates_ret; [apply Hmono|constructor]|].
  cbn [copy_elements]. eapply allocates_bind; [by apply copy_object_spec|apply Hmono|].
  intros h1 p' Hs Hc. destruct (IH h1 Hs) as (ps' & h2 & E & Hs2 & Hf). exists (p' :: ps'), h2.
  rewrite (kbind_ret _ _ _ _ _ E). split_and!; [done|done|]. constructor; [by eapply copied_mono|done].
Qed.

Lemma copy_slice_spec h0 p : valid_slice h0 p -> allocates h0 (copy_slice p) (fun h' p' => copied_slice h0 h' p p').
Proof.
  intros Hv. split; [by intros; eapply copied_slice_mono|]. intros h Hs. destruct p as [l|]; [|by exists None, h].
  destruct Hv as (ps & Hl & Hps). unfold copy_slice. rewrite (kbind_ret _ _ _ _ _ (load_old h0 h l _ Hs Hl)).
  destruct (copy_elements_spec h0 ps Hps) as [Hmono He]. destruct (He h Hs) as (ps' & h1 & E & Hs1 & Hf).
  rewrite (kbind_ret _ _ _ _ _ E). destruct (alloc_new h0 h1 (CArray ps')) as (l' & E' & Hs2 & Hn & Hl'); [by etrans|].
  exists (Some l'), (<[l' := CArray ps']> h1). split_and!; [done|by etrans|]. split; [done|].
  exists ps, ps'. split_and!; [done|done|]. eapply Hmono; [|done]. done.
Qed.

(** ** Resources *)

Definition resource_valid (h : gmap positive cell) (p : option positive) : Prop :=
  match p with
  | None => True
  | Some l => exists r, h !! l = Some (CResource r) /\
      valid h (rs_GatewayClass r) /\ valid_slice h (rs_Gateways r) /\ valid_slice h (rs_HTTPRoutes r)
  end.

(** The class, the gateways and the routes are new; the slices of endpoint slices
    and policies are those of the original. *)
Definition resource_copied (h h' : gmap positive cell) (p p' : option positive) : Prop :=
  match p, p' with
  | None, None => True
  | Some l, Some l' => h !! l' = None /\ exists r r', h !! l = Some (CResource r) /\ h' !! l' = Some (CResource r') /\
      copied h h' (rs_GatewayClass r) (rs_GatewayClass r') /\
      copied_slice h h' (rs_Gateways r) (rs_Gateways r') /\ copied_slice h h' (rs_HTTPRoutes r) (rs_HTTPRoutes r') /\
      rs_EndpointSlices r' = rs_EndpointSlices r /\
      rs_EnvoyExtensionPolicies r' = rs_EnvoyExtensionPolicies r /\
      rs_EnvoyPatchPolicies r' = rs_EnvoyPatchPolicies r
  | _, _ => False
  end.

Lemma resource_copied_mono h h' h'' p p' : h' ⊆ h'' -> resource_copied h h' p p' -> resource_copied h h'' p p'.
Proof.
  destruct p, p'; [|done..]. intros Hs (H1 & r & r' & H2 & H3 & H4 & H5 & H6 & H7). split; [done|]. exists r, r'.
  split_and!; [done|by eapply lookup_weaken|by eapply copied_mono|by eapply copied_slice_mono..|apply H7|apply H7|apply H7].
Qed.

Lemma resource_copy_spec h0 p :
  resource_valid h0 p -> allocates h0 (GatewayAPIResource_DeepCopy p) (fun h' p' => resource_copied h0 h' p p').
Proof.
  intros Hv. split; [by intros; eapply resource_copied_mono|]. intros h Hs. destruct p as [l|]; [|by exists None, h].
  destruct Hv as (r & Hl & V1 & V2 & V3). unfold GatewayAPIResource_DeepCopy, GatewayAPIResource_DeepCopyInto.
  rewrite (kbind_ret _ _ _ _ _ (load_old h0 h l _ Hs Hl)).
  destruct (copy_object_spec h0 _ V1) as [M1 S1]. destruct (S1 h Hs) as (a & h1 & E1 & Hs1 & P1).
  destruct (copy_slice_spec h0 _ V2) as [M2 S2]. destruct (S2 h1) as (b & h2 & E2 & Hs2 & P2); [by etrans|].
  destruct (copy_slice_spec h0 _ V3) as [M3 S3]. destruct (S3 h2) as (c & h3 & E3 & Hs3 & P3); [do 2 (etrans; [done|]); done|].
  set (r' := {| rs_GatewayClass := a; rs_Gateways := b; rs_HTTPRoutes := c;
    rs_EndpointSlices := rs_EndpointSlices r; rs_EnvoyExtensionPolicies := rs_EnvoyExtensionPolicies r;
    rs_EnvoyPatchPolicies := rs_EnvoyPatchPolicies r |}).
  destruct (alloc_new h0 h3 (CResource r')) as (l' & E4 & Hs4 & Hn & Hl'); [do 3 (etrans; [done|]); done|].
  exists (Some l'), (<[l' := CResource r']> h3). split_and!.
  - erewrite kbind_ret; [exact E4|]. erewrite kbind_ret; [|exact E1]. erewrite kbind_ret; [|exact E2].
    erewrite kbind_ret; [|exact E3]. done.
  - do 3 (etrans; [done|]). done.
  - split; [done|]. exists r, r'. cbn. split_and!; try done.
    + eapply M1; [|done]. do 2 (etrans; [done|]). done.
    + eapply M2; [|done]. etrans; done.
    + by eapply M3.
Qed.

Lemma copy_resources_spec h0 ps :
  Forall (resource_valid h0) ps -> allocates h0 (copy_resources ps) (fun h' ps' => Forall2 (resource_copied h0 h') ps ps').
Proof.
  assert (forall ps (h h' : gmap positive cell) ps', h ⊆ h' -> Forall2 (resource_copied h0 h) ps ps' ->
    Forall2 (resource_copied h0 h') ps ps') as Hmono.
  { intros ???? Hs H. eapply Forall2_impl; [done|]. intros. by eapply resource_copied_mono. }
  induction 1 as [|p ps Hp _ [_ IH]]; [by apply allocates_ret; [apply Hmono|constructor]|].
  cbn [copy_resources]. eapply allocates_bind; [by apply resource_copy_spec|apply Hmono|].
  intros h1 p' Hs Hc. destruct (IH h1 Hs) as (ps' & h2 & E & Hs2 & Hf). exists (p' :: ps'), h2.
  rewrite (kbind_ret _ _ _ _ _ E). split_and!; [done|done|]. constructor; [by eapply resource_copied_mono|done].
Qed.

(** C25: the deep copy of the stored resources.  It only allocates: the original
    is untouched.  The array, every resource, its class, gateways and routes are
    new cells, equal to those they copy, so no write through the original shows
    in the copy; but each copied resource keeps the very slices of endpoint
    slices and of both policies, which the two then share. *)
Theorem resources_copy_isolated h l ps :
  h !! l = Some (CArray ps) -> Forall (resource_valid h) ps ->
  exists l' h' ps', GatewayAPIResources_DeepCopy (Some l) h = (Ret (Some l'), h') /\
    h ⊆ h' /\ h !! l' = None /\ h' !! l' = Some (CArray ps') /\ Forall2 (resource_copied h h') ps ps'.
Proof.
  intros Hl Hv. destruct (copy_resources_spec h ps Hv) as [Hmono He]. destruct (He h) as (ps' & h1 & E & Hs & Hf); [done|].
  destruct (alloc_new h h1 (CArray ps') Hs) as (l' & E' & Hs' & Hn & Hl').
  exists l', (<[l' := CArray ps']> h1), ps'. unfold GatewayAPIResources_DeepCopy.
  rewrite (kbind_ret _ _ _ _ _ (load_old h h l _ (reflexivity h) Hl)), (kbind_ret _ _ _ _ _ E).
  split_and!; [done|by etrans|done|done|]. by eapply Hmono.
Qed.

(** ** The infrastructure IR *)

Definition metadata_valid (h : gmap positive cell) (p : option positive) : Prop :=
  match p with
  | None => True
  | Some l => exists m, h !! l = Some (CMetadata m) /\
      valid h (mt_Labels m) /\ valid h (mt_Annotations m) /\ valid h (mt_OwnerReferences m)
  end.

Definition metadata_copied (h h' : gmap positive cell) (p p' : option positive) : Prop :=
  match p, p' with
  | None, None => True
  | Some l, Some l' => h !! l' = None /\ exists m m', h !! l = Some (CMetadata m) /\ h' !! l' = Some (CMetadata m') /\
      copied h h' (mt_Labels m) (mt_Labels m') /\ copied h h' (mt_Annotations m) (mt_Annotations m') /\
      copied h h' (mt_OwnerReferences m) (mt_OwnerReferences m')
  | _, _ => False
  end.

Lemma metadata_copy_spec h0 h p :
  h0 ⊆ h -> metadata_valid h0 p ->
  exists p' h', InfraMetadata_DeepCopy p h = (Ret p', h') /\ h ⊆ h' /\ metadata_copied h0 h' p p'.
Proof.
  intros Hs Hv. destruct p as [l|]; [|by exists None, h]. destruct Hv as (m & Hl & V1 & V2 & V3).
  destruct (copy_object_spec h0 _ V1) as [M1 S1]. destruct (S1 h Hs) as (a & h1 & E1 & Hs1 & P1).
  destruct (copy_object_spec h0 _ V2) as [M2 S2]. destruct (S2 h1) as (b & h2 & E2 & Hs2 & P2); [by etrans|].
  destruct (copy_object_spec h0 _ V3) as [M3 S3]. destruct (S3 h2) as (c & h3 & E3 & Hs3 & P3); [do 2 (etrans; [done|]); done|].
  set (m' := {| mt_Labels := a; mt_Annotations := b; mt_OwnerReferences := c |}).
  destruct (alloc_new h0 h3 (CMetadata m')) as (l' & E4 & Hs4 & Hn & Hl'); [do 3 (etrans; [done|]); done|].
  exists (Some l'), (<[l' := CMetadata m']> h3). unfold InfraMetadata_DeepCopy, InfraMetadata_DeepCopyInto.
  rewrite (kbind_ret _ _ _ _ _ (load_old h0 h l _ Hs Hl)). split_and!.
  - erewrite kbind_ret; [exact E4|]. erewrite kbind_ret; [|exact E1]. erewrite kbind_ret; [|exact E2].
    erewrite kbind_ret; [|exact E3]. done.
  - do 3 (etrans; [done|]). done.
  - split; [done|]. exists m, m'. cbn. split_and!; try done.
    + eapply M1; [|done]. do 2 (etrans; [done|]). done.
    + eapply M2; [|done]. etrans; done.
    + by eapply M3.
Qed.

(** The deep copy of an Infra: a new proxy with new metadata, labels, annotations
    and owner, which keeps the very EnvoyProxy of the original. *)
Lemma infra_copy_isolated h l lp px :
  h !! l = Some (CInfra (Some lp)) -> h !! lp = Some (CProxy px) -> metadata_valid h (px_Metadata px) ->
  exists l' lp' px' h', Infra_DeepCopy (Some l) h = (Ret (Some l'), h') /\ h ⊆ h' /\
    h !! l' = None /\ h' !! l' = Some (CInfra (Some lp')) /\ h !! lp' = None /\ h' !! lp' = Some (CProxy px') /\
    px_Name px' = px_Name px /\ px_Namespace px' = px_Namespace px /\
    metadata_copied h h' (px_Metadata px) (px_Metadata px') /\ px_EnvoyProxy px' = px_EnvoyProxy px.
Proof.
  intros Hl Hlp Hm. destruct (metadata_copy_spec h h _ (reflexivity h) Hm) as (md & h1 & E1 & Hs1 & Hmd).
  set (px' := {| px_Name := px_Name px; px_Namespace := px_Namespace px; px_Metadata := md; px_EnvoyProxy := px_EnvoyProxy px |}).
  destruct (alloc_new h h1 (CProxy px') Hs1) as (lp' & E2 & Hs2 & Hn2 & Hl2).
  destruct (alloc_new h (<[lp' := CProxy px']> h1) (CInfra (Some lp'))) as (l' & E3 & Hs3 & Hn3 & Hl3); [by etrans|].
  exists l', lp', px', (<[l' := CInfra (Some lp')]> (<[lp' := CProxy px']> h1)).
  assert (h1 ⊆ <[l' := CInfra (Some lp')]> (<[lp' := CProxy px']> h1)) as Hs4 by by etrans.
  split_and!; try done.
  - unfold Infra_DeepCopy. rewrite (kbind_ret _ _ _ _ _ (load_old h h l _ (reflexivity h) Hl)).
    erewrite kbind_ret; [exact E3|]. unfold ProxyInfra_DeepCopy.
    rewrite (kbind_ret _ _ _ _ _ (load_old h h lp _ (reflexivity h) Hlp)).
    erewrite kbind_ret; [exact E2|]. unfold ProxyInfra_DeepCopyInto. erewrite kbind_ret; [|exact E1]. done.
  - by etrans.
  - by eapply lookup_weaken.
  - cbn. destruct (px_Metadata px), md; [|done..]. destruct Hmd as (H1 & m & m' & H2 & H3 & H4 & H5 & H6).
    split; [done|]. exists m, m'. split_and!; [done|by eapply lookup_weaken|by eapply copied_mono..].
Qed.

(** ** A heap to compute with *)

Definition example_heap : gmap positive cell :=
  {[1%positive := CArray [Some 2%positive; None];
    2%positive := CResource {| rs_GatewayClass := None; rs_Gateways := Some 3%positive; rs_HTTPRoutes := None;
                               rs_EndpointSlices := None; rs_EnvoyExtensionPolicies := None;
                               rs_EnvoyPatchPolicies := Some 5%positive |};
    3%positive := CArray [Some 4%positive];
    4%positive := CGateway {| gw_Namespace := "infra"; gw_Name := "a"; gw_GatewayClassName := "eg";
                              gw_Infrastructure := None; gw_Conditions := [] |};
    5%positive := CArray []]}.

Lemma resources_copy_isolated_witness :
  exists l' h' ps', GatewayAPIResources_DeepCopy (Some 1%positive) example_heap = (Ret (Some l'), h') /\
    h' !! l' = Some (CArray ps') /\
    Forall2 (resource_copied example_heap h') [Some 2%positive; None] ps'.
Proof.
  destruct (resources_copy_isolated example_heap 1%positive [Some 2%positive; None]) as (l' & h' & ps' & H1 & _ & _ & H2 & H3).
  - by vm_compute.
  - repeat constructor. eexists. split; [by vm_compute|]. split; [done|]. split; [|done].
    eexists. split; [by vm_compute|]. repeat constructor. by eexists.
  - by exists l', h', ps'.
Defined.
