(* ===== verification/EgExtProc.v ===== *)
(** * EgExtProc: the ext_proc filters of the Envoy gateway

    pkg/envoygateway/xds/translator/httpfilter: the processing mode of an
    external processor and the filters of a connection manager.  The name of a
    filter and the search for it are functions the package calls and does not
    declare, and parameters; [extProcConfig] has no return statement and is read
    as returning the message it builds. *)

From S2P Require Import Prelude GoStd.

(** ** Processing modes (extproc.go) *)

Inductive HeaderSendMode := SEND | SKIP.
Inductive BodySendMode := NONE | BUFFERED | BUFFERED_PARTIAL | STREAMED | FULL_DUPLEX_STREAMED.

#[export] Instance HeaderSendMode_eq_dec : EqDecision HeaderSendMode.
Proof. solve_decision. Defined.
#[export] Instance BodySendMode_eq_dec : EqDecision BodySendMode.
Proof. solve_decision. Defined.

Record ProcessingMode := {
  RequestHeaderMode : HeaderSendMode; ResponseHeaderMode : HeaderSendMode;
  RequestBodyMode : BodySendMode; ResponseBodyMode : BodySendMode;
  RequestTrailerMode : HeaderSendMode; ResponseTrailerMode : HeaderSendMode
}.

(** ir.ExtProc. *)
Record ExtProc := {
  xp_Name : string; xp_Authority : string; xp_DestinationName : string;
  RequestHeaderProcessing : bool; RequestBodyProcessingMode : option string;
  ResponseHeaderProcessing : bool; ResponseBodyProcessingMode : option string
}.

(** The modes of Envoy Gateway's API, which the constants of ir repeat; the keys
    of a map literal are distinct. *)
Class BodyModes := {
  ExtProcBodyStreamed : string; ExtProcBodyBuffered : string;
  ExtProcBodyBufferedPartial : string; ExtProcBodyFullDuplexStreamed : string;
  BodyModes_distinct : NoDup [ExtProcBodyBuffered; ExtProcBodyBufferedPartial; ExtProcBodyStreamed;
                              ExtProcBodyFullDuplexStreamed]
}.

Section Modes.
Context {BM : BodyModes}.

Definition translateExtProcBodyProcessingMode (mode : string) : BodySendMode :=
  switch mode
    [(ExtProcBodyBuffered, BUFFERED); (ExtProcBodyBufferedPartial, BUFFERED_PARTIAL);
     (ExtProcBodyStreamed, STREAMED); (ExtProcBodyFullDuplexStreamed, FULL_DUPLEX_STREAMED)]
    NONE.

(** The body mode and the trailer mode that comes with it. *)
Definition body_and_trailer (mode : option string) : BodySendMode * HeaderSendMode :=
  match mode with
  | None => (NONE, SKIP)
  | Some m =>
      let b := translateExtProcBodyProcessingMode m in
      (b, if bool_decide (b = FULL_DUPLEX_STREAMED) then SEND else SKIP)
  end.

Definition buildProcessingMode (extProc : ExtProc) : ProcessingMode :=
  let '(requestBody, requestTrailer) := body_and_trailer (RequestBodyProcessingMode extProc) in
  let '(responseBody, responseTrailer) := body_and_trailer (ResponseBodyProcessingMode extProc) in
  {| RequestHeaderMode := if RequestHeaderProcessing extProc then SEND else SKIP;
     ResponseHeaderMode := if ResponseHeaderProcessing extProc then SEND else SKIP;
     RequestBodyMode := requestBody; ResponseBodyMode := responseBody;
     RequestTrailerMode := requestTrailer; ResponseTrailerMode := responseTrailer |}.

Record ExternalProcessor := {
  ClusterName : string; Authority : string; Timeout : Z; processingMode : ProcessingMode
}.

(** The processor is the cluster of the destination, with ten seconds. *)
Definition extProcConfig (extProc : ExtProc) : ExternalProcessor :=
  {| ClusterName := xp_DestinationName extProc; Authority := xp_Authority extProc;
     Timeout := 10 * 1000000000; processingMode := buildProcessingMode extProc |}.

Lemma body_mode_lookup mode :
  translateExtProcBodyProcessingMode mode = FULL_DUPLEX_STREAMED <-> mode = ExtProcBodyFullDuplexStreamed.
Proof.
  pose proof BodyModes_distinct as Hd. rewrite !NoDup_cons in Hd. destruct Hd as (D1 & D2 & D3 & D4 & _).
  rewrite ?not_elem_of_cons in *. unfold translateExtProcBodyProcessingMode. cbn. repeat case_decide; naive_solver.
Qed.

(** Headers are sent when they are processed, the body in the requested mode,
    none when there is none or it is unknown, and trailers exactly with a
    full-duplex body, as Envoy demands. *)
Lemma processing_mode_spec extProc :
  let m := buildProcessingMode extProc in
  (RequestHeaderMode m = SEND <-> RequestHeaderProcessing extProc = true) /\
  (ResponseHeaderMode m = SEND <-> ResponseHeaderProcessing extProc = true) /\
  RequestBodyMode m = match RequestBodyProcessingMode extProc with
                      | Some b => translateExtProcBodyProcessingMode b | None => NONE end /\
  ResponseBodyMode m = match ResponseBodyProcessingMode extProc with
                       | Some b => translateExtProcBodyProcessingMode b | None => NONE end /\
  (RequestTrailerMode m = SEND <-> RequestBodyProcessingMode extProc = Some ExtProcBodyFullDuplexStreamed) /\
  (ResponseTrailerMode m = SEND <-> ResponseBodyProcessingMode extProc = Some ExtProcBodyFullDuplexStreamed).
Proof.
  destruct extProc as [n a d rh rb sh sb]. unfold buildProcessingMode. cbn.
  assert (forall b, (body_and_trailer b).1 = match b with Some b => translateExtProcBodyProcessingMode b | None => NONE end /\
    ((body_and_trailer b).2 = SEND <-> b = Some ExtProcBodyFullDuplexStreamed)) as H.
  { intros [b|]; cbn; [|done]. split; [done|]. pose proof (body_mode_lookup b) as Hb.
    case_bool_decide as Hc; rewrite Hb in Hc; naive_solver. }
  pose proof (H rb) as [H1 H2]. pose proof (H sb) as [H3 H4].
  destruct (body_and_trailer rb), (body_and_trailer sb). cbn in *. by destruct rh, sh.
Qed.

End Modes.

(** ** Filters of a connection manager *)

(** A route is the processors of its extensions; [None] has no extensions. *)
Record HTTPRoute := { route_ExtProcs : option (list ExtProc) }.
Record HTTPListener := { listener_Routes : list (option HTTPRoute) }.
Record HttpFilter := { hf_Name : string; hf_Config : string }.
Record HttpConnectionManager := { HttpFilters : list (option HttpFilter) }.

Section Patch.
Context {BM : BodyModes}.
Variable extProcFilterName : ExtProc -> string.
Variable HttpConnectionManagerContainFilter : HttpConnectionManager -> string -> bool.
(** [anypb.New]. *)
Variable marshal : ExternalProcessor -> string + string.

Definition routeContainsExtProc (irRoute : option HTTPRoute) : bool :=
  match irRoute with
  | None => false
  | Some r => match route_ExtProcs r with None => false | Some l => (0 <? length l)%nat end
  end.

Definition buildHTTPConnectionManagerExtProcFilter (extProcVal : ExtProc) : string + HttpFilter :=
  match marshal (extProcConfig extProcVal) with
  | inl err => inl err
  | inr any => inr {| hf_Name := extProcFilterName extProcVal; hf_Config := any |}
  end.

(** The error of the construction is not looked at: a nil filter is appended. *)
Definition patch_processor (mgr : HttpConnectionManager) (extProcVal : ExtProc) : HttpConnectionManager :=
  if HttpConnectionManagerContainFilter mgr (extProcFilterName extProcVal) then mgr
  else {| HttpFilters := HttpFilters mgr ++
            [match buildHTTPConnectionManagerExtProcFilter extProcVal with inl _ => None | inr f => Some f end] |}.

Definition patch_route_processors (mgr : HttpConnectionManager) (route : option HTTPRoute) : HttpConnectionManager :=
  if routeContainsExtProc route
  then foldl patch_processor mgr (default [] (route ≫= route_ExtProcs))
  else mgr.

Definition patchHCM (mgr : option HttpConnectionManager) (irListener : option HTTPListener)
    : outcome string HttpConnectionManager :=
  match mgr, irListener with
  | None, _ => Err "hcm is nil"%string
  | _, None => Err "ir listener is nil"%string
  | Some mgr, Some l => Ret (foldl patch_route_processors mgr (listener_Routes l))
  end.

(** The other two methods of the filter are not implemented. *)
Definition patchRoute : outcome string unit := Panic ExplicitPanic.
Definition patchResources : outcome string unit := Panic ExplicitPanic.

(** *** Every processor has one filter *)

Hypothesis contains_spec : forall mgr name,
  HttpConnectionManagerContainFilter mgr name = true <-> exists f, Some f ∈ HttpFilters mgr /\ hf_Name f = name.
Hypothesis marshal_ok : forall c, exists a, marshal c = inr a.

Definition processors (l : HTTPListener) : list ExtProc :=
  concat (map (fun r => default [] (r ≫= route_ExtProcs)) (listener_Routes l)).

Lemma patch_route_fold mgr route :
  patch_route_processors mgr route = foldl patch_processor mgr (default [] (route ≫= route_ExtProcs)).
Proof. unfold patch_route_processors. destruct route as [[[[|x l]|]]|]; done. Qed.

Lemma patchHCM_fold mgr l :
  patchHCM (Some mgr) (Some l) = Ret (foldl patch_processor mgr (processors l)).
Proof.
  cbn. f_equal. unfold processors. revert mgr. induction (listener_Routes l) as [|r rs IH]; intros mgr; [done|].
  cbn [foldl map concat]. by rewrite foldl_app, patch_route_fold.
Qed.

Lemma patch_processor_spec mgr xp :
  exists added, HttpFilters (patch_processor mgr xp) = HttpFilters mgr ++ added /\
    HttpConnectionManagerContainFilter (patch_processor mgr xp) (extProcFilterName xp) = true /\
    (HttpConnectionManagerContainFilter mgr (extProcFilterName xp) = true -> added = []) /\
    Forall (fun f => exists c, f = Some {| hf_Name := extProcFilterName xp; hf_Config := c |}) added.
Proof.
  unfold patch_processor. destruct (HttpConnectionManagerContainFilter mgr (extProcFilterName xp)) eqn:Hc.
  { exists []. by rewrite app_nil_r. }
  unfold buildHTTPConnectionManagerExtProcFilter. destruct (marshal_ok (extProcConfig xp)) as [a ->].
  eexists. split; [done|]. split_and!; [|done|by repeat econstructor].
  apply contains_spec. eexists. split; [apply elem_of_app; right; by left|done].
Qed.

(** Patching appends filters of the listener's processors; afterwards each of them
    has a filter of its name, and patching again changes nothing. *)
Lemma patchHCM_covers mgr l :
  exists mgr', patchHCM (Some mgr) (Some l) = Ret mgr' /\ patchHCM (Some mgr') (Some l) = Ret mgr' /\
    (exists added, HttpFilters mgr' = HttpFilters mgr ++ added) /\
    Forall (fun xp => HttpConnectionManagerContainFilter mgr' (extProcFilterName xp) = true) (processors l).
Proof.
  rewrite patchHCM_fold. eexists. split; [done|]. rewrite patchHCM_fold. generalize (processors l). intros xps.
  assert (forall mgr xps, exists added, HttpFilters (foldl patch_processor mgr xps) = HttpFilters mgr ++ added) as Happ.
  { intros m ys. revert m. induction ys as [|y ys IH]; intros m; [exists []; by rewrite app_nil_r|].
    cbn. destruct (IH (patch_processor m y)) as [a ->]. destruct (patch_processor_spec m y) as (b & -> & _).
    exists (b ++ a). by rewrite app_assoc. }
  assert (forall mgr added name, HttpConnectionManagerContainFilter mgr name = true ->
    forall mgr', HttpFilters mgr' = HttpFilters mgr ++ added -> HttpConnectionManagerContainFilter mgr' name = true) as Hmono.
  { intros m added name (f & Hf & Hn)%contains_spec m' Hm'. apply contains_spec. exists f.
    rewrite Hm'. split; [by apply elem_of_app; left|done]. }
  assert (Forall (fun xp => HttpConnectionManagerContainFilter (foldl patch_processor mgr xps) (extProcFilterName xp) = true) xps)
    as Hall.
  { revert mgr. induction xps as [|x xps IH]; intros mgr; [constructor|]. cbn [foldl]. constructor; [|apply IH].
    destruct (Happ (patch_processor mgr x) xps) as [a Ha]. destruct (patch_processor_spec mgr x) as (_ & _ & Hx & _).
    by eapply Hmono. }
  split_and!; [|apply Happ|done]. f_equal. revert Hall. generalize (foldl patch_processor mgr xps). clear.
  intros m. induction 1 as [|x xps Hx _ IH]; [done|]. cbn [foldl]. unfold patch_processor at 2. by rewrite Hx.
Qed.

End Patch.

(** ** Registration (httpfilters.go) *)

Definition RegisterHTTPFilter {A} (filter : A) (HTTPFilters : list A) : list A := HTTPFilters ++ [filter].
