(* ===== verification/EgInfra.v ===== *)
(** * EgInfra: the deployment of a gateway's proxies

    pkg/envoygateway/infra: the rendering of the Envoy deployment from the
    infrastructure IR (resource_provider.go), its server-side apply
    (envoy_proxy.go, infra_client.go) and the subscription to the IR (infra.go).
    The EnvoyProxy type is a library's ([EnvoyProxyLib]); the names that the
    renderer uses and no file declares are parameters ([RenderDraft]). *)

From S2P Require Import Prelude GoStd K8s EgMessage EgTranslate.

Local Open Scope Z_scope.

(** ** What the renderer reads *)

(** A pod of the EnvoyProxy, with the fields that are copied. *)
Record PodConfig := {
  pc_SecurityContext : option string; pc_Affinity : option string; pc_Tolerations : list string;
  pc_ImagePullSecrets : list string; pc_NodeSelector : gmap string string;
  pc_TopologySpread : list string; pc_PriorityClassName : option string
}.

Record DeploymentConfig := {
  dc_Replicas : option Z; dc_InitContainers : list string; dc_Pod : option PodConfig; dc_Strategy : option string
}.

Definition ProviderTypeKubernetes : string := "Kubernetes".

(** [GetEnvoyProxyProvider] with its type and the deployment of its Kubernetes
    part (two pointers), the log level and the extra arguments. *)
Class EnvoyProxyLib := {
  zero_EnvoyProxy : string;
  provider_Type : string -> string;
  provider_Kubernetes : string -> option (option DeploymentConfig);
  proxy_log_level : string -> string;
  ExtraArgs : string -> list string
}.

(** ** What it renders *)

Record HTTPGet := { hg_Path : string; hg_Port : Z; hg_Scheme : string }.
Record Probe := {
  p_HTTPGet : HTTPGet; TimeoutSeconds : Z; PeriodSeconds : Z; SuccessThreshold : Z; FailureThreshold : Z
}.
Inductive PreStop := PreStopHTTP (g : HTTPGet) | PreStopExec (command : list string).

Record Container := {
  ct_Name : string; ct_Image : string; ct_ImagePullPolicy : string;
  ct_Command : list string; ct_Args : list string; ct_Env : list string; ct_Resources : string;
  ct_Ports : list Z; ct_TerminationMessagePolicy : string; ct_TerminationMessagePath : string;
  StartupProbe : Probe; ReadinessProbe : Probe; LivenessProbe : Probe; ct_PreStop : PreStop
}.

Record Deployment_ := {
  dep_Kind : string; dep_APIVersion : string;
  dep_Namespace : string; dep_OwnerReferences : list OwnerReference;
  dep_Labels : gmap string string; dep_Annotations : gmap string string;
  dep_Replicas : option Z; dep_Selector : option (gmap string string);
  dep_TemplateLabels : gmap string string; dep_TemplateAnnotations : gmap string string;
  dep_AutomountServiceAccountToken : bool;
  dep_Containers : list Container; dep_InitContainers : list string;
  dep_ServiceAccountName : string; dep_DNSPolicy : string; dep_RestartPolicy : string;
  dep_SchedulerName : string; dep_Pod : PodConfig; dep_PriorityClassName : string;
  dep_Strategy : string; dep_RevisionHistoryLimit : Z; dep_ProgressDeadlineSeconds : Z
}.

(** The names that are declared nowhere. *)
Class RenderDraft := {
  proxyImage : string; proxy_args : list string; proxy_env : list string; proxy_resources : string;
  proxy_ports : list Z;
  shutdown_image : string; shutdown_args : list string; shutdown_env : list string;
  shutdown_resources : string; shutdown_prestop : list string;
  render_Namespace : string; render_Name : string; render_ownerReferences : list OwnerReference;
  render_serviceAccountName : string;
  render_labels : gmap string string; render_annotations : gmap string string;
  template_labels : gmap string string; template_annotations : gmap string string;
  serviceCluster : string; serviceNode : string;
  GetRenderBootstrapConfig : string + string
}.

Definition EnvoyReadinessPort : Z := 19003.
Definition ShutdownManagerReadyPath : string := "/shutdown/ready".
Definition ShutdownManagerPort : Z := 19002.
Definition ShutdownManagerHealthCheckPath : string := "/healthz".

Definition http_get (path : string) (port : Z) : HTTPGet := {| hg_Path := path; hg_Port := port; hg_Scheme := "HTTP" |}.

Definition probe (g : HTTPGet) (period failures : Z) : Probe :=
  {| p_HTTPGet := g; TimeoutSeconds := 1; PeriodSeconds := period; SuccessThreshold := 1;
     FailureThreshold := failures |}.

Inductive infra_error :=
| InvalidProvider (ty : string)
| ApplyFailed (e : api_error)
| InfraClientError (e : api_error)
| CreateOrUpdateDeployment (namespace name : string) (e : infra_error).

Section Render.
Context {EP : EnvoyProxyLib} {RD : RenderDraft}.

Definition getEnvoyProxyContainers : list Container :=
  let ready := http_get "/ready" EnvoyReadinessPort in
  let healthz := http_get ShutdownManagerHealthCheckPath ShutdownManagerPort in
  [ {| ct_Name := "envoy"; ct_Image := proxyImage; ct_ImagePullPolicy := "IfNotPresent";
       ct_Command := ["envoy"]; ct_Args := proxy_args; ct_Env := proxy_env; ct_Resources := proxy_resources;
       ct_Ports := proxy_ports; ct_TerminationMessagePolicy := "File";
       ct_TerminationMessagePath := "/dev/termination-log";
       StartupProbe := probe ready 10 30; ReadinessProbe := probe ready 5 1; LivenessProbe := probe ready 10 3;
       ct_PreStop := PreStopHTTP (http_get ShutdownManagerReadyPath ShutdownManagerPort) |};
    {| ct_Name := "shutdown-manager"; ct_Image := shutdown_image; ct_ImagePullPolicy := "IfNotPresent";
       ct_Command := ["envoy-gateway"]; ct_Args := shutdown_args; ct_Env := shutdown_env;
       ct_Resources := shutdown_resources; ct_Ports := []; ct_TerminationMessagePolicy := "File";
       ct_TerminationMessagePath := "/dev/termination-log";
       StartupProbe := probe healthz 10 30; ReadinessProbe := probe healthz 10 3;
       LivenessProbe := probe healthz 10 3;
       ct_PreStop := PreStopExec shutdown_prestop |} ].

(** [ResourceRender]: the infrastructure it was given. *)
Definition ResourceRender : Type := option ProxyInfra.

(** The constructor does not store the infrastructure. *)
Definition NewResourceRender (infra : Infra) : ResourceRender := None.

(** [None] is the nil deployment. *)
Definition Deployment (r : ResourceRender) : outcome infra_error (option Deployment_) :=
  let* infra := deref r in
  let envoyProxy := (GetEnvoyProxy zero_EnvoyProxy infra).1 in
  if bool_decide (provider_Type envoyProxy <> ProviderTypeKubernetes)
  then Err (InvalidProvider (provider_Type envoyProxy))
  else
    let* kubernetes := deref (provider_Kubernetes envoyProxy) in
    match kubernetes with
    | None => Ret None
    | Some deploymentConfig =>
        let* pod := deref (dc_Pod deploymentConfig) in
        let* strategy := deref (dc_Strategy deploymentConfig) in
        Ret (Some
          {| dep_Kind := "Deployment"; dep_APIVersion := "apps/v1";
             dep_Namespace := render_Namespace; dep_OwnerReferences := render_ownerReferences;
             dep_Labels := render_labels; dep_Annotations := render_annotations;
             dep_Replicas := dc_Replicas deploymentConfig; dep_Selector := None;
             dep_TemplateLabels := template_labels; dep_TemplateAnnotations := template_annotations;
             dep_AutomountServiceAccountToken := false;
             dep_Containers := getEnvoyProxyContainers;
             dep_InitContainers := dc_InitContainers deploymentConfig;
             dep_ServiceAccountName := render_serviceAccountName;
             dep_DNSPolicy := "ClusterFirst"; dep_RestartPolicy := "Always";
             dep_SchedulerName := "default-scheduler"; dep_Pod := pod;
             dep_PriorityClassName := default "" (pc_PriorityClassName pod);
             dep_Strategy := strategy; dep_RevisionHistoryLimit := 10; dep_ProgressDeadlineSeconds := 600 |})
    end.

(** The configuration's error is not looked at, and the log level is read before
    the test for a missing EnvoyProxy. *)
Definition BuildProxyArgs (infra : ProxyInfra) : outcome infra_error (list string) :=
  let bootstrapConfigurations := match GetRenderBootstrapConfig with inr s => s | inl _ => "" end in
  let* proxy := deref (pi_EnvoyProxy infra) in
  let args :=
    ["--service-cluster"; serviceCluster; "--service-node"; serviceNode;
     "--config-yaml"; bootstrapConfigurations; "--log-level"; proxy_log_level proxy;
     "--cpuset-threads"; "--drain-strategy"; "immediate"]%string in
  Ret (args ++ match pi_EnvoyProxy infra with Some p => ExtraArgs p | None => [] end).

End Render.

(** ** Applying it *)

(** Reads of a deployment by name, and the server-side apply of an object (a nil
    pointer included) with the field owner "envoy-gateway". *)
Class InfraApi (W : Type) := {
  get_deployment : W -> string -> string -> api_error + Deployment_;
  patch_apply : W -> option Deployment_ -> option api_error * W
}.

Section Apply.
Context {EP : EnvoyProxyLib} {RD : RenderDraft} {W : Type} {API : InfraApi W}.

Definition ServerSideApply (obj : option Deployment_) : kube W infra_error unit :=
  do! err := kdo (fun w => patch_apply w obj) in
  match err with Some e => kerr (ApplyFailed e) | None => kret tt end.

(** The read is of the empty name. An error of the rendering leaves the nil
    deployment. *)
Definition createOrUpdateDeployment (render : ResourceRender) : kube W infra_error unit :=
  do! deployment := klift (match Deployment render with
                           | Ret d => Ret d
                           | Err _ => Ret None
                           | Panic p => Panic p
                           end) in
  do! old := kget (fun w => get_deployment w "" "") in
  match old with
  | inl NotFound => ServerSideApply deployment
  | inl e => kerr (InfraClientError e)
  | inr _ =>
      do! _ := klift (deref deployment) in
      ServerSideApply deployment
  end.

Definition createOrUpdate (render : ResourceRender) : kube W infra_error unit :=
  fun w =>
    match createOrUpdateDeployment render w with
    | (Err e, w') => (Err (CreateOrUpdateDeployment render_Namespace render_Name e), w')
    | r => r
    end.

(** Both errors are dropped. *)
Definition CreateOrUpdateProxyInfra (infraIR : Infra) : kube W infra_error unit :=
  fun w =>
    match createOrUpdate (NewResourceRender infraIR) w with
    | (Err _, w') => (Ret tt, w')
    | r => r
    end.

(** The handler of the subscription; a panic ends the process.  A deletion does
    nothing. *)
Definition handle_infra (st : outcome infra_error W) (update : Update Infra) : outcome infra_error W :=
  let* w := st in
  if u_Delete update then Ret w
  else
    match CreateOrUpdateProxyInfra (u_Value update) w with
    | (Ret _, w') => Ret w'
    | (Err e, w') => Ret w'
    | (Panic p, _) => Panic p
    end.

Definition Infra_Start `{MapIter} (sub : list (Snapshot Infra)) (w : W) : outcome infra_error W :=
  HandleSubscription handle_infra sub (Ret w).

(** ** What comes of it *)

Lemma new_render_panics infra : Deployment (NewResourceRender infra) = Panic NilDereference.
Proof. done. Qed.

Lemma handle_infra_written st (update : Update Infra) :
  handle_infra st update = if u_Delete update then st else let* _ := st in Panic NilDereference.
Proof. unfold handle_infra. destruct st as [w|e|p]; cbn [obind]; by destruct (u_Delete update). Qed.

(** No proxy is ever deployed.  The renderer forgets the infrastructure it is
    made from, so the first entry of the IR that is set, in the first snapshot or
    in a later update, kills the process with a nil dereference; while there is
    none, in particular whatever is deleted, the cluster stays as it is. *)
Theorem infra_never_written `{MapIter} (sub : list (Snapshot Infra)) (w : W) :
  Infra_Start sub w =
    if decide (Exists (fun u => u_Delete u = false) (handled sub)) then Panic NilDereference else Ret w.
Proof.
  unfold Infra_Start, HandleSubscription. induction (handled sub) as [|u us IH].
  - rewrite decide_False; [done|]. by intros ?%Exists_nil.
  - cbn [foldl]. rewrite handle_infra_written. destruct (u_Delete u) eqn:Hu.
    + rewrite IH. apply decide_ext. rewrite Exists_cons, Hu. naive_solver.
    + cbn [obind]. rewrite decide_True by (by left). clear IH. induction us as [|v us IH]; [done|].
      cbn [foldl]. rewrite handle_infra_written. destruct (u_Delete v); exact IH.
Qed.

(** ** A renderer that has its infrastructure *)

(** The deployment that is applied is the one rendered, once, whether it exists
    or not; the provider of another kind leads to the apply of a nil object when
    nothing exists, and to a panic when something does. *)
Lemma deployment_applied infra d (w : W) :
  Deployment (Some infra) = Ret (Some d) ->
  createOrUpdateDeployment (Some infra) w =
    match get_deployment w "" "" with
    | inl (ApiFailure r) => (Err (InfraClientError (ApiFailure r)), w)
    | _ => ServerSideApply (Some d) w
    end.
Proof.
  intros Hd. unfold createOrUpdateDeployment, kbind, klift, kget. rewrite Hd.
  by destruct (get_deployment w "" "") as [[]|].
Qed.

Lemma wrong_provider_applies_nil infra (w : W) :
  provider_Type (GetEnvoyProxy zero_EnvoyProxy infra).1 <> ProviderTypeKubernetes ->
  createOrUpdateDeployment (Some infra) w =
    match get_deployment w "" "" with
    | inl NotFound => ServerSideApply None w
    | inl e => (Err (InfraClientError e), w)
    | inr _ => (Panic NilDereference, w)
    end.
Proof.
  intros Hp. unfold createOrUpdateDeployment, kbind, klift, kget, Deployment. cbn [deref obind].
  rewrite bool_decide_eq_true_2 by done. by destruct (get_deployment w "" "") as [[]|].
Qed.

(** Without an EnvoyProxy the arguments panic; with one its extra arguments come
    last. *)
Lemma proxy_args_branches infra :
  match pi_EnvoyProxy infra with
  | None => BuildProxyArgs infra = Panic NilDereference
  | Some p => exists args, BuildProxyArgs infra = Ret (args ++ ExtraArgs p) /\ length args = 11%nat
  end.
Proof. unfold BuildProxyArgs. destruct (pi_EnvoyProxy infra) as [p|]; [|done]. by eexists. Qed.

(** Envoy is given as long to start as its shutdown manager, and a container is
    never killed by its liveness probe before the startup probe gives up. *)
Lemma probes_ordered :
  Forall (fun c => PeriodSeconds (LivenessProbe c) * FailureThreshold (LivenessProbe c) <=
                   PeriodSeconds (StartupProbe c) * FailureThreshold (StartupProbe c) /\
                   p_HTTPGet (StartupProbe c) = p_HTTPGet (LivenessProbe c) /\
                   p_HTTPGet (ReadinessProbe c) = p_HTTPGet (LivenessProbe c))
    getEnvoyProxyContainers.
Proof. repeat constructor; cbn; lia. Qed.

End Apply.
