(* ===== verification/EgManager.v ===== *)
(** * EgManager: the Kubernetes provider of the Envoy gateway

    pkg/envoygateway/provider/kubernetes/kubernetes.go: the options of the
    provider's manager, its construction with its checks and its reconciler, and
    [Provider.Start], whose goroutine hands the manager's error over an unbuffered
    channel, as a step relation.  The manager is controller-runtime's
    ([ManagerLib], [ControllerRuntime]). *)

From S2P Require Import Prelude GoStd K8s EgMessage EgProvider.

(** ** Construction *)

(** cache.ByObject, the fields that are set. *)
Record ByObject := { by_Label : option (gmap string string); UnsafeDisableDeepCopy : bool }.

Definition shared : ByObject := {| by_Label := None; UnsafeDisableDeepCopy := true |}.

(** The entries of [ByObject], by kind. *)
Definition cache_by_object : gmap string ByObject :=
  {["Pod" := {| by_Label := Some EnvoyAppLabel; UnsafeDisableDeepCopy := false |};
    "Deployment" := shared; "DaemonSet" := shared; "Node" := shared; "Service" := shared;
    "EndpointSlice" := shared; "Secret" := shared; "ConfigMap" := shared; "ReferenceGrant" := shared]}%string.

(** The options that are not the zero value: the cache strips the managed
    fields, and unstructured objects are cached. *)
Record ManagerOptions := {
  mo_strip_managed_fields : bool; mo_by_object : gmap string ByObject; mo_cache_unstructured : bool;
  mo_leader_election : bool
}.

Definition mgrOpts : ManagerOptions :=
  {| mo_strip_managed_fields := true; mo_by_object := cache_by_object; mo_cache_unstructured := true;
     mo_leader_election := false |}.

(** [WaitForCacheSync] blocks until the caches are synced or the context ends;
    [synced] is what it returns. *)
Class ManagerLib (W : Type) := {
  GetConfigOrDie : W -> bool * W;
  NewManager : W -> ManagerOptions -> option string * W;
  AddHealthzCheck : W -> string -> option string * W;
  AddReadyzCheck : W -> string -> (bool -> option string) -> option string * W
}.

(** The readiness check, given what waiting for the caches returned. *)
Definition cache_sync_check (synced : bool) : option string :=
  if negb synced then Some "cache not sync yet"%string else None.

Section Provider.
Context {NM : GatewayNames} {GR : GatewayReads} {W : Type} {CR : ControllerRuntime W} {RT : Retry}
  {ML : ManagerLib W}.

Definition NewProvider : kube W string unit :=
  do! ok := kdo GetConfigOrDie in
  if negb ok then klift (Panic FatalExit)
  else
    do! _ := (fun w => failing "failed to create manager: " (NewManager w mgrOpts)) in
    do! _ := (fun w => failing "add healthz check: " (AddHealthzCheck w "healthz")) in
    do! _ := (fun w => failing "add readyz check: " (AddReadyzCheck w "cache-sync" cache_sync_check)) in
    fun w =>
      match NewGatewayAPIReconciler w with
      | (Ret _, w) => (Ret tt, w)
      | (Err err, w) => (Err ("create gateway api reconciler: " +:+ err)%string, w)
      | (Panic p, w) => (Panic p, w)
      end.

(** A provider exists only when the manager and both checks were accepted and
    the reconciler watches its resources, in this order. *)
Lemma NewProvider_ret w w' :
  NewProvider w = (Ret tt, w') ->
  exists w0 w1 w2 w3 r,
    GetConfigOrDie w = (true, w0) /\ NewManager w0 mgrOpts = (None, w1) /\
    AddHealthzCheck w1 "healthz" = (None, w2) /\
    AddReadyzCheck w2 "cache-sync" cache_sync_check = (None, w3) /\
    NewGatewayAPIReconciler w3 = (Ret r, w').
Proof.
  intros (ok & w0 & H0 & H)%kbind_inv. unfold kdo in H0. destruct (GetConfigOrDie w) as [b ?] eqn:Hc.
  injection H0 as -> ->. destruct ok; [|done]. cbn [negb] in H.
  apply kbind_inv in H as (? & w1 & H1 & H). apply kbind_inv in H as (? & w2 & H2 & H).
  apply kbind_inv in H as (? & w3 & H3 & H). unfold failing in *.
  destruct (NewManager w0 mgrOpts) as [[]?] eqn:E1; [done|].
  destruct (AddHealthzCheck w1 "healthz") as [[]?] eqn:E2; [done|].
  destruct (AddReadyzCheck w2 "cache-sync" cache_sync_check) as [[]?] eqn:E3; [done|].
  simplify_eq. destruct (NewGatewayAPIReconciler w3) as [[r|?|?] ?] eqn:E4; simplify_eq.
  by exists w0, w1, w2, w3, r.
Qed.

End Provider.

(** ** Start *)

(** [None] is a nil error. *)
Definition go_error : Type := option string.

(** The goroutine: in [mgr.Start], blocked in its send, and done. *)
Inductive runner := Managing | Sending (e : go_error) | RunnerDone (e : go_error).

(** [Provider.Start]: in its select, and returned from either case. *)
Inductive main := Selecting | ReturnedCancelled | ReturnedError (e : go_error).

Record provider := { pv_main : main; pv_runner : runner; ctx_done : bool }.

Definition start_provider (done : bool) : provider :=
  {| pv_main := Selecting; pv_runner := Managing; ctx_done := done |}.

Inductive provider_step : provider -> provider -> Prop :=
| StepCancel m r : provider_step {| pv_main := m; pv_runner := r; ctx_done := false |}
                                 {| pv_main := m; pv_runner := r; ctx_done := true |}
| StepManagerEnds m e d : provider_step {| pv_main := m; pv_runner := Managing; ctx_done := d |}
                                        {| pv_main := m; pv_runner := Sending e; ctx_done := d |}
| StepHandOver e d : provider_step {| pv_main := Selecting; pv_runner := Sending e; ctx_done := d |}
                                   {| pv_main := ReturnedError e; pv_runner := RunnerDone e; ctx_done := d |}
| StepContext r : provider_step {| pv_main := Selecting; pv_runner := r; ctx_done := true |}
                                {| pv_main := ReturnedCancelled; pv_runner := r; ctx_done := true |}.

(** What every reachable state satisfies. *)
Definition handed (p : provider) : Prop :=
  match pv_main p with
  | ReturnedError e => pv_runner p = RunnerDone e
  | Selecting => forall e, pv_runner p <> RunnerDone e
  | ReturnedCancelled => ctx_done p = true /\ forall e, pv_runner p <> RunnerDone e
  end.

Lemma handed_step p p' : provider_step p p' -> handed p -> handed p'.
Proof. destruct 1; unfold handed; cbn; try destruct m; naive_solver. Qed.

Lemma handed_reachable p p' : rtc provider_step p p' -> handed p -> handed p'.
Proof. induction 1; [done|]. eauto using handed_step. Qed.

Lemma cancelled_stays p p' :
  rtc provider_step p p' -> pv_main p = ReturnedCancelled -> pv_main p' = ReturnedCancelled.
Proof. induction 1 as [|p1 p2 p3 Hs _ IH]; [done|]. intros Hm. apply IH. destruct Hs; cbn in *; congruence. Qed.

(** C20: how the provider ends, over every interleaving of the signal, the manager
    and the hand-over.  Start returns an error exactly when it is the manager's,
    and the goroutine has ended then; it returns nil on cancellation only, and
    then the goroutine never ends: it goes on running the manager or blocks in
    its send for good, and the manager's error is lost.  Until it returns, it can
    return. *)
Theorem provider_ends (cancelled : bool) p :
  rtc provider_step (start_provider cancelled) p ->
  (forall e, pv_main p = ReturnedError e -> pv_runner p = RunnerDone e) /\
  (pv_main p = ReturnedCancelled ->
     ctx_done p = true /\ forall p', rtc provider_step p p' -> forall e, pv_runner p' <> RunnerDone e) /\
  (pv_main p = Selecting -> exists p' e, rtc provider_step p p' /\ pv_main p' = ReturnedError e).
Proof.
  intros H. assert (handed p) as Hp by (by eapply handed_reachable). unfold handed in Hp. split_and!.
  - intros e He. by rewrite He in Hp.
  - intros Hm. assert (handed p) as Hh by (unfold handed; by rewrite Hm in *). rewrite Hm in Hp.
    split; [apply Hp|]. intros p' Hr e. pose proof (cancelled_stays p p' Hr Hm) as Hm'.
    pose proof (handed_reachable p p' Hr Hh) as Hp'. unfold handed in Hp'. rewrite Hm' in Hp'. by apply Hp'.
  - intros Hm. destruct p as [m r d]. cbn in *. subst m. destruct r as [|e|e].
    + exists {| pv_main := ReturnedError None; pv_runner := RunnerDone None; ctx_done := d |}, None. split; [|done].
      eapply rtc_l; [apply StepManagerEnds|]. apply rtc_once, StepHandOver.
    + exists {| pv_main := ReturnedError e; pv_runner := RunnerDone e; ctx_done := d |}, e. split; [|done].
      apply rtc_once, StepHandOver.
    + by destruct (Hp e).
Qed.

(** A run that is cancelled while the manager is stopping. *)
Lemma provider_ends_witness :
  exists p, rtc provider_step (start_provider false) p /\ pv_main p = ReturnedCancelled /\
    forall p', rtc provider_step p p' -> forall e, pv_runner p' <> RunnerDone e.
Proof.
  exists {| pv_main := ReturnedCancelled; pv_runner := Sending (Some "shutdown"%string); ctx_done := true |}.
  assert (rtc provider_step (start_provider false)
    {| pv_main := ReturnedCancelled; pv_runner := Sending (Some "shutdown"%string); ctx_done := true |}) as H.
  { eapply rtc_l; [apply StepCancel|]. eapply rtc_l; [apply StepManagerEnds|]. apply rtc_once, StepContext. }
  split; [exact H|]. split; [done|]. by apply (provider_ends false _ H).
Defined.
