(* ===== verification/EgPolicies.v ===== *)
(** * EgPolicies: from EnvoyExtensionPolicies to external processors

    pkg/envoygateway/gatewayapi/envoyextensionpolicy.go and backend.go: the order
    in which the policies are visited, the processors that are built from one and
    the back ends of a processor, up to the configuration of the filter
    (EgExtProc).  Drafts: the functions do not pass their arguments on, and the
    name, the authority and the settings of a service come from names that no
    file declares; they are parameters. *)

From S2P Require Import Prelude GoStd EgMessage EgExtProc.

(** ** Visiting the policies *)

Section Visit.

(** The targets of one policy of the given kind. *)
Definition targets_of (kind : string) (policy : EnvoyExtensionPolicy) : list TargetRef :=
  filter (fun t => tr_Kind t = kind) (eep_TargetRefs policy).

(** The calls of the two loops, each with its policy and target: those for
    routes, then those for gateways. *)
Definition visit (kind : string) (policies : list EnvoyExtensionPolicy) : list (EnvoyExtensionPolicy * TargetRef) :=
  concat (map (fun p => map (pair p) (targets_of kind p)) policies).

Definition ProcessEnvoyExtensionPolicies (policies : list EnvoyExtensionPolicy)
    : list (EnvoyExtensionPolicy * TargetRef) :=
  visit KindHTTPRoute policies ++ visit KindGateway policies.

Lemma elem_of_visit kind policies p t :
  (p, t) ∈ visit kind policies <-> p ∈ policies /\ t ∈ eep_TargetRefs p /\ tr_Kind t = kind.
Proof.
  unfold visit, targets_of. rewrite list_elem_of_In, in_concat. split.
  - intros (l & (q & <- & Hq)%in_map_iff & Hx). apply in_map_iff in Hx as (u & [= <- <-] & Hu).
    apply list_elem_of_In in Hu, Hq. apply list_elem_of_filter in Hu as [??]. done.
  - intros (Hp & Ht & Hk). eexists. split; [apply in_map_iff; exists p; split; [done|by apply list_elem_of_In]|].
    apply in_map_iff. exists t. split; [done|]. apply list_elem_of_In, list_elem_of_filter. done.
Qed.

(** Exactly the route and gateway targets are processed, and no gateway before a
    route. *)
Lemma policies_visited policies :
  (forall p t, (p, t) ∈ ProcessEnvoyExtensionPolicies policies <->
     p ∈ policies /\ t ∈ eep_TargetRefs p /\ (tr_Kind t = KindHTTPRoute \/ tr_Kind t = KindGateway)) /\
  (forall i j a b, ProcessEnvoyExtensionPolicies policies !! i = Some a ->
     ProcessEnvoyExtensionPolicies policies !! j = Some b ->
     tr_Kind a.2 = KindGateway -> tr_Kind b.2 = KindHTTPRoute -> (j < i)%nat).
Proof.
  unfold ProcessEnvoyExtensionPolicies. split.
  - intros p t. rewrite elem_of_app, !elem_of_visit. naive_solver.
  - intros i j a b Ha Hb Hka Hkb.
    apply lookup_app_Some in Ha as [Ha|[Hi Ha]].
    { apply list_elem_of_lookup_2 in Ha. destruct a. apply elem_of_visit in Ha as (_ & _ & Hk). cbn in Hka. by rewrite Hk in Hka. }
    apply lookup_app_Some in Hb as [Hb|[Hj Hb]]; [apply lookup_lt_Some in Hb; lia|].
    apply list_elem_of_lookup_2 in Hb. destruct b. apply elem_of_visit in Hb as (_ & _ & Hk). cbn in Hkb. by rewrite Hk in Hkb.
Qed.
End Visit.

(** ** Back ends *)

(** ir.DestinationSetting and ir.RouteDestination. *)
Record DestinationSetting := { ds_Name : string; ds_Endpoints : list string }.
Record RouteDestination := { rd_Name : string; rd_Settings : list (option DestinationSetting) }.

(** A back end of a processor: its kind and its name. *)
Record ExtBackend := { xb_Kind : option string; xb_Name : string }.
Record ExtProcSpec := {
  xs_BackendRefs : list ExtBackend;
  xs_RequestHeader : bool; xs_RequestBody : option string;
  xs_ResponseHeader : bool; xs_ResponseBody : option string
}.

Section Build.
Context {BM : BodyModes}.
Variable KindBackend : string.
(** The undeclared functions and names. *)
Variable processServiceDestinationSetting : ExtBackend -> string + DestinationSetting.
Variable ext_name : ExtProcSpec -> string.
Variable ext_authority : ExtProcSpec -> string.

(** Only services are resolved; the error of a service is returned as nil with
    the setting it came with, and the other kinds are nil too. *)
Definition processExtServiceDestination (backendRef : ExtBackend) : option DestinationSetting :=
  switch (default KindService (xb_Kind backendRef))
    [(KindService, match processServiceDestinationSetting backendRef with inr d => Some d | inl _ => None end);
     (KindServiceImport, None); (KindBackend, None)] None.

(** The settings are collected and dropped: the destination is the zero value. *)
Definition translateExtServiceBackendRefs (extProc : ExtProcSpec) : string + RouteDestination :=
  let ds := map processExtServiceDestination (xs_BackendRefs extProc) in
  inr {| rd_Name := ""; rd_Settings := [] |}.

(** The processing modes are not set. *)
Definition buildExtProc (extProc : ExtProcSpec) : string + (ExtProc * RouteDestination) :=
  match translateExtServiceBackendRefs extProc with
  | inl err => inl err
  | inr routeDestination =>
      inr ({| xp_Name := ext_name extProc; xp_Authority := ext_authority extProc;
              xp_DestinationName := rd_Name routeDestination;
              RequestHeaderProcessing := false; RequestBodyProcessingMode := None;
              ResponseHeaderProcessing := false; ResponseBodyProcessingMode := None |}, routeDestination)
  end.

(** A processor that cannot be built is skipped. *)
Definition buildExtProcs (specs : list ExtProcSpec) : list (ExtProc * RouteDestination) :=
  omap (fun s => match buildExtProc s with inr p => Some p | inl _ => None end) specs.

(** A policy's processors do nothing.  Each processor of a policy gets its
    filter, in order and under its name, but the filter's gRPC service is the
    empty cluster and its mode sends neither headers, nor bodies, nor trailers,
    whatever back ends and modes the policy asks for: its settings are dropped
    and its modes never read. *)
Theorem policy_processors_inert (specs : list ExtProcSpec) :
  map (fun p => xp_Name p.1) (buildExtProcs specs) = map ext_name specs /\
  forall p, p ∈ buildExtProcs specs ->
    rd_Settings p.2 = [] /\ ClusterName (extProcConfig p.1) = ""%string /\
    processingMode (extProcConfig p.1) =
      {| RequestHeaderMode := SKIP; ResponseHeaderMode := SKIP; RequestBodyMode := NONE; ResponseBodyMode := NONE;
         RequestTrailerMode := SKIP; ResponseTrailerMode := SKIP |}.
Proof.
  split.
  - induction specs as [|s specs IH]; [done|]. cbn. by rewrite <- IH.
  - intros p Hp. apply list_elem_of_omap in Hp as (s & _ & Hs). cbn in Hs. injection Hs as <-. done.
Qed.

(** The kinds of back ends. *)
Lemma backend_kinds b :
  KindBackend <> KindService ->
  (xb_Kind b = Some KindBackend \/ xb_Kind b = Some KindServiceImport -> processExtServiceDestination b = None) /\
  (xb_Kind b = None -> processExtServiceDestination b =
     match processServiceDestinationSetting b with inr d => Some d | inl _ => None end).
Proof.
  intros Hk. unfold processExtServiceDestination. split.
  - intros [->| ->]; cbn; [|done]. rewrite decide_False by done. by repeat case_decide.
  - intros ->. by cbn.
Qed.
End Build.
