(* ===== verification/EgPipeline.v ===== *)
(** * EgPipeline: the Envoy gateway from the cluster to the snapshots

    pkg/envoygateway put together: the provider's view (EgProvider) is stored in
    the provider resources, whose subscriber, the Gateway API translator
    (gatewayapi/translator.go, EgTranslate), publishes the IRs; their subscribers
    are the xDS server (EgCache) and the infrastructure manager (EgInfra).  The
    watchable maps are their subscriptions (EgMessage). *)

From S2P Require Import Prelude GoStd K8s EgMessage EgProvider EgProviderSpec EgTranslate EgCache EgInfra.

Local Open Scope Z_scope.

(** ** The translator *)

Section Translator.
Variable NewXds : Xds.
Variable ProcessEnvoyExtensionPolicies : list EnvoyExtensionPolicy.
Context {MI : MapIter}.

(** With what a subscription to its provider resources will deliver; [None] is the
    nil pointer. *)
Record Translator := { ProviderResources : option (list (Snapshot (option (list GatewayAPIResource)))) }.

(** The provider resources are no argument of the constructor. *)
Definition NewTranslator : Translator := {| ProviderResources := None |}.

Definition handle_update (st : outcome string published) (update : Update (option (list GatewayAPIResource)))
    : outcome string published :=
  let* p := st in handle_resources NewXds ProcessEnvoyExtensionPolicies p update.

(** The maps it has published to once the subscription is handled. *)
Definition Translator_Start (translator : Translator) (p : published) : outcome string published :=
  let* sub := deref (ProviderResources translator) in
  HandleSubscription handle_update sub (Ret p).

(** The translator that the constructor makes cannot be started. *)
Lemma NewTranslator_panics p : Translator_Start NewTranslator p = Panic NilDereference.
Proof. done. Qed.

(** Handling stops at the first panic. *)
Lemma handle_update_app us u st P :
  foldl handle_update st (us ++ [u]) = Ret P ->
  exists p, foldl handle_update st us = Ret p /\ handle_resources NewXds ProcessEnvoyExtensionPolicies p u = Ret P.
Proof. rewrite foldl_app. cbn [foldl]. intros (p & Hp & Hu)%obind_ret_inv. by exists p. Qed.

End Translator.

(** A subscription that deletes only leaves nothing. *)
Lemma deletes_leave_nothing {V} (us : list (Update V)) :
  Forall (fun u => u_Delete u = true) us -> foldl apply_update ∅ us = ∅.
Proof.
  induction 1 as [|u us Hu _ IH]; [done|]. cbn [foldl]. unfold apply_update at 2. rewrite Hu.
  by rewrite delete_empty.
Qed.

Section Pipeline.
Context {MI : MapIter} {NM : GatewayNames} {GR : GatewayReads} {IX : IndexedReads}.
Context {R : Type} {SL : SnapshotLib R} {LL : SnapshotLaws SL}.
Context {EP : EnvoyProxyLib} {RD : RenderDraft} {W : Type} {API : InfraApi W}.
Variable NewXds : Xds.
Variable ProcessEnvoyExtensionPolicies : list EnvoyExtensionPolicy.
(** The xDS translation, which is a draft: whatever it gives or refuses. *)
Variable TranslateXds : Xds -> string + ResourceVersionTable (R := R).

(** C8: the Envoy gateway, from the cluster to the snapshots.  Let the translator
    handle a subscription to the provider's resources whose last update is the
    view that a reconciliation stored, and let the xDS server and the
    infrastructure manager subscribe to what it has published then.  Then for
    every gateway of an accepted class of this controller (whether or not its
    listeners are in order), the last update that the xDS server handles for its
    namespaced name is its IR, with the patches of exactly the policies that
    target it; the cache then has a snapshot with the resources of the
    translation of this IR, provided the translation succeeds with resource types
    that go-control-plane knows, and what it had before that update otherwise;
    and as soon as there is such a gateway the infrastructure manager panics,
    which ends the process. *)
Theorem gateways_reach_snapshots r classes m view sub us p P xfirst xrest ifirst irest (w : W)
    (Hclasses : list_classes = (None, classes)) (Hunique : NoDup (gc_Name <$> classes))
    (Hview : (Reconcile r m).2 !! GatewayClassController = Some view)
    (Hsub : handled sub = us ++ [{| u_Key := GatewayClassController; u_Delete := false; u_Value := Some view |}])
    (Hstart : Translator_Start NewXds ProcessEnvoyExtensionPolicies {| ProviderResources := Some sub |} p = Ret P)
    (Hx : follows (s_State xfirst) xrest) (Hxlast : last_state (xfirst :: xrest) = pub_XdsIR P)
    (Hi : follows (s_State ifirst) irest) (Hilast : last_state (ifirst :: irest) = pub_InfraIR P)
    g class (Hg : g ∈ all_gateways) (Hclass : class ∈ filter (fun c => accepted_class c = true) classes)
    (Hgc : gw_GatewayClassName g = gc_Name class) :
  let policies := if envoyPatchPolicyCRDExists r then list_patch_policies.2 else [] in
  let ir := xds_with NewXds policies g in
  let cache us := foldl (handle_xds TranslateXds) NewSnapshotCache us in
  (exists before after,
     StartXdsServer TranslateXds (xfirst :: xrest)
       = cache (before ++ {| u_Key := gw_key g; u_Delete := false; u_Value := ir |} :: after) /\
     Forall (fun u => u_Key u <> gw_key g) after /\
     match served TranslateXds ir with
     | Some table => exists s, snapshot_of (StartXdsServer TranslateXds (xfirst :: xrest)) (gw_key g) = Some s /\
                       holds table s
     | None => snapshot_of (StartXdsServer TranslateXds (xfirst :: xrest)) (gw_key g)
                 = snapshot_of (cache before) (gw_key g)
     end) /\
  Infra_Start (ifirst :: irest) w = Panic NilDereference.
Proof.
  cbv zeta. set (accepted := filter (fun c => accepted_class c = true) classes) in *.
  assert (view = map (class_resources r) accepted) as ->.
  { unfold Reconcile, ListGatewayClass in Hview. rewrite Hclasses in Hview. fold accepted in Hview.
    destruct accepted; [by apply not_elem_of_nil in Hclass|]. cbn [kdo snd] in Hview.
    rewrite lookup_insert_eq in Hview. by injection Hview as <-. }
  unfold Translator_Start, HandleSubscription in Hstart. cbn [deref obind ProviderResources] in Hstart.
  rewrite Hsub in Hstart. apply handle_update_app in Hstart as (p1 & _ & HP).
  unfold handle_resources in HP. cbn [u_Value] in HP. injection HP as HP.
  assert (published_for NewXds P (if envoyPatchPolicyCRDExists r then list_patch_policies.2 else []) g) as [Hinfra Hxds].
  { assert (NoDup (gc_Name <$> accepted)) as Hda by by apply nodup_filter_keys.
    destruct (publish_all NewXds ProcessEnvoyExtensionPolicies _ p1 (class_gateways_unique r accepted Hda)) as [H1 _].
    destruct (class_view r class) as (_ & Hv & _ & _ & _ & Hp).
    rewrite <- Hp, <- HP. apply H1; [by apply list_elem_of_fmap_2|]. rewrite Hv. by apply list_elem_of_filter. }
  split.
  - pose proof (handle_all_shows TranslateXds (handled (xfirst :: xrest)) (gw_key g)) as Hsh.
    rewrite handled_replay, Hxlast, Hxds in Hsh by done.
    destruct Hsh as (before & [k d x] & after & E & H1 & H2 & H3 & H4 & H5). cbn in H1, H2, H3. subst k d x.
    exists before, after. unfold StartXdsServer, HandleSubscription. by rewrite <- E.
  - rewrite infra_never_written. apply decide_True.
    destruct (decide (Forall (fun u => u_Delete u = true) (handled (ifirst :: irest)))) as [Hdel|Hdel].
    + rewrite <- Hilast, <- (handled_replay ifirst irest), deletes_leave_nothing, lookup_empty in Hinfra by done. done.
    + apply not_Forall_Exists in Hdel; [|solve_decision]. eapply Exists_impl; [exact Hdel|].
      intros u Hu. cbn in Hu. by destruct (u_Delete u).
Qed.

End Pipeline.

(** ** The cluster of EgProviderSpec, served *)

#[local] Existing Instances example_names example_reads example_indexed map_cache map_cache_laws.

#[local] Instance example_envoy_proxy : EnvoyProxyLib :=
  {| zero_EnvoyProxy := ""; provider_Type _ := ProviderTypeKubernetes; provider_Kubernetes _ := None;
     proxy_log_level _ := "warn"; ExtraArgs _ := [] |}%string.

#[local] Instance example_render : RenderDraft :=
  {| proxyImage := "envoy"; proxy_args := []; proxy_env := []; proxy_resources := ""; proxy_ports := [];
     shutdown_image := "shutdown"; shutdown_args := []; shutdown_env := []; shutdown_resources := "";
     shutdown_prestop := []; render_Namespace := "infra"; render_Name := "envoy"; render_ownerReferences := [];
     render_serviceAccountName := "envoy"; render_labels := ∅; render_annotations := ∅; template_labels := ∅;
     template_annotations := ∅; serviceCluster := "c"; serviceNode := "n"; GetRenderBootstrapConfig := inr ""%string |}%string.

#[local] Instance example_api : InfraApi nat :=
  {| get_deployment _ _ _ := inl NotFound; patch_apply n _ := (None, S n) |}.

Definition example_flags : GatewayAPIReconciler :=
  {| envoyExtensionPolicyCRDExists := false; envoyPatchPolicyCRDExists := true |}.

Definition example_view : list GatewayAPIResource :=
  [class_resources example_flags (example_class "eg" GatewayClassController)].

Definition example_sub : list (Snapshot (option (list GatewayAPIResource))) :=
  [{| s_State := {[GatewayClassController := Some example_view]}; s_Updates := [] |}].

Definition example_published : published :=
  match Translator_Start example_new_xds [] {| ProviderResources := Some example_sub |} stale with
  | Ret p => p
  | _ => stale
  end.

Definition example_resources (x : Xds) : gmap string (list string) :=
  {["patches"%string := map ipp_Name (xds_EnvoyPatchPolicies x)]}.

Definition example_translation (x : Xds) : string + ResourceVersionTable (R := string) :=
  inr {| rvt_XdsResources := Some (example_resources x) |}.

Lemma gateways_reach_snapshots_witness :
  (exists s, snapshot_of (StartXdsServer example_translation
     [{| s_State := pub_XdsIR example_published; s_Updates := [] |}]) "infra/a"%string = Some s /\
     holds (example_resources (xds_with example_new_xds list_patch_policies.2 (example_gateway "a" "eg"))) s) /\
  Infra_Start [{| s_State := pub_InfraIR example_published; s_Updates := [] |}] 0%nat = Panic NilDereference.
Proof.
  destruct (gateways_reach_snapshots (GR := example_reads) (IX := example_indexed) (W := nat) example_new_xds []
    example_translation example_flags example_classes ∅ example_view example_sub [] stale example_published
    {| s_State := pub_XdsIR example_published; s_Updates := [] |} []
    {| s_State := pub_InfraIR example_published; s_Updates := [] |} [] 0%nat eq_refl) with
    (g := example_gateway "a" "eg") (class := example_class "eg" GatewayClassController)
    as [(before & after & _ & _ & Hs) Hw].
  - by apply (bool_decide_unpack _); vm_compute.
  - by vm_compute.
  - by vm_compute.
  - by vm_compute.
  - done.
  - done.
  - done.
  - done.
  - by apply (bool_decide_unpack _); vm_compute.
  - by apply (bool_decide_unpack _); vm_compute.
  - done.
  - split; [exact Hs|exact Hw].
Defined.
